(* ===== verification/_CoqProject ===== *)
-Q . S2P
Prelude.v
Stateful.v
Memory.v
Utils.v
Text.v
Name.v
DnsHeader.v
DnsQuestion.v
DnsAnswer.v
WireFormat.v
DnsRequestPacket.v
DnsResponsePacket.v
Comparison.v
Overloads.v
DnsCache.v
DnsResponse.v
ResponseFacts.v
SampleJson.v
WholeResponses.v
ResponseSafety.v
Doh.v
Regex.v
DnsParser.v
ReverseIp.v
LocalDns.v
SampleRegex.v
LocalFacts.v
LocalChains.v
ConfigParser.v
SampleConfig.v
ConfigFacts.v
Config.v
Getters.v
Main.v
Printing.v
Server.v
ServerFacts.v
CachedAnswers.v
Asio.v
UdpServer.v
TcpServer.v
DohHandles.v
Platform.v
ProcessList.v
ZoneAnswers.v
ZoneLimits.v
ServedAnswers.v
Relay.v
