(* ===== verification/Prelude.v ===== *)
(** * Chukei DNS: a verification library for the DNS relay under src/

    Chukei DNS is a small DNS server.  It answers queries over UDP and TCP from a zone file,
    from a cache of earlier responses, or by relaying them to DNS-over-HTTPS resolvers.  This
    library translates its C++ sources into Rocq definitions that can be evaluated, and
    proves what makes them correct.

    ** How the program is put together

    - [main] (src/src/main-pc.cc, src/src/main-ps.cc) reads options and sets up the global
      [Config] (src/src/config.cc), which loads the zones through [ConfigParser]
      (src/src/config_parser.cc), and starts the two servers.
    - [UdpServer], [TcpServer] and [TcpSession] (src/src/udp_server.cc, src/src/tcp_server.cc)
      run on one event loop; they receive, accept and send, and make new sockets after
      errors.  For each query they parse it
      with [DnsParser], answer EDNS0 errors and unknown opcodes themselves, and otherwise ask
      [LocalDns] (src/src/local_dns.cc), then [DnsCache], then [DnsOverHttps].
    - [DnsResponse] writes the relay's own responses, byte by byte.
    - [DnsRequestPacket], [DnsResponsePacket], [DnsHeader], [DnsQuestion] and [DnsAnswer]
      (src/src/dns_packet*.cc) parse and serialize packets.

    ** Conventions

    A computation is an [outcome]: a value, an exception, undefined behaviour, a failed
    assertion ([Aborted]), or fuel that ran out; code that changes shared state and may throw is [stateful], its changes before an
    exception stay.  Raw pointers are byte lists, and an access outside them is [Undef].
    Unsigned integers are [Z] at their width, with wrap-around written out ([u8], [u16],
    [u32], [u64]).  Members in network byte order are kept so.  The target of the build is a
    parameter (class [Target]): its endianness, and whether the assertions of <cassert> are
    compiled in; each [assert] of the sources is an [assert_], and the theorems hold for Debug
    and Release builds alike.  Definitions have the names of the functions and members they
    translate; an out parameter is part of the result.  Loops that are bounded by the code
    are structural; the others take fuel, and the theorems say which fuel is enough: the name
    parsers' fuel is derived from the packet's size and the 16 pointer hops the code
    allows ([Name.parse_measure_fuel], [DnsCache.SkipDnsName]), the string loops' from
    the string's length ([Text.find_loop_split], [Config.mask_loop_expand]), the transfers' from
    libcurl's clock and time limit (class [CurlProgress], [Doh.Resolve_terminates]), the loop
    that ends other processes from how long the kernel takes to remove a killed one
    ([KernelLaws]).

    ** The files

    - [Prelude], [Stateful], [Memory], [Utils], [Text]: outcomes, state, bytes, buffers, byte
      order (src/include/utils.h, src/src/utils.cc), strings and numbers in text.
    - [Name]: labels and compressed names, shared by questions and records.  [ParseDomainName]
      is equivalent to the relation [name_at], which says what RFC 1035 makes of a packet.
    - [DnsHeader], [DnsQuestion], [DnsAnswer]: each with its RFC 1035 layout as abstract
      specification; parser and serializer refine it and are inverse to each other; the
      packed flag word implements independent fields.
    - [WireFormat]: the interface (classes [WireFormat], [WireLaws]) by which the packets read
      and write their sections; [DnsRequestPacket] with EDNS0 as a state machine over
      the additional section; [DnsResponsePacket] with its counts' invariant.  [Comparison]:
      the comparison operators and hashes of all five classes as containers use them;
      [Overloads]: their constructors from arrays.
    - [DnsCache]: lookup, insertion, eviction and ageing, with the cache's invariant over
      all sequences of operations.
    - [DnsResponse], [ResponseFacts], [WholeResponses], [ResponseSafety]: the responses the relay
      writes itself; what the packet parser reads from them; for which zone data they
      succeed; that they are safe for any zone data.
    - [Regex], [DnsParser]: the two fixed patterns as a backtracking matcher, and the query
      parser that splits names with them.
    - [ReverseIp], [LocalDns], [LocalFacts], [LocalChains]: reverse lookups, the search of the
      zones, chains of aliases, the cache of compiled patterns as a state.
    - [ConfigParser], [ConfigFacts]: the zone file, grouped and optimized, described by what
      stands under a zone, a type and a subdomain.  [Config]: the settings and their
      invariant.  [Main]: the programs' options, and what they start.  [Getters]: the
      accessors that only copy a member.  [Printing]: the stream operators, the packet dump,
      the help text and the banner.
    - [Doh]: the client over an abstract libcurl; its write callback, failover, time budget.
    - [ZoneAnswers], [ZoneLimits]: from the zone file to the wire, across [ConfigParser],
      [LocalDns] and [DnsResponse], and what does not get there.  [ServedAnswers]: the same
      across the servers, with what they append and truncate.
    - [DohHandles]: the resources of libcurl a client owns, and their moves and release.
    - [Server], [ServerFacts]: the handlers, composed of all of the above over one state.
      [CachedAnswers]: two queries for one name over the resolvers and the cache.
    - [Asio], [UdpServer], [TcpServer]: the servers' life as transition relations, whose steps
      are the completions of asynchronous operations (class [Asio]) and the handlers in the
      event loop's queue.  [Relay]: both servers over one loop, the signal, the exit code.
    - [Platform], [ProcessList]: names and versions of the platforms for the user agent
      (src/src/utils.cc), and how the console build ends other instances of the program
      (src/src/main-ps.cc).
    - [SampleJson], [SampleRegex], [SampleConfig]: concrete instances of the interfaces, on which
      the witnesses evaluate.

    ** What the theorems show

    - Safety: no input makes a parser, a response function or a handler read out of bounds,
      run forever or throw past its handler ([ParseDomainName_spec], [request_FromWire_safe],
      [parser_construct_spec], [datagram_answered]).  The parser of responses can fail one
      assertion, in a build that has it: when the data of a record, written out without
      compression, is longer than 65535 bytes ([answer_FromWire_spec],
      [response_FromWire_spec]).  The relay itself parses requests only.
    - Liveness: a datagram of 12 to 512 bytes gets one message that carries its identifier,
      unless a resolver's answer is relayed or zone data is bad ([datagram_answered]); the
      answer goes to its sender ([udp_answers_sender]); a TCP session answers its queries in
      order ([tcp_session_answered]), however the sessions interleave ([tcp_sessions]).
    - State machines: in every reachable state a running server listens or is about to, and
      a stopped one comes to rest ([udp_alive], [tcp_alive]); the program serves on both
      transports until a signal, except that continuing a TCP message the system did not take
      whole is undefined ([relay_serves]); libcurl's handles are owned once, used
      while they live, and released once ([handles_owned]).
    - End to end: what the zone file lists under a name and a type is what a client of that
      name and type gets, over either transport, as a message the packet parser reads back
      with the records, the EDNS0 record and the TC bit the servers add ([zone_file_served]);
      the aliases on the way ([aliases_answered]); what the documented format allows but no
      client gets ([zone_file_limits]).  What a resolver answered is relayed to the first
      client unchanged, and from the cache to the next one, with its own identifier and
      reduced TTLs, without asking a resolver again, while the cache has room
      ([relayed_once]); a full cache drops what has expired, and what was stored first when
      nothing has ([Insert_spec]).
    - Comparison: equality, order and hash of headers, questions, records and packets are an
      equivalence, a strict total order and a function of each other's classes
      ([comparison_laws]); what is printed of a header, question or record determines its
      fields, whatever its name ([printed_fields]).
    - Refinement of the RFC layouts, round trips, invariants of the cache, of the configuration
      and of the pattern cache, equivalence of the relay's own writers and scanners with the
      packet classes ([ExtractMinTtl_response], [MultiAnswer_response],
      [CallResponseFunction_MultiAnswer]).
    - Set-up: zone files become grouped, binary zones or are rejected; the programs start the
      servers only with a valid configuration ([NormalizeZones_spec],
      [ValidateAndOptimize_spec], [Initialize_spec], [config_reachable], [programs_start]);
      versions are decoded and printed as documented ([platform_names]); the console build
      ends other instances and spares itself ([process_list]).

    ** Parameters

    Code that is not part of the sources is an interface with its documented laws: JSON
    values ([Json], [JsonZones], [JsonBuild], [JsonNumbers]), [std::regex] on patterns from the
    zone file ([RegexEngine], [RegexLiteral]), libcurl and the clock ([Curl]), the hash table's
    order ([HashOrder]), asio ([Asio]), [inet_pton] ([Inet]), the file system and the JSON parser
    ([Files]), texts from the build ([App]), the platform's queries ([System]) and the console's
    kernel ([Kernel]).  Time readings, the random order of resolvers, the results of system
    calls and allocation failures are arguments.

    ** Not modelled

    How the logger shows a line, and the log lines that operations write on the way (the
    response logger's walk over untrusted bytes, the packet dump and the programs' texts are
    modelled): they change nothing.  The texts of exceptions.  Threads: both programs run
    their event loop in one thread, so handlers run one after the other; the mutexes of the
    pattern cache and of libcurl's initialization are never contended.  Options for
    libcurl that are constant, and the embedded certificates.  Iterators over labels
    and records, which are those of the vectors; free [swap] functions and [std::hash]
    specializations, which call the member functions.  Build templates, which hold no logic. *)

From Stdlib Require Import ZArith Lia ZifyBool.
From Stdlib Require Import Strings.Byte Strings.String.
From stdpp Require Import base numbers list option gmap.

Declare Scope dns_scope.
Delimit Scope dns_scope with dns.

(** ** Outcomes of C++ code *)

(** The exceptions the sources throw or catch. *)
Inductive exn : Type :=
  | InvalidArgument
  | OutOfRange
  | RuntimeError
  | RegexError
  | JsonError.

(** A C++ computation either returns, throws, executes undefined behaviour (an
    access outside the bytes it was given, an erased [end()] iterator, ...),
    has not finished within the fuel of its model, or is stopped by an [assert]
    that does not hold ([std::abort]). *)
Inductive outcome (A : Type) : Type :=
  | Done (a : A)
  | Throw (e : exn)
  | Undef
  | Unfinished
  | Aborted.

Arguments Done {_} _.
Arguments Throw {_} _.
Arguments Undef {_}.
Arguments Unfinished {_}.
Arguments Aborted {_}.

Definition outcome_bind {A B : Type} (f : A → outcome B) (m : outcome A) : outcome B :=
  match m with
  | Done a => f a
  | Throw e => Throw e
  | Undef => Undef
  | Unfinished => Unfinished
  | Aborted => Aborted
  end.

#[export] Instance outcome_mret : MRet outcome := @Done.
#[export] Instance outcome_mbind : MBind outcome := @outcome_bind.

#[export] Instance exn_eq_dec : EqDecision exn.
Proof. solve_decision. Defined.

#[export] Instance outcome_eq_dec {A} `{EqDecision A} : EqDecision (outcome A).
Proof. solve_decision. Defined.

(** [returns m]: the computation returns a value, so it neither throws, nor
    runs out of fuel, nor aborts, nor reaches undefined behaviour. *)
Definition returns {A : Type} (m : outcome A) : Prop := ∃ a, m = Done a.

(** [try_catch m h]: a C++ [try] block whose handler catches every exception. *)
Definition try_catch {A : Type} (m : outcome A) (h : exn → outcome A) : outcome A :=
  match m with Throw e => h e | _ => m end.

Section outcome.
  Context {A B : Type}.
  Implicit Types (m : outcome A) (f : A → outcome B).

Lemma bind_done a f : (Done a ≫= f) = f a.
Proof. reflexivity. Qed.

Lemma bind_Done_inv m f b :
  m ≫= f = Done b → ∃ a, m = Done a ∧ f a = Done b.
Proof. destruct m; simpl; try discriminate. eauto. Qed.

Lemma returns_Done a : returns (Done a : outcome A).
Proof. by exists a. Qed.

Lemma returns_bind m f :
  returns m → (∀ a, m = Done a → returns (f a)) → returns (m ≫= f).
Proof. intros [a ->] Hf. apply Hf. reflexivity. Qed.
End outcome.

Create HintDb dns.
Create Rewrite HintDb dns.
#[export] Hint Resolve returns_Done : dns.

(** ** Bytes and machine integers *)

Abbreviation byte := Byte.byte.
Abbreviation bytes := (list Byte.byte).

#[export] Instance byte_eq_dec : EqDecision byte := Byte.byte_eq_dec.

#[export] Program Instance byte_countable : Countable byte := inj_countable Byte.to_N Byte.of_N _.
Next Obligation. apply Byte.of_to_N. Qed.

(** [static_cast<uint8_t>(c)]. *)
Definition u8 (b : byte) : Z := Z.of_N (Byte.to_N b).

(** [static_cast<char>(z)]: the low eight bits. *)
Definition ch (z : Z) : byte :=
  match Byte.of_N (Z.to_N (z mod 256)) with Some b => b | None => x00 end.

Definition u16 (z : Z) : Z := (z mod 65536)%Z.
Definition u32 (z : Z) : Z := (z mod 4294967296)%Z.

Definition uint16 (z : Z) : Prop := (0 ≤ z < 65536)%Z.
Definition uint32 (z : Z) : Prop := (0 ≤ z < 4294967296)%Z.

Definition UINT16_MAX : Z := 65535.
Definition UINT32_MAX : Z := 4294967295.

(** Integer to [bool] conversion. *)
Definition tobool (z : Z) : bool := negb (z =? 0)%Z.

(** A string literal as the bytes of the [std::string]. *)
Definition str (s : string) : bytes := String.list_byte_of_string s.

Lemma u8_range b : (0 ≤ u8 b < 256)%Z.
Proof. unfold u8. pose proof (Byte.to_N_bounded b). lia. Qed.

Lemma ch_u8 b : ch (u8 b) = b.
Proof.
  unfold ch. pose proof (u8_range b). rewrite Z.mod_small by lia.
  unfold u8. rewrite N2Z.id, Byte.of_to_N. reflexivity.
Qed.

Lemma u8_ch z : u8 (ch z) = (z mod 256)%Z.
Proof.
  unfold ch, u8. pose proof (Z.mod_pos_bound z 256 ltac:(lia)).
  destruct (Byte.of_N (Z.to_N (z mod 256))) eqn:E.
  - apply Byte.to_of_N in E. rewrite E. lia.
  - apply Byte.of_N_None_iff in E. lia.
Qed.

Lemma u8_ch_small z : (0 ≤ z < 256)%Z → u8 (ch z) = z.
Proof. intros. rewrite u8_ch. by apply Z.mod_small. Qed.

Lemma u8_inj b c : u8 b = u8 c → b = c.
Proof. intros E. rewrite <- (ch_u8 b), <- (ch_u8 c). congruence. Qed.

#[export] Instance u8_Inj : Inj (=) (=) u8.
Proof. exact u8_inj. Qed.

Lemma u8_zero b : u8 b = 0%Z → b = x00.
Proof. intros E. apply u8_inj. rewrite E. reflexivity. Qed.

#[export] Hint Rewrite @ch_u8 @u8_ch : dns.

(** Saturate the context with the range of every byte in sight. *)
Ltac u8_bounds :=
  repeat match goal with
  | |- context [u8 ?b] =>
      lazymatch goal with
      | _ : (0 ≤ u8 b < 256)%Z |- _ => fail
      | _ => pose proof (u8_range b)
      end
  | _ : context [u8 ?b] |- _ =>
      lazymatch goal with
      | _ : (0 ≤ u8 b < 256)%Z |- _ => fail
      | _ => pose proof (u8_range b)
      end
  end.

(** Prove a closed decidable proposition by evaluation. *)
Ltac by_decide := refine (bool_decide_unpack _ _); vm_compute; exact I.

(** Linear arithmetic with byte ranges and [mod]/[div] by constants. *)
Ltac byte_lia := u8_bounds; try unfold u16, u32, UINT16_MAX, UINT32_MAX in *;
  Z.to_euclidean_division_equations; lia.

Lemma u16_range z : (0 ≤ u16 z < 65536)%Z.
Proof. unfold u16. apply Z.mod_pos_bound. lia. Qed.

Lemma u16_small z : (0 ≤ z < 65536)%Z → u16 z = z.
Proof. apply Z.mod_small. Qed.

Lemma u32_range z : (0 ≤ u32 z < 4294967296)%Z.
Proof. unfold u32. apply Z.mod_pos_bound. lia. Qed.

Lemma u32_small z : (0 ≤ z < 4294967296)%Z → u32 z = z.
Proof. apply Z.mod_small. Qed.

(** ** Bit arithmetic *)

Section bits.
Local Open Scope Z_scope.

Lemma testbit_above b k i : 0 ≤ b < 2 ^ k → k ≤ i → Z.testbit b i = false.
Proof.
  intros Hb Hi. destruct (Z.eq_dec b 0) as [->|]; [apply Z.bits_0|].
  apply Z.bits_above_log2; [lia|]. apply Z.log2_lt_pow2; [lia|].
  apply Z.lt_le_trans with (2 ^ k); [lia|]. apply Z.pow_le_mono_r; lia.
Qed.

Lemma lor_shiftl a b k :
  0 ≤ k → 0 ≤ b < 2 ^ k → Z.lor (Z.shiftl a k) b = a * 2 ^ k + b.
Proof.
  intros Hk Hb. rewrite <- Z.shiftl_mul_pow2 by lia.
  assert (E : Z.land (Z.shiftl a k) b = 0).
  { apply Z.bits_inj'. intros i Hi. rewrite Z.land_spec, Z.bits_0, Z.shiftl_spec by lia.
    destruct (Z.ltb_spec i k).
    - by rewrite Z.testbit_neg_r by lia.
    - by rewrite (testbit_above b k i), andb_false_r by lia. }
  by rewrite Z.add_nocarry_lxor, Z.lxor_lor.
Qed.

Lemma land_ones_mod a k : 0 ≤ k → Z.land a (2 ^ k - 1) = a mod 2 ^ k.
Proof. intros. rewrite <- Z.land_ones, Z.ones_equiv by lia. do 2 f_equal. Qed.

Lemma land_255 a : Z.land a 0xFF = a mod 256.
Proof. apply (land_ones_mod a 8). lia. Qed.

(** A single-bit test written as the sources write it. *)
Lemma tobool_bit f k : 0 ≤ k → tobool (Z.land (Z.shiftr f k) 1) = Z.testbit f k.
Proof.
  intros Hk. change 1 with (2 ^ 1 - 1). rewrite land_ones_mod by lia.
  change (2 ^ 1) with 2. rewrite <- Z.bit0_mod, Z.shiftr_spec, Z.add_0_l by lia.
  by destruct (Z.testbit f k).
Qed.

Lemma tobool_mask f k : 0 ≤ k → tobool (Z.land f (2 ^ k)) = Z.testbit f k.
Proof.
  intros Hk. assert (E : Z.land f (2 ^ k) = if Z.testbit f k then 2 ^ k else 0).
  { apply Z.bits_inj'. intros i Hi. rewrite Z.land_spec, Z.pow2_bits_eqb by done.
    destruct (Z.eqb_spec k i) as [<-|Hne].
    - destruct (Z.testbit f k); [by rewrite Z.pow2_bits_true|by rewrite Z.bits_0].
    - rewrite andb_false_r. destruct (Z.testbit f k); [by rewrite Z.pow2_bits_false|by rewrite Z.bits_0]. }
  rewrite E. unfold tobool. destruct (Z.testbit f k); [|done].
  pose proof (Z.pow_pos_nonneg 2 k). by destruct (Z.eqb_spec (2 ^ k) 0); [lia|].
Qed.

(** Two integers of [k] bits are equal when their bits below [k] are. *)
Lemma bits_inj_below a b k :
  0 ≤ a < 2 ^ k → 0 ≤ b < 2 ^ k →
  (∀ i, 0 ≤ i < k → Z.testbit a i = Z.testbit b i) → a = b.
Proof.
  intros Ha Hb E. apply Z.bits_inj'. intros i Hi. destruct (Z.ltb_spec i k).
  - apply E. lia.
  - by rewrite (testbit_above a k i), (testbit_above b k i) by lia.
Qed.

Lemma u16_testbit z i : 0 ≤ i → Z.testbit (u16 z) i = (i <? 16) && Z.testbit z i.
Proof.
  intros Hi. unfold u16. change 65536 with (2 ^ 16).
  destruct (Z.ltb_spec i 16); simpl.
  - by rewrite Z.mod_pow2_bits_low by lia.
  - apply Z.mod_pow2_bits_high. lia.
Qed.

(** A property of all [k]-bit integers, checked by evaluation. *)
Fixpoint forall_bits (k : nat) (P : Z → bool) : bool :=
  match k with
  | O => P 0
  | S k => forall_bits k (λ z, P (2 * z)) && forall_bits k (λ z, P (2 * z + 1))
  end.

Lemma forall_bits_spec k P z :
  forall_bits k P = true → 0 ≤ z < 2 ^ Z.of_nat k → P z = true.
Proof.
  revert P z. induction k as [|k IH]; intros P z HP Hz.
  - replace z with 0 by (simpl in Hz; lia). done.
  - simpl in HP. apply andb_true_iff in HP as [H0 H1].
    rewrite Nat2Z.inj_succ, Z.pow_succ_r in Hz by lia.
    pose proof (Z.div_mod z 2 ltac:(lia)) as E.
    pose proof (Z.mod_pos_bound z 2 ltac:(lia)).
    assert (Hq : 0 ≤ z / 2 < 2 ^ Z.of_nat k) by lia.
    destruct (Z.eq_dec (z mod 2) 0) as [E0|].
    + rewrite E, E0, Z.add_0_r. exact (IH _ _ H0 Hq).
    + rewrite E. replace (z mod 2) with 1 by lia. exact (IH _ _ H1 Hq).
Qed.
End bits.

(** A byte length has its two top bits clear (0b00xxxxxx), set (0b11xxxxxx) or
    is one of the reserved kinds: the tests on [0xC0] the name parsers make. *)
Lemma land_C0 b : (Z.land (u8 b) 0xC0 =? 0xC0)%Z = (192 <=? u8 b)%Z.
Proof. destruct b; reflexivity. Qed.

Lemma land_3F b : (Z.land (u8 b) 0x3F = u8 b mod 64)%Z.
Proof. apply (land_ones_mod _ 6). lia. Qed.

#[export] Hint Rewrite land_C0 land_3F land_255 : dns.

(** ** Segments of a list *)

Section segments.
  Context {A : Type}.
  Implicit Types (a b c d : list A) (n : nat).
Local Open Scope nat_scope.

Lemma drop_app_2 a b c n : n = length a + length b → drop n (a ++ b ++ c) = c.
Proof. intros ->. by rewrite app_assoc, <- length_app, drop_app_length. Qed.

Lemma drop_app_3 a b c d n :
  n = length a + length b + length c → drop n (a ++ b ++ c ++ d) = d.
Proof. intros ->. by rewrite app_assoc, <- length_app, drop_app_2. Qed.

Lemma take_app_2 a b c n : n = length a + length b → take n (a ++ b ++ c) = a ++ b.
Proof. intros ->. by rewrite app_assoc, <- length_app, take_app_length. Qed.

Lemma take_app_3 a b c d n :
  n = length a + length b + length c → take n (a ++ b ++ c ++ d) = a ++ b ++ c.
Proof. intros ->. by rewrite app_assoc, <- length_app, take_app_2, <- app_assoc. Qed.
End segments.

(** ** Lexicographic order *)

(** [std::lexicographical_compare]: the order of strings, and of members
    compared one after the other. *)
Fixpoint lexltb (xs ys : list Z) : bool :=
  match xs, ys with
  | x :: xs, y :: ys => if negb (x =? y)%Z then (x <? y)%Z else lexltb xs ys
  | [], _ :: _ => true
  | _, [] => false
  end.

Section lexltb.
  Implicit Types xs ys zs : list Z.

Lemma lexltb_irrefl xs : lexltb xs xs = false.
Proof. induction xs as [|x xs IH]; simpl; [done|]. by rewrite Z.eqb_refl. Qed.

Lemma lexltb_trans xs ys zs : lexltb xs ys = true → lexltb ys zs = true → lexltb xs zs = true.
Proof.
  revert ys zs. induction xs as [|x xs IH]; intros [|y ys] [|z zs]; simpl; try done.
  destruct (Z.eqb_spec x y), (Z.eqb_spec y z), (Z.eqb_spec x z); simpl; try lia; eauto.
Qed.

Lemma lexltb_total xs ys : lexltb xs ys = true ∨ xs = ys ∨ lexltb ys xs = true.
Proof.
  revert ys. induction xs as [|x xs IH]; intros [|y ys]; simpl; auto.
  destruct (Z.eqb_spec x y), (Z.eqb_spec y x); simpl; try lia. subst.
  destruct (IH ys) as [|[->|]]; auto.
Qed.

Lemma lexltb_single x y : lexltb [x] [y] = (x <? y)%Z.
Proof. simpl. destruct (Z.eqb_spec x y); simpl; lia. Qed.
End lexltb.

(** ** Loops over a container *)

(** A range-based [for] whose body changes a state and may throw. *)
Section loops.
  Context {A S : Type}.
  Implicit Types (f : A → S → outcome S) (l : list A) (s : S).

Fixpoint foldM f l s : outcome S :=
  match l with
  | [] => Done s
  | x :: l => s ← f x s; foldM f l s
  end.

Lemma foldM_app f l l' s : foldM f (l ++ l') s = (s ← foldM f l s; foldM f l' s).
Proof. revert s. induction l as [|x l IH]; intros s; [done|]. cbn [foldM app]. destruct (f x s); simpl; auto. Qed.

Lemma foldM_ext f g l s : (∀ x s, x ∈ l → f x s = g x s) → foldM f l s = foldM g l s.
Proof.
  revert s. induction l as [|x l IH]; intros s Hf; [done|]. cbn [foldM]. rewrite Hf by left.
  destruct (g x s); simpl; [|done..]. apply IH. intros y s' Hy. apply Hf. by right.
Qed.

(** An invariant of a loop, over the elements visited. *)
Lemma foldM_inv f (I : list A → S → Prop) l s :
  I [] s → (∀ done x s, I done s → x ∈ l → ∃ s', f x s = Done s' ∧ I (done ++ [x]) s') →
  ∃ s', foldM f l s = Done s' ∧ I l s'.
Proof.
  intros H0 Hf. enough (Hg : ∀ done s, I done s → ∃ s', foldM f l s = Done s' ∧ I (done ++ l) s') by apply (Hg [] s H0).
  clear H0. induction l as [|x l IH]; intros done s0 Hs; [exists s0; by rewrite app_nil_r|].
  destruct (Hf done x s0 Hs) as (s1 & E & H1); [left|]. cbn [foldM]. rewrite E. simpl.
  destruct (IH (λ d y s' Hd Hy, Hf d y s' Hd (list_elem_of_further _ _ _ Hy)) _ _ H1) as (s2 & E2 & H2).
  exists s2. by rewrite <- app_assoc in H2.
Qed.
End loops.

(** A loop in a loop is a loop over the elements of the inner ones. *)
Lemma foldM_bind {A B S} (g : B → list A) (f : A → S → outcome S) (ls : list B) (s : S) :
  foldM f (ls ≫= g) s = foldM (λ b, foldM f (g b)) ls s.
Proof.
  revert s. induction ls as [|b ls IH]; intros s; [done|]. cbn [mbind list_bind foldM].
  rewrite foldM_app. destruct (foldM f (g b) s); simpl; [apply IH|done..].
Qed.

Lemma foldM_fmap {A B S} (g : B → A) (f : A → S → outcome S) (l : list B) (s : S) :
  foldM f (g <$> l) s = foldM (λ b, f (g b)) l s.
Proof. revert s. induction l as [|b l IH]; intros s; [done|]. cbn [fmap list_fmap foldM]. destruct (f (g b) s); simpl; auto. Qed.
