(* ===== verification/Stateful.v ===== *)
(** * Computations on a state

    Code that changes a state it shares with its caller (a static cache, the caller's
    containers) and may throw: the changes made before an exception stay. *)

From stdpp Require Import base tactics.
From S2P Require Import Prelude.

Definition stateful (S A : Type) : Type := S → outcome A * S.

#[export] Instance stateful_mret {S} : MRet (stateful S) := λ A a s, (Done a, s).

#[export] Instance stateful_mbind {S} : MBind (stateful S) := λ A B f m s,
  match m s with
  | (Done a, s) => f a s
  | (Throw e, s) => (Throw e, s)
  | (Undef, s) => (Undef, s)
  | (Unfinished, s) => (Unfinished, s)
  | (Aborted, s) => (Aborted, s)
  end.

Section stateful.
  Context {S : Type}.

(** A computation that does not touch the state. *)
Definition lift {A} (m : outcome A) : stateful S A := λ s, (m, s).

Definition gets {A} (f : S → A) : stateful S A := λ s, (Done (f s), s).
Definition modify (f : S → S) : stateful S unit := λ s, (Done tt, f s).

(** A [try] block whose handlers catch the exceptions in [P]. *)
Definition catch {A} (P : exn → bool) (m : stateful S A) (h : stateful S A) : stateful S A := λ s,
  match m s with
  | (Throw e, s) => if P e then h s else (Throw e, s)
  | r => r
  end.

Lemma stateful_ret {A} (a : A) (s : S) : (mret a : stateful S A) s = (Done a, s).
Proof. done. Qed.

Lemma stateful_bind_Done {A B} (f : A → stateful S B) (m : stateful S A) s a s' :
  m s = (Done a, s') → (m ≫= f) s = f a s'.
Proof. intros E. unfold mbind, stateful_mbind. by rewrite E. Qed.

Lemma stateful_bind_Throw {A B} (f : A → stateful S B) (m : stateful S A) s e s' :
  m s = (Throw e, s') → (m ≫= f) s = (Throw e, s').
Proof. intros E. unfold mbind, stateful_mbind. by rewrite E. Qed.

Lemma stateful_bind_ext {A B} (f g : A → stateful S B) (m : stateful S A) s :
  (∀ a s, f a s = g a s) → (m ≫= f) s = (m ≫= g) s.
Proof. intros E. unfold mbind, stateful_mbind. destruct (m s) as [[a|e| | |] s']; [apply E|done..]. Qed.

(** What a computation makes of a property of the state, however it ends. *)
Definition keeps {A} (I : S → Prop) (m : stateful S A) (Q : S → Prop) : Prop := ∀ s, I s → Q (m s).2.

Lemma keeps_lift {A} (m : outcome A) (I Q : S → Prop) : (∀ s, I s → Q s) → keeps I (lift m) Q.
Proof. intros HQ s Hs. by apply HQ. Qed.

Lemma keeps_ret {A} (a : A) (I Q : S → Prop) : (∀ s, I s → Q s) → keeps I (mret a) Q.
Proof. intros HQ s Hs. by apply HQ. Qed.

Lemma keeps_pre {A} (m : stateful S A) (I I' Q : S → Prop) : (∀ s, I s → I' s) → keeps I' m Q → keeps I m Q.
Proof. intros HI Hm s Hs. by apply Hm, HI. Qed.

(** The rest of a sequence may not run: what holds before it must be good enough. *)
Lemma keeps_bind {A B} (m : stateful S A) (f : A → stateful S B) (I R Q : S → Prop) :
  keeps I m R → (∀ a, keeps R (f a) Q) → (∀ s, R s → Q s) → keeps I (m ≫= f) Q.
Proof.
  intros Hm Hf HQ s Hs. specialize (Hm s Hs). unfold mbind, stateful_mbind.
  destruct (m s) as [[a|e| | |] s']; [by apply (Hf a)|by apply HQ..].
Qed.

Lemma lift_Done {A B} (f : A → stateful S B) a s : (lift (Done a) ≫= f) s = f a s.
Proof. done. Qed.
End stateful.
