(* ===== verification/Memory.v ===== *)
(** * Byte buffers and the host's integer representation

    Raw pointers of the sources are buffers ([bytes]); a read or write outside
    the buffer is [Undef].  An unsigned integer of [n] bytes is stored in the
    host's byte order, which is a parameter ([Target]), as is whether the program
    is built with its assertions: the theorems of the development hold for little-
    and big-endian hosts, and for Debug and Release builds, alike. *)

From Stdlib Require Import ZArith Lia.
From stdpp Require Import base numbers list option.
From S2P Require Import Prelude.

(** ** Loads and stores *)

Definition load (m : bytes) (i : nat) : outcome byte :=
  match m !! i with Some b => Done b | None => Undef end.

(** [std::copy(m + i, m + i + n, ...)], [std::string(m + i, n)]. *)
Definition load_n (m : bytes) (i n : nat) : outcome bytes :=
  if (i + n <=? length m)%nat then Done (take n (drop i m)) else Undef.

(** The buffer after [bs] has been written at offset [i]. *)
Definition splice (m : bytes) (i : nat) (bs : bytes) : bytes :=
  take i m ++ bs ++ drop (i + length bs) m.

Definition store_n (m : bytes) (i : nat) (bs : bytes) : outcome bytes :=
  if (i + length bs <=? length m)%nat then Done (splice m i bs) else Undef.

Section load_store.
  Implicit Types (m bs : bytes) (i n : nat).

Lemma load_lookup m i : i < length m → ∃ b, load m i = Done b ∧ m !! i = Some b.
Proof.
  intros H. destruct (lookup_lt_is_Some_2 m i H) as [b E].
  exists b. unfold load. by rewrite E.
Qed.

Lemma load_Done m i b : load m i = Done b ↔ m !! i = Some b.
Proof. unfold load. destruct (m !! i); naive_solver. Qed.

Lemma load_returns m i : i < length m → returns (load m i).
Proof. intros (b & E & _)%load_lookup. exists b. done. Qed.

Lemma load_n_Done m i n : i + n ≤ length m → load_n m i n = Done (take n (drop i m)).
Proof. intros H. unfold load_n. destruct (Nat.leb_spec (i + n) (length m)); [done|lia]. Qed.

Lemma load_n_inv m i n bs :
  load_n m i n = Done bs → i + n ≤ length m ∧ bs = take n (drop i m) ∧ length bs = n.
Proof.
  unfold load_n. destruct (Nat.leb_spec (i + n) (length m)); [|done].
  intros [= <-]. rewrite length_take, length_drop. repeat split; lia.
Qed.

Lemma load_n_returns m i n : i + n ≤ length m → returns (load_n m i n).
Proof. intros H. rewrite load_n_Done by done. by eexists. Qed.

Lemma store_n_Done m i bs :
  i + length bs ≤ length m → store_n m i bs = Done (splice m i bs).
Proof.
  intros H. unfold store_n.
  destruct (Nat.leb_spec (i + length bs) (length m)); [done|lia].
Qed.

Lemma length_splice m i bs :
  i + length bs ≤ length m → length (splice m i bs) = length m.
Proof. intros. unfold splice. rewrite !length_app, length_take, length_drop. lia. Qed.

(** Consecutive writes are one write of the concatenation. *)
Lemma splice_splice m i bs cs :
  i + length bs + length cs ≤ length m →
  splice (splice m i bs) (i + length bs) cs = splice m i (bs ++ cs).
Proof.
  intros H. unfold splice.
  assert (Hl : length (take i m ++ bs) = i + length bs)
    by (rewrite length_app, length_take; lia).
  rewrite (app_assoc (take i m) bs (drop _ m)).
  rewrite (take_app_length' (take i m ++ bs)) by done.
  rewrite drop_app_ge by lia.
  rewrite Hl, drop_drop, length_app, <- !app_assoc. do 4 f_equal. lia.
Qed.

Lemma store_n_next m i o bs cs :
  o = i + length bs → i + length bs + length cs ≤ length m →
  store_n (splice m i bs) o cs = Done (splice m i (bs ++ cs)).
Proof.
  intros -> H. rewrite store_n_Done by (rewrite length_splice; lia).
  by rewrite splice_splice.
Qed.

Lemma splice_middle pre mid post bs :
  length bs = length mid → splice (pre ++ mid ++ post) (length pre) bs = pre ++ bs ++ post.
Proof.
  intros E. unfold splice.
  by rewrite E, take_app_length, (app_assoc pre mid post), <- length_app, drop_app_length.
Qed.

Lemma splice_nil m i : splice m i [] = m.
Proof. unfold splice. simpl. rewrite Nat.add_0_r. apply take_drop. Qed.

Lemma lookup_splice_new m i bs j :
  i + length bs ≤ length m → j < length bs → splice m i bs !! (i + j) = bs !! j.
Proof.
  intros H Hj. unfold splice. rewrite lookup_app_r by (rewrite length_take; lia).
  rewrite length_take, lookup_app_l by lia. f_equal. lia.
Qed.

Lemma lookup_splice_old m i bs j :
  i + length bs ≤ length m → (j < i ∨ i + length bs ≤ j) → splice m i bs !! j = m !! j.
Proof.
  intros H Hj. unfold splice. destruct Hj.
  - rewrite lookup_app_l by (rewrite length_take; lia). by rewrite lookup_take_lt.
  - rewrite lookup_app_r by (rewrite length_take; lia).
    rewrite length_take, lookup_app_r by lia. rewrite lookup_drop. f_equal. lia.
Qed.

Lemma take_splice m i bs : i ≤ length m → take (i + length bs) (splice m i bs) = take i m ++ bs.
Proof.
  intros. unfold splice. rewrite app_assoc.
  apply take_app_length'. rewrite length_app, length_take. lia.
Qed.

(** Reading inside a known stretch of the buffer. *)
Lemma load_middle pre x post :
  load (pre ++ x :: post) (length pre) = Done x.
Proof. apply load_Done. by apply list_lookup_middle. Qed.

Lemma load_n_middle pre bs post n :
  n = length bs → load_n (pre ++ bs ++ post) (length pre) n = Done bs.
Proof.
  intros ->. rewrite load_n_Done by (rewrite !length_app; lia).
  rewrite drop_app_length. by rewrite take_app_length.
Qed.

Lemma load_at m i pre x post :
  m = pre ++ x :: post → i = length pre → load m i = Done x.
Proof. intros -> ->. apply load_middle. Qed.

Lemma load_n_at m i n pre bs post :
  m = pre ++ bs ++ post → i = length pre → n = length bs → load_n m i n = Done bs.
Proof. intros -> -> ->. by apply load_n_middle. Qed.
End load_store.

#[export] Hint Resolve load_returns load_n_returns : dns.

(** ** Integers as byte sequences *)

(** [n] bytes, least significant first. *)
Fixpoint le_split (n : nat) (z : Z) : bytes :=
  match n with
  | O => []
  | S n => ch z :: le_split n (z / 256)
  end.

Fixpoint le_join (bs : bytes) : Z :=
  match bs with
  | [] => 0
  | b :: bs => u8 b + 256 * le_join bs
  end%Z.

(** Network byte order: most significant first. *)
Definition be_split (n : nat) (z : Z) : bytes := rev (le_split n z).
Definition be_join (bs : bytes) : Z := le_join (rev bs).

Arguments be_split : simpl never.
Arguments be_join : simpl never.

(** The number of values of an unsigned integer of [n] bytes. *)
Definition width (n : nat) : Z := (256 ^ Z.of_nat n)%Z.

Section split_join.
Local Open Scope Z_scope.
Implicit Types (n : nat) (z : Z) (bs : bytes).

Lemma width_S n : width (S n) = 256 * width n.
Proof. unfold width. rewrite Nat2Z.inj_succ, Z.pow_succ_r; lia. Qed.

Lemma width_pos n : 0 < width n.
Proof. unfold width. apply Z.pow_pos_nonneg; lia. Qed.

Lemma length_le_split n z : length (le_split n z) = n.
Proof. revert z; induction n; simpl; auto. Qed.

Lemma length_be_split n z : length (be_split n z) = n.
Proof. unfold be_split. rewrite length_rev. apply length_le_split. Qed.

Lemma le_join_bound bs : 0 ≤ le_join bs < width (length bs).
Proof.
  induction bs as [|b bs IH]; simpl length.
  - unfold width; simpl; lia.
  - rewrite width_S. simpl. u8_bounds. lia.
Qed.

Lemma be_join_bound bs : 0 ≤ be_join bs < width (length bs).
Proof. unfold be_join. rewrite <- length_rev. apply le_join_bound. Qed.

Lemma le_join_split n z : le_join (le_split n z) = z mod width n.
Proof.
  revert z; induction n as [|n IH]; intros z; simpl.
  - unfold width; simpl. by rewrite Z.mod_1_r.
  - rewrite IH, u8_ch, width_S. pose proof (width_pos n).
    rewrite Z.rem_mul_r by lia. lia.
Qed.

Lemma le_split_join bs : le_split (length bs) (le_join bs) = bs.
Proof.
  induction bs as [|b bs IH]; simpl; [done|]. u8_bounds.
  replace ((u8 b + 256 * le_join bs) / 256) with (le_join bs) by byte_lia.
  rewrite IH. f_equal. apply u8_inj. rewrite u8_ch. byte_lia.
Qed.

Lemma be_join_split n z : be_join (be_split n z) = z mod width n.
Proof. unfold be_join, be_split. rewrite rev_involutive. apply le_join_split. Qed.

Lemma be_split_join bs : be_split (length bs) (be_join bs) = bs.
Proof.
  unfold be_join, be_split. rewrite <- (length_rev bs), le_split_join.
  apply rev_involutive.
Qed.

Lemma be_join_split_small n z : 0 ≤ z < width n → be_join (be_split n z) = z.
Proof. intros. rewrite be_join_split. by apply Z.mod_small. Qed.

Lemma be_split_join_len n bs : length bs = n → be_split n (be_join bs) = bs.
Proof. intros <-. apply be_split_join. Qed.

Lemma le_join_app bs cs : le_join (bs ++ cs) = le_join bs + width (length bs) * le_join cs.
Proof.
  induction bs as [|b bs IH]; simpl length; simpl app.
  - unfold width; simpl. lia.
  - rewrite width_S. simpl. rewrite IH. lia.
Qed.

Lemma be_join_2 b0 b1 : be_join [b0; b1] = 256 * u8 b0 + u8 b1.
Proof. unfold be_join. simpl. lia. Qed.

Lemma be_split_2 z : be_split 2 z = [ch (z / 256); ch z].
Proof. reflexivity. Qed.
End split_join.

(** ** The target *)

(** What the program is built for: [__BYTE_ORDER__ == __ORDER_LITTLE_ENDIAN__], and
    whether [NDEBUG] is defined (in a Release build, not in a Debug one). *)
Class Target := { little_endian : bool; NDEBUG : bool }.

(** [assert] of <cassert>. *)
Definition assert_ {T : Target} (b : bool) : outcome unit :=
  if NDEBUG || b then Done tt else Aborted.

Section asserts.
  Context {T : Target}.

(** Where an assertion on a length lets the computation go on. *)
Definition passes (b : bool) : Prop := NDEBUG = true ∨ b = true.

Lemma passes_dec b : passes b ∨ (NDEBUG = false ∧ b = false).
Proof. unfold passes. destruct NDEBUG, b; auto. Qed.

Lemma assert_passes {A} b (m : outcome A) : passes b → (assert_ b;; m) = m.
Proof. intros [E| ->]; unfold assert_; [by rewrite E|by rewrite orb_true_r]. Qed.

Lemma assert_fails {A} b (m : outcome A) : NDEBUG = false → b = false → (assert_ b;; m) = Aborted.
Proof. intros E ->. unfold assert_. by rewrite E. Qed.

Lemma passes_true b : b = true → passes b.
Proof. by right. Qed.
End asserts.

Section host.
  Context {H : Target}.
Local Open Scope Z_scope.

(** The object representation of an [n]-byte unsigned integer, and the value
    of a representation (reading it through [reinterpret_cast<char *>]). *)
Definition object_bytes (n : nat) (z : Z) : bytes :=
  if little_endian then le_split n z else be_split n z.

Definition object_value (bs : bytes) : Z :=
  if little_endian then le_join bs else be_join bs.

Lemma length_object_bytes n z : length (object_bytes n z) = n.
Proof. unfold object_bytes. destruct little_endian; auto using length_le_split, length_be_split. Qed.

Lemma object_value_bytes n z : 0 ≤ z < width n → object_value (object_bytes n z) = z.
Proof.
  intros Hz. unfold object_value, object_bytes. destruct little_endian;
    rewrite ?le_join_split, ?be_join_split; by apply Z.mod_small.
Qed.

Lemma object_bytes_value bs : object_bytes (length bs) (object_value bs) = bs.
Proof.
  unfold object_value, object_bytes.
  destruct little_endian; auto using le_split_join, be_split_join.
Qed.

Lemma object_bytes_value_len n bs : length bs = n → object_bytes n (object_value bs) = bs.
Proof. intros <-. apply object_bytes_value. Qed.

Lemma object_value_bound bs : 0 ≤ object_value bs < width (length bs).
Proof.
  unfold object_value. destruct little_endian; auto using le_join_bound, be_join_bound.
Qed.
End host.

(** The target the examples run on: a little-endian one, built as CMakeLists.txt builds it
    when it is given no build type, with the assertions. *)
Definition x86_64 : Target := {| little_endian := true; NDEBUG := false |}.

Create Rewrite HintDb len.
#[export] Hint Rewrite @length_app @length_take @length_drop @length_nil @length_cons
  length_le_split length_be_split @length_object_bytes @length_splice
  @length_fmap @length_rev using lia : len.

(** Normalise lengths and close the arithmetic. *)
Ltac len := autorewrite with len in *; simpl length in *; try lia.
