(* ===== verification/Utils.v ===== *)
(** * Utilities (src/include/utils.h, src/src/utils.cc)

    Byte-order conversion, bit reversal, the textual-address wrappers around
    [inet_pton], and the packet walker that logs the records of a response.
    Integer types are given by their size [n] in bytes; values are their [Z]. *)

From Stdlib Require Import ZArith Lia ZifyBool.
From stdpp Require Import base numbers list option.
From S2P Require Import Prelude.
From S2P Require Import Memory.

(** ** Byte and bit order *)

Section order.
Local Open Scope Z_scope.

(** The [for] loop of [SwapEndian]: [k] iterations left. *)
Fixpoint SwapEndian_loop (n k : nat) (s_Val s_Result : Z) : Z :=
  match k with
  | O => s_Result
  | S k =>
      SwapEndian_loop n k (Z.shiftr s_Val 8)
        ((Z.lor (Z.shiftl s_Result 8) (Z.land s_Val 0xFF)) mod width n)
  end.

Definition SwapEndian (n : nat) (p_Input : Z) : Z := SwapEndian_loop n n p_Input 0.

Fixpoint ReverseBits_loop (w : Z) (k : nat) (p_Input s_Output : Z) : Z :=
  match k with
  | O => s_Output
  | S k =>
      ReverseBits_loop w k (Z.shiftr p_Input 1)
        ((Z.lor (Z.shiftl s_Output 1) (Z.land p_Input 1)) mod 2 ^ w)
  end.

Definition ReverseBits (n : nat) (p_Input : Z) : Z :=
  ReverseBits_loop (Z.of_nat (n * 8)) (n * 8) p_Input 0.
End order.

Section host_order.
  Context {H : Target}.

Definition HostToNetwork (n : nat) (p_Value : Z) : Z :=
  if little_endian then SwapEndian n p_Value else p_Value.

Definition NetworkToHost (n : nat) (p_Value : Z) : Z := HostToNetwork n p_Value.
End host_order.

(** ** Textual addresses *)

(** [inet_pton] is the C library's: [Some] the binary address when it
    returns 1, [None] otherwise. *)
Definition IPV4_BINARY_SIZE : nat := 4.
Definition IPV6_BINARY_SIZE : nat := 16.

Section addresses.
  Context (inet_pton4 inet_pton6 : bytes → option bytes).

(** The result code and the output vector after the call. *)
Definition Ipv4ToHex (p_Input p_Output : bytes) : outcome (Z * bytes) :=
  if (length p_Output <? IPV4_BINARY_SIZE)%nat then Done ((-1)%Z, p_Output)
  else match inet_pton4 p_Input with
       | None => Done ((-1)%Z, p_Output)
       | Some a => out ← store_n p_Output 0 a; Done (0%Z, out)
       end.

Definition Ipv6ToHex (p_Input p_Output : bytes) : outcome (Z * bytes) :=
  if (length p_Output <? IPV6_BINARY_SIZE)%nat then Done ((-1)%Z, p_Output)
  else match inet_pton6 p_Input with
       | None => Done ((-1)%Z, p_Output)
       | Some a => out ← store_n p_Output 0 a; Done (0%Z, out)
       end.
End addresses.

(** ** Logging of response records *)

(** One line of the debug log. *)
Inductive log_line : Type :=
  | LogSummary (ancount rcode : Z)
  | LogA (index : nat) (rclass ttl : Z) (data : bytes)
  | LogAAAA (index : nat) (rclass ttl : Z) (data : bytes)
  | LogRecord (index : nat) (rtype rclass ttl rdlen : Z).

(** The inner loop that steps over a name: the offset after it. *)
Fixpoint LogSkipName (fuel : nat) (s_Pkt : bytes) (p_Length s_Offset : nat) : outcome nat :=
  match fuel with
  | O => Unfinished
  | S fuel =>
      if (s_Offset <? p_Length)%nat then
        s_Len ← load s_Pkt s_Offset;
        if (Z.land (u8 s_Len) 0xC0 =? 0xC0)%Z then Done (s_Offset + 2)
        else if (u8 s_Len =? 0)%Z then Done (s_Offset + 1)
        else LogSkipName fuel s_Pkt p_Length (s_Offset + (1 + Z.to_nat (u8 s_Len)))
      else Done s_Offset
  end.

(** Skip past the question section: [k] questions left. *)
Fixpoint LogSkipQuestions (k : nat) (s_Pkt : bytes) (p_Length s_Offset : nat) : outcome nat :=
  match k with
  | O => Done s_Offset
  | S k =>
      if (s_Offset <? p_Length)%nat then
        s_Offset ← LogSkipName (S p_Length) s_Pkt p_Length s_Offset;
        LogSkipQuestions k s_Pkt p_Length (s_Offset + 4)
      else Done s_Offset
  end.

Definition read_be (n : nat) (s_Pkt : bytes) (i : nat) : outcome Z :=
  bs ← load_n s_Pkt i n; Done (be_join bs).

(** The answer loop: [k] answers left, [l_Index] the index of the next. *)
Fixpoint LogAnswers (k l_Index : nat) (s_Pkt : bytes) (p_Length s_Offset : nat)
    : outcome (list log_line) :=
  match k with
  | O => Done []
  | S k =>
      if (s_Offset <? p_Length)%nat then
        s_Offset ← LogSkipName (S p_Length) s_Pkt p_Length s_Offset;
        if (p_Length <? s_Offset + 10)%nat then Done [] else
        s_Type ← read_be 2 s_Pkt s_Offset;
        s_Class ← read_be 2 s_Pkt (s_Offset + 2);
        s_Ttl ← read_be 4 s_Pkt (s_Offset + 4);
        s_Rdlength ← read_be 2 s_Pkt (s_Offset + 8);
        let s_Offset := s_Offset + 10 in
        if (p_Length <? s_Offset + Z.to_nat s_Rdlength)%nat then Done [] else
        line ← (if ((s_Type =? 1) && (s_Rdlength =? 4))%Z then
                  d ← load_n s_Pkt s_Offset 4; Done (LogA l_Index s_Class s_Ttl d)
                else if ((s_Type =? 28) && (s_Rdlength =? 16))%Z then
                  d ← load_n s_Pkt s_Offset 16; Done (LogAAAA l_Index s_Class s_Ttl d)
                else Done (LogRecord l_Index s_Type s_Class s_Ttl s_Rdlength));
        rest ← LogAnswers k (S l_Index) s_Pkt p_Length (s_Offset + Z.to_nat s_Rdlength);
        Done (line :: rest)
      else Done []
  end.

Definition LogDnsResponseRecords (p_Data : option bytes) (p_Length : nat)
    : outcome (list log_line) :=
  match p_Data with
  | None => Done []
  | Some s_Pkt =>
      if (p_Length <? 12)%nat then Done [] else
      s_Qdcount ← read_be 2 s_Pkt 4;
      s_Ancount ← read_be 2 s_Pkt 6;
      b3 ← load s_Pkt 3;
      let s_Rcode := Z.land (u8 b3) 0x0F in
      if (s_Ancount =? 0)%Z then Done [LogSummary s_Ancount s_Rcode] else
      s_Offset ← LogSkipQuestions (Z.to_nat s_Qdcount) s_Pkt p_Length 12;
      rest ← LogAnswers (Z.to_nat s_Ancount) 0 s_Pkt p_Length s_Offset;
      Done (LogSummary s_Ancount s_Rcode :: rest)
  end.

(** ** Theorems: byte and bit order *)

Section order_facts.
Local Open Scope Z_scope.

Lemma SwapEndian_loop_spec n k v r :
  (k ≤ n)%nat → 0 ≤ r < width (n - k) →
  SwapEndian_loop n k v r = r * width k + be_join (le_split k v).
Proof.
  revert v r. induction k as [|k IH]; intros v r Hk Hr.
  - simpl. unfold width; simpl. unfold be_join; simpl. lia.
  - simpl SwapEndian_loop. rewrite land_255.
    assert (Hv : 0 ≤ v mod 256 < 2 ^ 8) by (apply Z.mod_pos_bound; lia).
    rewrite lor_shiftl by lia. change (2 ^ 8) with 256 in *.
    assert (Hw : width (n - k) = 256 * width (n - S k)).
    { replace (n - k)%nat with (S (n - S k)) by lia. apply width_S. }
    assert (Hlt : 0 ≤ r * 256 + v mod 256 < width (n - k)) by lia.
    assert (width (n - k) ≤ width n).
    { unfold width. apply Z.pow_le_mono_r; lia. }
    rewrite (Z.mod_small _ (width n)) by lia.
    rewrite IH by (lia || done). rewrite width_S.
    rewrite Z.shiftr_div_pow2 by lia. change (2 ^ 8) with 256.
    unfold be_join. simpl le_split. simpl rev. rewrite le_join_app.
    rewrite length_rev, length_le_split. simpl le_join. rewrite u8_ch. lia.
Qed.

Lemma SwapEndian_spec n x : SwapEndian n x = be_join (le_split n x).
Proof.
  unfold SwapEndian. rewrite SwapEndian_loop_spec; [lia|lia|].
  rewrite Nat.sub_diag. unfold width; simpl. lia.
Qed.

Lemma SwapEndian_bound n x : 0 ≤ SwapEndian n x < width n.
Proof.
  rewrite SwapEndian_spec. pose proof (be_join_bound (le_split n x)) as H.
  by rewrite length_le_split in H.
Qed.

Lemma SwapEndian_involutive n x : 0 ≤ x < width n → SwapEndian n (SwapEndian n x) = x.
Proof.
  intros Hx. rewrite (SwapEndian_spec n (SwapEndian n x)), (SwapEndian_spec n x).
  rewrite <- (rev_involutive (le_split n (be_join _))).
  change (rev (le_split n ?z)) with (be_split n z).
  rewrite be_split_join_len by apply length_le_split.
  unfold be_join. rewrite rev_involutive, le_join_split. by apply Z.mod_small.
Qed.

Lemma ReverseBits_loop_testbit w k x r i :
  0 ≤ w → 0 ≤ i < w → Z.of_nat k ≤ w →
  Z.testbit (ReverseBits_loop w k x r) i =
    if i <? Z.of_nat k then Z.testbit x (Z.of_nat k - 1 - i)
    else Z.testbit r (i - Z.of_nat k).
Proof.
  intros Hw. revert x r i. induction k as [|k IH]; intros x r i Hi Hk.
  - simpl. destruct (Z.ltb_spec i (Z.of_nat 0)); [lia|]. f_equal. lia.
  - simpl ReverseBits_loop. rewrite IH by lia.
    destruct (Z.ltb_spec i (Z.of_nat k)), (Z.ltb_spec i (Z.of_nat (S k))); try lia.
    + rewrite Z.shiftr_spec by lia. f_equal. lia.
    + replace (i - Z.of_nat k) with 0 by lia.
      rewrite Z.mod_pow2_bits_low, Z.lor_spec, Z.land_spec, Z.shiftl_spec_low by lia.
      change (Z.testbit 1 0) with true. rewrite orb_false_l, andb_true_r. f_equal. lia.
    + rewrite Z.mod_pow2_bits_low by lia.
      rewrite Z.lor_spec, Z.land_spec, Z.shiftl_spec by lia.
      rewrite (Z.bits_above_log2 1) by (simpl; lia).
      rewrite andb_false_r, orb_false_r. f_equal. lia.
Qed.

(** [ReverseBits] mirrors the bits of an [n]-byte integer. *)
Lemma ReverseBits_testbit n x i :
  0 ≤ i < 8 * Z.of_nat n →
  Z.testbit (ReverseBits n x) i = Z.testbit x (8 * Z.of_nat n - 1 - i).
Proof.
  intros Hi. unfold ReverseBits. rewrite ReverseBits_loop_testbit by lia.
  destruct (Z.ltb_spec i (Z.of_nat (n * 8))); [|lia]. f_equal. lia.
Qed.
End order_facts.

Section host_facts.
Context {H : Target}.
Local Open Scope Z_scope.

Lemma HostToNetwork_bound n z : 0 ≤ z < width n → 0 ≤ HostToNetwork n z < width n.
Proof. unfold HostToNetwork. destruct little_endian; auto using SwapEndian_bound. Qed.

Lemma NetworkToHost_HostToNetwork n z :
  0 ≤ z < width n → NetworkToHost n (HostToNetwork n z) = z.
Proof.
  unfold NetworkToHost, HostToNetwork. destruct little_endian; auto using SwapEndian_involutive.
Qed.

Lemma HostToNetwork_NetworkToHost n z :
  0 ≤ z < width n → HostToNetwork n (NetworkToHost n z) = z.
Proof. apply NetworkToHost_HostToNetwork. Qed.

(** Bytes copied from the wire into an integer and converted: the big-endian
    value, whatever the host's order. *)
Lemma NetworkToHost_object n bs :
  length bs = n → NetworkToHost n (object_value bs) = be_join bs.
Proof.
  intros Hn. unfold NetworkToHost, HostToNetwork, object_value. destruct little_endian; [|done].
  rewrite SwapEndian_spec, <- Hn. by rewrite le_split_join.
Qed.

(** The bytes of a converted integer: its big-endian representation. *)
Lemma object_bytes_HostToNetwork n z :
  0 ≤ z < width n → object_bytes n (HostToNetwork n z) = be_split n z.
Proof.
  intros Hz. unfold HostToNetwork, object_bytes. destruct little_endian; [|done].
  rewrite SwapEndian_spec. rewrite <- (rev_involutive (le_split n (be_join _))).
  change (rev (le_split n ?x)) with (be_split n x).
  by rewrite be_split_join_len by apply length_le_split.
Qed.

Lemma HostToNetwork_inj n x y :
  0 ≤ x < width n → 0 ≤ y < width n → HostToNetwork n x = HostToNetwork n y → x = y.
Proof.
  intros Hx Hy E. rewrite <- (NetworkToHost_HostToNetwork n x), E by done.
  by apply NetworkToHost_HostToNetwork.
Qed.
End host_facts.

Section members.
  Context {H : Target}.

Lemma object_value_uint16 bs : length bs = 2 → uint16 (object_value bs).
Proof. intros E. pose proof (object_value_bound bs) as B. rewrite E in B. exact B. Qed.

Lemma object_value_uint32 bs : length bs = 4 → uint32 (object_value bs).
Proof. intros E. pose proof (object_value_bound bs) as B. rewrite E in B. exact B. Qed.

Lemma NetworkToHost_uint16 z : uint16 z → uint16 (NetworkToHost 2 z).
Proof. apply (HostToNetwork_bound 2). Qed.

Lemma NetworkToHost_uint32 z : uint32 z → uint32 (NetworkToHost 4 z).
Proof. apply (HostToNetwork_bound 4). Qed.

(** The bytes of a member are the big-endian bytes of its host value. *)
Lemma member_bytes n z :
  (0 ≤ z < width n)%Z → object_bytes n z = be_split n (NetworkToHost n z).
Proof.
  intros Hz. rewrite <- (object_bytes_HostToNetwork n) by (by apply HostToNetwork_bound).
  by rewrite HostToNetwork_NetworkToHost.
Qed.

Lemma member_value n bs :
  length bs = n → be_split n (NetworkToHost n (object_value bs)) = bs.
Proof.
  intros Hl. rewrite <- member_bytes by (rewrite <- Hl; apply object_value_bound).
  by apply object_bytes_value_len.
Qed.

(** A member is determined by the big-endian bytes of its host value. *)
Lemma member_inj n z bs :
  (0 ≤ z < width n)%Z → length bs = n → bs = be_split n (NetworkToHost n z) →
  object_value bs = z.
Proof.
  intros Hz Hl ->. rewrite <- member_bytes by done. by apply object_value_bytes.
Qed.
End members.

Lemma width_2 : width 2 = 65536%Z.
Proof. reflexivity. Qed.

Lemma width_4 : width 4 = 4294967296%Z.
Proof. reflexivity. Qed.

(** ** Theorems: the logging walker *)

Section log_facts.
  Implicit Types (s_Pkt : bytes) (p_Length s_Offset : nat).

Lemma LogSkipName_spec fuel s_Pkt p_Length s_Offset :
  p_Length ≤ length s_Pkt → p_Length - s_Offset < fuel →
  ∃ o, LogSkipName fuel s_Pkt p_Length s_Offset = Done o ∧ s_Offset ≤ o.
Proof.
  intros Hl. revert s_Offset. induction fuel as [|fuel IH]; intros o Hf; [lia|].
  cbn [LogSkipName]. destruct (Nat.ltb_spec o p_Length) as [Ho|]; [|eauto].
  destruct (load_lookup s_Pkt o ltac:(lia)) as (b & -> & _). rewrite bind_done.
  destruct (_ =? _)%Z; [eexists; split; [done|lia]|].
  destruct (_ =? _)%Z; [eexists; split; [done|lia]|].
  destruct (IH (o + (1 + Z.to_nat (u8 b)))) as (o' & -> & ?); [lia|].
  eexists; split; [done|lia].
Qed.

Lemma LogSkipQuestions_spec k s_Pkt p_Length s_Offset :
  p_Length ≤ length s_Pkt →
  ∃ o, LogSkipQuestions k s_Pkt p_Length s_Offset = Done o ∧ s_Offset ≤ o.
Proof.
  intros Hl. revert s_Offset. induction k as [|k IH]; intros o; cbn [LogSkipQuestions]; [eauto|].
  destruct (Nat.ltb_spec o p_Length); [|eauto].
  destruct (LogSkipName_spec (S p_Length) s_Pkt p_Length o Hl ltac:(lia)) as (o1 & -> & ?).
  rewrite bind_done. destruct (IH (o1 + 4)) as (o2 & -> & ?).
  eexists; split; [done|lia].
Qed.

Lemma read_be_returns n s_Pkt i : i + n ≤ length s_Pkt → returns (read_be n s_Pkt i).
Proof. intros. unfold read_be. rewrite load_n_Done by done. by eexists. Qed.

Lemma read_be_bound n s_Pkt i z : read_be n s_Pkt i = Done z → (0 ≤ z < width n)%Z.
Proof.
  unfold read_be. intros (bs & (_ & _ & <-)%load_n_inv & [= <-])%bind_Done_inv.
  apply be_join_bound.
Qed.

Lemma LogAnswers_returns k l_Index s_Pkt p_Length s_Offset :
  p_Length ≤ length s_Pkt → returns (LogAnswers k l_Index s_Pkt p_Length s_Offset).
Proof.
  intros Hl. revert l_Index s_Offset. induction k as [|k IH]; intros i o; cbn [LogAnswers].
  { apply returns_Done. }
  destruct (Nat.ltb_spec o p_Length); [|apply returns_Done].
  destruct (LogSkipName_spec (S p_Length) s_Pkt p_Length o Hl ltac:(lia)) as (o1 & -> & ?).
  rewrite bind_done. destruct (Nat.ltb_spec p_Length (o1 + 10)); [apply returns_Done|].
  do 4 (apply returns_bind; [apply read_be_returns; lia|intros ? _]).
  destruct (Nat.ltb_spec p_Length (o1 + 10 + Z.to_nat a2)); [apply returns_Done|].
  apply returns_bind.
  - destruct ((a =? 1)%Z && (a2 =? 4)%Z) eqn:E;
      [|destruct ((a =? 28)%Z && (a2 =? 16)%Z) eqn:E'; [|apply returns_Done]];
      (apply returns_bind; [apply load_n_returns; lia|eauto with dns]).
  - intros line _. apply returns_bind; eauto with dns.
Qed.

Lemma LogDnsResponseRecords_returns p_Data p_Length :
  (∀ s_Pkt, p_Data = Some s_Pkt → p_Length ≤ length s_Pkt) →
  returns (LogDnsResponseRecords p_Data p_Length).
Proof.
  intros Hl. unfold LogDnsResponseRecords. destruct p_Data as [s_Pkt|]; [|apply returns_Done].
  specialize (Hl _ eq_refl). destruct (Nat.ltb_spec p_Length 12); [apply returns_Done|].
  do 2 (apply returns_bind; [apply read_be_returns; lia|intros ? _]).
  apply returns_bind; [apply load_returns; lia|intros b3 _].
  destruct (_ =? _)%Z; [apply returns_Done|].
  destruct (LogSkipQuestions_spec (Z.to_nat a) s_Pkt p_Length 12 Hl) as (o & -> & _).
  rewrite bind_done. apply returns_bind; [by apply LogAnswers_returns|eauto with dns].
Qed.
End log_facts.
