(* ===== verification/Text.v ===== *)
(** * Strings (the std::string and <cctype> operations the sources use)

    A [std::string] is its bytes.  Character classes are those of the "C"
    locale; [stoi] follows [strtol]: leading white space, a sign, for base 16 an
    optional 0x, then the longest run of digits, whatever follows it. *)

From Stdlib Require Import ZArith Lia ZifyBool.
From Stdlib Require Import Strings.Byte.
From stdpp Require Import base numbers list option sets.
From S2P Require Import Prelude.

(** ** Characters *)

Section characters.
Local Open Scope Z_scope.
Implicit Types c : byte.

Definition isdigit c : bool := (48 <=? u8 c) && (u8 c <=? 57).
Definition isupper c : bool := (65 <=? u8 c) && (u8 c <=? 90).
Definition islower c : bool := (97 <=? u8 c) && (u8 c <=? 122).
Definition isalnum c : bool := isdigit c || isupper c || islower c.
Definition isspace c : bool := (u8 c =? 32) || ((9 <=? u8 c) && (u8 c <=? 13)).

Definition tolower c : byte := if isupper c then ch (u8 c + 32) else c.

(** The value of a digit in bases up to 16. *)
Definition digit_value c : option Z :=
  if isdigit c then Some (u8 c - 48)
  else if (65 <=? u8 c) && (u8 c <=? 70) then Some (u8 c - 55)
  else if (97 <=? u8 c) && (u8 c <=? 102) then Some (u8 c - 87)
  else None.

Definition digit_char (d : Z) : byte := if d <? 10 then ch (48 + d) else ch (87 + d).
End characters.

(** ** Searching and splitting *)

Section searching.
  Implicit Types (c : byte) (s : bytes).

(** The first occurrence of [c], as an offset from the head. *)
Fixpoint index_of c s : option nat :=
  match s with
  | [] => None
  | b :: s => if decide (b = c) then Some O else S <$> index_of c s
  end.

(** [s.find(c, p_Start)]; [None] is [npos]. *)
Definition find c s (p_Start : nat) : option nat :=
  Nat.add p_Start <$> index_of c (drop p_Start s).

(** [s.find("::")]. *)
Fixpoint find2 c s : option nat :=
  match s with
  | a :: (b :: _) as t => if decide (a = c ∧ b = c) then Some O else S <$> find2 c t
  | _ => None
  end.

(** [s.substr(p_Pos, p_Len)] for [p_Pos <= s.size()]. *)
Definition substr s (p_Pos p_Len : nat) : bytes := take p_Len (drop p_Pos s).
Definition substr_from s (p_Pos : nat) : bytes := drop p_Pos s.

(** The loop [while ((s_Pos = s.find(c, s_Start)) != npos) { ... s.substr(s_Start,
    s_Pos - s_Start) ...; s_Start = s_Pos + 1; }]: the pieces it visits, and
    [s_Start] when it ends. *)
Fixpoint find_loop (fuel : nat) c s (s_Start : nat) : list bytes * nat :=
  match fuel with
  | O => ([], s_Start)
  | S fuel =>
      match find c s s_Start with
      | None => ([], s_Start)
      | Some s_Pos =>
          let '(pieces, s_Last) := find_loop fuel c s (S s_Pos) in
          (substr s s_Start (s_Pos - s_Start) :: pieces, s_Last)
      end
  end.

(** Each iteration moves [s_Start] forward, so the length bounds them. *)
Definition split_loop c s : list bytes * nat := find_loop (S (length s)) c s 0.

(** The pieces of a string, none when it is empty. *)
Definition split_nonempty c s : list bytes :=
  match s with
  | [] => []
  | _ => let '(pieces, s_Start) := split_loop c s in pieces ++ [substr_from s s_Start]
  end.

(** The pieces between the separators. *)
Fixpoint split_on c s : list bytes :=
  match s with
  | [] => [[]]
  | b :: s =>
      if decide (b = c) then [] :: split_on c s
      else match split_on c s with
           | p :: ps => (b :: p) :: ps
           | [] => [[b]]
           end
  end.

(** Labels joined by a separator, as the [for] loops of [QnameAsString] do. *)
Fixpoint join c (ps : list bytes) : bytes :=
  match ps with
  | [] => []
  | [p] => p
  | p :: ps => p ++ c :: join c ps
  end.

(** [if (s.back() == c) s.pop_back()] on a non-empty string. *)
Definition drop_last_if c s : bytes :=
  if decide (list.last s = Some c) then removelast s else s.
End searching.

(** ** Numbers *)

Section numbers.
Local Open Scope Z_scope.
Implicit Types s : bytes.

Fixpoint skip_spaces s : bytes :=
  match s with
  | c :: t => if isspace c then skip_spaces t else s
  | [] => []
  end.

(** The longest run of digits of the base: whether there is one, and its value. *)
Fixpoint read_digits (base : Z) s (some : bool) (acc : Z) : bool * Z :=
  match s with
  | c :: t =>
      match digit_value c with
      | Some d => if d <? base then read_digits base t true (acc * base + d) else (some, acc)
      | None => (some, acc)
      end
  | [] => (some, acc)
  end.

(** The 0x of base 16, only when a hexadecimal digit follows. *)
Definition skip_prefix (base : Z) s : bytes :=
  match s with
  | "0"%byte :: ("x"%byte | "X"%byte) :: c :: t =>
      if base =? 16 then match digit_value c with Some _ => c :: t | None => s end else s
  | _ => s
  end.

Definition stoi (base : Z) s : outcome Z :=
  let s := skip_spaces s in
  let '(negative, s) :=
    match s with
    | "-"%byte :: t => (true, t)
    | "+"%byte :: t => (false, t)
    | _ => (false, s)
    end in
  let '(converted, v) := read_digits base (skip_prefix base s) false 0 in
  if negb converted then Throw InvalidArgument
  else let v := if negative : bool then - v else v in
       if (v <? -2147483648) || (2147483647 <? v) then Throw OutOfRange else Done v.

(** [operator<<] on an unsigned integer, in base 10 or 16. *)
Fixpoint print_digits (fuel : nat) (base z : Z) (acc : bytes) : bytes :=
  match fuel with
  | O => acc
  | S fuel =>
      let acc := digit_char (z mod base) :: acc in
      if z / base =? 0 then acc else print_digits fuel base (z / base) acc
  end.

(** Twenty digits hold every 64-bit value in base 10. *)
Definition print_dec (z : Z) : bytes := print_digits 20 10 z [].
Definition print_hex (z : Z) : bytes := print_digits 16 16 z [].
End numbers.

(** ** Lemmas *)

Section search_facts.
  Implicit Types (c : byte) (s p : bytes).

Lemma index_of_None c s : index_of c s = None ↔ c ∉ s.
Proof.
  induction s as [|b s IH]; simpl; [set_solver|]. case_decide; subst; [set_solver|].
  destruct (index_of c s); simpl; set_solver.
Qed.

Lemma index_of_app c p s : c ∉ p → index_of c (p ++ c :: s) = Some (length p).
Proof.
  intros Hp. induction p as [|b p IH]; simpl; [by rewrite decide_True|].
  rewrite decide_False by set_solver. by rewrite IH by set_solver.
Qed.

Lemma index_of_Some c s i :
  index_of c s = Some i → s = take i s ++ c :: drop (S i) s ∧ (c ∉ take i s) ∧ i < length s.
Proof.
  revert i. induction s as [|b s IH]; intros i; simpl; [done|].
  case_decide as E; [intros [= <-]; subst; simpl; rewrite drop_0; split_and!; [done|set_solver|lia]|].
  destruct (index_of c s) as [j|]; [|done]. intros [= <-].
  destruct (IH j eq_refl) as (E1 & E2 & E3). simpl. split_and!; [by f_equal|set_solver|lia].
Qed.

Lemma split_on_nonempty c s : split_on c s ≠ [].
Proof. destruct s as [|b s]; simpl; [done|]. case_decide; [done|]. by destruct (split_on c s). Qed.

Lemma split_on_cons_sep c p s : c ∉ p → split_on c (p ++ c :: s) = p :: split_on c s.
Proof.
  intros Hp. induction p as [|b p IH]; simpl; [by rewrite decide_True|].
  rewrite decide_False by set_solver. by rewrite IH by set_solver.
Qed.

Lemma split_on_none c p : c ∉ p → split_on c p = [p].
Proof.
  intros Hp. induction p as [|b p IH]; simpl; [done|].
  rewrite decide_False by set_solver. by rewrite IH by set_solver.
Qed.

(** The loop of the sources visits all pieces but the last, which starts at the
    final [s_Start]. *)
Lemma find_loop_split fuel c s i :
  i ≤ length s → length s - i < fuel →
  let '(ps, l) := find_loop fuel c s i in
  split_on c (drop i s) = ps ++ [drop l s] ∧ i ≤ l ≤ length s ∧ (c ∉ drop l s).
Proof.
  revert i. induction fuel as [|fuel IH]; intros i Hi Hf; [lia|]. simpl. unfold find.
  destruct (index_of c (drop i s)) as [j|] eqn:E; simpl.
  - apply index_of_Some in E as (E1 & E2 & E3). rewrite length_drop in E3.
    specialize (IH (S (i + j)) ltac:(lia) ltac:(lia)).
    destruct (find_loop fuel c s (S (i + j))) as [ps l]. destruct IH as (IH1 & ? & ?).
    split_and!; [|lia|lia|done].
    rewrite E1, split_on_cons_sep by done. rewrite drop_drop.
    replace (i + S j) with (S (i + j)) by lia. rewrite IH1. simpl.
    unfold substr. by replace (i + j - i) with j by lia.
  - apply index_of_None in E. split_and!; [|lia|lia|done]. by rewrite split_on_none.
Qed.

Lemma split_loop_split c s :
  let '(ps, l) := split_loop c s in
  split_on c s = ps ++ [drop l s] ∧ l ≤ length s ∧ c ∉ drop l s.
Proof.
  unfold split_loop. pose proof (find_loop_split (S (length s)) c s 0 ltac:(lia) ltac:(lia)) as Hs.
  destruct (find_loop _ _ _ _) as [ps l]. rewrite drop_0 in Hs. destruct_and!. split_and!; done || lia.
Qed.

Lemma split_on_join c ps :
  ps ≠ [] → Forall (λ p, c ∉ p) ps → split_on c (join c ps) = ps.
Proof.
  induction ps as [|p [|q ps] IH]; intros Hne Hps; [done| |].
  - inversion_clear Hps. simpl. by apply split_on_none.
  - inversion_clear Hps as [|? ? Hp Hq]. change (join c (p :: q :: ps)) with (p ++ c :: join c (q :: ps)).
    rewrite split_on_cons_sep by done. by rewrite IH.
Qed.

Lemma join_split_on c s : join c (split_on c s) = s.
Proof.
  induction s as [|b s IH]; simpl; [done|]. pose proof (split_on_nonempty c s).
  case_decide; subst; destruct (split_on c s) as [|p [|q ps]]; simpl in *; congruence.
Qed.

Lemma last_join c ps p : p ≠ [] → list.last (join c (ps ++ [p])) = list.last p.
Proof.
  intros Hp. induction ps as [|q ps IH]; [done|].
  change ((q :: ps) ++ [p]) with (q :: (ps ++ [p])).
  destruct (ps ++ [p]) as [|r rs] eqn:E; [by destruct ps|].
  change (join c (q :: r :: rs)) with (q ++ c :: join c (r :: rs)).
  rewrite last_app_cons, last_cons, IH.
  destruct (list.last p) eqn:L; [done|]. by apply last_None in L.
Qed.

Lemma join_cons c p q ps : join c (p :: q :: ps) = p ++ c :: join c (q :: ps).
Proof. reflexivity. Qed.

Lemma elem_of_join c d ps : d ∈ join c ps → d = c ∨ ∃ p, p ∈ ps ∧ d ∈ p.
Proof.
  induction ps as [|p [|q ps] IH]; intros Hd.
  - by apply not_elem_of_nil in Hd.
  - right. exists p. split; [by left|done].
  - rewrite join_cons in Hd. apply elem_of_app in Hd as [Hd|Hd].
    + right. exists p. split; [by left|done].
    + apply elem_of_cons in Hd as [->|Hd]; [by left|].
      destruct (IH Hd) as [->|(r & Hr & ?)]; [by left|].
      right. exists r. split; [by right|done].
Qed.

Lemma find2_skip c p s : c ∉ p → find2 c (p ++ s) = Nat.add (length p) <$> find2 c s.
Proof.
  intros Hp. induction p as [|b p IH]; simpl.
  - by destruct (find2 c s).
  - apply not_elem_of_cons in Hp as [Hb Hp]. specialize (IH Hp).
    destruct (p ++ s) as [|d t] eqn:E.
    + apply app_eq_nil in E as [-> ->]. done.
    + rewrite decide_False by (intros [? _]; congruence). rewrite IH.
      by destruct (find2 c s).
Qed.

Lemma find2_single c p s : c ∉ p → p ≠ [] → find2 c (c :: p ++ s) = S <$> find2 c (p ++ s).
Proof.
  intros Hp Hne. destruct p as [|b p]; [done|]. simpl.
  apply not_elem_of_cons in Hp as [Hb _]. rewrite decide_False; [done|].
  intros [_ ?]. congruence.
Qed.

(** The first double separator of text whose groups are not empty. *)
Lemma find2_join c ps s :
  Forall (λ p, (c ∉ p) ∧ p ≠ []) ps →
  find2 c (join c ps ++ c :: c :: s) = Some (length (join c ps)).
Proof.
  intros Hps. induction Hps as [|p [|q ps] [Hp Hne] Hps IH].
  - simpl. by rewrite decide_True.
  - simpl join. rewrite find2_skip by done. simpl. rewrite decide_True by done. simpl. f_equal. lia.
  - apply Forall_cons in Hps as [[Hq Hqne] Hps].
    assert (Ej : ∃ t, join c (q :: ps) = q ++ t).
    { destruct ps; [exists []; simpl; by rewrite app_nil_r|]. by eexists. }
    destruct Ej as [t Et]. rewrite join_cons, <- app_assoc, find2_skip by done. cbn [app].
    rewrite Et, <- app_assoc, find2_single by done. rewrite app_assoc, <- Et, IH. simpl. f_equal.
    rewrite length_app. simpl. lia.
Qed.

Lemma find2_join_none c ps :
  Forall (λ p, (c ∉ p) ∧ p ≠ []) ps → find2 c (join c ps) = None.
Proof.
  intros Hps. induction Hps as [|p [|q ps] [Hp Hne] Hps IH]; [done| |].
  - simpl. rewrite <- (app_nil_r p), find2_skip by done. done.
  - apply Forall_cons in Hps as [[Hq Hqne] Hps].
    assert (Ej : ∃ t, join c (q :: ps) = q ++ t).
    { destruct ps; [exists []; simpl; by rewrite app_nil_r|]. by eexists. }
    destruct Ej as [t Et]. rewrite join_cons, find2_skip by done.
    rewrite Et, find2_single by done. by rewrite <- Et, IH.
Qed.

Lemma join_nonempty c ps p : p ≠ [] → p ∈ ps → join c ps ≠ [].
Proof.
  intros Hp Hin. destruct ps as [|r [|q ps]].
  - by apply not_elem_of_nil in Hin.
  - by apply list_elem_of_singleton in Hin as <-.
  - by destruct r.
Qed.

Lemma split_nonempty_join c ps :
  Forall (λ p, (c ∉ p) ∧ p ≠ []) ps → split_nonempty c (join c ps) = ps.
Proof.
  intros Hps. unfold split_nonempty. destruct ps as [|p ps]; [done|].
  destruct (join _ _) as [|b t] eqn:E.
  - exfalso. revert E. apply join_nonempty with p; [|by left].
    by apply Forall_cons in Hps as [[_ ?] _].
  - rewrite <- E. pose proof (split_loop_split c (join c (p :: ps))) as Hs.
    destruct (split_loop _ _) as [qs i]. destruct Hs as (Hs & _ & _).
    rewrite split_on_join in Hs; [by symmetry|done|].
    eapply Forall_impl; [done|]. by intros ? [? _].
Qed.

(** Splitting with the last piece taken whatever it is. *)
Lemma split_loop_all c s :
  let '(ps, l) := split_loop c s in ps ++ [substr_from s l] = split_on c s ∧ l ≤ length s.
Proof.
  pose proof (split_loop_split c s) as Hs. destruct (split_loop c s). destruct Hs as (-> & ? & _).
  done.
Qed.
End search_facts.

(** ** Printing and reading numbers *)

Section number_facts.
Local Open Scope Z_scope.
Implicit Types (s : bytes) (base z v : Z).

(** A printed digit. *)
Definition is_hex (c : byte) : Prop := ∃ d, digit_value c = Some d.

Lemma digit_value_char d : 0 ≤ d < 16 → digit_value (digit_char d) = Some d.
Proof.
  intros Hd. assert (E : forall_bits 4 (λ d, bool_decide (digit_value (digit_char d) = Some d)) = true)
    by (vm_compute; reflexivity).
  apply (forall_bits_spec 4 _ d) in E; [|exact Hd]. by apply bool_decide_eq_true in E.
Qed.

Lemma print_digits_app fuel base z acc :
  print_digits fuel base z acc = print_digits fuel base z [] ++ acc.
Proof.
  revert z acc. induction fuel as [|fuel IH]; intros z acc; [done|]. simpl.
  destruct (z / base =? 0); [done|]. rewrite IH, (IH _ [_]), <- app_assoc. done.
Qed.

Lemma print_digits_hex fuel base z :
  0 < base ≤ 16 → Forall is_hex (print_digits fuel base z []).
Proof.
  intros Hb. revert z. induction fuel as [|fuel IH]; intros z; simpl; [done|].
  assert (Hd : is_hex (digit_char (z mod base))).
  { exists (z mod base). apply digit_value_char. pose proof (Z.mod_pos_bound z base). lia. }
  destruct (z / base =? 0); [by constructor|].
  rewrite print_digits_app. apply Forall_app. split; [apply IH|by constructor].
Qed.

Lemma print_digits_ne fuel base z : print_digits (S fuel) base z [] ≠ [].
Proof.
  simpl. destruct (z / base =? 0); [done|]. rewrite print_digits_app. by destruct (print_digits _ _ _ _).
Qed.

Lemma read_print fuel base z acc b v :
  1 < base ≤ 16 → 0 ≤ z < base ^ Z.of_nat fuel → (0 < fuel)%nat →
  ∃ k, read_digits base (print_digits fuel base z acc) b v = read_digits base acc true (v * base ^ k + z)
       ∧ 0 ≤ k.
Proof.
  intros Hb. revert z acc b v. induction fuel as [|fuel IH]; intros z acc b v Hz Hf; [lia|].
  pose proof (Z.mod_pos_bound z base ltac:(lia)). pose proof (Z.div_mod z base ltac:(lia)).
  assert (E : ∀ b v, read_digits base (digit_char (z mod base) :: acc) b v
                     = read_digits base acc true (v * base + z mod base)).
  { intros b' v'. simpl. rewrite digit_value_char by lia.
    destruct (Z.ltb_spec (z mod base) base); [done|lia]. }
  cbn [print_digits]. cbv zeta. destruct (Z.eqb_spec (z / base) 0) as [E0|E0].
  - exists 1. rewrite E, Z.pow_1_r. split; [f_equal; lia|lia].
  - assert (fuel ≠ 0%nat).
    { intros ->. change (Z.of_nat 1) with 1 in Hz. rewrite Z.pow_1_r in Hz.
      apply E0, Z.div_small. lia. }
    rewrite Nat2Z.inj_succ, Z.pow_succ_r in Hz by lia.
    destruct (IH (z / base) (digit_char (z mod base) :: acc) b v) as (k & -> & Hk).
    + split; [apply Z.div_pos; lia|]. apply Z.div_lt_upper_bound; lia.
    + lia.
    + rewrite E. exists (Z.succ k). split; [|lia]. rewrite Z.pow_succ_r by lia. f_equal. lia.
Qed.

(** Reading a printed number gives the number, when it fits an [int]. *)
Lemma stoi_print fuel base z :
  1 < base ≤ 16 → 0 ≤ z < base ^ Z.of_nat fuel → z ≤ 2147483647 → (0 < fuel)%nat →
  stoi base (print_digits fuel base z []) = Done z.
Proof.
  intros Hb Hz Hi Hf. destruct (read_print fuel base z [] false 0 Hb Hz Hf) as (k & E & _).
  pose proof (print_digits_hex fuel base z ltac:(lia)) as Hx.
  assert (Hne : print_digits fuel base z [] ≠ []) by (destruct fuel; [lia|apply print_digits_ne]).
  set (s := print_digits fuel base z []) in *. clearbody s. simpl in E.
  assert (Hp : skip_prefix base s = s).
  { destruct s as [|c [|c' [|c'' s]]]; [done|by destruct c|by destruct c; try done; destruct c'|].
    apply Forall_cons in Hx as [_ Hx]. apply Forall_cons in Hx as [[d Hd] _].
    destruct c; try done. destruct c'; try done; discriminate Hd. }
  assert (Hs : ∃ c t, s = c :: t ∧ isspace c = false ∧ c ≠ "-"%byte ∧ c ≠ "+"%byte).
  { destruct s as [|c t]; [done|]. exists c, t. apply Forall_cons in Hx as [[d Hd] _].
    split; [done|]. destruct c; try discriminate Hd; done. }
  destruct Hs as (c & t & Es & Hsp & Hm & Hpl). unfold stoi.
  assert (Hk : skip_spaces s = s) by (rewrite Es; simpl; by rewrite Hsp).
  rewrite Hk. replace (match s with "-"%byte :: t => (true, t) | "+"%byte :: t => (false, t) | _ => (false, s) end)
    with (false, s) by (rewrite Es; destruct c; congruence).
  rewrite Hp, E. cbv zeta. simpl negb. cbv iota. rewrite Z.mul_0_l, Z.add_0_l.
  destruct (Z.ltb_spec z (-2147483648)), (Z.ltb_spec 2147483647 z); lia || done.
Qed.

Lemma print_digits_no_sep fuel base z c :
  0 < base ≤ 16 → digit_value c = None → c ∉ print_digits fuel base z [].
Proof.
  intros Hb Hc Hin. pose proof (print_digits_hex fuel base z Hb) as Hx.
  rewrite Forall_forall in Hx. destruct (Hx c Hin) as [d Hd]. congruence.
Qed.
End number_facts.
