(* ===== verification/Name.v ===== *)
(** * Domain names

    The label and name functions that DnsQuestion and DnsAnswer each carry a
    verbatim copy of (src/src/dns_packet_question.cc, src/src/dns_packet_answer.cc):
    label validation, conversion from and to dotted text, and the parser of
    compressed names.  The parser is proved equivalent to the relation
    [name_at], which says what RFC 1035 Section 4.1.4 makes of a stretch of a
    packet. *)

From Stdlib Require Import ZArith Lia ZifyBool.
From Stdlib Require Import Strings.Byte Strings.String.
From stdpp Require Import base numbers list option sets.
From S2P Require Import Prelude.
From S2P Require Import Memory.
From S2P Require Import Text.

Definition DNS_MAX_POINTER_HOPS : nat := 16.

(** ** Operations *)

Section operations.
  Implicit Types (p_Label : bytes) (labels : list bytes).

Definition IsValidLabel p_Label : bool :=
  if (length p_Label =? 0)%nat || (63 <? length p_Label)%nat then false
  else if bool_decide (head p_Label = Some "-"%byte) || bool_decide (list.last p_Label = Some "-"%byte)
  then false
  else forallb (λ l_Char, isalnum l_Char || bool_decide (l_Char = "-"%byte)
                          || bool_decide (l_Char = "_"%byte)) p_Label.

(** The labels of a dotted name that pass [IsValidLabel], after the trailing dot
    is removed: the splitting loop with its final piece. *)
Definition SplitLabels (s_Domain : bytes) : list bytes :=
  let '(pieces, s_Start) := split_loop "."%byte s_Domain in
  List.filter IsValidLabel pieces
  ++ (if (s_Start <? length s_Domain)%nat
      then List.filter IsValidLabel [substr_from s_Domain s_Start] else []).

Definition LabelsFromString (p_DomainName : bytes) : list bytes :=
  match p_DomainName with
  | [] => []
  | _ => SplitLabels (drop_last_if "."%byte p_DomainName)
  end.

Definition LabelsAsString labels : bytes := join "."%byte labels.

Definition LabelsFqdn labels : bytes :=
  let s_Result := LabelsAsString labels in
  match s_Result with [] => [] | _ => s_Result ++ ["."%byte] end.

Definition AddLabel p_Label labels : bool * list bytes :=
  if IsValidLabel p_Label then (true, labels ++ [p_Label]) else (false, labels).

Definition PrependLabel p_Label labels : bool * list bytes :=
  if IsValidLabel p_Label then (true, p_Label :: labels) else (false, labels).

Definition PopLabel labels : bool * list bytes :=
  match labels with [] => (false, labels) | _ => (true, removelast labels) end.

Definition RemoveFirstLabel labels : bool * list bytes :=
  match labels with [] => (false, labels) | _ :: labels => (true, labels) end.

(** The loop of [Valid]: a label fails, or the running total. *)
Fixpoint total_length labels (s_TotalLength : nat) : option nat :=
  match labels with
  | [] => Some s_TotalLength
  | l :: labels =>
      if IsValidLabel l then total_length labels (s_TotalLength + (length l + 1)) else None
  end.

Definition ValidName labels : bool :=
  match total_length labels 0 with
  | Some s_TotalLength => (s_TotalLength + 1 <=? 255)%nat
  | None => false
  end.

Definition CalculateStringSize labels : nat :=
  let s_Size := fold_left (λ s_Sum l, s_Sum + length l + 1)%nat labels O in
  if (0 <? s_Size)%nat then (s_Size - 1)%nat else O.

(** The accumulation of [WireSize] over the labels. *)
Definition labels_size labels : nat :=
  fold_left (λ s_Sum l, if (length l <=? 63)%nat then s_Sum + 1 + length l else s_Sum)%nat labels O.

(** [EncodeDomainLabels] appends to its output. *)
Definition EncodeDomainLabels labels (p_Output : bytes) : bytes :=
  fold_left (λ out l, out ++ [ch (Z.of_nat (length l))] ++ l) labels p_Output ++ [x00].

(** The loop of [ToWire] over the labels, writing at [s_Base + s_Offset]. *)
Fixpoint WriteLabels labels (s_Output : bytes) (s_Base s_Offset : nat) : outcome (bytes * nat) :=
  match labels with
  | [] =>
      s_Output ← store_n s_Output (s_Base + s_Offset) [x00];
      Done (s_Output, S s_Offset)
  | l :: labels =>
      if (63 <? length l)%nat then WriteLabels labels s_Output s_Base s_Offset else
      s_Output ← store_n s_Output (s_Base + s_Offset) [ch (Z.of_nat (length l))];
      let s_Offset := S s_Offset in
      s_Output ← store_n s_Output (s_Base + s_Offset) l;
      WriteLabels labels s_Output s_Base (s_Offset + length l)
  end.

(** The [while] loop of [ParseDomainName]: the result, [p_Offset] and [p_Labels]. *)
Fixpoint ParseLoop (fuel : nat) (s_DataBytes : bytes) (p_Size s_ReadOffset s_PointerHops : nat)
    (s_FollowedPointer : bool) (p_Offset : nat) (p_Labels : list bytes)
    : outcome (bool * nat * list bytes) :=
  match fuel with
  | O => Unfinished
  | S fuel =>
      if (s_ReadOffset <? p_Size)%nat then
        b ← load s_DataBytes s_ReadOffset;
        let s_Length := u8 b in
        if (s_Length =? 0)%Z then
          Done (true, if s_FollowedPointer then p_Offset else S s_ReadOffset, p_Labels)
        else if (Z.land s_Length 0xC0 =? 0xC0)%Z then
          if (p_Size <=? S s_ReadOffset)%nat then Done (false, p_Offset, p_Labels) else
          let s_PointerHops := S s_PointerHops in
          if (DNS_MAX_POINTER_HOPS <? s_PointerHops)%nat then Done (false, p_Offset, p_Labels) else
          let p_Offset := if s_FollowedPointer then p_Offset else (s_ReadOffset + 2)%nat in
          b ← load s_DataBytes (S s_ReadOffset);
          let target := Z.lor (Z.shiftl (Z.land s_Length 0x3F) 8) (u8 b) in
          ParseLoop fuel s_DataBytes p_Size (Z.to_nat target) s_PointerHops true p_Offset p_Labels
        else if (63 <? s_Length)%Z then Done (false, p_Offset, p_Labels)
        else
          let s_ReadOffset := S s_ReadOffset in
          let n := Z.to_nat s_Length in
          if (p_Size <? s_ReadOffset + n)%nat then Done (false, p_Offset, p_Labels) else
          s_Label ← load_n s_DataBytes s_ReadOffset n;
          ParseLoop fuel s_DataBytes p_Size (s_ReadOffset + n) s_PointerHops s_FollowedPointer
            p_Offset (p_Labels ++ [s_Label])
      else Done (false, p_Offset, p_Labels)
  end.

(** Between two pointers the read offset only grows, and at most sixteen
    pointers are followed. *)
Definition parse_fuel (p_Size : nat) : nat := ((DNS_MAX_POINTER_HOPS + 2) * S p_Size)%nat.

Definition ParseDomainName (p_Data : bytes) (p_Size p_Offset : nat) (p_Labels : list bytes)
    : outcome (bool * nat * list bytes) :=
  ParseLoop (parse_fuel p_Size) p_Data p_Size p_Offset 0 false p_Offset p_Labels.

(** [std::hash] combination, on a 64-bit [size_type]. *)
Definition hash_combine (s_Result h : Z) : Z :=
  Z.lxor s_Result
    ((h + 0x9e3779b9 + (Z.shiftl s_Result 6) mod 2 ^ 64 + Z.shiftr s_Result 2) mod 2 ^ 64).

(** [std::string] and [std::vector<std::string>] comparison. *)
Definition string_ltb (s t : bytes) : bool := lexltb (u8 <$> s) (u8 <$> t).

Fixpoint strings_ltb (xs ys : list bytes) : bool :=
  match xs, ys with
  | x :: xs, y :: ys =>
      if string_ltb x y then true else if string_ltb y x then false else strings_ltb xs ys
  | [], _ :: _ => true
  | _, [] => false
  end.
End operations.

(** ** Specification *)

(** [name_at data p_Size o labels next hops]: the packet's first [p_Size] bytes
    hold, from offset [o], a name of these labels, reached through [hops]
    compression pointers; what follows the name in place is at [next]. *)
Inductive name_at (data : bytes) (p_Size : nat) : nat → list bytes → nat → nat → Prop :=
  | name_root o :
      o < p_Size → data !! o = Some x00 → name_at data p_Size o [] (S o) 0
  | name_label o b l labels next hops :
      o < p_Size → data !! o = Some b → (1 ≤ u8 b ≤ 63)%Z →
      length l = Z.to_nat (u8 b) → S o + length l ≤ p_Size → l = take (length l) (drop (S o) data) →
      name_at data p_Size (S o + length l) labels next hops →
      name_at data p_Size o (l :: labels) next hops
  | name_pointer o b0 b1 labels next hops :
      S o < p_Size → data !! o = Some b0 → (192 ≤ u8 b0)%Z → data !! S o = Some b1 →
      name_at data p_Size (Z.to_nat (256 * (u8 b0 - 192) + u8 b1)) labels next hops →
      name_at data p_Size o labels (o + 2) (S hops).

(** The uncompressed encoding of labels of 1 to 63 bytes. *)
Fixpoint encode_name (labels : list bytes) : bytes :=
  match labels with
  | [] => [x00]
  | l :: labels => ch (Z.of_nat (length l)) :: l ++ encode_name labels
  end.

Definition label_ok (l : bytes) : Prop := 1 ≤ length l ≤ 63.

(** ** The name parser meets its specification *)

(** Iterations left: at most [p_Size] more offsets for each pointer left. *)
Definition hop_budget (p_Size hops : nat) : nat := (DNS_MAX_POINTER_HOPS - hops) * S p_Size.

Definition parse_measure (p_Size hops o : nat) : nat := hop_budget p_Size hops + (p_Size - o) + 1.

Lemma hop_budget_S p_Size hops :
  hops < DNS_MAX_POINTER_HOPS → hop_budget p_Size hops = hop_budget p_Size (S hops) + S p_Size.
Proof. unfold hop_budget. intros. replace (_ - hops) with (S (DNS_MAX_POINTER_HOPS - S hops)); lia. Qed.

Lemma parse_measure_fuel p_Size o : parse_measure p_Size 0 o ≤ parse_fuel p_Size.
Proof. unfold parse_measure, hop_budget, parse_fuel, DNS_MAX_POINTER_HOPS. lia. Qed.

Section parser.
  Context (data : bytes) (p_Size : nat) (Hsize : p_Size ≤ length data).

(** The pointer target the parser computes. *)
Lemma pointer_target b0 b1 :
  (192 ≤ u8 b0)%Z →
  Z.lor (Z.shiftl (Z.land (u8 b0) 0x3F) 8) (u8 b1) = (256 * (u8 b0 - 192) + u8 b1)%Z.
Proof.
  intros Hb. rewrite land_3F, lor_shiftl; [|lia|apply u8_range]. byte_lia.
Qed.

(** The kinds of length byte. *)
Inductive length_kind (b : byte) : Prop :=
  | kind_root : b = x00 → length_kind b
  | kind_label : (1 ≤ u8 b ≤ 63)%Z → length_kind b
  | kind_reserved : (64 ≤ u8 b < 192)%Z → length_kind b
  | kind_pointer : (192 ≤ u8 b)%Z → length_kind b.

Lemma length_kind_of b : length_kind b.
Proof.
  pose proof (u8_range b). destruct (Z.eq_dec (u8 b) 0%Z); [by apply kind_root, u8_zero|].
  destruct (Z.le_gt_cases (u8 b) 63%Z); [apply kind_label; lia|].
  destruct (Z.lt_ge_cases (u8 b) 192%Z); [apply kind_reserved; lia|by apply kind_pointer].
Qed.

(** One iteration of the loop, by the kind of the length byte. *)
Lemma ParseLoop_end fuel o hops fp off ls :
  p_Size ≤ o → ParseLoop (S fuel) data p_Size o hops fp off ls = Done (false, off, ls).
Proof. intros. cbn [ParseLoop]. destruct (Nat.ltb_spec o p_Size); [lia|done]. Qed.

Lemma ParseLoop_root fuel o hops fp off ls :
  o < p_Size → data !! o = Some x00 →
  ParseLoop (S fuel) data p_Size o hops fp off ls = Done (true, if fp then off else S o, ls).
Proof.
  intros Ho Hb. cbn [ParseLoop]. destruct (Nat.ltb_spec o p_Size); [|lia].
  unfold load. by rewrite Hb.
Qed.

Lemma ParseLoop_reserved fuel o b hops fp off ls :
  o < p_Size → data !! o = Some b → (64 ≤ u8 b < 192)%Z →
  ParseLoop (S fuel) data p_Size o hops fp off ls = Done (false, off, ls).
Proof.
  intros Ho Hb Hk. cbn [ParseLoop]. destruct (Nat.ltb_spec o p_Size); [|lia].
  unfold load. rewrite Hb, bind_done. cbv zeta. rewrite land_C0.
  destruct (Z.eqb_spec (u8 b) 0%Z), (Z.leb_spec 192%Z (u8 b)), (Z.ltb_spec 63%Z (u8 b)); lia || done.
Qed.

Lemma ParseLoop_label fuel o b hops fp off ls :
  o < p_Size → data !! o = Some b → (1 ≤ u8 b ≤ 63)%Z →
  ParseLoop (S fuel) data p_Size o hops fp off ls =
    if (p_Size <? S o + Z.to_nat (u8 b))%nat then Done (false, off, ls)
    else ParseLoop fuel data p_Size (S o + Z.to_nat (u8 b)) hops fp off
           (ls ++ [take (Z.to_nat (u8 b)) (drop (S o) data)]).
Proof.
  intros Ho Hb Hk. cbn [ParseLoop]. destruct (Nat.ltb_spec o p_Size); [|lia].
  unfold load. rewrite Hb, bind_done. cbv zeta. rewrite land_C0.
  destruct (Z.eqb_spec (u8 b) 0%Z), (Z.leb_spec 192%Z (u8 b)), (Z.ltb_spec 63%Z (u8 b)); try lia.
  destruct (Nat.ltb_spec p_Size (S o + Z.to_nat (u8 b))); [done|].
  by rewrite load_n_Done by lia.
Qed.

Lemma ParseLoop_pointer fuel o b hops fp off ls :
  o < p_Size → data !! o = Some b → (192 ≤ u8 b)%Z →
  ∃ b1, (S o < p_Size → data !! S o = Some b1) ∧
  ParseLoop (S fuel) data p_Size o hops fp off ls =
    if (p_Size <=? S o)%nat || (DNS_MAX_POINTER_HOPS <? S hops)%nat then Done (false, off, ls)
    else ParseLoop fuel data p_Size (Z.to_nat (256 * (u8 b - 192) + u8 b1)) (S hops) true
           (if fp then off else (o + 2)%nat) ls.
Proof.
  intros Ho Hb Hk. cbn [ParseLoop]. destruct (Nat.ltb_spec o p_Size); [|lia].
  rewrite (proj2 (load_Done data o b) Hb), bind_done. cbv zeta. rewrite land_C0.
  destruct (Z.eqb_spec (u8 b) 0%Z), (Z.leb_spec 192%Z (u8 b)); try lia.
  destruct (Nat.leb_spec p_Size (S o)); [exists x00; split; [lia|done]|]. 
  destruct (load_lookup data (S o) ltac:(lia)) as (b1 & -> & E).
  exists b1. split; [done|]. destruct (_ <? _)%nat; [done|]. simpl orb.
  by rewrite bind_done, pointer_target.
Qed.

Lemma ParseLoop_sound fuel o hops fp off ls :
  hops ≤ DNS_MAX_POINTER_HOPS → parse_measure p_Size hops o ≤ fuel →
  ∃ r next ls', ParseLoop fuel data p_Size o hops fp off ls = Done (r, next, ls') ∧
    (r = true → ∃ labels m h,
       name_at data p_Size o labels m h ∧ hops + h ≤ DNS_MAX_POINTER_HOPS ∧
       ls' = ls ++ labels ∧ next = if fp then off else m).
Proof.
  unfold parse_measure. revert o hops fp off ls.
  induction fuel as [|fuel IH]; intros o hops fp off ls Hh Hf; [lia|].
  destruct (Nat.le_gt_cases p_Size o).
  { rewrite ParseLoop_end by done. by eexists _, _, _. }
  destruct (load_lookup data o ltac:(lia)) as (b & _ & Hb). destruct (length_kind_of b).
  - subst b. rewrite ParseLoop_root by done. eexists _, _, _. split; [done|]. intros _.
    exists [], (S o), 0. split_and!; [by apply name_root|lia|by rewrite app_nil_r|done].
  - rewrite (ParseLoop_label _ _ b) by done.
    destruct (Nat.ltb_spec p_Size (S o + Z.to_nat (u8 b))); [by eexists _, _, _|].
    destruct (IH (S o + Z.to_nat (u8 b)) hops fp off
               (ls ++ [take (Z.to_nat (u8 b)) (drop (S o) data)]) Hh ltac:(lia))
      as (r & next & ls' & E & Hr). exists r, next, ls'. split; [done|]. intros ->.
    destruct (Hr eq_refl) as (labels & m & h & Hn & ? & -> & ->).
    assert (Hl : length (take (Z.to_nat (u8 b)) (drop (S o) data)) = Z.to_nat (u8 b)) by len.
    eexists (_ :: labels), m, h. split_and!; [|done|by rewrite <- app_assoc|done].
    apply name_label with b; try done; rewrite Hl; done || lia.
  - rewrite (ParseLoop_reserved _ _ b) by done. by eexists _, _, _.
  - destruct (ParseLoop_pointer fuel o b hops fp off ls) as (b1 & Hb1 & ->); [done..|].
    destruct (Nat.leb_spec p_Size (S o)); [by eexists _, _, _|].
    destruct (Nat.ltb_spec DNS_MAX_POINTER_HOPS (S hops)); [by eexists _, _, _|]. simpl orb. cbv iota.
    edestruct (IH (Z.to_nat (256 * (u8 b - 192) + u8 b1)) (S hops) true) as (r & next & ls' & E & Hr);
      [lia|pose proof (hop_budget_S p_Size hops); lia|].
    exists r, next, ls'. split; [done|]. intros ->.
    destruct (Hr eq_refl) as (labels & m & h & Hn & ? & -> & ->).
    exists labels, (o + 2), (S h). split_and!; [|lia|done|done].
    apply name_pointer with b b1 m; auto.
Qed.

Lemma ParseLoop_complete o labels m h :
  name_at data p_Size o labels m h →
  ∀ fuel hops fp off ls, parse_measure p_Size hops o ≤ fuel → hops + h ≤ DNS_MAX_POINTER_HOPS →
  ParseLoop fuel data p_Size o hops fp off ls = Done (true, if fp then off else m, ls ++ labels).
Proof.
  unfold parse_measure.
  induction 1 as [o Ho Hb|o b l labels m h Ho Hb Hk Hl Hs El Hn IH|o b0 b1 labels m h Ho Hb Hk Hb1 Hn IH];
    intros fuel hops fp off ls Hf Hh; destruct fuel as [|fuel]; try lia.
  - rewrite ParseLoop_root by done. by rewrite app_nil_r.
  - rewrite (ParseLoop_label _ _ b) by done. rewrite <- Hl.
    destruct (Nat.ltb_spec p_Size (S o + length l)); [lia|].
    rewrite IH by lia. rewrite <- El, <- app_assoc. done.
  - destruct (ParseLoop_pointer fuel o b0 hops fp off ls) as (b1' & Hb1' & ->); [lia|done..|].
    assert (b1' = b1) as -> by (specialize (Hb1' Ho); congruence).
    destruct (Nat.leb_spec p_Size (S o)); [lia|].
    destruct (Nat.ltb_spec DNS_MAX_POINTER_HOPS (S hops)); [lia|]. simpl orb. cbv iota.
    rewrite IH; [done|pose proof (hop_budget_S p_Size hops); lia|lia].
Qed.

Lemma ParseDomainName_iff o ls :
  ∃ r next ls', ParseDomainName data p_Size o ls = Done (r, next, ls') ∧
    ∀ labels m,
      (r = true ∧ ls' = ls ++ labels ∧ next = m) ↔
      ∃ h, name_at data p_Size o labels m h ∧ h ≤ DNS_MAX_POINTER_HOPS.
Proof.
  unfold ParseDomainName. pose proof (parse_measure_fuel p_Size o) as Hf.
  destruct (ParseLoop_sound _ o 0 false o ls ltac:(lia) Hf) as (r & next & ls' & E & Hr).
  exists r, next, ls'. split; [done|]. intros labels m. split.
  - intros (-> & -> & <-). destruct (Hr eq_refl) as (labels' & m & h & Hn & ? & El & ->).
    apply app_inv_head in El as <-. by exists h.
  - intros (h & Hn & Hh).
    rewrite (ParseLoop_complete o labels m h Hn) in E by (simpl; lia || done). by simplify_eq.
Qed.
End parser.

(** ** Encoded names *)

Section encoding.
  Implicit Types (labels : list bytes) (l : bytes).

Lemma length_encode_name labels :
  length (encode_name labels) = S (sum_list_with (λ l, S (length l)) labels).
Proof. induction labels as [|l labels IH]; simpl; [done|]. rewrite length_app. lia. Qed.

Lemma encode_name_app out labels :
  fold_left (λ out l, out ++ [ch (Z.of_nat (length l))] ++ l) labels out ++ [x00]
  = out ++ encode_name labels.
Proof.
  revert out. induction labels as [|l labels IH]; intros out; simpl; [done|].
  rewrite IH, <- app_assoc. done.
Qed.

Lemma EncodeDomainLabels_encode labels out :
  EncodeDomainLabels labels out = out ++ encode_name labels.
Proof. apply encode_name_app. Qed.

(** The labels that [ToWire] and [WireSize] keep. *)
Definition kept labels : list bytes := List.filter (λ l, length l <=? 63)%nat labels.

Lemma kept_ok labels : Forall (λ l, length l ≤ 63) labels → kept labels = labels.
Proof.
  induction 1 as [|l labels Hl _ IH]; simpl; [done|].
  destruct (Nat.leb_spec (length l) 63); [by rewrite IH|lia].
Qed.

Lemma label_ok_kept labels : Forall label_ok labels → kept labels = labels.
Proof. intros. apply kept_ok. eapply Forall_impl; [done|]. unfold label_ok. lia. Qed.

Lemma labels_size_kept labels : S (labels_size labels) = length (encode_name (kept labels)).
Proof.
  rewrite length_encode_name. f_equal. unfold labels_size.
  enough (E : ∀ n, fold_left (λ s_Sum l, if (length l <=? 63)%nat then s_Sum + 1 + length l else s_Sum)
                     labels n = n + sum_list_with (λ l, S (length l)) (kept labels)) by apply E.
  induction labels as [|l labels IH]; intros n; simpl; [lia|].
  destruct (Nat.leb_spec (length l) 63); simpl; rewrite IH; lia.
Qed.

Lemma WriteLabels_Done labels out s_Base s_Offset :
  s_Base + s_Offset + length (encode_name (kept labels)) ≤ length out →
  WriteLabels labels out s_Base s_Offset =
    Done (splice out (s_Base + s_Offset) (encode_name (kept labels)),
          s_Offset + length (encode_name (kept labels))).
Proof.
  revert out s_Offset. induction labels as [|l labels IH]; intros out o Hl.
  - simpl in *. rewrite store_n_Done by (simpl; lia). rewrite bind_done. do 2 f_equal. lia.
  - simpl in Hl |- *. destruct (Nat.leb_spec (length l) 63) as [Hs|], (Nat.ltb_spec 63 (length l)); try lia.
    + simpl in Hl |- *. rewrite length_app in Hl.
      rewrite store_n_Done by (simpl; lia). rewrite bind_done.
      rewrite store_n_Done by (rewrite length_splice; simpl; lia). rewrite bind_done.
      replace (s_Base + S o) with (s_Base + o + length [ch (Z.of_nat (length l))]) by (simpl; lia).
      rewrite splice_splice by (simpl; lia).
      rewrite IH by (rewrite length_splice; simpl; lia). do 2 f_equal.
      * replace (s_Base + S (o + length l))
          with (s_Base + o + length ([ch (Z.of_nat (length l))] ++ l)) by (simpl; lia).
        rewrite splice_splice by (simpl; lia). by rewrite <- app_assoc.
      * rewrite length_app. lia.
    + by rewrite IH.
Qed.

Lemma u8_label_length l : length l ≤ 63 → u8 (ch (Z.of_nat (length l))) = Z.of_nat (length l).
Proof. intros. apply u8_ch_small. lia. Qed.

(** An encoded name, in a packet, is the name of its labels. *)
Lemma name_at_encode data p_Size pre labels post :
  Forall label_ok labels → data = pre ++ encode_name labels ++ post →
  length pre + length (encode_name labels) ≤ p_Size →
  name_at data p_Size (length pre) labels (length pre + length (encode_name labels)) 0.
Proof.
  intros Hok. revert pre. induction Hok as [|l labels Hl Hok IH]; intros pre E0 Hs.
  - simpl in *. replace (length pre + 1) with (S (length pre)) by lia. apply name_root; [lia|].
    subst. by apply list_lookup_middle.
  - simpl in *. unfold label_ok in Hl. rewrite length_app in *.
    pose proof (u8_label_length l ltac:(lia)) as Hu.
    set (x := ch (Z.of_nat (length l))) in *.
    assert (E : data = (pre ++ x :: l) ++ encode_name labels ++ post).
    { rewrite E0. repeat (rewrite <- app_assoc; simpl). done. }
    assert (E' : data = (pre ++ [x]) ++ l ++ encode_name labels ++ post).
    { rewrite E. repeat (rewrite <- app_assoc; simpl). done. }
    apply name_label with x; rewrite ?Hu; try lia.
    + rewrite E0. by apply list_lookup_middle.
    + replace (S (length pre)) with (length (pre ++ [x])) by (rewrite length_app; simpl; lia).
      by rewrite E', drop_app_length, take_app_length.
    + specialize (IH _ E). rewrite length_app in IH. simpl in IH.
      replace (S (length pre) + length l) with (length pre + S (length l)) by lia.
      replace (length pre + S (length l + length (encode_name labels)))
        with (length pre + S (length l) + length (encode_name labels)) by lia.
      apply IH. lia.
Qed.

Lemma name_at_labels_ok data p_Size o labels m h :
  name_at data p_Size o labels m h → Forall label_ok labels.
Proof.
  induction 1; auto. constructor; [unfold label_ok; lia|done].
Qed.

Lemma name_at_next data p_Size o labels m h :
  name_at data p_Size o labels m h → o < m ≤ p_Size.
Proof. induction 1; lia. Qed.

(** Reading back a name that was written without compression. *)
Lemma ParseDomainName_encode data p_Size pre labels post ls :
  p_Size ≤ length data → Forall label_ok labels → data = pre ++ encode_name labels ++ post →
  length pre + length (encode_name labels) ≤ p_Size →
  ParseDomainName data p_Size (length pre) ls =
    Done (true, length pre + length (encode_name labels), ls ++ labels).
Proof.
  intros Hd Hok E Hs. unfold ParseDomainName.
  pose proof (name_at_encode data p_Size pre labels post Hok E Hs) as Hn.
  rewrite (ParseLoop_complete data p_Size Hd _ _ _ _ Hn); [done|apply parse_measure_fuel|lia].
Qed.

Lemma ParseDomainName_returns data p_Size o ls :
  p_Size ≤ length data →
  ∃ r next ls', ParseDomainName data p_Size o ls = Done (r, next, ls').
Proof.
  intros Hd. pose proof (parse_measure_fuel p_Size o) as Hf.
  destruct (ParseLoop_sound data p_Size Hd _ o 0 false o ls ltac:(lia) Hf) as (r & n & ls' & E & _).
  by exists r, n, ls'.
Qed.

(** What a successful parse gives its callers. *)
Lemma ParseDomainName_true data p_Size o ls next ls' :
  p_Size ≤ length data → ParseDomainName data p_Size o ls = Done (true, next, ls') →
  ∃ labels h, name_at data p_Size o labels next h ∧ ls' = ls ++ labels ∧
              Forall label_ok labels ∧ o < next ≤ p_Size.
Proof.
  intros Hd E. pose proof (parse_measure_fuel p_Size o) as Hf.
  destruct (ParseLoop_sound data p_Size Hd _ o 0 false o ls ltac:(lia) Hf) as (r & n & ls0 & E' & Hr).
  unfold ParseDomainName in E. rewrite E in E'. simplify_eq.
  destruct (Hr eq_refl) as (labels & m & h & Hn & _ & -> & ->).
  pose proof (name_at_next _ _ _ _ _ _ Hn).
  exists labels, h. split_and!; [done|done|by eapply name_at_labels_ok|lia..].
Qed.
End encoding.

(** ** Names as text *)

Section text.
  Implicit Types (labels : list bytes) (l s : bytes).

Lemma filter_all (f : bytes → bool) labels :
  Forall (λ l, f l = true) labels → List.filter f labels = labels.
Proof. induction 1 as [|l labels Hl _ IH]; simpl; [done|]. by rewrite Hl, IH. Qed.

Lemma IsValidLabel_ne l : IsValidLabel l = true → l ≠ [].
Proof. intros H E. rewrite E in H. discriminate H. Qed.

Lemma IsValidLabel_ok l : IsValidLabel l = true → label_ok l.
Proof.
  unfold IsValidLabel, label_ok. intros H.
  destruct (Nat.eqb_spec (length l) 0), (Nat.ltb_spec 63 (length l)); simpl in H; lia || done.
Qed.

Lemma IsValidLabel_chars l c :
  IsValidLabel l = true → c ∈ l → isalnum c = true ∨ c = "-"%byte ∨ c = "_"%byte.
Proof.
  unfold IsValidLabel. intros H Hc. destruct (_ || _); [done|]. destruct (_ || _); [done|].
  rewrite forallb_forall in H. apply list_elem_of_In in Hc. specialize (H c Hc).
  rewrite !orb_true_iff, !bool_decide_eq_true in H. tauto.
Qed.

Lemma IsValidLabel_no_dot l : IsValidLabel l = true → "."%byte ∉ l.
Proof.
  intros Hl Hd. by destruct (IsValidLabel_chars l _ Hl Hd) as [?|[?|?]].
Qed.

(** The splitting loop keeps the valid pieces. *)
Lemma SplitLabels_filter s : SplitLabels s = List.filter IsValidLabel (split_on "."%byte s).
Proof.
  unfold SplitLabels. pose proof (split_loop_split "."%byte s) as Hs.
  destruct (split_loop _ _) as [ps i]. destruct Hs as (-> & Hi & _).
  rewrite List.filter_app. f_equal. destruct (Nat.ltb_spec i (length s)); [done|].
  rewrite drop_ge by lia. reflexivity.
Qed.

Lemma LabelsFromString_valid s : Forall (λ l, IsValidLabel l = true) (LabelsFromString s).
Proof.
  unfold LabelsFromString. destruct s; [done|]. rewrite SplitLabels_filter.
  apply Forall_forall. intros l Hl%list_elem_of_In%List.filter_In. tauto.
Qed.

Lemma drop_last_if_snoc c s : drop_last_if c (s ++ [c]) = s.
Proof. unfold drop_last_if. rewrite last_snoc, decide_True by done. apply removelast_last. Qed.

Lemma drop_last_if_join labels :
  Forall (λ l, IsValidLabel l = true) labels →
  drop_last_if "."%byte (LabelsAsString labels) = LabelsAsString labels.
Proof.
  intros Hv. unfold drop_last_if. destruct (decide _) as [E|]; [exfalso|done].
  destruct labels as [|l labels _] using rev_ind; [done|].
  apply Forall_app in Hv as [_ Hl]. rewrite Forall_singleton in Hl.
  unfold LabelsAsString in E. rewrite last_join in E by (by apply IsValidLabel_ne).
  apply last_Some_elem_of in E. by apply (IsValidLabel_no_dot l).
Qed.

(** Converting valid labels to dotted text and back gives the same labels, with or
    without the trailing dot of the fully qualified form. *)
Theorem labels_text_roundtrip labels :
  Forall (λ l, IsValidLabel l = true) labels →
  LabelsFromString (LabelsAsString labels) = labels ∧
  LabelsFromString (LabelsFqdn labels) = labels.
Proof.
  intros Hv. destruct labels as [|l labels]; [done|].
  assert (E : SplitLabels (LabelsAsString (l :: labels)) = l :: labels).
  { rewrite SplitLabels_filter. unfold LabelsAsString. rewrite split_on_join; [|done|].
    - by apply filter_all.
    - eapply Forall_impl; [done|]. simpl. intros. by apply IsValidLabel_no_dot. }
  assert (Hne : LabelsAsString (l :: labels) ≠ []).
  { apply Forall_cons in Hv as [Hl _]. cbv beta in Hl. apply join_nonempty with l; [by apply IsValidLabel_ne|by left]. }
  split.
  - unfold LabelsFromString. rewrite drop_last_if_join by done.
    by destruct (LabelsAsString (l :: labels)).
  - unfold LabelsFqdn, LabelsFromString. cbv zeta.
    destruct (LabelsAsString (l :: labels)) as [|c s] eqn:J; [done|].
    cbn [app]. change (c :: s ++ ["."%byte]) with ((c :: s) ++ ["."%byte]).
    by rewrite drop_last_if_snoc.
Qed.

Lemma labels_text_roundtrip_witness :
  Forall (λ l, IsValidLabel l = true) [str "_sip"; str "example"; str "com"] ∧
  LabelsFromString (LabelsAsString [str "_sip"; str "example"; str "com"])
    = [str "_sip"; str "example"; str "com"] ∧
  LabelsFromString (LabelsFqdn [str "_sip"; str "example"; str "com"])
    = [str "_sip"; str "example"; str "com"].
Proof.
  assert (H : Forall (λ l, IsValidLabel l = true) [str "_sip"; str "example"; str "com"]).
  { repeat constructor. }
  split; [exact H|]. exact (labels_text_roundtrip _ H).
Defined.

Lemma total_length_spec labels n :
  total_length labels n =
    if forallb IsValidLabel labels
    then Some (n + sum_list_with (λ l, S (length l)) labels) else None.
Proof.
  revert n. induction labels as [|l labels IH]; intros n; simpl; [f_equal; lia|].
  destruct (IsValidLabel l); simpl; [|done]. rewrite IH. destruct (forallb _ _); [|done].
  f_equal. lia.
Qed.

(** [Valid] accepts exactly the names of valid labels that fit in 255 bytes. *)
Lemma ValidName_spec labels :
  ValidName labels = true ↔
  Forall (λ l, IsValidLabel l = true) labels ∧ length (encode_name labels) ≤ 255.
Proof.
  unfold ValidName. rewrite total_length_spec, length_encode_name, Forall_forall.
  destruct (forallb _ labels) eqn:E.
  - rewrite forallb_forall in E. setoid_rewrite list_elem_of_In.
    rewrite Nat.leb_le. intuition lia.
  - split; [done|]. intros [Hv _]. rewrite <- not_true_iff_false, forallb_forall in E.
    destruct E. intros l Hl%list_elem_of_In. auto.
Qed.

Lemma CalculateStringSize_spec labels :
  CalculateStringSize labels = length (LabelsAsString labels).
Proof.
  assert (E : ∀ ls n, fold_left (λ n l, n + length l + 1) ls n
                      = n + sum_list_with (λ l, S (length l)) ls).
  { induction ls as [|l ls IH]; intros n; simpl; [lia|]. rewrite IH. lia. }
  unfold CalculateStringSize. rewrite E. clear E. unfold LabelsAsString.
  assert (E : ∀ l ls, length (join "."%byte (l :: ls)) + 1 = sum_list_with (λ l, S (length l)) (l :: ls)).
  { intros l ls. revert l. induction ls as [|k ls IH]; intros l; [simpl; lia|].
    change (join _ (l :: k :: ls)) with (l ++ "."%byte :: join "."%byte (k :: ls)).
    rewrite length_app. specialize (IH k). simpl in *. lia. }
  destruct labels as [|l labels]; [done|]. rewrite <- E.
  destruct (Nat.ltb_spec 0 (0 + (length (join "."%byte (l :: labels)) + 1))); lia.
Qed.

Lemma string_ltb_eq_or s t : string_ltb s t = false → string_ltb t s = false → s = t.
Proof.
  intros H1 H2. unfold string_ltb in *.
  destruct (lexltb_total (u8 <$> s) (u8 <$> t)) as [?|[E|?]]; [congruence| |congruence].
  by apply (inj (fmap u8)) in E.
Qed.

Lemma strings_ltb_irrefl xs : strings_ltb xs xs = false.
Proof.
  induction xs as [|x xs IH]; simpl; [done|]. unfold string_ltb. by rewrite !lexltb_irrefl.
Qed.

Lemma strings_ltb_trans xs ys zs :
  strings_ltb xs ys = true → strings_ltb ys zs = true → strings_ltb xs zs = true.
Proof.
  revert ys zs. induction xs as [|x xs IH]; intros [|y ys] [|z zs]; simpl; try done.
  destruct (string_ltb x y) eqn:Exy; [intros _|destruct (string_ltb y x) eqn:Eyx; [done|]].
  - destruct (string_ltb y z) eqn:Eyz; [|destruct (string_ltb z y) eqn:Ezy; [done|]]; intros H.
    + unfold string_ltb in *. by rewrite (lexltb_trans _ _ _ Exy Eyz).
    + rewrite <- (string_ltb_eq_or y z Eyz Ezy). by rewrite Exy.
  - rewrite (string_ltb_eq_or x y Exy Eyx).
    destruct (string_ltb y z); [done|]. destruct (string_ltb z y); [done|]. eauto.
Qed.

Lemma strings_ltb_total xs ys : strings_ltb xs ys = true ∨ xs = ys ∨ strings_ltb ys xs = true.
Proof.
  revert ys. induction xs as [|x xs IH]; intros [|y ys]; simpl; auto.
  destruct (string_ltb x y) eqn:Exy; [auto|]. destruct (string_ltb y x) eqn:Eyx; [auto|].
  rewrite (string_ltb_eq_or x y Exy Eyx). destruct (IH ys) as [|[->|]]; auto.
Qed.
End text.

(** ** The parser's contract *)

(** C17: the name parser terminates, never reads outside the packet, and succeeds exactly
    on the names of RFC 1035 Section 4.1.4 that are reached through at most sixteen
    compression pointers, appending exactly their labels and leaving the offset after the
    name as it stands in place (so after the first pointer when there is one). *)
Theorem ParseDomainName_spec data p_Size o ls :
  p_Size ≤ length data →
  ∃ r next ls', ParseDomainName data p_Size o ls = Done (r, next, ls') ∧
    ∀ labels m,
      (r = true ∧ ls' = ls ++ labels ∧ next = m) ↔
      ∃ h, name_at data p_Size o labels m h ∧ h ≤ DNS_MAX_POINTER_HOPS.
Proof. intros Hd. by apply ParseDomainName_iff. Qed.

(** A packet with a pointer: "www" followed by a pointer to "a.com". *)
Definition example_packet : bytes :=
  [x01; x61; x03; x63; x6f; x6d; x00; x03; x77; x77; x77; xc0; x00].

Lemma ParseDomainName_spec_witness :
  13 ≤ length example_packet ∧
  ∃ r next ls', ParseDomainName example_packet 13 7 [] = Done (r, next, ls') ∧
    ∀ labels m,
      (r = true ∧ ls' = [] ++ labels ∧ next = m) ↔
      ∃ h, name_at example_packet 13 7 labels m h ∧ h ≤ DNS_MAX_POINTER_HOPS.
Proof.
  split; [simpl; lia|]. apply (ParseDomainName_spec example_packet 13 7 []). simpl. lia.
Defined.

Example ParseDomainName_example :
  ParseDomainName example_packet 13 7 [] = Done (true, 13, [str "www"; str "a"; str "com"]).
Proof. vm_compute. reflexivity. Qed.
