(* ===== verification/DnsHeader.v ===== *)
(** * The packet header (src/include/dns_packet_header.h, src/src/dns_packet_header.cc)

    The six 16-bit members are kept as the class keeps them, in network byte
    order on a host of either endianness.  The abstract view of a header is the
    record [Fields] of RFC 1035 Section 4.1.1; the theorems show that every
    accessor and mutator of the packed flag word implements its field. *)

From Stdlib Require Import ZArith Lia ZifyBool.
From Stdlib Require Import Strings.Byte.
From stdpp Require Import base numbers list option.
From S2P Require Import Prelude.
From S2P Require Import Memory.
From S2P Require Import Utils.

Local Open Scope Z_scope.

(** ** Data *)

Record DnsHeader : Type := {
  m_Id_ : Z;
  m_Flags_ : Z;
  m_Qdcount_ : Z;
  m_Ancount_ : Z;
  m_Nscount_ : Z;
  m_Arcount_ : Z
}.

Definition HeaderSize : nat := 12.

#[export] Instance DnsHeader_eq_dec : EqDecision DnsHeader.
Proof. solve_decision. Defined.

(** [clear], and the default constructor. *)
Definition clear : DnsHeader := {|
  m_Id_ := 0; m_Flags_ := 0; m_Qdcount_ := 0;
  m_Ancount_ := 0; m_Nscount_ := 0; m_Arcount_ := 0 |}.

(** ** Operations *)

Section operations.
  Context {H : Target}.
  Implicit Types (h : DnsHeader) (p_Raw p_Value : bool).

Definition Id p_Raw h : Z := if p_Raw then m_Id_ h else NetworkToHost 2 (m_Id_ h).
Definition Flags p_Raw h : Z := if p_Raw then m_Flags_ h else NetworkToHost 2 (m_Flags_ h).
Definition Qdcount p_Raw h : Z := if p_Raw then m_Qdcount_ h else NetworkToHost 2 (m_Qdcount_ h).
Definition Ancount p_Raw h : Z := if p_Raw then m_Ancount_ h else NetworkToHost 2 (m_Ancount_ h).
Definition Nscount p_Raw h : Z := if p_Raw then m_Nscount_ h else NetworkToHost 2 (m_Nscount_ h).
Definition Arcount p_Raw h : Z := if p_Raw then m_Arcount_ h else NetworkToHost 2 (m_Arcount_ h).

Definition Qr p_Raw h : bool := tobool (Z.land (Z.shiftr (Flags p_Raw h) 15) 0x1).
Definition Opcode p_Raw h : Z := Z.land (Z.shiftr (Flags p_Raw h) 11) 0xF.
Definition Aa p_Raw h : bool := tobool (Z.land (Z.shiftr (Flags p_Raw h) 10) 0x1).
Definition Tc p_Raw h : bool := tobool (Z.land (Z.shiftr (Flags p_Raw h) 9) 0x1).
Definition Rd p_Raw h : bool := tobool (Z.land (Z.shiftr (Flags p_Raw h) 8) 0x1).
Definition Ra p_Raw h : bool := tobool (Z.land (Z.shiftr (Flags p_Raw h) 7) 0x1).
Definition Zb p_Raw h : bool := tobool (Z.land (Z.shiftr (Flags p_Raw h) 6) 0x1).
Definition Ad p_Raw h : bool := tobool (Z.land (Z.shiftr (Flags p_Raw h) 5) 0x1).
Definition Cd p_Raw h : bool := tobool (Z.land (Z.shiftr (Flags p_Raw h) 4) 0x1).
Definition Rcode p_Raw h : Z := Z.land (Flags p_Raw h) 0xF.

(** Assignments to one member. *)
Definition with_Id (v : Z) h : DnsHeader :=
  {| m_Id_ := v; m_Flags_ := m_Flags_ h; m_Qdcount_ := m_Qdcount_ h;
     m_Ancount_ := m_Ancount_ h; m_Nscount_ := m_Nscount_ h; m_Arcount_ := m_Arcount_ h |}.
Definition with_Flags (v : Z) h : DnsHeader :=
  {| m_Id_ := m_Id_ h; m_Flags_ := v; m_Qdcount_ := m_Qdcount_ h;
     m_Ancount_ := m_Ancount_ h; m_Nscount_ := m_Nscount_ h; m_Arcount_ := m_Arcount_ h |}.
Definition with_Qdcount (v : Z) h : DnsHeader :=
  {| m_Id_ := m_Id_ h; m_Flags_ := m_Flags_ h; m_Qdcount_ := v;
     m_Ancount_ := m_Ancount_ h; m_Nscount_ := m_Nscount_ h; m_Arcount_ := m_Arcount_ h |}.
Definition with_Ancount (v : Z) h : DnsHeader :=
  {| m_Id_ := m_Id_ h; m_Flags_ := m_Flags_ h; m_Qdcount_ := m_Qdcount_ h;
     m_Ancount_ := v; m_Nscount_ := m_Nscount_ h; m_Arcount_ := m_Arcount_ h |}.
Definition with_Nscount (v : Z) h : DnsHeader :=
  {| m_Id_ := m_Id_ h; m_Flags_ := m_Flags_ h; m_Qdcount_ := m_Qdcount_ h;
     m_Ancount_ := m_Ancount_ h; m_Nscount_ := v; m_Arcount_ := m_Arcount_ h |}.
Definition with_Arcount (v : Z) h : DnsHeader :=
  {| m_Id_ := m_Id_ h; m_Flags_ := m_Flags_ h; m_Qdcount_ := m_Qdcount_ h;
     m_Ancount_ := m_Ancount_ h; m_Nscount_ := m_Nscount_ h; m_Arcount_ := v |}.

Definition SetId (v : Z) p_Raw h := with_Id (if p_Raw then v else HostToNetwork 2 v) h.
Definition SetFlags (v : Z) p_Raw h := with_Flags (if p_Raw then v else HostToNetwork 2 v) h.
Definition SetQdcount (v : Z) p_Raw h := with_Qdcount (if p_Raw then v else HostToNetwork 2 v) h.
Definition SetAncount (v : Z) p_Raw h := with_Ancount (if p_Raw then v else HostToNetwork 2 v) h.
Definition SetNscount (v : Z) p_Raw h := with_Nscount (if p_Raw then v else HostToNetwork 2 v) h.
Definition SetArcount (v : Z) p_Raw h := with_Arcount (if p_Raw then v else HostToNetwork 2 v) h.

Definition SetFlagBit (p_Bit : Z) (p_Value p_Raw : bool) h : DnsHeader :=
  if p_Bit >=? 16 then h
  else if p_Raw then
    if p_Value then with_Flags (u16 (Z.lor (m_Flags_ h) (Z.shiftl 1 p_Bit))) h
    else with_Flags (u16 (Z.land (m_Flags_ h) (Z.lnot (Z.shiftl 1 p_Bit)))) h
  else
    let s_Flags := Flags false h in
    let s_Flags :=
      if p_Value then u16 (Z.lor s_Flags (Z.shiftl 1 p_Bit))
      else u16 (Z.land s_Flags (Z.lnot (Z.shiftl 1 p_Bit))) in
    SetFlags s_Flags false h.

Definition SetFlagValue (p_BitPos p_Mask p_Value : Z) (p_Raw : bool) h : DnsHeader :=
  if p_BitPos >=? 16 then h
  else
    let s_MaskedValue := Z.land p_Value (Z.land p_Mask 0xFF) in
    if p_Raw then
      let h := with_Flags (u16 (Z.land (m_Flags_ h) (Z.lnot (Z.shiftl p_Mask p_BitPos)))) h in
      with_Flags (u16 (Z.lor (m_Flags_ h) (Z.shiftl s_MaskedValue p_BitPos))) h
    else
      let s_Flags := Flags false h in
      let s_Flags := u16 (Z.land s_Flags (Z.lnot (Z.shiftl p_Mask p_BitPos))) in
      let s_Flags := u16 (Z.lor s_Flags (Z.shiftl s_MaskedValue p_BitPos)) in
      SetFlags s_Flags false h.

Definition SetQr p_Value p_Raw h := SetFlagBit 15 p_Value p_Raw h.
Definition SetOpcode (v : Z) p_Raw h := SetFlagValue 11 0xF v p_Raw h.
Definition SetAa p_Value p_Raw h := SetFlagBit 10 p_Value p_Raw h.
Definition SetTc p_Value p_Raw h := SetFlagBit 9 p_Value p_Raw h.
Definition SetRd p_Value p_Raw h := SetFlagBit 8 p_Value p_Raw h.
Definition SetRa p_Value p_Raw h := SetFlagBit 7 p_Value p_Raw h.
Definition SetZ p_Value p_Raw h := SetFlagBit 6 p_Value p_Raw h.
Definition SetAd p_Value p_Raw h := SetFlagBit 5 p_Value p_Raw h.
Definition SetCd p_Value p_Raw h := SetFlagBit 4 p_Value p_Raw h.
Definition SetRcode (v : Z) p_Raw h := SetFlagValue 0 0xF v p_Raw h.

(** The constructor from the six values. *)
Definition make (p_Id p_Flags p_Qdcount p_Ancount p_Nscount p_Arcount : Z) : DnsHeader :=
  let h := SetId p_Id false clear in
  let h := SetFlags p_Flags false h in
  let h := SetQdcount p_Qdcount false h in
  let h := SetAncount p_Ancount false h in
  let h := SetNscount p_Nscount false h in
  SetArcount p_Arcount false h.

Definition MakeQueryHeader (p_Id p_Opcode : Z) (p_RecursionDesired : bool)
    (p_QuestionCount : Z) : DnsHeader :=
  let s_Header := SetId p_Id false clear in
  let s_Header := SetQr false false s_Header in
  let s_Header := SetOpcode p_Opcode false s_Header in
  let s_Header := SetRd p_RecursionDesired false s_Header in
  let s_Header := SetZ false false s_Header in
  let s_Header := SetRcode 0 false s_Header in
  SetQdcount p_QuestionCount false s_Header.

Definition MakeResponseHeader (p_QueryHeader : DnsHeader) (p_Rcode : Z)
    (p_Authoritative p_RecursionAvailable : bool) : DnsHeader :=
  let s_Header := SetId (Id false p_QueryHeader) false clear in
  let s_Header := SetQr true false s_Header in
  let s_Header := SetOpcode (Opcode false p_QueryHeader) false s_Header in
  let s_Header := SetAa p_Authoritative false s_Header in
  let s_Header := SetRd (Rd false p_QueryHeader) false s_Header in
  let s_Header := SetRa p_RecursionAvailable false s_Header in
  let s_Header := SetZ false false s_Header in
  SetRcode p_Rcode false s_Header.

(** [swap], as the pair of objects after the call. *)
Definition swap h (p_Other : DnsHeader) : DnsHeader * DnsHeader := (p_Other, h).

Definition empty h : bool :=
  (m_Flags_ h =? 0) && (m_Qdcount_ h =? 0) && (m_Ancount_ h =? 0)
  && (m_Nscount_ h =? 0) && (m_Arcount_ h =? 0).

Definition size : nat := HeaderSize.
Definition max_size : nat := HeaderSize.
Definition WireSize : nat := HeaderSize.

Definition UpdateCounts (p_QuestionCount p_AnswerCount p_AuthorityCount p_AdditionalCount : Z) h :=
  let h := SetQdcount p_QuestionCount false h in
  let h := SetAncount p_AnswerCount false h in
  let h := SetNscount p_AuthorityCount false h in
  SetArcount p_AdditionalCount false h.

Definition CountsMatch (q a n r : Z) h : bool :=
  (Qdcount false h =? q) && (Ancount false h =? a)
  && (Nscount false h =? n) && (Arcount false h =? r).

Definition TotalRecords h : Z :=
  u32 (u32 (u32 (Qdcount false h + Ancount false h) + Nscount false h) + Arcount false h).

(** The returned count and the header afterwards; [p_Section] is the character. *)
Definition IncrementCount (p_Section : byte) h : Z * DnsHeader :=
  match p_Section with
  | "q"%byte | "Q"%byte =>
      if Qdcount false h =? UINT16_MAX then (0, h)
      else let s_NewCount := u16 (Qdcount false h + 1) in
           (s_NewCount, SetQdcount s_NewCount false h)
  | "a"%byte | "A"%byte =>
      if Ancount false h =? UINT16_MAX then (0, h)
      else let s_NewCount := u16 (Ancount false h + 1) in
           (s_NewCount, SetAncount s_NewCount false h)
  | "n"%byte | "N"%byte =>
      if Nscount false h =? UINT16_MAX then (0, h)
      else let s_NewCount := u16 (Nscount false h + 1) in
           (s_NewCount, SetNscount s_NewCount false h)
  | "r"%byte | "R"%byte =>
      if Arcount false h =? UINT16_MAX then (0, h)
      else let s_NewCount := u16 (Arcount false h + 1) in
           (s_NewCount, SetArcount s_NewCount false h)
  | _ => (0, h)
  end.

Definition MakeResponse (p_Query : DnsHeader) h : DnsHeader :=
  let h := SetId (Id false p_Query) false h in
  let h := SetQr true false h in
  let h := SetOpcode (Opcode false p_Query) false h in
  let h := SetRd (Rd false p_Query) false h in
  SetRa true false h.

Definition MakeErrorResponse (p_QueryHeader : DnsHeader) (p_ErrorCode : Z) h : DnsHeader :=
  let h := MakeResponse p_QueryHeader h in
  let h := SetRcode p_ErrorCode false h in
  UpdateCounts 0 0 0 0 h.

Definition Valid h : bool := Bool.eqb (Zb false h) false.
Definition IsQuery h : bool := negb (Qr false h).
Definition IsSimpleQuery h : bool :=
  IsQuery h && (Qdcount false h =? 1) && (Ancount false h =? 0)
  && (Nscount false h =? 0) && (Arcount false h =? 0).
Definition IsResponse h : bool := Qr false h.
Definition HasError h : bool := negb (Rcode false h =? 0).
Definition IsStandardQuery h : bool := Opcode false h =? 0.

(** [std::hash] of the two integer types is the standard library's. *)
Definition Hash (hash64 hash32 : Z → Z) h : Z :=
  Z.lxor
    (hash64 (Z.lor (Z.lor (Z.lor (Z.shiftl (m_Id_ h) 48) (Z.shiftl (m_Flags_ h) 32))
                          (Z.shiftl (m_Qdcount_ h) 16)) (m_Ancount_ h)))
    (hash32 (Z.lor (Z.shiftl (m_Nscount_ h) 16) (m_Arcount_ h))).

(** The six members overwritten by twelve bytes, as [std::copy] to [&m_Id_] does,
    and read back. *)
Definition of_memory (bs : bytes) : DnsHeader :=
  {| m_Id_ := object_value (take 2 bs);
     m_Flags_ := object_value (take 2 (drop 2 bs));
     m_Qdcount_ := object_value (take 2 (drop 4 bs));
     m_Ancount_ := object_value (take 2 (drop 6 bs));
     m_Nscount_ := object_value (take 2 (drop 8 bs));
     m_Arcount_ := object_value (take 2 (drop 10 bs)) |}.

Definition memory h : bytes :=
  object_bytes 2 (m_Id_ h) ++ object_bytes 2 (m_Flags_ h) ++ object_bytes 2 (m_Qdcount_ h)
  ++ object_bytes 2 (m_Ancount_ h) ++ object_bytes 2 (m_Nscount_ h) ++ object_bytes 2 (m_Arcount_ h).

(** The result and the output parameter, which is overwritten even when the
    header is then rejected. *)
Definition FromWire (p_Data : option bytes) (p_Size : nat) (p_OutHeader : DnsHeader)
    : outcome (bool * DnsHeader) :=
  match p_Data with
  | None => Done (false, p_OutHeader)
  | Some s_Source =>
      if (p_Size <? HeaderSize)%nat then Done (false, p_OutHeader) else
      bs ← load_n s_Source 0 HeaderSize;
      let p_OutHeader := of_memory bs in
      if negb (Valid p_OutHeader) then Done (false, p_OutHeader)
      else Done (true, p_OutHeader)
  end.

(** The number of bytes written and the destination afterwards. *)
Definition ToWire h (p_Data : option bytes) (p_Size : nat) : outcome (nat * option bytes) :=
  match p_Data with
  | None => Done (O, None)
  | Some s_Destination =>
      if (p_Size <? HeaderSize)%nat then Done (O, p_Data) else
      s_Destination ← store_n s_Destination 0 (memory h);
      Done (HeaderSize, Some s_Destination)
  end.

(** The constructors from raw bytes: pointer; pointer and size; string or vector. *)
Definition construct_from (r : outcome (bool * DnsHeader)) : outcome DnsHeader :=
  '(s_Ok, s_Header) ← r; if (s_Ok : bool) then Done s_Header else Throw InvalidArgument.

Definition construct_pointer (p_Data : option bytes) : outcome DnsHeader :=
  match p_Data with
  | None => Throw InvalidArgument
  | Some _ => construct_from (FromWire p_Data HeaderSize clear)
  end.

Definition construct_sized (p_Data : option bytes) (p_Size : nat) : outcome DnsHeader :=
  match p_Data with
  | None => Throw InvalidArgument
  | Some _ =>
      if (p_Size <? HeaderSize)%nat then Throw InvalidArgument
      else construct_from (FromWire p_Data p_Size clear)
  end.

Definition construct_string (p_Data : bytes) : outcome DnsHeader :=
  if (length p_Data <? HeaderSize)%nat then Throw InvalidArgument
  else construct_from (FromWire (Some p_Data) (length p_Data) clear).

Definition eqb h (p_Other : DnsHeader) : bool :=
  (m_Id_ h =? m_Id_ p_Other) && (m_Flags_ h =? m_Flags_ p_Other)
  && (m_Qdcount_ h =? m_Qdcount_ p_Other) && (m_Ancount_ h =? m_Ancount_ p_Other)
  && (m_Nscount_ h =? m_Nscount_ p_Other) && (m_Arcount_ h =? m_Arcount_ p_Other).

Definition neqb h (p_Other : DnsHeader) : bool := negb (eqb h p_Other).

Definition ltb h (p_Other : DnsHeader) : bool :=
  if negb (m_Id_ h =? m_Id_ p_Other) then m_Id_ h <? m_Id_ p_Other
  else if negb (m_Flags_ h =? m_Flags_ p_Other) then m_Flags_ h <? m_Flags_ p_Other
  else if negb (m_Qdcount_ h =? m_Qdcount_ p_Other) then m_Qdcount_ h <? m_Qdcount_ p_Other
  else if negb (m_Ancount_ h =? m_Ancount_ p_Other) then m_Ancount_ h <? m_Ancount_ p_Other
  else if negb (m_Nscount_ h =? m_Nscount_ p_Other) then m_Nscount_ h <? m_Nscount_ p_Other
  else m_Arcount_ h <? m_Arcount_ p_Other.
End operations.

(** ** Specification: the fields of RFC 1035 Section 4.1.1 *)

Inductive field : Type :=
  | FId | FQr | FOpcode | FAa | FTc | FRd | FRa | FZ | FAd | FCd | FRcode
  | FQdcount | FAncount | FNscount | FArcount.

#[export] Instance field_eq_dec : EqDecision field.
Proof. solve_decision. Defined.

(** A header is a value for every field; the flags are 0 or 1. *)
Abbreviation fields := (field → Z).

(** The position of a field in the flag word, and its size in bits. *)
Definition field_shift (a : field) : Z :=
  match a with
  | FQr => 15 | FOpcode => 11 | FAa => 10 | FTc => 9 | FRd => 8
  | FRa => 7 | FZ => 6 | FAd => 5 | FCd => 4 | _ => 0
  end.

Definition field_bits (a : field) : Z :=
  match a with
  | FQr | FAa | FTc | FRd | FRa | FZ | FAd | FCd => 1
  | FOpcode | FRcode => 4
  | _ => 16
  end.

Definition in_flags (a : field) : bool :=
  match a with
  | FId | FQdcount | FAncount | FNscount | FArcount => false
  | _ => true
  end.

Definition fields_ok (f : fields) : Prop := ∀ a, 0 ≤ f a < 2 ^ field_bits a.

(** The flag word, by positional value, and the twelve bytes on the wire. *)
Definition flag_word (f : fields) : Z :=
  32768 * f FQr + 2048 * f FOpcode + 1024 * f FAa + 512 * f FTc + 256 * f FRd
  + 128 * f FRa + 64 * f FZ + 32 * f FAd + 16 * f FCd + f FRcode.

Definition wire (f : fields) : bytes :=
  be_split 2 (f FId) ++ be_split 2 (flag_word f) ++ be_split 2 (f FQdcount)
  ++ be_split 2 (f FAncount) ++ be_split 2 (f FNscount) ++ be_split 2 (f FArcount).

(** The members hold 16-bit values. *)
Definition wf (h : DnsHeader) : Prop :=
  uint16 (m_Id_ h) ∧ uint16 (m_Flags_ h) ∧ uint16 (m_Qdcount_ h) ∧
  uint16 (m_Ancount_ h) ∧ uint16 (m_Nscount_ h) ∧ uint16 (m_Arcount_ h).

Section views.
  Context {H : Target}.

(** Every field through its accessor, and through its mutator. *)
Definition view (p_Raw : bool) (h : DnsHeader) : fields := λ a,
  match a with
  | FId => Id p_Raw h
  | FQr => Z.b2z (Qr p_Raw h)
  | FOpcode => Opcode p_Raw h
  | FAa => Z.b2z (Aa p_Raw h)
  | FTc => Z.b2z (Tc p_Raw h)
  | FRd => Z.b2z (Rd p_Raw h)
  | FRa => Z.b2z (Ra p_Raw h)
  | FZ => Z.b2z (Zb p_Raw h)
  | FAd => Z.b2z (Ad p_Raw h)
  | FCd => Z.b2z (Cd p_Raw h)
  | FRcode => Rcode p_Raw h
  | FQdcount => Qdcount p_Raw h
  | FAncount => Ancount p_Raw h
  | FNscount => Nscount p_Raw h
  | FArcount => Arcount p_Raw h
  end.

Definition update (a : field) (v : Z) (p_Raw : bool) (h : DnsHeader) : DnsHeader :=
  match a with
  | FId => SetId v p_Raw h
  | FQr => SetQr (tobool v) p_Raw h
  | FOpcode => SetOpcode v p_Raw h
  | FAa => SetAa (tobool v) p_Raw h
  | FTc => SetTc (tobool v) p_Raw h
  | FRd => SetRd (tobool v) p_Raw h
  | FRa => SetRa (tobool v) p_Raw h
  | FZ => SetZ (tobool v) p_Raw h
  | FAd => SetAd (tobool v) p_Raw h
  | FCd => SetCd (tobool v) p_Raw h
  | FRcode => SetRcode v p_Raw h
  | FQdcount => SetQdcount v p_Raw h
  | FAncount => SetAncount v p_Raw h
  | FNscount => SetNscount v p_Raw h
  | FArcount => SetArcount v p_Raw h
  end.
End views.

(** ** Lemmas on the flag word *)

Section flags.
  Context {H : Target}.
  Implicit Types (h : DnsHeader) (r p_Value : bool).

Lemma Flags_range r h : wf h → uint16 (Flags r h).
Proof.
  intros (_ & Hf & _). unfold Flags. destruct r; [done|]. by apply (HostToNetwork_bound 2).
Qed.

Lemma SetFlags_Flags v r h : uint16 v → Flags r (SetFlags v r h) = v.
Proof. intros. unfold Flags, SetFlags. destruct r; [done|]. by apply NetworkToHost_HostToNetwork. Qed.

(** Both modes of the two private mutators update the word the accessors read. *)
Lemma SetFlagBit_spec k v r h :
  0 ≤ k < 16 →
  SetFlagBit k v r h =
    SetFlags (u16 (if v then Z.setbit (Flags r h) k else Z.clearbit (Flags r h) k)) r h.
Proof.
  intros Hk. unfold SetFlagBit. destruct (Z.geb_spec k 16); [lia|].
  unfold Z.setbit, Z.clearbit. rewrite Z.ldiff_land. by destruct r, v.
Qed.

Lemma SetFlagBit_testbit k v r h i :
  0 ≤ k < 16 → 0 ≤ i < 16 →
  Z.testbit (Flags r (SetFlagBit k v r h)) i = if i =? k then v else Z.testbit (Flags r h) i.
Proof.
  intros Hk Hi. rewrite SetFlagBit_spec, SetFlags_Flags by (done || apply u16_range).
  rewrite u16_testbit by lia. destruct (Z.ltb_spec i 16); [simpl|lia].
  destruct v; [rewrite Z.setbit_eqb by lia|rewrite Z.clearbit_eqb]; rewrite (Z.eqb_sym k i);
    destruct (i =? k); simpl; by rewrite ?andb_true_r, ?andb_false_r.
Qed.

Lemma SetFlagValue_spec k v r h :
  0 ≤ k < 16 →
  SetFlagValue k 0xF v r h =
    SetFlags (u16 (Z.lor (u16 (Z.ldiff (Flags r h) (Z.shiftl 0xF k)))
                         (Z.shiftl (Z.land v 0xF) k))) r h.
Proof.
  intros Hk. unfold SetFlagValue. destruct (Z.geb_spec k 16); [lia|].
  rewrite Z.ldiff_land. change (Z.land 0xF 0xFF) with 0xF. by destruct r.
Qed.

Lemma testbit_15 i : 0 ≤ i → Z.testbit 0xF i = (i <? 4).
Proof. intros. change 0xF with (Z.ones 4). by rewrite Z.testbit_ones_nonneg by lia. Qed.

Lemma SetFlagValue_testbit k v r h i :
  0 ≤ k < 16 → 0 ≤ i < 16 →
  Z.testbit (Flags r (SetFlagValue k 0xF v r h)) i =
    if (k <=? i) && (i <? k + 4) then Z.testbit v (i - k) else Z.testbit (Flags r h) i.
Proof.
  intros Hk Hi. rewrite SetFlagValue_spec, SetFlags_Flags by (done || apply u16_range).
  rewrite u16_testbit, Z.lor_spec, u16_testbit, Z.ldiff_spec, !Z.shiftl_spec by lia.
  destruct (Z.ltb_spec i 16); [simpl|lia].
  destruct (Z.leb_spec k i); simpl.
  - rewrite Z.land_spec, testbit_15 by lia.
    replace (i - k <? 4) with (i <? k + 4) by lia.
    destruct (i <? k + 4); simpl; by rewrite ?andb_true_r, ?andb_false_r, ?orb_false_r.
  - rewrite !(Z.testbit_neg_r _ (i - k)) by lia. by rewrite andb_true_r, orb_false_r.
Qed.

(** A four-bit field only depends on its bits. *)
Lemma nibble_ext x y k j :
  0 ≤ k → 0 ≤ j → (∀ i, 0 ≤ i < 4 → Z.testbit x (i + k) = Z.testbit y (i + j)) →
  Z.land (Z.shiftr x k) 0xF = Z.land (Z.shiftr y j) 0xF.
Proof.
  intros Hk Hj E. apply Z.bits_inj'. intros i Hi.
  rewrite !Z.land_spec, testbit_15, !Z.shiftr_spec by lia.
  destruct (Z.ltb_spec i 4); [|by rewrite !andb_false_r].
  by rewrite E by lia.
Qed.

(** A field of the flag word is a stretch of its bits. *)
Definition word_field (a : field) (w : Z) : Z :=
  Z.land (Z.shiftr w (field_shift a)) (Z.ones (field_bits a)).

Lemma view_word_field r h a : in_flags a = true → view r h a = word_field a (Flags r h).
Proof.
  assert (E : ∀ k, 0 ≤ k → Z.b2z (tobool (Z.land (Z.shiftr (Flags r h) k) 1)) =
                            Z.land (Z.shiftr (Flags r h) k) 1).
  { intros k Hk. rewrite tobool_bit by lia. change 1 with (Z.ones 1).
    rewrite Z.land_ones by lia. change (2 ^ 1) with 2.
    by rewrite <- Z.bit0_mod, Z.shiftr_spec, Z.add_0_l by lia. }
  destruct a; intros Ha; try discriminate Ha; simpl; try (apply E; lia); reflexivity.
Qed.

Lemma word_field_ext a x y :
  (∀ i, field_shift a ≤ i < field_shift a + field_bits a → Z.testbit x i = Z.testbit y i) →
  word_field a x = word_field a y.
Proof.
  intros E. unfold word_field. apply Z.bits_inj'. intros i Hi.
  assert (0 ≤ field_shift a) by (destruct a; simpl; lia).
  assert (0 ≤ field_bits a) by (destruct a; simpl; lia).
  rewrite !Z.land_spec, !Z.shiftr_spec, Z.testbit_ones_nonneg by lia.
  destruct (Z.ltb_spec i (field_bits a)); [|by rewrite !andb_false_r].
  rewrite E by lia. done.
Qed.

Lemma tobool_testbit v : 0 ≤ v < 2 → tobool v = Z.testbit v 0.
Proof. intros. assert (v = 0 ∨ v = 1) as [-> | ->] by lia; done. Qed.

Lemma update_testbit a v r h i :
  in_flags a = true → 0 ≤ v < 2 ^ field_bits a → 0 ≤ i < 16 →
  Z.testbit (Flags r (update a v r h)) i =
    if (field_shift a <=? i) && (i <? field_shift a + field_bits a)
    then Z.testbit v (i - field_shift a) else Z.testbit (Flags r h) i.
Proof.
  assert (E : ∀ k, 0 ≤ v < 2 → 0 ≤ i < 16 → 0 ≤ k < 16 →
    Z.testbit (Flags r (SetFlagBit k (tobool v) r h)) i =
    if (k <=? i) && (i <? k + 1) then Z.testbit v (i - k) else Z.testbit (Flags r h) i).
  { intros k Hv Hi Hk. rewrite SetFlagBit_testbit, tobool_testbit by lia.
    replace ((k <=? i) && (i <? k + 1)) with (i =? k) by lia.
    destruct (Z.eqb_spec i k) as [->|]; [by rewrite Z.sub_diag|done]. }
  destruct a; intros Ha Hv Hi; try discriminate Ha; cbn [update field_shift field_bits] in *;
    try (apply E; lia); by apply SetFlagValue_testbit.
Qed.

(** The members other than the updated one. *)
Lemma update_frame a v r h :
  (in_flags a = false → Flags r (update a v r h) = Flags r h) ∧
  (∀ b, in_flags b = false → a ≠ b → view r (update a v r h) b = view r h b).
Proof.
  split.
  - destruct a; intros Ha; try discriminate Ha; reflexivity.
  - assert (E : ∀ g, (∃ w, g = with_Flags w h) ∨ g = h →
      ∀ b, in_flags b = false → view r g b = view r h b).
    { intros g [[w ->] | ->] b Hb; [|done]. by destruct b. }
    assert (E1 : ∀ k p, (∃ w, SetFlagBit k p r h = with_Flags w h) ∨ SetFlagBit k p r h = h).
    { intros. unfold SetFlagBit. destruct (_ >=? _); [by right|].
      left. destruct r, p; by eexists. }
    assert (E2 : ∀ k m p, (∃ w, SetFlagValue k m p r h = with_Flags w h)
                          ∨ SetFlagValue k m p r h = h).
    { intros. unfold SetFlagValue. destruct (_ >=? _); [by right|].
      left. destruct r; by eexists. }
    intros b Hb Hab. destruct (in_flags a) eqn:Ha.
    + destruct a; try discriminate Ha;
        first [exact (E _ (E1 _ _) b Hb) | exact (E _ (E2 _ _ _) b Hb)].
    + destruct a, b; try discriminate Ha; try discriminate Hb; try done.
Qed.

Lemma update_same a v r h :
  in_flags a = false → uint16 v → view r (update a v r h) a = v.
Proof.
  intros Ha Hv. destruct a; try discriminate Ha; destruct r; try done;
    by apply (NetworkToHost_HostToNetwork 2).
Qed.

Lemma field_disjoint a b i :
  in_flags a = true → in_flags b = true → a ≠ b →
  field_shift b ≤ i < field_shift b + field_bits b →
  (field_shift a <=? i) && (i <? field_shift a + field_bits a) = false.
Proof. intros Ha Hb Hab Hi. destruct a, b; try discriminate; try done; simpl in *; lia. Qed.

Lemma field_range a : 0 ≤ field_shift a ∧ field_shift a + field_bits a ≤ 16 ∧ 0 < field_bits a.
Proof. destruct a; simpl; lia. Qed.

Lemma view_update a b v r h :
  0 ≤ v < 2 ^ field_bits a →
  view r (update a v r h) b = if decide (a = b) then v else view r h b.
Proof.
  intros Hv. pose proof (field_range a). pose proof (field_range b).
  destruct (decide (a = b)) as [<-|Hab].
  - destruct (in_flags a) eqn:Ha.
    + rewrite view_word_field by done. apply Z.bits_inj'. intros i Hi. unfold word_field.
      rewrite Z.land_spec, Z.shiftr_spec, Z.testbit_ones_nonneg by lia.
      destruct (Z.ltb_spec i (field_bits a)).
      * rewrite andb_true_r, update_testbit by (done || lia).
        destruct (_ && _) eqn:E; [f_equal; lia|lia].
      * rewrite andb_false_r. symmetry. apply testbit_above with (field_bits a); lia.
    + apply update_same; [done|]. by destruct a.
  - destruct (in_flags b) eqn:Hb; [|by apply update_frame].
    rewrite !view_word_field by done. apply word_field_ext. intros i Hi.
    destruct (in_flags a) eqn:Ha; [|by rewrite (proj1 (update_frame a v r h) Ha)].
    rewrite update_testbit by (done || lia).
    by rewrite (field_disjoint a b) by done.
Qed.
End flags.

(** ** The packed header and its fields *)

Section layout.
  Context {H : Target}.
  Implicit Types (h : DnsHeader) (f : fields) (r : bool).

Lemma word_field_div a w : word_field a w = (w / 2 ^ field_shift a) mod 2 ^ field_bits a.
Proof.
  pose proof (field_range a). unfold word_field.
  by rewrite Z.land_ones, Z.shiftr_div_pow2 by lia.
Qed.

Lemma word_field_flag_word f a : fields_ok f → in_flags a = true → word_field a (flag_word f) = f a.
Proof.
  intros Hf Ha. rewrite word_field_div. unfold flag_word.
  pose proof (Hf FQr). pose proof (Hf FOpcode). pose proof (Hf FAa). pose proof (Hf FTc).
  pose proof (Hf FRd). pose proof (Hf FRa). pose proof (Hf FZ). pose proof (Hf FAd).
  pose proof (Hf FCd). pose proof (Hf FRcode). simpl in *. clear Hf.
  destruct a; try discriminate Ha; cbn [field_shift field_bits]; change (2 ^ 0) with 1;
    change (2 ^ 1) with 2; change (2 ^ 4) with 16;
    repeat match goal with |- context [2 ^ ?k] => let z := eval compute in (2 ^ k) in change (2 ^ k) with z end;
    Z.to_euclidean_division_equations; lia.
Qed.

Lemma flag_word_of_word w : uint16 w → flag_word (λ a, word_field a w) = w.
Proof.
  intros Hw. apply Z.eqb_eq.
  apply (forall_bits_spec 16 (λ w, flag_word (λ a, word_field a w) =? w)); [|done].
  vm_compute. reflexivity.
Qed.

Lemma flag_word_range f : fields_ok f → uint16 (flag_word f).
Proof.
  intros Hf. unfold flag_word, uint16.
  pose proof (Hf FQr). pose proof (Hf FOpcode). pose proof (Hf FAa). pose proof (Hf FTc).
  pose proof (Hf FRd). pose proof (Hf FRa). pose proof (Hf FZ). pose proof (Hf FAd).
  pose proof (Hf FCd). pose proof (Hf FRcode). simpl in *. lia.
Qed.

Lemma flag_word_view r h : wf h → flag_word (view r h) = Flags r h.
Proof.
  intros Hh. rewrite <- (flag_word_of_word (Flags r h)) by (by apply Flags_range).
  unfold flag_word. by rewrite !(view_word_field r h) by done.
Qed.

Lemma view_range r h : wf h → fields_ok (view r h).
Proof.
  intros Hh a. destruct (in_flags a) eqn:Ha.
  - rewrite view_word_field, word_field_div by done. pose proof (field_range a).
    apply Z.mod_pos_bound. apply Z.pow_pos_nonneg; lia.
  - destruct Hh as (H0&_&H2&H3&H4&H5). destruct a; try discriminate Ha; destruct r;
      try done; by apply (HostToNetwork_bound 2).
Qed.

Lemma view_inj r h h' : wf h → wf h' → (∀ a, view r h a = view r h' a) → h = h'.
Proof.
  intros Hh Hh' E.
  assert (EF : Flags r h = Flags r h').
  { rewrite <- !(flag_word_view r) by done. unfold flag_word. by rewrite !E. }
  pose proof (E FId) as E0. pose proof (E FQdcount) as E2. pose proof (E FAncount) as E3.
  pose proof (E FNscount) as E4. pose proof (E FArcount) as E5. clear E. simpl in *.
  destruct Hh as (?&?&?&?&?&?), Hh' as (?&?&?&?&?&?), h, h'.
  unfold Flags, Id, Qdcount, Ancount, Nscount, Arcount in *; simpl in *.
  destruct r; [congruence|].
  f_equal; by apply (HostToNetwork_inj 2).
Qed.

Lemma memory_wire h : wf h → memory h = wire (view false h).
Proof.
  intros Hh. unfold wire. rewrite flag_word_view by done. destruct Hh as (?&?&?&?&?&?).
  assert (E : ∀ z, uint16 z → object_bytes 2 z = be_split 2 (NetworkToHost 2 z)).
  { intros z Hz. rewrite <- object_bytes_HostToNetwork by (by apply (HostToNetwork_bound 2)).
    by rewrite HostToNetwork_NetworkToHost. }
  unfold memory. by rewrite !E by done.
Qed.

Lemma of_memory_wf bs : length bs = HeaderSize → wf (of_memory bs).
Proof.
  intros Hl. unfold HeaderSize in Hl.
  assert (E : ∀ n, (n + 2 ≤ 12)%nat → uint16 (object_value (take 2 (drop n bs)))).
  { intros n Hn. pose proof (object_value_bound (take 2 (drop n bs))) as B.
    replace (length (take 2 (drop n bs))) with 2%nat in B by len. exact B. }
  repeat split; first [apply (E 0%nat); lia | apply E; lia].
Qed.

Lemma memory_of_memory bs : length bs = HeaderSize → memory (of_memory bs) = bs.
Proof.
  intros Hl. do 12 (destruct bs as [|? bs]; [discriminate|]). destruct bs; [|discriminate].
  unfold memory, of_memory; simpl.
  by rewrite !object_bytes_value_len by done.
Qed.

Lemma of_memory_memory h : wf h → of_memory (memory h) = h.
Proof.
  intros (?&?&?&?&?&?). unfold of_memory, memory.
  assert (L : ∀ z, length (object_bytes 2 z) = 2%nat) by (intros; apply length_object_bytes).
  repeat match goal with |- context [object_bytes 2 ?z] =>
    let b := fresh "b" in
    pose proof (L z); pose proof (object_value_bytes 2 z ltac:(done));
    set (b := object_bytes 2 z) in *; clearbody b;
    destruct b as [|? [|? [|??]]]; try discriminate end.
  simpl. destruct h; simpl in *. congruence.
Qed.

Lemma header_length_wire f : length (wire f) = HeaderSize.
Proof. reflexivity. Qed.

Lemma length_memory h : length (memory h) = HeaderSize.
Proof. unfold memory. rewrite !length_app, !length_object_bytes. reflexivity. Qed.

Lemma Valid_view h : Valid h = (view false h FZ =? 0).
Proof. unfold Valid. simpl. by destruct (Zb false h). Qed.

(** The header with given fields: what [wire] denotes. *)
Definition of_fields f : DnsHeader :=
  make (f FId) (flag_word f) (f FQdcount) (f FAncount) (f FNscount) (f FArcount).

Lemma HostToNetwork_uint16 z : uint16 z → uint16 (HostToNetwork 2 z).
Proof. apply (HostToNetwork_bound 2). Qed.

Lemma of_fields_wf f : fields_ok f → wf (of_fields f).
Proof.
  intros Hf. pose proof (flag_word_range f Hf).
  pose proof (Hf FId). pose proof (Hf FQdcount). pose proof (Hf FAncount).
  pose proof (Hf FNscount). pose proof (Hf FArcount).
  repeat split; simpl; by apply (HostToNetwork_bound 2).
Qed.

Lemma view_of_fields f a : fields_ok f → view false (of_fields f) a = f a.
Proof.
  intros Hf. destruct (in_flags a) eqn:Ha.
  - rewrite view_word_field by done.
    change (Flags false (of_fields f)) with (NetworkToHost 2 (HostToNetwork 2 (flag_word f))).
    rewrite NetworkToHost_HostToNetwork by (by apply flag_word_range).
    by apply word_field_flag_word.
  - pose proof (Hf a). destruct a; try discriminate Ha; by apply (NetworkToHost_HostToNetwork 2).
Qed.

Lemma of_fields_view h : wf h → of_fields (view false h) = h.
Proof.
  intros Hh. apply (view_inj false); [|done|].
  - apply of_fields_wf. by apply view_range.
  - intros a. by apply view_of_fields, view_range.
Qed.

Lemma memory_of_fields f : fields_ok f → memory (of_fields f) = wire f.
Proof.
  intros Hf. rewrite memory_wire by (by apply of_fields_wf). unfold wire, flag_word.
  by rewrite !view_of_fields by done.
Qed.
End layout.

(** ** Mutators as field updates *)

Section updates.
  Context {H : Target}.
  Implicit Types (h : DnsHeader) (b : bool).

Lemma SetId_update v h : SetId v false h = update FId v false h.
Proof. reflexivity. Qed.
Lemma SetQr_update b h : SetQr b false h = update FQr (Z.b2z b) false h.
Proof. by destruct b. Qed.
Lemma SetOpcode_update v h : SetOpcode v false h = update FOpcode v false h.
Proof. reflexivity. Qed.
Lemma SetAa_update b h : SetAa b false h = update FAa (Z.b2z b) false h.
Proof. by destruct b. Qed.
Lemma SetRd_update b h : SetRd b false h = update FRd (Z.b2z b) false h.
Proof. by destruct b. Qed.
Lemma SetRa_update b h : SetRa b false h = update FRa (Z.b2z b) false h.
Proof. by destruct b. Qed.
Lemma SetZ_update b h : SetZ b false h = update FZ (Z.b2z b) false h.
Proof. by destruct b. Qed.

(** A response code of more than four bits is truncated. *)
Lemma SetRcode_update v h : SetRcode v false h = update FRcode (v mod 16) false h.
Proof.
  unfold update, SetRcode, SetFlagValue. simpl Z.geb. cbv iota zeta.
  change (Z.land 0xF 0xFF) with (2 ^ 4 - 1).
  rewrite !land_ones_mod by lia. change (2 ^ 4) with 16. by rewrite Z.mod_mod.
Qed.

Lemma SetQdcount_update v h : SetQdcount v false h = update FQdcount v false h.
Proof. reflexivity. Qed.
Lemma SetAncount_update v h : SetAncount v false h = update FAncount v false h.
Proof. reflexivity. Qed.
Lemma SetNscount_update v h : SetNscount v false h = update FNscount v false h.
Proof. reflexivity. Qed.
Lemma SetArcount_update v h : SetArcount v false h = update FArcount v false h.
Proof. reflexivity. Qed.

Lemma b2z_range b : 0 ≤ Z.b2z b < 2.
Proof. destruct b; simpl; lia. Qed.

Lemma update_wf a v r h : 0 ≤ v < 2 ^ field_bits a → wf h → wf (update a v r h).
Proof.
  intros Hv (H0&H1&H2&H3&H4&H5).
  assert (E : ∀ w, uint16 w → wf (SetFlags w r h)).
  { intros w Hw. repeat split; simpl; try apply H0; try apply H2; try apply H3;
      try apply H4; try apply H5; destruct r; try apply Hw; by apply (HostToNetwork_bound 2). }
  assert (E1 : ∀ k p, 0 ≤ k < 16 → wf (SetFlagBit k p r h)).
  { intros k p Hk. rewrite SetFlagBit_spec by done. apply E, u16_range. }
  assert (E2 : ∀ k p, 0 ≤ k < 16 → wf (SetFlagValue k 0xF p r h)).
  { intros k p Hk. rewrite SetFlagValue_spec by done. apply E, u16_range. }
  unfold update. destruct a; unfold SetQr, SetOpcode, SetAa, SetTc, SetRd, SetRa, SetZ, SetAd,
    SetCd, SetRcode; lazymatch goal with
    | |- wf (SetFlagBit _ _ _ _) => apply E1; lia
    | |- wf (SetFlagValue _ _ _ _ _) => apply E2; lia
    | _ => idtac end;
    (repeat split; simpl; try apply H0; try apply H1; try apply H2; try apply H3;
     try apply H4; try apply H5; destruct r; try apply Hv; by apply (HostToNetwork_bound 2)).
Qed.

Lemma clear_wf : wf clear.
Proof. unfold wf, uint16; simpl. lia. Qed.

Lemma view_clear a : view false clear a = 0.
Proof. revert a. generalize H. intros [[] ?] []; reflexivity. Qed.
End updates.

#[export] Hint Rewrite @SetId_update @SetQr_update @SetOpcode_update @SetAa_update @SetRd_update
  @SetRa_update @SetZ_update @SetRcode_update @SetQdcount_update @SetAncount_update
  @SetNscount_update @SetArcount_update : dns.

(** Evaluate the fields of a header built by mutators. *)
Ltac view_updates :=
  autorewrite with dns;
  repeat (rewrite view_update by (simpl; first [lia | apply b2z_range | apply Z.mod_pos_bound; lia
                                               | unfold uint16 in *; lia]));
  repeat case_decide; subst; try congruence.

Section operations_facts.
  Context {H : Target}.
  Implicit Types (h : DnsHeader).

Lemma MakeErrorResponse_view q e h a :
  wf q →
  view false (MakeErrorResponse q e h) a =
    match a with
    | FId => view false q FId
    | FQr => 1
    | FOpcode => view false q FOpcode
    | FRd => view false q FRd
    | FRa => 1
    | FRcode => e mod 16
    | FQdcount | FAncount | FNscount | FArcount => 0
    | _ => view false h a
    end.
Proof.
  intros Hq. unfold MakeErrorResponse, UpdateCounts, MakeResponse.
  pose proof (view_range false q Hq FId). pose proof (view_range false q Hq FOpcode).
  simpl in *. destruct a; by view_updates.
Qed.

(** The error response made from a query has the query's identifier, opcode and RD
    flag, QR and RA set, the error code in RCODE (modulo 16) and four zero counts; every
    other field (AA, TC, Z, AD, CD) keeps the value it had in the header being turned. *)
Theorem MakeErrorResponse_fields q e h a :
  wf q →
  view false (MakeErrorResponse q e h) a =
    match a with
    | FId => view false q FId
    | FQr => 1
    | FOpcode => view false q FOpcode
    | FRd => view false q FRd
    | FRa => 1
    | FRcode => e mod 16
    | FQdcount | FAncount | FNscount | FArcount => 0
    | _ => view false h a
    end.
Proof. apply MakeErrorResponse_view. Qed.

Lemma MakeQueryHeader_fields p_Id p_Opcode rd n a :
  uint16 p_Id → 0 ≤ p_Opcode < 16 → uint16 n →
  view false (MakeQueryHeader p_Id p_Opcode rd n) a =
    match a with
    | FId => p_Id | FOpcode => p_Opcode | FRd => Z.b2z rd | FQdcount => n | _ => 0
    end.
Proof.
  intros Hi Ho Hn. unfold MakeQueryHeader. change (Z.b2z false) with 0.
  destruct a; view_updates; by rewrite ?view_clear.
Qed.

Lemma MakeResponseHeader_fields q e aa ra a :
  wf q →
  view false (MakeResponseHeader q e aa ra) a =
    match a with
    | FId => view false q FId
    | FQr => 1
    | FOpcode => view false q FOpcode
    | FAa => Z.b2z aa
    | FRd => view false q FRd
    | FRa => Z.b2z ra
    | FRcode => e mod 16
    | _ => 0
    end.
Proof.
  intros Hq. unfold MakeResponseHeader.
  pose proof (view_range false q Hq FId). pose proof (view_range false q Hq FOpcode).
  simpl in *. destruct a; view_updates; by rewrite ?view_clear.
Qed.

Lemma MakeErrorResponse_wf q e h : wf q → wf h → wf (MakeErrorResponse q e h).
Proof.
  intros Hq Hh. unfold MakeErrorResponse, UpdateCounts, MakeResponse. autorewrite with dns.
  pose proof (view_range false q Hq FId). pose proof (view_range false q Hq FOpcode).
  repeat (apply update_wf; [simpl; first [lia | apply b2z_range | apply Z.mod_pos_bound; lia | done]|]).
  done.
Qed.

Lemma MakeResponseHeader_wf q e aa ra : wf q → wf (MakeResponseHeader q e aa ra).
Proof.
  intros Hq. unfold MakeResponseHeader. autorewrite with dns.
  pose proof (view_range false q Hq FId). pose proof (view_range false q Hq FOpcode).
  repeat (apply update_wf; [simpl; first [lia | apply b2z_range | apply Z.mod_pos_bound; lia | done]|]).
  apply clear_wf.
Qed.

Lemma IsResponse_view h : view false h FQr = 1 → IsResponse h = true.
Proof. unfold IsResponse. simpl. by destruct (Qr false h). Qed.

Lemma UpdateCounts_wf q a n r h :
  uint16 q → uint16 a → uint16 n → uint16 r → wf h → wf (UpdateCounts q a n r h).
Proof.
  intros. unfold UpdateCounts. autorewrite with dns. repeat (apply update_wf; [done|]). done.
Qed.

Lemma UpdateCounts_fields q a n r h b :
  uint16 q → uint16 a → uint16 n → uint16 r →
  view false (UpdateCounts q a n r h) b =
    match b with
    | FQdcount => q | FAncount => a | FNscount => n | FArcount => r | _ => view false h b
    end.
Proof. intros. unfold UpdateCounts. destruct b; by view_updates. Qed.

(** The section named by a character, as [IncrementCount] reads it. *)
Definition count_field (c : byte) : option field :=
  match c with
  | "q"%byte | "Q"%byte => Some FQdcount
  | "a"%byte | "A"%byte => Some FAncount
  | "n"%byte | "N"%byte => Some FNscount
  | "r"%byte | "R"%byte => Some FArcount
  | _ => None
  end.

Lemma IncrementCount_cases c h :
  IncrementCount c h =
    match count_field c with
    | None => (0, h)
    | Some a => if view false h a =? UINT16_MAX then (0, h)
                else (u16 (view false h a + 1), update a (u16 (view false h a + 1)) false h)
    end.
Proof. by destruct c. Qed.

(** Incrementing a count never wraps: it adds one to the section's count and returns
    the new count, or leaves the header unchanged and returns 0 when the count is 65535
    or the section character is unknown; no other field changes. *)
Theorem IncrementCount_saturates c h a :
  wf h →
  let '(n, h') := IncrementCount c h in
  wf h' ∧
  view false h' a =
    (if decide (count_field c = Some a ∧ view false h a < UINT16_MAX)
     then view false h a + 1 else view false h a) ∧
  n = match count_field c with
      | Some b => if view false h b <? UINT16_MAX then view false h b + 1 else 0
      | None => 0
      end.
Proof.
  intros Hh. rewrite IncrementCount_cases. destruct (count_field c) as [b|] eqn:Hc.
  - pose proof (view_range false h Hh b) as Hb.
    assert (E16 : field_bits b = 16) by (destruct c; cbn in Hc; simplify_eq; reflexivity).
    rewrite E16 in Hb. unfold UINT16_MAX.
    destruct (Z.eqb_spec (view false h b) 65535) as [E|E]; (split; [|split]); try done.
    + case_decide; [|done]. destruct_and!. simplify_eq. lia.
    + destruct (Z.ltb_spec (view false h b) 65535); lia.
    + apply update_wf; [rewrite E16; apply u16_range|done].
    + rewrite view_update by (rewrite E16; apply u16_range). rewrite u16_small by lia.
      destruct (decide (b = a)) as [<-|Hne]; case_decide as Hd; try done.
      * destruct Hd. split; [done|unfold UINT16_MAX; lia].
      * by destruct Hd as [[= ->] _].
    + rewrite u16_small by lia. destruct (Z.ltb_spec (view false h b) 65535); lia.
  - split; [done|]. split; [|done]. case_decide; [by destruct_and!|done].
Qed.

End operations_facts.

Section IncrementCount_saturates_example.
  #[local] Existing Instance x86_64.

Lemma IncrementCount_saturates_witness :
  wf clear ∧
  let '(n, h') := IncrementCount "r"%byte clear in
  wf h' ∧
  view false h' FArcount =
    (if decide (count_field "r"%byte = Some FArcount ∧ view false clear FArcount < UINT16_MAX)
     then view false clear FArcount + 1 else view false clear FArcount) ∧
  n = match count_field "r"%byte with
      | Some b => if view false clear b <? UINT16_MAX then view false clear b + 1 else 0
      | None => 0
      end.
Proof.
  split; [exact clear_wf|]. exact (IncrementCount_saturates "r"%byte clear FArcount clear_wf).
Defined.
End IncrementCount_saturates_example.

Section equality_facts.
  Context {H : Target}.


Lemma TotalRecords_sum h :
  wf h → TotalRecords h = Qdcount false h + Ancount false h + Nscount false h + Arcount false h.
Proof.
  intros Hh. pose proof (view_range false h Hh FQdcount). pose proof (view_range false h Hh FAncount).
  pose proof (view_range false h Hh FNscount). pose proof (view_range false h Hh FArcount).
  cbn [view field_bits] in *. change (2 ^ 16) with 65536 in *. unfold TotalRecords.
  rewrite (u32_small (Qdcount false h + _)) by lia.
  rewrite (u32_small (_ + Nscount false h)) by lia. apply u32_small. lia.
Qed.
End equality_facts.

(** ** Reading and writing the wire format *)

Section wire_facts.
  Context {H : Target}.
  Implicit Types (h : DnsHeader) (f : fields) (s_Data : bytes).

Lemma header_FromWire_Done s_Data p_Size h0 :
  (HeaderSize ≤ p_Size)%nat → (p_Size ≤ length s_Data)%nat →
  FromWire (Some s_Data) p_Size h0 =
    Done (Valid (of_memory (take HeaderSize s_Data)), of_memory (take HeaderSize s_Data)).
Proof.
  intros Hs Hl. unfold FromWire. destruct (Nat.ltb_spec p_Size HeaderSize); [lia|].
  rewrite load_n_Done by lia. rewrite bind_done, drop_0. by destruct (Valid _).
Qed.

Lemma FromWire_returns p_Data p_Size h0 :
  (∀ s_Data, p_Data = Some s_Data → (p_Size ≤ length s_Data)%nat) →
  returns (FromWire p_Data p_Size h0).
Proof.
  intros Hl. destruct p_Data as [s_Data|]; [|apply returns_Done].
  destruct (Nat.lt_ge_cases p_Size HeaderSize).
  - unfold FromWire. destruct (Nat.ltb_spec p_Size HeaderSize); [apply returns_Done|lia].
  - rewrite header_FromWire_Done by auto. apply returns_Done.
Qed.

Lemma header_FromWire_wf p_Data p_Size h0 b h :
  wf h0 → FromWire p_Data p_Size h0 = Done (b, h) → wf h.
Proof.
  intros Hh. unfold FromWire. destruct p_Data as [s_Data|]; [|congruence].
  destruct (_ <? _)%nat; [congruence|].
  intros (bs & (_ & _ & Hbs)%load_n_inv & E)%bind_Done_inv.
  pose proof (of_memory_wf bs Hbs). destruct (negb _); congruence.
Qed.

Lemma header_ToWire_Done h s_Data p_Size :
  (HeaderSize ≤ p_Size)%nat → (p_Size ≤ length s_Data)%nat →
  ToWire h (Some s_Data) p_Size = Done (HeaderSize, Some (splice s_Data 0 (memory h))).
Proof.
  intros Hs Hl. unfold ToWire. destruct (Nat.ltb_spec p_Size HeaderSize); [lia|].
  rewrite store_n_Done by (rewrite length_memory; lia). done.
Qed.

Lemma of_memory_wire f : fields_ok f → of_memory (wire f) = of_fields f.
Proof.
  intros Hf. rewrite <- memory_of_fields by done. by apply of_memory_memory, of_fields_wf.
Qed.

(** On any buffer of at least twelve bytes, and on a host of either endianness, the
    parsed header's fields are exactly those RFC 1035 lays out in the first twelve bytes;
    the parser answers whether the reserved Z bit is clear; and writing the header back
    reproduces the twelve bytes. *)
Theorem header_roundtrip s_Data p_Size h0 :
  (HeaderSize ≤ p_Size)%nat → (p_Size ≤ length s_Data)%nat →
  ∃ h, FromWire (Some s_Data) p_Size h0 = Done (view false h FZ =? 0, h) ∧
       fields_ok (view false h) ∧
       wire (view false h) = take HeaderSize s_Data ∧
       ToWire h (Some s_Data) p_Size = Done (HeaderSize, Some s_Data).
Proof.
  intros Hs Hl. set (bs := take HeaderSize s_Data).
  assert (Hbs : length bs = HeaderSize) by (unfold bs; rewrite length_take; lia).
  pose proof (of_memory_wf bs Hbs) as Hwf.
  exists (of_memory bs). split; [|split; [|split]].
  - rewrite header_FromWire_Done by done. by rewrite Valid_view.
  - by apply view_range.
  - rewrite <- memory_wire by done. by apply memory_of_memory.
  - rewrite header_ToWire_Done, memory_of_memory by done. do 3 f_equal.
    unfold splice, bs. rewrite length_take, Nat.min_l by lia. simpl. apply take_drop.
Qed.

(** C28: every mutator (set to a value of its field's width) changes its own field to that
    value and no other field, whether it is called with raw or host-order semantics; so the
    fourteen-odd fields packed in six words behave as independent variables, and the fields
    determine the header. *)
Theorem fields_independent p_Raw h a v :
  wf h → 0 ≤ v < 2 ^ field_bits a →
  wf (update a v p_Raw h) ∧
  (∀ b, view p_Raw (update a v p_Raw h) b = if decide (a = b) then v else view p_Raw h b) ∧
  (∀ h', wf h' → (∀ b, view p_Raw h' b = view p_Raw (update a v p_Raw h) b) →
         h' = update a v p_Raw h).
Proof.
  intros Hh Hv. pose proof (update_wf a v p_Raw h Hv Hh). split_and!; [done| |].
  - intros b. by apply view_update.
  - intros h' Hh' E. by apply (view_inj p_Raw).
Qed.
End wire_facts.

(** ** Ordering and construction *)

Section order_facts.
  Context {H : Target}.
  Implicit Types h : DnsHeader.

Lemma eqb_eq h h' : eqb h h' = true ↔ h = h'.
Proof.
  unfold eqb. rewrite !andb_true_iff, !Z.eqb_eq. destruct h, h'; simpl.
  split; [intros; destruct_and!; congruence|intros; simplify_eq; done].
Qed.

(** The members in the order of comparison. *)
Definition members h : list Z :=
  [m_Id_ h; m_Flags_ h; m_Qdcount_ h; m_Ancount_ h; m_Nscount_ h; m_Arcount_ h].

Lemma ltb_lex h h' : ltb h h' = lexltb (members h) (members h').
Proof. unfold ltb. rewrite <- (lexltb_single (m_Arcount_ h)). reflexivity. Qed.

(** [operator<] is a strict total order, consistent with [operator==]. *)
Lemma ltb_strict_total h1 h2 h3 :
  ltb h1 h1 = false ∧
  (ltb h1 h2 = true → ltb h2 h3 = true → ltb h1 h3 = true) ∧
  (ltb h1 h2 = true ∨ eqb h1 h2 = true ∨ ltb h2 h1 = true).
Proof.
  rewrite !ltb_lex, eqb_eq. split_and!; eauto using lexltb_irrefl, lexltb_trans.
  destruct (lexltb_total (members h1) (members h2)) as [|[E|]]; auto.
  right; left. destruct h1, h2. unfold members in E; simpl in E. congruence.
Qed.

Lemma construct_string_spec p_Data h :
  construct_string p_Data = Done h ↔
  (HeaderSize ≤ length p_Data)%nat ∧ h = of_memory (take HeaderSize p_Data) ∧ Valid h = true.
Proof.
  unfold construct_string. destruct (Nat.ltb_spec (length p_Data) HeaderSize).
  - split; [done|lia].
  - rewrite header_FromWire_Done by lia. unfold construct_from. rewrite bind_done.
    destruct (Valid _) eqn:E; split.
    + intros [= <-]. auto.
    + intros (_ & -> & _). done.
    + discriminate.
    + intros (_ & -> & ?). congruence.
Qed.

Lemma construct_sized_string p_Data :
  construct_sized (Some p_Data) (length p_Data) = construct_string p_Data.
Proof. reflexivity. Qed.
End order_facts.

(** ** The theorems at concrete headers *)

Section examples.
  #[local] Existing Instance x86_64.

Lemma header_roundtrip_witness :
  let s_Data := [x12; x34; x81; x80; x00; x01; x00; x02; x00; x00; x00; x00; xff] in
  ∃ h, FromWire (Some s_Data) 13 clear = Done (view false h FZ =? 0, h) ∧
       fields_ok (view false h) ∧ wire (view false h) = take HeaderSize s_Data ∧
       ToWire h (Some s_Data) 13 = Done (HeaderSize, Some s_Data).
Proof. intros s_Data. apply (header_roundtrip s_Data 13 clear); simpl; unfold HeaderSize; lia. Defined.

Lemma fields_independent_witness :
  wf (update FOpcode 5 false clear) ∧
  view false (update FOpcode 5 false clear) FRcode = view false clear FRcode.
Proof.
  assert (Hv : 0 ≤ 5 < 2 ^ field_bits FOpcode) by (simpl; lia).
  destruct (fields_independent false clear FOpcode 5 clear_wf Hv) as (Hw & Hf & _).
  split; [exact Hw|exact (Hf FRcode)].
Defined.

Lemma MakeErrorResponse_fields_witness :
  view false (MakeErrorResponse clear 18 clear) FRcode = 2.
Proof. exact (MakeErrorResponse_fields clear 18 clear FRcode clear_wf). Defined.
End examples.
