(* ===== verification/DnsQuestion.v ===== *)
(** * Questions (src/include/dns_packet_question.h, src/src/dns_packet_question.cc)

    A question is its labels and two integers in network byte order.  The wire
    functions are proved against [wire], the RFC 1035 Section 4.1.2 layout, and
    the parser against [name_at]; reverse-lookup names against the text of the
    address. *)

From Stdlib Require Import ZArith Lia ZifyBool.
From Stdlib Require Import Strings.Byte Strings.String.
From stdpp Require Import base numbers list option sets.
From S2P Require Import Prelude.
From S2P Require Import Memory.
From S2P Require Import Utils.
From S2P Require Import Text.
From S2P Require Import Name.

(** ** Data *)

Record DnsQuestion : Type := {
  m_Qname_ : list bytes;
  m_Qtype_ : Z;
  m_Qclass_ : Z
}.

#[export] Instance DnsQuestion_eq_dec : EqDecision DnsQuestion.
Proof. solve_decision. Defined.

(** ** Operations *)

Section operations.
  Context {H : Target}.
  Implicit Types (q : DnsQuestion).

(** [clear], and the default constructor. *)
Definition clear : DnsQuestion := {| m_Qname_ := []; m_Qtype_ := 0; m_Qclass_ := 0 |}.

Definition with_Qname (labels : list bytes) q : DnsQuestion :=
  {| m_Qname_ := labels; m_Qtype_ := m_Qtype_ q; m_Qclass_ := m_Qclass_ q |}.

Definition Qname q : list bytes := m_Qname_ q.
Definition Qtype (p_Raw : bool) q : Z := if p_Raw then m_Qtype_ q else NetworkToHost 2 (m_Qtype_ q).
Definition Qclass (p_Raw : bool) q : Z := if p_Raw then m_Qclass_ q else NetworkToHost 2 (m_Qclass_ q).

Definition QnameAsString q : bytes :=
  match m_Qname_ q with [] => [] | _ => LabelsAsString (m_Qname_ q) end.

Definition Fqdn q : bytes :=
  let s_Result := QnameAsString q in
  match s_Result with [] => [] | _ => s_Result ++ ["."%byte] end.

Definition SetQname (p_Labels : list bytes) q : DnsQuestion :=
  with_Qname (List.filter IsValidLabel p_Labels) q.

Definition SetQnameFromString (p_DomainName : bytes) q : DnsQuestion :=
  with_Qname (LabelsFromString p_DomainName) q.

Definition SetQtype (p_Type : Z) (p_Raw : bool) q : DnsQuestion :=
  {| m_Qname_ := m_Qname_ q; m_Qtype_ := if p_Raw then p_Type else HostToNetwork 2 p_Type;
     m_Qclass_ := m_Qclass_ q |}.

Definition SetQclass (p_Class : Z) (p_Raw : bool) q : DnsQuestion :=
  {| m_Qname_ := m_Qname_ q; m_Qtype_ := m_Qtype_ q;
     m_Qclass_ := if p_Raw then p_Class else HostToNetwork 2 p_Class |}.

Definition on_labels (f : list bytes → bool * list bytes) q : bool * DnsQuestion :=
  let '(r, labels) := f (m_Qname_ q) in (r, with_Qname labels q).

Definition AddLabel (p_Label : bytes) q := on_labels (Name.AddLabel p_Label) q.
Definition PrependLabel (p_Label : bytes) q := on_labels (Name.PrependLabel p_Label) q.
Definition PopLabel q := on_labels Name.PopLabel q.
Definition RemoveFirstLabel q := on_labels Name.RemoveFirstLabel q.

Definition swap q (p_Other : DnsQuestion) : DnsQuestion * DnsQuestion := (p_Other, q).
Definition empty q : bool := match m_Qname_ q with [] => true | _ => false end.
Definition size q : nat := length (m_Qname_ q).

Definition resize (p_Size : nat) (p_Value : bytes) q : DnsQuestion :=
  with_Qname (list.resize p_Size p_Value (m_Qname_ q)) q.

(** [at] checks the index; [operator\[\]], [front] and [back] do not. *)
Definition at_index (p_Index : nat) q : outcome bytes :=
  match m_Qname_ q !! p_Index with Some l => Done l | None => Throw OutOfRange end.
Definition index (p_Index : nat) q : outcome bytes :=
  match m_Qname_ q !! p_Index with Some l => Done l | None => Undef end.
Definition front q : outcome bytes := index 0 q.
Definition back q : outcome bytes := index (length (m_Qname_ q) - 1) q.

Definition Valid q : bool :=
  match m_Qname_ q with [] => true | _ => ValidName (m_Qname_ q) end.

(** [std::hash] of strings and 16-bit integers is the standard library's. *)
Definition Hash (hash_string : bytes → Z) (hash16 : Z → Z) q : Z :=
  let s_Result := fold_left (λ s_Result l, hash_combine s_Result (hash_string l)) (m_Qname_ q) 0%Z in
  let s_Result := hash_combine s_Result (hash16 (m_Qtype_ q)) in
  hash_combine s_Result (hash16 (m_Qclass_ q)).

Definition WireSize q : nat :=
  let s_Size := labels_size (m_Qname_ q) in
  let s_Size := s_Size + 1 in
  s_Size + 4.

(** The result, [p_Offset] and [p_OutQuestion] after the call. *)
Definition FromWire (p_Data : option bytes) (p_Size p_Offset : nat) (p_OutQuestion : DnsQuestion)
    : outcome (bool * nat * DnsQuestion) :=
  match p_Data with
  | None => Done (false, p_Offset, p_OutQuestion)
  | Some s_DataBytes =>
      '(s_Ok, p_Offset, s_Labels) ← ParseDomainName s_DataBytes p_Size p_Offset [];
      if negb s_Ok then Done (false, p_Offset, p_OutQuestion) else
      if p_Size <? p_Offset + 4 then Done (false, p_Offset, p_OutQuestion) else
      t ← load_n s_DataBytes p_Offset 2;
      c ← load_n s_DataBytes (p_Offset + 2) 2;
      Done (true, p_Offset + 4,
            {| m_Qname_ := s_Labels; m_Qtype_ := object_value t; m_Qclass_ := object_value c |})
  end.

(** The destination is a position in a buffer: the size written and the buffer. *)
Definition ToWire q (p_Data : option bytes) (s_Base p_Size : nat) : outcome (nat * option bytes) :=
  match p_Data with
  | None => Done (O, None)
  | Some s_Output =>
      let s_RequiredSize := WireSize q in
      if p_Size <? s_RequiredSize then Done (O, p_Data) else
      '(s_Output, s_Offset) ← WriteLabels (m_Qname_ q) s_Output s_Base 0;
      s_Output ← store_n s_Output (s_Base + s_Offset) (object_bytes 2 (m_Qtype_ q));
      let s_Offset := s_Offset + 2 in
      s_Output ← store_n s_Output (s_Base + s_Offset) (object_bytes 2 (m_Qclass_ q));
      let s_Offset := s_Offset + 2 in
      Done (s_Offset, Some s_Output)
  end.

(** The constructors from bytes (an offset of 0 when none is passed), with the
    offset after the call. *)
Definition construct_wire (p_Data : option bytes) (p_Size p_Offset : nat)
    : outcome (DnsQuestion * nat) :=
  '(s_Ok, p_Offset, q) ← FromWire p_Data p_Size p_Offset clear;
  if s_Ok : bool then Done (q, p_Offset) else Throw InvalidArgument.

Definition construct_name (p_DomainName : bytes) (p_Type p_Class : Z) : DnsQuestion :=
  SetQclass p_Class false (SetQtype p_Type false (SetQnameFromString p_DomainName clear)).

Definition construct_labels (p_Labels : list bytes) (p_Type p_Class : Z) : DnsQuestion :=
  SetQclass p_Class false (SetQtype p_Type false (with_Qname p_Labels clear)).

Definition MakeAQuery (n : bytes) := SetQclass 1 false (SetQtype 1 false (SetQnameFromString n clear)).
Definition MakeNsQuery (n : bytes) := SetQclass 1 false (SetQtype 2 false (SetQnameFromString n clear)).
Definition MakeCnameQuery (n : bytes) := SetQclass 1 false (SetQtype 5 false (SetQnameFromString n clear)).
Definition MakeSoaQuery (n : bytes) := SetQclass 1 false (SetQtype 6 false (SetQnameFromString n clear)).
Definition MakeMxQuery (n : bytes) := SetQclass 1 false (SetQtype 15 false (SetQnameFromString n clear)).
Definition MakeTxtQuery (n : bytes) := SetQclass 1 false (SetQtype 16 false (SetQnameFromString n clear)).
Definition MakeAaaaQuery (n : bytes) := SetQclass 1 false (SetQtype 28 false (SetQnameFromString n clear)).
Definition MakeSrvQuery (n : bytes) := SetQclass 1 false (SetQtype 33 false (SetQnameFromString n clear)).

(** The lambda [SplitByColon]. *)
Definition SplitByColon (l_Str : bytes) : list bytes := split_nonempty ":"%byte l_Str.

(** Step 2: the list of groups; [None] is the early return. *)
Definition Ipv6Groups (p_IpAddress : bytes) : option (list bytes) :=
  let s_DoubleColon := find2 ":"%byte p_IpAddress in
  let s_HasDoubleColon := bool_decide (is_Some s_DoubleColon) in
  let '(s_Left, s_Right) :=
    match s_DoubleColon with
    | Some i => (substr p_IpAddress 0 i, substr_from p_IpAddress (i + 2))
    | None => (p_IpAddress, [])
    end in
  let s_LeftParts := SplitByColon s_Left in
  let s_RightParts := SplitByColon s_Right in
  let s_ExistingGroups := length s_LeftParts + length s_RightParts in
  if s_HasDoubleColon && (8 <? s_ExistingGroups) then None else
  let s_Groups :=
    s_LeftParts
    ++ (if s_HasDoubleColon then repeat ["0"%byte] (8 - s_ExistingGroups) else [])
    ++ s_RightParts in
  if negb (length s_Groups =? 8) then None else Some s_Groups.

(** Step 3: pad each group to four characters; [None] on a longer group. *)
Fixpoint Ipv6Expand (s_Groups : list bytes) (s_Expanded : bytes) : option bytes :=
  match s_Groups with
  | [] => Some s_Expanded
  | l_Group :: s_Groups =>
      if 4 <? length l_Group then None
      else Ipv6Expand s_Groups
             (s_Expanded ++ repeat "0"%byte (4 - length l_Group) ++ (tolower <$> l_Group))
  end.

Definition Ipv4Octets (p_IpAddress : bytes) : list bytes :=
  let '(s_Octets, s_Start) := split_loop "."%byte p_IpAddress in
  s_Octets ++ (if s_Start <? length p_IpAddress then [substr_from p_IpAddress s_Start] else []).

Definition SetPTRFromIp (p_IpAddress : bytes) q : DnsQuestion :=
  let q := with_Qname [] q in
  match p_IpAddress with
  | [] => q
  | _ =>
      match find ":"%byte p_IpAddress 0 with
      | Some _ =>
          match Ipv6Groups p_IpAddress with
          | None => q
          | Some s_Groups =>
              match Ipv6Expand s_Groups [] with
              | None => q
              | Some s_Expanded =>
                  with_Qname (((λ c, [c]) <$> rev s_Expanded) ++ [str "ip6"; str "arpa"]) q
              end
          end
      | None => with_Qname (rev (Ipv4Octets p_IpAddress) ++ [str "in-addr"; str "arpa"]) q
      end
  end.

Definition MakePtrQuery (p_IpAddress : bytes) : DnsQuestion :=
  SetQclass 1 false (SetQtype 12 false (SetPTRFromIp p_IpAddress clear)).

Definition eqb q (p_Other : DnsQuestion) : bool :=
  bool_decide (m_Qname_ q = m_Qname_ p_Other) && (m_Qtype_ q =? m_Qtype_ p_Other)%Z
  && (m_Qclass_ q =? m_Qclass_ p_Other)%Z.

Definition neqb q (p_Other : DnsQuestion) : bool := negb (eqb q p_Other).

Definition ltb q (p_Other : DnsQuestion) : bool :=
  if negb (bool_decide (m_Qname_ q = m_Qname_ p_Other))
  then strings_ltb (m_Qname_ q) (m_Qname_ p_Other)
  else if negb (m_Qtype_ q =? m_Qtype_ p_Other)%Z
  then (NetworkToHost 2 (m_Qtype_ q) <? NetworkToHost 2 (m_Qtype_ p_Other))%Z
  else (NetworkToHost 2 (m_Qclass_ q) <? NetworkToHost 2 (m_Qclass_ p_Other))%Z.
End operations.

(** ** Specification *)

Section specification.
  Context {H : Target}.
  Implicit Types (q : DnsQuestion).

Definition wf q : Prop := uint16 (m_Qtype_ q) ∧ uint16 (m_Qclass_ q).

(** RFC 1035 Section 4.1.2: the name, the type and the class. *)
Definition wire q : bytes :=
  encode_name (kept (m_Qname_ q)) ++ be_split 2 (Qtype false q) ++ be_split 2 (Qclass false q).

(** The question found at an offset of a packet, and the offset after it. *)
Definition question_at (data : bytes) (p_Size o : nat) q (next : nat) : Prop :=
  ∃ m h, name_at data p_Size o (m_Qname_ q) m h ∧ h ≤ DNS_MAX_POINTER_HOPS ∧
    m + 4 ≤ p_Size ∧ next = m + 4 ∧ wf q ∧
    take 4 (drop m data) = be_split 2 (Qtype false q) ++ be_split 2 (Qclass false q).
End specification.


(** ** Lemmas *)

Section lemmas.
  Context {H : Target}.
  Implicit Types (q : DnsQuestion) (data : bytes).

Lemma question_length_wire q : length (wire q) = WireSize q.
Proof.
  unfold wire, WireSize. rewrite !length_app, !length_be_split, <- labels_size_kept. lia.
Qed.

(** One call of the parser, by the outcome of the name. *)
Lemma question_FromWire_name data p_Size o q0 r m labels :
  p_Size ≤ length data → ParseDomainName data p_Size o [] = Done (r, m, labels) →
  FromWire (Some data) p_Size o q0 =
    Done (if r && (m + 4 <=? p_Size)
          then (true, m + 4, {| m_Qname_ := labels;
                                m_Qtype_ := object_value (take 2 (drop m data));
                                m_Qclass_ := object_value (take 2 (drop (m + 2) data)) |})
          else (false, m, q0)).
Proof.
  intros Hd E. unfold FromWire. rewrite E, bind_done. destruct r; [simpl negb|done].
  destruct (Nat.leb_spec (m + 4) p_Size), (Nat.ltb_spec p_Size (m + 4)); try lia; [|done].
  by rewrite !load_n_Done by lia.
Qed.

Lemma take_4_2 data m :
  m + 4 ≤ length data → take 4 (drop m data) = take 2 (drop m data) ++ take 2 (drop (m + 2) data).
Proof.
  intros Hl. rewrite <- (drop_drop data 2 m). change 4 with (2 + 2).
  rewrite <- (take_drop 2 (drop m data)) at 1.
  by rewrite take_app_add' by len.
Qed.

Lemma FromWire_question_at data p_Size o q0 next q :
  p_Size ≤ length data →
  (FromWire (Some data) p_Size o q0 = Done (true, next, q) ↔ question_at data p_Size o q next).
Proof.
  intros Hd. destruct (ParseDomainName_iff data p_Size Hd o []) as (r & m & ls & E & Hr).
  rewrite (question_FromWire_name _ _ _ _ _ _ _ Hd E). split.
  - destruct r; simpl; [|congruence]. destruct (Nat.leb_spec (m + 4) p_Size); [|congruence].
    intros [= <- <-]. destruct (proj1 (Hr ls m)) as (h & Hn & Hh); [done|].
    exists m, h. unfold wf, Qtype, Qclass; cbn [m_Qname_ m_Qtype_ m_Qclass_]. split_and!; try done.
    + apply object_value_uint16. len.
    + apply object_value_uint16. len.
    + rewrite take_4_2, !member_value by len. done.
  - intros (m' & h & Hn & Hh & Hm & -> & [Hw1 Hw2] & Hb).
    destruct (proj2 (Hr _ m') (ex_intro _ h (conj Hn Hh))) as (-> & El & ->). simpl in El. subst ls.
    destruct (Nat.leb_spec (m' + 4) p_Size); [|lia]. simpl.
    rewrite take_4_2 in Hb by lia. apply app_inj_1 in Hb as [H1 H2]; [|len].
    unfold Qtype, Qclass in *.
    rewrite (member_inj 2 (m_Qtype_ q)), (member_inj 2 (m_Qclass_ q)) by (done || len).
    by destruct q.
Qed.

Lemma question_ToWire_Done q data s_Base p_Size :
  WireSize q ≤ p_Size → s_Base + WireSize q ≤ length data → wf q →
  ToWire q (Some data) s_Base p_Size = Done (WireSize q, Some (splice data s_Base (wire q))).
Proof.
  intros Hs Hl [Hw1 Hw2]. rewrite <- question_length_wire in *. unfold ToWire.
  rewrite <- question_length_wire. destruct (Nat.ltb_spec p_Size (length (wire q))); [lia|].
  unfold wire in *. rewrite !length_app, !length_be_split in Hl.
  rewrite WriteLabels_Done by lia. rewrite bind_done. rewrite Nat.add_0_r, Nat.add_0_l.
  set (nm := encode_name (kept (m_Qname_ q))) in *.
  rewrite (store_n_next _ _ _ nm), bind_done by (rewrite ?length_object_bytes; lia).
  rewrite store_n_next, bind_done by len.
  rewrite !(member_bytes 2) by done. unfold Qtype, Qclass. rewrite <- app_assoc.
  do 2 f_equal. rewrite !length_app, !length_be_split. lia.
Qed.

Lemma question_ToWire_short q data s_Base p_Size :
  p_Size < WireSize q → ToWire q (Some data) s_Base p_Size = Done (O, Some data).
Proof. intros. unfold ToWire. destruct (Nat.ltb_spec p_Size (WireSize q)); [done|lia]. Qed.

(** A serialized question anywhere in a packet is that question. *)
Lemma question_at_wire q data p_Size pre post :
  wf q → Forall label_ok (m_Qname_ q) → data = pre ++ wire q ++ post →
  length pre + WireSize q ≤ p_Size →
  question_at data p_Size (length pre) q (length pre + WireSize q).
Proof.
  intros Hw Hok E Hs. unfold wire in E. rewrite label_ok_kept in E by done.
  rewrite <- question_length_wire in *. unfold wire in *.
  rewrite label_ok_kept in * by done. rewrite !length_app, !length_be_split in *.
  exists (length pre + length (encode_name (m_Qname_ q))), 0. split_and!; try done.
  - apply name_at_encode with (be_split 2 (Qtype false q) ++ be_split 2 (Qclass false q) ++ post);
      [done| |lia]. rewrite E, <- !app_assoc. done.
  - unfold DNS_MAX_POINTER_HOPS. lia.
  - lia.
  - lia.
  - rewrite E, <- !app_assoc, app_assoc.
    rewrite <- length_app, drop_app_length, app_assoc, take_app_length'; [done|len].
Qed.
End lemmas.

Section facts.
  Context {H : Target}.
  Implicit Types (q : DnsQuestion) (data : bytes).

Lemma question_FromWire_Done data p_Size o q0 :
  p_Size ≤ length data →
  ∃ r next q, FromWire (Some data) p_Size o q0 = Done (r, next, q) ∧ (r = false → q = q0).
Proof.
  intros Hd. destruct (ParseDomainName_returns data p_Size o [] Hd) as (r & m & ls & E).
  rewrite (question_FromWire_name _ _ _ _ _ _ _ Hd E).
  destruct (_ && _); by eexists _, _, _.
Qed.

Lemma question_FromWire_wf data p_Size o q0 r next q :
  p_Size ≤ length data → wf q0 → FromWire (Some data) p_Size o q0 = Done (r, next, q) →
  wf q ∧ (r = true → o < next ≤ p_Size ∧ Forall label_ok (m_Qname_ q)).
Proof.
  intros Hd Hq0 E. destruct r.
  - apply FromWire_question_at in E as (m & h & Hn & _ & ? & -> & Hw & _); [|done].
    split; [done|]. intros _. pose proof (name_at_next _ _ _ _ _ _ Hn). 
    split; [lia|by eapply name_at_labels_ok].
  - destruct (question_FromWire_Done data p_Size o q0 Hd) as (r & n & q' & E' & Hf).
    rewrite E in E'. simplify_eq. by rewrite Hf.
Qed.

(** The question parser returns for every packet and offset, reading only inside the
    packet; it succeeds exactly when a question (a name, a type and a class) stands at the
    offset, with that question and the offset after it, and it leaves its output parameter
    alone when it fails. *)
Theorem FromWire_spec data p_Size o q0 :
  p_Size ≤ length data →
  ∃ r next q, FromWire (Some data) p_Size o q0 = Done (r, next, q) ∧
    (r = false → q = q0) ∧
    ∀ q' next', (r = true ∧ q = q' ∧ next = next') ↔ question_at data p_Size o q' next'.
Proof.
  intros Hd. destruct (question_FromWire_Done data p_Size o q0 Hd) as (r & n & q & E & Hf).
  exists r, n, q. split_and!; [done..|]. intros q' next'.
  rewrite <- (FromWire_question_at data p_Size o q0) by done. rewrite E.
  split; [by intros (-> & -> & ->)|by intros [= -> -> ->]].
Qed.

(** The question "www.a.com IN A" in the example packet. *)
Definition example_question_packet : bytes := example_packet ++ [x00; x01; x00; x01].

End facts.

Section FromWire_spec_example.
  #[local] Existing Instance x86_64.

Lemma FromWire_spec_witness :
  17 ≤ length example_question_packet ∧
  ∃ r next q, FromWire (Some example_question_packet) 17 7 clear = Done (r, next, q) ∧
    (r = false → q = clear) ∧
    ∀ q' next', (r = true ∧ q = q' ∧ next = next') ↔
                question_at example_question_packet 17 7 q' next'.
Proof.
  split; [simpl; lia|]. apply (FromWire_spec example_question_packet 17 7 clear). simpl. lia.
Defined.
End FromWire_spec_example.

Section roundtrip_facts.
  Context {H : Target}.


(** Serialization writes exactly the RFC 1035 layout of the question, [WireSize] bytes
    of it, at its destination and nothing else, and parsing it back, whatever surrounds it,
    gives the same question; a destination that is too small is left untouched. *)
Theorem question_roundtrip q pre mid post p_Size q0 :
  wf q → Forall label_ok (m_Qname_ q) → length mid = WireSize q →
  (p_Size < WireSize q →
     ToWire q (Some (pre ++ mid ++ post)) (length pre) p_Size = Done (O, Some (pre ++ mid ++ post))) ∧
  (WireSize q ≤ p_Size →
     ToWire q (Some (pre ++ mid ++ post)) (length pre) p_Size
       = Done (WireSize q, Some (pre ++ wire q ++ post)) ∧
     FromWire (Some (pre ++ wire q ++ post)) (length (pre ++ wire q ++ post)) (length pre) q0
       = Done (true, length pre + WireSize q, q)).
Proof.
  intros Hw Hok Hm. split; [apply question_ToWire_short|]. intros Hs. split.
  - rewrite question_ToWire_Done; [|done|rewrite !length_app; lia|done].
    by rewrite splice_middle by (rewrite question_length_wire; lia).
  - apply FromWire_question_at; [done|]. apply question_at_wire with post; [done..|].
    rewrite !length_app, question_length_wire. lia.
Qed.

End roundtrip_facts.

Section question_roundtrip_example.
  #[local] Existing Instance x86_64.

Lemma question_roundtrip_witness :
  let q := SetQtype 1 false (SetQclass 1 false (SetQnameFromString (str "a.com") clear)) in
  WireSize q = 11 ∧
  FromWire (Some ([x00] ++ wire q ++ [])) (length ([x00] ++ wire q ++ [])) 1 clear
    = Done (true, 12, q).
Proof.
  intros q. assert (Hw : wf q) by (split; apply (HostToNetwork_bound 2); unfold width; simpl; lia).
  assert (Hok : Forall label_ok (m_Qname_ q)) by (repeat constructor; simpl; lia).
  split; [reflexivity|].
  exact (proj2 (proj2 (question_roundtrip q [x00] (repeat x00 11) [] 11 clear Hw Hok eq_refl)
                 (le_n 11))).
Defined.
End question_roundtrip_example.

(** ** Reverse-lookup names *)

Section reverse_names.
  Context {H : Target}.

(** Text between separators: no separator in it, not empty, and short enough. *)
Definition octet_ok (o : bytes) : Prop := ("."%byte ∉ o) ∧ (":"%byte ∉ o) ∧ o ≠ [].
Definition group_ok (g : bytes) : Prop := (":"%byte ∉ g) ∧ 1 ≤ length g ≤ 4.

(** A group as four lower-case characters, and the labels of an address. *)
Definition pad_group (g : bytes) : bytes := repeat "0"%byte (4 - length g) ++ (tolower <$> g).
Definition ip6_labels (gs : list bytes) : list bytes :=
  ((λ c, [c]) <$> rev (concat (pad_group <$> gs))) ++ [str "ip6"; str "arpa"].

Lemma Ipv6Expand_pad gs acc :
  Forall (λ g, length g ≤ 4) gs → Ipv6Expand gs acc = Some (acc ++ concat (pad_group <$> gs)).
Proof.
  intros Hg. revert acc. induction Hg as [|g gs Hg _ IH]; intros acc; simpl.
  - by rewrite app_nil_r.
  - destruct (Nat.ltb_spec 4 (length g)); [lia|]. rewrite IH, <- app_assoc. done.
Qed.

Lemma group_ok_ne g : group_ok g → g ≠ [].
Proof. intros [_ Hl] ->. simpl in Hl. lia. Qed.

Lemma groups_sep gs : Forall group_ok gs → Forall (λ p, (":"%byte ∉ p) ∧ p ≠ []) gs.
Proof.
  intros Hg. eapply Forall_impl; [done|]. intros g Hk. split; [apply Hk|by apply group_ok_ne].
Qed.

Lemma SplitByColon_join gs : Forall group_ok gs → SplitByColon (join ":"%byte gs) = gs.
Proof. intros Hg. by apply split_nonempty_join, groups_sep. Qed.

Lemma Ipv4Octets_join os : os ≠ [] → Forall octet_ok os → Ipv4Octets (join "."%byte os) = os.
Proof.
  intros Hne Ho. unfold Ipv4Octets.
  pose proof (split_loop_split "."%byte (join "."%byte os)) as Hs.
  destruct (split_loop _ _) as [ps i]. destruct Hs as (Hs & Hi & _).
  rewrite split_on_join in Hs; [|done|eapply Forall_impl; [done|]; by intros o [? _]].
  destruct (Nat.ltb_spec i (length (join "."%byte os))); [by symmetry|].
  rewrite drop_ge in Hs by done. rewrite Hs in Ho. apply Forall_app in Ho as [_ Ho].
  rewrite Forall_singleton in Ho. by destruct Ho as (_ & _ & ?).
Qed.

Lemma SetPTRFromIp_names os ls rs gs q :
  os ≠ [] → Forall octet_ok os →
  Forall group_ok ls → Forall group_ok rs → length ls + length rs ≤ 8 →
  Forall group_ok gs → length gs = 8 →
  m_Qname_ (SetPTRFromIp (join "."%byte os) q) = rev os ++ [str "in-addr"; str "arpa"] ∧
  m_Qname_ (SetPTRFromIp (join ":"%byte ls ++ ":"%byte :: ":"%byte :: join ":"%byte rs) q)
    = ip6_labels (ls ++ repeat [ "0"%byte ] (8 - (length ls + length rs)) ++ rs) ∧
  m_Qname_ (SetPTRFromIp (join ":"%byte gs) q) = ip6_labels gs.
Proof.
  intros Hne Ho Hl Hr Hlr Hg H8.
  assert (Hip6 : ∀ s gs', find ":"%byte s 0 ≠ None → Ipv6Groups s = Some gs' →
            Forall (λ g, length g ≤ 4) gs' → m_Qname_ (SetPTRFromIp s q) = ip6_labels gs').
  { intros s gs' Hf Hgr Hlen. unfold SetPTRFromIp. destruct s as [|c s]; [done|].
    destruct (find ":"%byte (c :: s) 0); [|done]. by rewrite Hgr, Ipv6Expand_pad. }
  assert (Hfind : ∀ s, ":"%byte ∈ s → find ":"%byte s 0 ≠ None).
  { intros s Hs E. unfold find in E. rewrite drop_0 in E.
    destruct (index_of ":"%byte s) eqn:Ei; [done|]. by apply index_of_None in Ei. }
  assert (H4 : ∀ gs', Forall group_ok gs' → Forall (λ g, length g ≤ 4) gs').
  { intros gs' Hk. eapply Forall_impl; [done|]. unfold group_ok. lia. }
  split_and!.
  - unfold SetPTRFromIp. destruct (join "."%byte os) as [|c s] eqn:E.
    + exfalso. destruct os as [|o os]; [done|]. revert E. apply join_nonempty with o; [|by left].
      apply Forall_cons in Ho as [(_ & _ & ?) _]. done.
    + rewrite <- E. unfold find. rewrite drop_0.
      destruct (index_of _ _) eqn:Ei; [exfalso|by rewrite Ipv4Octets_join].
      assert (Hc : ":"%byte ∈ join "."%byte os).
      { apply index_of_Some in Ei as (-> & _ & _). apply elem_of_app. right. by left. }
      apply elem_of_join in Hc as [?|(o & Hin & ?)]; [done|].
      rewrite Forall_forall in Ho. by destruct (Ho o Hin) as (_ & ? & _).
  - apply Hip6.
    + apply Hfind, elem_of_app. right. by left.
    + unfold Ipv6Groups. rewrite find2_join by (by apply groups_sep). cbn zeta.
      rewrite bool_decide_true by (by eexists). unfold substr, substr_from.
      rewrite drop_0, take_app_length.
      change (":"%byte :: ":"%byte :: ?t) with ([":"%byte; ":"%byte] ++ t).
      rewrite app_assoc, drop_app_length' by (rewrite length_app; done).
      rewrite !SplitByColon_join by done.
      destruct (Nat.ltb_spec 8 (length ls + length rs)); [lia|]. simpl andb. cbv iota.
      rewrite !length_app, repeat_length.
      destruct (Nat.eqb_spec (length ls + (8 - (length ls + length rs) + length rs)) 8); [done|lia].
    + rewrite !Forall_app. split_and!; [by apply H4| |by apply H4].
      apply Forall_forall. intros g Hin%list_elem_of_In%repeat_spec. subst. simpl. lia.
  - apply Hip6; [|unfold Ipv6Groups|by apply H4].
    + apply Hfind. destruct gs as [|g [|g' gs]]; [done..|].
      rewrite join_cons. apply elem_of_app. right. by left.
    + rewrite find2_join_none by (by apply groups_sep). cbn zeta. cbn [app].
      rewrite bool_decide_false by (by intros [??]). simpl andb. cbv iota.
      rewrite SplitByColon_join by done. cbn [SplitByColon split_nonempty app].
      rewrite app_nil_r, H8. done.
Qed.

(** The reverse-lookup name of an IPv4 address is its octets in reverse order under
    in-addr.arpa; that of an IPv6 address is its 32 hexadecimal digits in reverse order, in
    lower case, under ip6.arpa, whether the groups are written in full or a run of zero
    groups is abbreviated by a double colon. *)
Theorem SetPTRFromIp_spec os ls rs gs q :
  os ≠ [] → Forall octet_ok os →
  Forall group_ok ls → Forall group_ok rs → length ls + length rs ≤ 8 →
  Forall group_ok gs → length gs = 8 →
  m_Qname_ (SetPTRFromIp (join "."%byte os) q) = rev os ++ [str "in-addr"; str "arpa"] ∧
  m_Qname_ (SetPTRFromIp (join ":"%byte ls ++ ":"%byte :: ":"%byte :: join ":"%byte rs) q)
    = ip6_labels (ls ++ repeat [ "0"%byte ] (8 - (length ls + length rs)) ++ rs) ∧
  m_Qname_ (SetPTRFromIp (join ":"%byte gs) q) = ip6_labels gs.
Proof. apply SetPTRFromIp_names. Qed.

End reverse_names.

Section SetPTRFromIp_spec_example.
  #[local] Existing Instance x86_64.

Lemma SetPTRFromIp_spec_witness :
  let os := [str "10"; str "0"; str "0"; str "1"] in
  let gs := [str "2001"; str "db8"; str "1"; str "2"; str "3"; str "4"; str "5"; str "F"] in
  m_Qname_ (SetPTRFromIp (join "."%byte os) clear) = rev os ++ [str "in-addr"; str "arpa"] ∧
  m_Qname_ (SetPTRFromIp (join ":"%byte [] ++ ":"%byte :: ":"%byte :: join ":"%byte [str "1"]) clear)
    = ip6_labels ([] ++ repeat ["0"%byte] (8 - (0 + 1)) ++ [str "1"]) ∧
  m_Qname_ (SetPTRFromIp (join ":"%byte gs) clear) = ip6_labels gs.
Proof.
  intros os gs. apply (SetPTRFromIp_spec os [] [str "1"] gs clear);
    unfold octet_ok, group_ok, os, gs; by_decide.
Defined.
End SetPTRFromIp_spec_example.
