(* ===== verification/DnsAnswer.v ===== *)
(** * Resource records (src/include/dns_packet_answer.h, src/src/dns_packet_answer.cc)

    A record is its labels, four integers in network byte order and its data.
    The parser re-encodes the names inside the data of NS, CNAME, PTR, SOA, MX
    and SRV records without compression; the theorems relate it to the RFC 1035
    layout, and the textual forms of addresses to their bytes.  [UpdateRDLENGTH] asserts
    that the data has at most 65535 bytes: the operations that set data abort otherwise
    in a build with assertions, and in a build without them the length wraps around. *)

From Stdlib Require Import ZArith Lia ZifyBool.
From Stdlib Require Import Strings.Byte Strings.String.
From stdpp Require Import base numbers list option sets.
From S2P Require Import Prelude.
From S2P Require Import Memory.
From S2P Require Import Utils.
From S2P Require Import Text.
From S2P Require Import Name.

(** ** Data *)

Record DnsAnswer : Type := {
  m_Name_ : list bytes;
  m_Type_ : Z;
  m_Class_ : Z;
  m_Ttl_ : Z;
  m_Rdlength_ : Z;
  m_Rdata_ : bytes
}.

#[export] Instance DnsAnswer_eq_dec : EqDecision DnsAnswer.
Proof. solve_decision. Defined.

(** ** Operations *)

Section operations.
  Context {H : Target}.
  Implicit Types (a : DnsAnswer).

(** [clear], and the default constructor. *)
Definition clear : DnsAnswer :=
  {| m_Name_ := []; m_Type_ := 0; m_Class_ := 0; m_Ttl_ := 0; m_Rdlength_ := 0; m_Rdata_ := [] |}.

Definition Name a : list bytes := m_Name_ a.
Definition Type_ (p_Raw : bool) a : Z := if p_Raw then m_Type_ a else NetworkToHost 2 (m_Type_ a).
Definition Rclass (p_Raw : bool) a : Z := if p_Raw then m_Class_ a else NetworkToHost 2 (m_Class_ a).
Definition Ttl (p_Raw : bool) a : Z := if p_Raw then m_Ttl_ a else NetworkToHost 4 (m_Ttl_ a).
Definition Rdlength (p_Raw : bool) a : Z :=
  if p_Raw then m_Rdlength_ a else NetworkToHost 2 (m_Rdlength_ a).
Definition Rdata a : bytes := m_Rdata_ a.

Definition NameAsString a : bytes :=
  match m_Name_ a with [] => [] | _ => LabelsAsString (m_Name_ a) end.

Definition Fqdn a : bytes :=
  let s_Result := NameAsString a in
  match s_Result with [] => [] | _ => s_Result ++ ["."%byte] end.

Definition RdataAsIpv4 a : outcome bytes :=
  match m_Rdata_ a with
  | [b0; b1; b2; b3] =>
      if negb (Type_ false a =? 1)%Z then Throw InvalidArgument
      else Done (print_dec (u8 b0) ++ ["."%byte] ++ print_dec (u8 b1) ++ ["."%byte]
                 ++ print_dec (u8 b2) ++ ["."%byte] ++ print_dec (u8 b3))
  | _ => Throw InvalidArgument
  end.

(** The [for] loop of [RdataAsIpv6], two bytes at a time. *)
Fixpoint hex_words (l_First : bool) (bs : bytes) : bytes :=
  match bs with
  | hi :: lo :: bs =>
      (if l_First then [] else [":"%byte])
      ++ print_hex (u16 (Z.lor (Z.shiftl (u8 hi) 8) (u8 lo))) ++ hex_words false bs
  | _ => []
  end.

Definition RdataAsIpv6 a : outcome bytes :=
  if negb (Type_ false a =? 28)%Z || negb (length (m_Rdata_ a) =? 16) then Throw InvalidArgument
  else Done (hex_words true (m_Rdata_ a)).

Definition RdataAsDomainName a : outcome bytes :=
  let s_RecordType := Type_ false a in
  if negb (s_RecordType =? 2)%Z && negb (s_RecordType =? 5)%Z && negb (s_RecordType =? 12)%Z
  then Throw InvalidArgument else
  '(s_Ok, s_Offset, s_Labels) ← ParseDomainName (m_Rdata_ a) (length (m_Rdata_ a)) 0 [];
  if negb s_Ok then Throw InvalidArgument else
  Done (match s_Labels with [] => [] | _ => LabelsAsString s_Labels end).

(** The [while] loop of [RdataAsText]. *)
Fixpoint text_loop (fuel : nat) (rd : bytes) (s_Offset : nat) (s_Result : bytes) : outcome bytes :=
  match fuel with
  | O => Unfinished
  | S fuel =>
      if s_Offset <? length rd then
        b ← load rd s_Offset;
        let s_Length := Z.to_nat (u8 b) in
        let s_Offset := S s_Offset in
        if length rd <? s_Offset + s_Length then Done s_Result else
        let s_Result := match s_Result with [] => [] | _ => s_Result ++ [" "%byte] end in
        t ← load_n rd s_Offset s_Length;
        text_loop fuel rd (s_Offset + s_Length) (s_Result ++ t)
      else Done s_Result
  end.

Definition RdataAsText a : outcome bytes :=
  if negb (Type_ false a =? 16)%Z then Throw InvalidArgument
  else text_loop (S (length (m_Rdata_ a))) (m_Rdata_ a) 0 [].

Definition with_Name (labels : list bytes) a : DnsAnswer :=
  {| m_Name_ := labels; m_Type_ := m_Type_ a; m_Class_ := m_Class_ a; m_Ttl_ := m_Ttl_ a;
     m_Rdlength_ := m_Rdlength_ a; m_Rdata_ := m_Rdata_ a |}.

Definition SetName (p_Labels : list bytes) a : DnsAnswer :=
  with_Name (List.filter IsValidLabel p_Labels) a.

Definition SetNameFromString (p_Name : bytes) a : DnsAnswer :=
  with_Name (LabelsFromString p_Name) a.

Definition SetType (p_Type : Z) (p_Raw : bool) a : DnsAnswer :=
  {| m_Name_ := m_Name_ a; m_Type_ := if p_Raw then p_Type else HostToNetwork 2 p_Type;
     m_Class_ := m_Class_ a; m_Ttl_ := m_Ttl_ a; m_Rdlength_ := m_Rdlength_ a;
     m_Rdata_ := m_Rdata_ a |}.

Definition SetRclass (p_Class : Z) (p_Raw : bool) a : DnsAnswer :=
  {| m_Name_ := m_Name_ a; m_Type_ := m_Type_ a;
     m_Class_ := if p_Raw then p_Class else HostToNetwork 2 p_Class;
     m_Ttl_ := m_Ttl_ a; m_Rdlength_ := m_Rdlength_ a; m_Rdata_ := m_Rdata_ a |}.

Definition SetTtl (p_Ttl : Z) (p_Raw : bool) a : DnsAnswer :=
  {| m_Name_ := m_Name_ a; m_Type_ := m_Type_ a; m_Class_ := m_Class_ a;
     m_Ttl_ := if p_Raw then p_Ttl else HostToNetwork 4 p_Ttl;
     m_Rdlength_ := m_Rdlength_ a; m_Rdata_ := m_Rdata_ a |}.

(** The record with RDLENGTH that of its data, in 16 bits. *)
Definition sized a : DnsAnswer :=
  {| m_Name_ := m_Name_ a; m_Type_ := m_Type_ a; m_Class_ := m_Class_ a; m_Ttl_ := m_Ttl_ a;
     m_Rdlength_ := HostToNetwork 2 (u16 (Z.of_nat (length (m_Rdata_ a))));
     m_Rdata_ := m_Rdata_ a |}.

(** [m_Rdata_.size() <= UINT16_MAX] *)
Definition fits (rd : bytes) : bool := (Z.of_nat (length rd) <=? UINT16_MAX)%Z.

(** In a build without assertions, a longer RDATA wraps the length. *)
Definition UpdateRDLENGTH a : outcome DnsAnswer := assert_ (fits (m_Rdata_ a));; Done (sized a).

Definition with_Rdata (rd : bytes) a : DnsAnswer :=
  {| m_Name_ := m_Name_ a; m_Type_ := m_Type_ a; m_Class_ := m_Class_ a; m_Ttl_ := m_Ttl_ a;
     m_Rdlength_ := m_Rdlength_ a; m_Rdata_ := rd |}.

Definition SetRdata (p_Data : bytes) a : outcome DnsAnswer := UpdateRDLENGTH (with_Rdata p_Data a).

(** The record that [SetRdata] makes. *)
Definition with_data (rd : bytes) a : DnsAnswer := sized (with_Rdata rd a).

(** The [try] block of [SetRdataIpv4] on one piece of the address. *)
Definition ipv4_octet (s : bytes) : outcome byte :=
  try_catch
    (s_Value ← stoi 10 s;
     if (s_Value <? 0)%Z || (255 <? s_Value)%Z then Throw InvalidArgument else Done (ch s_Value))
    (λ _, Throw InvalidArgument).

Definition SetRdataIpv4 (p_Ipv4Address : bytes) a : outcome DnsAnswer :=
  let '(pieces, s_Start) := split_loop "."%byte p_Ipv4Address in
  s_RData ← mapM ipv4_octet
    (pieces ++ (if s_Start <=? length p_Ipv4Address then [substr_from p_Ipv4Address s_Start] else []));
  if negb (length s_RData =? 4) then Throw InvalidArgument else SetRdata s_RData a.

(** The groups of an IPv6 address, with the run of zeros a double colon stands for. *)
Definition ipv6_groups (s_Address : bytes) : outcome (list bytes) :=
  match find2 ":"%byte s_Address with
  | Some s_DoubleColon =>
      let s_Left := substr s_Address 0 s_DoubleColon in
      let s_Right := if s_DoubleColon + 2 <? length s_Address
                     then substr_from s_Address (s_DoubleColon + 2) else [] in
      let s_Before := split_nonempty ":"%byte s_Left in
      let s_After := split_nonempty ":"%byte s_Right in
      let s_ZeroGroups := (8 - Z.of_nat (length s_Before) - Z.of_nat (length s_After))%Z in
      if (s_ZeroGroups <? 0)%Z then Throw InvalidArgument
      else Done (s_Before ++ repeat ["0"%byte] (Z.to_nat s_ZeroGroups) ++ s_After)
  | None =>
      let '(pieces, s_Start) := split_loop ":"%byte s_Address in
      Done (pieces ++ [substr_from s_Address s_Start])
  end.

Definition ipv6_word (s_Group : bytes) : outcome bytes :=
  try_catch
    (s_IntValue ← stoi 16 (match s_Group with [] => ["0"%byte] | _ => s_Group end);
     if (s_IntValue <? 0)%Z || (0xFFFF <? s_IntValue)%Z then Throw InvalidArgument
     else let s_Value := u16 s_IntValue in
          Done [ch (Z.shiftr s_Value 8); ch (Z.land s_Value 0xFF)])
    (λ _, Throw InvalidArgument).

Definition SetRdataIpv6 (p_Ipv6Address : bytes) a : outcome DnsAnswer :=
  s_AllGroups ← ipv6_groups p_Ipv6Address;
  if negb (length s_AllGroups =? 8) then Throw InvalidArgument else
  words ← mapM ipv6_word s_AllGroups;
  let s_RData := concat words in
  if negb (length s_RData =? 16) then Throw InvalidArgument else SetRdata s_RData a.

(** The serialization loop of [SetRdataDomainName] and [MakeMxRecord]. *)
Definition SerializeLabels (s_Labels : list bytes) (s_RData : bytes) : bytes :=
  fold_left (λ s_RData l, if 63 <? length l then s_RData
                          else s_RData ++ [ch (Z.of_nat (length l))] ++ l) s_Labels s_RData
  ++ [x00].

Definition SetRdataDomainName (p_DomainName : bytes) a : outcome DnsAnswer :=
  let s_Domain := drop_last_if "."%byte p_DomainName in
  SetRdata (SerializeLabels (SplitLabels s_Domain) []) a.

Definition SetRdataText (p_Text : bytes) a : outcome DnsAnswer :=
  if 255 <? length p_Text then Throw InvalidArgument
  else SetRdata (ch (Z.of_nat (length p_Text)) :: p_Text) a.

Definition on_labels (f : list bytes → bool * list bytes) a : bool * DnsAnswer :=
  let '(r, labels) := f (m_Name_ a) in (r, with_Name labels a).

Definition AddLabel (p_Label : bytes) a := on_labels (Name.AddLabel p_Label) a.
Definition PrependLabel (p_Label : bytes) a := on_labels (Name.PrependLabel p_Label) a.
Definition PopLabel a := on_labels Name.PopLabel a.
Definition RemoveFirstLabel a := on_labels Name.RemoveFirstLabel a.

Definition swap a (p_Other : DnsAnswer) : DnsAnswer * DnsAnswer := (p_Other, a).
Definition empty a : bool := match m_Name_ a with [] => true | _ => false end.
Definition size a : nat := length (m_Name_ a).
Definition resize (p_Size : nat) (p_Value : bytes) a : DnsAnswer :=
  with_Name (list.resize p_Size p_Value (m_Name_ a)) a.

Definition at_index (p_Index : nat) a : outcome bytes :=
  match m_Name_ a !! p_Index with Some l => Done l | None => Throw OutOfRange end.
Definition index (p_Index : nat) a : outcome bytes :=
  match m_Name_ a !! p_Index with Some l => Done l | None => Undef end.
Definition front a : outcome bytes := index 0 a.
Definition back a : outcome bytes := index (length (m_Name_ a) - 1) a.

(** The records made from text: name, class IN, TTL, then the data. *)
Definition record_base (p_Name : bytes) (p_Type p_Ttl : Z) : DnsAnswer :=
  SetTtl p_Ttl false (SetRclass 1 false (SetType p_Type false (SetNameFromString p_Name clear))).

Definition MakeARecord (p_Name p_Ipv4Address : bytes) (p_Ttl : Z) : outcome DnsAnswer :=
  SetRdataIpv4 p_Ipv4Address (record_base p_Name 1 p_Ttl).
Definition MakeAaaaRecord (p_Name p_Ipv6Address : bytes) (p_Ttl : Z) : outcome DnsAnswer :=
  SetRdataIpv6 p_Ipv6Address (record_base p_Name 28 p_Ttl).
Definition MakeCnameRecord (p_Name p_CanonicalName : bytes) (p_Ttl : Z) : outcome DnsAnswer :=
  SetRdataDomainName p_CanonicalName (record_base p_Name 5 p_Ttl).
Definition MakeMxRecord (p_Name p_MailServer : bytes) (p_Priority p_Ttl : Z) : outcome DnsAnswer :=
  let s_Answer := record_base p_Name 15 p_Ttl in
  let s_RData := object_bytes 2 (HostToNetwork 2 p_Priority) in
  let s_Domain := drop_last_if "."%byte p_MailServer in
  SetRdata (SerializeLabels (SplitLabels s_Domain) s_RData) s_Answer.
Definition MakeTxtRecord (p_Name p_TextData : bytes) (p_Ttl : Z) : outcome DnsAnswer :=
  SetRdataText p_TextData (record_base p_Name 16 p_Ttl).
Definition MakePtrRecord (p_Name p_TargetName : bytes) (p_Ttl : Z) : outcome DnsAnswer :=
  SetRdataDomainName p_TargetName (record_base p_Name 12 p_Ttl).
Definition MakeNsRecord (p_Name p_NameServer : bytes) (p_Ttl : Z) : outcome DnsAnswer :=
  SetRdataDomainName p_NameServer (record_base p_Name 2 p_Ttl).

Definition Valid a : bool :=
  match m_Name_ a with
  | [] => true
  | _ => if negb (ValidName (m_Name_ a)) then false
         else (Rdlength false a =? Z.of_nat (length (m_Rdata_ a)))%Z
  end.

(** [std::hash] is the standard library's. *)
Definition Hash (hash_string : bytes → Z) (hash16 hash32 : Z → Z) (hash_char : byte → Z) a : Z :=
  let s_Result := fold_left (λ r l, hash_combine r (hash_string l)) (m_Name_ a) 0%Z in
  let s_Result := hash_combine s_Result (hash16 (m_Type_ a)) in
  let s_Result := hash_combine s_Result (hash16 (m_Class_ a)) in
  let s_Result := hash_combine s_Result (hash32 (m_Ttl_ a)) in
  fold_left (λ r c, hash_combine r (hash_char c)) (m_Rdata_ a) s_Result.

Definition WireSize a : nat :=
  let s_Size := labels_size (m_Name_ a) in
  let s_Size := s_Size + 1 in
  let s_Size := s_Size + 10 in
  s_Size + length (m_Rdata_ a).

(** The result and [p_RData] after the call. *)
Definition DecompressRDATA (s_DataBytes : bytes) (p_Size p_RdataOffset : nat) (p_TypeHost : Z)
    (p_RData : bytes) : outcome (bool * bytes) :=
  if (p_TypeHost =? 2)%Z || (p_TypeHost =? 5)%Z || (p_TypeHost =? 12)%Z then
    '(s_Ok, s_Offset, s_RdataLabels) ← ParseDomainName s_DataBytes p_Size p_RdataOffset [];
    if negb s_Ok then Done (false, p_RData) else
    Done (true, EncodeDomainLabels s_RdataLabels [])
  else if (p_TypeHost =? 6)%Z then
    '(s_Ok, s_Offset, s_MnameLabels) ← ParseDomainName s_DataBytes p_Size p_RdataOffset [];
    if negb s_Ok then Done (false, p_RData) else
    '(s_Ok, s_Offset, s_RnameLabels) ← ParseDomainName s_DataBytes p_Size s_Offset [];
    if negb s_Ok then Done (false, p_RData) else
    if p_Size <? s_Offset + 20 then Done (false, p_RData) else
    tail ← load_n s_DataBytes s_Offset 20;
    Done (true, EncodeDomainLabels s_RnameLabels (EncodeDomainLabels s_MnameLabels []) ++ tail)
  else if (p_TypeHost =? 15)%Z then
    if p_Size <? p_RdataOffset + 2 then Done (false, p_RData) else
    '(s_Ok, s_Offset, s_ExchangeLabels) ← ParseDomainName s_DataBytes p_Size (p_RdataOffset + 2) [];
    if negb s_Ok then Done (false, p_RData) else
    b0 ← load s_DataBytes p_RdataOffset;
    b1 ← load s_DataBytes (p_RdataOffset + 1);
    Done (true, EncodeDomainLabels s_ExchangeLabels [b0; b1])
  else if (p_TypeHost =? 33)%Z then
    if p_Size <? p_RdataOffset + 6 then Done (false, p_RData) else
    '(s_Ok, s_Offset, s_TargetLabels) ← ParseDomainName s_DataBytes p_Size (p_RdataOffset + 6) [];
    if negb s_Ok then Done (false, p_RData) else
    h ← load_n s_DataBytes p_RdataOffset 6;
    Done (true, EncodeDomainLabels s_TargetLabels h)
  else Done (false, p_RData).

(** The types whose data the parser decompresses. *)
Definition has_names (t : Z) : bool :=
  ((t =? 2) || (t =? 5) || (t =? 6) || (t =? 12) || (t =? 15) || (t =? 33))%Z.

(** The result, [p_Offset] and [p_OutAnswer] after the call. *)
Definition FromWire (p_Data : option bytes) (p_Size p_Offset : nat) (p_OutAnswer : DnsAnswer)
    : outcome (bool * nat * DnsAnswer) :=
  match p_Data with
  | None => Done (false, p_Offset, p_OutAnswer)
  | Some s_DataBytes =>
      '(s_Ok, p_Offset, s_Labels) ← ParseDomainName s_DataBytes p_Size p_Offset [];
      if negb s_Ok then Done (false, p_Offset, p_OutAnswer) else
      if p_Size <? p_Offset + 10 then Done (false, p_Offset, p_OutAnswer) else
      s_Type ← load_n s_DataBytes p_Offset 2;
      s_Class ← load_n s_DataBytes (p_Offset + 2) 2;
      s_Ttl ← load_n s_DataBytes (p_Offset + 4) 4;
      s_RdLength ← load_n s_DataBytes (p_Offset + 8) 2;
      let p_Offset := p_Offset + 10 in
      let s_RdLengthHost := Z.to_nat (NetworkToHost 2 (object_value s_RdLength)) in
      if p_Size <? p_Offset + s_RdLengthHost then Done (false, p_Offset, p_OutAnswer) else
      let s_RdataOffset := p_Offset in
      s_RData ← load_n s_DataBytes p_Offset s_RdLengthHost;
      let p_Offset := p_Offset + s_RdLengthHost in
      let s_TypeHost := NetworkToHost 2 (object_value s_Type) in
      s_RData ← (if has_names s_TypeHost then
                   '(_, s_RData) ← DecompressRDATA s_DataBytes p_Size s_RdataOffset s_TypeHost s_RData;
                   Done s_RData
                 else Done s_RData);
      p_OutAnswer ← UpdateRDLENGTH
        {| m_Name_ := s_Labels; m_Type_ := object_value s_Type;
           m_Class_ := object_value s_Class; m_Ttl_ := object_value s_Ttl;
           m_Rdlength_ := m_Rdlength_ p_OutAnswer; m_Rdata_ := s_RData |};
      Done (true, p_Offset, p_OutAnswer)
  end.

(** The destination is a position in a buffer: the size written and the buffer. *)
Definition ToWire a (p_Data : option bytes) (s_Base p_Size : nat) : outcome (nat * option bytes) :=
  match p_Data with
  | None => Done (O, None)
  | Some s_Output =>
      let s_RequiredSize := WireSize a in
      if p_Size <? s_RequiredSize then Done (O, p_Data) else
      '(s_Output, s_Offset) ← WriteLabels (m_Name_ a) s_Output s_Base 0;
      s_Output ← store_n s_Output (s_Base + s_Offset) (object_bytes 2 (m_Type_ a));
      let s_Offset := s_Offset + 2 in
      s_Output ← store_n s_Output (s_Base + s_Offset) (object_bytes 2 (m_Class_ a));
      let s_Offset := s_Offset + 2 in
      s_Output ← store_n s_Output (s_Base + s_Offset) (object_bytes 4 (m_Ttl_ a));
      let s_Offset := s_Offset + 4 in
      s_Output ← store_n s_Output (s_Base + s_Offset) (object_bytes 2 (m_Rdlength_ a));
      let s_Offset := s_Offset + 2 in
      s_Output ← store_n s_Output (s_Base + s_Offset) (m_Rdata_ a);
      let s_Offset := s_Offset + length (m_Rdata_ a) in
      Done (s_Offset, Some s_Output)
  end.

(** The constructors from bytes (an offset of 0 when none is passed), and from values. *)
Definition construct_wire (p_Data : option bytes) (p_Size p_Offset : nat)
    : outcome (DnsAnswer * nat) :=
  '(s_Ok, p_Offset, a) ← FromWire p_Data p_Size p_Offset clear;
  if s_Ok : bool then Done (a, p_Offset) else Throw InvalidArgument.

Definition construct_labels (p_Name : list bytes) (p_Type p_Class p_Ttl : Z) (p_RData : bytes)
    : outcome DnsAnswer :=
  UpdateRDLENGTH (SetTtl p_Ttl false (SetRclass p_Class false (SetType p_Type false
    (with_Rdata p_RData (with_Name p_Name clear))))).

Definition construct_name (p_Name : bytes) (p_Type p_Class p_Ttl : Z) (p_RData : bytes)
    : outcome DnsAnswer :=
  UpdateRDLENGTH (SetTtl p_Ttl false (SetRclass p_Class false (SetType p_Type false
    (SetNameFromString p_Name (with_Rdata p_RData clear))))).

(** RDLENGTH is not compared. *)
Definition eqb a (p_Other : DnsAnswer) : bool :=
  bool_decide (m_Name_ a = m_Name_ p_Other) && (m_Type_ a =? m_Type_ p_Other)%Z
  && (m_Class_ a =? m_Class_ p_Other)%Z && (m_Ttl_ a =? m_Ttl_ p_Other)%Z
  && bool_decide (m_Rdata_ a = m_Rdata_ p_Other).

Definition neqb a (p_Other : DnsAnswer) : bool := negb (eqb a p_Other).

(** [char] is signed on the platforms the program is built for. *)
Definition signed_char (b : byte) : Z := if (u8 b <? 128)%Z then u8 b else (u8 b - 256)%Z.

Definition ltb a (p_Other : DnsAnswer) : bool :=
  if negb (bool_decide (m_Name_ a = m_Name_ p_Other))
  then strings_ltb (m_Name_ a) (m_Name_ p_Other)
  else if negb (m_Type_ a =? m_Type_ p_Other)%Z
  then (NetworkToHost 2 (m_Type_ a) <? NetworkToHost 2 (m_Type_ p_Other))%Z
  else if negb (m_Class_ a =? m_Class_ p_Other)%Z
  then (NetworkToHost 2 (m_Class_ a) <? NetworkToHost 2 (m_Class_ p_Other))%Z
  else if negb (m_Ttl_ a =? m_Ttl_ p_Other)%Z
  then (NetworkToHost 4 (m_Ttl_ a) <? NetworkToHost 4 (m_Ttl_ p_Other))%Z
  else lexltb (signed_char <$> m_Rdata_ a) (signed_char <$> m_Rdata_ p_Other).
End operations.

(** ** Specification *)

Section specification.
  Context {H : Target}.
  Implicit Types (a : DnsAnswer) (data : bytes).

Definition wf a : Prop :=
  uint16 (m_Type_ a) ∧ uint16 (m_Class_ a) ∧ uint32 (m_Ttl_ a) ∧ uint16 (m_Rdlength_ a).

(** RDLENGTH is the length of the data. *)
Definition rdlength_ok a : Prop := Rdlength false a = Z.of_nat (length (m_Rdata_ a)).

(** TYPE, CLASS, TTL and RDLENGTH in network order. *)
Definition fixed_wire a : bytes :=
  be_split 2 (Type_ false a) ++ be_split 2 (Rclass false a) ++ be_split 4 (Ttl false a)
  ++ be_split 2 (Rdlength false a).

(** RFC 1035 Section 4.1.3. *)
Definition wire a : bytes := encode_name (kept (m_Name_ a)) ++ fixed_wire a ++ m_Rdata_ a.

(** A name, with at most the allowed number of compression pointers. *)
Definition name_from data (p_Size o : nat) (labels : list bytes) (next : nat) : Prop :=
  ∃ h, name_at data p_Size o labels next h ∧ h ≤ DNS_MAX_POINTER_HOPS.

(** [expanded data p_Size o t rd]: the data of a record of type [t] standing at [o]
    has names, and is [rd] once they are written without compression. *)
Inductive expanded data (p_Size o : nat) : Z → bytes → Prop :=
  | expanded_name t labels m :
      t = 2%Z ∨ t = 5%Z ∨ t = 12%Z → name_from data p_Size o labels m →
      expanded data p_Size o t (encode_name labels)
  | expanded_soa mname m rname m' :
      name_from data p_Size o mname m → name_from data p_Size m rname m' → m' + 20 ≤ p_Size →
      expanded data p_Size o 6 (encode_name mname ++ encode_name rname ++ take 20 (drop m' data))
  | expanded_mx exchange m :
      o + 2 ≤ p_Size → name_from data p_Size (o + 2) exchange m →
      expanded data p_Size o 15 (take 2 (drop o data) ++ encode_name exchange)
  | expanded_srv target m :
      o + 6 ≤ p_Size → name_from data p_Size (o + 6) target m →
      expanded data p_Size o 33 (take 6 (drop o data) ++ encode_name target).

(** The record of these fields. *)
Definition answer_of (labels : list bytes) (t c ttl : Z) (rd : bytes) : DnsAnswer :=
  sized (SetTtl ttl false (SetRclass c false (SetType t false (with_Rdata rd (with_Name labels clear))))).

(** The record that stands at an offset of a packet, and the offset after it: the fixed
    fields as they stand, the data expanded when it can be and as it stands
    otherwise, RDLENGTH that of the expanded data (modulo 2^16). *)
Definition stands_at data (p_Size o : nat) a (next : nat) : Prop :=
  ∃ m (rdlen : nat) (raw : bytes),
    name_from data p_Size o (m_Name_ a) m ∧
    next = m + 10 + rdlen ∧ next ≤ p_Size ∧
    wf a ∧
    take 8 (drop m data) = be_split 2 (Type_ false a) ++ be_split 2 (Rclass false a)
                           ++ be_split 4 (Ttl false a) ∧
    rdlen = Z.to_nat (be_join (take 2 (drop (m + 8) data))) ∧
    raw = take rdlen (drop (m + 10) data) ∧
    (expanded data p_Size (m + 10) (Type_ false a) (m_Rdata_ a) ∨
     (∀ rd, ¬ expanded data p_Size (m + 10) (Type_ false a) rd) ∧ m_Rdata_ a = raw) ∧
    Rdlength false a = u16 (Z.of_nat (length (m_Rdata_ a))).

(** The record at an offset that the parser reads: the assertion on its data's length holds
    or is not compiled. *)
Definition answer_at data (p_Size o : nat) a (next : nat) : Prop :=
  stands_at data p_Size o a next ∧ passes (fits (m_Rdata_ a)).

(** A record stands at the offset whose data, once expanded, is longer than 65535 bytes, in
    a build with assertions. *)
Definition answer_aborts data (p_Size o : nat) : Prop :=
  NDEBUG = false ∧ ∃ a next, stands_at data p_Size o a next ∧ fits (m_Rdata_ a) = false.

(** Data as the parser leaves it: names are not compressed. *)
Definition plain_rdata (t : Z) (rd : bytes) : Prop :=
  (t = 2 ∨ t = 5 ∨ t = 12 → ∃ labels, Forall label_ok labels ∧ rd = encode_name labels)%Z ∧
  (t = 6%Z → ∃ mname rname tail, Forall label_ok mname ∧ Forall label_ok rname ∧
     length tail = 20 ∧ rd = encode_name mname ++ encode_name rname ++ tail) ∧
  (t = 15%Z → ∃ h exchange, length h = 2 ∧ Forall label_ok exchange ∧ rd = h ++ encode_name exchange) ∧
  (t = 33%Z → ∃ h target, length h = 6 ∧ Forall label_ok target ∧ rd = h ++ encode_name target).
End specification.

(** ** The data parser *)

Section decompression.
  Context {H : Target} (data : bytes) (p_Size : nat) (Hd : p_Size ≤ length data).

(** A call of the name parser, as a specification for rewriting. *)
Lemma parse_cases o :
  (∃ labels m, ParseDomainName data p_Size o [] = Done (true, m, labels) ∧
               name_from data p_Size o labels m ∧
               ∀ labels' m', name_from data p_Size o labels' m' → labels' = labels ∧ m' = m) ∨
  (∃ labels m, ParseDomainName data p_Size o [] = Done (false, m, labels) ∧
               ∀ labels' m', ¬ name_from data p_Size o labels' m').
Proof.
  destruct (ParseDomainName_iff data p_Size Hd o []) as (r & m & ls & E & Hr).
  destruct r; [left|right]; exists ls, m; (split; [done|]).
  - split; [by apply Hr|]. intros labels' m' Hn.
    by apply Hr in Hn as (_ & -> & ->).
  - intros labels' m' Hn. by apply Hr in Hn as (? & _).
Qed.

Lemma name_from_fun o ls m ls' m' :
  name_from data p_Size o ls m → name_from data p_Size o ls' m' → ls = ls' ∧ m = m'.
Proof.
  intros H1 H2. destruct (parse_cases o) as [(l & n & _ & _ & Hf)|(l & n & _ & Hf)].
  - destruct (Hf _ _ H1) as [-> ->]. destruct (Hf _ _ H2) as [-> ->]. done.
  - by apply Hf in H1.
Qed.

Lemma expanded_fun o t rd rd' :
  expanded data p_Size o t rd → expanded data p_Size o t rd' → rd = rd'.
Proof.
  intros H1 H2. destruct H1; inversion H2; subst;
    repeat match goal with
    | H : _ ∨ _ |- _ => destruct H
    | A : name_from _ _ ?o _ _, B : name_from _ _ ?o _ _ |- _ =>
        destruct (name_from_fun _ _ _ _ _ A B) as [??]; subst; clear A
    end; done.
Qed.

(** The data parser expands what can be expanded, and leaves its argument alone otherwise. *)
Lemma DecompressRDATA_cases o t rd0 :
  (∃ rd, DecompressRDATA data p_Size o t rd0 = Done (true, rd) ∧ expanded data p_Size o t rd) ∨
  DecompressRDATA data p_Size o t rd0 = Done (false, rd0) ∧ ∀ rd, ¬ expanded data p_Size o t rd.
Proof.
  unfold DecompressRDATA.
  destruct ((t =? 2) || (t =? 5) || (t =? 12))%Z eqn:E1; [|destruct (t =? 6)%Z eqn:E6;
    [|destruct (t =? 15)%Z eqn:E15; [|destruct (t =? 33)%Z eqn:E33]]].
  - assert (Ht : t = 2%Z ∨ t = 5%Z ∨ t = 12%Z) by lia.
    destruct (parse_cases o) as [(l & m & -> & Hn & _)|(l & m & -> & Hn)]; rewrite bind_done; simpl.
    + left. rewrite EncodeDomainLabels_encode. eexists; split; [done|]. by apply expanded_name with m.
    + right. split; [done|]. intros rd He. inversion He; subst; try lia. by eapply Hn.
  - apply Z.eqb_eq in E6 as ->.
    destruct (parse_cases o) as [(l & m & -> & Hn & _)|(l & m & -> & Hn)]; rewrite bind_done; simpl.
    2: { right. split; [done|]. intros rd He. inversion He; subst; try lia. by eapply Hn. }
    destruct (parse_cases m) as [(l' & m' & -> & Hn' & _)|(l' & m' & -> & Hn')]; rewrite bind_done; simpl.
    2: { right. split; [done|]. intros rd He. inversion He as [|? m2 ? ? H1 H2| |]; subst; [lia|].
         destruct (name_from_fun _ _ _ _ _ Hn H1) as [<- <-]. by eapply Hn'. }
    destruct (Nat.ltb_spec p_Size (m' + 20)).
    + right. split; [done|]. intros rd He. inversion He as [|? m2 ? m3 H1 H2 ?| |]; subst; [lia|].
      destruct (name_from_fun _ _ _ _ _ Hn H1) as [<- <-].
      destruct (name_from_fun _ _ _ _ _ Hn' H2) as [<- <-]. lia.
    + left. rewrite load_n_Done by lia. rewrite bind_done, !EncodeDomainLabels_encode, <- app_assoc.
      eexists; split; [done|]. by apply expanded_soa with m.
  - apply Z.eqb_eq in E15 as ->. destruct (Nat.ltb_spec p_Size (o + 2)).
    { right. split; [done|]. intros rd He. inversion He; subst; lia. }
    destruct (parse_cases (o + 2)) as [(l & m & -> & Hn & _)|(l & m & -> & Hn)]; rewrite bind_done; simpl.
    + left. destruct (load_lookup data o ltac:(lia)) as (b0 & -> & L0).
      destruct (load_lookup data (o + 1) ltac:(lia)) as (b1 & -> & L1). rewrite !bind_done.
      rewrite EncodeDomainLabels_encode. eexists; split; [done|].
      replace [b0; b1] with (take 2 (drop o data)); [by apply expanded_mx with m|].
      rewrite (drop_S _ _ _ L0), Nat.add_1_r in *. rewrite (drop_S _ _ _ L1). done.
    + right. split; [done|]. intros rd He. inversion He; subst; [lia|]. by eapply Hn.
  - apply Z.eqb_eq in E33 as ->. destruct (Nat.ltb_spec p_Size (o + 6)).
    { right. split; [done|]. intros rd He. inversion He; subst; lia. }
    destruct (parse_cases (o + 6)) as [(l & m & -> & Hn & _)|(l & m & -> & Hn)]; rewrite bind_done; simpl.
    + left. rewrite load_n_Done by lia. rewrite bind_done, EncodeDomainLabels_encode.
      eexists; split; [done|]. by apply expanded_srv with m.
    + right. split; [done|]. intros rd He. inversion He; subst; [lia|]. by eapply Hn.
  - right. split; [done|]. intros rd He. inversion He; subst; lia.
Qed.

Lemma expanded_has_names o t rd : expanded data p_Size o t rd → has_names t = true.
Proof. clear Hd. destruct 1; unfold has_names; lia || done. Qed.
End decompression.

(** ** The record parser *)

Section parser.
  Context {H : Target}.
  Implicit Types (a : DnsAnswer) (data rd : bytes).

Lemma take_8_split data m :
  m + 8 ≤ length data →
  take 8 (drop m data) =
    take 2 (drop m data) ++ take 2 (drop (m + 2) data) ++ take 4 (drop (m + 4) data).
Proof.
  intros Hl. rewrite <- (drop_drop data 2 m), <- (drop_drop data 4 m). 
  change 8 with (2 + (2 + 4)). rewrite <- (take_drop 2 (drop m data)) at 1.
  rewrite take_app_add' by len. f_equal.
  rewrite <- (take_drop 2 (drop 2 (drop m data))) at 1.
  rewrite take_app_add' by len. by rewrite (drop_drop (drop m data) 2 2).
Qed.

(** The record the parser builds from the name, the fixed fields at [m] and the data. *)
Definition parsed_answer data (labels : list bytes) (m : nat) rd : DnsAnswer :=
  sized {| m_Name_ := labels; m_Type_ := object_value (take 2 (drop m data));
           m_Class_ := object_value (take 2 (drop (m + 2) data));
           m_Ttl_ := object_value (take 4 (drop (m + 4) data));
           m_Rdlength_ := 0; m_Rdata_ := rd |}.

Definition rdlen_at data (m : nat) : nat := Z.to_nat (be_join (take 2 (drop (m + 8) data))).

Lemma UpdateRDLENGTH_bind {B} a (f : DnsAnswer → outcome B) :
  (UpdateRDLENGTH a ≫= f) = (assert_ (fits (m_Rdata_ a));; f (sized a)).
Proof. unfold UpdateRDLENGTH, assert_. by destruct (_ || _). Qed.

(** One call of the parser, after the name. *)
Lemma answer_FromWire_name data p_Size o a0 r m labels :
  p_Size ≤ length data → ParseDomainName data p_Size o [] = Done (r, m, labels) →
  ∃ rd n,
    FromWire (Some data) p_Size o a0 =
      (if r && (m + 10 + rdlen_at data m <=? p_Size)
       then assert_ (fits rd);; Done (true, m + 10 + rdlen_at data m, parsed_answer data labels m rd)
       else Done (false, n, a0)) ∧
    (r = true → m + 10 + rdlen_at data m ≤ p_Size →
     let t := NetworkToHost 2 (object_value (take 2 (drop m data))) in
     expanded data p_Size (m + 10) t rd ∨
     (∀ rd', ¬ expanded data p_Size (m + 10) t rd') ∧ rd = take (rdlen_at data m) (drop (m + 10) data)).
Proof.
  intros Hd E. unfold FromWire. rewrite E, bind_done. destruct r; [simpl negb|by exists [], m].
  cbv iota. destruct (Nat.ltb_spec p_Size (m + 10)).
  { exists [], m. destruct (Nat.leb_spec (m + 10 + rdlen_at data m) p_Size); [lia|].
    split; [done|lia]. }
  rewrite !load_n_Done by lia. rewrite !bind_done. cbv zeta.
  rewrite (NetworkToHost_object 2 (take 2 (drop (m + 8) data))) by len.
  fold (rdlen_at data m).
  destruct (Nat.ltb_spec p_Size (m + 10 + rdlen_at data m)).
  { exists [], (m + 10). destruct (Nat.leb_spec (m + 10 + rdlen_at data m) p_Size); [lia|].
    split; [done|lia]. }
  rewrite load_n_Done by lia. rewrite bind_done.
  destruct (Nat.leb_spec (m + 10 + rdlen_at data m) p_Size); [|lia]. simpl andb. cbv iota.
  set (t := NetworkToHost 2 (object_value (take 2 (drop m data)))).
  set (raw := take (rdlen_at data m) (drop (m + 10) data)).
  destruct (has_names t) eqn:Ht.
  - destruct (DecompressRDATA_cases data p_Size Hd (m + 10) t raw) as [(rd & -> & He)|(-> & Hn)];
      rewrite !bind_done.
    + exists rd, 0. split; [apply UpdateRDLENGTH_bind|]. intros _ _. by left.
    + exists raw, 0. split; [apply UpdateRDLENGTH_bind|]. intros _ _. by right.
  - exists raw, 0. rewrite bind_done. split; [apply UpdateRDLENGTH_bind|]. intros _ _. right. split; [|done].
    intros rd' He. apply expanded_has_names in He. unfold t in *. congruence.
Qed.

Lemma parsed_answer_wf data labels m rd :
  m + 10 ≤ length data → wf (parsed_answer data labels m rd).
Proof.
  intros Hl. unfold wf. cbn [parsed_answer sized m_Type_ m_Class_ m_Ttl_ m_Rdlength_].
  split_and!; [apply object_value_uint16|apply object_value_uint16|apply object_value_uint32
              |apply (HostToNetwork_bound 2), u16_range]; len.
Qed.

Lemma parsed_answer_Rdlength data labels m rd :
  Rdlength false (parsed_answer data labels m rd) = u16 (Z.of_nat (length rd)).
Proof. apply (NetworkToHost_HostToNetwork 2), u16_range. Qed.

Lemma parsed_answer_fields data labels m rd :
  m + 10 ≤ length data →
  take 8 (drop m data) =
    be_split 2 (Type_ false (parsed_answer data labels m rd))
    ++ be_split 2 (Rclass false (parsed_answer data labels m rd))
    ++ be_split 4 (Ttl false (parsed_answer data labels m rd)).
Proof.
  intros Hl. unfold Type_, Rclass, Ttl.
  cbn [parsed_answer sized m_Type_ m_Class_ m_Ttl_].
  rewrite take_8_split, !member_value by len. done.
Qed.

(** A record is the parsed one when its fields are those on the wire. *)
Lemma parsed_answer_eq data m a :
  m + 10 ≤ length data → wf a →
  take 8 (drop m data) = be_split 2 (Type_ false a) ++ be_split 2 (Rclass false a)
                         ++ be_split 4 (Ttl false a) →
  Rdlength false a = u16 (Z.of_nat (length (m_Rdata_ a))) →
  parsed_answer data (m_Name_ a) m (m_Rdata_ a) = a.
Proof.
  intros Hl (Ht & Hc & Httl & Hr) Hb Hrd. rewrite take_8_split in Hb by lia.
  apply app_inj_1 in Hb as [H1 Hb]; [|len]. apply app_inj_1 in Hb as [H2 H3]; [|len].
  unfold parsed_answer, sized. cbn [m_Name_ m_Type_ m_Class_ m_Ttl_ m_Rdata_].
  rewrite <- Hrd. unfold Type_, Rclass, Ttl, Rdlength in *.
  rewrite (member_inj 2 (m_Type_ a)), (member_inj 2 (m_Class_ a)), (member_inj 4 (m_Ttl_ a))
    by (done || len).
  rewrite HostToNetwork_NetworkToHost by done. by destruct a.
Qed.

(** What a call does: the record that stands at the offset, and the assertion on its data. *)
Lemma answer_FromWire_reads data p_Size o a0 :
  p_Size ≤ length data →
  ∃ (r : bool) next a,
    FromWire (Some data) p_Size o a0 =
      (if r then assert_ (fits (m_Rdata_ a));; Done (true, next, a) else Done (false, next, a0)) ∧
    ∀ a' next', (r = true ∧ a = a' ∧ next = next') ↔ stands_at data p_Size o a' next'.
Proof.
  intros Hd. destruct (ParseDomainName_iff data p_Size Hd o []) as (r & m & ls & E & Hr).
  destruct (answer_FromWire_name _ _ _ a0 _ _ _ Hd E) as (rd & n & E' & Hrd).
  exists (r && (m + 10 + rdlen_at data m <=? p_Size)),
    (if r && (m + 10 + rdlen_at data m <=? p_Size) then m + 10 + rdlen_at data m else n),
    (parsed_answer data ls m rd).
  split; [rewrite E'; by destruct (_ && _)|]. clear E' E. intros a next. split.
  - destruct r; simpl; [|by intros []].
    destruct (Nat.leb_spec (m + 10 + rdlen_at data m) p_Size) as [Hm|]; [|by intros []].
    intros (_ & <- & <-). specialize (Hrd eq_refl Hm). cbv zeta in Hrd.
    exists m, (rdlen_at data m), (take (rdlen_at data m) (drop (m + 10) data)).
    split_and!; try done.
    + by apply Hr.
    + apply parsed_answer_wf. lia.
    + apply parsed_answer_fields. lia.
    + apply parsed_answer_Rdlength.
  - intros (m' & rdlen & raw & Hn & -> & Hm & Hw & Hb & Hlen & -> & Hex & Hrl).
    destruct (proj2 (Hr _ m') Hn) as (-> & El & ->). simpl in El. subst ls.
    fold (rdlen_at data m') in Hlen. subst rdlen.
    destruct (Nat.leb_spec (m' + 10 + rdlen_at data m') p_Size); [|lia]. simpl.
    assert (rd = m_Rdata_ a) as ->.
    { specialize (Hrd eq_refl Hm). cbv zeta in Hrd.
      replace (NetworkToHost 2 (object_value (take 2 (drop m' data)))) with (Type_ false a) in Hrd.
      - destruct Hrd as [He|[Hne ->]], Hex as [He'|[Hne' E']].
        + by eapply expanded_fun.
        + by destruct (Hne' rd).
        + by destruct (Hne (m_Rdata_ a)).
        + done.
      - rewrite <- (parsed_answer_eq data m' a) by (done || lia). done. }
    by rewrite parsed_answer_eq by (done || lia).
Qed.

(** The call returns, unless the assertion fails on the record that stands there. *)
Lemma answer_FromWire_cases data p_Size o a0 :
  p_Size ≤ length data →
  (answer_aborts data p_Size o ∧ FromWire (Some data) p_Size o a0 = Aborted) ∨
  (¬ answer_aborts data p_Size o ∧
   ∃ r next a, FromWire (Some data) p_Size o a0 = Done (r, next, a) ∧ (r = false → a = a0) ∧
     ∀ a' next', (r = true ∧ a = a' ∧ next = next') ↔ stands_at data p_Size o a' next').
Proof.
  intros Hd. destruct (answer_FromWire_reads data p_Size o a0 Hd) as ([] & next & a & -> & Hs).
  - pose proof (proj1 (Hs a next) (conj eq_refl (conj eq_refl eq_refl))) as Ha.
    destruct (passes_dec (fits (m_Rdata_ a))) as [Hp|[En Ef]].
    + right. rewrite assert_passes by done. split; [|by exists true, next, a].
      intros (En & a' & next' & Ha' & Ef). destruct (proj2 (Hs a' next') Ha') as (_ & <- & <-).
      destruct Hp; congruence.
    + left. rewrite assert_fails by done. split; [|done]. split; [done|by exists a, next].
  - right. split; [|by exists false, next, a0; split_and!; [done..|]; intros; rewrite <- Hs; naive_solver].
    intros (_ & a' & next' & Ha' & _). by destruct (proj2 (Hs a' next') Ha').
Qed.

Lemma FromWire_answer_at data p_Size o a0 next a :
  p_Size ≤ length data →
  (FromWire (Some data) p_Size o a0 = Done (true, next, a) ↔ answer_at data p_Size o a next).
Proof.
  intros Hd. destruct (answer_FromWire_reads data p_Size o a0 Hd) as ([] & next' & a' & -> & Hs);
    unfold answer_at; rewrite <- Hs.
  - destruct (passes_dec (fits (m_Rdata_ a'))) as [Hp|[En Ef]].
    + rewrite assert_passes by done. split; [by intros [= -> ->]|by intros ((_ & -> & ->) & _)].
    + rewrite assert_fails by done. split; [done|]. intros ((_ & -> & ->) & Hp). destruct Hp; congruence.
  - split; [done|by intros ((? & _) & _)].
Qed.

Lemma answer_FromWire_wf data p_Size o a0 r next a :
  p_Size ≤ length data → wf a0 → FromWire (Some data) p_Size o a0 = Done (r, next, a) →
  wf a ∧ (r = true → o < next ≤ p_Size ∧ Forall label_ok (m_Name_ a)).
Proof.
  intros Hd Ha0 E. destruct r.
  - apply FromWire_answer_at in E as ((m & l & raw & (h & Hn & _) & -> & ? & Hw & _) & _); [|done].
    split; [done|]. intros _. pose proof (name_at_next _ _ _ _ _ _ Hn).
    split; [lia|by eapply name_at_labels_ok].
  - destruct (answer_FromWire_cases data p_Size o a0 Hd) as [[_ E']|(_ & r & n & a' & E' & Hf & _)];
      rewrite E in E'; [done|]. simplify_eq. by rewrite Hf.
Qed.

(** A name is not longer than the packet, once for each part of it. *)
Lemma name_at_length data p_Size o labels next h :
  name_at data p_Size o labels next h → length (encode_name labels) ≤ (p_Size - o) + h * p_Size.
Proof.
  induction 1; cbn [encode_name length]; [lia| |lia]. rewrite length_app. lia.
Qed.

Lemma name_from_length data p_Size o labels next :
  name_from data p_Size o labels next → length (encode_name labels) ≤ 17 * p_Size.
Proof.
  intros (h & Hn%name_at_length & Hh). unfold DNS_MAX_POINTER_HOPS in Hh.
  pose proof (Nat.mul_le_mono_r h 16 p_Size Hh). lia.
Qed.

(** No record of a packet of at most 1900 bytes is too long. *)
Lemma answer_small data p_Size o : p_Size ≤ 1900 → ¬ answer_aborts data p_Size o.
Proof.
  intros Hs (_ & a & next & (m & rdlen & raw & _ & -> & Hn & _ & _ & _ & -> & Hrd & _) & Hf).
  assert (length (m_Rdata_ a) ≤ 34 * p_Size + 20) as Hl.
  { destruct Hrd as [He|[_ ->]]; [|rewrite length_take; lia].
    destruct He as [t ls m' _ H1|mn m1 rn m2 H1 H2 _|ex m' _ H1|ta m' _ H1]; apply name_from_length in H1;
      try apply name_from_length in H2; rewrite ?length_app, ?length_take; lia. }
  unfold fits, UINT16_MAX in Hf. lia.
Qed.

(** C27: for every packet and offset, the record parser reads only inside the packet, and it
    returns unless the program is built with assertions and a record stands at the offset
    whose data, with the names in it expanded, is longer than 65535 bytes: there
    [UpdateRDLENGTH] aborts the program.  When it returns, it succeeds exactly when a
    resource record stands at the offset, with that record (the names in the data of NS,
    CNAME, PTR, SOA, MX and SRV records expanded where they parse, and RDLENGTH recomputed,
    modulo 2^16) and the offset after the record as it stands in the packet; it leaves its
    output parameter alone when it fails. *)
Theorem answer_FromWire_spec data p_Size o a0 :
  p_Size ≤ length data →
  (answer_aborts data p_Size o ∧ FromWire (Some data) p_Size o a0 = Aborted) ∨
  (¬ answer_aborts data p_Size o ∧
   ∃ r next a, FromWire (Some data) p_Size o a0 = Done (r, next, a) ∧ (r = false → a = a0) ∧
     ∀ a' next', (r = true ∧ a = a' ∧ next = next') ↔ stands_at data p_Size o a' next').
Proof. apply answer_FromWire_cases. Qed.

(** A CNAME record whose data is a compression pointer. *)
Definition example_record : bytes :=
  example_packet ++ [xc0; x07; x00; x05; x00; x01; x00; x00; x0e; x10; x00; x02; xc0; x00].

End parser.

Section answer_FromWire_spec_example.
  #[local] Existing Instance x86_64.

Lemma answer_FromWire_spec_witness :
  27 ≤ length example_record ∧
  ((answer_aborts example_record 27 13 ∧ FromWire (Some example_record) 27 13 clear = Aborted) ∨
   (¬ answer_aborts example_record 27 13 ∧
    ∃ r next a, FromWire (Some example_record) 27 13 clear = Done (r, next, a) ∧ (r = false → a = clear) ∧
      ∀ a' next', (r = true ∧ a = a' ∧ next = next') ↔ stands_at example_record 27 13 a' next')).
Proof.
  split; [simpl; lia|]. apply (answer_FromWire_spec example_record 27 13 clear). simpl. lia.
Defined.

(** A packet of 33 KB: a name of 33025 bytes, and after it an SOA record that has this name,
    by compression pointers, as its owner, its MNAME and its RNAME. *)
Definition long_name : bytes := concat (replicate 516 (x3f :: repeat x61 63)) ++ [x00].
Definition aborting_packet : bytes :=
  long_name ++ [xc0; x00; x00; x06; x00; x01; x00; x00; x00; x00; x00; x18; xc0; x00; xc0; x00]
  ++ repeat x00 20.

(** The parser aborts on it in a Debug build, and reads it with a wrapped RDLENGTH in a
    Release build. *)
Example answer_FromWire_aborts :
  FromWire (Some aborting_packet) (length aborting_packet) (length long_name) clear = Aborted.
Proof. vm_compute. reflexivity. Qed.
End answer_FromWire_spec_example.

(** On either host, the pointer in the data is expanded. *)
Example answer_FromWire_example (h : Target) :
  match FromWire (Some example_record) 27 13 clear with
  | Done (true, next, a) => Some (next, m_Name_ a, m_Rdata_ a, Rdlength false a, Ttl false a)
  | _ => None
  end = Some (27, [str "www"; str "a"; str "com"], [x01; x61; x03; x63; x6f; x6d; x00], 7%Z, 3600%Z).
Proof. destruct h as [[] []]; vm_compute; reflexivity. Qed.

(** ** Serialization *)

Section serialization.
  Context {H : Target}.
  Implicit Types (a : DnsAnswer) (data rd : bytes).

Lemma length_fixed_wire a : length (fixed_wire a) = 10.
Proof. unfold fixed_wire. rewrite !length_app, !length_be_split. done. Qed.

Lemma answer_length_wire a : length (wire a) = WireSize a.
Proof.
  unfold wire, WireSize. rewrite !length_app, length_fixed_wire, <- labels_size_kept. lia.
Qed.

Lemma answer_ToWire_Done a data s_Base p_Size :
  WireSize a ≤ p_Size → s_Base + WireSize a ≤ length data → wf a →
  ToWire a (Some data) s_Base p_Size = Done (WireSize a, Some (splice data s_Base (wire a))).
Proof.
  intros Hs Hl (Ht & Hc & Htl & Hr). rewrite <- answer_length_wire in *. unfold ToWire.
  rewrite <- answer_length_wire. destruct (Nat.ltb_spec p_Size (length (wire a))); [lia|].
  unfold wire in *. rewrite !length_app, length_fixed_wire in Hl.
  rewrite WriteLabels_Done by lia. rewrite bind_done, Nat.add_0_r, Nat.add_0_l.
  set (nm := encode_name (kept (m_Name_ a))) in *.
  rewrite (store_n_next _ _ _ nm), bind_done by (rewrite ?length_object_bytes; lia).
  do 4 (rewrite store_n_next, bind_done by (rewrite ?length_app, ?length_object_bytes; lia)).
  rewrite !(member_bytes 2), (member_bytes 4) by done.
  unfold fixed_wire, Type_, Rclass, Ttl, Rdlength. rewrite <- !app_assoc.
  do 2 f_equal. rewrite !length_app, !length_be_split. lia.
Qed.

Lemma answer_ToWire_short a data s_Base p_Size :
  p_Size < WireSize a → ToWire a (Some data) s_Base p_Size = Done (O, Some data).
Proof. intros. unfold ToWire. destruct (Nat.ltb_spec p_Size (WireSize a)); [done|lia]. Qed.

Lemma name_from_encode data p_Size pre labels post :
  Forall label_ok labels → data = pre ++ encode_name labels ++ post →
  length pre + length (encode_name labels) ≤ p_Size →
  name_from data p_Size (length pre) labels (length pre + length (encode_name labels)).
Proof.
  intros. exists 0. split; [by apply name_at_encode with post|unfold DNS_MAX_POINTER_HOPS; lia].
Qed.

(** Data without compression expands to itself. *)
Lemma expanded_plain data p_Size pre t rd post :
  plain_rdata t rd → has_names t = true → data = pre ++ rd ++ post → length pre + length rd ≤ p_Size →
  expanded data p_Size (length pre) t rd.
Proof.
  intros (Hn & Hsoa & Hmx & Hsrv) Ht E Hs. unfold has_names in Ht.
  destruct (Z.eq_dec t 6%Z) as [->|]; [|destruct (Z.eq_dec t 15%Z) as [->|];
    [|destruct (Z.eq_dec t 33%Z) as [->|]]].
  - destruct (Hsoa eq_refl) as (mn & rn & tl & Hm & Hr & Htl & ->). rewrite !length_app in Hs.
    rewrite <- !app_assoc in E.
    replace tl with (take 20 (drop (length (pre ++ encode_name mn) + length (encode_name rn)) data)).
    2: { rewrite E, drop_app_3 by len. by rewrite <- Htl, take_app_length. }
    apply expanded_soa with (length pre + length (encode_name mn)).
    + apply name_from_encode with (encode_name rn ++ tl ++ post); [done..|lia].
    + rewrite <- length_app. apply name_from_encode with (tl ++ post); [done| |rewrite length_app; lia].
      by rewrite E, <- app_assoc.
    + rewrite length_app. lia.
  - destruct (Hmx eq_refl) as (h & ex & Hh & Hex & ->). rewrite length_app in Hs.
    rewrite <- app_assoc in E.
    replace h with (take 2 (drop (length pre) data)) at 1
      by (rewrite E, drop_app_length, <- Hh; apply take_app_length).
    apply expanded_mx with (length pre + 2 + length (encode_name ex)); [lia|].
    rewrite <- Hh, <- length_app. apply name_from_encode with post; [done| |rewrite length_app; lia].
    by rewrite E, <- app_assoc.
  - destruct (Hsrv eq_refl) as (h & ex & Hh & Hex & ->). rewrite length_app in Hs.
    rewrite <- app_assoc in E.
    replace h with (take 6 (drop (length pre) data)) at 1
      by (rewrite E, drop_app_length, <- Hh; apply take_app_length).
    apply expanded_srv with (length pre + 6 + length (encode_name ex)); [lia|].
    rewrite <- Hh, <- length_app. apply name_from_encode with post; [done| |rewrite length_app; lia].
    by rewrite E, <- app_assoc.
  - assert (Ht' : t = 2%Z ∨ t = 5%Z ∨ t = 12%Z) by lia.
    destruct (Hn Ht') as (ls & Hls & ->).
    apply expanded_name with (length pre + length (encode_name ls)); [done|].
    by apply name_from_encode with post.
Qed.

Lemma rdlength_ok_fits a : wf a → rdlength_ok a → fits (m_Rdata_ a) = true.
Proof.
  intros Hw Hr. unfold fits, UINT16_MAX. apply Z.leb_le. unfold rdlength_ok in Hr. rewrite <- Hr.
  destruct (NetworkToHost_uint16 (m_Rdlength_ a)) as [_ Hu]; [apply Hw|]. simpl in Hu. unfold Rdlength. lia.
Qed.

(** A record anywhere in a packet, whatever form its name has. *)
Lemma answer_at_record a data p_Size pre nm post :
  wf a → rdlength_ok a → plain_rdata (Type_ false a) (m_Rdata_ a) →
  data = pre ++ nm ++ fixed_wire a ++ m_Rdata_ a ++ post →
  length pre + length nm + 10 + length (m_Rdata_ a) ≤ p_Size →
  name_from data p_Size (length pre) (m_Name_ a) (length pre + length nm) →
  answer_at data p_Size (length pre) a (length pre + length nm + 10 + length (m_Rdata_ a)).
Proof.
  intros Hw Hrl Hp E Hs Hname.
  assert (E1 : drop (length pre + length nm) data = fixed_wire a ++ m_Rdata_ a ++ post).
  { by rewrite E, drop_app_2. }
  assert (E3 : drop (length pre + length nm + 10) data = m_Rdata_ a ++ post).
  { rewrite <- drop_drop, E1. by rewrite drop_app_length' by (by rewrite length_fixed_wire). }
  assert (Hrd : Rdlength false a = u16 (Z.of_nat (length (m_Rdata_ a)))).
  { pose proof Hrl as Hr. unfold rdlength_ok in Hr. rewrite <- Hr. symmetry. apply u16_small.
    apply NetworkToHost_uint16. apply Hw. }
  assert (E2 : Z.to_nat (be_join (take 2 (drop (length pre + length nm + 8) data))) = length (m_Rdata_ a)).
  { rewrite <- drop_drop, E1. unfold fixed_wire. rewrite <- !app_assoc.
    rewrite drop_app_3 by (by rewrite !length_be_split).
    rewrite take_app_length' by (by rewrite length_be_split).
    rewrite be_join_split_small by (apply NetworkToHost_uint16; apply Hw).
    rewrite Hrl. lia. }
  split; [|by apply passes_true, rdlength_ok_fits].
  exists (length pre + length nm), (length (m_Rdata_ a)), (m_Rdata_ a). split_and!; try done.
  - rewrite E1. unfold fixed_wire. rewrite <- !app_assoc.
    by rewrite take_app_3 by (by rewrite !length_be_split).
  - rewrite E3. by rewrite take_app_length.
  - destruct (has_names (Type_ false a)) eqn:Ht.
    + left. replace (length pre + length nm + 10) with (length (pre ++ nm ++ fixed_wire a))
        by (rewrite !length_app, length_fixed_wire; lia).
      apply expanded_plain with post; [done..| |rewrite !length_app, length_fixed_wire; lia].
      by rewrite E, <- !app_assoc.
    + right. split; [|done]. intros rd He%expanded_has_names. congruence.
Qed.

(** A serialized record anywhere in a packet is that record. *)
Lemma answer_at_wire a data p_Size pre post :
  wf a → rdlength_ok a → Forall label_ok (m_Name_ a) → plain_rdata (Type_ false a) (m_Rdata_ a) →
  data = pre ++ wire a ++ post → length pre + WireSize a ≤ p_Size →
  answer_at data p_Size (length pre) a (length pre + WireSize a).
Proof.
  intros Hw Hrl Hok Hp E Hs. rewrite <- answer_length_wire in *. unfold wire in *.
  rewrite label_ok_kept in * by done. rewrite !length_app, length_fixed_wire, !Nat.add_assoc in *.
  rewrite <- !app_assoc in E. apply answer_at_record with post; try done.
  apply name_from_encode with (fixed_wire a ++ m_Rdata_ a ++ post); [done..|lia].
Qed.
End serialization.

Section roundtrips.
  Context {H : Target}.
  Implicit Types (a : DnsAnswer) (data rd : bytes).

(** Serialization writes exactly the RFC 1035 layout of a record, [WireSize] bytes of
    it, at its destination and nothing else; parsing it back, whatever surrounds it, gives
    the same record when its names are uncompressed and RDLENGTH is the data's length; a
    destination that is too small is left untouched. *)
Theorem answer_roundtrip a pre mid post p_Size a0 :
  wf a → length mid = WireSize a →
  (p_Size < WireSize a →
     ToWire a (Some (pre ++ mid ++ post)) (length pre) p_Size = Done (O, Some (pre ++ mid ++ post))) ∧
  (WireSize a ≤ p_Size →
     ToWire a (Some (pre ++ mid ++ post)) (length pre) p_Size
       = Done (WireSize a, Some (pre ++ wire a ++ post)) ∧
     (rdlength_ok a → Forall label_ok (m_Name_ a) → plain_rdata (Type_ false a) (m_Rdata_ a) →
      FromWire (Some (pre ++ wire a ++ post)) (length (pre ++ wire a ++ post)) (length pre) a0
        = Done (true, length pre + WireSize a, a))).
Proof.
  intros Hw Hm. split; [apply answer_ToWire_short|]. intros Hs. split.
  - rewrite answer_ToWire_Done; [|done|rewrite !length_app; lia|done].
    by rewrite splice_middle by (rewrite answer_length_wire; lia).
  - intros Hrl Hok Hp. apply FromWire_answer_at; [done|].
    apply answer_at_wire with post; [done..|]. rewrite !length_app, answer_length_wire. lia.
Qed.

(** Setting the data makes RDLENGTH right, up to the width of the field. *)
Lemma fits_le rd : fits rd = true ↔ (Z.of_nat (length rd) ≤ UINT16_MAX)%Z.
Proof. apply Z.leb_le. Qed.

Lemma SetRdata_Done rd a : (Z.of_nat (length rd) ≤ UINT16_MAX)%Z → SetRdata rd a = Done (with_data rd a).
Proof. intros Hl%fits_le. unfold SetRdata, UpdateRDLENGTH. by rewrite assert_passes by by right. Qed.

Lemma with_data_ok rd a : (Z.of_nat (length rd) ≤ UINT16_MAX)%Z → rdlength_ok (with_data rd a).
Proof.
  unfold UINT16_MAX. intros Hl. unfold rdlength_ok, Rdlength. cbn [with_data sized with_Rdata m_Rdlength_ m_Rdata_].
  rewrite NetworkToHost_HostToNetwork by apply u16_range. apply u16_small. lia.
Qed.

Lemma with_data_wf rd a : wf a → wf (with_data rd a).
Proof.
  intros (? & ? & ? & _). unfold wf. split_and!; [done..|]. apply (HostToNetwork_bound 2), u16_range.
Qed.

(** The data of a record is set, with its length, when that fits RDLENGTH; a longer one
    aborts the program when it is built with assertions, and wraps the length otherwise. *)
Theorem SetRdata_spec rd a :
  wf a →
  ((Z.of_nat (length rd) ≤ UINT16_MAX)%Z → ∃ a', SetRdata rd a = Done a' ∧ m_Rdata_ a' = rd ∧ rdlength_ok a' ∧ wf a') ∧
  ((UINT16_MAX < Z.of_nat (length rd))%Z →
   SetRdata rd a = if NDEBUG then Done (with_data rd a) else Aborted).
Proof.
  intros Hw. split; intros Hl.
  - exists (with_data rd a). split_and!; [by apply SetRdata_Done|done|by apply with_data_ok|by apply with_data_wf].
  - assert (fits rd = false) as Ef by (apply not_true_iff_false; rewrite fits_le; lia).
    unfold SetRdata, UpdateRDLENGTH, assert_. cbn [with_Rdata m_Rdata_]. rewrite Ef, orb_false_r.
    by destruct NDEBUG.
Qed.

Lemma octet_text b : ipv4_octet (print_dec (u8 b)) = Done b ∧ ("."%byte ∉ print_dec (u8 b)).
Proof.
  pose proof (u8_range b). split; [|by apply print_digits_no_sep].
  unfold ipv4_octet, print_dec. rewrite stoi_print by (simpl; lia). rewrite bind_done.
  destruct (Z.ltb_spec (u8 b) 0%Z), (Z.ltb_spec 255%Z (u8 b)); try lia. simpl. by rewrite ch_u8.
Qed.

(** The words of an address, two bytes each. *)
Fixpoint words_of (bs : bytes) : list bytes :=
  match bs with
  | hi :: lo :: bs => print_hex (u16 (Z.lor (Z.shiftl (u8 hi) 8) (u8 lo))) :: words_of bs
  | _ => []
  end.

Lemma word_text hi lo :
  let w := print_hex (u16 (Z.lor (Z.shiftl (u8 hi) 8) (u8 lo))) in
  ipv6_word w = Done [hi; lo] ∧ (":"%byte ∉ w) ∧ w ≠ [].
Proof.
  cbv zeta. pose proof (u8_range hi). pose proof (u8_range lo).
  rewrite lor_shiftl, u16_small by (apply u8_range || lia). change (2 ^ 8)%Z with 256%Z.
  split_and!; [|by apply print_digits_no_sep|apply print_digits_ne].
  unfold ipv6_word. destruct (print_hex _) as [|c t] eqn:E; [by apply print_digits_ne in E|].
  rewrite <- E. unfold print_hex. rewrite stoi_print by (simpl; lia). rewrite bind_done.
  set (z := (u8 hi * 256 + u8 lo)%Z).
  destruct (Z.ltb_spec z 0%Z), (Z.ltb_spec 0xFFFF%Z z); try lia. simpl orb. cbv iota.
  rewrite u16_small by lia. cbn [try_catch]. do 3 f_equal.
  - apply u8_inj. rewrite u8_ch, Z.shiftr_div_pow2 by lia. change (2 ^ 8)%Z with 256%Z. byte_lia.
  - f_equal. apply u8_inj. rewrite land_255, u8_ch. byte_lia.
Qed.

Lemma even_ind (P : bytes → Prop) :
  P [] → (∀ hi lo bs, P bs → P (hi :: lo :: bs)) → ∀ bs, Nat.Even (length bs) → P bs.
Proof.
  intros H0 HS bs [k Hk]. revert bs Hk. induction k as [|k IH]; intros bs Hk.
  - by destruct bs.
  - destruct bs as [|hi [|lo bs]]; simpl in Hk; try lia. apply HS, IH. lia.
Qed.

Lemma hex_words_join bs : Nat.Even (length bs) → hex_words true bs = join ":"%byte (words_of bs).
Proof.
  intros He.
  assert (Hf : ∀ bs, Nat.Even (length bs) →
            hex_words false bs = match words_of bs with [] => [] | ws => ":"%byte :: join ":"%byte ws end).
  { apply even_ind; [done|]. intros hi lo bs' IH. cbn [hex_words words_of]. rewrite IH. cbn [app].
    destruct (words_of bs') eqn:E; [by rewrite app_nil_r|]. by rewrite join_cons. }
  destruct bs as [|hi [|lo bs]]; [done|destruct He; simpl in *; lia|].
  cbn [hex_words words_of]. rewrite Hf by (destruct He as [k ?]; exists (k - 1); simpl in *; lia).
  destruct (words_of bs) eqn:E; [apply app_nil_r|]. by rewrite join_cons.
Qed.

Lemma words_of_spec bs :
  Nat.Even (length bs) →
  (∃ ws, mapM ipv6_word (words_of bs) = Done ws ∧ concat ws = bs) ∧
  Forall (λ p, (":"%byte ∉ p) ∧ p ≠ []) (words_of bs) ∧
  2 * length (words_of bs) = length bs.
Proof.
  revert bs. apply even_ind; [split_and!; [by exists []|done|done]|].
  intros hi lo bs ((ws & Hm & Hc) & Hf & Hl). destruct (word_text hi lo) as (Hw & Hs & Hne).
  cbv zeta in *. cbn [words_of]. split_and!.
  - exists ([hi; lo] :: ws). cbn [mapM]. by rewrite Hw, bind_done, Hm, <- Hc.
  - by constructor.
  - simpl length. lia.
Qed.

(** Printing the data of an A or AAAA record as an address and setting a record's data
    from that text gives back the same bytes, for every IPv4 and IPv6 address; so does
    printing and setting the text of a TXT record of at most 255 bytes. *)
Theorem rdata_text_roundtrip a b0 b1 b2 b3 bs txt :
  length bs = 16 → length txt ≤ 255 →
  (Type_ false a = 1%Z →
   ∃ s, RdataAsIpv4 (with_data [b0; b1; b2; b3] a) = Done s ∧
        ∀ a', SetRdataIpv4 s a' = Done (with_data [b0; b1; b2; b3] a')) ∧
  (Type_ false a = 28%Z →
   ∃ s, RdataAsIpv6 (with_data bs a) = Done s ∧ ∀ a', SetRdataIpv6 s a' = Done (with_data bs a')) ∧
  (Type_ false a = 16%Z → ∃ a', SetRdataText txt a = Done a' ∧ RdataAsText a' = Done txt).
Proof.
  intros Hbs Htxt. split_and!; intros Ht.
  - eexists. split; [unfold RdataAsIpv4; cbn [with_data sized with_Rdata m_Rdata_];
      replace (Type_ false _) with (Type_ false a) by done; by rewrite Ht|].
    intros a'. cbn [app].
    change (print_dec (u8 b0) ++ _) with
      (join "."%byte [print_dec (u8 b0); print_dec (u8 b1); print_dec (u8 b2); print_dec (u8 b3)]).
    unfold SetRdataIpv4. pose proof (split_loop_all "."%byte (join "."%byte
      [print_dec (u8 b0); print_dec (u8 b1); print_dec (u8 b2); print_dec (u8 b3)])) as Hs.
    destruct (split_loop _ _) as [ps i]. destruct Hs as [Hs Hi].
    destruct (Nat.leb_spec i (length (join "."%byte
      [print_dec (u8 b0); print_dec (u8 b1); print_dec (u8 b2); print_dec (u8 b3)]))); [|lia].
    rewrite Hs, split_on_join; [|done|repeat constructor; apply octet_text].
    cbn [mapM]. rewrite !(proj1 (octet_text _)). apply SetRdata_Done. unfold UINT16_MAX. simpl. lia.
  - eexists. split; [unfold RdataAsIpv6; cbn [with_data sized with_Rdata m_Rdata_];
      replace (Type_ false _) with (Type_ false a) by done; by rewrite Ht, Hbs|].
    intros a'. assert (He : Nat.Even (length bs)) by (exists 8; lia).
    destruct (words_of_spec bs He) as ((ws & Hm & Hc) & Hf & Hl).
    assert (Hne : words_of bs ≠ []) by (destruct (words_of bs); simpl in Hl; [lia|done]).
    rewrite hex_words_join by done. unfold SetRdataIpv6, ipv6_groups.
    rewrite find2_join_none by done.
    pose proof (split_loop_all ":"%byte (join ":"%byte (words_of bs))) as Hs.
    destruct (split_loop _ _) as [ps i]. destruct Hs as [Hs _].
    rewrite bind_done, Hs, split_on_join; [|done|eapply Forall_impl; [done|]; by intros p [? _]].
    replace (length (words_of bs)) with 8 by lia. simpl negb. cbv iota.
    rewrite Hm, bind_done, Hc, Hbs. apply SetRdata_Done. unfold UINT16_MAX. lia.
  - unfold SetRdataText. destruct (Nat.ltb_spec 255 (length txt)); [lia|].
    rewrite SetRdata_Done by (unfold UINT16_MAX; simpl length; lia). eexists. split; [done|]. unfold RdataAsText.
    replace (Type_ false _) with (Type_ false a) by done. rewrite Ht. simpl negb. cbv iota.
    cbn [with_data sized with_Rdata m_Rdata_]. set (n := Z.of_nat (length txt)).
    cbn [text_loop length]. simpl Nat.ltb. cbv iota. cbn [load lookup list_lookup].
    rewrite bind_done. cbv zeta.
    replace (Z.to_nat (u8 (ch n))) with (length txt) by (unfold n; rewrite u8_ch_small by lia; lia).
    change (S (length txt) <? 1 + length txt) with (S (length txt) <? S (length txt)).
    rewrite Nat.ltb_irrefl. rewrite load_n_Done by (simpl; lia). rewrite bind_done.
    simpl drop. rewrite firstn_all. cbn [app].
    destruct (length txt) eqn:E; [by destruct txt|]. cbn [text_loop].
    destruct (Nat.ltb_spec (1 + S n0) (length (ch n :: txt))); [simpl in *; lia|done].
Qed.
End roundtrips.

(** ** Concrete records *)

Section examples.
  #[local] Existing Instance x86_64.

Definition example_cname : DnsAnswer :=
  with_data [x01; x62; x03; x6f; x72; x67; x00] (record_base (str "a.com") 5 60).

Example example_cname_made : MakeCnameRecord (str "a.com") (str "b.org") 60 = Done example_cname.
Proof. reflexivity. Qed.

Lemma example_cname_ok :
  wf example_cname ∧ rdlength_ok example_cname ∧ Forall label_ok (m_Name_ example_cname) ∧
  plain_rdata (Type_ false example_cname) (m_Rdata_ example_cname).
Proof.
  assert (Hw : wf example_cname).
  { unfold wf. split_and!; cbn [example_cname with_data
      sized with_Rdata record_base SetTtl SetRclass SetType SetNameFromString with_Name
      m_Type_ m_Class_ m_Ttl_ m_Rdlength_];
      [apply (HostToNetwork_bound 2)|apply (HostToNetwork_bound 2)|apply (HostToNetwork_bound 4)
      |apply (HostToNetwork_bound 2), u16_range]; unfold width; simpl; lia. }
  assert (Hr : rdlength_ok example_cname) by (apply with_data_ok; unfold UINT16_MAX; simpl; lia).
  assert (Ht : Type_ false example_cname = 5%Z).
  { apply (NetworkToHost_HostToNetwork 2). unfold width. simpl. lia. }
  assert (Hok : Forall label_ok (m_Name_ example_cname)) by (repeat constructor; simpl; lia).
  assert (Hp : plain_rdata (Type_ false example_cname) (m_Rdata_ example_cname)).
  { rewrite Ht. split_and!; [intros _|lia..]. exists [str "b"; str "org"].
    split; [repeat constructor; simpl; lia|reflexivity]. }
  done.
Qed.

Lemma answer_roundtrip_witness :
  WireSize example_cname = 24 ∧
  FromWire (Some ([x00] ++ wire example_cname ++ [])) (length ([x00] ++ wire example_cname ++ [])) 1 clear
    = Done (true, 25, example_cname).
Proof.
  split; [reflexivity|]. destruct example_cname_ok as (Hw & Hr & Hok & Hp).
  exact (proj2 (proj2 (answer_roundtrip example_cname [x00] (repeat x00 24) [] 24 clear Hw eq_refl)
                 (le_n 24)) Hr Hok Hp).
Defined.

Lemma rdata_text_roundtrip_witness :
  let bs := repeat x20 16 in
  ∃ s, RdataAsIpv6 (with_data bs (SetType 28 false clear)) = Done s ∧
       ∀ a', SetRdataIpv6 s a' = Done (with_data bs a').
Proof.
  intros bs. assert (Ht : Type_ false (SetType 28 false clear) = 28%Z).
  { apply (NetworkToHost_HostToNetwork 2). unfold width. simpl. lia. }
  exact (proj1 (proj2 (rdata_text_roundtrip (SetType 28 false clear) x00 x00 x00 x00 bs [] eq_refl
           (Nat.le_0_l 255))) Ht).
Defined.

(** [std::stoi] stops at the first character that is not a digit, so text that is not an
    address is accepted. *)
Example SetRdataIpv4_lenient a :
  SetRdataIpv4 (str "1x.+2. 3.4 ") a = Done (with_data [x01; x02; x03; x04] a).
Proof. reflexivity. Qed.

Example SetRdataIpv4_rejects a :
  SetRdataIpv4 (str "1.2.3") a = Throw InvalidArgument ∧
  SetRdataIpv4 (str "1.2.3.256") a = Throw InvalidArgument ∧
  SetRdataIpv4 (str "") a = Throw InvalidArgument.
Proof. done. Qed.
End examples.
