(* ===== verification/WireFormat.v ===== *)
(** * Sections of a packet (src/src/dns_packet.cc)

    A packet's sections are vectors of questions or records, and the packet
    classes read and write each of them with the same loop.  [WireFormat] is what
    the loops need of an element's class, [WireLaws] what that class promises
    about its parser and serializer; the loops' theorems are proved from the laws,
    and questions and records are instances of them.  Parsing an element may fail an
    assertion ([item_aborts]), and parsing a section does when one of its elements does. *)

From Stdlib Require Import ZArith Lia ZifyBool.
From Stdlib Require Import Strings.Byte.
From stdpp Require Import base numbers list option.
From S2P Require Import Prelude.
From S2P Require Import Memory.
From S2P Require Import Utils.
From S2P Require Import Text.
From S2P Require Import Name.
From S2P Require Import DnsQuestion.
From S2P Require Import DnsAnswer.

(** ** The interface of an element *)

(** The members of an element's class that the loops call. *)
Class WireFormat (T : Type) := {
  fresh : T;
  item_FromWire : option bytes → nat → nat → T → outcome (bool * nat * T);
  item_ToWire : T → option bytes → nat → nat → outcome (nat * option bytes);
  item_WireSize : T → nat
}.

(** What an element's class promises: [item_wire] is its encoding, [item_at] says
    that it stands at an offset of a packet, [item_aborts] that its parser's assertion fails
    at an offset, [item_wf] that its integers have their
    widths and [item_ok] that parsing its encoding gives it back. *)
Class WireLaws (T : Type) `{WireFormat T} := {
  item_wire : T → bytes;
  item_at : bytes → nat → nat → T → nat → Prop;
  item_aborts : bytes → nat → nat → Prop;
  item_wf : T → Prop;
  item_ok : T → Prop;
  item_length x : length (item_wire x) = item_WireSize x;
  item_nonempty x : 0 < item_WireSize x;
  item_ok_wf x : item_ok x → item_wf x;
  item_parse data p_Size o x0 :
    p_Size ≤ length data →
    (item_aborts data p_Size o ∧ item_FromWire (Some data) p_Size o x0 = Aborted) ∨
    (¬ item_aborts data p_Size o ∧
     ∃ r next x, item_FromWire (Some data) p_Size o x0 = Done (r, next, x) ∧ (r = false → x = x0));
  item_parse_at data p_Size o x0 next x :
    p_Size ≤ length data →
    (item_FromWire (Some data) p_Size o x0 = Done (true, next, x) ↔ item_at data p_Size o x next);
  item_at_wf data p_Size o x next : item_at data p_Size o x next → item_wf x;
  item_at_next data p_Size o x next : item_at data p_Size o x next → o < next ≤ p_Size;
  item_write x data s_Base p_Size :
    item_WireSize x ≤ p_Size → s_Base + item_WireSize x ≤ length data → item_wf x →
    item_ToWire x (Some data) s_Base p_Size
      = Done (item_WireSize x, Some (splice data s_Base (item_wire x)));
  item_at_wire x data p_Size pre post :
    item_ok x → data = pre ++ item_wire x ++ post → length pre + item_WireSize x ≤ p_Size →
    item_at data p_Size (length pre) x (length pre + item_WireSize x)
}.

(** ** The loops *)

Section loops.
  Context {T : Type} `{WireFormat T}.
  Implicit Types (x : T) (xs ys : list T).

(** The parsing loop with [k] elements left: the result, the offset and the vector. *)
Fixpoint ParseSection (k : nat) (s_Data : bytes) (p_Size s_Offset : nat) xs
    : outcome (bool * nat * list T) :=
  match k with
  | O => Done (true, s_Offset, xs)
  | S k =>
      '(s_Ok, s_Offset, x) ← item_FromWire (Some s_Data) p_Size s_Offset fresh;
      if negb s_Ok then Done (false, s_Offset, xs)
      else ParseSection k s_Data p_Size s_Offset (xs ++ [x])
  end.

(** The serialization loop: [None] is the early return of 0. *)
Fixpoint WriteSection xs (s_Output : option bytes) (p_BufferSize s_Offset : nat)
    : outcome (option nat * option bytes) :=
  match xs with
  | [] => Done (Some s_Offset, s_Output)
  | x :: xs =>
      '(s_Bytes, s_Output) ← item_ToWire x s_Output s_Offset (p_BufferSize - s_Offset);
      if s_Bytes =? 0 then Done (None, s_Output)
      else WriteSection xs s_Output p_BufferSize (s_Offset + s_Bytes)
  end.

(** [std::accumulate] of the sizes. *)
Definition SectionSize xs : nat := fold_left (λ s_Sum x, s_Sum + item_WireSize x) xs 0.
End loops.

(** [std::vector] comparison, by the elements' operators. *)
Fixpoint vector_ltb {T} (ltb : T → T → bool) (xs ys : list T) : bool :=
  match xs, ys with
  | x :: xs, y :: ys => if ltb x y then true else if ltb y x then false else vector_ltb ltb xs ys
  | [], _ :: _ => true
  | _, [] => false
  end.

Definition vector_eqb {T} (eqb : T → T → bool) (xs ys : list T) : bool :=
  (length xs =? length ys) && forallb (λ '(x, y), eqb x y) (zip xs ys).

(** [std::accumulate] of hashes. *)
Definition hash_section {T} (hash : T → Z) (s_Hash : Z) (xs : list T) : Z :=
  fold_left (λ s_Hash x, hash_combine s_Hash (hash x)) xs s_Hash.

(** ** Parsers with a result and an output parameter *)

(** The parser returns, and succeeds with exactly the values that satisfy [P]. *)
Definition accepts {A} (m : outcome (bool * A)) (P : A → Prop) : Prop :=
  ∃ r a, m = Done (r, a) ∧ ∀ a', (r = true ∧ a = a') ↔ P a'.

Lemma accepts_reject {A} (a : A) (P : A → Prop) : (∀ a', ¬ P a') → accepts (Done (false, a)) P.
Proof. intros HP. eexists _, _. split; [done|]. intros a'. split; [by intros []|by intros ?%HP]. Qed.

Lemma accepts_one {A} (a : A) : accepts (Done (true, a)) (eq a).
Proof. eexists _, _. split; [done|]. intros a'. by split; [intros []|]. Qed.

Lemma accepts_iff {A} (m : outcome (bool * A)) (P Q : A → Prop) :
  (∀ a, P a ↔ Q a) → accepts m P → accepts m Q.
Proof. intros HPQ (r & a & E & Ha). exists r, a. split; [done|]. intros a'. by rewrite Ha. Qed.

(** The parser aborts exactly when [B] holds, and otherwise accepts what satisfies [P]. *)
Definition parses {A} (m : outcome (bool * A)) (B : Prop) (P : A → Prop) : Prop :=
  (B ∧ m = Aborted) ∨ (¬ B ∧ accepts m P).

Lemma parses_accepts {A} (m : outcome (bool * A)) (B : Prop) (P : A → Prop) :
  ¬ B → accepts m P → parses m B P.
Proof. by right. Qed.

Lemma parses_iff {A} (m : outcome (bool * A)) (B B' : Prop) (P Q : A → Prop) :
  (B ↔ B') → (∀ a, P a ↔ Q a) → parses m B P → parses m B' Q.
Proof.
  intros HB HPQ [[Hb E]|[Hb Ha]]; [left; by rewrite <- HB|right]. rewrite <- HB.
  split; [done|by eapply accepts_iff].
Qed.

(** ** The loops' theorems *)

Section facts.
  Context {T : Type} `{WireLaws T}.
  Implicit Types (x : T) (xs : list T) (data : bytes).

(** The elements found from an offset of a packet, and the offset after them. *)
Inductive section_at data (p_Size : nat) : nat → list T → nat → Prop :=
  | section_nil o : section_at data p_Size o [] o
  | section_cons o x m xs next :
      item_at data p_Size o x m → section_at data p_Size m xs next →
      section_at data p_Size o (x :: xs) next.

Definition section_wire xs : bytes := concat (item_wire <$> xs).

(** The parser aborts on one of the [k] elements from an offset. *)
Definition section_aborts (k : nat) data (p_Size o : nat) : Prop :=
  ∃ xs m, length xs < k ∧ section_at data p_Size o xs m ∧ item_aborts data p_Size m.

Lemma item_at_safe data p_Size o x next :
  p_Size ≤ length data → item_at data p_Size o x next → ¬ item_aborts data p_Size o.
Proof.
  intros Hd Hx. destruct (item_parse data p_Size o fresh Hd) as [[_ E]|[]]; [|done].
  by rewrite (proj2 (item_parse_at data p_Size o fresh next x Hd) Hx) in E.
Qed.

Lemma item_at_fun data p_Size o x y n m :
  p_Size ≤ length data → item_at data p_Size o x n → item_at data p_Size o y m → x = y ∧ n = m.
Proof.
  intros Hd Hx%(item_parse_at _ _ _ fresh _ _ Hd) Hy%(item_parse_at _ _ _ fresh _ _ Hd).
  rewrite Hx in Hy. by simplify_eq.
Qed.

Lemma section_aborts_cons k data p_Size o x m :
  p_Size ≤ length data → item_at data p_Size o x m →
  section_aborts (S k) data p_Size o ↔ section_aborts k data p_Size m.
Proof.
  intros Hd Hx. split.
  - intros (xs & n & Hl & Hxs & Hn). destruct Hxs as [o|o y m' xs n Hy Hxs].
    + by destruct (item_at_safe _ _ _ _ _ Hd Hx).
    + destruct (item_at_fun _ _ _ _ _ _ _ Hd Hx Hy) as [<- <-]. exists xs, n. simpl in Hl.
      split_and!; [lia|done..].
  - intros (xs & n & Hl & Hxs & Hn). exists (x :: xs), n. split_and!; [simpl; lia| |done].
    by econstructor.
Qed.

Lemma ParseSection_spec k data p_Size o xs0 :
  p_Size ≤ length data →
  (section_aborts k data p_Size o ∧ ParseSection k data p_Size o xs0 = Aborted) ∨
  (¬ section_aborts k data p_Size o ∧
   ∃ r next xs, ParseSection k data p_Size o xs0 = Done (r, next, xs) ∧
     (r = true → ∃ l, xs = xs0 ++ l ∧ length l = k ∧ section_at data p_Size o l next)).
Proof.
  intros Hd. revert o xs0. induction k as [|k IH]; intros o xs0; cbn [ParseSection].
  - right. split; [intros (? & ? & ? & _); lia|]. eexists _, _, _. split; [done|]. intros _. exists [].
    rewrite app_nil_r. split_and!; [done|done|constructor].
  - destruct (item_parse data p_Size o fresh Hd) as [[Hb E]|(Hb & r & m & x & E & _)]; rewrite E.
    { left. split; [|done]. exists [], o. split_and!; [simpl; lia|constructor|done]. }
    rewrite bind_done. destruct r; cbn [negb].
    2: { right. split; [|by eexists _, _, _]. intros (xs & n & _ & Hxs & Hn).
         destruct Hxs as [o|o y m' xs n Hy Hxs]; [done|].
         rewrite (proj2 (item_parse_at data p_Size o fresh m' y Hd) Hy) in E. by simplify_eq. }
    apply item_parse_at in E; [|done]. rewrite (section_aborts_cons k _ _ _ _ _ Hd E).
    destruct (IH m (xs0 ++ [x])) as [[Hk ->]|(Hk & r & next & xs & -> & Hr)]; [by left|right].
    split; [done|]. eexists _, _, _. split; [done|].
    intros ->. destruct (Hr eq_refl) as (l & -> & <- & Hl). exists (x :: l).
    rewrite <- app_assoc. split_and!; [done|done|]. by econstructor.
Qed.

Lemma ParseSection_complete data p_Size o l next xs0 :
  p_Size ≤ length data → section_at data p_Size o l next →
  ParseSection (length l) data p_Size o xs0 = Done (true, next, xs0 ++ l).
Proof.
  intros Hd Hl. revert xs0. induction Hl as [o|o x m xs next Hx Hxs IH]; intros xs0.
  - simpl. by rewrite app_nil_r.
  - cbn [length ParseSection].
    rewrite (proj2 (item_parse_at data p_Size o _ m x Hd) Hx), bind_done.
    cbn [negb]. by rewrite IH, <- app_assoc.
Qed.

(** A section of [k] elements is read exactly when there is one. *)
Lemma ParseSection_iff k data p_Size o :
  p_Size ≤ length data →
  (section_aborts k data p_Size o ∧ ParseSection k data p_Size o [] = Aborted) ∨
  (¬ section_aborts k data p_Size o ∧
   ∃ r next xs, ParseSection k data p_Size o [] = Done (r, next, xs) ∧
     ∀ xs' next', (r = true ∧ xs = xs' ∧ next = next') ↔
                  (length xs' = k ∧ section_at data p_Size o xs' next')).
Proof.
  intros Hd. destruct (ParseSection_spec k data p_Size o [] Hd) as [|(Hb & r & next & xs & E & Hr)]; [by left|].
  right. split; [done|]. exists r, next, xs. split; [done|]. intros xs' next'. split.
  - intros (-> & <- & <-). by destruct (Hr eq_refl) as (l & -> & Hl & Hat).
  - intros [<- Hat]. rewrite (ParseSection_complete _ _ _ _ _ _ Hd Hat) in E. by simplify_eq.
Qed.

(** A parser that continues after a section. *)
Lemma parses_section {A} k data p_Size o (F : list T → A) (K : nat → list T → outcome (bool * A))
    (B : nat → list T → Prop) (P : nat → list T → A → Prop) :
  p_Size ≤ length data →
  (∀ next xs, length xs = k → section_at data p_Size o xs next → parses (K next xs) (B next xs) (P next xs)) →
  parses ('(s_Ok, s_Offset, xs) ← ParseSection k data p_Size o [];
          if negb s_Ok then Done (false, F xs) else K s_Offset xs)
    (section_aborts k data p_Size o ∨ ∃ xs next, length xs = k ∧ section_at data p_Size o xs next ∧ B next xs)
    (λ a, ∃ xs next, length xs = k ∧ section_at data p_Size o xs next ∧ P next xs a).
Proof.
  intros Hd HK. destruct (ParseSection_iff k data p_Size o Hd) as [[Hb ->]|(Hb & r & next & xs & -> & Hr)].
  { left. split; [by left|done]. }
  rewrite bind_done. destruct r; cbn [negb].
  - destruct (proj1 (Hr xs next)) as [Hl Hat]; [done|].
    assert (Hone : ∀ xs' next', length xs' = k → section_at data p_Size o xs' next' → xs = xs' ∧ next = next').
    { intros xs' next' Hl' Hat'. by destruct (proj2 (Hr xs' next') (conj Hl' Hat')) as (_ & ? & ?). }
    destruct (HK next xs Hl Hat) as [[HB ->]|[HB (r & a & -> & Ha)]].
    + left. split; [|done]. right. by exists xs, next.
    + right. split.
      { intros [|(xs' & next' & Hl' & Hat' & HB')]; [done|]. by destruct (Hone xs' next' Hl' Hat') as [<- <-]. }
      exists r, a. split; [done|]. intros a'.
      rewrite Ha. split; [by exists xs, next|]. intros (xs' & next' & Hl' & Hat' & HP).
      by destruct (Hone xs' next' Hl' Hat') as [<- <-].
  - assert (Hno : ∀ xs' next', length xs' = k → ¬ section_at data p_Size o xs' next').
    { intros xs' next' Hl' Hat'. by destruct (proj2 (Hr xs' next') (conj Hl' Hat')). }
    right. split; [intros [|(xs' & next' & Hl' & Hat' & _)]; [done|by eapply Hno]|].
    eexists _, _. split; [done|]. intros a'. split; [by intros []|].
    intros (xs' & next' & Hl' & Hat' & _). by destruct (Hno xs' next' Hl').
Qed.

Lemma section_at_fun data p_Size o xs ys n m :
  p_Size ≤ length data → section_at data p_Size o xs n → section_at data p_Size o ys m →
  length xs = length ys → xs = ys ∧ n = m.
Proof.
  intros Hd Hx%(ParseSection_complete _ _ _ _ _ [] Hd) Hy%(ParseSection_complete _ _ _ _ _ [] Hd) E.
  rewrite E, Hy in Hx. by simplify_eq.
Qed.

Lemma section_at_safe data p_Size o xs n :
  p_Size ≤ length data → section_at data p_Size o xs n → ¬ section_aborts (length xs) data p_Size o.
Proof.
  intros Hd Hx%(ParseSection_complete _ _ _ _ _ [] Hd).
  destruct (ParseSection_spec (length xs) data p_Size o [] Hd) as [[_ E]|[]]; [congruence|done].
Qed.

Lemma section_at_Forall (P : T → Prop) data p_Size o xs next :
  (∀ o x m, item_at data p_Size o x m → P x) → section_at data p_Size o xs next → Forall P xs.
Proof. intros HP. induction 1; constructor; eauto. Qed.

Lemma section_at_wf data p_Size o xs next : section_at data p_Size o xs next → Forall item_wf xs.
Proof. apply section_at_Forall. intros ? ? ?. apply item_at_wf. Qed.

Lemma section_at_next data p_Size o xs next :
  section_at data p_Size o xs next → o ≤ p_Size → o + length xs ≤ next ≤ p_Size.
Proof.
  induction 1 as [o|o x m xs next Hx _ IH]; intros Ho; simpl; [lia|].
  apply item_at_next in Hx. lia.
Qed.

Lemma length_section_wire xs : length (section_wire xs) = SectionSize xs.
Proof.
  enough (∀ n, fold_left (λ s_Sum x, s_Sum + item_WireSize x) xs n = n + length (section_wire xs)) as E
    by (unfold SectionSize; by rewrite E).
  unfold section_wire. induction xs as [|x xs IH]; intros n; [simpl; lia|].
  rewrite fmap_cons. cbn [fold_left concat]. rewrite IH, length_app, item_length. lia.
Qed.

Lemma section_wire_cons x xs : section_wire (x :: xs) = item_wire x ++ section_wire xs.
Proof. done. Qed.

(** The loop writes the section's encoding after what is already written. *)
Lemma WriteSection_Done xs data p_BufferSize acc :
  Forall item_wf xs → p_BufferSize ≤ length data →
  length acc + length (section_wire xs) ≤ p_BufferSize →
  WriteSection xs (Some (splice data 0 acc)) p_BufferSize (length acc) =
    Done (Some (length acc + length (section_wire xs)), Some (splice data 0 (acc ++ section_wire xs))).
Proof.
  intros Hw Hd. revert acc. induction Hw as [|x xs Hx _ IH]; intros acc Hs; cbn [WriteSection].
  - simpl. rewrite app_nil_r. do 2 f_equal. by rewrite Nat.add_0_r.
  - rewrite section_wire_cons in *. rewrite length_app in Hs.
    rewrite item_write; [|rewrite <- item_length; lia
      |rewrite <- item_length, length_splice; simpl; lia|done].
    rewrite bind_done, <- item_length.
    destruct (Nat.eqb_spec (length (item_wire x)) 0) as [E0|_].
    { rewrite item_length in E0. pose proof (item_nonempty x). lia. }
    rewrite (splice_splice data 0 acc) by (simpl; lia). rewrite <- length_app.
    rewrite IH by (rewrite length_app; lia). rewrite !length_app, <- app_assoc.
    do 3 f_equal. lia.
Qed.

Lemma section_at_wire xs data p_Size pre post :
  Forall item_ok xs → data = pre ++ section_wire xs ++ post →
  length pre + length (section_wire xs) ≤ p_Size →
  section_at data p_Size (length pre) xs (length pre + length (section_wire xs)).
Proof.
  intros Hok. revert pre. induction Hok as [|x xs Hx _ IH]; intros pre E Hs.
  - simpl. rewrite Nat.add_0_r. constructor.
  - rewrite section_wire_cons in *. rewrite length_app in *. rewrite <- app_assoc in E.
    apply section_cons with (length pre + item_WireSize x).
    + apply item_at_wire with (section_wire xs ++ post); [done..|]. rewrite <- item_length. lia.
    + rewrite <- item_length, <- length_app, Nat.add_assoc, <- length_app.
      apply IH; [by rewrite E, <- app_assoc|rewrite length_app; lia].
Qed.
End facts.

(** ** Questions and records *)

Section instances.
  Context {H : Target}.

#[export] Instance question_format : WireFormat DnsQuestion := {
  fresh := DnsQuestion.clear;
  item_FromWire := DnsQuestion.FromWire;
  item_ToWire := DnsQuestion.ToWire;
  item_WireSize := DnsQuestion.WireSize
}.

#[export] Instance answer_format : WireFormat DnsAnswer := {
  fresh := DnsAnswer.clear;
  item_FromWire := DnsAnswer.FromWire;
  item_ToWire := DnsAnswer.ToWire;
  item_WireSize := DnsAnswer.WireSize
}.

Definition question_ok (q : DnsQuestion) : Prop := DnsQuestion.wf q ∧ Forall label_ok (m_Qname_ q).

Definition answer_ok (a : DnsAnswer) : Prop :=
  DnsAnswer.wf a ∧ rdlength_ok a ∧ Forall label_ok (m_Name_ a) ∧
  plain_rdata (DnsAnswer.Type_ false a) (m_Rdata_ a).

(** What a parsed element satisfies. *)
Definition answer_wf (a : DnsAnswer) : Prop := DnsAnswer.wf a ∧ Forall label_ok (m_Name_ a).

Lemma question_at_ok data p_Size o q next : question_at data p_Size o q next → question_ok q.
Proof.
  intros (m & h & Hn & _ & _ & _ & Hw & _). split; [done|]. by eapply name_at_labels_ok.
Qed.

Lemma answer_at_labels data p_Size o a next : answer_at data p_Size o a next → answer_wf a.
Proof.
  intros [(m & l & raw & (h & Hn & _) & _ & _ & Hw & _) _]. split; [done|]. by eapply name_at_labels_ok.
Qed.

#[export] Program Instance question_laws : WireLaws DnsQuestion := {|
  item_wire := DnsQuestion.wire;
  item_at := question_at;
  item_aborts _ _ _ := False;
  item_wf := DnsQuestion.wf;
  item_ok := question_ok
|}.
Next Obligation. apply question_length_wire. Qed.
Next Obligation. intros q. simpl. unfold DnsQuestion.WireSize. lia. Qed.
Next Obligation. by intros q []. Qed.
Next Obligation. intros. right. split; [tauto|]. by apply question_FromWire_Done. Qed.
Next Obligation. intros. by apply FromWire_question_at. Qed.
Next Obligation. intros data p_Size o q next Hq. by destruct (question_at_ok _ _ _ _ _ Hq). Qed.
Next Obligation.
  intros data p_Size o q next (m & h & Hn & _ & Hm & -> & _). apply name_at_next in Hn. lia.
Qed.
Next Obligation. intros. by apply question_ToWire_Done. Qed.
Next Obligation. intros q data p_Size pre post [Hw Hl] **. by apply question_at_wire with post. Qed.

#[export] Program Instance answer_laws : WireLaws DnsAnswer := {|
  item_wire := DnsAnswer.wire;
  item_at := answer_at;
  item_aborts := answer_aborts;
  item_wf := DnsAnswer.wf;
  item_ok := answer_ok
|}.
Next Obligation. apply answer_length_wire. Qed.
Next Obligation. intros a. simpl. unfold DnsAnswer.WireSize. lia. Qed.
Next Obligation. by intros a (? & _). Qed.
Next Obligation.
  intros data p_Size o x0 Hd. destruct (answer_FromWire_cases data p_Size o x0 Hd)
    as [|(? & r & next & a & ? & ? & _)]; [by left|right]. split; [done|]. by exists r, next, a.
Qed.
Next Obligation. intros. by apply FromWire_answer_at. Qed.
Next Obligation. intros data p_Size o a next Ha. by destruct (answer_at_labels _ _ _ _ _ Ha). Qed.
Next Obligation.
  intros data p_Size o a next [(m & l & raw & (h & Hn & _) & -> & Hm & _) _]. apply name_at_next in Hn. lia.
Qed.
Next Obligation. intros. by apply answer_ToWire_Done. Qed.
Next Obligation. intros a data p_Size pre post (? & ? & ? & ?) **. by apply answer_at_wire with post. Qed.

(** Questions have no assertion. *)
Lemma questions_safe k data p_Size o : ¬ section_aborts (T:=DnsQuestion) k data p_Size o.
Proof. by intros (? & ? & _ & _ & []). Qed.

Lemma questions_parse k data p_Size o (xs0 : list DnsQuestion) :
  p_Size ≤ length data →
  ∃ r next xs, ParseSection k data p_Size o xs0 = Done (r, next, xs) ∧
    (r = true → ∃ l, xs = xs0 ++ l ∧ length l = k ∧ section_at data p_Size o l next).
Proof.
  intros Hd. destruct (ParseSection_spec k data p_Size o xs0 Hd) as [[Hb _]|[_ Hs]]; [|exact Hs].
  by apply questions_safe in Hb.
Qed.

Lemma questions_ok_wf qs : Forall question_ok qs → Forall DnsQuestion.wf qs.
Proof. apply Forall_impl. by intros q []. Qed.

Lemma answers_ok_wf xs : Forall answer_ok xs → Forall DnsAnswer.wf xs.
Proof. apply Forall_impl. by intros a []. Qed.
End instances.
