(* ===== verification/DnsRequestPacket.v ===== *)
(** * Request packets (src/include/dns_packet.h, src/include/dns_edns0.h,
      src/src/dns_packet.cc: DnsRequestPacket)

    A query is a header, its questions and what the additional section says of
    EDNS0 (RFC 6891).  The walk over the additional section is a state
    machine, one step per record; its states are proved to keep the invariant
    [walk_ok] on every input, and its result on a well-formed section to be the
    one RFC 6891 asks for.  The edits assert that the questions can be counted in 16 bits. *)

From Stdlib Require Import ZArith Lia ZifyBool.
From Stdlib Require Import Strings.Byte Strings.String.
From stdpp Require Import base numbers list option sets.
From S2P Require Import Prelude.
From S2P Require Import Memory.
From S2P Require Import Utils.
From S2P Require Import Text.
From S2P Require Import Name.
From S2P Require Import DnsHeader.
From S2P Require Import DnsQuestion.
From S2P Require Import DnsAnswer.
From S2P Require Import WireFormat.

(** ** Data *)

Inductive EdnsParseStatus : Type :=
  | EdnsNone
  | EdnsOk
  | EdnsBadVersion
  | EdnsDuplicateOpt
  | EdnsMalformed.

#[export] Instance EdnsParseStatus_eq_dec : EqDecision EdnsParseStatus.
Proof. solve_decision. Defined.

Record EdnsOption : Type := {
  m_Code_ : Z;
  m_Data_ : bytes
}.

#[export] Instance EdnsOption_eq_dec : EqDecision EdnsOption.
Proof. solve_decision. Defined.

Record EdnsData : Type := {
  m_UdpPayloadSize_ : Z;
  m_ExtendedRcode_ : Z;
  m_Version_ : Z;
  m_DoBit_ : bool;
  m_Options_ : list EdnsOption
}.

#[export] Instance EdnsData_eq_dec : EqDecision EdnsData.
Proof. solve_decision. Defined.

Record DnsRequestPacket : Type := {
  m_Header_ : DnsHeader;
  m_Questions_ : list DnsQuestion;
  m_Edns_ : option EdnsData;
  m_EdnsStatus_ : EdnsParseStatus
}.

#[export] Instance DnsRequestPacket_eq_dec : EqDecision DnsRequestPacket.
Proof. solve_decision. Defined.

Definition DNS_TYPE_OPT : Z := 41.
Definition DEFAULT_DNS_PACKET_SIZE : Z := 512.

(** ** Operations *)

Section operations.
  Context {H : Target}.
  Implicit Types (p : DnsRequestPacket).

(** [clear], and the default constructor. *)
Definition clear : DnsRequestPacket :=
  {| m_Header_ := DnsHeader.clear; m_Questions_ := []; m_Edns_ := None; m_EdnsStatus_ := EdnsNone |}.

Definition Header p : DnsHeader := m_Header_ p.
Definition Questions p : list DnsQuestion := m_Questions_ p.
Definition Edns p : option EdnsData := m_Edns_ p.
Definition EdnsStatus p : EdnsParseStatus := m_EdnsStatus_ p.
Definition HasEdns p : bool := bool_decide (is_Some (m_Edns_ p)).

Definition with_Header (h : DnsHeader) p : DnsRequestPacket :=
  {| m_Header_ := h; m_Questions_ := m_Questions_ p; m_Edns_ := m_Edns_ p;
     m_EdnsStatus_ := m_EdnsStatus_ p |}.
Definition with_Questions (qs : list DnsQuestion) p : DnsRequestPacket :=
  {| m_Header_ := m_Header_ p; m_Questions_ := qs; m_Edns_ := m_Edns_ p;
     m_EdnsStatus_ := m_EdnsStatus_ p |}.
Definition with_Edns (e : option EdnsData) (s : EdnsParseStatus) p : DnsRequestPacket :=
  {| m_Header_ := m_Header_ p; m_Questions_ := m_Questions_ p; m_Edns_ := e; m_EdnsStatus_ := s |}.

(** The packet with the header's counts those of its questions, in 16 bits. *)
Definition counted_request p : DnsRequestPacket :=
  with_Header (DnsHeader.UpdateCounts (u16 (Z.of_nat (length (m_Questions_ p)))) 0 0 0 (m_Header_ p)) p.

(** [m_Questions_.size() <= UINT16_MAX] *)
Definition countable p : bool := (Z.of_nat (length (m_Questions_ p)) <=? UINT16_MAX)%Z.

Definition UpdateHeaderCounts p : outcome DnsRequestPacket :=
  assert_ (countable p);; Done (counted_request p).

Definition SetHeader (p_Header : DnsHeader) p := with_Header p_Header p.
Definition AddQuestion (p_Question : DnsQuestion) p : outcome DnsRequestPacket :=
  UpdateHeaderCounts (with_Questions (m_Questions_ p ++ [p_Question]) p).
Definition ClearQuestions p := UpdateHeaderCounts (with_Questions [] p).
Definition SetEdns (p_Edns : EdnsData) (p_Status : EdnsParseStatus) p := with_Edns (Some p_Edns) p_Status p.
Definition SetEdnsStatus (p_Status : EdnsParseStatus) p := with_Edns (m_Edns_ p) p_Status p.

(** The constructor from a header and questions. *)
Definition make (p_Header : DnsHeader) (p_Questions : list DnsQuestion) : outcome DnsRequestPacket :=
  UpdateHeaderCounts (with_Questions p_Questions (with_Header p_Header clear)).

(** The packet that the constructor makes. *)
Definition made_request (h : DnsHeader) (qs : list DnsQuestion) : DnsRequestPacket :=
  counted_request (with_Questions qs (with_Header h clear)).

Definition MakeAQuery (p_Id : Z) (p_DomainName : bytes) (p_RecursionDesired : bool) : outcome DnsRequestPacket :=
  make (DnsHeader.MakeQueryHeader p_Id 0 p_RecursionDesired 1) [DnsQuestion.MakeAQuery p_DomainName].
Definition MakeAaaaQuery (p_Id : Z) (p_DomainName : bytes) (p_RecursionDesired : bool) : outcome DnsRequestPacket :=
  make (DnsHeader.MakeQueryHeader p_Id 0 p_RecursionDesired 1) [DnsQuestion.MakeAaaaQuery p_DomainName].
Definition MakePtrQuery (p_Id : Z) (p_IpAddress : bytes) (p_RecursionDesired : bool) : outcome DnsRequestPacket :=
  make (DnsHeader.MakeQueryHeader p_Id 0 p_RecursionDesired 1) [DnsQuestion.MakePtrQuery p_IpAddress].

Definition swap p (p_Other : DnsRequestPacket) : DnsRequestPacket * DnsRequestPacket := (p_Other, p).
Definition empty p : bool := match m_Questions_ p with [] => true | _ => false end.
Definition size p : nat := length (m_Questions_ p).

Definition Valid p : bool :=
  if negb (DnsHeader.Valid (m_Header_ p)) then false
  else if negb (DnsHeader.IsQuery (m_Header_ p)) then false
  else if negb (DnsHeader.Qdcount false (m_Header_ p) =? Z.of_nat (length (m_Questions_ p)))%Z then false
  else if (negb (DnsHeader.Ancount false (m_Header_ p) =? 0)
           || negb (DnsHeader.Nscount false (m_Header_ p) =? 0))%Z then false
  else if negb (DnsHeader.Arcount false (m_Header_ p) =? 0)%Z
          && (negb (HasEdns p) && bool_decide (m_EdnsStatus_ p = EdnsNone)) then false
  else forallb DnsQuestion.Valid (m_Questions_ p).

Definition Hash (hash64 hash32 hash16 : Z → Z) (hash_string : bytes → Z) p : Z :=
  hash_section (DnsQuestion.Hash hash_string hash16) (DnsHeader.Hash hash64 hash32 (m_Header_ p))
    (m_Questions_ p).

Definition WireSize p : nat :=
  DnsHeader.size + SectionSize (m_Questions_ p).

(** An integer of [n] bytes copied from the packet and converted. *)
Definition read_host (n : nat) (s_Wire : bytes) (i : nat) : outcome Z :=
  bs ← load_n s_Wire i n; Done (NetworkToHost n (object_value bs)).

(** The loop that walks a label sequence: [s_Pos] when it stops. *)
Fixpoint walk_labels (fuel : nat) (s_Wire : bytes) (p_Size s_Pos : nat) : outcome nat :=
  match fuel with
  | O => Unfinished
  | S fuel =>
      if s_Pos <? p_Size then
        s_Len ← load s_Wire s_Pos;
        if (u8 s_Len =? 0)%Z then Done (s_Pos + 1)
        else if (Z.land (u8 s_Len) 0xC0 =? 0xC0)%Z then Done (s_Pos + 2)
        else walk_labels fuel s_Wire p_Size (s_Pos + (1 + Z.to_nat (u8 s_Len)))
      else Done s_Pos
  end.

(** The end of the record's name; [None] is the malformed return. *)
Definition name_end (s_Wire : bytes) (p_Size s_Offset : nat) (s_NameByte : byte) : outcome (option nat) :=
  if (u8 s_NameByte =? 0)%Z then Done (Some (s_Offset + 1))
  else if (Z.land (u8 s_NameByte) 0xC0 =? 0xC0)%Z then
    if p_Size <? s_Offset + 2 then Done None else Done (Some (s_Offset + 2))
  else
    s_Pos ← walk_labels (S p_Size) s_Wire p_Size s_Offset;
    if p_Size <? s_Pos then Done None else Done (Some s_Pos).

(** The option loop: [None] is the malformed return. *)
Fixpoint parse_options (fuel : nat) (s_Wire : bytes) (s_End s_OptOffset : nat)
    (options : list EdnsOption) : outcome (option (list EdnsOption)) :=
  match fuel with
  | O => Unfinished
  | S fuel =>
      if s_OptOffset + 4 <=? s_End then
        s_OptCode ← read_host 2 s_Wire s_OptOffset;
        s_OptLen ← read_host 2 s_Wire (s_OptOffset + 2);
        let n := Z.to_nat s_OptLen in
        if s_End <? s_OptOffset + 4 + n then Done None else
        data ← load_n s_Wire (s_OptOffset + 4) n;
        parse_options fuel s_Wire s_End (s_OptOffset + (4 + n))
          (options ++ [{| m_Code_ := s_OptCode; m_Data_ := data |}])
      else Done (Some options)
  end.

(** The state of the walk over the additional section. *)
Record OptWalk : Type := {
  s_OptCount : Z;
  s_Offset : nat;
  w_Edns : option EdnsData;
  w_Status : EdnsParseStatus
}.

Definition walk_status (st : EdnsParseStatus) (w : OptWalk) : OptWalk :=
  {| s_OptCount := s_OptCount w; s_Offset := s_Offset w; w_Edns := w_Edns w; w_Status := st |}.

(** Step over a record whose fixed fields end at [s_NameEnd + 10]. *)
Definition walk_skip (s_Wire : bytes) (s_NameEnd : nat) (w : OptWalk) : outcome (bool * OptWalk) :=
  s_Rdlen ← read_host 2 s_Wire (s_NameEnd + 8);
  Done (false, {| s_OptCount := s_OptCount w; s_Offset := s_NameEnd + 10 + Z.to_nat s_Rdlen;
                  w_Edns := w_Edns w; w_Status := w_Status w |}).

(** The body for the first OPT record, with the root name. *)
Definition walk_opt (s_Wire : bytes) (p_Size s_NameEnd : nat) (w : OptWalk)
    : outcome (bool * OptWalk) :=
  s_PayloadSize ← read_host 2 s_Wire (s_NameEnd + 2);
  s_Ttl ← read_host 4 s_Wire (s_NameEnd + 4);
  s_Rdlen ← read_host 2 s_Wire (s_NameEnd + 8);
  let s_RdataStart := s_NameEnd + 10 in
  let s_End := s_RdataStart + Z.to_nat s_Rdlen in
  if p_Size <? s_End then Done (true, walk_status EdnsMalformed w) else
  options ← parse_options (S (Z.to_nat s_Rdlen)) s_Wire s_End s_RdataStart [];
  match options with
  | None => Done (true, walk_status EdnsMalformed w)
  | Some options =>
      let s_Edns :=
        {| m_UdpPayloadSize_ := if (s_PayloadSize <? DEFAULT_DNS_PACKET_SIZE)%Z
                                then DEFAULT_DNS_PACKET_SIZE else s_PayloadSize;
           m_ExtendedRcode_ := Z.land (Z.shiftr s_Ttl 24) 0xFF;
           m_Version_ := Z.land (Z.shiftr s_Ttl 16) 0xFF;
           m_DoBit_ := tobool (Z.land (Z.shiftr s_Ttl 15) 0x01);
           m_Options_ := options |} in
      Done (false, {| s_OptCount := s_OptCount w; s_Offset := s_End; w_Edns := Some s_Edns;
                      w_Status := if (0 <? m_Version_ s_Edns)%Z then EdnsBadVersion
                                  else if decide (w_Status w = EdnsNone) then EdnsOk
                                  else w_Status w |})
  end.

(** One iteration of the loop: [true] when the function returns (with [true]). *)
Definition walk_step (s_Wire : bytes) (p_Size : nat) (w : OptWalk) : outcome (bool * OptWalk) :=
  if p_Size <? s_Offset w + 11 then Done (true, walk_status EdnsMalformed w) else
  s_NameByte ← load s_Wire (s_Offset w);
  s_NameEnd ← name_end s_Wire p_Size (s_Offset w) s_NameByte;
  match s_NameEnd with
  | None => Done (true, walk_status EdnsMalformed w)
  | Some s_NameEnd =>
      if p_Size <? s_NameEnd + 10 then Done (true, walk_status EdnsMalformed w) else
      s_Type ← read_host 2 s_Wire s_NameEnd;
      if (s_Type =? DNS_TYPE_OPT)%Z then
        let w := {| s_OptCount := u16 (s_OptCount w + 1); s_Offset := s_Offset w;
                    w_Edns := w_Edns w; w_Status := w_Status w |} in
        if (1 <? s_OptCount w)%Z then
          walk_skip s_Wire s_NameEnd (walk_status EdnsDuplicateOpt w)
        else if negb (u8 s_NameByte =? 0)%Z || negb (s_NameEnd =? s_Offset w + 1) then
          walk_skip s_Wire s_NameEnd (walk_status EdnsMalformed w)
        else walk_opt s_Wire p_Size s_NameEnd w
      else walk_skip s_Wire s_NameEnd w
  end.

(** The [for] loop: [k] records left. *)
Fixpoint walk_loop (k : nat) (s_Wire : bytes) (p_Size : nat) (w : OptWalk) : outcome OptWalk :=
  match k with
  | O => Done w
  | S k =>
      '(s_Return, w) ← walk_step s_Wire p_Size w;
      if s_Return : bool then Done w else walk_loop k s_Wire p_Size w
  end.

(** The result and the output parameter, whatever part of it was overwritten. *)
Definition FromWire (p_Data : option bytes) (p_Size : nat) (p_OutPacket : DnsRequestPacket)
    : outcome (bool * DnsRequestPacket) :=
  match p_Data with
  | None => Done (false, p_OutPacket)
  | Some s_Data =>
      if p_Size <? DnsHeader.size then Done (false, p_OutPacket) else
      '(s_Ok, h) ← DnsHeader.FromWire p_Data DnsHeader.size (m_Header_ p_OutPacket);
      let p_OutPacket := with_Header h p_OutPacket in
      if negb s_Ok then Done (false, p_OutPacket) else
      if DnsHeader.IsResponse h then Done (false, p_OutPacket) else
      '(s_Ok, s_Offset, qs) ←
        ParseSection (Z.to_nat (DnsHeader.Qdcount false h)) s_Data p_Size DnsHeader.size [];
      let p_OutPacket := with_Questions qs p_OutPacket in
      if negb s_Ok then Done (false, p_OutPacket) else
      if negb (Z.of_nat (length qs) =? DnsHeader.Qdcount false h)%Z then Done (false, p_OutPacket) else
      if (negb (DnsHeader.Ancount false h =? 0) || negb (DnsHeader.Nscount false h =? 0))%Z
      then Done (false, p_OutPacket) else
      w ← walk_loop (Z.to_nat (DnsHeader.Arcount false h)) s_Data p_Size
            {| s_OptCount := 0; s_Offset := s_Offset; w_Edns := None; w_Status := EdnsNone |};
      Done (true, with_Edns (w_Edns w) (w_Status w) p_OutPacket)
  end.

(** The constructors from bytes. *)
Definition construct (p_Data : option bytes) (p_Size : nat) : outcome DnsRequestPacket :=
  '(s_Ok, p) ← FromWire p_Data p_Size clear;
  if s_Ok : bool then Done p else Throw InvalidArgument.

Definition ToWire p (p_Buffer : option bytes) (p_BufferSize : nat) : outcome (nat * option bytes) :=
  match p_Buffer with
  | None => Done (O, None)
  | Some _ =>
      let s_RequiredSize := WireSize p in
      if p_BufferSize <? s_RequiredSize then Done (O, p_Buffer) else
      '(s_HeaderBytes, s_Output) ← DnsHeader.ToWire (m_Header_ p) p_Buffer DnsHeader.size;
      if negb (s_HeaderBytes =? DnsHeader.size) then Done (O, s_Output) else
      '(s_Offset, s_Output) ← WriteSection (m_Questions_ p) s_Output p_BufferSize s_HeaderBytes;
      Done (default O s_Offset, s_Output)
  end.

Definition eqb p (p_Other : DnsRequestPacket) : bool :=
  if DnsHeader.neqb (m_Header_ p) (m_Header_ p_Other) then false
  else vector_eqb (λ q q', negb (DnsQuestion.neqb q q')) (m_Questions_ p) (m_Questions_ p_Other).

Definition neqb p (p_Other : DnsRequestPacket) : bool := negb (eqb p p_Other).

Definition ltb p (p_Other : DnsRequestPacket) : bool :=
  if DnsHeader.neqb (m_Header_ p) (m_Header_ p_Other)
  then DnsHeader.ltb (m_Header_ p) (m_Header_ p_Other)
  else vector_ltb DnsQuestion.ltb (m_Questions_ p) (m_Questions_ p_Other).
End operations.

(** ** Specification *)

Section specification.
  Context {H : Target}.
  Implicit Types (p : DnsRequestPacket).

Definition option_ok (x : EdnsOption) : Prop :=
  uint16 (m_Code_ x) ∧ (Z.of_nat (length (m_Data_ x)) < 65536)%Z.

(** What the rest of the program may rely on in parsed EDNS0 data. *)
Definition edns_ok (e : EdnsData) : Prop :=
  (512 ≤ m_UdpPayloadSize_ e < 65536)%Z ∧ (0 ≤ m_ExtendedRcode_ e < 256)%Z ∧
  (0 ≤ m_Version_ e < 256)%Z ∧ Forall option_ok (m_Options_ e).

(** The status agrees with the data. *)
Definition status_ok (e : option EdnsData) (st : EdnsParseStatus) : Prop :=
  (∀ d, e = Some d → edns_ok d) ∧
  match st with
  | EdnsNone => e = None
  | EdnsOk => ∃ d, e = Some d ∧ m_Version_ d = 0%Z
  | EdnsBadVersion => ∃ d, e = Some d ∧ (0 < m_Version_ d)%Z
  | EdnsDuplicateOpt | EdnsMalformed => True
  end.

(** The states of the walk before an iteration, with [k] records left. *)
Definition walk_ok (k : nat) (w : OptWalk) : Prop :=
  (0 ≤ s_OptCount w)%Z ∧ (s_OptCount w + Z.of_nat k ≤ 65535)%Z ∧
  status_ok (w_Edns w) (w_Status w) ∧
  (s_OptCount w = 0%Z → w_Edns w = None ∧ w_Status w = EdnsNone).

(** An accepted request. *)
Definition request_ok p : Prop :=
  DnsHeader.wf (m_Header_ p) ∧ DnsHeader.Valid (m_Header_ p) = true ∧
  DnsHeader.IsQuery (m_Header_ p) = true ∧
  DnsHeader.Qdcount false (m_Header_ p) = Z.of_nat (length (m_Questions_ p)) ∧
  DnsHeader.Ancount false (m_Header_ p) = 0%Z ∧ DnsHeader.Nscount false (m_Header_ p) = 0%Z ∧
  Forall question_ok (m_Questions_ p) ∧
  status_ok (m_Edns_ p) (m_EdnsStatus_ p) ∧
  (DnsHeader.Arcount false (m_Header_ p) = 0%Z → m_EdnsStatus_ p = EdnsNone).
End specification.

(** ** The walk over the additional section *)

Section walk.
  Context {H : Target} (s_Wire : bytes) (p_Size : nat) (Hd : p_Size ≤ length s_Wire).

Lemma read_host_Done n i :
  i + n ≤ p_Size → read_host n s_Wire i = Done (be_join (take n (drop i s_Wire))).
Proof.
  intros Hi. unfold read_host. rewrite load_n_Done, bind_done by lia.
  by rewrite (NetworkToHost_object n) by len.
Qed.

Lemma read_host_bound n i z : read_host n s_Wire i = Done z → (0 ≤ z < width n)%Z.
Proof.
  unfold read_host. intros (bs & (_ & _ & Hl)%load_n_inv & [= <-])%bind_Done_inv.
  apply HostToNetwork_bound. rewrite <- Hl. apply object_value_bound.
Qed.

Lemma walk_labels_returns fuel s_Pos :
  p_Size - s_Pos < fuel → ∃ e, walk_labels fuel s_Wire p_Size s_Pos = Done e.
Proof.
  revert s_Pos. induction fuel as [|fuel IH]; intros o Hf; [lia|]. cbn [walk_labels].
  destruct (Nat.ltb_spec o p_Size); [|by eexists].
  destruct (load_lookup s_Wire o ltac:(lia)) as (b & -> & _). rewrite bind_done.
  destruct (_ =? _)%Z; [by eexists|]. destruct (_ =? _)%Z; [by eexists|]. apply IH. lia.
Qed.

Lemma name_end_returns s_Offset b : ∃ e, name_end s_Wire p_Size s_Offset b = Done e.
Proof.
  unfold name_end. destruct (_ =? _)%Z; [by eexists|].
  destruct (_ =? _)%Z; [destruct (_ <? _); by eexists|].
  destruct (walk_labels_returns (S p_Size) s_Offset ltac:(lia)) as [e ->]. rewrite bind_done.
  destruct (_ <? _); by eexists.
Qed.

Lemma parse_options_spec fuel s_End o opts :
  s_End ≤ p_Size → s_End - o < fuel → Forall option_ok opts →
  ∃ r, parse_options fuel s_Wire s_End o opts = Done r ∧
       (∀ l, r = Some l → Forall option_ok l).
Proof.
  intros He. revert o opts. induction fuel as [|fuel IH]; intros o opts Hf Ho; [lia|].
  cbn [parse_options]. destruct (Nat.leb_spec (o + 4) s_End); [|eexists; split; [done|naive_solver]].
  destruct (read_host 2 s_Wire o) eqn:E1; rewrite read_host_Done in E1 by lia; try done.
  destruct (read_host 2 s_Wire (o + 2)) eqn:E2; rewrite read_host_Done in E2 by lia; try done.
  simplify_eq. rewrite !bind_done. cbv zeta.
  pose proof (be_join_bound (take 2 (drop o s_Wire))) as B1.
  pose proof (be_join_bound (take 2 (drop (o + 2) s_Wire))) as B2.
  rewrite length_take_le in B1, B2 by len. rewrite width_2 in B1, B2.
  destruct (Nat.ltb_spec s_End (o + 4 + Z.to_nat (be_join (take 2 (drop (o + 2) s_Wire)))));
    [by eexists|].
  rewrite load_n_Done, bind_done by lia. apply IH; [lia|].
  apply Forall_app. split; [done|]. constructor; [|done]. split; cbn [m_Code_ m_Data_]; [done|].
  rewrite length_take_le by len. lia.
Qed.

(** What every iteration gives, whatever the bytes are. *)
Definition step_ok (k : nat) (r : bool * OptWalk) : Prop :=
  status_ok (w_Edns (snd r)) (w_Status (snd r)) ∧ (fst r = false → walk_ok k (snd r)).

Lemma malformed_ok k w : walk_ok k w → step_ok k (true, walk_status EdnsMalformed w).
Proof. intros (_ & _ & (He & _) & _). split; [by split|done]. Qed.

Lemma walk_skip_ok k s_NameEnd w :
  s_NameEnd + 10 ≤ p_Size → walk_ok k w →
  ∃ r, walk_skip s_Wire s_NameEnd w = Done r ∧ step_ok k r.
Proof.
  intros Hn Hw. unfold walk_skip. rewrite read_host_Done, bind_done by lia.
  eexists. split; [done|]. destruct Hw as (?&?&?&?). by split.
Qed.

Lemma walk_opt_ok k s_NameEnd w :
  s_NameEnd + 10 ≤ p_Size → (0 < s_OptCount w)%Z → (s_OptCount w + Z.of_nat k ≤ 65535)%Z →
  w_Edns w = None → w_Status w = EdnsNone →
  ∃ r, walk_opt s_Wire p_Size s_NameEnd w = Done r ∧ step_ok k r.
Proof.
  intros Hn Hc Hk He Hs. unfold walk_opt. rewrite !read_host_Done by lia. rewrite !bind_done. cbv zeta.
  set (sz := be_join (take 2 (drop (s_NameEnd + 2) s_Wire))).
  set (rdlen := be_join (take 2 (drop (s_NameEnd + 8) s_Wire))).
  set (ttl := be_join (take 4 (drop (s_NameEnd + 4) s_Wire))).
  assert (Hsz : (0 ≤ sz < 65536)%Z).
  { pose proof (be_join_bound (take 2 (drop (s_NameEnd + 2) s_Wire))) as B.
    rewrite length_take_le in B by len. exact B. }
  assert (Hmal : step_ok k (true, walk_status EdnsMalformed w)).
  { split; [|done]. simpl. rewrite He. by split. }
  destruct (Nat.ltb_spec p_Size (s_NameEnd + 10 + Z.to_nat rdlen)); [eauto|].
  destruct (parse_options_spec (S (Z.to_nat rdlen)) (s_NameEnd + 10 + Z.to_nat rdlen) (s_NameEnd + 10) [])
    as (r & -> & Hr); [lia|lia|done|]. rewrite bind_done.
  destruct r as [opts|]; [|eauto]. specialize (Hr opts eq_refl).
  eexists. split; [done|]. rewrite decide_True by done.
  set (e := {| m_UdpPayloadSize_ := _ |}).
  assert (Hst : status_ok (Some e) (if (0 <? m_Version_ e)%Z then EdnsBadVersion else EdnsOk)).
  { assert (Hv : ∀ x, (0 ≤ Z.land x 0xFF < 256)%Z).
    { intros x. rewrite land_255. apply Z.mod_pos_bound. lia. }
    split.
    - intros d [= <-]. unfold e, edns_ok; cbn [m_UdpPayloadSize_ m_ExtendedRcode_ m_Version_ m_Options_].
      unfold DEFAULT_DNS_PACKET_SIZE. destruct (Z.ltb_spec sz 512); split_and!; try apply Hv; lia || done.
    - destruct (Z.ltb_spec 0 (m_Version_ e)); exists e; (split; [done|]); [done|].
      specialize (Hv (Z.shiftr ttl 16)). unfold e in *; cbn [m_Version_] in *. lia. }
  split; [done|]. intros _. split_and!; cbn [fst snd s_OptCount w_Edns w_Status]; [lia|done|done|lia].
Qed.

Lemma walk_step_ok k w :
  walk_ok (S k) w → ∃ r, walk_step s_Wire p_Size w = Done r ∧ step_ok k r.
Proof.
  intros Hw. assert (Hwk : walk_ok k w).
  { destruct Hw as (?&?&?&?). split_and!; [done|lia|done|done]. }
  unfold walk_step. destruct (Nat.ltb_spec p_Size (s_Offset w + 11)); [eauto using malformed_ok|].
  destruct (load_lookup s_Wire (s_Offset w) ltac:(lia)) as (b & -> & _). rewrite bind_done.
  destruct (name_end_returns (s_Offset w) b) as [[e|] ->]; rewrite bind_done; [|eauto using malformed_ok].
  destruct (Nat.ltb_spec p_Size (e + 10)); [eauto using malformed_ok|].
  rewrite read_host_Done, bind_done by lia.
  destruct (_ =? DNS_TYPE_OPT)%Z; [|by apply walk_skip_ok]. cbv zeta.
  destruct Hw as (Hc & Hck & Hst & Hz).
  rewrite (u16_small (s_OptCount w + 1)) by lia. cbn [s_OptCount s_Offset].
  destruct (Z.ltb_spec 1 (s_OptCount w + 1)).
  { apply walk_skip_ok; [done|]. split_and!; cbn [walk_status s_OptCount w_Edns w_Status]; try lia.
    split; [apply Hst|done]. }
  destruct Hz as [He Hs]; [lia|].
  destruct (negb (u8 b =? 0)%Z || negb (e =? s_Offset w + 1)).
  - apply walk_skip_ok; [done|]. split_and!; cbn [walk_status s_OptCount w_Edns w_Status]; try lia.
    rewrite He. by split.
  - apply walk_opt_ok; cbn [s_OptCount w_Edns w_Status]; done || lia.
Qed.

Lemma walk_loop_ok k w :
  walk_ok k w → ∃ w', walk_loop k s_Wire p_Size w = Done w' ∧ status_ok (w_Edns w') (w_Status w').
Proof.
  revert w. induction k as [|k IH]; intros w Hw.
  - exists w. split; [done|]. apply Hw.
  - cbn [walk_loop]. destruct (walk_step_ok k w Hw) as ([r w'] & -> & Hst & Hk). rewrite bind_done.
    destruct r; [by exists w'|]. by apply IH, Hk.
Qed.
End walk.

(** ** Parsing a request *)

Section parsing.
  Context {H : Target}.
  Implicit Types (data : bytes) (p : DnsRequestPacket).

(** The header's counts as numbers of iterations. *)
Lemma Qdcount_range h : DnsHeader.wf h → uint16 (DnsHeader.Qdcount false h).
Proof. intros Hh. exact (view_range false h Hh FQdcount). Qed.

Lemma Arcount_range h : DnsHeader.wf h → uint16 (DnsHeader.Arcount false h).
Proof. intros Hh. exact (view_range false h Hh FArcount). Qed.

(** The parser's control flow, on a packet with a full header. *)
Lemma FromWire_header data p_Size p0 :
  HeaderSize ≤ p_Size → p_Size ≤ length data →
  FromWire (Some data) p_Size p0 =
    let h := of_memory (take HeaderSize data) in
    if negb (DnsHeader.Valid h) || DnsHeader.IsResponse h then Done (false, with_Header h p0) else
    '(s_Ok, s_Offset, qs) ← ParseSection (Z.to_nat (DnsHeader.Qdcount false h)) data p_Size HeaderSize [];
    let p := with_Questions qs (with_Header h p0) in
    if negb s_Ok then Done (false, p) else
    if negb (Z.of_nat (length qs) =? DnsHeader.Qdcount false h)%Z then Done (false, p) else
    if (negb (DnsHeader.Ancount false h =? 0) || negb (DnsHeader.Nscount false h =? 0))%Z
    then Done (false, p) else
    w ← walk_loop (Z.to_nat (DnsHeader.Arcount false h)) data p_Size
          {| s_OptCount := 0; s_Offset := s_Offset; w_Edns := None; w_Status := EdnsNone |};
    Done (true, with_Edns (w_Edns w) (w_Status w) p).
Proof.
  intros Hs Hd. unfold FromWire. unfold DnsHeader.size in *.
  destruct (Nat.ltb_spec p_Size HeaderSize); [lia|].
  rewrite DnsHeader.header_FromWire_Done by lia. rewrite bind_done. cbv zeta.
  by destruct (DnsHeader.Valid _), (DnsHeader.IsResponse _).
Qed.

Lemma request_FromWire_ok data p_Size p0 :
  p_Size ≤ length data → 
  ∃ r p, FromWire (Some data) p_Size p0 = Done (r, p) ∧ (r = true → request_ok p).
Proof.
  intros Hd. destruct (Nat.lt_ge_cases p_Size HeaderSize) as [Hs|Hs].
  { unfold FromWire, DnsHeader.size. destruct (Nat.ltb_spec p_Size HeaderSize); [|lia]. by eexists _, _. }
  rewrite FromWire_header by done. cbv zeta. set (h := of_memory (take HeaderSize data)).
  assert (Hh : DnsHeader.wf h) by (apply of_memory_wf; rewrite length_take; lia).
  destruct (negb (DnsHeader.Valid h) || DnsHeader.IsResponse h) eqn:Ev; [by eexists _, _|].
  apply orb_false_iff in Ev as [Ev Er]. apply negb_false_iff in Ev.
  destruct (questions_parse (Z.to_nat (DnsHeader.Qdcount false h)) data p_Size HeaderSize [] Hd)
    as (r & next & qs & -> & Hq). rewrite bind_done.
  destruct r; [|by eexists _, _]. cbn [negb].
  destruct (Hq eq_refl) as (l & -> & Hl & Hqs). cbn [app] in *.
  destruct (Z.eqb_spec (Z.of_nat (length l)) (DnsHeader.Qdcount false h)) as [Eq|];
    cbn [negb]; [|by eexists _, _].
  destruct (Z.eqb_spec (DnsHeader.Ancount false h) 0), (Z.eqb_spec (DnsHeader.Nscount false h) 0);
    cbn [negb orb]; try (by eexists _, _).
  pose proof (Arcount_range h Hh) as Ha. unfold uint16 in Ha.
  destruct (walk_loop_ok data p_Size Hd (Z.to_nat (DnsHeader.Arcount false h))
    {| s_OptCount := 0; s_Offset := next; w_Edns := None; w_Status := EdnsNone |})
    as (w & Ew & Hst).
  { split_and!; cbn [s_OptCount w_Edns w_Status]; [lia|lia|by split|done]. }
  rewrite Ew, bind_done. eexists _, _. split; [done|]. intros _.
  unfold request_ok. cbn [with_Edns with_Questions with_Header m_Header_ m_Questions_ m_Edns_ m_EdnsStatus_].
  split_and!; try done.
  - unfold DnsHeader.IsQuery. by unfold DnsHeader.IsResponse in Er; rewrite Er.
  - eapply section_at_Forall; [|exact Hqs]. apply question_at_ok.
  - intros E0. rewrite E0 in Ew. simpl in Ew. by injection Ew as <-.
Qed.

(** C18: the request parser returns for every byte sequence, reading only inside the packet;
    what it accepts is a query with the Z bit clear, as many questions as QDCOUNT, no
    answers and no authority records, questions made of labels of 1 to 63 bytes, and EDNS0
    data that agrees with its status: version 0 when Ok, a higher version when BadVersion,
    no data when None (the only status without additional records), a payload size of at
    least 512 and options within their widths whenever data is present. *)
Theorem request_FromWire_safe data p_Size p0 :
  p_Size ≤ length data → 
  ∃ r p, FromWire (Some data) p_Size p0 = Done (r, p) ∧ (r = true → request_ok p).
Proof. apply request_FromWire_ok. Qed.

(** A query for "a.com IN A" with an OPT record of version 1. *)
Definition example_query : bytes :=
  [x12; x34; x01; x00; x00; x01; x00; x00; x00; x00; x00; x01]
  ++ [x01; x61; x03; x63; x6f; x6d; x00; x00; x01; x00; x01]
  ++ [x00; x00; x29; x10; x00; x00; x01; x80; x00; x00; x00].

End parsing.

Section request_FromWire_safe_example.
  #[local] Existing Instance x86_64.

Lemma request_FromWire_safe_witness :
  34 ≤ length example_query ∧
  ∃ r p, FromWire (Some example_query) 34 clear = Done (r, p) ∧ (r = true → request_ok p).
Proof.
  split; [simpl; lia|]. apply (request_FromWire_safe example_query 34 clear). simpl. lia.
Defined.
End request_FromWire_safe_example.

(** The example is accepted, with its payload size and status. *)
Example request_FromWire_example (h : Target) :
  match FromWire (Some example_query) 34 clear with
  | Done (true, p) => Some (QnameAsString <$> m_Questions_ p, m_UdpPayloadSize_ <$> m_Edns_ p,
                            m_DoBit_ <$> m_Edns_ p, m_EdnsStatus_ p)
  | _ => None
  end = Some ([str "a.com"], Some 4096%Z, Some true, EdnsBadVersion).
Proof. destruct h as [[] []]; vm_compute; reflexivity. Qed.

(** ** Well-formed additional sections *)

Section additional.
Local Open Scope Z_scope.

(** A record of the additional section: an OPT record (RFC 6891 Section 6.1.2), or
    any other record. *)
Inductive extra : Type :=
  | ExtraOpt (payload ext version : Z) (dobit : bool) (z : Z) (options : list EdnsOption)
  | ExtraOther (labels : list bytes) (type class ttl : Z) (rdata : bytes).

Definition encode_option (x : EdnsOption) : bytes :=
  be_split 2 (m_Code_ x) ++ be_split 2 (Z.of_nat (length (m_Data_ x))) ++ m_Data_ x.

Definition opt_ttl (ext version : Z) (dobit : bool) (z : Z) : Z :=
  16777216 * ext + 65536 * version + 32768 * Z.b2z dobit + z.

Definition encode_fixed (type class ttl rdlen : Z) : bytes :=
  be_split 2 type ++ be_split 2 class ++ be_split 4 ttl ++ be_split 2 rdlen.

Definition extra_name (x : extra) : bytes :=
  match x with ExtraOpt _ _ _ _ _ _ => [x00] | ExtraOther labels _ _ _ _ => encode_name labels end.

Definition extra_data (x : extra) : bytes :=
  match x with
  | ExtraOpt _ _ _ _ _ options => concat (encode_option <$> options)
  | ExtraOther _ _ _ _ rdata => rdata
  end.

Definition extra_fixed (x : extra) : Z * Z * Z :=
  match x with
  | ExtraOpt payload ext version dobit z _ => (41, payload, opt_ttl ext version dobit z)
  | ExtraOther _ type class ttl _ => (type, class, ttl)
  end.

Definition encode_extra (x : extra) : bytes :=
  let '(t, c, ttl) := extra_fixed x in
  extra_name x ++ encode_fixed t c ttl (Z.of_nat (length (extra_data x))) ++ extra_data x.

Definition extra_ok (x : extra) : Prop :=
  Z.of_nat (length (extra_data x)) < 65536 ∧
  match x with
  | ExtraOpt payload ext version dobit z options =>
      uint16 payload ∧ 0 ≤ ext < 256 ∧ 0 ≤ version < 256 ∧ 0 ≤ z < 32768 ∧ Forall option_ok options
  | ExtraOther labels type class ttl _ =>
      Forall label_ok labels ∧ uint16 type ∧ type ≠ 41 ∧ uint16 class ∧ uint32 ttl
  end.

(** What RFC 6891 says an OPT record means: payload sizes below 512 are 512. *)
Definition opt_data (x : extra) : option EdnsData :=
  match x with
  | ExtraOpt payload ext version dobit z options =>
      Some {| m_UdpPayloadSize_ := Z.max 512 payload; m_ExtendedRcode_ := ext;
              m_Version_ := version; m_DoBit_ := dobit; m_Options_ := options |}
  | ExtraOther _ _ _ _ _ => None
  end.

(** The EDNS0 data and status of a section: those of its OPT records. *)
Definition opts_summary (ds : list EdnsData) : option EdnsData * EdnsParseStatus :=
  match ds with
  | [] => (None, EdnsNone)
  | [d] => (Some d, if 0 <? m_Version_ d then EdnsBadVersion else EdnsOk)
  | d :: _ => (Some d, EdnsDuplicateOpt)
  end.

Definition edns_summary (xs : list extra) : option EdnsData * EdnsParseStatus :=
  opts_summary (omap opt_data xs).
End additional.

Section additional_walk.
  Context {H : Target}.
  Implicit Types (pre post data : bytes).

Lemma length_encode_fixed t c ttl l : length (encode_fixed t c ttl l) = 10.
Proof. reflexivity. Qed.

Lemma read_host_at n data p_Size pre z post i :
  data = pre ++ be_split n z ++ post → i = length pre → i + n ≤ p_Size → p_Size ≤ length data →
  (0 ≤ z < width n)%Z → read_host n data i = Done z.
Proof.
  intros -> -> Hs Hd Hz. rewrite (read_host_Done _ p_Size Hd) by done.
  rewrite drop_app_length, take_app_length' by (by rewrite length_be_split).
  by rewrite be_join_split_small.
Qed.

(** The four reads of a record's fixed fields. *)
Lemma fixed_reads data p_Size pre t c ttl l rest :
  data = pre ++ encode_fixed t c ttl l ++ rest → length pre + 10 ≤ p_Size → p_Size ≤ length data →
  uint16 t → uint16 c → uint32 ttl → uint16 l →
  read_host 2 data (length pre) = Done t ∧ read_host 2 data (length pre + 2) = Done c ∧
  read_host 4 data (length pre + 4) = Done ttl ∧ read_host 2 data (length pre + 8) = Done l.
Proof.
  intros E Hs Hd Ht Hc Httl Hl. unfold encode_fixed in E. rewrite <- !app_assoc in E. split_and!.
  - eapply (read_host_at 2 data p_Size pre); [exact E|done|lia..|exact Ht].
  - eapply (read_host_at 2 data p_Size (pre ++ be_split 2 t)); [|len|lia..|exact Hc].
    rewrite E. by rewrite <- !app_assoc.
  - eapply (read_host_at 4 data p_Size (pre ++ be_split 2 t ++ be_split 2 c)); [|len|lia..|exact Httl].
    rewrite E. by rewrite <- !app_assoc.
  - eapply (read_host_at 2 data p_Size (pre ++ be_split 2 t ++ be_split 2 c ++ be_split 4 ttl));
      [|len|lia..|exact Hl].
    rewrite E. by rewrite <- !app_assoc.
Qed.

Lemma walk_labels_encode fuel data p_Size pre labels post :
  data = pre ++ encode_name labels ++ post → Forall label_ok labels →
  length pre + length (encode_name labels) ≤ p_Size → p_Size - length pre < fuel →
  walk_labels fuel data p_Size (length pre) = Done (length pre + length (encode_name labels)).
Proof.
  intros E Hok. revert fuel pre E. induction Hok as [|l labels Hl _ IH]; intros fuel pre E Hs Hf;
    (destruct fuel as [|fuel]; [lia|]); cbn [walk_labels encode_name] in *; simpl length in *;
    (destruct (Nat.ltb_spec (length pre) p_Size); [|lia]).
  - by rewrite (load_at data (length pre) pre x00 post).
  - set (x := ch (Z.of_nat (length l))) in *. unfold label_ok in Hl.
    assert (Hx : u8 x = Z.of_nat (length l)) by (apply u8_label_length; lia).
    assert (E' : data = (pre ++ x :: l) ++ encode_name labels ++ post).
    { rewrite E. repeat (rewrite <- app_assoc; simpl). done. }
    rewrite (load_at data (length pre) pre x (l ++ encode_name labels ++ post)), bind_done
      by (rewrite ?E; simpl; by rewrite <- ?app_assoc).
    rewrite land_C0, Hx. rewrite length_app in Hs.
    destruct (Z.eqb_spec (Z.of_nat (length l)) 0), (Z.leb_spec 192 (Z.of_nat (length l))); try lia.
    specialize (IH fuel _ E'). rewrite length_app in IH. simpl in IH.
    replace (length pre + (1 + Z.to_nat (Z.of_nat (length l)))) with (length pre + S (length l)) by lia.
    rewrite IH by lia. f_equal. rewrite length_app. lia.
Qed.

(** Both kinds of well-formed name end where their encoding ends. *)
Lemma name_end_encode data p_Size pre labels post b :
  data = pre ++ encode_name labels ++ post → Forall label_ok labels →
  length pre + length (encode_name labels) ≤ p_Size → data !! length pre = Some b →
  name_end data p_Size (length pre) b = Done (Some (length pre + length (encode_name labels))).
Proof.
  intros E Hok Hs Hb. unfold name_end.
  destruct labels as [|l labels]; cbn [encode_name] in *.
  - rewrite E in Hb. cbn [app] in Hb. rewrite list_lookup_middle in Hb by done.
    by injection Hb as <-.
  - assert (Hx : u8 b = Z.of_nat (length l)).
    { rewrite E in Hb. simpl in Hb. rewrite list_lookup_middle in Hb by done.
      injection Hb as <-. apply u8_label_length. apply Forall_cons in Hok as [[_ ?] _]. done. }
    apply Forall_cons in Hok as Hl. destruct Hl as [[Hl1 Hl2] _].
    rewrite land_C0, Hx.
    destruct (Z.eqb_spec (Z.of_nat (length l)) 0), (Z.leb_spec 192 (Z.of_nat (length l))); try lia.
    rewrite (walk_labels_encode _ data p_Size pre (l :: labels) post), bind_done by (done || lia).
    cbn [encode_name]. by destruct (Nat.ltb_spec p_Size (length pre + length (ch (Z.of_nat (length l)) :: l ++ encode_name labels))); [lia|].
Qed.

Lemma parse_options_encode fuel data p_Size pre opts post opts0 s_End :
  data = pre ++ concat (encode_option <$> opts) ++ post → Forall option_ok opts →
  s_End = length pre + length (concat (encode_option <$> opts)) → s_End ≤ p_Size →
  p_Size ≤ length data → s_End - length pre < fuel →
  parse_options fuel data s_End (length pre) opts0 = Done (Some (opts0 ++ opts)).
Proof.
  intros E Hok. revert fuel pre opts0 E. induction Hok as [|x opts [Hc Hl] _ IH];
    intros fuel pre opts0 E Hend Hs Hd Hf; (destruct fuel as [|fuel]; [lia|]);
    cbn [parse_options fmap list_fmap concat] in *.
  - simpl in Hend. destruct (Nat.leb_spec (length pre + 4) s_End); [lia|]. by rewrite app_nil_r.
  - rewrite length_app in Hend. unfold encode_option at 1 in Hend.
    rewrite !length_app, !length_be_split in Hend.
    destruct (Nat.leb_spec (length pre + 4) s_End); [|lia].
    set (n := Z.of_nat (length (m_Data_ x))) in *. set (rest := concat (encode_option <$> opts)) in *.
    assert (E' : data = pre ++ be_split 2 (m_Code_ x) ++ be_split 2 n ++ m_Data_ x ++ rest ++ post).
    { rewrite E. unfold encode_option. by rewrite <- !app_assoc. }
    rewrite (read_host_at 2 data p_Size pre (m_Code_ x) (be_split 2 n ++ m_Data_ x ++ rest ++ post)
      (length pre)) by (exact Hc || done || lia).
    rewrite (read_host_at 2 data p_Size (pre ++ be_split 2 (m_Code_ x)) n (m_Data_ x ++ rest ++ post)
      (length pre + 2));
      [|by rewrite E', <- app_assoc|len|lia|done|rewrite width_2; lia].
    rewrite !bind_done. cbv zeta. unfold n. rewrite Nat2Z.id.
    destruct (Nat.ltb_spec s_End (length pre + 4 + length (m_Data_ x))); [lia|].
    rewrite (load_n_at data (length pre + 4) (length (m_Data_ x))
      (pre ++ be_split 2 (m_Code_ x) ++ be_split 2 n) (m_Data_ x) (rest ++ post));
      [|by rewrite E', <- !app_assoc|len|done].
    rewrite bind_done.
    replace (length pre + (4 + length (m_Data_ x))) with (length (pre ++ encode_option x))
      by (rewrite length_app; unfold encode_option; len).
    rewrite IH; [rewrite <- app_assoc; by destruct x| |unfold encode_option; len|done|done
      |unfold encode_option; len].
    rewrite E. by rewrite <- !app_assoc.
Qed.
End additional_walk.

(** ** The walk computes the summary of the section *)

Section summary.
  Context {H : Target} (data : bytes) (p_Size : nat) (Hd : p_Size ≤ length data).

(** The state after the records [xs], with the offset at [o]. *)
Definition walk_at (xs : list extra) (o : nat) (w : OptWalk) : Prop :=
  s_OptCount w = Z.of_nat (length (omap opt_data xs)) ∧ s_Offset w = o ∧
  (w_Edns w, w_Status w) = edns_summary xs.

Lemma length_encode_extra x :
  length (encode_extra x) = length (extra_name x) + (10 + length (extra_data x)).
Proof. unfold encode_extra. destruct (extra_fixed x) as [[??]?]. by rewrite !length_app. Qed.

Lemma extra_name_encode x : ∃ labels, extra_name x = encode_name labels ∧ (extra_ok x → Forall label_ok labels).
Proof. destruct x; [exists []|eexists]; (split; [done|]); [done|by intros (_ & ? & _)]. Qed.

(** The common part of an iteration: up to the record's type. *)
Lemma walk_step_record pre x post w :
  data = pre ++ encode_extra x ++ post → extra_ok x → length pre + length (encode_extra x) ≤ p_Size →
  s_Offset w = length pre →
  ∃ b e, data !! length pre = Some b ∧ (u8 b = 0%Z → e = length pre + 1) ∧
    e = length pre + length (extra_name x) ∧
    name_end data p_Size (length pre) b = Done (Some e) ∧
    walk_step data p_Size w =
      (let w' := {| s_OptCount := u16 (s_OptCount w + 1); s_Offset := s_Offset w;
                    w_Edns := w_Edns w; w_Status := w_Status w |} in
       if (fst (fst (extra_fixed x)) =? DNS_TYPE_OPT)%Z then
         if (1 <? s_OptCount w')%Z then walk_skip data e (walk_status EdnsDuplicateOpt w')
         else if negb (u8 b =? 0)%Z || negb (e =? length pre + 1)
         then walk_skip data e (walk_status EdnsMalformed w')
         else walk_opt data p_Size e w'
       else walk_skip data e w).
Proof.
  intros E Hx Hs Ho. rewrite length_encode_extra in Hs.
  assert (H16 : uint16 (fst (fst (extra_fixed x)))).
  { destruct x; [unfold uint16; simpl; lia|]. by destruct Hx as (_ & _ & ? & _). }
  destruct (extra_name_encode x) as (labels & En & Hok). specialize (Hok Hx).
  assert (Hne : 1 ≤ length (extra_name x)) by (rewrite En; destruct labels; simpl; lia).
  destruct (load_lookup data (length pre) ltac:(lia)) as (b & Hb & Hlk).
  assert (Ee : data = pre ++ encode_name labels ++ drop (length (extra_name x)) (encode_extra x) ++ post).
  { rewrite <- En. unfold encode_extra in *. destruct (extra_fixed x) as [[??]?].
    rewrite drop_app_length. by rewrite E, <- !app_assoc. }
  pose proof (name_end_encode data p_Size pre labels _ b Ee Hok ltac:(rewrite <- En; lia) Hlk) as Hend.
  rewrite <- En in Hend. exists b, (length pre + length (extra_name x)). split_and!; try done.
  - intros Hu. apply u8_zero in Hu. subst b. rewrite En.
    destruct labels as [|l labels]; [done|]. rewrite Ee in Hlk. simpl in Hlk.
    rewrite list_lookup_middle in Hlk by done. injection Hlk as Hc.
    apply Forall_cons in Hok as [[Hl1 Hl2] _].
    pose proof (u8_label_length l Hl2) as Hu. rewrite Hc in Hu. change (u8 x00) with 0%Z in Hu. lia.
  - unfold walk_step. rewrite Ho. destruct (Nat.ltb_spec p_Size (length pre + 11)); [lia|].
    rewrite Hb, bind_done, Hend, bind_done.
    destruct (Nat.ltb_spec p_Size (length pre + length (extra_name x) + 10)); [lia|].
    rewrite (read_host_at 2 data p_Size (pre ++ extra_name x) (fst (fst (extra_fixed x)))
      (drop (length (extra_name x) + 2) (encode_extra x) ++ post)
      (length pre + length (extra_name x))).
    + rewrite bind_done. done.
    + unfold encode_extra, encode_fixed in *. destruct (extra_fixed x) as [[t c] ttl]. cbn [fst].
      rewrite <- !app_assoc, drop_app_2 by (by rewrite length_be_split).
      rewrite E, <- !app_assoc. done.
    + by rewrite length_app.
    + lia.
    + done.
    + exact H16.
Qed.

Lemma walk_skip_record pre x post e w :
  data = pre ++ encode_extra x ++ post → extra_ok x → length pre + length (encode_extra x) ≤ p_Size →
  e = length pre + length (extra_name x) →
  walk_skip data e w =
    Done (false, {| s_OptCount := s_OptCount w; s_Offset := length pre + length (encode_extra x);
                    w_Edns := w_Edns w; w_Status := w_Status w |}).
Proof.
  intros E [Hl _] Hs ->. rewrite length_encode_extra in *. unfold walk_skip.
  unfold encode_extra in E. destruct (extra_fixed x) as [[t c] ttl]. unfold encode_fixed in E.
  rewrite (read_host_at 2 data p_Size
    (pre ++ extra_name x ++ be_split 2 t ++ be_split 2 c ++ be_split 4 ttl)
    (Z.of_nat (length (extra_data x))) (extra_data x ++ post)).
  - rewrite bind_done. do 3 f_equal. lia.
  - rewrite E. by rewrite <- !app_assoc.
  - len.
  - lia.
  - done.
  - rewrite width_2. lia.
Qed.

(** The fields packed in the TTL of an OPT record. *)
Lemma opt_ttl_fields ext version dobit z :
  (0 ≤ ext < 256 → 0 ≤ version < 256 → 0 ≤ z < 32768 →
   let ttl := opt_ttl ext version dobit z in
   uint32 ttl ∧ Z.land (Z.shiftr ttl 24) 0xFF = ext ∧ Z.land (Z.shiftr ttl 16) 0xFF = version ∧
   tobool (Z.land (Z.shiftr ttl 15) 0x01) = dobit)%Z.
Proof.
  intros He Hv Hz. cbv zeta. unfold opt_ttl. rewrite !land_255.
  change (Z.land (Z.shiftr ?x 15) 1) with (Z.land (Z.shiftr x 15) (2 ^ 1 - 1)).
  rewrite land_ones_mod, !Z.shiftr_div_pow2 by lia.
  change (2 ^ 24)%Z with 16777216%Z. change (2 ^ 16)%Z with 65536%Z. change (2 ^ 15)%Z with 32768%Z.
  change (2 ^ 1)%Z with 2%Z. pose proof (b2z_range dobit). unfold uint32. split_and!.
  - lia.
  - lia.
  - Z.to_euclidean_division_equations; lia.
  - Z.to_euclidean_division_equations; lia.
  - match goal with |- tobool ?v = _ =>
      assert (Ev : v = Z.b2z dobit) by (Z.to_euclidean_division_equations; lia) end.
    rewrite Ev. by destruct dobit.
Qed.

(** The first OPT record of a section. *)
Lemma walk_opt_record pre payload ext version dobit z options post w :
  let x := ExtraOpt payload ext version dobit z options in
  data = pre ++ encode_extra x ++ post → extra_ok x → length pre + length (encode_extra x) ≤ p_Size →
  w_Status w = EdnsNone →
  ∃ d, opt_data x = Some d ∧
  walk_opt data p_Size (length pre + 1) w =
    Done (false, {| s_OptCount := s_OptCount w; s_Offset := length pre + length (encode_extra x);
                    w_Edns := Some d;
                    w_Status := if (0 <? m_Version_ d)%Z then EdnsBadVersion else EdnsOk |}).
Proof.
  intros x E (Hl & Hpay & He & Hv & Hz & Hopt) Hs Hst. subst x.
  rewrite length_encode_extra in *. cbn [extra_name extra_data length] in *.
  set (od := concat (encode_option <$> options)) in *.
  destruct (opt_ttl_fields ext version dobit z He Hv Hz) as (Httl & H1 & H2 & H3). cbv zeta in *.
  assert (E1 : data = (pre ++ [x00])
                ++ encode_fixed 41 payload (opt_ttl ext version dobit z) (Z.of_nat (length od))
                ++ od ++ post).
  { rewrite E. unfold encode_extra. cbn [extra_fixed extra_name extra_data]. fold od.
    by rewrite <- !app_assoc. }
  assert (Hpre : length (pre ++ [x00]) = length pre + 1) by (rewrite length_app; done).
  destruct (fixed_reads data p_Size (pre ++ [x00]) 41 payload (opt_ttl ext version dobit z)
    (Z.of_nat (length od)) (od ++ post) E1) as (_ & Rc & Rt & Rl);
    [rewrite Hpre; lia|done|unfold uint16; lia|done|done|unfold uint16; lia|].
  rewrite Hpre in *. unfold walk_opt. rewrite Rc, Rt, Rl, !bind_done. cbv zeta. rewrite Nat2Z.id.
  destruct (Nat.ltb_spec p_Size (length pre + 1 + 10 + length od)); [lia|].
  assert (E2 : data = ((pre ++ [x00]) ++ encode_fixed 41 payload (opt_ttl ext version dobit z)
                         (Z.of_nat (length od))) ++ od ++ post).
  { by rewrite E1, <- !app_assoc. }
  pose proof (parse_options_encode (S (length od)) data p_Size _ options post []
    (length pre + 1 + 10 + length od) E2 Hopt) as Hp.
  rewrite length_app, Hpre, length_encode_fixed in Hp. fold od in Hp.
  rewrite Hp by (done || lia). rewrite bind_done, H1, H2, H3. cbn [app].
  eexists. split; [done|]. do 3 f_equal; [lia| |].
  - do 2 f_equal. unfold DEFAULT_DNS_PACKET_SIZE. destruct (Z.ltb_spec payload 512); lia.
  - by rewrite decide_True.
Qed.

Lemma omap_snoc (xs : list extra) x :
  omap opt_data (xs ++ [x]) = omap opt_data xs ++ match opt_data x with Some d => [d] | None => [] end.
Proof. rewrite omap_app. simpl. by destruct (opt_data x). Qed.

(** One iteration extends the summary by one record. *)
Lemma walk_step_summary pre x post xs w :
  data = pre ++ encode_extra x ++ post → extra_ok x → length pre + length (encode_extra x) ≤ p_Size →
  walk_at xs (length pre) w → (Z.of_nat (length (omap opt_data xs)) < 65535)%Z →
  ∃ w', walk_step data p_Size w = Done (false, w') ∧
        walk_at (xs ++ [x]) (length pre + length (encode_extra x)) w'.
Proof.
  intros E Hx Hs (Hc & Ho & Hsum) Hn.
  destruct (walk_step_record pre x post w E Hx Hs Ho) as (b & e & Hb & Hroot & He & Hend & ->).
  cbv zeta. cbn [s_OptCount s_Offset w_Edns w_Status]. rewrite Hc, u16_small by lia.
  unfold walk_at, edns_summary in *. rewrite omap_snoc.
  destruct x as [payload ext version dobit z options|labels type class ttl rdata].
  - cbn [extra_fixed fst opt_data]. simpl (41 =? DNS_TYPE_OPT)%Z. cbv iota.
    destruct (omap opt_data xs) as [|d ds] eqn:Eds.
    + change (Z.of_nat (length (@nil EdnsData)) + 1)%Z with 1%Z. cbn [Z.ltb Z.compare Pos.compare Pos.compare_cont].
      assert (Eb : u8 b = 0%Z).
      { rewrite E in Hb. unfold encode_extra in Hb. simpl in Hb.
        rewrite list_lookup_middle in Hb by done. by injection Hb as <-. }
      rewrite Eb. rewrite He. cbn [extra_name length]. rewrite Nat.eqb_refl. simpl negb. simpl orb. cbv iota.
      simpl in Hsum. injection Hsum as Hsum1 Hsum2.
      destruct (walk_opt_record pre payload ext version dobit z options post
        {| s_OptCount := 1; s_Offset := s_Offset w; w_Edns := w_Edns w; w_Status := w_Status w |})
        as (d & Hd' & ->); [done..|].
      eexists. split; [done|]. cbn [s_OptCount s_Offset w_Edns w_Status app].
      cbn [opt_data] in Hd'. injection Hd' as <-. done.
    + simpl length in *. destruct (Z.ltb_spec 1 (Z.of_nat (S (length ds)) + 1)); [|lia].
      rewrite (walk_skip_record pre _ post) by done. eexists. split; [done|].
      cbn [walk_status s_OptCount s_Offset w_Edns w_Status].
      split_and!; [rewrite length_app; simpl; lia|done|].
      simpl in Hsum. destruct ds; injection Hsum as -> _; done.
  - cbn [extra_fixed fst opt_data]. destruct Hx as (Hl & Hok & Ht & Hne & Hcl & Httl).
    destruct (Z.eqb_spec type DNS_TYPE_OPT); [done|].
    rewrite (walk_skip_record pre (ExtraOther labels type class ttl rdata) post) by done.
    eexists. split; [done|]. rewrite app_nil_r. cbn [s_OptCount s_Offset w_Edns w_Status]. done.
Qed.

Lemma walk_loop_summary xs : ∀ done_xs pre post w,
  data = pre ++ concat (encode_extra <$> xs) ++ post → Forall extra_ok xs →
  length pre + length (concat (encode_extra <$> xs)) ≤ p_Size → walk_at done_xs (length pre) w →
  (Z.of_nat (length done_xs + length xs) ≤ 65535)%Z →
  ∃ w', walk_loop (length xs) data p_Size w = Done w' ∧
        (w_Edns w', w_Status w') = edns_summary (done_xs ++ xs).
Proof.
  induction xs as [|x xs IH]; intros dxs pre post w E Hok Hs Hw Hn.
  - exists w. rewrite app_nil_r. split; [done|]. apply Hw.
  - apply Forall_cons in Hok as [Hx Hok]. rewrite fmap_cons in E, Hs. cbn [length concat] in *.
    rewrite <- app_assoc in E. rewrite length_app in Hs. cbn [walk_loop].
    assert (Hom : length (omap opt_data dxs) ≤ length dxs).
    { clear. unfold omap. induction dxs as [|y ys IHy]; simpl; [done|]. destruct (opt_data y); simpl; lia. }
    destruct (walk_step_summary pre x _ dxs w E Hx) as (w' & -> & Hw'); [lia|done|lia|].
    rewrite bind_done. rewrite <- length_app in Hw'.
    destruct (IH (dxs ++ [x]) (pre ++ encode_extra x) post w') as (w'' & -> & Hw'');
      [by rewrite <- app_assoc|done|rewrite length_app; lia|done
      |rewrite length_app; simpl; lia|].
    exists w''. split; [done|]. by rewrite Hw'', <- app_assoc.
Qed.
End summary.

(** ** Serialization and round trip *)

Section packets.
  Context {H : Target}.
  Implicit Types (p : DnsRequestPacket) (qs : list DnsQuestion).

(** The bytes [ToWire] writes: the header and the questions, no additional record. *)
Definition wire p : bytes := DnsHeader.memory (m_Header_ p) ++ section_wire (m_Questions_ p).

Lemma request_length_wire p : length (wire p) = WireSize p.
Proof.
  unfold wire, WireSize, DnsHeader.size. rewrite <- length_section_wire, length_app, length_memory. lia.
Qed.

Lemma request_ToWire_Done p data p_BufferSize :
  Forall DnsQuestion.wf (m_Questions_ p) → WireSize p ≤ p_BufferSize → p_BufferSize ≤ length data →
  ToWire p (Some data) p_BufferSize = Done (WireSize p, Some (splice data 0 (wire p))).
Proof.
  intros Hw Hs Hd. rewrite <- request_length_wire in *. unfold ToWire. rewrite <- request_length_wire.
  destruct (Nat.ltb_spec p_BufferSize (length (wire p))); [lia|].
  unfold wire in *. rewrite length_app, length_memory in *. unfold DnsHeader.size, HeaderSize in *.
  rewrite DnsHeader.header_ToWire_Done by (unfold HeaderSize; lia). rewrite bind_done.
  unfold HeaderSize. rewrite Nat.eqb_refl. cbn [negb].
  pose proof (WriteSection_Done (m_Questions_ p) data p_BufferSize (DnsHeader.memory (m_Header_ p)) Hw Hd)
    as E. rewrite length_memory in E. unfold HeaderSize in E. rewrite E by done. done.
Qed.

(** A query: what a client may send, with the additional records [xs]. *)
Definition query_ok (h : DnsHeader) qs (xs : list extra) : Prop :=
  DnsHeader.wf h ∧ DnsHeader.Valid h = true ∧ DnsHeader.IsQuery h = true ∧
  DnsHeader.Qdcount false h = Z.of_nat (length qs) ∧ DnsHeader.Ancount false h = 0%Z ∧
  DnsHeader.Nscount false h = 0%Z ∧ DnsHeader.Arcount false h = Z.of_nat (length xs) ∧
  Forall question_ok qs ∧ Forall extra_ok xs.

Lemma request_parse_query_aux h qs xs post p0 :
  query_ok h qs xs →
  let data := DnsHeader.memory h ++ section_wire qs ++ concat (encode_extra <$> xs) ++ post in
  FromWire (Some data) (length data) p0 =
    Done (true, {| m_Header_ := h; m_Questions_ := qs; m_Edns_ := fst (edns_summary xs);
                   m_EdnsStatus_ := snd (edns_summary xs) |}).
Proof.
  intros (Hw & Hv & Hq & Hqd & Han & Hns & Har & Hqs & Hxs) data.
  assert (Hlen : length data = HeaderSize + length (section_wire qs)
                               + length (concat (encode_extra <$> xs)) + length post).
  { unfold data. rewrite !length_app, length_memory. lia. }
  rewrite FromWire_header by (done || lia).
  assert (Eh : of_memory (take HeaderSize data) = h).
  { unfold data. rewrite <- (length_memory h), take_app_length. by apply of_memory_memory. }
  rewrite Eh. cbv zeta. rewrite Hv. unfold DnsHeader.IsQuery in Hq. apply negb_true_iff in Hq.
  unfold DnsHeader.IsResponse. rewrite Hq. cbn [negb orb]. rewrite Hqd, Nat2Z.id.
  pose proof (section_at_wire qs data (length data) (DnsHeader.memory h)
    (concat (encode_extra <$> xs) ++ post) Hqs eq_refl) as Hat.
  rewrite length_memory in Hat. specialize (Hat ltac:(lia)).
  rewrite (ParseSection_complete _ _ _ _ _ _ (le_n _) Hat), bind_done. cbn [negb app].
  rewrite Z.eqb_refl, Han, Hns, Har, Nat2Z.id. cbn [negb orb Z.eqb].
  pose proof (Arcount_range h Hw) as Ha. rewrite Har in Ha. unfold uint16 in Ha.
  destruct (walk_loop_summary data (length data) (le_n _) xs []
    (DnsHeader.memory h ++ section_wire qs) post
    {| s_OptCount := 0; s_Offset := HeaderSize + length (section_wire qs);
       w_Edns := None; w_Status := EdnsNone |}) as (w & -> & Ew).
  - unfold data. by rewrite <- !app_assoc.
  - done.
  - rewrite length_app, length_memory. lia.
  - rewrite length_app, length_memory. done.
  - simpl. lia.
  - rewrite bind_done. cbn [app] in Ew. rewrite <- Ew. done.
Qed.

(** C19: a well-formed query followed by its additional records and anything else is parsed
    to its header, its questions, and the EDNS0 data and status that RFC 6891 gives the
    additional section: the first OPT record's fields (payload sizes below 512 read as 512)
    with Ok, BadVersion or, for a second OPT record, DuplicateOpt, and None without OPT
    records; records of other types are stepped over. *)
Theorem request_parse_query h qs xs post p0 :
  query_ok h qs xs →
  let data := DnsHeader.memory h ++ section_wire qs ++ concat (encode_extra <$> xs) ++ post in
  FromWire (Some data) (length data) p0 =
    Done (true, {| m_Header_ := h; m_Questions_ := qs; m_Edns_ := fst (edns_summary xs);
                   m_EdnsStatus_ := snd (edns_summary xs) |}).
Proof. apply request_parse_query_aux. Qed.
End packets.

Section request_facts.
  Context {H : Target}.
  Implicit Types (p : DnsRequestPacket) (qs : list DnsQuestion).

(** The constructor returns when the questions can be counted. *)
Lemma make_Done h qs : (Z.of_nat (length qs) ≤ UINT16_MAX)%Z → make h qs = Done (made_request h qs).
Proof. intros Hl. unfold make, UpdateHeaderCounts. by rewrite assert_passes by (by right; apply Z.leb_le). Qed.

(** The query that [MakeAQuery] makes. *)
Definition a_query (p_Id : Z) (p_DomainName : bytes) (p_RecursionDesired : bool) : DnsRequestPacket :=
  made_request (DnsHeader.MakeQueryHeader p_Id 0 p_RecursionDesired 1) [DnsQuestion.MakeAQuery p_DomainName].

Lemma MakeAQuery_Done p_Id n rd : MakeAQuery p_Id n rd = Done (a_query p_Id n rd).
Proof. by apply make_Done. Qed.

(** Packets built from a header and questions have consistent counts. *)
Lemma make_query_ok h qs :
  DnsHeader.wf h → DnsHeader.Valid h = true → DnsHeader.IsQuery h = true →
  (Z.of_nat (length qs) ≤ 65535)%Z → Forall question_ok qs →
  query_ok (m_Header_ (made_request h qs)) qs [] ∧ m_Questions_ (made_request h qs) = qs ∧
  m_Edns_ (made_request h qs) = None ∧ m_EdnsStatus_ (made_request h qs) = EdnsNone.
Proof.
  intros Hw Hv Hq Hl Hqs. unfold made_request, counted_request.
  cbn [with_Questions with_Header clear m_Questions_ m_Header_ m_Edns_ m_EdnsStatus_].
  set (n := u16 (Z.of_nat (length qs))).
  assert (Hn : uint16 n) by apply u16_range. assert (H0 : uint16 0) by (unfold uint16; lia).
  pose proof (UpdateCounts_fields n 0 0 0 h) as Hf.
  assert (E : ∀ b, in_flags b = true → view false (UpdateCounts n 0 0 0 h) b = view false h b).
  { intros b Hb. rewrite Hf by done. by destruct b. }
  split; [|done]. split_and!.
  - by apply UpdateCounts_wf.
  - rewrite Valid_view, E by done. by rewrite <- Valid_view.
  - unfold DnsHeader.IsQuery in *. specialize (E FQr eq_refl). simpl in E.
    by destruct (Qr false (UpdateCounts n 0 0 0 h)), (Qr false h).
  - change (Qdcount false ?g) with (view false g FQdcount). rewrite Hf by done.
    unfold n. apply u16_small. lia.
  - change (Ancount false ?g) with (view false g FAncount). by rewrite Hf.
  - change (Nscount false ?g) with (view false g FNscount). by rewrite Hf.
  - change (Arcount false ?g) with (view false g FArcount). by rewrite Hf.
  - done.
  - done.
Qed.

(** C20: a request with no additional records is written as its header and questions,
    [WireSize] bytes at the start of the buffer with the rest of it unchanged, and parsing
    those bytes, whatever follows them, gives the same request; a buffer that is too small
    is left untouched. *)
Theorem request_roundtrip p data p_BufferSize post p0 :
  query_ok (m_Header_ p) (m_Questions_ p) [] → m_Edns_ p = None → m_EdnsStatus_ p = EdnsNone →
  p_BufferSize ≤ length data →
  (p_BufferSize < WireSize p → ToWire p (Some data) p_BufferSize = Done (O, Some data)) ∧
  (WireSize p ≤ p_BufferSize →
     ToWire p (Some data) p_BufferSize = Done (WireSize p, Some (wire p ++ drop (WireSize p) data))) ∧
  FromWire (Some (wire p ++ post)) (length (wire p ++ post)) p0 = Done (true, p).
Proof.
  intros Hq He Hs Hd. split_and!.
  - intros Hlt. unfold ToWire. by destruct (Nat.ltb_spec p_BufferSize (WireSize p)); [|lia].
  - intros Hle. rewrite request_ToWire_Done; [|by destruct Hq as (_&_&_&_&_&_&_&Hqs&_);
      eapply Forall_impl; [done|]; intros ? [? _]|done|done].
    unfold splice. rewrite request_length_wire. done.
  - unfold wire. rewrite <- app_assoc.
    pose proof (request_parse_query_aux (m_Header_ p) (m_Questions_ p) [] post p0 Hq) as E.
    cbn [fmap list_fmap concat app] in E. rewrite E. destruct p; simpl in *. by subst.
Qed.

Lemma example_question_ok :
  DnsQuestion.wf (DnsQuestion.MakeAQuery (str "a.com")) ∧
  Forall label_ok (m_Qname_ (DnsQuestion.MakeAQuery (str "a.com"))).
Proof.
  split; [split; apply (HostToNetwork_bound 2); unfold width; simpl; lia|].
  repeat constructor; simpl; lia.
Qed.

Lemma IsQuery_view h : view false h FQr = 0%Z → DnsHeader.IsQuery h = true.
Proof. unfold DnsHeader.IsQuery. simpl. by destruct (Qr false h). Qed.

Lemma example_header_ok :
  let h := DnsHeader.MakeQueryHeader 4660 0 true 1 in
  DnsHeader.wf h ∧ DnsHeader.Valid h = true ∧ DnsHeader.IsQuery h = true.
Proof.
  intros h.
  assert (Hf : ∀ a, view false h a = match a with FId => 4660 | FOpcode => 0 | FRd => 1 | FQdcount => 1 | _ => 0 end%Z).
  { intros a. unfold h. rewrite MakeQueryHeader_fields by (unfold uint16; lia). by destruct a. }
  assert (Hw : DnsHeader.wf h).
  { unfold h, MakeQueryHeader. autorewrite with dns.
    repeat (apply update_wf; [first [apply b2z_range | apply Z.mod_pos_bound; lia | by split]|]).
    apply clear_wf. }
  split_and!; [done| |].
  - by rewrite Valid_view, Hf.
  - exact (IsQuery_view h (Hf FQr)).
Qed.

(** The query "a.com IN A" is a request the parser would accept. *)
Lemma example_request_ok : request_ok (a_query 4660 (str "a.com") true).
Proof.
  destruct example_header_ok as (Hw & Hv & Hq).
  destruct (make_query_ok _ [DnsQuestion.MakeAQuery (str "a.com")] Hw Hv Hq) as (Hok & Eq & Ee & Es);
    [simpl; lia|constructor; [apply example_question_ok|constructor]|].
  fold (a_query 4660 (str "a.com") true) in *.
  destruct Hok as (? & ? & ? & ? & ? & ? & _ & ? & _).
  unfold request_ok. rewrite Ee, Es, Eq in *. by split_and!.
Qed.

(** The query "a.com IN A" with a version 0 OPT record of payload 1232. *)
Definition example_opt : extra := ExtraOpt 1232 0 0 true 0 [].
Definition example_edns_header : DnsHeader :=
  DnsHeader.SetArcount 1 false (DnsHeader.MakeQueryHeader 4660 0 true 1).
End request_facts.

Section request_roundtrip_example.
  #[local] Existing Instance x86_64.

Lemma request_roundtrip_witness :
  let p := a_query 4660 (str "a.com") true in
  FromWire (Some (wire p ++ [])) (length (wire p ++ [])) clear = Done (true, p).
Proof.
  intros p. destruct example_header_ok as (Hw & Hv & Hq).
  destruct (make_query_ok _ [DnsQuestion.MakeAQuery (str "a.com")] Hw Hv Hq) as (Hok & Eq & Ee & Es);
    [simpl; lia|constructor; [apply example_question_ok|constructor]|].
  exact (proj2 (proj2 (request_roundtrip p (repeat x00 512) 512 [] clear Hok Ee Es (le_n 512)))).
Defined.
End request_roundtrip_example.

Section request_parse_query_example.
  #[local] Existing Instance x86_64.

Lemma request_parse_query_witness :
  let h := example_edns_header in
  let qs := [DnsQuestion.MakeAQuery (str "a.com")] in
  let data := DnsHeader.memory h ++ section_wire qs ++ concat (encode_extra <$> [example_opt]) ++ [] in
  FromWire (Some data) (length data) clear =
    Done (true, {| m_Header_ := h; m_Questions_ := qs; m_Edns_ := fst (edns_summary [example_opt]);
                   m_EdnsStatus_ := snd (edns_summary [example_opt]) |}).
Proof.
  intros h qs. destruct example_header_ok as (Hw & Hv & Hq).
  assert (Hf : ∀ a, view false h a = match a with FId => 4660 | FOpcode => 0 | FRd => 1
                                     | FQdcount => 1 | FArcount => 1 | _ => 0 end%Z).
  { intros a. unfold h, example_edns_header. rewrite SetArcount_update, view_update by (simpl; lia).
    rewrite MakeQueryHeader_fields by (unfold uint16; lia). by destruct a. }
  assert (Hwh : DnsHeader.wf h) by (apply (update_wf FArcount 1); [by split|done]).
  assert (Hok : query_ok h qs [example_opt]).
  { split_and!; [done| | | exact (Hf FQdcount) | exact (Hf FAncount) | exact (Hf FNscount)
      | exact (Hf FArcount) | constructor; [apply example_question_ok|constructor] | ].
    - by rewrite Valid_view, Hf.
    - exact (IsQuery_view h (Hf FQr)).
    - constructor; [|constructor]. unfold extra_ok, example_opt, uint16; simpl. split_and!; lia || done. }
  exact (request_parse_query h qs [example_opt] [] clear Hok).
Defined.
End request_parse_query_example.

(** Serializing a parsed request drops its OPT record but keeps ARCOUNT, so a request with
    valid EDNS0 data is not read back: the rest of the section is missing. *)
Example edns_request_reserialized (h : Target) :
  match FromWire (Some example_query) 34 clear with
  | Done (true, p) =>
      match ToWire p (Some (repeat x00 23)) 23 with
      | Done (n, Some out) =>
          match FromWire (Some out) n clear with
          | Done (r, p') => Some (n, r, m_EdnsStatus_ p, m_EdnsStatus_ p')
          | _ => None
          end
      | _ => None
      end
  | _ => None
  end = Some (23, true, EdnsBadVersion, EdnsMalformed).
Proof. destruct h as [[] []]; vm_compute; reflexivity. Qed.
