(* ===== verification/DnsResponsePacket.v ===== *)
(** * Response packets (src/include/dns_packet.h, src/src/dns_packet.cc:
      DnsResponsePacket)

    A response is a header and four sections.  The parser is proved to accept
    exactly the packets whose four sections stand one after the other with the
    header's counts, the serializer to write them so, the edits to keep the
    counts in step with the sections, and the responses made from a request to
    carry what RFC 1035 asks them to copy.  A packet that holds a record whose expanded
    data is too long for its length field aborts a build with assertions
    ([response_aborts]), as does an edit that makes a section too long for its count. *)

From Stdlib Require Import ZArith Lia ZifyBool.
From Stdlib Require Import Strings.Byte Strings.String.
From stdpp Require Import base numbers list option sets.
From S2P Require Import Prelude.
From S2P Require Import Memory.
From S2P Require Import Utils.
From S2P Require Import Text.
From S2P Require Import Name.
From S2P Require Import DnsHeader.
From S2P Require Import DnsQuestion.
From S2P Require Import DnsAnswer.
From S2P Require Import WireFormat.
From S2P Require Import DnsRequestPacket.

(** ** Data *)

Record DnsResponsePacket : Type := {
  m_Header_ : DnsHeader;
  m_Questions_ : list DnsQuestion;
  m_Answers_ : list DnsAnswer;
  m_Authority_ : list DnsAnswer;
  m_Additional_ : list DnsAnswer
}.

#[export] Instance DnsResponsePacket_eq_dec : EqDecision DnsResponsePacket.
Proof. solve_decision. Defined.

(** ** Operations *)

Section operations.
  Context {H : Target}.
  Implicit Types (p : DnsResponsePacket).

(** [clear], and the default constructor. *)
Definition clear : DnsResponsePacket :=
  {| m_Header_ := DnsHeader.clear; m_Questions_ := []; m_Answers_ := []; m_Authority_ := [];
     m_Additional_ := [] |}.

Definition Header p : DnsHeader := m_Header_ p.
Definition Questions p : list DnsQuestion := m_Questions_ p.
Definition Answers p : list DnsAnswer := m_Answers_ p.
Definition Authority p : list DnsAnswer := m_Authority_ p.
Definition Additional p : list DnsAnswer := m_Additional_ p.

Definition with_Header (h : DnsHeader) p : DnsResponsePacket :=
  {| m_Header_ := h; m_Questions_ := m_Questions_ p; m_Answers_ := m_Answers_ p;
     m_Authority_ := m_Authority_ p; m_Additional_ := m_Additional_ p |}.
Definition with_Questions (qs : list DnsQuestion) p : DnsResponsePacket :=
  {| m_Header_ := m_Header_ p; m_Questions_ := qs; m_Answers_ := m_Answers_ p;
     m_Authority_ := m_Authority_ p; m_Additional_ := m_Additional_ p |}.
Definition with_Answers (xs : list DnsAnswer) p : DnsResponsePacket :=
  {| m_Header_ := m_Header_ p; m_Questions_ := m_Questions_ p; m_Answers_ := xs;
     m_Authority_ := m_Authority_ p; m_Additional_ := m_Additional_ p |}.
Definition with_Authority (xs : list DnsAnswer) p : DnsResponsePacket :=
  {| m_Header_ := m_Header_ p; m_Questions_ := m_Questions_ p; m_Answers_ := m_Answers_ p;
     m_Authority_ := xs; m_Additional_ := m_Additional_ p |}.
Definition with_Additional (xs : list DnsAnswer) p : DnsResponsePacket :=
  {| m_Header_ := m_Header_ p; m_Questions_ := m_Questions_ p; m_Answers_ := m_Answers_ p;
     m_Authority_ := m_Authority_ p; m_Additional_ := xs |}.

(** The packet with the header's counts those of its sections, in 16 bits. *)
Definition counted_response p : DnsResponsePacket :=
  with_Header (DnsHeader.UpdateCounts (u16 (Z.of_nat (length (m_Questions_ p))))
    (u16 (Z.of_nat (length (m_Answers_ p)))) (u16 (Z.of_nat (length (m_Authority_ p))))
    (u16 (Z.of_nat (length (m_Additional_ p)))) (m_Header_ p)) p.

(** The four assertions, one after the other. *)
Definition UpdateHeaderCounts p : outcome DnsResponsePacket :=
  assert_ (Z.of_nat (length (m_Questions_ p)) <=? UINT16_MAX)%Z;;
  assert_ (Z.of_nat (length (m_Answers_ p)) <=? UINT16_MAX)%Z;;
  assert_ (Z.of_nat (length (m_Authority_ p)) <=? UINT16_MAX)%Z;;
  assert_ (Z.of_nat (length (m_Additional_ p)) <=? UINT16_MAX)%Z;;
  Done (counted_response p).

Definition SetHeader (p_Header : DnsHeader) p := with_Header p_Header p.
Definition AddQuestion (p_Question : DnsQuestion) p : outcome DnsResponsePacket :=
  UpdateHeaderCounts (with_Questions (m_Questions_ p ++ [p_Question]) p).
Definition AddAnswer (p_Answer : DnsAnswer) p : outcome DnsResponsePacket :=
  UpdateHeaderCounts (with_Answers (m_Answers_ p ++ [p_Answer]) p).
Definition AddAuthority (p_Authority : DnsAnswer) p : outcome DnsResponsePacket :=
  UpdateHeaderCounts (with_Authority (m_Authority_ p ++ [p_Authority]) p).
Definition AddAdditional (p_Additional : DnsAnswer) p : outcome DnsResponsePacket :=
  UpdateHeaderCounts (with_Additional (m_Additional_ p ++ [p_Additional]) p).
Definition ClearQuestions p : outcome DnsResponsePacket := UpdateHeaderCounts (with_Questions [] p).
Definition ClearAnswers p : outcome DnsResponsePacket := UpdateHeaderCounts (with_Answers [] p).
Definition ClearAuthority p : outcome DnsResponsePacket := UpdateHeaderCounts (with_Authority [] p).
Definition ClearAdditional p : outcome DnsResponsePacket := UpdateHeaderCounts (with_Additional [] p).

(** The constructor from a header and sections. *)
Definition make (p_Header : DnsHeader) (p_Questions : list DnsQuestion)
    (p_Answers p_Authority p_Additional : list DnsAnswer) : outcome DnsResponsePacket :=
  UpdateHeaderCounts {| m_Header_ := p_Header; m_Questions_ := p_Questions; m_Answers_ := p_Answers;
                        m_Authority_ := p_Authority; m_Additional_ := p_Additional |}.

Definition MakeResponse (p_Request : DnsRequestPacket) (p_Rcode : Z)
    (p_Authoritative p_RecursionAvailable : bool) : outcome DnsResponsePacket :=
  let s_Header := DnsHeader.MakeResponseHeader (DnsRequestPacket.Header p_Request) p_Rcode
                    p_Authoritative p_RecursionAvailable in
  make s_Header (DnsRequestPacket.Questions p_Request) [] [] [].

Definition MakeErrorResponse (p_Request : DnsRequestPacket) (p_ErrorCode : Z) : outcome DnsResponsePacket :=
  let s_Header := DnsRequestPacket.Header p_Request in
  let s_Header := DnsHeader.MakeErrorResponse (DnsRequestPacket.Header p_Request) p_ErrorCode s_Header in
  make s_Header (DnsRequestPacket.Questions p_Request) [] [] [].

Definition swap p (p_Other : DnsResponsePacket) : DnsResponsePacket * DnsResponsePacket := (p_Other, p).

Definition empty p : bool :=
  bool_decide (m_Questions_ p = []) && bool_decide (m_Answers_ p = [])
  && bool_decide (m_Authority_ p = []) && bool_decide (m_Additional_ p = []).

Definition size p : nat :=
  length (m_Questions_ p) + length (m_Answers_ p) + length (m_Authority_ p) + length (m_Additional_ p).

Definition Valid p : bool :=
  if negb (DnsHeader.Valid (m_Header_ p)) then false
  else if negb (DnsHeader.IsResponse (m_Header_ p)) then false
  else if (negb (DnsHeader.Qdcount false (m_Header_ p) =? Z.of_nat (length (m_Questions_ p)))
           || negb (DnsHeader.Ancount false (m_Header_ p) =? Z.of_nat (length (m_Answers_ p)))
           || negb (DnsHeader.Nscount false (m_Header_ p) =? Z.of_nat (length (m_Authority_ p)))
           || negb (DnsHeader.Arcount false (m_Header_ p) =? Z.of_nat (length (m_Additional_ p))))%Z
  then false
  else forallb DnsQuestion.Valid (m_Questions_ p) && forallb DnsAnswer.Valid (m_Answers_ p)
       && forallb DnsAnswer.Valid (m_Authority_ p) && forallb DnsAnswer.Valid (m_Additional_ p).

(** [std::hash] is the standard library's. *)
Definition Hash (hash64 hash32 hash16 : Z → Z) (hash_string : bytes → Z) (hash_char : byte → Z) p : Z :=
  let hash_answer := DnsAnswer.Hash hash_string hash16 hash32 hash_char in
  let s_Hash := DnsHeader.Hash hash64 hash32 (m_Header_ p) in
  let s_Hash := hash_section (DnsQuestion.Hash hash_string hash16) s_Hash (m_Questions_ p) in
  let s_Hash := hash_section hash_answer s_Hash (m_Answers_ p) in
  let s_Hash := hash_section hash_answer s_Hash (m_Authority_ p) in
  hash_section hash_answer s_Hash (m_Additional_ p).

Definition WireSize p : nat :=
  let s_Size := DnsHeader.size in
  let s_Size := s_Size + SectionSize (m_Questions_ p) in
  let s_Size := s_Size + SectionSize (m_Answers_ p) in
  let s_Size := s_Size + SectionSize (m_Authority_ p) in
  s_Size + SectionSize (m_Additional_ p).

(** The result and the output parameter, whatever part of it was overwritten. *)
Definition FromWire (p_Data : option bytes) (p_Size : nat) (p_OutPacket : DnsResponsePacket)
    : outcome (bool * DnsResponsePacket) :=
  match p_Data with
  | None => Done (false, p_OutPacket)
  | Some s_Data =>
      if p_Size <? DnsHeader.size then Done (false, p_OutPacket) else
      '(s_Ok, h) ← DnsHeader.FromWire p_Data DnsHeader.size (m_Header_ p_OutPacket);
      let p_OutPacket := with_Header h p_OutPacket in
      if negb s_Ok then Done (false, p_OutPacket) else
      if negb (DnsHeader.IsResponse h) then Done (false, p_OutPacket) else
      '(s_Ok, s_Offset, qs) ←
        ParseSection (Z.to_nat (DnsHeader.Qdcount false h)) s_Data p_Size DnsHeader.size [];
      let p_OutPacket := with_Questions qs p_OutPacket in
      if negb s_Ok then Done (false, p_OutPacket) else
      '(s_Ok, s_Offset, ans) ←
        ParseSection (Z.to_nat (DnsHeader.Ancount false h)) s_Data p_Size s_Offset [];
      let p_OutPacket := with_Answers ans p_OutPacket in
      if negb s_Ok then Done (false, p_OutPacket) else
      '(s_Ok, s_Offset, auth) ←
        ParseSection (Z.to_nat (DnsHeader.Nscount false h)) s_Data p_Size s_Offset [];
      let p_OutPacket := with_Authority auth p_OutPacket in
      if negb s_Ok then Done (false, p_OutPacket) else
      '(s_Ok, s_Offset, add) ←
        ParseSection (Z.to_nat (DnsHeader.Arcount false h)) s_Data p_Size s_Offset [];
      let p_OutPacket := with_Additional add p_OutPacket in
      if negb s_Ok then Done (false, p_OutPacket) else
      if (negb (Z.of_nat (length qs) =? DnsHeader.Qdcount false h)
          || negb (Z.of_nat (length ans) =? DnsHeader.Ancount false h)
          || negb (Z.of_nat (length auth) =? DnsHeader.Nscount false h)
          || negb (Z.of_nat (length add) =? DnsHeader.Arcount false h))%Z
      then Done (false, p_OutPacket)
      else Done (true, p_OutPacket)
  end.

(** The constructors from bytes. *)
Definition construct (p_Data : option bytes) (p_Size : nat) : outcome DnsResponsePacket :=
  '(s_Ok, p) ← FromWire p_Data p_Size clear;
  if s_Ok : bool then Done p else Throw InvalidArgument.

Definition ToWire p (p_Buffer : option bytes) (p_BufferSize : nat) : outcome (nat * option bytes) :=
  match p_Buffer with
  | None => Done (O, None)
  | Some _ =>
      let s_RequiredSize := WireSize p in
      if p_BufferSize <? s_RequiredSize then Done (O, p_Buffer) else
      '(s_HeaderBytes, s_Output) ← DnsHeader.ToWire (m_Header_ p) p_Buffer DnsHeader.size;
      if negb (s_HeaderBytes =? DnsHeader.size) then Done (O, s_Output) else
      '(s_Written, s_Output) ← WriteSection (m_Questions_ p) s_Output p_BufferSize s_HeaderBytes;
      match s_Written with None => Done (O, s_Output) | Some s_Offset =>
      '(s_Written, s_Output) ← WriteSection (m_Answers_ p) s_Output p_BufferSize s_Offset;
      match s_Written with None => Done (O, s_Output) | Some s_Offset =>
      '(s_Written, s_Output) ← WriteSection (m_Authority_ p) s_Output p_BufferSize s_Offset;
      match s_Written with None => Done (O, s_Output) | Some s_Offset =>
      '(s_Written, s_Output) ← WriteSection (m_Additional_ p) s_Output p_BufferSize s_Offset;
      match s_Written with None => Done (O, s_Output) | Some s_Offset => Done (s_Offset, s_Output)
      end end end end
  end.

Definition eqb p (p_Other : DnsResponsePacket) : bool :=
  if DnsHeader.neqb (m_Header_ p) (m_Header_ p_Other) then false
  else vector_eqb DnsQuestion.eqb (m_Questions_ p) (m_Questions_ p_Other)
       && vector_eqb DnsAnswer.eqb (m_Answers_ p) (m_Answers_ p_Other)
       && vector_eqb DnsAnswer.eqb (m_Authority_ p) (m_Authority_ p_Other)
       && vector_eqb DnsAnswer.eqb (m_Additional_ p) (m_Additional_ p_Other).

Definition neqb p (p_Other : DnsResponsePacket) : bool := negb (eqb p p_Other).

Definition ltb p (p_Other : DnsResponsePacket) : bool :=
  if DnsHeader.neqb (m_Header_ p) (m_Header_ p_Other)
  then DnsHeader.ltb (m_Header_ p) (m_Header_ p_Other)
  else if negb (vector_eqb DnsQuestion.eqb (m_Questions_ p) (m_Questions_ p_Other))
  then vector_ltb DnsQuestion.ltb (m_Questions_ p) (m_Questions_ p_Other)
  else if negb (vector_eqb DnsAnswer.eqb (m_Answers_ p) (m_Answers_ p_Other))
  then vector_ltb DnsAnswer.ltb (m_Answers_ p) (m_Answers_ p_Other)
  else if negb (vector_eqb DnsAnswer.eqb (m_Authority_ p) (m_Authority_ p_Other))
  then vector_ltb DnsAnswer.ltb (m_Authority_ p) (m_Authority_ p_Other)
  else vector_ltb DnsAnswer.ltb (m_Additional_ p) (m_Additional_ p_Other).
End operations.

(** ** Specification *)

Section specification.
  Context {H : Target}.
  Implicit Types (p : DnsResponsePacket) (data : bytes).

(** The header's counts are those of the sections, in their 16 bits. *)
Definition counted p : Prop :=
  DnsHeader.Qdcount false (m_Header_ p) = u16 (Z.of_nat (length (m_Questions_ p))) ∧
  DnsHeader.Ancount false (m_Header_ p) = u16 (Z.of_nat (length (m_Answers_ p))) ∧
  DnsHeader.Nscount false (m_Header_ p) = u16 (Z.of_nat (length (m_Authority_ p))) ∧
  DnsHeader.Arcount false (m_Header_ p) = u16 (Z.of_nat (length (m_Additional_ p))).

(** The header's counts are the sections' sizes. *)
Definition counts_exact p : Prop :=
  DnsHeader.Qdcount false (m_Header_ p) = Z.of_nat (length (m_Questions_ p)) ∧
  DnsHeader.Ancount false (m_Header_ p) = Z.of_nat (length (m_Answers_ p)) ∧
  DnsHeader.Nscount false (m_Header_ p) = Z.of_nat (length (m_Authority_ p)) ∧
  DnsHeader.Arcount false (m_Header_ p) = Z.of_nat (length (m_Additional_ p)).

(** The response that a packet holds: its first twelve bytes are a header with the Z
    bit clear and QR set, and the sections stand one after the other with its counts. *)
Definition response_at data (p_Size : nat) p : Prop :=
  HeaderSize ≤ p_Size ∧ m_Header_ p = of_memory (take HeaderSize data) ∧
  DnsHeader.Valid (m_Header_ p) = true ∧ DnsHeader.IsResponse (m_Header_ p) = true ∧
  counts_exact p ∧
  ∃ o1 o2 o3 o4,
    section_at data p_Size HeaderSize (m_Questions_ p) o1 ∧
    section_at data p_Size o1 (m_Answers_ p) o2 ∧
    section_at data p_Size o2 (m_Authority_ p) o3 ∧
    section_at data p_Size o3 (m_Additional_ p) o4.

(** An assertion fails on one of the records of a packet that has an acceptable header:
    the sections before it stand in the packet, and so do the records before it in its own. *)
Definition response_aborts data (p_Size : nat) : Prop :=
  HeaderSize ≤ p_Size ∧
  let h := of_memory (take HeaderSize data) in
  DnsHeader.Valid h = true ∧ DnsHeader.IsResponse h = true ∧
  ∃ (qs : list DnsQuestion) o1,
    length qs = Z.to_nat (DnsHeader.Qdcount false h) ∧ section_at data p_Size HeaderSize qs o1 ∧
    (section_aborts (T:=DnsAnswer) (Z.to_nat (DnsHeader.Ancount false h)) data p_Size o1 ∨
     ∃ (ans : list DnsAnswer) o2,
       length ans = Z.to_nat (DnsHeader.Ancount false h) ∧ section_at data p_Size o1 ans o2 ∧
       (section_aborts (T:=DnsAnswer) (Z.to_nat (DnsHeader.Nscount false h)) data p_Size o2 ∨
        ∃ (auth : list DnsAnswer) o3,
          length auth = Z.to_nat (DnsHeader.Nscount false h) ∧ section_at data p_Size o2 auth o3 ∧
          section_aborts (T:=DnsAnswer) (Z.to_nat (DnsHeader.Arcount false h)) data p_Size o3)).

(** What the rest of the program may rely on in an accepted response. *)
Definition response_wf p : Prop :=
  DnsHeader.wf (m_Header_ p) ∧ Forall question_ok (m_Questions_ p) ∧
  Forall answer_wf (m_Answers_ p ++ m_Authority_ p ++ m_Additional_ p).

(** A response that can be sent: what its serialization holds is what it says. *)
Definition response_ok p : Prop :=
  DnsHeader.wf (m_Header_ p) ∧ DnsHeader.Valid (m_Header_ p) = true ∧
  DnsHeader.IsResponse (m_Header_ p) = true ∧ counts_exact p ∧
  Forall question_ok (m_Questions_ p) ∧ Forall answer_ok (m_Answers_ p) ∧
  Forall answer_ok (m_Authority_ p) ∧ Forall answer_ok (m_Additional_ p).

Definition wire p : bytes :=
  DnsHeader.memory (m_Header_ p) ++ section_wire (m_Questions_ p) ++ section_wire (m_Answers_ p)
  ++ section_wire (m_Authority_ p) ++ section_wire (m_Additional_ p).
End specification.

(** ** Parsing *)

Section parsing.
  Context {H : Target}.
  Implicit Types (p : DnsResponsePacket) (data : bytes).

(** The sections, once the header is read: the response they make. *)
Lemma FromWire_parses data p_Size p0 :
  p_Size ≤ length data →
  parses (FromWire (Some data) p_Size p0) (response_aborts data p_Size) (response_at data p_Size).
Proof.
  intros Hd. unfold FromWire, DnsHeader.size.
  destruct (Nat.ltb_spec p_Size HeaderSize).
  { apply parses_accepts; [intros [? _]; lia|]. apply accepts_reject; intros ? [? _]; lia. }
  rewrite DnsHeader.header_FromWire_Done by lia. rewrite bind_done. cbv zeta.
  set (h := of_memory (take HeaderSize data)).
  assert (Hh : DnsHeader.wf h) by (apply of_memory_wf; rewrite length_take; lia).
  destruct (DnsHeader.Valid h) eqn:Ev; cbn [negb].
  2: { apply parses_accepts; [intros (_ & Hv & _); fold h in Hv; congruence|].
       apply accepts_reject. intros p (_ & E & Hv & _). rewrite E in Hv. fold h in Hv. congruence. }
  destruct (DnsHeader.IsResponse h) eqn:Er; cbn [negb].
  2: { apply parses_accepts; [intros (_ & _ & Hv & _); fold h in Hv; congruence|].
       apply accepts_reject. intros p (_ & E & _ & Hv & _). rewrite E in Hv. fold h in Hv. congruence. }
  pose proof (view_range false h Hh FQdcount) as Hq. pose proof (view_range false h Hh FAncount) as Ha.
  pose proof (view_range false h Hh FNscount) as Hn. pose proof (view_range false h Hh FArcount) as Hr.
  cbn [view] in Hq, Ha, Hn, Hr.
  eapply parses_iff; [| |
    apply (parses_section (T:=DnsQuestion)); [done|]; intros o1 qs Hl1 _;
    apply (parses_section (T:=DnsAnswer)); [done|]; intros o2 ans Hl2 _;
    apply (parses_section (T:=DnsAnswer)); [done|]; intros o3 auth Hl3 _;
    apply (parses_section (T:=DnsAnswer) _ _ _ _ _ _ (λ _ _, False)); [done|]; intros o4 add Hl4 _].
  3: { repeat match goal with |- context [(Z.of_nat ?n =? ?z)%Z] =>
         replace (Z.of_nat n =? z)%Z with true by lia end. cbn [negb orb].
       apply parses_accepts; [tauto|apply accepts_one]. }
  - unfold response_aborts. fold h. cbv zeta. pose proof questions_safe. naive_solver.
  - intros p. split.
    + intros (qs & o1 & Hl1 & H1 & ans & o2 & Hl2 & H2 & auth & o3 & Hl3 & H3 & add & o4 & Hl4 & H4 & <-).
      unfold response_at, counts_exact.
      cbn [with_Additional with_Authority with_Answers with_Questions with_Header
           m_Header_ m_Questions_ m_Answers_ m_Authority_ m_Additional_].
      split_and!; try done; try lia. by exists o1, o2, o3, o4.
    + intros (_ & E & _ & _ & (E1 & E2 & E3 & E4) & o1 & o2 & o3 & o4 & H1 & H2 & H3 & H4).
      destruct p as [h' qs ans auth add]; cbn [m_Header_ m_Questions_ m_Answers_ m_Authority_ m_Additional_] in *.
      fold h in E. subst h'. rewrite E1, E2, E3, E4, !Nat2Z.id.
      exists qs, o1. split_and!; [done..|]. exists ans, o2. split_and!; [done..|].
      exists auth, o3. split_and!; [done..|]. by exists add, o4.
Qed.

Lemma response_at_parsed data p_Size p p0 :
  p_Size ≤ length data → FromWire (Some data) p_Size p0 = Done (true, p) → response_at data p_Size p.
Proof.
  intros Hd E. destruct (FromWire_parses data p_Size p0 Hd) as [[_ E']|[_ (r & p' & E' & Hr)]];
    rewrite E in E'; [done|]. injection E' as <- <-. by apply Hr.
Qed.

(** A packet that holds a response is accepted as it. *)
Lemma FromWire_complete data p_Size p p0 :
  p_Size ≤ length data → response_at data p_Size p → FromWire (Some data) p_Size p0 = Done (true, p).
Proof.
  intros Hd Hp. destruct (FromWire_parses data p_Size p0 Hd) as [[Hb _]|[_ (r & p' & -> & Hr)]].
  - exfalso. destruct Hb as (_ & _ & _ & qs & o1 & Hl1 & H1 & Hb).
    destruct Hp as (_ & E & _ & _ & (E1 & E2 & E3 & E4) & o1' & o2 & o3 & o4 & H1' & H2 & H3 & H4).
    rewrite <- E in *. rewrite E1, E2, E3, E4, !Nat2Z.id in *.
    destruct (section_at_fun _ _ _ _ _ _ _ Hd H1 H1') as [_ ->]; [done|].
    destruct Hb as [Hb|(ans & o2' & Hl2 & H2' & Hb)]; [by eapply section_at_safe in H2|].
    destruct (section_at_fun _ _ _ _ _ _ _ Hd H2 H2') as [_ <-]; [done|].
    destruct Hb as [Hb|(auth & o3' & Hl3 & H3' & Hb)]; [by eapply section_at_safe in H3|].
    destruct (section_at_fun _ _ _ _ _ _ _ Hd H3 H3') as [_ <-]; [done|].
    by eapply section_at_safe in H4.
  - by destruct (proj2 (Hr p) Hp) as [-> ->].
Qed.

Lemma response_at_wf data p_Size p : p_Size ≤ length data → response_at data p_Size p → response_wf p.
Proof.
  intros Hd (Hs & E & _ & _ & _ & o1 & o2 & o3 & o4 & H1 & H2 & H3 & H4). split_and!.
  - rewrite E. apply of_memory_wf. rewrite length_take. lia.
  - eapply section_at_Forall; [|exact H1]. apply question_at_ok.
  - rewrite !Forall_app. split_and!.
    + eapply section_at_Forall; [|exact H2]. apply answer_at_labels.
    + eapply section_at_Forall; [|exact H3]. apply answer_at_labels.
    + eapply section_at_Forall; [|exact H4]. apply answer_at_labels.
Qed.

(** No assertion fails on a packet of at most 1900 bytes, nor in a build without assertions. *)
Lemma response_aborts_large data p_Size :
  response_aborts data p_Size → NDEBUG = false ∧ 1900 < p_Size.
Proof.
  assert (Hone : ∀ k o, section_aborts (T:=DnsAnswer) k data p_Size o → NDEBUG = false ∧ 1900 < p_Size).
  { intros k o (xs & m & _ & _ & Hb). pose proof Hb as [En _]. split; [done|].
    destruct (Nat.le_gt_cases p_Size 1900) as [Hs|]; [|done]. by destruct (answer_small data p_Size m Hs). }
  intros (_ & _ & _ & qs & o1 & _ & _ & [?|(ans & o2 & _ & _ & [?|(auth & o3 & _ & _ & ?)])]); eauto.
Qed.

(** C21: for every byte sequence, the response parser reads only inside the packet, and it
    returns unless the program is built with assertions and the packet, of more than 1900
    bytes, has a record whose data is longer than 65535 bytes once the names in it are
    expanded: there the record parser aborts the program.  When it returns, it succeeds
    exactly when the packet starts with a header that has QR set and Z clear, followed by its
    counts of questions, answers, authority and additional records, one after the other, and
    then with that header and those sections; what it accepts has labels of 1 to 63 bytes
    and integers within their widths. *)
Theorem response_FromWire_spec data p_Size p0 :
  p_Size ≤ length data →
  (response_aborts data p_Size ∧ NDEBUG = false ∧ 1900 < p_Size ∧
   FromWire (Some data) p_Size p0 = Aborted) ∨
  (¬ response_aborts data p_Size ∧
   ∃ r p, FromWire (Some data) p_Size p0 = Done (r, p) ∧ (r = true → response_wf p) ∧
     ∀ p', (r = true ∧ p = p') ↔ response_at data p_Size p').
Proof.
  intros Hd. destruct (FromWire_parses data p_Size p0 Hd) as [[Hb ->]|[Hb (r & p & E & Hp)]].
  - left. split_and!; [done|apply (response_aborts_large _ _ Hb)..|done].
  - right. split; [done|]. exists r, p. split_and!; [done| |done]. intros ->. by eapply response_at_wf, Hp.
Qed.
End parsing.

(** ** Serialization *)

Section serialization.
  Context {H : Target}.
  Implicit Types (p : DnsResponsePacket) (data : bytes).

Lemma response_length_wire p : length (wire p) = WireSize p.
Proof.
  unfold wire, WireSize, DnsHeader.size. rewrite !length_app, length_memory, !length_section_wire. lia.
Qed.

Definition sections_wf p : Prop :=
  Forall DnsQuestion.wf (m_Questions_ p) ∧ Forall DnsAnswer.wf (m_Answers_ p) ∧
  Forall DnsAnswer.wf (m_Authority_ p) ∧ Forall DnsAnswer.wf (m_Additional_ p).

Lemma response_ToWire_Done p data p_BufferSize :
  sections_wf p → WireSize p ≤ p_BufferSize → p_BufferSize ≤ length data →
  ToWire p (Some data) p_BufferSize = Done (WireSize p, Some (splice data 0 (wire p))).
Proof.
  intros (Hq & Ha & Hn & Hr) Hs Hd. rewrite <- response_length_wire in *. unfold ToWire.
  rewrite <- response_length_wire. destruct (Nat.ltb_spec p_BufferSize (length (wire p))); [lia|].
  unfold wire in *. unfold DnsHeader.size.
  pose proof (length_memory (m_Header_ p)) as Hl. rewrite !length_app in *.
  rewrite DnsHeader.header_ToWire_Done by lia. rewrite bind_done, Nat.eqb_refl. cbn [negb].
  rewrite <- Hl. set (acc0 := DnsHeader.memory (m_Header_ p)) in *.
  rewrite (WriteSection_Done (m_Questions_ p)) by (done || lia). rewrite bind_done.
  rewrite <- length_app, (WriteSection_Done (m_Answers_ p)), bind_done by (rewrite ?length_app; done || lia).
  rewrite <- length_app, (WriteSection_Done (m_Authority_ p)), bind_done by (rewrite ?length_app; done || lia).
  rewrite <- length_app, (WriteSection_Done (m_Additional_ p)), bind_done by (rewrite ?length_app; done || lia).
  rewrite <- !app_assoc, !length_app. do 2 f_equal. lia.
Qed.

Lemma response_ok_wf p : response_ok p → sections_wf p.
Proof. intros (_ & _ & _ & _ & ? & ? & ? & ?). 
  split_and!; first [by apply questions_ok_wf|by apply answers_ok_wf].
Qed.

(** A response stands in its own serialization. *)
Lemma response_at_wire p post :
  response_ok p → response_at (wire p ++ post) (length (wire p ++ post)) p.
Proof.
  intros (Hw & Hv & Hr & Hc & Hq & Ha & Hn & Hd).
  set (h := DnsHeader.memory (m_Header_ p)). pose proof (length_memory (m_Header_ p)) as Hl. fold h in Hl.
  assert (El : length (wire p ++ post) = length h + length (section_wire (m_Questions_ p))
    + length (section_wire (m_Answers_ p)) + length (section_wire (m_Authority_ p))
    + length (section_wire (m_Additional_ p)) + length post).
  { unfold wire. fold h. rewrite !length_app. lia. }
  unfold response_at. split_and!; try done.
  - lia.
  - unfold wire. fold h. rewrite <- Hl, <- app_assoc, take_app_length. unfold h.
    symmetry. by apply of_memory_memory.
  - rewrite <- Hl. do 4 eexists. split_and!.
    + apply section_at_wire with (section_wire (m_Answers_ p) ++ section_wire (m_Authority_ p)
        ++ section_wire (m_Additional_ p) ++ post); [done| |lia].
      unfold wire. fold h. by rewrite <- !app_assoc.
    + rewrite <- length_app. apply section_at_wire with (section_wire (m_Authority_ p)
        ++ section_wire (m_Additional_ p) ++ post); [done| |rewrite length_app; lia].
      unfold wire. fold h. by rewrite <- !app_assoc.
    + rewrite <- !length_app. apply section_at_wire with (section_wire (m_Additional_ p) ++ post);
        [done| |rewrite El, !length_app; lia]. unfold wire. fold h. by rewrite <- !app_assoc.
    + rewrite <- !length_app. apply section_at_wire with post; [done| |rewrite El, !length_app; lia].
      unfold wire. fold h. by rewrite <- !app_assoc.
Qed.

Lemma FromWire_wire p post p0 :
  response_ok p → FromWire (Some (wire p ++ post)) (length (wire p ++ post)) p0 = Done (true, p).
Proof.
  intros Hok. apply FromWire_complete; [done|by apply response_at_wire].
Qed.

(** C22: a response whose counts are its sections' sizes, with uncompressed names and data
    lengths that agree, is written as its header and its sections in order, [WireSize]
    bytes at the start of the buffer with the rest of it unchanged, and parsing those
    bytes, whatever follows them, gives the same response; a buffer that is too small is
    left untouched. *)
Theorem response_roundtrip p data p_BufferSize post p0 :
  response_ok p → p_BufferSize ≤ length data →
  (p_BufferSize < WireSize p → ToWire p (Some data) p_BufferSize = Done (O, Some data)) ∧
  (WireSize p ≤ p_BufferSize →
     ToWire p (Some data) p_BufferSize = Done (WireSize p, Some (wire p ++ drop (WireSize p) data))) ∧
  FromWire (Some (wire p ++ post)) (length (wire p ++ post)) p0 = Done (true, p).
Proof.
  intros Hok Hd. split_and!.
  - intros Hlt. unfold ToWire. by destruct (Nat.ltb_spec p_BufferSize (WireSize p)); [|lia].
  - intros Hle. rewrite response_ToWire_Done by auto using response_ok_wf.
    unfold splice. by rewrite response_length_wire.
  - by apply FromWire_wire.
Qed.
End serialization.

(** ** Edits of the sections *)

(** The mutators that change a section. *)
Inductive edit : Type :=
  | EditAddQuestion (q : DnsQuestion)
  | EditAddAnswer (a : DnsAnswer)
  | EditAddAuthority (a : DnsAnswer)
  | EditAddAdditional (a : DnsAnswer)
  | EditClearQuestions
  | EditClearAnswers
  | EditClearAuthority
  | EditClearAdditional.

Section edits.
  Context {H : Target}.
  Implicit Types (p : DnsResponsePacket).

Definition apply_edit p (e : edit) : outcome DnsResponsePacket :=
  match e with
  | EditAddQuestion q => AddQuestion q p
  | EditAddAnswer a => AddAnswer a p
  | EditAddAuthority a => AddAuthority a p
  | EditAddAdditional a => AddAdditional a p
  | EditClearQuestions => ClearQuestions p
  | EditClearAnswers => ClearAnswers p
  | EditClearAuthority => ClearAuthority p
  | EditClearAdditional => ClearAdditional p
  end.

Definition is_count (a : field) : bool :=
  match a with FQdcount | FAncount | FNscount | FArcount => true | _ => false end.

(** What a header update does to the fields, whatever the sections hold. *)
Lemma counted_response_fields p a :
  view false (m_Header_ (counted_response p)) a =
    match a with
    | FQdcount => u16 (Z.of_nat (length (m_Questions_ p)))
    | FAncount => u16 (Z.of_nat (length (m_Answers_ p)))
    | FNscount => u16 (Z.of_nat (length (m_Authority_ p)))
    | FArcount => u16 (Z.of_nat (length (m_Additional_ p)))
    | _ => view false (m_Header_ p) a
    end.
Proof. unfold counted_response. simpl m_Header_. apply UpdateCounts_fields; apply u16_range. Qed.

Lemma counted_response_wf p :
  DnsHeader.wf (m_Header_ p) → DnsHeader.wf (m_Header_ (counted_response p)).
Proof. apply UpdateCounts_wf; apply u16_range. Qed.

Lemma counted_response_counted p : counted (counted_response p).
Proof.
  pose proof (counted_response_fields p) as Hf.
  split_and!; [apply (Hf FQdcount)|apply (Hf FAncount)|apply (Hf FNscount)|apply (Hf FArcount)].
Qed.

(** Small sections are counted exactly. *)
Definition small p : Prop :=
  (Z.of_nat (length (m_Questions_ p)) ≤ UINT16_MAX ∧ Z.of_nat (length (m_Answers_ p)) ≤ UINT16_MAX ∧
   Z.of_nat (length (m_Authority_ p)) ≤ UINT16_MAX ∧
   Z.of_nat (length (m_Additional_ p)) ≤ UINT16_MAX)%Z.

Lemma counted_small p : small p → counted p → counts_exact p.
Proof.
  unfold small, counted, counts_exact, UINT16_MAX. intros (? & ? & ? & ?).
  by rewrite !u16_small by lia.
Qed.

Lemma UpdateHeaderCounts_Done p : small p → UpdateHeaderCounts p = Done (counted_response p).
Proof.
  intros (? & ? & ? & ?). unfold UpdateHeaderCounts.
  by rewrite !assert_passes by (by right; apply Z.leb_le).
Qed.

Lemma assert_inv {A} b (m : outcome A) a : (assert_ b;; m) = Done a → passes b ∧ m = Done a.
Proof.
  destruct (passes_dec b) as [Hp|[En Eb]]; [by rewrite assert_passes|].
  by rewrite assert_fails.
Qed.

(** The counts are updated when they fit their fields, or when that is not asserted. *)
Lemma UpdateHeaderCounts_inv p p' :
  UpdateHeaderCounts p = Done p' → p' = counted_response p ∧ (NDEBUG = true ∨ small p).
Proof.
  intros [H1 [H2 [H3 [H4 [= <-]]%assert_inv]%assert_inv]%assert_inv]%assert_inv. split; [done|].
  unfold passes in *. rewrite !Z.leb_le in *. unfold small. tauto.
Qed.

(** The sections after an edit. *)
Definition edited p (e : edit) : DnsResponsePacket :=
  match e with
  | EditAddQuestion q => with_Questions (m_Questions_ p ++ [q]) p
  | EditAddAnswer a => with_Answers (m_Answers_ p ++ [a]) p
  | EditAddAuthority a => with_Authority (m_Authority_ p ++ [a]) p
  | EditAddAdditional a => with_Additional (m_Additional_ p ++ [a]) p
  | EditClearQuestions => with_Questions [] p
  | EditClearAnswers => with_Answers [] p
  | EditClearAuthority => with_Authority [] p
  | EditClearAdditional => with_Additional [] p
  end.

Lemma apply_edit_eq p e : apply_edit p e = UpdateHeaderCounts (edited p e).
Proof. by destruct e. Qed.

Lemma apply_edit_header p e p' :
  DnsHeader.wf (m_Header_ p) → apply_edit p e = Done p' →
  p' = counted_response (edited p e) ∧ DnsHeader.wf (m_Header_ p') ∧ counted p' ∧
  (NDEBUG = true ∨ small p') ∧
  ∀ a, is_count a = false → view false (m_Header_ p') a = view false (m_Header_ p) a.
Proof.
  rewrite apply_edit_eq. intros Hw [-> Hs]%UpdateHeaderCounts_inv.
  assert (m_Header_ (edited p e) = m_Header_ p) as E by by destruct e.
  split_and!; [done|apply counted_response_wf; by rewrite E|apply counted_response_counted|done|].
  intros a Ha. rewrite counted_response_fields, E. by destruct a.
Qed.

(** A sequence of edits, until one of them aborts. *)
Fixpoint apply_edits (es : list edit) p : outcome DnsResponsePacket :=
  match es with [] => Done p | e :: es => p ← apply_edit p e; apply_edits es p end.

(** After any sequence of additions to the sections and clearings of them that returns, the
    header's four counts are the sections' sizes modulo 2^16, so exactly the sizes as long
    as these fit the fields, which they do after an edit in a build with assertions, and
    every other field of the header is what it was; the sequence returns in a build without
    assertions, and when the sections fit their counts after each edit. *)
Theorem edits_keep_counts es p :
  DnsHeader.wf (m_Header_ p) → counted p →
  (NDEBUG = true ∨ (∀ k, small (fold_left edited (take k es) p)) → returns (apply_edits es p)) ∧
  ∀ p', apply_edits es p = Done p' →
    DnsHeader.wf (m_Header_ p') ∧ counted p' ∧ (small p' → counts_exact p') ∧
    (es ≠ [] → NDEBUG = true ∨ small p') ∧
    ∀ a, is_count a = false → view false (m_Header_ p') a = view false (m_Header_ p) a.
Proof.
  revert p. induction es as [|e es IH]; intros p Hw Hc; cbn [apply_edits].
  { split; [intros _; apply returns_Done|]. intros ? [= <-]. split_and!; auto using counted_small. }
  split.
  - intros Hs. rewrite apply_edit_eq.
    assert (UpdateHeaderCounts (edited p e) = Done (counted_response (edited p e))) as E.
    { destruct Hs as [En|Hs].
      - unfold UpdateHeaderCounts. by rewrite !assert_passes by (by left).
      - apply UpdateHeaderCounts_Done. exact (Hs 1). }
    rewrite E, bind_done. rewrite <- apply_edit_eq in E.
    destruct (apply_edit_header _ _ _ Hw E) as (_ & Hw' & Hc' & _). apply IH; [done..|].
    destruct Hs as [|Hs]; [by left|right]. intros k. specialize (Hs (S k)). cbn [take fold_left] in Hs.
    assert (Hsame : ∀ es p1 p2, m_Questions_ p1 = m_Questions_ p2 → m_Answers_ p1 = m_Answers_ p2 →
      m_Authority_ p1 = m_Authority_ p2 → m_Additional_ p1 = m_Additional_ p2 →
      small (fold_left edited es p1) → small (fold_left edited es p2)).
    { clear. induction es as [|e es IH]; intros p1 p2 E1 E2 E3 E4; cbn [fold_left].
      - unfold small. by rewrite E1, E2, E3, E4.
      - apply IH; destruct e; cbn; congruence. }
    by apply (Hsame _ (edited p e)).
  - intros p' (p1 & E1 & E2)%bind_Done_inv. destruct (apply_edit_header _ _ _ Hw E1) as (_ & Hw' & Hc' & Hs & Hf).
    destruct (proj2 (IH p1 Hw' Hc') p' E2) as (? & ? & ? & Hs' & Hf'). split_and!; [done..| |].
    + intros _. destruct es; [by injection E2 as <-|by apply Hs'].
    + intros a Ha. by rewrite Hf', Hf.
Qed.
End edits.

(** ** Responses made from requests *)

Section made.
  Context {H : Target}.
  Implicit Types (r : DnsRequestPacket).

(** The packet that the constructor makes. *)
Definition made_response (h : DnsHeader) (qs : list DnsQuestion) (ans auth add : list DnsAnswer)
    : DnsResponsePacket :=
  counted_response {| m_Header_ := h; m_Questions_ := qs; m_Answers_ := ans; m_Authority_ := auth;
                      m_Additional_ := add |}.

Lemma make_response_ok h qs ans auth add :
  DnsHeader.wf h → DnsHeader.Valid h = true → DnsHeader.IsResponse h = true →
  small {| m_Header_ := h; m_Questions_ := qs; m_Answers_ := ans; m_Authority_ := auth; m_Additional_ := add |} →
  Forall question_ok qs → Forall answer_ok ans → Forall answer_ok auth → Forall answer_ok add →
  make h qs ans auth add = Done (made_response h qs ans auth add) ∧
  response_ok (made_response h qs ans auth add).
Proof.
  intros Hw Hv Hr Hl Hqs Hans Hauth Hadd. split; [by apply UpdateHeaderCounts_Done|].
  unfold made_response. set (p := {| m_Header_ := h |}) in *.
  unfold response_ok. split_and!; try done; [by apply counted_response_wf|].
  apply counted_small; [done|apply counted_response_counted].
Qed.

(** The questions of an accepted request fit the header. *)
Lemma request_questions r :
  request_ok r →
  (Z.of_nat (length (DnsRequestPacket.m_Questions_ r)) ≤ UINT16_MAX)%Z ∧
  Forall question_ok (DnsRequestPacket.m_Questions_ r).
Proof.
  intros (Hw & _ & _ & Hq & _ & _ & Hqs & _). split; [|done].
  pose proof (Qdcount_range _ Hw) as Hr. unfold uint16 in Hr. unfold UINT16_MAX. lia.
Qed.

(** For every request the parser accepts, the error response and the plain response are
    made, in every build; they carry its questions and no records, have QR set, copy the identifier, the
    opcode and RD, set RCODE to the code's low four bits and the counts to the sections'
    sizes, and are parsed back to themselves from their serialization; the error response
    sets RA and keeps the request's other flags, the plain response takes AA and RA from
    its arguments and clears the other flags. *)
Theorem made_response_fields r e aa ra post p0 :
  request_ok r →
  let q := view false (DnsRequestPacket.m_Header_ r) in
  ∃ err res, MakeErrorResponse r e = Done err ∧ MakeResponse r e aa ra = Done res ∧
  (∀ p, p = err ∨ p = res →
     m_Questions_ p = DnsRequestPacket.m_Questions_ r ∧
     m_Answers_ p = [] ∧ m_Authority_ p = [] ∧ m_Additional_ p = [] ∧ response_ok p ∧
     FromWire (Some (wire p ++ post)) (length (wire p ++ post)) p0 = Done (true, p)) ∧
  (∀ a, view false (m_Header_ err) a =
     match a with
     | FQr | FRa => 1 | FRcode => e mod 16 | FAncount | FNscount | FArcount => 0 | _ => q a
     end)%Z ∧
  (∀ a, view false (m_Header_ res) a =
     match a with
     | FId | FOpcode | FRd | FQdcount => q a
     | FQr => 1 | FAa => Z.b2z aa | FRa => Z.b2z ra | FRcode => e mod 16 | _ => 0
     end)%Z.
Proof.
  intros Hok q. destruct (request_questions r Hok) as [Hl Hqs].
  destruct Hok as (Hw & Hv & _ & Hqd & _). rewrite Valid_view in Hv.
  unfold MakeErrorResponse, MakeResponse, DnsRequestPacket.Header, DnsRequestPacket.Questions.
  set (h := DnsRequestPacket.m_Header_ r) in *.
  pose proof (λ a, MakeErrorResponse_view h e h a Hw) as He.
  pose proof (λ a, MakeResponseHeader_fields h e aa ra a Hw) as Hr.
  assert (Hq : u16 (Z.of_nat (length (DnsRequestPacket.m_Questions_ r))) = q FQdcount).
  { unfold q. cbn [view]. rewrite Hqd. apply u16_small. unfold UINT16_MAX in Hl. lia. }
  set (he := DnsHeader.MakeErrorResponse h e h) in *. set (hr := DnsHeader.MakeResponseHeader h e aa ra) in *.
  assert (Hsm : ∀ h', small {| m_Header_ := h'; m_Questions_ := DnsRequestPacket.m_Questions_ r;
                       m_Answers_ := []; m_Authority_ := []; m_Additional_ := [] |})
    by (intros h'; unfold small, UINT16_MAX in *; simpl; lia).
  destruct (make_response_ok he (DnsRequestPacket.m_Questions_ r) [] [] []) as [Ee Hoke];
    [by apply MakeErrorResponse_wf|by rewrite Valid_view, He|apply IsResponse_view; by rewrite He
    |apply Hsm|done|by constructor..|].
  destruct (make_response_ok hr (DnsRequestPacket.m_Questions_ r) [] [] []) as [Er Hokr];
    [by apply MakeResponseHeader_wf|by rewrite Valid_view, Hr|apply IsResponse_view; by rewrite Hr
    |apply Hsm|done|by constructor..|].
  exists (made_response he (DnsRequestPacket.m_Questions_ r) [] [] []),
    (made_response hr (DnsRequestPacket.m_Questions_ r) [] [] []). split_and!; [done..| | |].
  - intros p Hp. assert (response_ok p) as Hok by by destruct Hp as [->| ->].
    pose proof (FromWire_wire p post p0 Hok). by destruct Hp as [->| ->].
  - intros a. unfold made_response. rewrite counted_response_fields.
    cbn [m_Header_ m_Questions_ m_Answers_ m_Authority_ m_Additional_ length].
    destruct a; try done; apply He.
  - intros a. unfold made_response. rewrite counted_response_fields.
    cbn [m_Header_ m_Questions_ m_Answers_ m_Authority_ m_Additional_ length].
    destruct a; try done; apply Hr.
Qed.
End made.

(** ** Examples *)

Section examples.
  #[local] Existing Instance x86_64.

(** A response with the CNAME record "a.com -> b.org". *)
Definition example_response : DnsResponsePacket :=
  made_response (DnsHeader.MakeResponseHeader DnsHeader.clear 0 false true) [DnsQuestion.MakeAQuery (str "a.com")]
    [example_cname] [] [].

Definition example_response_packet : bytes := Eval vm_compute in wire example_response.

Lemma response_FromWire_spec_witness :
  47 ≤ length example_response_packet ∧
  ((response_aborts example_response_packet 47 ∧ NDEBUG = false ∧ 1900 < 47 ∧
    FromWire (Some example_response_packet) 47 clear = Aborted) ∨
   (¬ response_aborts example_response_packet 47 ∧
    ∃ r p, FromWire (Some example_response_packet) 47 clear = Done (r, p) ∧ (r = true → response_wf p) ∧
      ∀ p', (r = true ∧ p = p') ↔ response_at example_response_packet 47 p')).
Proof.
  split; [simpl; lia|]. apply (response_FromWire_spec example_response_packet 47 clear). simpl. lia.
Defined.

Lemma example_response_header :
  DnsHeader.wf (DnsHeader.MakeResponseHeader DnsHeader.clear 0 false true) ∧
  DnsHeader.Valid (DnsHeader.MakeResponseHeader DnsHeader.clear 0 false true) = true ∧
  DnsHeader.IsResponse (DnsHeader.MakeResponseHeader DnsHeader.clear 0 false true) = true.
Proof.
  pose proof (λ a, MakeResponseHeader_fields DnsHeader.clear 0 false true a clear_wf) as Hr.
  split_and!; [apply MakeResponseHeader_wf, clear_wf|by rewrite Valid_view, Hr|].
  apply IsResponse_view. by rewrite Hr.
Qed.

Lemma example_response_ok : response_ok example_response.
Proof.
  destruct example_response_header as (Hw & Hv & Hr). unfold example_response.
  apply make_response_ok; [exact Hw|exact Hv|exact Hr| | | | |].
  - unfold small, UINT16_MAX. cbn [m_Questions_ m_Answers_ m_Authority_ m_Additional_ length]. lia.
  - constructor; [exact example_question_ok|constructor].
  - constructor; [exact example_cname_ok|constructor].
  - constructor.
  - constructor.
Qed.

Lemma response_roundtrip_witness :
  let p := example_response in
  FromWire (Some (wire p ++ [])) (length (wire p ++ [])) clear = Done (true, p).
Proof.
  intros p. apply (response_roundtrip p (repeat x00 4) 4 [] clear); [exact example_response_ok|simpl; lia].
Defined.

Lemma edits_keep_counts_witness :
  returns (apply_edits [EditAddAnswer example_cname; EditClearQuestions] clear).
Proof.
  apply (edits_keep_counts [EditAddAnswer example_cname; EditClearQuestions] clear); [exact clear_wf| |].
  - unfold counted. simpl. split_and!; reflexivity.
  - right. intros [|[|[|k]]]; unfold small, UINT16_MAX; simpl; lia.
Defined.

Lemma made_response_fields_witness :
  let r := DnsRequestPacket.a_query 4660 (str "a.com") true in
  ∃ err, MakeErrorResponse r 3 = Done err ∧ view false (m_Header_ err) FRcode = 3%Z.
Proof.
  destruct (made_response_fields _ 3 false false [] clear example_request_ok) as (err & _ & E & _ & _ & Hf & _).
  exists err. split; [exact E|exact (Hf FRcode)].
Defined.

(** The response with a record is parsed back too. *)
Example response_FromWire_example :
  FromWire (Some example_response_packet) 47 clear = Done (true, example_response).
Proof. vm_compute. reflexivity. Qed.

(** An answer count larger than the section makes the packet unacceptable. *)
Example response_FromWire_short :
  match FromWire (Some (<[7 := x02]> example_response_packet)) 47 clear with
  | Done (r, _) => Some r | _ => None
  end = Some false.
Proof. vm_compute. reflexivity. Qed.
End examples.
