(* ===== verification/Comparison.v ===== *)
(** * The comparison operators as containers use them

    [operator==], [operator<] and [Hash] of the five packet classes keep the laws that ordered
    and hashed containers ask for: an equivalence, a strict total order on its classes, and
    equal hashes of equal values.  Each order is that of a key, and the keys are ordered by
    lexicographic combinations of integers and strings. *)

From Stdlib Require Import ZArith Lia.
From Stdlib Require Import Strings.Byte Strings.String.
From stdpp Require Import base numbers list option sets.
From S2P Require Import Prelude.
From S2P Require Import Memory.
From S2P Require Import Utils.
From S2P Require Import Text.
From S2P Require Import Name.
From S2P Require Import DnsHeader.
From S2P Require Import DnsQuestion.
From S2P Require Import DnsAnswer.
From S2P Require Import WireFormat.
From S2P Require Import DnsRequestPacket.
From S2P Require Import DnsResponsePacket.

(** ** Strict total orders *)

Class StrictTotal {K} (lt : K → K → bool) : Prop := {
  strict_irrefl x : lt x x = false;
  strict_trans x y z : lt x y = true → lt y z = true → lt x z = true;
  strict_total x y : lt x y = true ∨ x = y ∨ lt y x = true
}.

#[export] Instance lexltb_strict : StrictTotal lexltb.
Proof. split; [apply lexltb_irrefl|apply lexltb_trans|apply lexltb_total]. Qed.

#[export] Instance strings_ltb_strict : StrictTotal strings_ltb.
Proof. split; [apply strings_ltb_irrefl|apply strings_ltb_trans|apply strings_ltb_total]. Qed.

(** One part after the other. *)
Definition lex2 {K L} `{EqDecision K} (lt1 : K → K → bool) (lt2 : L → L → bool) (x y : K * L) : bool :=
  if decide (x.1 = y.1) then lt2 x.2 y.2 else lt1 x.1 y.1.

Section orders.
  Context {K L : Type} `{EqDecision K} (lt1 : K → K → bool) (lt2 : L → L → bool).
  Context {H1 : StrictTotal lt1}.

Lemma strict_asym x y : lt1 x y = true → lt1 y x = false.
Proof.
  intros E. destruct (lt1 y x) eqn:E'; [|done]. pose proof (strict_trans x y x E E') as Ex. by rewrite strict_irrefl in Ex.
Qed.

#[export] Instance lex2_strict `{!StrictTotal lt2} : StrictTotal (lex2 lt1 lt2).
Proof.
  split; unfold lex2.
  - intros [a b]. cbn. rewrite decide_True by done. apply strict_irrefl.
  - intros [a b] [a' b'] [a'' b'']. cbn.
    destruct (decide (a = a')) as [->|Ha]; destruct (decide (a' = a'')) as [->|Ha'].
    + by apply strict_trans.
    + done.
    + by rewrite decide_False.
    + intros E1 E2. case_decide; subst; [by rewrite (strict_asym _ _ E1) in E2|by eapply strict_trans].
  - intros [a b] [a' b']. cbn. destruct (decide (a = a')) as [->|].
    + rewrite decide_True by done. destruct (strict_total b b') as [|[->|]]; auto.
    + rewrite decide_False by congruence. destruct (strict_total a a') as [|[->|]]; auto; done.
Qed.

Lemma vector_ltb_irrefl xs : vector_ltb lt1 xs xs = false.
Proof. induction xs as [|x xs IH]; [done|]. cbn. by rewrite strict_irrefl. Qed.

Lemma vector_step x y : lt1 x y = false → lt1 y x = false → x = y.
Proof. intros E1 E2. destruct (strict_total x y) as [?|[?|?]]; congruence. Qed.

#[export] Instance vector_ltb_strict : StrictTotal (vector_ltb lt1).
Proof.
  split; [apply vector_ltb_irrefl| |].
  - intros xs. induction xs as [|x xs IH]; intros [|y ys] [|z zs]; cbn; try done.
    destruct (lt1 x y) eqn:Exy; [intros _|destruct (lt1 y x) eqn:Eyx; [done|]].
    + destruct (lt1 y z) eqn:Eyz; [by rewrite (strict_trans _ _ _ Exy Eyz)|].
      destruct (lt1 z y) eqn:Ezy; [done|]. rewrite <- (vector_step _ _ Eyz Ezy). by rewrite Exy.
    + rewrite (vector_step _ _ Exy Eyx). destruct (lt1 y z); [done|]. destruct (lt1 z y); [done|]. apply IH.
  - intros xs. induction xs as [|x xs IH]; intros [|y ys]; cbn; auto.
    destruct (lt1 x y) eqn:Exy; [auto|]. destruct (lt1 y x) eqn:Eyx; [auto|].
    rewrite (vector_step _ _ Exy Eyx). destruct (IH ys) as [|[->|]]; auto.
Qed.
End orders.

(** ** What containers ask for *)

Record container_laws {A} (ok : A → Prop) (eqb ltb : A → A → bool) (hash : A → Z) : Prop := {
  eq_refl_law a : ok a → eqb a a = true;
  eq_sym_law a b : ok a → ok b → eqb a b = true → eqb b a = true;
  eq_trans_law a b c : ok a → ok b → ok c → eqb a b = true → eqb b c = true → eqb a c = true;
  lt_irrefl_law a b : ok a → ok b → eqb a b = true → ltb a b = false;
  lt_trans_law a b c : ok a → ok b → ok c → ltb a b = true → ltb b c = true → ltb a c = true;
  lt_total_law a b : ok a → ok b → ltb a b = true ∨ eqb a b = true ∨ ltb b a = true;
  hash_law a b : ok a → ok b → eqb a b = true → hash a = hash b
}.

(** The operators compare keys. *)
Record ordered_by {A K} (ok : A → Prop) (eqb ltb : A → A → bool) (key : A → K) (lt : K → K → bool) : Prop := {
  key_eq a b : ok a → ok b → eqb a b = true ↔ key a = key b;
  key_lt a b : ok a → ok b → ltb a b = lt (key a) (key b)
}.

Lemma ordered_laws {A K} (ok : A → Prop) eqb ltb (key : A → K) lt `{!StrictTotal lt} hash :
  ordered_by ok eqb ltb key lt → (∀ a b, ok a → ok b → eqb a b = true → hash a = hash b) → container_laws ok eqb ltb hash.
Proof.
  intros [Ke Kl] Hh. split; [| | | | | |exact Hh].
  - intros a Ha. by apply Ke.
  - intros a b Ha Hb. rewrite !Ke by done. done.
  - intros a b c Ha Hb Hc. rewrite !Ke by done. congruence.
  - intros a b Ha Hb. rewrite Ke, Kl by done. intros ->. apply strict_irrefl.
  - intros a b c Ha Hb Hc. rewrite !Kl by done. apply strict_trans.
  - intros a b Ha Hb. rewrite !Kl, Ke by done. apply strict_total.
Qed.

(** Vectors of such values. *)
Section vectors.
  Context {A K : Type} (ok : A → Prop) (eqb ltb : A → A → bool) (key : A → K) (lt : K → K → bool).
  Context (Ho : ordered_by ok eqb ltb key lt).

Lemma vector_eqb_cons x y xs ys : vector_eqb eqb (x :: xs) (y :: ys) = eqb x y && vector_eqb eqb xs ys.
Proof. unfold vector_eqb. cbn. by destruct (length xs =? length ys), (eqb x y). Qed.

Lemma vector_ordered : ordered_by (Forall ok) (vector_eqb eqb) (vector_ltb ltb) (fmap key) (vector_ltb lt).
Proof.
  destruct Ho as [Ke Kl]. split.
  - intros xs. induction xs as [|x xs IH]; intros [|y ys] Hx Hy; try done.
    apply Forall_cons in Hx as [Hx Hxs], Hy as [Hy Hys]. rewrite vector_eqb_cons, andb_true_iff, Ke, IH by done.
    rewrite !fmap_cons. split; [by intros [-> ->]|by intros [= -> ->]].
  - intros xs. induction xs as [|x xs IH]; intros [|y ys] Hx Hy; try done.
    apply Forall_cons in Hx as [Hx Hxs], Hy as [Hy Hys]. cbn. rewrite !Kl, IH by done. done.
Qed.

Lemma hash_section_eq hash xs ys h :
  (∀ a b, ok a → ok b → eqb a b = true → hash a = hash b) → Forall ok xs → Forall ok ys →
  vector_eqb eqb xs ys = true → hash_section hash h xs = hash_section hash h ys.
Proof.
  intros Hh. unfold hash_section. revert ys h. induction xs as [|x xs IH]; intros [|y ys] h Hx Hy; try done.
  apply Forall_cons in Hx as [Hx Hxs], Hy as [Hy Hys]. rewrite vector_eqb_cons, andb_true_iff. intros [Ex Exs].
  cbn. rewrite (Hh x y) by done. by apply IH.
Qed.
End vectors.

(** ** The packet classes *)

Section keys.
  Context {H : Target}.

(** Numbers in network byte order are compared as they are, and as the host sees them. *)
Lemma host_eqb (n : nat) z z' : (0 ≤ z < width n)%Z → (0 ≤ z' < width n)%Z →
  (z =? z')%Z = (NetworkToHost n z =? NetworkToHost n z')%Z.
Proof.
  intros Hz Hz'. destruct (Z.eqb_spec z z') as [->|Hne]; [by rewrite Z.eqb_refl|]. symmetry. apply Z.eqb_neq. intros E.
  apply (f_equal (HostToNetwork n)) in E. by rewrite !HostToNetwork_NetworkToHost in E.
Qed.

Lemma host_eqb_16 z z' : uint16 z → uint16 z' → (z =? z')%Z = (NetworkToHost 2 z =? NetworkToHost 2 z')%Z.
Proof. apply (host_eqb 2). Qed.

Lemma host_eqb_32 z z' : uint32 z → uint32 z' → (z =? z')%Z = (NetworkToHost 4 z =? NetworkToHost 4 z')%Z.
Proof. apply (host_eqb 4). Qed.

Lemma header_ordered : ordered_by (λ _, True) DnsHeader.eqb DnsHeader.ltb DnsHeader.members lexltb.
Proof.
  split; [|intros a b _ _; apply DnsHeader.ltb_lex]. intros a b _ _. rewrite DnsHeader.eqb_eq.
  split; [by intros ->|]. destruct a, b. by intros [= -> -> -> -> -> ->].
Qed.

Definition question_key (q : DnsQuestion) : list bytes * list Z :=
  (DnsQuestion.m_Qname_ q, [DnsQuestion.Qtype false q; DnsQuestion.Qclass false q]).

Lemma question_ordered :
  ordered_by DnsQuestion.wf DnsQuestion.eqb DnsQuestion.ltb question_key (lex2 strings_ltb lexltb).
Proof.
  split; intros a b [Ht Hc] [Ht' Hc'].
  - unfold DnsQuestion.eqb. rewrite !andb_true_iff, bool_decide_eq_true, host_eqb_16, (host_eqb_16 (m_Qclass_ a)), !Z.eqb_eq by done.
    unfold question_key, DnsQuestion.Qtype, DnsQuestion.Qclass. split; [by intros ((-> & ->) & ->)|].
    intros E. injection E as E1 E2 E3. by rewrite E1, E2, E3.
  - unfold DnsQuestion.ltb, lex2, question_key. cbn [fst snd lexltb]. rewrite host_eqb_16 by done.
    case_bool_decide; cbn [negb]; [rewrite decide_True by done|by rewrite decide_False].
    change (NetworkToHost 2 (m_Qtype_ a)) with (DnsQuestion.Qtype false a). change (NetworkToHost 2 (m_Qtype_ b)) with (DnsQuestion.Qtype false b).
    change (NetworkToHost 2 (m_Qclass_ a)) with (DnsQuestion.Qclass false a). change (NetworkToHost 2 (m_Qclass_ b)) with (DnsQuestion.Qclass false b).
    destruct (DnsQuestion.Qtype false a =? _)%Z; cbn [negb]; [|done].
    destruct (Z.eqb_spec (DnsQuestion.Qclass false a) (DnsQuestion.Qclass false b)) as [->|]; cbn [negb]; [apply Z.ltb_irrefl|done].
Qed.

Definition answer_key (a : DnsAnswer) : list bytes * list Z :=
  (DnsAnswer.m_Name_ a,
   DnsAnswer.Type_ false a :: DnsAnswer.Rclass false a :: DnsAnswer.Ttl false a :: (DnsAnswer.signed_char <$> DnsAnswer.m_Rdata_ a)).

#[export] Instance signed_char_inj : Inj eq eq DnsAnswer.signed_char.
Proof.
  intros b b' E. unfold DnsAnswer.signed_char in E. pose proof (u8_range b). pose proof (u8_range b').
  apply (inj u8). destruct (Z.ltb_spec (u8 b) 128), (Z.ltb_spec (u8 b') 128); lia.
Qed.

Lemma answer_ordered : ordered_by DnsAnswer.wf DnsAnswer.eqb DnsAnswer.ltb answer_key (lex2 strings_ltb lexltb).
Proof.
  split; intros a b (Ht & Hc & Hl & _) (Ht' & Hc' & Hl' & _).
  - unfold DnsAnswer.eqb. rewrite !andb_true_iff, !bool_decide_eq_true, host_eqb_16, (host_eqb_16 (DnsAnswer.m_Class_ a)), (host_eqb_32 (DnsAnswer.m_Ttl_ a)), !Z.eqb_eq by done.
    unfold answer_key, DnsAnswer.Type_, DnsAnswer.Rclass, DnsAnswer.Ttl. split.
    + by intros ((((-> & ->) & ->) & ->) & ->).
    + intros E. injection E as E1 E2 E3 E4 E5. apply (inj (fmap DnsAnswer.signed_char)) in E5. by rewrite E1, E2, E3, E4, E5.
  - unfold DnsAnswer.ltb, lex2, answer_key. cbn [fst snd lexltb].
    rewrite host_eqb_16, (host_eqb_16 (DnsAnswer.m_Class_ a)), (host_eqb_32 (DnsAnswer.m_Ttl_ a)) by done.
    case_bool_decide; cbn [negb]; [by rewrite decide_True by done|by rewrite decide_False].
Qed.
End keys.

Section packets.
  Context {H : Target}.
  Context (hash64 hash32 hash16 : Z → Z) (hash_string : bytes → Z) (hash_char : byte → Z).

Definition request_fits (p : DnsRequestPacket) : Prop := Forall DnsQuestion.wf (DnsRequestPacket.m_Questions_ p).
Definition response_fits (p : DnsResponsePacket) : Prop :=
  Forall DnsQuestion.wf (DnsResponsePacket.m_Questions_ p) ∧ Forall DnsAnswer.wf (DnsResponsePacket.m_Answers_ p) ∧
  Forall DnsAnswer.wf (DnsResponsePacket.m_Authority_ p) ∧ Forall DnsAnswer.wf (DnsResponsePacket.m_Additional_ p).

Abbreviation question_lt := (lex2 strings_ltb lexltb).
Abbreviation records_lt := (vector_ltb (lex2 strings_ltb lexltb)).

Lemma questions_ordered :
  ordered_by (Forall DnsQuestion.wf) (vector_eqb DnsQuestion.eqb) (vector_ltb DnsQuestion.ltb) (fmap question_key) records_lt.
Proof. apply vector_ordered, question_ordered. Qed.

Lemma answers_ordered :
  ordered_by (Forall DnsAnswer.wf) (vector_eqb DnsAnswer.eqb) (vector_ltb DnsAnswer.ltb) (fmap answer_key) records_lt.
Proof. apply vector_ordered, answer_ordered. Qed.

(** One comparison after the other, on a part that decides equality. *)
Lemma lex2_step {A K L} `{EqDecision K} (ok : A → Prop) eqb ltb (key : A → K) (lt : K → K → bool) (lt2 : L → L → bool)
    (x y : A) (rest : bool) (l l' : L) :
  ordered_by ok eqb ltb key lt → ok x → ok y → rest = lt2 l l' →
  (if negb (eqb x y) then ltb x y else rest) = lex2 lt lt2 (key x, l) (key y, l').
Proof.
  intros [Ke Kl] Hx Hy ->. unfold lex2. cbn [fst snd]. pose proof (Ke x y Hx Hy) as E. destruct (eqb x y); cbn [negb].
  - by rewrite decide_True by by apply E.
  - rewrite decide_False by (intros Ek; by apply E in Ek). by apply Kl.
Qed.

Definition request_key (p : DnsRequestPacket) : list Z * list (list bytes * list Z) :=
  (DnsHeader.members (DnsRequestPacket.m_Header_ p), question_key <$> DnsRequestPacket.m_Questions_ p).

Lemma vector_eqb_ext {A} (f g : A → A → bool) xs : (∀ x y, f x y = g x y) → ∀ ys, vector_eqb f xs ys = vector_eqb g xs ys.
Proof.
  intros E. induction xs as [|x xs IH]; intros [|y ys]; try done. by rewrite !vector_eqb_cons, E, IH.
Qed.

Lemma request_ordered :
  ordered_by request_fits DnsRequestPacket.eqb DnsRequestPacket.ltb request_key (lex2 lexltb records_lt).
Proof.
  split; intros a b Ha Hb.
  - pose proof (key_eq _ _ _ _ _ header_ordered (DnsRequestPacket.m_Header_ a) (DnsRequestPacket.m_Header_ b) I I) as Eh.
    pose proof (key_eq _ _ _ _ _ questions_ordered _ _ Ha Hb) as Eq.
    unfold DnsRequestPacket.eqb, DnsHeader.neqb, request_key.
    rewrite (vector_eqb_ext _ DnsQuestion.eqb) by (intros; unfold DnsQuestion.neqb; apply negb_involutive).
    rewrite pair_equal_spec, <- Eh, <- Eq, <- andb_true_iff. by destruct (DnsHeader.eqb _ _).
  - apply (lex2_step _ _ _ _ _ _ _ _ _ _ _ header_ordered I I). by apply (key_lt _ _ _ _ _ questions_ordered).
Qed.

Definition response_key (p : DnsResponsePacket) :=
  (DnsHeader.members (DnsResponsePacket.m_Header_ p),
   (question_key <$> DnsResponsePacket.m_Questions_ p,
    (answer_key <$> DnsResponsePacket.m_Answers_ p,
     (answer_key <$> DnsResponsePacket.m_Authority_ p, answer_key <$> DnsResponsePacket.m_Additional_ p)))).

Lemma response_ordered :
  ordered_by response_fits DnsResponsePacket.eqb DnsResponsePacket.ltb response_key
    (lex2 lexltb (lex2 records_lt (lex2 records_lt (lex2 records_lt records_lt)))).
Proof.
  split; intros a b (Hq & Ha & Hn & Hx) (Hq' & Ha' & Hn' & Hx').
  - pose proof (key_eq _ _ _ _ _ header_ordered (DnsResponsePacket.m_Header_ a) (DnsResponsePacket.m_Header_ b) I I) as Eh.
    pose proof (key_eq _ _ _ _ _ questions_ordered _ _ Hq Hq') as Eq. pose proof (key_eq _ _ _ _ _ answers_ordered _ _ Ha Ha') as Ea.
    pose proof (key_eq _ _ _ _ _ answers_ordered _ _ Hn Hn') as En. pose proof (key_eq _ _ _ _ _ answers_ordered _ _ Hx Hx') as Ex.
    unfold DnsResponsePacket.eqb, DnsHeader.neqb, response_key. rewrite !pair_equal_spec, <- Eh, <- Eq, <- Ea, <- En, <- Ex.
    destruct (DnsHeader.eqb _ _); cbn [negb]; [|naive_solver]. rewrite !andb_true_iff. naive_solver.
  - unfold DnsResponsePacket.ltb, DnsHeader.neqb, response_key.
    repeat (eapply lex2_step; [first [exact header_ordered | exact questions_ordered | exact answers_ordered]|done|done|]).
    by apply (key_lt _ _ _ _ _ answers_ordered).
Qed.

(** ** Hashes *)

Lemma question_eqb_eq q q' : DnsQuestion.eqb q q' = true → q = q'.
Proof.
  unfold DnsQuestion.eqb. rewrite !andb_true_iff, bool_decide_eq_true, !Z.eqb_eq. destruct q, q'; cbn. by intros [[-> ->] ->].
Qed.

Lemma answer_hash a a' : DnsAnswer.eqb a a' = true →
  DnsAnswer.Hash hash_string hash16 hash32 hash_char a = DnsAnswer.Hash hash_string hash16 hash32 hash_char a'.
Proof.
  unfold DnsAnswer.eqb, DnsAnswer.Hash. rewrite !andb_true_iff, !bool_decide_eq_true, !Z.eqb_eq.
  by intros ((((-> & ->) & ->) & ->) & ->).
Qed.

(** C33: the operators of the packet classes keep the laws of ordered and hashed containers,
    for all values of their members' types: [operator==] is an equivalence, [operator<] a
    strict order that is total on its classes and does not tell equal values apart, and
    equal values have equal hashes, whatever the standard library's hashes are. *)
Theorem comparison_laws :
  container_laws (λ _, True) DnsHeader.eqb DnsHeader.ltb (DnsHeader.Hash hash64 hash32) ∧
  container_laws DnsQuestion.wf DnsQuestion.eqb DnsQuestion.ltb (DnsQuestion.Hash hash_string hash16) ∧
  container_laws DnsAnswer.wf DnsAnswer.eqb DnsAnswer.ltb (DnsAnswer.Hash hash_string hash16 hash32 hash_char) ∧
  container_laws request_fits DnsRequestPacket.eqb DnsRequestPacket.ltb (DnsRequestPacket.Hash hash64 hash32 hash16 hash_string) ∧
  container_laws response_fits DnsResponsePacket.eqb DnsResponsePacket.ltb
    (DnsResponsePacket.Hash hash64 hash32 hash16 hash_string hash_char).
Proof.
  assert (Hq : ∀ xs ys h, vector_eqb DnsQuestion.eqb xs ys = true →
    hash_section (DnsQuestion.Hash hash_string hash16) h xs = hash_section (DnsQuestion.Hash hash_string hash16) h ys).
  { intros xs ys h. apply (hash_section_eq (λ _, True)); [by intros a b _ _ ->%question_eqb_eq|by apply Forall_true..]. }
  assert (Ha : ∀ xs ys h, vector_eqb DnsAnswer.eqb xs ys = true →
    hash_section (DnsAnswer.Hash hash_string hash16 hash32 hash_char) h xs =
    hash_section (DnsAnswer.Hash hash_string hash16 hash32 hash_char) h ys).
  { intros xs ys h. apply (hash_section_eq (λ _, True)); [by intros a b _ _ ?%answer_hash|by apply Forall_true..]. }
  split_and!.
  - apply (ordered_laws _ _ _ _ _ _ header_ordered). by intros a b _ _ ->%DnsHeader.eqb_eq.
  - apply (ordered_laws _ _ _ _ _ _ question_ordered). by intros a b _ _ ->%question_eqb_eq.
  - apply (ordered_laws _ _ _ _ _ _ answer_ordered). by intros a b _ _ ?%answer_hash.
  - apply (ordered_laws _ _ _ _ _ _ request_ordered). intros a b _ _. unfold DnsRequestPacket.eqb, DnsRequestPacket.Hash, DnsHeader.neqb.
    destruct (DnsHeader.eqb _ _) eqn:Eh; [|done]. apply DnsHeader.eqb_eq in Eh as ->. cbn [negb].
    rewrite (vector_eqb_ext _ DnsQuestion.eqb) by (intros; unfold DnsQuestion.neqb; apply negb_involutive). apply Hq.
  - apply (ordered_laws _ _ _ _ _ _ response_ordered). intros a b _ _. unfold DnsResponsePacket.eqb, DnsResponsePacket.Hash, DnsHeader.neqb.
    destruct (DnsHeader.eqb _ _) eqn:Eh; [|done]. apply DnsHeader.eqb_eq in Eh as ->. cbn [negb]. cbv zeta.
    rewrite !andb_true_iff. intros (((E1 & E2) & E3) & E4). by rewrite (Hq _ _ _ E1), (Ha _ _ _ E2), (Ha _ _ _ E3), (Ha _ _ _ E4).
Qed.
End packets.
