(* ===== verification/Overloads.v ===== *)
(** * The constructors from arrays

    The constructor templates of src/include/dns_packet_header.h, dns_packet_question.h,
    dns_packet_answer.h and dns_packet.h that take a C array, a [std::array<char, N>] or a
    [std::array<unsigned char, N>].  An array of [N] bytes is a vector of length [N]; the
    outer option is the compiler's verdict ([None] when [static_assert] rejects the size),
    the inner outcome what the constructor does when the program runs. *)

From Stdlib Require Import ZArith Lia.
From Stdlib Require Import Strings.Byte.
From stdpp Require Import base numbers list option vector.
From S2P Require Import Prelude.
From S2P Require Import Memory.
From S2P Require Import Name.
From S2P Require Import DnsHeader.
From S2P Require Import DnsQuestion.
From S2P Require Import DnsAnswer.
From S2P Require Import WireFormat.
From S2P Require Import DnsRequestPacket.
From S2P Require Import DnsResponsePacket.

(** [static_assert (s_Minimum <= N)] around the body of a constructor. *)
Definition static_assert {A} (holds : bool) (body : outcome A) : option (outcome A) :=
  if holds then Some body else None.

Section constructors.
  Context `{Target} {N : nat}.
  Implicit Type p_Data : vec byte N.

Definition header_array p_Data : option (outcome DnsHeader) :=
  static_assert (HeaderSize <=? N)%nat
    (DnsHeader.construct_from (DnsHeader.FromWire (Some (vec_to_list p_Data)) N DnsHeader.clear)).

(** The constructor without an offset starts at 0 and drops the offset it ends at. *)
Definition question_array_at p_Data (p_Offset : nat) : option (outcome (DnsQuestion * nat)) :=
  static_assert (5 <=? N)%nat (DnsQuestion.construct_wire (Some (vec_to_list p_Data)) N p_Offset).

Definition question_array p_Data : option (outcome (DnsQuestion * nat)) := question_array_at p_Data 0.

Definition answer_array_at p_Data (p_Offset : nat) : option (outcome (DnsAnswer * nat)) :=
  static_assert (10 <=? N)%nat (DnsAnswer.construct_wire (Some (vec_to_list p_Data)) N p_Offset).

Definition answer_array p_Data : option (outcome (DnsAnswer * nat)) := answer_array_at p_Data 0.

(** The packets' templates have no assertion. *)
Definition request_array p_Data : outcome DnsRequestPacket :=
  DnsRequestPacket.construct (Some (vec_to_list p_Data)) N.

Definition response_array p_Data : outcome DnsResponsePacket :=
  DnsResponsePacket.construct (Some (vec_to_list p_Data)) N.

(** ** What they promise *)

(** Where the compiler accepts the array of a header, the constructor does what the one from
    a string of the same bytes does, which never finds the string too short. *)
Lemma header_array_string p_Data :
  header_array p_Data
  = if decide (HeaderSize ≤ N) then Some (DnsHeader.construct_string (vec_to_list p_Data)) else None.
Proof.
  unfold header_array, static_assert, DnsHeader.construct_string. rewrite length_vec_to_list.
  destruct (Nat.leb_spec HeaderSize N), (Nat.ltb_spec N HeaderSize); case_decide; done || lia.
Qed.

(** The record parser needs a name, at least one byte, and ten bytes more. *)
Lemma answer_wire_minimum data p_Size p_Offset :
  p_Size ≤ length data → p_Size < p_Offset + 11 →
  DnsAnswer.construct_wire (Some data) p_Size p_Offset = Throw InvalidArgument.
Proof.
  intros Hd Hs. unfold DnsAnswer.construct_wire.
  destruct (answer_FromWire_reads data p_Size p_Offset DnsAnswer.clear Hd) as ([] & n & a & -> & Hr); [|done].
  destruct (proj1 (Hr a n)) as (m & l & raw & (h & Hn & _) & -> & ? & _); [done|].
  pose proof (name_at_next _ _ _ _ _ _ Hn). lia.
Qed.
End constructors.

(** The assertion of [DnsAnswer] lets through arrays of ten bytes, which hold no record
    whatever is in them. *)
Lemma answer_array_ten `{Target} (p_Data : vec byte 10) :
  answer_array p_Data = Some (Throw InvalidArgument).
Proof.
  unfold answer_array, answer_array_at, static_assert. f_equal.
  apply answer_wire_minimum; rewrite ?length_vec_to_list; lia.
Qed.

Section examples.
  #[local] Existing Instance x86_64.

(** The shortest record and the shortest question there are: that of the root. *)
Example answer_array_eleven :
  ∃ a, answer_array [# x00; x00; x01; x00; x01; x00; x00; x00; x00; x00; x00] = Some (Done (a, 11)).
Proof. eexists. vm_compute. reflexivity. Qed.

Example question_array_five :
  ∃ q, question_array [# x00; x00; x01; x00; x01] = Some (Done (q, 5)) ∧
       question_array [# x00; x00; x01; x00] = None.
Proof. eexists. vm_compute. split; reflexivity. Qed.
End examples.
