(* ===== verification/DnsCache.v ===== *)
(** * The response cache (src/include/dns_cache.h, src/src/dns_cache.cc)

    A map from a lower-case domain name and a query type to a response in wire
    format, the time it was stored and the smallest of its TTLs.  The clock is an
    argument of the operations that read it; the order in which the hash table is
    iterated is a parameter ([HashOrder]).  The theorems say what is
    stored and for how long, that what a hit returns has aged by the time it
    spent in the cache, that a full cache makes room by dropping all expired responses,
    or the one stored first when there are none (so it evicts in the order of storing,
    whether a response was used or not), and that no sequence of operations breaks the
    cache's invariant or its capacity.  What ageing does to a response is described on the
    bytes of any response the packet parser accepts, compressed or not ([places],
    [aged_bytes]). *)

From Stdlib Require Import ZArith Lia ZifyBool.
From Stdlib Require Import Strings.Byte Strings.String.
From stdpp Require Import base numbers list option sets gmap.
From S2P Require Import Prelude.
From S2P Require Import Memory.
From S2P Require Import Utils.
From S2P Require Import Text.
From S2P Require Import Name.
From S2P Require Import DnsHeader.
From S2P Require Import DnsQuestion.
From S2P Require Import DnsAnswer.
From S2P Require Import WireFormat.
From S2P Require Import DnsResponsePacket.

(** ** Reading and writing a response in place *)

Section wire_helpers.
Local Open Scope Z_scope.
Implicit Types (p_Data : bytes) (p_Offset p_Length : nat).

Definition ToLower (p_Input : bytes) : bytes := tolower <$> p_Input.

(** The loop of [SkipDnsName]; 0 is the error result. *)
Fixpoint SkipDnsName_loop (fuel : nat) p_Data p_Length (s_Pos : nat) : outcome nat :=
  match fuel with
  | O => Unfinished
  | S fuel =>
      if (s_Pos <? p_Length)%nat then
        s_Byte ← load p_Data s_Pos;
        if Z.land (u8 s_Byte) 0xC0 =? 0xC0 then Done (s_Pos + 2)%nat
        else if u8 s_Byte =? 0 then Done (s_Pos + 1)%nat
        else SkipDnsName_loop fuel p_Data p_Length (s_Pos + (1 + Z.to_nat (u8 s_Byte)))%nat
      else Done O
  end.

Definition SkipDnsName p_Data p_Length p_Offset : outcome nat :=
  SkipDnsName_loop (S p_Length) p_Data p_Length p_Offset.

Definition ReadUint16 p_Data p_Offset : outcome Z :=
  b0 ← load p_Data p_Offset; b1 ← load p_Data (p_Offset + 1)%nat;
  Done (u16 (Z.lor (Z.shiftl (u8 b0) 8) (u8 b1))).

Definition ReadUint32 p_Data p_Offset : outcome Z :=
  b0 ← load p_Data p_Offset; b1 ← load p_Data (p_Offset + 1)%nat;
  b2 ← load p_Data (p_Offset + 2)%nat; b3 ← load p_Data (p_Offset + 3)%nat;
  Done (Z.lor (Z.lor (Z.lor (u32 (Z.shiftl (u8 b0) 24)) (u32 (Z.shiftl (u8 b1) 16)))
                 (u32 (Z.shiftl (u8 b2) 8))) (u8 b3)).

(** [p[i] = c]. *)
Definition store (p_Data : bytes) (i : nat) (c : byte) : outcome bytes := store_n p_Data i [c].

Definition WriteUint16 p_Data p_Offset (p_Value : Z) : outcome bytes :=
  d ← store p_Data p_Offset (ch (Z.shiftr p_Value 8));
  store d (p_Offset + 1)%nat (ch (Z.land p_Value 0xFF)).

Definition WriteUint32 p_Data p_Offset (p_Value : Z) : outcome bytes :=
  d ← store p_Data p_Offset (ch (Z.land (Z.shiftr p_Value 24) 0xFF));
  d ← store d (p_Offset + 1)%nat (ch (Z.land (Z.shiftr p_Value 16) 0xFF));
  d ← store d (p_Offset + 2)%nat (ch (Z.land (Z.shiftr p_Value 8) 0xFF));
  store d (p_Offset + 3)%nat (ch (Z.land p_Value 0xFF)).

(** The question loop of both functions; [None] is their error return. *)
Fixpoint SkipQuestions (k : nat) p_Data p_Length (s_Offset : nat) : outcome (option nat) :=
  match k with
  | O => Done (Some s_Offset)
  | S k =>
      s_Offset ← SkipDnsName p_Data p_Length s_Offset;
      if (s_Offset =? 0)%nat then Done None else
      let s_Offset := (s_Offset + 4)%nat in
      if (p_Length <? s_Offset)%nat then Done None
      else SkipQuestions k p_Data p_Length s_Offset
  end.

(** What [ExtractMinTtl] makes of the minimum when it returns. *)
Definition min_or_zero (s_MinTtl : Z) : Z := if s_MinTtl =? UINT32_MAX then 0 else s_MinTtl.

(** The record loop of [ExtractMinTtl], [k] records left. *)
Fixpoint MinTtl_loop (k : nat) p_Data p_Length (s_Offset : nat) (s_MinTtl : Z) : outcome Z :=
  match k with
  | O => Done (min_or_zero s_MinTtl)
  | S k =>
      s_Offset ← SkipDnsName p_Data p_Length s_Offset;
      if ((s_Offset =? 0) || (p_Length <? s_Offset + 10))%nat then Done (min_or_zero s_MinTtl) else
      s_Type ← ReadUint16 p_Data s_Offset;
      s_Ttl ← ReadUint32 p_Data (s_Offset + 4)%nat;
      s_Rdlength ← ReadUint16 p_Data (s_Offset + 8)%nat;
      let s_MinTtl := if negb (s_Type =? 41) then Z.min s_MinTtl s_Ttl else s_MinTtl in
      let s_Offset := (s_Offset + (10 + Z.to_nat s_Rdlength))%nat in
      if (p_Length <? s_Offset)%nat then Done (min_or_zero s_MinTtl)
      else MinTtl_loop k p_Data p_Length s_Offset s_MinTtl
  end.

Definition ExtractMinTtl p_Data p_Length : outcome Z :=
  if (p_Length <? 12)%nat then Done 0 else
  s_Qdcount ← ReadUint16 p_Data 4%nat; s_Ancount ← ReadUint16 p_Data 6%nat;
  s_Nscount ← ReadUint16 p_Data 8%nat; s_Arcount ← ReadUint16 p_Data 10%nat;
  let s_TotalRr := u16 (s_Ancount + s_Nscount + s_Arcount) in
  if s_TotalRr =? 0 then Done 0 else
  s_Offset ← SkipQuestions (Z.to_nat s_Qdcount) p_Data p_Length 12%nat;
  match s_Offset with
  | None => Done 0
  | Some s_Offset => MinTtl_loop (Z.to_nat s_TotalRr) p_Data p_Length s_Offset UINT32_MAX
  end.

(** The record loop of [AdjustTtls] on the response it changes. *)
Fixpoint AdjustTtls_loop (k : nat) (p_Response : bytes) (p_Elapsed : Z) (s_Offset : nat)
    : outcome (bool * bytes) :=
  match k with
  | O => Done (true, p_Response)
  | S k =>
      let s_Length := length p_Response in
      s_Offset ← SkipDnsName p_Response s_Length s_Offset;
      if ((s_Offset =? 0) || (s_Length <? s_Offset + 10))%nat then Done (false, p_Response) else
      s_Type ← ReadUint16 p_Response s_Offset;
      s_Rdlength ← ReadUint16 p_Response (s_Offset + 8)%nat;
      p_Response ←
        (if negb (s_Type =? 41) then
           s_Ttl ← ReadUint32 p_Response (s_Offset + 4)%nat;
           let s_NewTtl := if p_Elapsed <? s_Ttl then s_Ttl - p_Elapsed else 1 in
           WriteUint32 p_Response (s_Offset + 4)%nat s_NewTtl
         else Done p_Response);
      let s_Offset := (s_Offset + (10 + Z.to_nat s_Rdlength))%nat in
      if (s_Length <? s_Offset)%nat then Done (false, p_Response)
      else AdjustTtls_loop k p_Response p_Elapsed s_Offset
  end.

Definition AdjustTtls (p_Response : bytes) (p_Elapsed : Z) : outcome (bool * bytes) :=
  if (length p_Response <? 12)%nat || (p_Elapsed =? 0) then Done (true, p_Response) else
  s_Qdcount ← ReadUint16 p_Response 4%nat; s_Ancount ← ReadUint16 p_Response 6%nat;
  s_Nscount ← ReadUint16 p_Response 8%nat; s_Arcount ← ReadUint16 p_Response 10%nat;
  let s_TotalRr := u16 (s_Ancount + s_Nscount + s_Arcount) in
  if s_TotalRr =? 0 then Done (true, p_Response) else
  s_Offset ← SkipQuestions (Z.to_nat s_Qdcount) p_Response (length p_Response) 12%nat;
  match s_Offset with
  | None => Done (false, p_Response)
  | Some s_Offset => AdjustTtls_loop (Z.to_nat s_TotalRr) p_Response p_Elapsed s_Offset
  end.
End wire_helpers.

(** ** The cache *)

(** [CacheKey]: the domain in lower case and the query type. *)
Abbreviation CacheKey := (bytes * Z)%type.

Record CacheEntry : Type := {
  response : bytes;
  insert_time : Z;
  min_ttl : Z
}.

#[export] Instance CacheEntry_eq_dec : EqDecision CacheEntry.
Proof. solve_decision. Defined.

Record DnsCache : Type := {
  m_Cache_ : gmap CacheKey CacheEntry;
  m_MaxEntries_ : nat
}.

(** The order in which the hash table is iterated: any, but every element once. *)
Class HashOrder := {
  iterate : gmap CacheKey CacheEntry → list (CacheKey * CacheEntry);
  iterate_perm m : iterate m ≡ₚ map_to_list m
}.

(** The elements in the order of their keys' encodings. *)
Definition key_order : HashOrder := {| iterate := map_to_list; iterate_perm m := Permutation_refl _ |}.

(** [std::min_element]: the first of the smallest elements; [None] is [end()]. *)
Definition min_element {A} (lt : A → A → bool) (xs : list A) : option A :=
  match xs with
  | [] => None
  | x :: xs => Some (fold_left (λ s y, if lt y s then y else s) xs x)
  end.

Section operations.
  Context {O : HashOrder}.
  Implicit Types (c : DnsCache) (p_Domain : bytes) (p_Qtype : Z).

Definition with_Cache (m : gmap CacheKey CacheEntry) c : DnsCache :=
  {| m_Cache_ := m; m_MaxEntries_ := m_MaxEntries_ c |}.

(** The constructor. *)
Definition make (p_MaxEntries : nat) : DnsCache := {| m_Cache_ := ∅; m_MaxEntries_ := p_MaxEntries |}.

(** Whole seconds since an entry was stored; time points are in nanoseconds. *)
Definition elapsed (s_Now : Z) (e : CacheEntry) : Z := Z.quot (s_Now - insert_time e) 1000000000.

Definition expired (s_Now : Z) (e : CacheEntry) : bool := (min_ttl e <=? elapsed s_Now e)%Z.

Definition Size c : nat := base.size (m_Cache_ c).
Definition Clear c : DnsCache := with_Cache ∅ c.

(** The loop erases the expired entries it comes across. *)
Definition EvictExpired (s_Now : Z) c : DnsCache :=
  with_Cache (fold_left (λ m '(k, e), if expired s_Now e then delete k m else m)
                (iterate (m_Cache_ c)) (m_Cache_ c)) c.

(** The result, the output parameter and the cache. *)
Definition Lookup (s_Now : Z) p_Domain p_Qtype (p_TxnId : Z) (p_Output : bytes) c
    : outcome (bool * bytes * DnsCache) :=
  let s_Key := (ToLower p_Domain, p_Qtype) in
  match m_Cache_ c !! s_Key with
  | None => Done (false, p_Output, c)
  | Some s_Entry =>
      if expired s_Now s_Entry then Done (false, p_Output, with_Cache (delete s_Key (m_Cache_ c)) c) else
      let p_Output := response s_Entry in
      p_Output ← (if 2 <=? length p_Output then WriteUint16 p_Output 0 p_TxnId else Done p_Output);
      '(_, p_Output) ← AdjustTtls p_Output (u32 (elapsed s_Now s_Entry));
      Done (true, p_Output, c)
  end.

(** Make room for a new key: [Undef] is [erase(end())]. *)
Definition MakeRoom (s_Now : Z) c : outcome DnsCache :=
  let c := EvictExpired s_Now c in
  if m_MaxEntries_ c <=? Size c then
    match min_element (λ a b, (insert_time a.2 <? insert_time b.2)%Z) (iterate (m_Cache_ c)) with
    | None => Undef
    | Some s_Oldest => Done (with_Cache (delete s_Oldest.1 (m_Cache_ c)) c)
    end
  else Done c.

(** The clock is read in [EvictExpired] and when the entry is stored. *)
Definition Insert (s_Evict s_Now : Z) p_Domain p_Qtype (p_Response : bytes) c : outcome DnsCache :=
  if length p_Response <? 12 then Done c else
  s_MinTtl ← ExtractMinTtl p_Response (length p_Response);
  if (s_MinTtl =? 0)%Z then Done c else
  let s_Key := (ToLower p_Domain, p_Qtype) in
  c ← (if (m_MaxEntries_ c <=? Size c) && negb (bool_decide (is_Some (m_Cache_ c !! s_Key)))
       then MakeRoom s_Evict c else Done c);
  Done (with_Cache (<[s_Key := {| response := p_Response; insert_time := s_Now; min_ttl := s_MinTtl |}]>
          (m_Cache_ c)) c).
End operations.

(** ** Reads and writes are big-endian loads and stores *)

Section loads.
Local Open Scope Z_scope.
Implicit Types (data : bytes) (o : nat).

Lemma load_take data o n b :
  load data o = Done b → take (S n) (drop o data) = b :: take n (drop (S o) data).
Proof.
  intros E%load_Done. rewrite (drop_S data b o E). done.
Qed.

Lemma ReadUint16_Done data o :
  (o + 2 <= length data)%nat → ReadUint16 data o = Done (be_join (take 2 (drop o data))).
Proof.
  intros Hl. unfold ReadUint16.
  destruct (load_lookup data o) as (b0 & E0 & _); [lia|].
  destruct (load_lookup data (o + 1)) as (b1 & E1 & _); [lia|]. rewrite E0, E1, !bind_done.
  rewrite (load_take _ _ _ _ E0). replace (S o) with (o + 1)%nat by lia. rewrite (load_take _ _ _ _ E1).
  rewrite take_0, be_join_2, (lor_shiftl (u8 b0) (u8 b1) 8) by (pose proof (u8_range b1); simpl; lia).
  f_equal. byte_lia.
Qed.

Lemma be_join_4 b0 b1 b2 b3 :
  be_join [b0; b1; b2; b3] = 16777216 * u8 b0 + 65536 * u8 b1 + 256 * u8 b2 + u8 b3.
Proof. unfold be_join. simpl. lia. Qed.

Lemma lor_32 b0 b1 b2 b3 :
  Z.lor (Z.lor (Z.lor (u32 (Z.shiftl (u8 b0) 24)) (u32 (Z.shiftl (u8 b1) 16))) (u32 (Z.shiftl (u8 b2) 8)))
    (u8 b3) = 16777216 * u8 b0 + 65536 * u8 b1 + 256 * u8 b2 + u8 b3.
Proof.
  pose proof (u8_range b0); pose proof (u8_range b1); pose proof (u8_range b2); pose proof (u8_range b3).
  assert (E : ∀ b k, 0 ≤ k ≤ 24 → u32 (Z.shiftl (u8 b) k) = Z.shiftl (u8 b) k).
  { intros b k Hk. apply u32_small. rewrite Z.shiftl_mul_pow2 by lia. pose proof (u8_range b).
    pose proof (Z.pow_le_mono_r 2 k 24). simpl in *. nia. }
  rewrite !E, <- !Z.lor_assoc by lia.
  rewrite (lor_shiftl (u8 b2) (u8 b3) 8) by (simpl; lia).
  rewrite (lor_shiftl (u8 b1) _ 16), (lor_shiftl (u8 b0) _ 24) by (simpl; lia). simpl. lia.
Qed.

Lemma ReadUint32_Done data o :
  (o + 4 <= length data)%nat → ReadUint32 data o = Done (be_join (take 4 (drop o data))).
Proof.
  intros Hl. unfold ReadUint32.
  destruct (load_lookup data o) as (b0 & E0 & _); [lia|].
  destruct (load_lookup data (o + 1)) as (b1 & E1 & _); [lia|].
  destruct (load_lookup data (o + 2)) as (b2 & E2 & _); [lia|].
  destruct (load_lookup data (o + 3)) as (b3 & E3 & _); [lia|]. rewrite E0, E1, E2, E3, !bind_done.
  rewrite (load_take _ _ _ _ E0). replace (S o) with (o + 1)%nat by lia.
  rewrite (load_take _ _ _ _ E1). replace (S (o + 1)) with (o + 2)%nat by lia.
  rewrite (load_take _ _ _ _ E2). replace (S (o + 2)) with (o + 3)%nat by lia.
  rewrite (load_take _ _ _ _ E3). by rewrite take_0, be_join_4, lor_32.
Qed.

Lemma ch_mod z : ch (z mod 256) = ch z.
Proof. unfold ch. by rewrite Z.mod_mod. Qed.

Lemma WriteUint16_Done data o v :
  (o + 2 <= length data)%nat → WriteUint16 data o v = Done (splice data o (be_split 2 v)).
Proof.
  intros Hl. unfold WriteUint16, store. rewrite store_n_Done by (simpl; lia). rewrite bind_done.
  rewrite store_n_next by (simpl; lia). do 2 f_equal. rewrite be_split_2, land_255, Z.shiftr_div_pow2 by lia.
  by rewrite ch_mod.
Qed.

Lemma be_split_4 v : be_split 4 v = [ch (v / 256 / 256 / 256); ch (v / 256 / 256); ch (v / 256); ch v].
Proof. reflexivity. Qed.

Lemma WriteUint32_Done data o v :
  (o + 4 <= length data)%nat → WriteUint32 data o v = Done (splice data o (be_split 4 v)).
Proof.
  intros Hl. unfold WriteUint32, store. rewrite store_n_Done by (simpl; lia). rewrite bind_done.
  do 3 (rewrite store_n_next, ?bind_done by (rewrite ?length_app; simpl length; lia)).
  do 2 f_equal. rewrite be_split_4, !land_255, !Z.shiftr_div_pow2 by lia.
  by rewrite !ch_mod, !Z.div_div by lia.
Qed.
End loads.

(** ** Skipping names *)

Section skipping.
Implicit Types (data : bytes) (p_Length o : nat).

Lemma SkipDnsName_loop_S fuel data p_Length o :
  SkipDnsName_loop (S fuel) data p_Length o =
    if o <? p_Length then
      b ← load data o;
      if (Z.land (u8 b) 0xC0 =? 0xC0)%Z then Done (o + 2)
      else if (u8 b =? 0)%Z then Done (o + 1)
      else SkipDnsName_loop fuel data p_Length (o + (1 + Z.to_nat (u8 b)))
    else Done 0.
Proof. done. Qed.

(** The loop finds an offset after the name, or runs past the end. *)
Lemma SkipDnsName_loop_spec fuel data p_Length o :
  p_Length ≤ length data → p_Length ≤ fuel + o →
  ∃ n, SkipDnsName_loop (S fuel) data p_Length o = Done n ∧ (n = 0 ∨ o < n ≤ p_Length + 1).
Proof.
  intros Hd. revert o. induction fuel as [|fuel IH]; intros o Hf; rewrite SkipDnsName_loop_S;
    (destruct (Nat.ltb_spec o p_Length) as [Ho|Ho]; [|by eexists; eauto]); [lia|].
  destruct (load_lookup data o) as (b & -> & _); [lia|]. rewrite bind_done.
  destruct (Z.land (u8 b) 0xC0 =? 0xC0)%Z; [eexists; split; [done|lia]|].
  destruct (Z.eqb_spec (u8 b) 0) as [|Hb]; [eexists; split; [done|lia]|].
  destruct (IH (o + (1 + Z.to_nat (u8 b)))) as (n & -> & Hn); [lia|].
  eexists; split; [done|lia].
Qed.

Lemma SkipDnsName_returns data p_Length o :
  p_Length ≤ length data →
  ∃ n, SkipDnsName data p_Length o = Done n ∧ (n = 0 ∨ o < n ≤ p_Length + 1).
Proof. intros. apply SkipDnsName_loop_spec; lia. Qed.

(** Where the packet parser finds a name, skipping finds its end. *)
Lemma SkipDnsName_loop_name fuel data p_Length o labels next h :
  name_at data p_Length o labels next h → p_Length < fuel + o →
  SkipDnsName_loop fuel data p_Length o = Done next.
Proof.
  intros Hn. revert fuel. induction Hn as
    [o Ho E | o b l labels next h Ho E Hb Hl Hs _ _ IH | o b0 b1 labels next h Ho E0 Hb E1 _ _];
    intros fuel Hf; (destruct fuel as [|fuel]; [lia|]); cbn [SkipDnsName_loop];
    (destruct (Nat.ltb_spec o p_Length); [|lia]).
  - apply load_Done in E as ->. rewrite bind_done. change (u8 x00) with 0%Z. simpl. by rewrite Nat.add_1_r.
  - apply load_Done in E as ->. rewrite bind_done, land_C0.
    destruct (Z.leb_spec 192 (u8 b)), (Z.eqb_spec (u8 b) 0); try lia.
    rewrite <- Hl. rewrite <- (IH fuel) by lia. f_equal. lia.
  - apply load_Done in E0 as ->. rewrite bind_done, land_C0. by destruct (Z.leb_spec 192 (u8 b0)); [|lia].
Qed.

Lemma SkipDnsName_name data p_Length o labels next :
  name_from data p_Length o labels next → SkipDnsName data p_Length o = Done next.
Proof. intros (h & Hn & _). eapply SkipDnsName_loop_name; [done|lia]. Qed.

(** Skipping reads nothing from its result on. *)
Lemma SkipDnsName_frame data data' p_Length o n :
  SkipDnsName data p_Length o = Done n → n ≠ 0 →
  (∀ j, j < n → data' !! j = data !! j) → SkipDnsName data' p_Length o = Done n.
Proof.
  unfold SkipDnsName. generalize (S p_Length). intros fuel. revert o.
  induction fuel as [|fuel IH]; intros o; cbn [SkipDnsName_loop]; [done|].
  destruct (Nat.ltb_spec o p_Length); [|by intros [= <-]].
  destruct (load data o) as [b| | | |] eqn:Eb; try done. rewrite bind_done. intros E Hn Heq.
  assert (o < n) as Ho.
  { destruct (_ =? _)%Z; [simplify_eq; lia|]. destruct (_ =? _)%Z; [simplify_eq; lia|].
    assert (∀ o, SkipDnsName_loop fuel data p_Length o = Done n → n = 0 ∨ o < n) as Hlt.
    { clear -fuel. induction fuel as [|fuel IH]; intros o; cbn [SkipDnsName_loop]; [done|].
      destruct (_ <? _); [|intros [= <-]; by left]. destruct (load data o); try done. rewrite bind_done.
      destruct (_ =? _)%Z; [intros [= <-]; lia|]. destruct (_ =? _)%Z; [intros [= <-]; lia|].
      intros [?|?]%IH; lia. }
    apply Hlt in E. lia. }
  apply load_Done in Eb. rewrite <- (Heq o Ho) in Eb. apply load_Done in Eb. rewrite Eb, bind_done.
  destruct (_ =? _)%Z; [done|]. destruct (_ =? _)%Z; [done|]. by apply IH.
Qed.

(** The question loop: its offset stays inside the packet. *)
Lemma SkipQuestions_returns k data p_Length o :
  p_Length ≤ length data → o ≤ p_Length →
  ∃ r, SkipQuestions k data p_Length o = Done r ∧ ∀ o', r = Some o' → o ≤ o' ≤ p_Length.
Proof.
  intros Hd. revert o. induction k as [|k IH]; intros o Ho; cbn [SkipQuestions].
  - eexists. split; [done|]. intros o' [= <-]. lia.
  - destruct (SkipDnsName_returns data p_Length o Hd) as (n & -> & Hn). rewrite bind_done.
    destruct (Nat.eqb_spec n 0); [by eexists|].
    destruct (Nat.ltb_spec p_Length (n + 4)); [by eexists|].
    destruct (IH (n + 4)) as (r & -> & Hr); [lia|]. eexists. split; [done|].
    intros o' Ho'. specialize (Hr o' Ho'). lia.
Qed.

Lemma SkipQuestions_frame k data data' p_Length o o' :
  SkipQuestions k data p_Length o = Done (Some o') → (∀ j, j < o' → data' !! j = data !! j) →
  p_Length ≤ length data → SkipQuestions k data' p_Length o = Done (Some o').
Proof.
  intros E Heq Hd. revert o E. induction k as [|k IH]; intros o; cbn [SkipQuestions]; [done|].
  destruct (SkipDnsName_returns data p_Length o Hd) as (n & En & Hn). rewrite En, bind_done.
  destruct (Nat.eqb_spec n 0); [done|]. destruct (Nat.ltb_spec p_Length (n + 4)) as [|Hle]; [done|].
  intros E. destruct (SkipQuestions_returns k data p_Length (n + 4) Hd Hle) as (r & E' & Hr).
  rewrite E in E'. simplify_eq. specialize (Hr _ eq_refl).
  rewrite (SkipDnsName_frame data data' p_Length o n) by (done || (intros j ?; apply Heq; lia)).
  rewrite bind_done. destruct (Nat.eqb_spec n 0); [done|]. destruct (Nat.ltb_spec p_Length (n + 4)); [lia|].
  by apply IH.
Qed.

Lemma SkipQuestions_section `{Target} data p_Length o (qs : list DnsQuestion) next :
  section_at data p_Length o qs next →
  SkipQuestions (length qs) data p_Length o = Done (Some next).
Proof.
  induction 1 as [o|o q m qs next (n & h & Hn & Hh & Hs & -> & _) _ IH]; cbn [length SkipQuestions]; [done|].
  rewrite (SkipDnsName_name data p_Length o (m_Qname_ q) n) by by exists h. rewrite bind_done.
  apply name_at_next in Hn. destruct (Nat.eqb_spec n 0); [lia|].
  by destruct (Nat.ltb_spec p_Length (n + 4)); [lia|].
Qed.
End skipping.

(** ** The record loops *)

(** The fields of a record whose name ends at [n]. *)
Definition rr_type (data : bytes) (n : nat) : Z := be_join (take 2 (drop n data)).
Definition rr_ttl (data : bytes) (n : nat) : Z := be_join (take 4 (drop (n + 4) data)).
Definition rr_next (data : bytes) (n : nat) : nat :=
  n + (10 + Z.to_nat (be_join (take 2 (drop (n + 8) data)))).

(** A TTL after some seconds in the cache. *)
Definition aged_ttl (p_Elapsed s_Ttl : Z) : Z := (if p_Elapsed <? s_Ttl then s_Ttl - p_Elapsed else 1)%Z.

Definition aged_record (p_Elapsed : Z) (data : bytes) (n : nat) : bytes :=
  if (rr_type data n =? 41)%Z then data
  else splice data (n + 4) (be_split 4 (aged_ttl p_Elapsed (rr_ttl data n))).

Section record_loops.
Local Open Scope Z_scope.
Implicit Types (data : bytes) (p_Length o n : nat) (e m t : Z).

Lemma MinTtl_loop_S k data p_Length o m n :
  (p_Length <= length data)%nat → SkipDnsName data p_Length o = Done n →
  MinTtl_loop (S k) data p_Length o m =
    if ((n =? 0) || (p_Length <? n + 10))%nat then Done (min_or_zero m) else
    let m' := if rr_type data n =? 41 then m else Z.min m (rr_ttl data n) in
    if (p_Length <? rr_next data n)%nat then Done (min_or_zero m')
    else MinTtl_loop k data p_Length (rr_next data n) m'.
Proof.
  intros Hd E. cbn [MinTtl_loop]. rewrite E, bind_done.
  destruct (_ || _)%bool eqn:Eb; [done|]. apply orb_false_iff in Eb as [_ Eb%Nat.ltb_ge].
  rewrite !ReadUint16_Done, ReadUint32_Done by lia. rewrite !bind_done.
  unfold rr_type, rr_ttl, rr_next. by destruct (_ =? 41).
Qed.

Lemma AdjustTtls_loop_S k data e o n :
  SkipDnsName data (length data) o = Done n →
  AdjustTtls_loop (S k) data e o =
    if ((n =? 0) || (length data <? n + 10))%nat then Done (false, data) else
    let data' := aged_record e data n in
    if (length data <? rr_next data n)%nat then Done (false, data')
    else AdjustTtls_loop k data' e (rr_next data n).
Proof.
  intros E. cbn [AdjustTtls_loop]. rewrite E, bind_done.
  destruct (_ || _)%bool eqn:Eb; [done|]. apply orb_false_iff in Eb as [_ Eb%Nat.ltb_ge].
  rewrite !ReadUint16_Done by lia. rewrite !bind_done. unfold aged_record. fold (rr_type data n).
  destruct (rr_type data n =? 41); cbn [negb]; [by rewrite bind_done|].
  rewrite ReadUint32_Done, bind_done by lia. rewrite WriteUint32_Done by lia. by rewrite bind_done.
Qed.

(** The minimum loop returns on every input. *)
Lemma MinTtl_loop_returns k data p_Length o m :
  (p_Length <= length data)%nat → returns (MinTtl_loop k data p_Length o m).
Proof.
  intros Hd. revert o m. induction k as [|k IH]; intros o m; [apply returns_Done|].
  destruct (SkipDnsName_returns data p_Length o Hd) as (n & E & _).
  rewrite (MinTtl_loop_S _ _ _ _ _ n) by done. cbv zeta.
  destruct (_ || _)%bool; [apply returns_Done|]. destruct (_ <? _)%nat; [apply returns_Done|apply IH].
Qed.

(** Stretches of two buffers that agree. *)
Lemma stretch_eq data data' o k :
  length data = length data' →
  (∀ j, (o <= j < o + k)%nat → data' !! j = data !! j) → take k (drop o data') = take k (drop o data).
Proof.
  intros Hl Heq. apply list_eq. intros i. destruct (Nat.lt_ge_cases i k).
  - rewrite !lookup_take_lt, !lookup_drop by done. apply Heq. lia.
  - rewrite !lookup_take_ge by done. done.
Qed.

(** The minimum loop reads nothing before its offset. *)
Lemma SkipDnsName_from data data' p_Length o :
  (∀ j, (o <= j)%nat → data' !! j = data !! j) → SkipDnsName data' p_Length o = SkipDnsName data p_Length o.
Proof.
  unfold SkipDnsName. generalize (S p_Length). intros fuel. revert o.
  induction fuel as [|fuel IH]; intros o Heq; [done|]. rewrite !SkipDnsName_loop_S.
  destruct (o <? p_Length)%nat; [|done]. unfold load. rewrite Heq by lia.
  destruct (data !! o); [|done]. rewrite !bind_done. do 2 (destruct (_ =? _); [done|]).
  apply IH. intros j Hj. apply Heq. lia.
Qed.

Lemma SkipQuestions_from k data data' p_Length o :
  (p_Length <= length data)%nat → (∀ j, (o <= j)%nat → data' !! j = data !! j) →
  SkipQuestions k data' p_Length o = SkipQuestions k data p_Length o.
Proof.
  intros Hd. revert o. induction k as [|k IH]; intros o Heq; [done|]. cbn [SkipQuestions].
  rewrite (SkipDnsName_from data data') by done.
  destruct (SkipDnsName_returns data p_Length o Hd) as (n & -> & Hn). rewrite !bind_done.
  destruct (Nat.eqb_spec n 0); [done|]. destruct (_ <? _)%nat; [done|]. apply IH.
  intros j Hj. apply Heq. lia.
Qed.

Lemma MinTtl_loop_from k data data' p_Length o m :
  (p_Length <= length data)%nat → length data' = length data →
  (∀ j, (o <= j)%nat → data' !! j = data !! j) →
  MinTtl_loop k data' p_Length o m = MinTtl_loop k data p_Length o m.
Proof.
  intros Hd Hd'. revert o m. induction k as [|k IH]; intros o m Heq; [done|].
  destruct (SkipDnsName_returns data p_Length o Hd) as (n & E & Hn).
  rewrite (MinTtl_loop_S _ data _ _ _ n) by done.
  rewrite (MinTtl_loop_S _ data' _ _ _ n) by (lia || by rewrite (SkipDnsName_from data)).
  destruct (Nat.eqb_spec n 0); [done|]. cbn [orb]. destruct (p_Length <? n + 10)%nat; [done|].
  assert (Hs : ∀ i w, (o <= i)%nat → take w (drop i data') = take w (drop i data)).
  { intros i w Hi. apply stretch_eq; [done|]. intros j Hj. apply Heq. lia. }
  unfold rr_type, rr_ttl, rr_next. rewrite !Hs by lia. cbv zeta.
  destruct (_ <? _)%nat; [done|]. apply IH. intros j Hj. apply Heq. lia.
Qed.

Lemma rr_ttl_range data n : 0 <= rr_ttl data n <= UINT32_MAX.
Proof.
  unfold rr_ttl, UINT32_MAX. pose proof (be_join_bound (take 4 (drop (n + 4) data))) as Hb.
  pose proof (length_take (drop (n + 4) data) 4) as Hl.
  assert (width (length (take 4 (drop (n + 4) data))) <= width 4).
  { unfold width. apply Z.pow_le_mono_r; lia. }
  change (width 4) with 4294967296 in *. lia.
Qed.

Lemma aged_record_length e data n : (n + 10 <= length data)%nat → length (aged_record e data n) = length data.
Proof.
  intros. unfold aged_record. destruct (_ =? _); [done|]. apply length_splice. rewrite length_be_split. lia.
Qed.

(** Ageing a record changes the bytes of its TTL only. *)
Lemma aged_record_lookup e data n j :
  (n + 10 <= length data)%nat → (j < n + 4 \/ n + 8 <= j)%nat → aged_record e data n !! j = data !! j.
Proof.
  intros Hl Hj. unfold aged_record. destruct (_ =? _); [done|].
  apply lookup_splice_old; rewrite length_be_split; lia.
Qed.

Lemma aged_record_fields e data n data' :
  (n + 10 <= length data)%nat → length data' = length data →
  (∀ j, (j < n + 10)%nat → data' !! j = aged_record e data n !! j) →
  0 <= e < 4294967296 →
  rr_type data' n = rr_type data n ∧ rr_next data' n = rr_next data n ∧
  rr_ttl data' n = if rr_type data n =? 41 then rr_ttl data n else aged_ttl e (rr_ttl data n).
Proof.
  intros Hl Hl' Heq He. unfold rr_type at 1, rr_next at 1.
  assert (Hs : ∀ o k, (o + k <= n + 4 ∨ n + 8 <= o ∧ o + k <= n + 10)%nat →
                 take k (drop o data') = take k (drop o data)).
  { intros o k Hok. apply stretch_eq; [done|]. intros j Hj.
    rewrite Heq by lia. apply aged_record_lookup; lia. }
  rewrite !Hs by lia. split_and!; [done..|].
  unfold rr_ttl at 1. rewrite (stretch_eq (aged_record e data n) data');
    [|by rewrite aged_record_length|intros j Hj; apply Heq; lia].
  unfold aged_record. destruct (_ =? 41); [done|].
  rewrite <- (take_drop (n + 4) data) at 1.
  set (t := aged_ttl e (rr_ttl data n)).
  assert (Ht : 0 <= t < width 4).
  { unfold t, aged_ttl, rr_ttl. pose proof (be_join_bound (take 4 (drop (n + 4) data))) as Hb.
    rewrite length_take, length_drop in Hb. replace (_ `min` _)%nat with 4%nat in Hb by lia.
    unfold width in *. simpl in *. destruct (Z.ltb_spec e (be_join (take 4 (drop (n + 4) data)))); lia. }
  rewrite take_drop. unfold splice. rewrite drop_app_length' by (rewrite length_take; lia).
  rewrite take_app_length' by (by rewrite length_be_split). by apply be_join_split_small.
Qed.

(** The minimum of the aged TTLs is the aged minimum; [UINT32_MAX] stands for none. *)
Definition aged_min e t t' : Prop := t' = t - e ∨ (t = UINT32_MAX ∧ t' = UINT32_MAX).

(** What both loops make of the records after [n]. *)
Definition adjusted k data e o : Prop :=
  ∃ r data', AdjustTtls_loop k data e o = Done (r, data') ∧ length data' = length data ∧
    (∀ j, (j < o)%nat → data' !! j = data !! j) ∧
    ∀ m m', ∃ t t', MinTtl_loop k data (length data) o m = Done (min_or_zero t) ∧
      MinTtl_loop k data' (length data) o m' = Done (min_or_zero t') ∧
      t <= m ∧ (e < t → aged_min e m m' → aged_min e t t').

Lemma AdjustTtls_rest k data e n :
  (∀ data o, adjusted k data e o) → (n + 10 <= length data)%nat →
  ∃ r data', (if (length data <? rr_next data n)%nat then Done (false, aged_record e data n)
              else AdjustTtls_loop k (aged_record e data n) e (rr_next data n)) = Done (r, data') ∧
    length data' = length data ∧ (∀ j, (j < n + 10)%nat → data' !! j = aged_record e data n !! j) ∧
    ∀ m m', ∃ t t',
      (if (length data <? rr_next data n)%nat then Done (min_or_zero m)
       else MinTtl_loop k data (length data) (rr_next data n) m) = Done (min_or_zero t) ∧
      (if (length data <? rr_next data n)%nat then Done (min_or_zero m')
       else MinTtl_loop k data' (length data) (rr_next data n) m') = Done (min_or_zero t') ∧
      t <= m ∧ (e < t → aged_min e m m' → aged_min e t t').
Proof.
  intros IH Hn. pose proof (aged_record_length e data n Hn) as Hl.
  destruct (Nat.ltb_spec (length data) (rr_next data n)).
  { eexists _, _. split_and!; [done..|]. intros m m'. exists m, m'. split_and!; done || lia. }
  destruct (IH (aged_record e data n) (rr_next data n)) as (r & data' & E & Hl' & Heq & Hmin).
  exists r, data'. split_and!; [done|lia| |].
  - intros j Hj. apply Heq. unfold rr_next. lia.
  - intros m m'. destruct (Hmin m m') as (t & t' & Et & Et' & ?). exists t, t'.
    rewrite Hl in Et, Et'. split_and!; [|done|tauto|tauto].
    rewrite <- Et. symmetry. apply MinTtl_loop_from; [lia|lia|].
    intros j Hj. apply aged_record_lookup; [done|]. unfold rr_next in Hj. lia.
Qed.

Lemma AdjustTtls_loop_min k data e o :
  0 <= e < 4294967296 → adjusted k data e o.
Proof.
  intros He. revert data o. induction k as [|k IH]; intros data o.
  { eexists _, _. split; [done|]. split_and!; [done..|]. intros m m'. exists m, m'. split_and!; done || lia. }
  destruct (SkipDnsName_returns data (length data) o (le_n _)) as (n & E & Hn).
  unfold adjusted. rewrite (AdjustTtls_loop_S _ _ _ _ n) by done. cbv zeta.
  destruct (_ || _)%bool eqn:Eb.
  { eexists _, _. split; [done|]. split_and!; [done..|]. intros m m'. exists m, m'.
    rewrite !(MinTtl_loop_S _ _ _ _ _ n), Eb by done. split_and!; done || lia. }
  apply orb_false_iff in Eb as [Eb1%Nat.eqb_neq Eb2%Nat.ltb_ge].
  pose proof (aged_record_length e data n Eb2) as Hl1.
  destruct (AdjustTtls_rest k data e n IH Eb2) as (r & data' & E' & Hl' & Heq & Hmin).
  exists r, data'. split_and!; [done|done| |].
  { intros j Hj. rewrite Heq by lia. apply aged_record_lookup; lia. }
  destruct (aged_record_fields e data n data' Eb2 Hl' Heq He) as (Ht & Hnx & Httl).
  intros m m'. rewrite (MinTtl_loop_S _ data _ _ _ n) by done.
  rewrite (MinTtl_loop_S _ data' _ _ _ n); [|lia|].
  2: { apply SkipDnsName_frame with data; [done..|]. intros j Hj. rewrite Heq by lia.
       apply aged_record_lookup; lia. }
  replace ((n =? 0) || (length data <? n + 10))%nat with false by lia. cbv zeta.
  rewrite Ht, Hnx, Httl.
  set (m1 := if rr_type data n =? 41 then m else Z.min m (rr_ttl data n)).
  set (m2 := if rr_type data n =? 41 then m' else _).
  destruct (Hmin m1 m2) as (t & t' & -> & -> & Htm & Hag). exists t, t'. split_and!; [done..| |].
  - unfold m1 in Htm. destruct (_ =? 41); lia.
  - intros Het Hm. apply Hag; [done|]. unfold m1, m2, aged_min, aged_ttl in *.
    pose proof (rr_ttl_range data n) as Hr. unfold UINT32_MAX in *.
    destruct (_ =? 41); [done|]. destruct (Z.ltb_spec e (rr_ttl data n)); lia.
Qed.
End record_loops.

(** ** The minimum TTL of a response, and of what a hit returns *)

Section min_ttl.
Local Open Scope Z_scope.
Implicit Types (data : bytes) (p_Length o : nat) (e m t : Z).

(** The counts of a header, as both functions read them. *)
Definition count_at data (i : nat) : Z := be_join (take 2 (drop i data)).
Definition total_records data : Z := u16 (count_at data 6 + count_at data 8 + count_at data 10).

Lemma ExtractMinTtl_eq data p_Length :
  (p_Length <= length data)%nat →
  ExtractMinTtl data p_Length =
    if (p_Length <? 12)%nat then Done 0 else
    if total_records data =? 0 then Done 0 else
    s_Offset ← SkipQuestions (Z.to_nat (count_at data 4)) data p_Length 12;
    match s_Offset with
    | None => Done 0
    | Some s_Offset => MinTtl_loop (Z.to_nat (total_records data)) data p_Length s_Offset UINT32_MAX
    end.
Proof.
  intros Hd. unfold ExtractMinTtl. destruct (Nat.ltb_spec p_Length 12); [done|].
  by rewrite !ReadUint16_Done by lia.
Qed.

Lemma AdjustTtls_eq data e :
  AdjustTtls data e =
    if (length data <? 12)%nat || (e =? 0) then Done (true, data) else
    if total_records data =? 0 then Done (true, data) else
    s_Offset ← SkipQuestions (Z.to_nat (count_at data 4)) data (length data) 12;
    match s_Offset with
    | None => Done (false, data)
    | Some s_Offset => AdjustTtls_loop (Z.to_nat (total_records data)) data e s_Offset
    end.
Proof.
  unfold AdjustTtls. destruct (Nat.ltb_spec (length data) 12); [done|]. cbn [orb].
  destruct (_ =? _); [done|]. by rewrite !ReadUint16_Done by lia.
Qed.

Lemma count_at_eq data data' (a b i : nat) :
  length data' = length data → (∀ j, (a <= j < b)%nat → data' !! j = data !! j) →
  (a <= i)%nat → (i + 2 <= b)%nat → count_at data' i = count_at data i.
Proof. intros Hl Heq ? ?. unfold count_at. f_equal. apply stretch_eq; [done|]. intros j Hj. apply Heq. lia. Qed.

Lemma min_or_zero_range t : 0 <= t <= UINT32_MAX → 0 <= min_or_zero t < UINT32_MAX.
Proof. unfold min_or_zero, UINT32_MAX. destruct (Z.eqb_spec t 4294967295); lia. Qed.

Lemma MinTtl_loop_range k data p_Length o m :
  (p_Length <= length data)%nat → 0 <= m <= UINT32_MAX →
  ∃ t, MinTtl_loop k data p_Length o m = Done t ∧ 0 <= t < UINT32_MAX.
Proof.
  intros Hd. revert o m. induction k as [|k IH]; intros o m Hm.
  { eexists. split; [done|by apply min_or_zero_range]. }
  destruct (SkipDnsName_returns data p_Length o Hd) as (n & E & _).
  rewrite (MinTtl_loop_S _ _ _ _ _ n) by done. cbv zeta.
  destruct (_ || _)%bool; [eexists; split; [done|by apply min_or_zero_range]|].
  pose proof (rr_ttl_range data n).
  assert (0 <= (if rr_type data n =? 41 then m else Z.min m (rr_ttl data n)) <= UINT32_MAX)
    by (destruct (_ =? _); lia).
  destruct (_ <? _)%nat; [eexists; split; [done|by apply min_or_zero_range]|by apply IH].
Qed.

(** The minimum is defined for every byte sequence. *)
Lemma ExtractMinTtl_range data p_Length :
  (p_Length <= length data)%nat → ∃ t, ExtractMinTtl data p_Length = Done t ∧ 0 <= t < UINT32_MAX.
Proof.
  intros Hd. rewrite ExtractMinTtl_eq by done. unfold UINT32_MAX.
  destruct (Nat.ltb_spec p_Length 12) as [|Hs]; [eexists; split; [done|lia]|].
  destruct (_ =? _); [eexists; split; [done|lia]|].
  destruct (SkipQuestions_returns (Z.to_nat (count_at data 4)) data p_Length 12 Hd Hs) as (r & -> & _).
  rewrite bind_done. destruct r; [|eexists; split; [done|lia]].
  apply MinTtl_loop_range; [done|]. unfold UINT32_MAX. lia.
Qed.

(** Writing another identifier does not change it. *)
Lemma ExtractMinTtl_id data v :
  (12 <= length data)%nat →
  ExtractMinTtl (splice data 0 (be_split 2 v)) (length data) = ExtractMinTtl data (length data).
Proof.
  intros Hl. set (data' := splice data 0 (be_split 2 v)).
  assert (Hl' : length data' = length data) by (apply length_splice; rewrite length_be_split; lia).
  assert (Heq : ∀ j, (2 <= j)%nat → data' !! j = data !! j).
  { intros j Hj. apply lookup_splice_old; rewrite length_be_split; lia. }
  rewrite !ExtractMinTtl_eq by lia. unfold total_records.
  rewrite !(count_at_eq data data' 2 12) by (done || lia || (intros j ?; apply Heq; lia)).
  destruct (_ <? _)%nat; [done|]. destruct (_ =? _); [done|].
  rewrite (SkipQuestions_from _ data) by (done || (intros j ?; apply Heq; lia)).
  destruct (SkipQuestions_returns (Z.to_nat (count_at data 4)) data (length data) 12 (le_n _) Hl)
    as ([o|] & -> & Ho); [|done].
  rewrite !bind_done. specialize (Ho o eq_refl).
  apply MinTtl_loop_from; [lia|done|]. intros j ?. apply Heq. lia.
Qed.

(** Ageing a response ages its minimum. *)
Lemma ExtractMinTtl_aged data e t :
  (12 <= length data)%nat → ExtractMinTtl data (length data) = Done t → 0 <= e < t →
  ∃ r data', AdjustTtls data e = Done (r, data') ∧ length data' = length data ∧
    (∀ j, (j < 12)%nat → data' !! j = data !! j) ∧
    ExtractMinTtl data' (length data) = Done (t - e).
Proof.
  intros Hl Et He. rewrite AdjustTtls_eq. destruct (Nat.ltb_spec (length data) 12); [lia|]. cbn [orb].
  destruct (Z.eqb_spec e 0) as [->|].
  { eexists _, _. split_and!; [done..|]. by rewrite Z.sub_0_r. }
  destruct (ExtractMinTtl_range data (length data) (le_n _)) as (t0 & Et0 & Ht0).
  rewrite Et in Et0. injection Et0 as <-. unfold UINT32_MAX in Ht0.
  rewrite ExtractMinTtl_eq in Et by lia. destruct (Nat.ltb_spec (length data) 12); [lia|].
  destruct (total_records data =? 0) eqn:Etot; [simplify_eq; lia|].
  destruct (SkipQuestions_returns (Z.to_nat (count_at data 4)) data (length data) 12 (le_n _) Hl)
    as (r & Er & Ho). rewrite Er, bind_done in *. destruct r as [o|]; [|injection Et as <-; lia].
  specialize (Ho o eq_refl).
  destruct (AdjustTtls_loop_min (Z.to_nat (total_records data)) data e o ltac:(lia))
    as (r & data' & -> & Hl' & Heq & Hmin).
  destruct (Hmin UINT32_MAX UINT32_MAX) as (t1 & t2 & E1 & E2 & Ht & Hag).
  rewrite bind_done in Et. rewrite Et in E1. injection E1 as E1.
  assert (t1 = t ∧ t < UINT32_MAX) as [-> Htm].
  { unfold min_or_zero in E1. destruct (Z.eqb_spec t1 UINT32_MAX); [lia|]. unfold UINT32_MAX in *. lia. }
  eexists _, _. split_and!; [done|done|intros j Hj; apply Heq; lia|].
  rewrite ExtractMinTtl_eq by lia. destruct (Nat.ltb_spec (length data) 12); [lia|].
  assert (Hc : ∀ i, (i + 2 <= 12)%nat → count_at data' i = count_at data i).
  { intros i Hi. apply (count_at_eq _ _ 0 12); [done| |lia|done]. intros j Hj. apply Heq. lia. }
  unfold total_records in *. rewrite !Hc, Etot by lia.
  rewrite (SkipQuestions_frame _ _ data' _ _ _ Er) by (done || lia). rewrite bind_done, E2.
  destruct Hag as [->|[? _]]; [lia|right; done| |lia].
  unfold min_or_zero. destruct (Z.eqb_spec (t - e) UINT32_MAX); [lia|done].
Qed.
End min_ttl.

(** ** Responses the packet parser accepts *)

Section accepted.
  Context {H : Target}.
Local Open Scope Z_scope.
Implicit Types (data : bytes) (p_Length o : nat) (e m t : Z) (a : DnsAnswer) (p : DnsResponsePacket).

Definition is_opt a : bool := DnsAnswer.Type_ false a =? 41.

(** The smallest TTL of records that are not OPT pseudo-records; 0 when there is
    none (or when none is below the largest TTL there is). *)
Definition record_min m a : Z := if is_opt a then m else Z.min m (DnsAnswer.Ttl false a).
Definition smallest_ttl (xs : list DnsAnswer) : Z := min_or_zero (fold_left record_min xs UINT32_MAX).

Definition records p : list DnsAnswer :=
  DnsResponsePacket.m_Answers_ p ++ DnsResponsePacket.m_Authority_ p ++ DnsResponsePacket.m_Additional_ p.

(** A record's fields where its name ends. *)
Lemma answer_at_fields data p_Length o a next :
  answer_at data p_Length o a next →
  ∃ n, SkipDnsName data p_Length o = Done n ∧ n ≠ 0%nat ∧ (n + 10 <= p_Length)%nat ∧
    rr_type data n = DnsAnswer.Type_ false a ∧ rr_ttl data n = DnsAnswer.Ttl false a ∧
    rr_next data n = next ∧ (next <= p_Length)%nat.
Proof.
  intros [(n & rdlen & raw & Hn & -> & Hs & (Ht & Hc & Httl & _) & Hb & -> & _ & _ & _) _].
  exists n. assert (Hne : (o < n)%nat) by (destruct Hn as (h & Hn & _); apply name_at_next in Hn; lia).
  apply SkipDnsName_name in Hn. unfold rr_type, rr_ttl, rr_next. split_and!; try done; try lia.
  - replace (take 2 (drop n data)) with (take 2 (take 8 (drop n data))) by (rewrite take_take; done).
    rewrite Hb, take_app_length' by (by rewrite length_be_split).
    apply be_join_split_small, NetworkToHost_uint16, Ht.
  - rewrite <- drop_drop.
    replace (take 4 (drop 4 (drop n data))) with (drop 4 (take 8 (drop n data))) by by rewrite skipn_firstn_comm.
    rewrite Hb, drop_app_2 by (by rewrite !length_be_split).
    apply be_join_split_small, NetworkToHost_uint32, Httl.
Qed.

Lemma MinTtl_loop_section k data p_Length o (xs : list DnsAnswer) next m :
  (p_Length <= length data)%nat → section_at data p_Length o xs next →
  MinTtl_loop (length xs + k) data p_Length o m = MinTtl_loop k data p_Length next (fold_left record_min xs m).
Proof.
  intros Hd Hx. revert m. induction Hx as [o|o a q xs next Ha _ IH]; intros m; [done|].
  destruct (answer_at_fields _ _ _ _ _ Ha) as (n & E & Hn & Hs & Ht & Httl & Hnx & Hle).
  cbn [length Nat.add]. rewrite (MinTtl_loop_S _ _ _ _ _ n) by done.
  replace ((n =? 0) || (p_Length <? n + 10))%nat with false by lia. cbv zeta.
  rewrite Hnx, Ht, Httl. destruct (Nat.ltb_spec p_Length q); [lia|]. apply IH.
Qed.

(** The header's counts as the cache reads them. *)
Lemma header_count data p_Length i :
  (12 <= length data)%nat → (i + 2 <= 12)%nat →
  count_at data i = NetworkToHost 2 (object_value (take 2 (drop i (take 12 data)))).
Proof.
  intros Hl Hi. rewrite NetworkToHost_object by len. unfold count_at.
  rewrite skipn_firstn_comm, take_take. by replace (2 `min` (12 - i))%nat with 2%nat by lia.
Qed.

Lemma response_counts data p_Length p :
  (p_Length <= length data)%nat → response_at data p_Length p →
  Z.of_nat (length (records p)) <= UINT16_MAX →
  count_at data 4 = Z.of_nat (length (DnsResponsePacket.m_Questions_ p)) ∧
  total_records data = Z.of_nat (length (records p)).
Proof.
  intros Hd (Hs & E & _ & _ & (E1 & E2 & E3 & E4) & _). unfold HeaderSize, records, UINT16_MAX in *.
  rewrite !length_app. intros Hl. rewrite E in E1, E2, E3, E4.
  unfold DnsHeader.Qdcount, DnsHeader.Ancount, DnsHeader.Nscount, DnsHeader.Arcount, of_memory in *.
  cbn [m_Qdcount_ m_Ancount_ m_Nscount_ m_Arcount_] in *. unfold total_records.
  rewrite !(header_count data p_Length) by lia. rewrite E1, E2, E3, E4. split; [done|].
  rewrite u16_small by lia. lia.
Qed.

Lemma ExtractMinTtl_accepted data p_Length p :
  (p_Length <= length data)%nat → response_at data p_Length p →
  Z.of_nat (length (records p)) <= UINT16_MAX →
  ExtractMinTtl data p_Length = Done (smallest_ttl (records p)).
Proof.
  intros Hd Hp Hl. destruct (response_counts data p_Length p Hd Hp Hl) as [Hq Ht].
  destruct Hp as (Hs & _ & _ & _ & _ & o1 & o2 & o3 & o4 & H1 & H2 & H3 & H4).
  unfold HeaderSize in *. rewrite ExtractMinTtl_eq by done.
  destruct (Nat.ltb_spec p_Length 12); [lia|]. rewrite Ht.
  destruct (Z.eqb_spec (Z.of_nat (length (records p))) 0) as [E0|].
  { apply (Nat2Z.inj _ 0), nil_length_inv in E0. by rewrite E0. }
  rewrite Hq, !Nat2Z.id, (SkipQuestions_section _ _ _ _ _ H1), bind_done.
  unfold smallest_ttl, records. rewrite !length_app.
  rewrite (MinTtl_loop_section _ _ _ _ _ _ _ Hd H2), (MinTtl_loop_section _ _ _ _ _ _ _ Hd H3).
  rewrite <- (Nat.add_0_r (length (DnsResponsePacket.m_Additional_ p))).
  rewrite (MinTtl_loop_section _ _ _ _ _ _ _ Hd H4). by rewrite !fold_left_app.
Qed.

(** C26: for every response the packet parser accepts, with at most 65535 records, the
    cache's own scan of the bytes finds the smallest TTL of the answer, authority and
    additional records other than OPT pseudo-records, and 0 when none is below 2^32 - 1; on any
    other bytes the scan returns a 32-bit value too, reading only inside the response. *)
Theorem ExtractMinTtl_response data p_Length :
  (p_Length <= length data)%nat →
  (∃ t, ExtractMinTtl data p_Length = Done t ∧ 0 <= t < UINT32_MAX) ∧
  ∀ p, response_at data p_Length p → Z.of_nat (length (records p)) <= UINT16_MAX →
       ExtractMinTtl data p_Length = Done (smallest_ttl (records p)).
Proof. intros Hd. split; [by apply ExtractMinTtl_range|]. intros p. by apply ExtractMinTtl_accepted. Qed.
End accepted.

(** ** Ageing a serialized response *)

Section ageing.
  Context {H : Target}.
Local Open Scope Z_scope.
Implicit Types (data : bytes) (e : Z) (a : DnsAnswer) (p : DnsResponsePacket).

(** A record, and a response, after some seconds in the cache. *)
Definition aged_answer e a : DnsAnswer :=
  if is_opt a then a else DnsAnswer.SetTtl (aged_ttl e (DnsAnswer.Ttl false a)) false a.

Definition aged_response e p : DnsResponsePacket :=
  {| DnsResponsePacket.m_Header_ := DnsResponsePacket.m_Header_ p;
     DnsResponsePacket.m_Questions_ := DnsResponsePacket.m_Questions_ p;
     DnsResponsePacket.m_Answers_ := aged_answer e <$> DnsResponsePacket.m_Answers_ p;
     DnsResponsePacket.m_Authority_ := aged_answer e <$> DnsResponsePacket.m_Authority_ p;
     DnsResponsePacket.m_Additional_ := aged_answer e <$> DnsResponsePacket.m_Additional_ p |}.

Lemma aged_ttl_uint32 e t : 0 <= e → uint32 t → uint32 (aged_ttl e t).
Proof. unfold uint32, aged_ttl. destruct (Z.ltb_spec e t); lia. Qed.

Lemma Ttl_SetTtl t a : uint32 t → DnsAnswer.Ttl false (DnsAnswer.SetTtl t false a) = t.
Proof. intros Ht. unfold DnsAnswer.Ttl. by apply (NetworkToHost_HostToNetwork 4). Qed.

(** The encoding of a record around its TTL. *)
Lemma answer_wire_split a :
  DnsAnswer.wire a = (encode_name (kept (m_Name_ a)) ++ be_split 2 (DnsAnswer.Type_ false a)
                        ++ be_split 2 (Rclass false a))
                     ++ be_split 4 (DnsAnswer.Ttl false a)
                     ++ be_split 2 (Rdlength false a) ++ m_Rdata_ a.
Proof. unfold DnsAnswer.wire, fixed_wire. by rewrite <- !app_assoc. Qed.

Lemma aged_answer_wire e a :
  0 <= e → uint32 (m_Ttl_ a) →
  is_opt a = false →
  DnsAnswer.wire (aged_answer e a) =
    (encode_name (kept (m_Name_ a)) ++ be_split 2 (DnsAnswer.Type_ false a) ++ be_split 2 (Rclass false a))
    ++ be_split 4 (aged_ttl e (DnsAnswer.Ttl false a)) ++ be_split 2 (Rdlength false a) ++ m_Rdata_ a.
Proof.
  intros He Ht Ho. rewrite answer_wire_split. unfold aged_answer. rewrite Ho, Ttl_SetTtl; [done|].
  apply aged_ttl_uint32; [done|]. by apply NetworkToHost_uint32.
Qed.

Lemma length_aged_answer e a : length (DnsAnswer.wire (aged_answer e a)) = length (DnsAnswer.wire a).
Proof.
  rewrite !answer_wire_split. unfold aged_answer. destruct (is_opt a); [done|].
  by rewrite !length_app, !length_be_split.
Qed.

(** Where a serialized record's name ends, and ageing it in place. *)
Lemma aged_record_wire e a pre post n :
  0 <= e → answer_ok a → let data := pre ++ DnsAnswer.wire a ++ post in
  n = (length pre + length (encode_name (m_Name_ a)))%nat →
  rr_type data n = DnsAnswer.Type_ false a → rr_ttl data n = DnsAnswer.Ttl false a →
  aged_record e data n = pre ++ DnsAnswer.wire (aged_answer e a) ++ post.
Proof.
  intros He ((_ & _ & Httl & _) & _ & Hok & _) data -> Et Ettl. unfold aged_record. rewrite Et, Ettl.
  fold (is_opt a). destruct (is_opt a) eqn:Eo; [by unfold aged_answer; rewrite Eo|].
  rewrite aged_answer_wire by done. unfold data. rewrite answer_wire_split, label_ok_kept by done.
  set (nm := encode_name (m_Name_ a)). set (hd := nm ++ _ ++ _).
  rewrite <- !app_assoc, (app_assoc pre hd), (app_assoc pre hd).
  replace (length pre + length nm + 4)%nat with (length (pre ++ hd))
    by (unfold hd; rewrite !length_app, !length_be_split; lia).
  by rewrite splice_middle by (by rewrite !length_be_split).
Qed.

Lemma AdjustTtls_loop_wire xs k e pre post :
  0 <= e → Forall answer_ok xs →
  AdjustTtls_loop (length xs + k) (pre ++ section_wire xs ++ post) e (length pre) =
    AdjustTtls_loop k (pre ++ section_wire (aged_answer e <$> xs) ++ post) e
      (length pre + length (section_wire (aged_answer e <$> xs))).
Proof.
  intros He Hok. revert pre. induction Hok as [|a xs Ha _ IH]; intros pre.
  { simpl. by rewrite Nat.add_0_r. }
  rewrite fmap_cons, !section_wire_cons. cbn [length Nat.add item_wire question_laws answer_laws].
  rewrite <- !app_assoc. set (post' := section_wire xs ++ post).
  set (data := pre ++ DnsAnswer.wire a ++ post').
  assert (Hat : answer_at data (length data) (length pre) a (length pre + DnsAnswer.WireSize a)).
  { destruct Ha as (? & ? & ? & ?). apply answer_at_wire with post'; try done.
    unfold data. rewrite !length_app, answer_length_wire. lia. }
  destruct (answer_at_fields _ _ _ _ _ Hat) as (n & E & Hn & Hs & Ht & Httl & Hnx & Hle).
  rewrite (AdjustTtls_loop_S _ _ _ _ n) by done.
  replace ((n =? 0) || (length data <? n + 10))%nat with false by lia. cbv zeta.
  rewrite Hnx. destruct (Nat.ltb_spec (length data) (length pre + DnsAnswer.WireSize a)); [lia|].
  rewrite (aged_record_wire e a pre post'); [|done|done| |done|done].
  2: { assert (Hn' : name_from data (length data) (length pre) (m_Name_ a)
                       (length pre + length (encode_name (m_Name_ a)))).
       { apply name_from_encode with (fixed_wire a ++ m_Rdata_ a ++ post'); [by destruct Ha as (?&?&?&?)| |].
         - unfold data, DnsAnswer.wire. rewrite label_ok_kept by (by destruct Ha as (?&?&?&?)).
           by rewrite <- !app_assoc.
         - unfold data, DnsAnswer.wire. rewrite label_ok_kept by (by destruct Ha as (?&?&?&?)).
           rewrite !length_app. lia. }
       apply SkipDnsName_name in Hn'. rewrite E in Hn'. by injection Hn'. }
  rewrite <- answer_length_wire, <- (length_aged_answer e).
  rewrite (app_assoc pre), <- length_app. unfold post'. rewrite IH.
  rewrite <- !app_assoc. f_equal. rewrite !length_app. lia.
Qed.

(** The first record of a packet reads as its members do. *)
Lemma AdjustTtls_wire e p :
  0 < e → response_ok p → Z.of_nat (length (records p)) <= UINT16_MAX →
  AdjustTtls (DnsResponsePacket.wire p) e = Done (true, DnsResponsePacket.wire (aged_response e p)).
Proof.
  intros He Hok Hl. pose proof (response_at_wire p [] Hok) as Hat. rewrite app_nil_r in Hat.
  destruct (response_counts _ _ p (le_n _) Hat Hl) as [Hq Ht].
  destruct Hat as (Hs & _). unfold HeaderSize in Hs.
  destruct Hok as (_ & _ & _ & _ & Hqs & Ha & Hn & Hr).
  rewrite AdjustTtls_eq. destruct (Nat.ltb_spec (length (DnsResponsePacket.wire p)) 12); [lia|].
  destruct (Z.eqb_spec e 0); [lia|]. cbn [orb]. rewrite Ht.
  destruct (Z.eqb_spec (Z.of_nat (length (records p))) 0) as [E0|].
  { apply (Nat2Z.inj _ 0), nil_length_inv in E0. unfold records in E0.
    apply app_eq_nil in E0 as [E1 E0]. apply app_eq_nil in E0 as [E2 E3].
    unfold DnsResponsePacket.wire, aged_response. simpl. by rewrite E1, E2, E3. }
  pose proof (section_at_wire (DnsResponsePacket.m_Questions_ p) (DnsResponsePacket.wire p)
    (length (DnsResponsePacket.wire p)) (DnsHeader.memory (DnsResponsePacket.m_Header_ p))
    (section_wire (DnsResponsePacket.m_Answers_ p) ++ section_wire (DnsResponsePacket.m_Authority_ p)
     ++ section_wire (DnsResponsePacket.m_Additional_ p)) Hqs eq_refl) as H1.
  assert (Hle : (length (DnsHeader.memory (DnsResponsePacket.m_Header_ p))
                 + length (section_wire (DnsResponsePacket.m_Questions_ p))
                 <= length (DnsResponsePacket.wire p))%nat)
    by (unfold DnsResponsePacket.wire; rewrite !length_app; lia).
  specialize (H1 Hle). rewrite length_memory in H1. unfold HeaderSize in H1.
  rewrite Hq, !Nat2Z.id, (SkipQuestions_section _ _ _ _ _ H1), bind_done.
  unfold records. rewrite !length_app.
  set (h := DnsHeader.memory (DnsResponsePacket.m_Header_ p)) in *. set (q := section_wire (DnsResponsePacket.m_Questions_ p)) in *.
  unfold DnsResponsePacket.wire. fold h q.
  replace (12 + length q)%nat with (length (h ++ q)) by (unfold h; rewrite length_app, length_memory; done).
  rewrite (app_assoc h q), AdjustTtls_loop_wire by (done || lia).
  rewrite (app_assoc (h ++ q)), <- (length_app (h ++ q)), AdjustTtls_loop_wire by (done || lia).
  rewrite (app_assoc ((h ++ q) ++ _)), <- (length_app ((h ++ q) ++ _)).
  rewrite <- (Nat.add_0_r (length (DnsResponsePacket.m_Additional_ p))).
  rewrite <- (app_nil_r (section_wire (DnsResponsePacket.m_Additional_ p))).
  rewrite AdjustTtls_loop_wire by (done || lia). rewrite app_nil_r, <- !app_assoc. done.
Qed.

(** Another identifier. *)
Definition with_id (id : Z) p : DnsResponsePacket :=
  DnsResponsePacket.with_Header (DnsHeader.SetId id false (DnsResponsePacket.m_Header_ p)) p.

Lemma with_id_wire id p :
  uint16 id →
  splice (DnsResponsePacket.wire p) 0 (be_split 2 id) = DnsResponsePacket.wire (with_id id p).
Proof.
  intros Hid. unfold DnsResponsePacket.wire, with_id, DnsHeader.memory.
  cbn [DnsResponsePacket.with_Header DnsResponsePacket.m_Header_ DnsResponsePacket.m_Questions_
       DnsResponsePacket.m_Answers_ DnsResponsePacket.m_Authority_ DnsResponsePacket.m_Additional_
       SetId DnsHeader.with_Id m_Id_ m_Flags_ m_Qdcount_ m_Ancount_ m_Nscount_ m_Arcount_].
  rewrite object_bytes_HostToNetwork by done. rewrite <- !app_assoc.
  unfold splice. rewrite length_be_split. by rewrite drop_app_length' by (by rewrite length_object_bytes).
Qed.

Lemma with_id_ok id p : uint16 id → response_ok p → response_ok (with_id id p).
Proof.
  intros Hid (Hw & Hv & Hr & Hc & Hs). set (h := DnsResponsePacket.m_Header_ p) in *.
  assert (Hf : ∀ b, view false (DnsHeader.SetId id false h) b = if decide (FId = b) then id else view false h b).
  { intros b. exact (view_update FId b id false h Hid). }
  unfold response_ok. split_and!; try apply Hs.
  - by apply (update_wf FId).
  - unfold with_id. cbn [DnsResponsePacket.with_Header DnsResponsePacket.m_Header_]. fold h.
    rewrite Valid_view, Hf. by rewrite Valid_view in Hv.
  - apply IsResponse_view. unfold with_id. cbn [DnsResponsePacket.with_Header DnsResponsePacket.m_Header_].
    fold h. rewrite Hf. cbn. unfold DnsHeader.IsResponse in Hr. by rewrite Hr.
  - exact Hc.
Qed.

Lemma aged_zero p :
  (∀ a, a ∈ records p → is_opt a = false → 0 < DnsAnswer.Ttl false a) →
  response_ok p → aged_response 0 p = p.
Proof.
  intros Ht (_ & _ & _ & _ & _ & Ha & Hn & Hr).
  assert (E : ∀ xs, Forall answer_ok xs → (∀ a, a ∈ xs → a ∈ records p) → aged_answer 0 <$> xs = xs).
  { intros xs Hxs Hin. transitivity (id <$> xs); [|apply list_fmap_id]. apply list_fmap_ext. intros i a Hi.
    assert (Hai : a ∈ xs) by by eapply list_elem_of_lookup_2.
    rewrite Forall_forall in Hxs. destruct (Hxs a Hai) as ((_ & _ & Httl & _) & _).
    unfold aged_answer. destruct (is_opt a) eqn:Eo; [done|].
    specialize (Ht a (Hin a Hai) Eo). unfold aged_ttl. destruct (Z.ltb_spec 0 (DnsAnswer.Ttl false a)); [|lia].
    rewrite Z.sub_0_r. unfold SetTtl, DnsAnswer.Ttl. rewrite HostToNetwork_NetworkToHost by done. by destruct a. }
  unfold aged_response, records in *. rewrite !E by (done || set_solver). by destruct p.
Qed.
End ageing.

(** ** The cache *)

(** What a stored entry satisfies at a time. *)
Definition entry_ok (now : Z) (k : CacheKey) (e : CacheEntry) : Prop :=
  ToLower k.1 = k.1 ∧ 12 ≤ length (response e) ∧
  ExtractMinTtl (response e) (length (response e)) = Done (min_ttl e) ∧ min_ttl e ≠ 0%Z ∧
  (insert_time e ≤ now)%Z.

(** The cache's invariant: its capacity, and every entry's. *)
Definition cache_ok (now : Z) (c : DnsCache) : Prop :=
  0 < m_MaxEntries_ c ∧ Size c ≤ m_MaxEntries_ c ∧
  ∀ k e, m_Cache_ c !! k = Some e → entry_ok now k e.

Section cache.
  Context {O : HashOrder}.
Implicit Types (c : DnsCache) (now t : Z) (d : bytes) (q : Z) (k : CacheKey) (e : CacheEntry)
  (m : gmap CacheKey CacheEntry).

Lemma entry_ok_later now now' k e : (now ≤ now')%Z → entry_ok now k e → entry_ok now' k e.
Proof. intros Hle (? & ? & ? & ? & ?). unfold entry_ok. split_and!; done || lia. Qed.

Lemma tolower_idemp b : tolower (tolower b) = tolower b.
Proof. by destruct b. Qed.

Lemma ToLower_idemp d : ToLower (ToLower d) = ToLower d.
Proof. unfold ToLower. rewrite <- list_fmap_compose. apply list_fmap_ext. intros. apply tolower_idemp. Qed.

(** Eviction is a filter, whatever order the table is iterated in. *)
Lemma EvictExpired_fold now (xs : list (CacheKey * CacheEntry)) m k :
  fold_left (λ m '(k, e), if expired now e then delete k m else m) xs m !! k =
    if existsb (λ x, bool_decide (x.1 = k) && expired now x.2) xs then None else m !! k.
Proof.
  revert m. induction xs as [|[k' e'] xs IH]; intros m; [done|]. simpl. rewrite IH.
  destruct (expired now e').
  - destruct (decide (k' = k)) as [->|Hk].
    + rewrite bool_decide_eq_true_2 by done. simpl. rewrite lookup_delete_eq. by destruct (existsb _ _).
    + rewrite bool_decide_eq_false_2 by done. simpl. by rewrite lookup_delete_ne by congruence.
  - by rewrite andb_false_r.
Qed.

Lemma iterate_elem m k e : In (k, e) (iterate m) ↔ m !! k = Some e.
Proof. rewrite <- list_elem_of_In, iterate_perm. apply elem_of_map_to_list. Qed.

Lemma EvictExpired_lookup now c k :
  m_Cache_ (EvictExpired now c) !! k =
    match m_Cache_ c !! k with Some e => if expired now e then None else Some e | None => None end.
Proof.
  unfold EvictExpired. cbn [with_Cache m_Cache_]. rewrite EvictExpired_fold.
  destruct (existsb _ _) eqn:E.
  - apply existsb_exists in E as ([k' e'] & Hin & [Hk Hx]%andb_true_iff).
    apply bool_decide_eq_true in Hk. simpl in *. subst k'. apply iterate_elem in Hin.
    by rewrite Hin, Hx.
  - destruct (m_Cache_ c !! k) as [e|] eqn:Ek; [|done]. destruct (expired now e) eqn:Ex; [|done].
    apply not_true_iff_false in E. destruct E. apply existsb_exists. exists (k, e).
    split; [by apply iterate_elem|]. simpl. by rewrite bool_decide_eq_true_2, Ex by done.
Qed.

Lemma EvictExpired_subset now c : m_Cache_ (EvictExpired now c) ⊆ m_Cache_ c.
Proof.
  apply map_subseteq_spec. intros k e. rewrite EvictExpired_lookup.
  destruct (m_Cache_ c !! k) as [e'|]; [|done]. by destruct (expired now e').
Qed.

(** The element found is a smallest one. *)
Lemma min_element_spec (xs : list (CacheKey * CacheEntry)) :
  match min_element (λ a b, (insert_time a.2 <? insert_time b.2)%Z) xs with
  | None => xs = []
  | Some x => x ∈ xs ∧ ∀ y, y ∈ xs → (insert_time x.2 ≤ insert_time y.2)%Z
  end.
Proof.
  destruct xs as [|x xs]; [done|]. cbn [min_element]. revert x.
  induction xs as [|y xs IH]; intros x; simpl fold_left.
  - split; [by left|]. intros z [->|Hz]%elem_of_cons; [lia|by apply elem_of_nil in Hz].
  - destruct (Z.ltb_spec (insert_time y.2) (insert_time x.2)) as [Hlt|Hge].
    + destruct (IH y) as [Hin Hmin]. split; [by right|].
      assert (Hy : y ∈ y :: xs) by left. specialize (Hmin y Hy) as Hmy.
      intros z [->|Hz]%elem_of_cons; [lia|by apply Hmin].
    + destruct (IH x) as [Hin Hmin]. split; [apply elem_of_cons in Hin as [->|?]; [by left|by do 2 right]|].
      assert (Hx : x ∈ x :: xs) by left. specialize (Hmin x Hx) as Hmx.
      intros z [->|[->|Hz]%elem_of_cons]%elem_of_cons; [lia|lia|]. apply Hmin. by right.
Qed.

Definition none_expired now c : Prop := ∀ k e, m_Cache_ c !! k = Some e → expired now e = false.

(** An entry that goes when room is needed: it has expired, or none has and it is an oldest. *)
Definition evictable now c e : Prop :=
  expired now e = true ∨
  none_expired now c ∧ ∀ k' e', m_Cache_ c !! k' = Some e' → (insert_time e ≤ insert_time e')%Z.

(** Room is made: every expired entry goes, and just one of the others, if none has expired. *)
Definition made_room now c c' : Prop :=
  (∀ k e, m_Cache_ c !! k = Some e → expired now e = true → m_Cache_ c' !! k = None) ∧
  (none_expired now c → Size c = S (Size c')).

Lemma EvictExpired_full now c : Size c ≤ Size (EvictExpired now c) → none_expired now c ∧ m_Cache_ (EvictExpired now c) = m_Cache_ c.
Proof.
  intros Hs. assert (E : m_Cache_ (EvictExpired now c) = m_Cache_ c).
  { apply map_subseteq_size_eq; [apply EvictExpired_subset|done]. }
  split; [|done]. intros k e Ek. pose proof (EvictExpired_lookup now c k) as El. rewrite E, Ek in El.
  by destruct (expired now e).
Qed.

Lemma MakeRoom_spec now c :
  0 < m_MaxEntries_ c → Size c = m_MaxEntries_ c →
  ∃ c', MakeRoom now c = Done c' ∧ m_MaxEntries_ c' = m_MaxEntries_ c ∧ Size c' < m_MaxEntries_ c ∧
    m_Cache_ c' ⊆ m_Cache_ c ∧ made_room now c c' ∧
    ∀ k e, m_Cache_ c !! k = Some e → m_Cache_ c' !! k = Some e ∨ (m_Cache_ c' !! k = None ∧ evictable now c e).
Proof.
  intros Hmax Hsz. unfold MakeRoom. set (c1 := EvictExpired now c).
  pose proof (EvictExpired_subset now c : m_Cache_ c1 ⊆ m_Cache_ c) as Hsub.
  assert (Hev : ∀ k e, m_Cache_ c !! k = Some e → m_Cache_ c1 !! k = if expired now e then None else Some e)
    by (intros k e E; unfold c1; by rewrite EvictExpired_lookup, E).
  change (m_MaxEntries_ c1) with (m_MaxEntries_ c). destruct (Nat.leb_spec (m_MaxEntries_ c) (Size c1)) as [Hfull|Hroom].
  - destruct (EvictExpired_full now c) as [Hno E1]; [fold c1; lia|]. fold c1 in E1. rewrite E1.
    pose proof (min_element_spec (iterate (m_Cache_ c))) as Hmin. destruct (min_element _ _) as [[k0 e0]|].
    2: { unfold Size in *. assert (base.size (m_Cache_ c) = 0); [|lia].
         apply map_size_empty_iff, map_empty. intros k. destruct (m_Cache_ c !! k) as [e|] eqn:E; [|done].
         apply iterate_elem in E. by rewrite Hmin in E. }
    destruct Hmin as [Hin Hmin]. apply list_elem_of_In, iterate_elem in Hin. simpl in Hmin.
    assert (Hdel : Size c = S (base.size (delete k0 (m_Cache_ c)))).
    { unfold Size. rewrite map_size_delete_Some by (by eexists). unfold Size in Hsz. lia. }
    eexists. split; [done|]. cbn [with_Cache m_Cache_ m_MaxEntries_ fst].
    split_and!; [done|unfold Size in *; cbn [with_Cache m_Cache_]; lia|apply delete_subseteq| |].
    + split; [|done]. intros k e E Hx. by rewrite (Hno k e E) in Hx.
    + intros k e E. destruct (decide (k = k0)) as [->|Hk]; [|left; by rewrite lookup_delete_ne].
      right. rewrite lookup_delete_eq. split; [done|]. right. split; [done|]. intros k' e' E'. simplify_eq.
      apply iterate_elem, list_elem_of_In in E'. exact (Hmin _ E').
  - exists c1. split_and!; [done..| |].
    + split; [intros k e E Hx; by rewrite (Hev k e E), Hx|]. intros Hno. exfalso.
      assert (E1 : m_Cache_ c1 = m_Cache_ c); [|unfold Size in *; rewrite E1 in Hroom; lia].
      apply map_eq. intros k. unfold c1. rewrite EvictExpired_lookup.
      destruct (m_Cache_ c !! k) as [e|] eqn:E; [|done]. by rewrite (Hno k e E).
    + intros k e E. rewrite (Hev k e E). destruct (expired now e) eqn:Ex; [|by left]. right. split; [done|by left].
Qed.

(** What a response needs to be stored. *)
Definition cacheable (r : bytes) t : Prop :=
  12 ≤ length r ∧ ExtractMinTtl r (length r) = Done t ∧ t ≠ 0%Z.

Lemma Insert_uncacheable s_Evict now d q r c :
  (∀ t, ¬ cacheable r t) → Insert s_Evict now d q r c = Done c.
Proof.
  intros Hn. unfold Insert. destruct (Nat.ltb_spec (length r) 12) as [|Hl]; [done|].
  destruct (ExtractMinTtl_range r (length r) (le_n _)) as (t & E & _). rewrite E, bind_done.
  destruct (Z.eqb_spec t 0) as [|Ht]; [done|]. by destruct (Hn t).
Qed.

Lemma Insert_cacheable t0 s_Evict now d q r c t :
  cache_ok t0 c → (t0 ≤ now)%Z → cacheable r t →
  ∃ c', Insert s_Evict now d q r c = Done c' ∧ cache_ok now c' ∧
    m_Cache_ c' !! (ToLower d, q) = Some {| response := r; insert_time := now; min_ttl := t |} ∧
    (∀ k e, k ≠ (ToLower d, q) → m_Cache_ c !! k = Some e →
      m_Cache_ c' !! k = Some e ∨
      (m_Cache_ c' !! k = None ∧ evictable s_Evict c e ∧
       m_Cache_ c !! (ToLower d, q) = None ∧ Size c = m_MaxEntries_ c)) ∧
    (m_Cache_ c !! (ToLower d, q) = None → Size c = m_MaxEntries_ c →
      (∀ k e, m_Cache_ c !! k = Some e → expired s_Evict e = true → m_Cache_ c' !! k = None) ∧
      (none_expired s_Evict c → Size c' = m_MaxEntries_ c)).
Proof.
  intros (Hmax & Hsz & Hent) Ht0 (Hl & E & Ht). unfold Insert.
  destruct (Nat.ltb_spec (length r) 12); [lia|]. rewrite E, bind_done.
  destruct (Z.eqb_spec t 0); [done|]. set (key := (ToLower d, q)).
  assert (∃ c1, (if (m_MaxEntries_ c <=? Size c) && negb (bool_decide (is_Some (m_Cache_ c !! key)))
                 then MakeRoom s_Evict c else Done c) = Done c1 ∧ m_MaxEntries_ c1 = m_MaxEntries_ c ∧
    m_Cache_ c1 ⊆ m_Cache_ c ∧ (m_Cache_ c1 !! key = None → Size c1 < m_MaxEntries_ c) ∧
    Size c1 ≤ m_MaxEntries_ c ∧
    (∀ k e, m_Cache_ c !! k = Some e → m_Cache_ c1 !! k = Some e ∨
      (m_Cache_ c1 !! k = None ∧ evictable s_Evict c e ∧ m_Cache_ c !! key = None ∧ Size c = m_MaxEntries_ c)) ∧
    (m_Cache_ c !! key = None → Size c = m_MaxEntries_ c → made_room s_Evict c c1))
    as (c1 & -> & Hm1 & Hsub & Hroom & Hsz1 & Hkeep & Hmade).
  { destruct (Nat.leb_spec (m_MaxEntries_ c) (Size c)) as [Hfull|Hfree]; simpl.
    2: { exists c. split_and!; try done; [auto|intros; lia]. }
    destruct (m_Cache_ c !! key) as [e|] eqn:Ek; simpl.
    { exists c. split_and!; try done; [by rewrite Ek|auto]. }
    destruct (MakeRoom_spec s_Evict c Hmax ltac:(lia)) as (c1 & -> & ? & ? & ? & Hmade & Hkeep).
    exists c1. split_and!; try done; [lia|]. intros k e' E'.
    destruct (Hkeep k e' E') as [|[]]; [by left|]. right. split_and!; done || lia. }
  rewrite bind_done. eexists. split; [done|]. cbn [with_Cache m_Cache_ m_MaxEntries_].
  split_and!.
  - split_and!; cbn [with_Cache m_Cache_ m_MaxEntries_]; [lia| |].
    + unfold Size in *. cbn [with_Cache m_Cache_].
      destruct (m_Cache_ c1 !! key) as [e|] eqn:Ek.
      * rewrite map_size_insert_Some by (by eexists). lia.
      * rewrite map_size_insert_None by done. specialize (Hroom eq_refl). lia.
    + intros k e. destruct (decide (k = key)) as [->|Hk].
      * rewrite lookup_insert_eq. intros [= <-]. unfold entry_ok; simpl.
        split_and!; [apply ToLower_idemp|lia|done|done|lia].
      * rewrite lookup_insert_ne by done. intros Ee. apply entry_ok_later with t0; [done|].
        apply Hent. by eapply lookup_weaken.
  - by rewrite lookup_insert_eq.
  - intros k e Hk Ee. rewrite lookup_insert_ne by done. by apply Hkeep.
  - intros Hnew Hfull. destruct (Hmade Hnew Hfull) as [Hgone Hone]. split.
    + intros k e Ee Hx. rewrite lookup_insert_ne by congruence. by eapply Hgone.
    + intros Hno. specialize (Hone Hno). unfold Size in *. cbn [with_Cache m_Cache_]. rewrite map_size_insert_None; [lia|].
      apply eq_None_not_Some. intros [e Ee]. eapply lookup_weaken in Ee; [|exact Hsub]. congruence.
Qed.

(** Storing when there is room adds the entry. *)
Lemma Insert_room s_Evict now d q r c t :
  Size c < m_MaxEntries_ c → cacheable r t →
  Insert s_Evict now d q r c =
    Done (with_Cache (<[(ToLower d, q) := {| response := r; insert_time := now; min_ttl := t |}]> (m_Cache_ c)) c).
Proof.
  intros Hs (Hl & E & Ht). unfold Insert. destruct (Nat.ltb_spec (length r) 12); [lia|]. rewrite E, bind_done.
  destruct (Z.eqb_spec t 0); [done|]. destruct (Nat.leb_spec (m_MaxEntries_ c) (Size c)); [lia|]. done.
Qed.

(** C25: storing a response never fails; a response shorter than a header or without a
    positive TTL leaves the cache as it is; any other is stored under the lower-case name
    and the type, replacing what was there, with the time and its smallest TTL, and every
    other entry stays, except that a new key in a full cache makes room: every expired entry is
    then removed, and only when none has expired exactly one entry goes, one that was
    stored first.  (This is the order of storing, not of use as in an LRU cache: looking
    an entry up does not keep it.)  The cache's invariant and capacity are kept. *)
Theorem Insert_spec t0 s_Evict now d q r c :
  cache_ok t0 c → (t0 ≤ now)%Z →
  ∃ c', Insert s_Evict now d q r c = Done c' ∧ cache_ok now c' ∧
    ((∀ t, ¬ cacheable r t) → c' = c) ∧
    ∀ t, cacheable r t →
      m_Cache_ c' !! (ToLower d, q) = Some {| response := r; insert_time := now; min_ttl := t |} ∧
      (∀ k e, k ≠ (ToLower d, q) → m_Cache_ c !! k = Some e →
        m_Cache_ c' !! k = Some e ∨
        (m_Cache_ c' !! k = None ∧ evictable s_Evict c e ∧
         m_Cache_ c !! (ToLower d, q) = None ∧ Size c = m_MaxEntries_ c)) ∧
      (m_Cache_ c !! (ToLower d, q) = None → Size c = m_MaxEntries_ c →
        (∀ k e, m_Cache_ c !! k = Some e → expired s_Evict e = true → m_Cache_ c' !! k = None) ∧
        (none_expired s_Evict c → Size c' = m_MaxEntries_ c)).
Proof.
  intros Hc Ht0. destruct (ExtractMinTtl_range r (length r) (le_n _)) as (t & E & _).
  assert (Hun : ∀ t', cacheable r t' → t' = t) by (intros t' (_ & E' & _); congruence).
  destruct (decide (12 ≤ length r ∧ t ≠ 0%Z)) as [[Hl Ht]|Hn].
  - assert (Hr : cacheable r t) by done.
    destruct (Insert_cacheable t0 s_Evict now d q r c t Hc Ht0 Hr) as (c' & E' & Hok & Hk & Hrest).
    exists c'. split_and!; [done..| |].
    + intros Hn. by destruct (Hn t).
    + intros t' Ht'. by rewrite (Hun t' Ht').
  - assert (Hno : ∀ t', ¬ cacheable r t').
    { intros t' Ht'. apply Hn. rewrite <- (Hun t' Ht'). by destruct Ht' as (? & _ & ?). }
    exists c. split_and!; [by apply Insert_uncacheable| |done|by intros t' ?%Hno].
    destruct Hc as (? & ? & Hent). split_and!; [done..|]. intros k e Ee.
    by apply entry_ok_later with t0; [|apply Hent].
Qed.

Lemma elapsed_bounds now k e :
  entry_ok now k e → expired now e = false →
  (0 ≤ elapsed now e < min_ttl e)%Z ∧ u32 (elapsed now e) = elapsed now e.
Proof.
  unfold expired. intros (_ & _ & E & _ & Ht) Hx%Z.leb_gt.
  destruct (ExtractMinTtl_range (response e) _ (le_n _)) as (t & E' & Hr).
  rewrite E in E'. simplify_eq. unfold UINT32_MAX in Hr.
  assert (0 ≤ elapsed now e)%Z by (apply Z.quot_pos; lia).
  split; [lia|]. apply u32_small. lia.
Qed.

Lemma Lookup_hit now d q id out c e :
  entry_ok now (ToLower d, q) e → m_Cache_ c !! (ToLower d, q) = Some e → expired now e = false →
  ∃ out', Lookup now d q id out c = Done (true, out', c) ∧
    (∃ r, AdjustTtls (splice (response e) 0 (be_split 2 id)) (elapsed now e) = Done (r, out')) ∧
    length out' = length (response e) ∧
    take 12 out' = be_split 2 id ++ take 10 (drop 2 (response e)) ∧
    ExtractMinTtl out' (length out') = Done (min_ttl e - elapsed now e)%Z.
Proof.
  intros Hok Ek Hx. destruct (elapsed_bounds _ _ _ Hok Hx) as [Hel Hu].
  destruct Hok as (_ & Hl & E & _ & _). unfold Lookup. rewrite Ek, Hx, Hu. cbv zeta.
  destruct (Nat.leb_spec 2 (length (response e))); [|lia].
  rewrite WriteUint16_Done, bind_done by lia. set (data := splice _ 0 _).
  assert (Hl' : length data = length (response e)) by (apply length_splice; rewrite length_be_split; lia).
  assert (E' : ExtractMinTtl data (length data) = Done (min_ttl e)).
  { rewrite Hl'. unfold data. by rewrite ExtractMinTtl_id. }
  destruct (ExtractMinTtl_aged data (elapsed now e) (min_ttl e) ltac:(lia) E' Hel)
    as (r & out' & Ea & Hlo & Heq & Em).
  rewrite Ea, bind_done. exists out'. split_and!; [done|by exists r|lia| |by rewrite Hlo].
  transitivity (take 12 data).
  - pose proof (stretch_eq data out' 0 12) as Hs. rewrite !drop_0 in Hs. apply Hs; [done|].
    intros j Hj. apply Heq. lia.
  - unfold data, splice. rewrite take_0, length_be_split. done.
Qed.

(** A lookup misses when nothing is stored under the lower-case name and the type, and
    when what is stored has been there for its smallest TTL (it is then removed); otherwise
    it hits and returns the stored response, of the same length, with the caller's
    identifier, the rest of the header unchanged, and a smallest TTL reduced by the whole
    seconds since it was stored, which is still positive. *)
Theorem Lookup_spec now d q id out c :
  cache_ok now c →
  match m_Cache_ c !! (ToLower d, q) with
  | None => Lookup now d q id out c = Done (false, out, c)
  | Some e =>
      if expired now e
      then Lookup now d q id out c = Done (false, out, with_Cache (delete (ToLower d, q) (m_Cache_ c)) c)
      else (0 < min_ttl e - elapsed now e)%Z ∧
           ∃ out', Lookup now d q id out c = Done (true, out', c) ∧
             length out' = length (response e) ∧
             take 12 out' = be_split 2 id ++ take 10 (drop 2 (response e)) ∧
             ExtractMinTtl out' (length out') = Done (min_ttl e - elapsed now e)%Z
  end.
Proof.
  intros (_ & _ & Hent). destruct (m_Cache_ c !! _) as [e|] eqn:Ek.
  2: { unfold Lookup. by rewrite Ek. }
  destruct (expired now e) eqn:Hx; [unfold Lookup; by rewrite Ek, Hx|].
  specialize (Hent _ _ Ek). destruct (elapsed_bounds _ _ _ Hent Hx) as [? _]. split; [lia|].
  destruct (Lookup_hit now d q id out c e Hent Ek Hx) as (out' & ? & _ & ? & ? & ?). by exists out'.
Qed.

(** The operations, at times that do not go backwards. *)
Inductive step : Z * DnsCache → Z * DnsCache → Prop :=
  | step_lookup t now d q id out r out' c c' :
      (t ≤ now)%Z → Lookup now d q id out c = Done (r, out', c') → step (t, c) (now, c')
  | step_insert t s_Evict now d q r c c' :
      (t ≤ s_Evict ≤ now)%Z → Insert s_Evict now d q r c = Done c' → step (t, c) (now, c')
  | step_clear t c : step (t, c) (t, Clear c).

Lemma cache_ok_subset now now' c m :
  (now ≤ now')%Z → cache_ok now c → m ⊆ m_Cache_ c → cache_ok now' (with_Cache m c).
Proof.
  intros Hle (Hmax & Hsz & Hent) Hm. split_and!; cbn [with_Cache m_Cache_ m_MaxEntries_]; [done| |].
  - unfold Size in *. cbn [with_Cache m_Cache_]. etrans; [|exact Hsz].
    rewrite <- !size_dom. apply subseteq_size. by apply subseteq_dom.
  - intros k e E. apply entry_ok_later with now; [done|]. apply Hent. by eapply lookup_weaken.
Qed.

Lemma Lookup_returns now d q id out c :
  cache_ok now c →
  ∃ r out' c', Lookup now d q id out c = Done (r, out', c') ∧ m_MaxEntries_ c' = m_MaxEntries_ c ∧
    ∃ m, m ⊆ m_Cache_ c ∧ c' = with_Cache m c.
Proof.
  intros (_ & _ & Hent). assert (Hc : c = with_Cache (m_Cache_ c) c) by by destruct c.
  destruct (m_Cache_ c !! (ToLower d, q)) as [e|] eqn:Ek.
  2: { unfold Lookup. rewrite Ek. do 3 eexists. split; [done|]. split; [done|]. by exists (m_Cache_ c). }
  destruct (expired now e) eqn:Hx.
  - unfold Lookup. rewrite Ek, Hx. do 3 eexists. split; [done|]. split; [done|].
    eexists. split; [apply delete_subseteq|done].
  - destruct (Lookup_hit now d q id out c e (Hent _ _ Ek) Ek Hx) as (out' & -> & _).
    do 3 eexists. split; [done|]. split; [done|]. by exists (m_Cache_ c).
Qed.

Lemma step_ok t c now c' :
  step (t, c) (now, c') → cache_ok t c → cache_ok now c' ∧ m_MaxEntries_ c' = m_MaxEntries_ c.
Proof.
  intros Hs Hc. inversion Hs as [? ? d q id out r out' ? ? Hle E | ? ev ? d q r ? ? Hle E | ]; subst.
  - destruct (Lookup_returns now d q id out c) as (r' & o' & c1 & E' & Hm & m & Hsub & ->).
    { replace c with (with_Cache (m_Cache_ c) c) by by destruct c. by apply cache_ok_subset with t. }
    rewrite E in E'. simplify_eq. split; [by apply cache_ok_subset with t|done].
  - destruct (ExtractMinTtl_range r (length r) (le_n _)) as (ttl & Et & _).
    assert (m_MaxEntries_ c' = m_MaxEntries_ c) as Hm.
    { revert E. unfold Insert. destruct (_ <? _); [by intros [= <-]|]. rewrite Et, bind_done.
      destruct (_ =? _)%Z; [by intros [= <-]|]. intros (c1 & E1 & E2)%bind_Done_inv. simplify_eq.
      cbn [with_Cache m_MaxEntries_]. destruct (_ && _) eqn:Eb; [|by injection E1 as <-].
      apply andb_true_iff in Eb as [Eb _]. apply Nat.leb_le in Eb.
      destruct Hc as (Hmax & Hsz & _).
      destruct (MakeRoom_spec ev c Hmax ltac:(lia)) as (c2 & E2 & Hm & _). congruence. }
    split; [|done]. destruct (decide (12 ≤ length r ∧ ttl ≠ 0%Z)) as [[Hl Ht]|Hn].
    + destruct (Insert_cacheable t ev now d q r c ttl Hc ltac:(lia)) as (c1 & E1 & Hok & _); [done|].
      rewrite E in E1. by simplify_eq.
    + rewrite Insert_uncacheable in E.
      2: { intros t' (? & E' & ?). apply Hn. rewrite Et in E'. by simplify_eq. }
      simplify_eq. replace c' with (with_Cache (m_Cache_ c') c') by by destruct c'.
      apply cache_ok_subset with t; [lia|done|done].
  - split; [|done]. apply cache_ok_subset with now; [lia|done|apply map_empty_subseteq].
Qed.

Lemma steps_ok max s s' :
  rtc step s s' → cache_ok s.1 s.2 ∧ m_MaxEntries_ s.2 = max → cache_ok s'.1 s'.2 ∧ m_MaxEntries_ s'.2 = max.
Proof.
  induction 1 as [|[t c] [now c'] s' Hs _ IH]; [done|]. intros [Hok Hm]. simpl in *.
  destruct (step_ok _ _ _ _ Hs Hok) as [? ?]. apply IH. split; [done|congruence].
Qed.

(** C24: a cache made with room for at least one entry keeps its invariant through every
    sequence of operations at times that do not go backwards: never more entries than its
    capacity, every key in lower case, every entry a response of at least a header stored
    with its smallest TTL, which is positive, at a time that has passed; and in each state
    so reached every operation returns. *)
Theorem cache_reachable max t0 now c :
  0 < max → rtc step (t0, make max) (now, c) →
  cache_ok now c ∧ m_MaxEntries_ c = max ∧
  (∀ now' d q id out, (now ≤ now')%Z → returns (Lookup now' d q id out c)) ∧
  (∀ ev now' d q r, (now ≤ ev ≤ now')%Z → returns (Insert ev now' d q r c)).
Proof.
  intros Hmax Hr.
  assert (cache_ok now c ∧ m_MaxEntries_ c = max) as [Hc Hm].
  { assert (H0 : cache_ok t0 (make max) ∧ m_MaxEntries_ (make max) = max).
    { split; [|done]. split_and!; simpl; [done|apply Nat.le_0_l|done]. }
    by apply (steps_ok max _ _ Hr). }
  split_and!; [done|done| |].
  - intros now' d q id out Hle.
    assert (Hc' : cache_ok now' c).
    { replace c with (with_Cache (m_Cache_ c) c) by by destruct c. by apply cache_ok_subset with now. }
    destruct (Lookup_returns now' d q id out c Hc') as (? & ? & ? & -> & _). apply returns_Done.
  - intros ev now' d q r Hle. destruct (ExtractMinTtl_range r (length r) (le_n _)) as (ttl & Et & _).
    destruct (decide (12 ≤ length r ∧ ttl ≠ 0%Z)) as [[Hl Ht]|Hn].
    + destruct (Insert_cacheable now ev now' d q r c ttl Hc ltac:(lia)) as (c1 & -> & _); [done|].
      apply returns_Done.
    + rewrite Insert_uncacheable; [apply returns_Done|].
      intros t' (? & E' & ?). apply Hn. rewrite Et in E'. by simplify_eq.
Qed.
End cache.

(** ** A response through the cache *)

Section roundtrip.
  Context {H : Target} {O : HashOrder}.
Implicit Types (p : DnsResponsePacket) (c : DnsCache) (a : DnsAnswer).

Lemma record_min_le xs m a :
  (fold_left record_min xs m ≤ m)%Z ∧
  (a ∈ xs → is_opt a = false → fold_left record_min xs m ≤ DnsAnswer.Ttl false a)%Z.
Proof.
  revert m. induction xs as [|x xs IH]; intros m; cbn [fold_left].
  { split; [lia|by intros ?%elem_of_nil]. }
  destruct (IH (record_min m x)) as [H1 H2]. assert (record_min m x ≤ m)%Z.
  { unfold record_min. destruct (is_opt x); lia. }
  split; [lia|]. intros [->|Ha]%elem_of_cons Ho; [|by apply H2].
  assert (record_min m x ≤ DnsAnswer.Ttl false x)%Z by (unfold record_min; rewrite Ho; lia). lia.
Qed.

Lemma smallest_ttl_le xs a :
  a ∈ xs → is_opt a = false → (smallest_ttl xs ≤ DnsAnswer.Ttl false a)%Z ∨ smallest_ttl xs = 0%Z.
Proof.
  intros Ha Ho. destruct (record_min_le xs UINT32_MAX a) as [_ Hm]. specialize (Hm Ha Ho).
  unfold smallest_ttl, min_or_zero. destruct (Z.eqb_spec (fold_left record_min xs UINT32_MAX) UINT32_MAX); auto.
Qed.

Lemma smallest_ttl_above e xs a :
  (0 ≤ e < smallest_ttl xs)%Z → a ∈ xs → is_opt a = false → (e < DnsAnswer.Ttl false a)%Z.
Proof. intros He Ha Ho. destruct (smallest_ttl_le xs a Ha Ho); lia. Qed.

(** What is stored of a well-formed response, as it is found again. *)
Lemma Lookup_wire now d q id p t out c :
  response_ok p → (Z.of_nat (length (records p)) ≤ UINT16_MAX)%Z → cache_ok now c → uint16 id →
  m_Cache_ c !! (ToLower d, q) =
    Some {| response := DnsResponsePacket.wire p; insert_time := t; min_ttl := smallest_ttl (records p) |} →
  let e := Z.quot (now - t) 1000000000 in
  (e < smallest_ttl (records p))%Z →
  Lookup now d q id out c = Done (true, DnsResponsePacket.wire (aged_response e (with_id id p)), c).
Proof.
  intros Hok Hrec (_ & _ & Hent) Hid Hk e He. set (en := {| response := _ |}) in Hk. pose proof (Hent _ _ Hk) as Hen.
  assert (Hx : expired now en = false) by (unfold expired; apply Z.leb_gt; exact He).
  assert (He0 : (0 ≤ e)%Z) by (destruct Hen as (_ & _ & _ & _ & Ht); simpl in Ht; apply Z.quot_pos; lia).
  destruct (Lookup_hit now d q id out c en Hen Hk Hx) as (out' & -> & (r & Ea) & _).
  change (elapsed now en) with e in Ea. cbn [response en] in Ea. rewrite with_id_wire in Ea by done.
  pose proof (with_id_ok id p Hid Hok) as Hok2.
  assert (Hpos : ∀ a, a ∈ records (with_id id p) → is_opt a = false → (e < DnsAnswer.Ttl false a)%Z).
  { intros a. by apply smallest_ttl_above. }
  clearbody e. destruct (Z.eq_dec e 0%Z) as [->|].
  - rewrite aged_zero by done. rewrite AdjustTtls_eq, orb_true_r in Ea. by simplify_eq.
  - rewrite AdjustTtls_wire in Ea by (done || lia). by simplify_eq.
Qed.

(** *** A response as it was received *)

(** The records of a packet from an offset, each with the offset where its name ends. *)
Inductive name_ends (data : bytes) (p_Size : nat) : nat → list DnsAnswer → list nat → nat → Prop :=
  | name_ends_nil o : name_ends data p_Size o [] [] o
  | name_ends_cons o a n m xs ns next :
      answer_at data p_Size o a m → name_from data p_Size o (m_Name_ a) n →
      name_ends data p_Size m xs ns next → name_ends data p_Size o (a :: xs) (n :: ns) next.

Lemma section_name_ends data p_Size o (xs : list DnsAnswer) next :
  section_at data p_Size o xs next → ∃ ns, name_ends data p_Size o xs ns next.
Proof.
  induction 1 as [o|o a m xs next Ha _ [ns IH]]; [exists []; constructor|].
  pose proof Ha as [(n & ? & ? & Hn & _) _]. exists (n :: ns). econstructor; [exact Ha|exact Hn|exact IH].
Qed.

Lemma name_ends_app data p_Size o xs ns m ys ms next :
  name_ends data p_Size o xs ns m → name_ends data p_Size m ys ms next →
  name_ends data p_Size o (xs ++ ys) (ns ++ ms) next.
Proof. intros Hx Hy. induction Hx; [done|]. cbn [app]. econstructor; eauto. Qed.

(** Where the names of a response's records end in the packet that holds it. *)
Definition places (w : bytes) p (ns : list nat) : Prop :=
  ∃ o next, section_at w (length w) HeaderSize (DnsResponsePacket.m_Questions_ p) o ∧
    name_ends w (length w) o (records p) ns next.

Lemma response_places w p : response_at w (length w) p → ∃ ns, places w p ns.
Proof.
  intros (_ & _ & _ & _ & _ & o1 & o2 & o3 & o4 & H1 & H2 & H3 & H4).
  apply section_name_ends in H2 as [n2 H2], H3 as [n3 H3], H4 as [n4 H4].
  exists (n2 ++ n3 ++ n4), o1, o4. split; [done|]. unfold records. eapply name_ends_app; [done|].
  by eapply name_ends_app.
Qed.

(** [e] seconds off the four bytes of each record's TTL, after its name, TYPE and CLASS,
    unless it is an OPT record; nothing else changes. *)
Definition aged_at (e : Z) (w : bytes) (x : DnsAnswer * nat) : bytes :=
  if is_opt x.1 then w else splice w (x.2 + 4) (be_split 4 (DnsAnswer.Ttl false x.1 - e)).
Definition aged_bytes (e : Z) (w : bytes) (xs : list DnsAnswer) (ns : list nat) : bytes :=
  fold_left (aged_at e) (zip xs ns) w.

(** The fields of a record of [data], in bytes that agree with it from the record on. *)
Lemma place_fields data w o a n m :
  answer_at data (length data) o a m → name_from data (length data) o (m_Name_ a) n →
  length w = length data → (∀ j, o ≤ j → w !! j = data !! j) →
  SkipDnsName w (length w) o = Done n ∧ n ≠ 0 ∧ n + 10 ≤ length w ∧ o ≤ n ∧
  rr_type w n = DnsAnswer.Type_ false a ∧ rr_ttl w n = DnsAnswer.Ttl false a ∧
  rr_next w n = m ∧ m ≤ length w.
Proof.
  intros Ha Hn Hl Heq. destruct (answer_at_fields _ _ _ _ _ Ha) as (n' & E & H0 & Hs & Ht & Httl & Hnx & Hle).
  assert (o ≤ n) by (destruct Hn as (h & Hn & _); apply name_at_next in Hn; lia).
  rewrite (SkipDnsName_name _ _ _ _ _ Hn) in E. injection E as <-.
  assert (Hst : ∀ i k, o ≤ i → take k (drop i w) = take k (drop i data)).
  { intros i k Hi. apply stretch_eq; [done|]. intros j Hj. apply Heq. lia. }
  unfold rr_type, rr_ttl, rr_next in *. rewrite !Hst by lia. rewrite Hl.
  split_and!; try done. rewrite (SkipDnsName_from data) by done. by apply SkipDnsName_name in Hn.
Qed.

Lemma AdjustTtls_loop_places k data e o xs ns next :
  name_ends data (length data) o xs ns next →
  ∀ w, length w = length data → (∀ j, o ≤ j → w !! j = data !! j) →
  (∀ a, a ∈ xs → is_opt a = false → (e < DnsAnswer.Ttl false a)%Z) →
  AdjustTtls_loop (length xs + k) w e o = AdjustTtls_loop k (aged_bytes e w xs ns) e next.
Proof.
  induction 1 as [o|o a n m xs ns next Ha Hn _ IH]; intros w Hl Heq Htop; [done|].
  destruct (place_fields data w o a n m Ha Hn Hl Heq) as (E & H0 & Hs & Hon & Ht & Httl & Hnx & Hle).
  cbn [length Nat.add]. rewrite (AdjustTtls_loop_S _ _ _ _ n E).
  replace ((n =? 0) || (length w <? n + 10)) with false by lia. cbv zeta. rewrite Hnx.
  destruct (Nat.ltb_spec (length w) m); [lia|].
  assert (Eag : aged_record e w n = aged_at e w (a, n)).
  { unfold aged_record, aged_at. rewrite Ht. fold (is_opt a). cbn [fst snd].
    destruct (is_opt a) eqn:Eo; [done|]. rewrite Httl. unfold aged_ttl.
    destruct (Z.ltb_spec e (DnsAnswer.Ttl false a)) as [|Hge]; [done|]. specialize (Htop a ltac:(by left) Eo). lia. }
  rewrite Eag. unfold aged_bytes. cbn [zip zip_with fold_left]. apply IH.
  - rewrite <- Eag, aged_record_length by done. done.
  - intros j Hj. rewrite <- Eag, aged_record_lookup; [|done|].
    + apply Heq. unfold rr_next in Hnx. lia.
    + unfold rr_next in Hnx. lia.
  - intros b Hb. apply Htop. by right.
Qed.

Lemma aged_bytes_zero data o xs ns next :
  name_ends data (length data) o xs ns next →
  ∀ w, length w = length data → (∀ j, o ≤ j → w !! j = data !! j) → aged_bytes 0 w xs ns = w.
Proof.
  induction 1 as [o|o a n m xs ns next Ha Hn _ IH]; intros w Hl Heq; [done|].
  destruct (place_fields data w o a n m Ha Hn Hl Heq) as (_ & _ & Hs & Hon & _ & Httl & Hnx & _).
  assert (E : aged_at 0 w (a, n) = w).
  { unfold aged_at. cbn [fst snd]. destruct (is_opt a); [done|]. rewrite Z.sub_0_r, <- Httl. unfold rr_ttl.
    rewrite be_split_join_len by (rewrite length_take, length_drop; lia).
    unfold splice. rewrite length_take, length_drop.
    replace (4 `min` (length w - (n + 4))) with 4 by lia.
    rewrite <- (drop_drop w 4 (n + 4)), take_drop. apply take_drop. }
  unfold aged_bytes. cbn [zip zip_with fold_left]. rewrite E. apply IH; [done|].
  intros j Hj. apply Heq. unfold rr_next in Hnx. lia.
Qed.

(** Ageing the bytes of an accepted response, under another identifier. *)
Lemma AdjustTtls_accepted e id w p ns :
  response_at w (length w) p → places w p ns → (Z.of_nat (length (records p)) ≤ UINT16_MAX)%Z →
  (∀ a, a ∈ records p → is_opt a = false → (e < DnsAnswer.Ttl false a)%Z) →
  let w' := splice w 0 (be_split 2 id) in
  ∃ r, AdjustTtls w' e = Done (r, aged_bytes e w' (records p) ns).
Proof.
  intros Hat (o & next & Hq & Hns) Hrec Htop w'.
  destruct (response_counts w _ p (le_n _) Hat Hrec) as [Cq Ct]. destruct Hat as (Hs & _). unfold HeaderSize in *.
  assert (Hl : length w' = length w) by (apply length_splice; rewrite length_be_split; lia).
  assert (Heq : ∀ j, 2 ≤ j → w' !! j = w !! j).
  { intros j Hj. apply lookup_splice_old; rewrite length_be_split; lia. }
  pose proof (section_at_next _ _ _ _ _ Hq Hs) as Ho.
  rewrite AdjustTtls_eq, Hl. destruct (Nat.ltb_spec (length w) 12); [lia|]. cbn [orb].
  destruct (Z.eqb_spec e 0) as [->|].
  { exists true. f_equal. f_equal. symmetry. apply (aged_bytes_zero w o _ _ next Hns w' Hl). intros j Hj. apply Heq. lia. }
  assert (Ec : ∀ i, 2 ≤ i → i + 2 ≤ 12 → count_at w' i = count_at w i).
  { intros i ? ?. apply (count_at_eq _ _ 2 12); [done|intros j ?; apply Heq; lia|done..]. }
  unfold total_records in *. rewrite !Ec by lia. rewrite Ct, Cq, !Nat2Z.id.
  destruct (Z.eqb_spec (Z.of_nat (length (records p))) 0) as [E0|].
  { exists true. apply (Nat2Z.inj _ 0), nil_length_inv in E0. by rewrite E0. }
  rewrite (SkipQuestions_from _ w) by (done || (intros j ?; apply Heq; lia)).
  rewrite (SkipQuestions_section _ _ _ _ _ Hq), bind_done.
  rewrite <- (Nat.add_0_r (length (records p))).
  rewrite (AdjustTtls_loop_places 0 w e o _ _ _ Hns w' Hl); [by eexists| |done].
  intros j Hj. apply Heq. lia.
Qed.

(** What is stored of any accepted response, as it is found again. *)
Lemma Lookup_accepted now d q id w p ns t out c :
  response_at w (length w) p → places w p ns → (Z.of_nat (length (records p)) ≤ UINT16_MAX)%Z → cache_ok now c →
  m_Cache_ c !! (ToLower d, q) =
    Some {| response := w; insert_time := t; min_ttl := smallest_ttl (records p) |} →
  let e := Z.quot (now - t) 1000000000 in
  (e < smallest_ttl (records p))%Z →
  Lookup now d q id out c = Done (true, aged_bytes e (splice w 0 (be_split 2 id)) (records p) ns, c).
Proof.
  intros Hat Hns Hrec (_ & _ & Hent) Hk e He. set (en := {| response := _ |}) in Hk. pose proof (Hent _ _ Hk) as Hen.
  assert (Hx : expired now en = false) by (unfold expired; apply Z.leb_gt; exact He).
  assert (He0 : (0 ≤ e)%Z) by (destruct Hen as (_ & _ & _ & _ & Ht); simpl in Ht; apply Z.quot_pos; lia).
  destruct (Lookup_hit now d q id out c en Hen Hk Hx) as (out' & -> & (r & Ea) & _).
  change (elapsed now en) with e in Ea. cbn [response en] in Ea.
  destruct (AdjustTtls_accepted e id w p ns Hat Hns Hrec) as (r' & Ea').
  { intros a. by apply smallest_ttl_above. }
  rewrite Ea' in Ea. by simplify_eq.
Qed.

(** C23: a well-formed response stored under a name is found under every spelling of the name
    that differs in case only, for as long as fewer whole seconds have passed than its
    smallest TTL, whatever else the cache holds: what is returned is the serialization of
    that response with the caller's identifier and with exactly the elapsed seconds taken off
    the TTL of every record but the OPT pseudo-record, all of which stay positive. *)
Theorem cache_roundtrip t0 s_Evict now now' d d' q id p out c :
  cache_ok t0 c → (t0 ≤ now ≤ now')%Z → uint16 id → response_ok p →
  (Z.of_nat (length (records p)) ≤ UINT16_MAX)%Z →
  let e := Z.quot (now' - now) 1000000000 in
  (e < smallest_ttl (records p))%Z → ToLower d' = ToLower d →
  ∃ c', Insert s_Evict now d q (DnsResponsePacket.wire p) c = Done c' ∧
    Lookup now' d' q id out c' =
      Done (true, DnsResponsePacket.wire (aged_response e (with_id id p)), c') ∧
    ∀ a, a ∈ records p → is_opt a = false →
      DnsAnswer.Ttl false (aged_answer e a) = (DnsAnswer.Ttl false a - e)%Z ∧
      (0 < DnsAnswer.Ttl false a - e)%Z.
Proof.
  intros Hc Ht Hid Hok Hrec e He Hd.
  pose proof (response_at_wire p [] Hok) as Hat. rewrite app_nil_r in Hat.
  pose proof (ExtractMinTtl_accepted _ _ p (le_n _) Hat Hrec) as Em.
  assert (He0 : (0 ≤ e)%Z) by (apply Z.quot_pos; lia).
  assert (Hca : cacheable (DnsResponsePacket.wire p) (smallest_ttl (records p))).
  { split_and!; [|done|lia]. by destruct Hat as [Hs _]. }
  destruct (Insert_cacheable t0 s_Evict now d q _ c _ Hc ltac:(lia) Hca) as (c' & Ei & Hok' & Hk & _).
  exists c'. split; [done|].
  assert (Hpos : ∀ a, a ∈ records p → is_opt a = false → (e < DnsAnswer.Ttl false a)%Z).
  { intros a. by apply smallest_ttl_above. }
  split.
  - apply Lookup_wire; [done..| |done|by rewrite Hd|done].
    replace c' with (with_Cache (m_Cache_ c') c') by by destruct c'. apply cache_ok_subset with now; [lia|done|done].
  - intros a Ha Ho. specialize (Hpos a Ha Ho). split; [|lia]. unfold aged_answer. rewrite Ho.
    assert (Hu : uint32 (DnsAnswer.Ttl false a)).
    { apply NetworkToHost_uint32. destruct Hok as (_ & _ & _ & _ & _ & H1 & H2 & H3).
      assert (Hall : Forall answer_ok (records p)) by (unfold records; by rewrite !Forall_app).
      rewrite Forall_forall in Hall. by destruct (Hall a Ha) as ((_ & _ & ? & _) & _). }
    rewrite Ttl_SetTtl by (by apply aged_ttl_uint32). unfold aged_ttl.
    by destruct (Z.ltb_spec e (DnsAnswer.Ttl false a)); [|lia].
Qed.
End roundtrip.

(** ** Examples *)

Section examples.
  #[local] Existing Instance x86_64.
  #[local] Existing Instance key_order.

Lemma ExtractMinTtl_response_witness :
  47 ≤ length example_response_packet ∧
  (∃ t, ExtractMinTtl example_response_packet 47 = Done t ∧ (0 ≤ t < UINT32_MAX)%Z) ∧
  ∀ p, response_at example_response_packet 47 p → (Z.of_nat (length (records p)) ≤ UINT16_MAX)%Z →
       ExtractMinTtl example_response_packet 47 = Done (smallest_ttl (records p)).
Proof.
  split; [simpl; lia|]. apply (ExtractMinTtl_response example_response_packet 47). simpl. lia.
Defined.

Lemma empty_cache_ok : cache_ok 0 (make 2).
Proof. split_and!; [simpl; lia|apply Nat.le_0_l|done]. Qed.

Lemma Insert_spec_witness :
  ∃ c', Insert 1 1 (str "A.com") 5 example_response_packet (make 2) = Done c' ∧ cache_ok 1 c'.
Proof.
  destruct (Insert_spec 0 1 1 (str "A.com") 5 example_response_packet (make 2) empty_cache_ok ltac:(lia))
    as (c' & E & Hc & _). by exists c'.
Defined.

Definition example_cache : DnsCache :=
  {| m_Cache_ := {[ (str "a.com", 5%Z) := {| response := example_response_packet; insert_time := 0; min_ttl := 60 |} ]};
     m_MaxEntries_ := 2 |}.

Lemma example_cache_ok : cache_ok 5000000000 example_cache.
Proof.
  split_and!; [simpl; lia|by vm_compute; lia|].
  intros k e E. cbn [example_cache m_Cache_] in E. apply lookup_singleton_Some in E as [<- <-]. unfold entry_ok. cbn [response min_ttl insert_time].
  split_and!; [done|simpl; lia|by vm_compute|done|lia].
Qed.

Lemma Lookup_spec_witness :
  ∃ out', Lookup 5000000000 (str "A.COM") 5 4660 [] example_cache = Done (true, out', example_cache) ∧
    ExtractMinTtl out' (length out') = Done 55%Z.
Proof.
  destruct (Lookup_spec 5000000000 (str "A.COM") 5 4660 [] example_cache example_cache_ok)
    as (_ & out' & E & _ & _ & Em). by exists out'.
Defined.

Lemma cache_reachable_witness :
  returns (Lookup 7 (str "a.com") 1 4660 [] (Clear (make 2))).
Proof.
  assert (Hr : rtc step (0%Z, make 2) (0%Z, Clear (make 2))) by (apply rtc_once; constructor).
  destruct (cache_reachable 2 0 0 (Clear (make 2)) ltac:(lia) Hr) as (_ & _ & Hl & _). by apply Hl.
Defined.

Lemma cache_roundtrip_witness :
  ∃ c', Insert 1 1 (str "A.com") 5 (DnsResponsePacket.wire example_response) (make 2) = Done c' ∧
    Lookup 5000000001 (str "a.COM") 5 4660 [] c' =
      Done (true, DnsResponsePacket.wire (aged_response 5 (with_id 4660 example_response)), c').
Proof.
  destruct (cache_roundtrip 0 1 1 5000000001 (str "A.com") (str "a.COM") 5 4660 example_response [] (make 2)
    empty_cache_ok) as (c' & Ei & El & _).
  - lia.
  - unfold uint16. lia.
  - exact example_response_ok.
  - by vm_compute.
  - by vm_compute.
  - reflexivity.
  - by exists c'.
Defined.

(** A cache of no entries has none to remove when it makes room. *)
Example Insert_no_room :
  Insert 1 1 (str "a.com") 5 example_response_packet (make 0) = Undef.
Proof. vm_compute. reflexivity. Qed.
End examples.
