(* ===== verification/DnsResponse.v ===== *)
(** * Responses made by the relay itself (src/include/dns_response.h,
      src/src/dns_response.cc)

    The functions append a header, the question and records to an output vector,
    which is threaded through as a byte list with the [int] result.  The JSON
    values of the zone file belong to a library that is not part of the sources:
    their accessors are an interface ([Json]), with what the library documents of
    them ([JsonLaws]).  The default TTL is the configuration's, a parameter here.
    When an accessor throws, the output is abandoned by every caller, so it is
    not part of the exceptional outcome.

    The theorems read the output back with the packet parser: what the parser
    finds is the response that was asked for. *)

From Stdlib Require Import ZArith Lia ZifyBool.
From Stdlib Require Import Strings.Byte Strings.String.
From stdpp Require Import base numbers list option sets.
From S2P Require Import Prelude.
From S2P Require Import Memory.
From S2P Require Import Utils.
From S2P Require Import Text.
From S2P Require Import Name.
From S2P Require Import DnsHeader.
From S2P Require Import DnsQuestion.
From S2P Require Import DnsAnswer.
From S2P Require Import WireFormat.
From S2P Require Import DnsRequestPacket.
From S2P Require Import DnsResponsePacket.

(** ** JSON values *)

(** The members of [nlohmann::json] that the functions use. *)
Class Json (J : Type) := {
  is_object : J → bool;
  is_array : J → bool;
  is_string : J → bool;
  contains : J → bytes → bool;
  field_of : J → bytes → J;
  elements : J → list J;
  get_string : J → outcome bytes;
  get_uint32 : J → outcome Z;
  get_uint16 : J → outcome Z
}.

(** What the library documents of them: a string is got exactly from a string, an
    integer from some values, within its width, and a wrong type throws. *)
Class JsonLaws (J : Type) `{Json J} := {
  get_string_spec (j : J) :
    if is_string j then ∃ s, get_string j = Done s else get_string j = Throw JsonError;
  get_uint32_spec (j : J) : (∃ z, get_uint32 j = Done z ∧ uint32 z) ∨ get_uint32 j = Throw JsonError;
  get_uint16_spec (j : J) : (∃ z, get_uint16 j = Done z ∧ uint16 z) ∨ get_uint16 j = Throw JsonError
}.

Record AnswerRecord (J : Type) : Type := {
  m_Type_ : bytes;
  m_Data_ : J;
  m_Name_ : bytes
}.
Arguments m_Type_ {_} _.
Arguments m_Data_ {_} _.
Arguments m_Name_ {_} _.

Definition DNS_RCODE_NOERROR : Z := 0.
Definition DNS_RCODE_FORMERR : Z := 1.
Definition DNS_RCODE_SERVFAIL : Z := 2.
Definition DNS_RCODE_NXDOMAIN : Z := 3.
Definition DNS_RCODE_NOTIMP : Z := 4.
Definition DNS_RCODE_REFUSED : Z := 5.
Definition DNS_TYPE_A : Z := 0x0001.
Definition DNS_TYPE_NS : Z := 0x0002.
Definition DNS_TYPE_CNAME : Z := 0x0005.
Definition DNS_TYPE_SOA : Z := 0x0006.
Definition DNS_TYPE_PTR : Z := 0x000C.
Definition DNS_TYPE_MX : Z := 0x000F.
Definition DNS_TYPE_TXT : Z := 0x0010.
Definition DNS_TYPE_AAAA : Z := 0x001C.
Definition DNS_TYPE_SRV : Z := 0x0021.
Definition DNS_QUESTION_POINTER : Z := 0xC00C.
Definition MAX_DNS_LABEL_LENGTH : nat := 63.
Definition MAX_DNS_NAME_LENGTH : nat := 253.
Definition MAX_TXT_STRING_LENGTH : nat := 255.
Definition DEFAULT_EDNS_PACKET_SIZE : Z := 1232.
Definition EDNS_OPTION_CODE_COOKIE : Z := 10.
Definition EDNS_COOKIE_MIN_LENGTH : nat := 8.
Definition EDNS_COOKIE_MAX_LENGTH : nat := 40.

(** ** Writing to the output *)

Section writers.
  Context {H : Target}.
Local Open Scope Z_scope.
Implicit Types (p_Output : bytes) (p_Packet : DnsRequestPacket).

(** The integers are converted to network order and stored byte by byte. *)
Definition WriteUint16 p_Output (p_Offset : nat) (p_Value : Z) : outcome bytes :=
  assert_ (p_Offset + 1 <? length p_Output)%nat;;
  store_n p_Output p_Offset (object_bytes 2 (HostToNetwork 2 p_Value)).
Definition AppendUint16 p_Output (p_Value : Z) : bytes :=
  p_Output ++ object_bytes 2 (HostToNetwork 2 p_Value).
Definition AppendUint32 p_Output (p_Value : Z) : bytes :=
  p_Output ++ object_bytes 4 (HostToNetwork 4 p_Value).

Definition WriteStandardHeader p_Packet (p_Rcode p_Ancount p_Nscount p_Arcount : Z)
    (p_Authoritative : bool) : outcome bytes :=
  let p_Output := repeat x00 HeaderSize in
  p_Output ← WriteUint16 p_Output 0 (DnsHeader.Id false (DnsRequestPacket.Header p_Packet));
  let flags := u16 (Z.lor (Z.lor 0x8000 0x0080) (Z.land p_Rcode 0x000F)) in
  let flags := if DnsHeader.Rd false (DnsRequestPacket.Header p_Packet)
               then u16 (Z.lor flags 0x0100) else flags in
  let flags := if p_Authoritative then u16 (Z.lor flags 0x0400) else flags in
  p_Output ← WriteUint16 p_Output 2 flags;
  p_Output ← WriteUint16 p_Output 4 1;
  p_Output ← WriteUint16 p_Output 6 p_Ancount;
  p_Output ← WriteUint16 p_Output 8 p_Nscount;
  WriteUint16 p_Output 10 p_Arcount.

(** The size loop: [None] when a label is refused. *)
Fixpoint labels_total (p_Input : list bytes) (total_size : nat) : option nat :=
  match p_Input with
  | [] => Some total_size
  | l_Entry :: p_Input =>
      if (length l_Entry =? 0)%nat then None
      else if (MAX_DNS_LABEL_LENGTH <? length l_Entry)%nat then None
      else labels_total p_Input (total_size + (length l_Entry + 1))
  end.

(** [DomainToQuestion] of a vector of labels. *)
Definition DomainToQuestion_labels (p_Input : list bytes) p_Output : Z * bytes :=
  match labels_total p_Input 1 with
  | None => (-1, p_Output)
  | Some total_size =>
      if (255 <? total_size)%nat then (-1, p_Output) else
      let p_Output := fold_left (λ out l, (out ++ [ch (Z.of_nat (length l))]) ++ l) p_Input p_Output in
      (0, p_Output ++ [x00])
  end.

Definition IsValidDnsName (p_Name : bytes) : bool :=
  if (length p_Name =? 0)%nat || (MAX_DNS_NAME_LENGTH <? length p_Name)%nat then false else true.

(** [DomainToQuestion] of a string: empty pieces between dots are dropped. *)
Definition DomainToQuestion (p_Input : bytes) p_Output : Z * bytes :=
  match p_Input with
  | [] => (0, p_Output ++ [x00])
  | _ =>
      if negb (IsValidDnsName p_Input) then (-1, p_Output) else
      let '(pieces, s_Start) := split_loop "."%byte p_Input in
      let s_Parts := List.filter (λ p, (0 <? length p)%nat) pieces
                     ++ (if (s_Start <? length p_Input)%nat then [substr_from p_Input s_Start] else []) in
      DomainToQuestion_labels s_Parts p_Output
  end.

(** The question is the packet's first one. *)
Definition WriteQuestion p_Output p_Packet : bool * bytes :=
  match DnsRequestPacket.Questions p_Packet with
  | [] => (false, p_Output)
  | q :: _ =>
      let '(s_Ret, s_Domain) := DomainToQuestion_labels (DnsQuestion.Qname q) [] in
      if s_Ret =? -1 then (false, p_Output) else
      let p_Output := p_Output ++ s_Domain in
      let p_Output := AppendUint16 p_Output (DnsQuestion.Qtype false q) in
      (true, AppendUint16 p_Output (DnsQuestion.Qclass false q))
  end.

(** [p_Packet.Questions()[0].Qclass()]. *)
Definition FirstQclass p_Packet : outcome Z :=
  match DnsRequestPacket.Questions p_Packet with
  | [] => Undef
  | q :: _ => Done (DnsQuestion.Qclass false q)
  end.

Definition WriteAnswerName p_Output (p_Name : bytes) : Z * bytes :=
  match p_Name with
  | [] => (0, AppendUint16 p_Output DNS_QUESTION_POINTER)
  | _ =>
      let '(s_Ret, s_NameWire) := DomainToQuestion p_Name [] in
      if s_Ret =? -1 then (-1, p_Output) else (0, p_Output ++ s_NameWire)
  end.
End writers.

(** ** Records *)

Section records.
  Context {H : Target} {J : Type} `{Json J} (DefaultTtl : Z).
Local Open Scope Z_scope.
Implicit Types (p_Output : bytes) (p_Name : bytes) (p_Qclass : Z) (p_Data : J).

(** TYPE, CLASS, TTL and RDLENGTH, as every function appends them. *)
Definition AppendFixed p_Output (p_Type p_Qclass : Z) (s_RdataLen : nat) : bytes :=
  let p_Output := AppendUint16 p_Output p_Type in
  let p_Output := AppendUint16 p_Output p_Qclass in
  let p_Output := AppendUint32 p_Output (u32 DefaultTtl) in
  AppendUint16 p_Output (u16 (Z.of_nat s_RdataLen)).

(** The name, then the fixed fields. *)
Definition AppendHead p_Output p_Name (p_Type p_Qclass : Z) (s_RdataLen : nat) : Z * bytes :=
  let '(s_Ret, p_Output) := WriteAnswerName p_Output p_Name in
  if negb (s_Ret =? 0) then (-1, p_Output) else (0, AppendFixed p_Output p_Type p_Qclass s_RdataLen).

Definition too_long (n : nat) : bool := UINT16_MAX <? Z.of_nat n.

Definition AppendAnswerAddress (p_Type : Z) (p_Size : nat) p_Output p_Qclass (p_IpHex : bytes) p_Name
    : outcome (Z * bytes) :=
  if negb (length p_IpHex =? p_Size)%nat then Done (-1, p_Output) else
  let '(s_Ret, p_Output) := AppendHead p_Output p_Name p_Type p_Qclass p_Size in
  if negb (s_Ret =? 0) then Done (-1, p_Output) else Done (0, p_Output ++ p_IpHex).

Definition AppendAnswerA := AppendAnswerAddress DNS_TYPE_A 4.
Definition AppendAnswerAAAA := AppendAnswerAddress DNS_TYPE_AAAA 16.

Definition AppendAnswerDomain p_Output p_Qclass (p_Type : Z) (p_Domain : bytes) p_Name : outcome (Z * bytes) :=
  if (length p_Domain =? 0)%nat || negb (IsValidDnsName p_Domain) then Done (-1, p_Output) else
  let '(s_Ret, s_Wire) := DomainToQuestion p_Domain [] in
  if s_Ret =? -1 then Done (-1, p_Output) else
  if too_long (length s_Wire) then Done (-1, p_Output) else
  let '(s_Ret, p_Output) := AppendHead p_Output p_Name p_Type p_Qclass (length s_Wire) in
  if negb (s_Ret =? 0) then Done (-1, p_Output) else Done (0, p_Output ++ s_Wire).

Definition soa_fields : list bytes :=
  [str "primary"; str "admin"; str "serial"; str "refresh"; str "retry"; str "expire"; str "minimum"].

Definition AppendAnswerSOA p_Output p_Qclass p_Data p_Name : outcome (Z * bytes) :=
  if negb (is_object p_Data) then Done (-1, p_Output) else
  if negb (forallb (contains p_Data) soa_fields) then Done (-1, p_Output) else
  s_Primary ← get_string (field_of p_Data (str "primary"));
  s_Admin ← get_string (field_of p_Data (str "admin"));
  if negb (IsValidDnsName s_Primary) || negb (IsValidDnsName s_Admin) then Done (-1, p_Output) else
  let '(s_Ret, s_PrimaryWire) := DomainToQuestion s_Primary [] in
  if s_Ret =? -1 then Done (-1, p_Output) else
  let '(s_Ret, s_AdminWire) := DomainToQuestion s_Admin [] in
  if s_Ret =? -1 then Done (-1, p_Output) else
  let s_RdataLen := (length s_PrimaryWire + length s_AdminWire + 20)%nat in
  if too_long s_RdataLen then Done (-1, p_Output) else
  let '(s_Ret, p_Output) := AppendHead p_Output p_Name DNS_TYPE_SOA p_Qclass s_RdataLen in
  if negb (s_Ret =? 0) then Done (-1, p_Output) else
  let p_Output := (p_Output ++ s_PrimaryWire) ++ s_AdminWire in
  s_Serial ← get_uint32 (field_of p_Data (str "serial"));
  let p_Output := AppendUint32 p_Output s_Serial in
  s_Refresh ← get_uint32 (field_of p_Data (str "refresh"));
  let p_Output := AppendUint32 p_Output s_Refresh in
  s_Retry ← get_uint32 (field_of p_Data (str "retry"));
  let p_Output := AppendUint32 p_Output s_Retry in
  s_Expire ← get_uint32 (field_of p_Data (str "expire"));
  let p_Output := AppendUint32 p_Output s_Expire in
  s_Minimum ← get_uint32 (field_of p_Data (str "minimum"));
  Done (0, AppendUint32 p_Output s_Minimum).

Definition AppendAnswerMX p_Output p_Qclass p_Data p_Name : outcome (Z * bytes) :=
  if negb (is_object p_Data) || negb (contains p_Data (str "preference"))
     || negb (contains p_Data (str "exchange")) then Done (-1, p_Output) else
  s_Exchange ← get_string (field_of p_Data (str "exchange"));
  if negb (IsValidDnsName s_Exchange) then Done (-1, p_Output) else
  let '(s_Ret, s_Wire) := DomainToQuestion s_Exchange [] in
  if s_Ret =? -1 then Done (-1, p_Output) else
  let s_RdataLen := (2 + length s_Wire)%nat in
  if too_long s_RdataLen then Done (-1, p_Output) else
  let '(s_Ret, p_Output) := AppendHead p_Output p_Name DNS_TYPE_MX p_Qclass s_RdataLen in
  if negb (s_Ret =? 0) then Done (-1, p_Output) else
  s_Preference ← get_uint16 (field_of p_Data (str "preference"));
  Done (0, AppendUint16 p_Output s_Preference ++ s_Wire).

(** The character-strings of a TXT record: [None] is the error return. *)
Fixpoint txt_rdata (p_Data : list J) (s_Rdata : bytes) : outcome (option bytes) :=
  match p_Data with
  | [] => Done (Some s_Rdata)
  | l_Entry :: p_Data =>
      if negb (is_string l_Entry) then Done None else
      s_Str ← get_string l_Entry;
      if (MAX_TXT_STRING_LENGTH <? length s_Str)%nat then Done None
      else txt_rdata p_Data ((s_Rdata ++ [ch (Z.of_nat (length s_Str))]) ++ s_Str)
  end.

Definition is_empty (p_Data : J) : bool := match elements p_Data with [] => true | _ => false end.

Definition AppendAnswerTXT p_Output p_Qclass p_Data p_Name : outcome (Z * bytes) :=
  if negb (is_array p_Data) || is_empty p_Data then Done (-1, p_Output) else
  s_Rdata ← txt_rdata (elements p_Data) [];
  match s_Rdata with
  | None => Done (-1, p_Output)
  | Some s_Rdata =>
      if too_long (length s_Rdata) then Done (-1, p_Output) else
      let '(s_Ret, p_Output) := AppendHead p_Output p_Name DNS_TYPE_TXT p_Qclass (length s_Rdata) in
      if negb (s_Ret =? 0) then Done (-1, p_Output) else Done (0, p_Output ++ s_Rdata)
  end.

Definition srv_fields : list bytes := [str "priority"; str "weight"; str "port"; str "target"].

Definition AppendAnswerSRV p_Output p_Qclass p_Data p_Name : outcome (Z * bytes) :=
  if negb (is_object p_Data) then Done (-1, p_Output) else
  if negb (forallb (contains p_Data) srv_fields) then Done (-1, p_Output) else
  s_Target ← get_string (field_of p_Data (str "target"));
  if negb (IsValidDnsName s_Target) then Done (-1, p_Output) else
  let '(s_Ret, s_Wire) := DomainToQuestion s_Target [] in
  if s_Ret =? -1 then Done (-1, p_Output) else
  let s_RdataLen := (6 + length s_Wire)%nat in
  if too_long s_RdataLen then Done (-1, p_Output) else
  let '(s_Ret, p_Output) := AppendHead p_Output p_Name DNS_TYPE_SRV p_Qclass s_RdataLen in
  if negb (s_Ret =? 0) then Done (-1, p_Output) else
  s_Priority ← get_uint16 (field_of p_Data (str "priority"));
  let p_Output := AppendUint16 p_Output s_Priority in
  s_Weight ← get_uint16 (field_of p_Data (str "weight"));
  let p_Output := AppendUint16 p_Output s_Weight in
  s_Port ← get_uint16 (field_of p_Data (str "port"));
  Done (0, AppendUint16 p_Output s_Port ++ s_Wire).

Definition DispatchAppendAnswer (p_Type : bytes) p_Qclass p_Data p_Output p_Name : outcome (Z * bytes) :=
  if bool_decide (p_Type = str "A") then
    s ← get_string p_Data; AppendAnswerA p_Output p_Qclass s p_Name
  else if bool_decide (p_Type = str "AAAA") then
    s ← get_string p_Data; AppendAnswerAAAA p_Output p_Qclass s p_Name
  else if bool_decide (p_Type = str "CNAME") then
    s ← get_string p_Data; AppendAnswerDomain p_Output p_Qclass DNS_TYPE_CNAME s p_Name
  else if bool_decide (p_Type = str "NS") then
    s ← get_string p_Data; AppendAnswerDomain p_Output p_Qclass DNS_TYPE_NS s p_Name
  else if bool_decide (p_Type = str "PTR") then
    s ← get_string p_Data; AppendAnswerDomain p_Output p_Qclass DNS_TYPE_PTR s p_Name
  else if bool_decide (p_Type = str "SOA") then AppendAnswerSOA p_Output p_Qclass p_Data p_Name
  else if bool_decide (p_Type = str "MX") then AppendAnswerMX p_Output p_Qclass p_Data p_Name
  else if bool_decide (p_Type = str "TXT") then AppendAnswerTXT p_Output p_Qclass p_Data p_Name
  else if bool_decide (p_Type = str "SRV") then AppendAnswerSRV p_Output p_Qclass p_Data p_Name
  else Done (-1, p_Output).
End records.

(** ** Whole responses *)

Section responses.
  Context {H : Target} {J : Type} `{Json J} (DefaultTtl : Z).
Local Open Scope Z_scope.
Implicit Types (p_Output : bytes) (p_Packet : DnsRequestPacket) (p_Data : J).

Definition FORMERR p_Packet p_Output : outcome (Z * bytes) :=
  let qdcount := if (0 <? DnsHeader.Qdcount false (DnsRequestPacket.Header p_Packet))
                    && negb (bool_decide (DnsRequestPacket.Questions p_Packet = [])) then 1 else 0 in
  p_Output ← WriteStandardHeader p_Packet DNS_RCODE_FORMERR 0 0 0 false;
  p_Output ← WriteUint16 p_Output 4 qdcount;
  if 0 <? qdcount then
    let '(s_Ok, p_Output) := WriteQuestion p_Output p_Packet in
    if negb s_Ok then p_Output ← WriteUint16 p_Output 4 0; Done (0, p_Output)
    else Done (0, p_Output)
  else Done (0, p_Output).

(** [p_Output.resize(n, '\0')]. *)
Definition resize (n : nat) p_Output : bytes := take n p_Output ++ repeat x00 (n - length p_Output).

(** [FORMERR] from raw bytes: only the identifier and RD are read. *)
Definition FORMERR_raw (p_RawData : option bytes) (p_DataSize : nat) p_Output : outcome (Z * bytes) :=
  let p_Output := resize HeaderSize p_Output in
  transaction_id ←
    match p_RawData with
    | Some s_Src => if (2 <=? p_DataSize)%nat
                    then bs ← load_n s_Src 0 2; Done (NetworkToHost 2 (object_value bs)) else Done 0
    | None => Done 0
    end;
  p_Output ← WriteUint16 p_Output 0 transaction_id;
  let flags := u16 (Z.lor 0x8001 0x0080) in
  flags ←
    match p_RawData with
    | Some s_Src =>
        if (4 <=? p_DataSize)%nat then
          bs ← load_n s_Src 2 2;
          let original_flags := NetworkToHost 2 (object_value bs) in
          Done (if tobool (Z.land original_flags 0x0100) then u16 (Z.lor flags 0x0100) else flags)
        else Done flags
    | None => Done flags
    end;
  p_Output ← WriteUint16 p_Output 2 flags;
  p_Output ← WriteUint16 p_Output 4 0;
  p_Output ← WriteUint16 p_Output 6 0;
  p_Output ← WriteUint16 p_Output 8 0;
  p_Output ← WriteUint16 p_Output 10 0;
  Done (0, p_Output).

Definition NXDOMAIN p_Packet p_Output (p_Zone : bytes) : outcome (Z * bytes) :=
  let s_Nscount := match p_Zone with [] => 0 | _ => 1 end in
  p_Output ← WriteStandardHeader p_Packet DNS_RCODE_NXDOMAIN 0 s_Nscount 0 true;
  let '(s_Ok, p_Output) := WriteQuestion p_Output p_Packet in
  if negb s_Ok then Done (-1, p_Output) else
  if negb (bool_decide (p_Zone = []))
     && negb (bool_decide (DnsRequestPacket.Questions p_Packet = [])) then
    let '(s_R1, s_ZoneWire) := DomainToQuestion p_Zone [] in
    let '(s_R2, s_MnameWire) := DomainToQuestion (str "ns." ++ p_Zone ++ str ".") [] in
    let '(s_R3, s_RnameWire) := DomainToQuestion (str "hostmaster." ++ p_Zone ++ str ".") [] in
    if (s_R1 =? -1) || (s_R2 =? -1) || (s_R3 =? -1) then
      p_Output ← WriteUint16 p_Output 8 0; Done (0, p_Output)
    else
      let s_RdataLen := (length s_MnameWire + length s_RnameWire + 20)%nat in
      if too_long s_RdataLen then p_Output ← WriteUint16 p_Output 8 0; Done (0, p_Output) else
      let p_Output := p_Output ++ s_ZoneWire in
      s_Qclass ← FirstQclass p_Packet;
      let p_Output := AppendFixed DefaultTtl p_Output DNS_TYPE_SOA s_Qclass s_RdataLen in
      let p_Output := (p_Output ++ s_MnameWire) ++ s_RnameWire in
      let p_Output := AppendUint32 p_Output 1 in
      let p_Output := AppendUint32 p_Output 86400 in
      let p_Output := AppendUint32 p_Output 3600 in
      let p_Output := AppendUint32 p_Output 604800 in
      Done (0, AppendUint32 p_Output (u32 DefaultTtl))
  else Done (0, p_Output).

(** A header and the question, with a response code. *)
Definition ErrorResponse (p_Rcode : Z) p_Packet p_Output : outcome (Z * bytes) :=
  p_Output ← WriteStandardHeader p_Packet p_Rcode 0 0 0 false;
  let '(s_Ok, p_Output) := WriteQuestion p_Output p_Packet in
  if negb s_Ok then Done (-1, p_Output) else Done (0, p_Output).

Definition NOTIMP := ErrorResponse DNS_RCODE_NOTIMP.
Definition SERVFAIL := ErrorResponse DNS_RCODE_SERVFAIL.
Definition REFUSED := ErrorResponse DNS_RCODE_REFUSED.

(** The header, the question and the start of the only answer: its name is the
    pointer to the question. *)
Definition AnswerStart p_Packet (p_Type : Z) : outcome (bool * bytes) :=
  p_Output ← WriteStandardHeader p_Packet DNS_RCODE_NOERROR 1 0 0 true;
  let '(s_Ok, p_Output) := WriteQuestion p_Output p_Packet in
  if negb s_Ok then Done (false, p_Output) else
  let p_Output := AppendUint16 p_Output DNS_QUESTION_POINTER in
  let p_Output := AppendUint16 p_Output p_Type in
  s_Qclass ← FirstQclass p_Packet;
  let p_Output := AppendUint16 p_Output s_Qclass in
  Done (true, AppendUint32 p_Output (u32 DefaultTtl)).

Definition Address (p_Type : Z) (p_Size : nat) p_Packet (p_IpHex : bytes) p_Output : outcome (Z * bytes) :=
  if negb (length p_IpHex =? p_Size)%nat then Done (-1, p_Output) else
  '(s_Ok, p_Output) ← AnswerStart p_Packet p_Type;
  if negb s_Ok then Done (-1, p_Output) else
  let p_Output := AppendUint16 p_Output (Z.of_nat p_Size) in
  Done (0, p_Output ++ p_IpHex).

Definition A := Address DNS_TYPE_A 4.
Definition AAAA := Address DNS_TYPE_AAAA 16.

Definition Domain (p_Type : Z) p_Packet (p_Domain : bytes) p_Output : outcome (Z * bytes) :=
  if (length p_Domain =? 0)%nat then Done (-1, p_Output) else
  if negb (IsValidDnsName p_Domain) then Done (-1, p_Output) else
  '(s_Ok, p_Output) ← AnswerStart p_Packet p_Type;
  if negb s_Ok then Done (-1, p_Output) else
  let '(s_Ret, s_Wire) := DomainToQuestion p_Domain [] in
  if s_Ret =? -1 then Done (-1, p_Output) else
  if too_long (length s_Wire) then Done (-1, p_Output) else
  let p_Output := AppendUint16 p_Output (u16 (Z.of_nat (length s_Wire))) in
  Done (0, p_Output ++ s_Wire).

Definition NS := Domain DNS_TYPE_NS.
Definition CNAME := Domain DNS_TYPE_CNAME.
Definition PTR := Domain DNS_TYPE_PTR.

(** The start of the answer and its data length. *)
Definition DataStart p_Packet (p_Type : Z) (s_RdataLen : nat) : outcome (bool * bytes) :=
  '(s_Ok, p_Output) ← AnswerStart p_Packet p_Type;
  if negb s_Ok then Done (false, p_Output)
  else Done (true, AppendUint16 p_Output (u16 (Z.of_nat s_RdataLen))).

Definition SOA p_Packet p_Data p_Output : outcome (Z * bytes) :=
  if negb (is_object p_Data) then Done (-1, p_Output) else
  if negb (forallb (contains p_Data) soa_fields) then Done (-1, p_Output) else
  s_Primary ← get_string (field_of p_Data (str "primary"));
  s_Admin ← get_string (field_of p_Data (str "admin"));
  if negb (IsValidDnsName s_Primary) || negb (IsValidDnsName s_Admin) then Done (-1, p_Output) else
  let '(s_Ret, s_PrimaryWire) := DomainToQuestion s_Primary [] in
  if s_Ret =? -1 then Done (-1, p_Output) else
  let '(s_Ret, s_AdminWire) := DomainToQuestion s_Admin [] in
  if s_Ret =? -1 then Done (-1, p_Output) else
  let s_RdataLen := (length s_PrimaryWire + length s_AdminWire + 20)%nat in
  if too_long s_RdataLen then Done (-1, p_Output) else
  '(s_Ok, p_Output) ← DataStart p_Packet DNS_TYPE_SOA s_RdataLen;
  if negb s_Ok then Done (-1, p_Output) else
  let p_Output := (p_Output ++ s_PrimaryWire) ++ s_AdminWire in
  s_Serial ← get_uint32 (field_of p_Data (str "serial"));
  let p_Output := AppendUint32 p_Output s_Serial in
  s_Refresh ← get_uint32 (field_of p_Data (str "refresh"));
  let p_Output := AppendUint32 p_Output s_Refresh in
  s_Retry ← get_uint32 (field_of p_Data (str "retry"));
  let p_Output := AppendUint32 p_Output s_Retry in
  s_Expire ← get_uint32 (field_of p_Data (str "expire"));
  let p_Output := AppendUint32 p_Output s_Expire in
  s_Minimum ← get_uint32 (field_of p_Data (str "minimum"));
  Done (0, AppendUint32 p_Output s_Minimum).

Definition MX p_Packet p_Data p_Output : outcome (Z * bytes) :=
  if negb (is_object p_Data) then Done (-1, p_Output) else
  if negb (contains p_Data (str "preference")) || negb (contains p_Data (str "exchange"))
  then Done (-1, p_Output) else
  s_Exchange ← get_string (field_of p_Data (str "exchange"));
  if negb (IsValidDnsName s_Exchange) then Done (-1, p_Output) else
  let '(s_Ret, s_ExchangeWire) := DomainToQuestion s_Exchange [] in
  if s_Ret =? -1 then Done (-1, p_Output) else
  let s_RdataLen := (2 + length s_ExchangeWire)%nat in
  if too_long s_RdataLen then Done (-1, p_Output) else
  '(s_Ok, p_Output) ← DataStart p_Packet DNS_TYPE_MX s_RdataLen;
  if negb s_Ok then Done (-1, p_Output) else
  s_Preference ← get_uint16 (field_of p_Data (str "preference"));
  Done (0, AppendUint16 p_Output s_Preference ++ s_ExchangeWire).

Definition TXT p_Packet p_Data p_Output : outcome (Z * bytes) :=
  if negb (is_array p_Data) || is_empty p_Data then Done (-1, p_Output) else
  s_Rdata ← txt_rdata (elements p_Data) [];
  match s_Rdata with
  | None => Done (-1, p_Output)
  | Some s_Rdata =>
      if too_long (length s_Rdata) then Done (-1, p_Output) else
      '(s_Ok, p_Output) ← DataStart p_Packet DNS_TYPE_TXT (length s_Rdata);
      if negb s_Ok then Done (-1, p_Output) else Done (0, p_Output ++ s_Rdata)
  end.

Definition SRV p_Packet p_Data p_Output : outcome (Z * bytes) :=
  if negb (is_object p_Data) then Done (-1, p_Output) else
  if negb (forallb (contains p_Data) srv_fields) then Done (-1, p_Output) else
  s_Target ← get_string (field_of p_Data (str "target"));
  if negb (IsValidDnsName s_Target) then Done (-1, p_Output) else
  let '(s_Ret, s_TargetWire) := DomainToQuestion s_Target [] in
  if s_Ret =? -1 then Done (-1, p_Output) else
  let s_RdataLen := (6 + length s_TargetWire)%nat in
  if too_long s_RdataLen then Done (-1, p_Output) else
  '(s_Ok, p_Output) ← DataStart p_Packet DNS_TYPE_SRV s_RdataLen;
  if negb s_Ok then Done (-1, p_Output) else
  s_Priority ← get_uint16 (field_of p_Data (str "priority"));
  let p_Output := AppendUint16 p_Output s_Priority in
  s_Weight ← get_uint16 (field_of p_Data (str "weight"));
  let p_Output := AppendUint16 p_Output s_Weight in
  s_Port ← get_uint16 (field_of p_Data (str "port"));
  Done (0, AppendUint16 p_Output s_Port ++ s_TargetWire).

Definition AppendAnswer (p_RecordType : bytes) p_Packet p_Data p_Output (p_Name : bytes)
    : outcome (Z * bytes) :=
  match DnsRequestPacket.Questions p_Packet with
  | [] => Done (-1, p_Output)
  | q :: _ => DispatchAppendAnswer DefaultTtl p_RecordType (DnsQuestion.Qclass false q) p_Data p_Output p_Name
  end.

(** The record loop of [MultiAnswer]. *)
Fixpoint AppendRecords (p_Records : list (AnswerRecord J)) (s_Qclass : Z) p_Output : outcome (Z * bytes) :=
  match p_Records with
  | [] => Done (0, p_Output)
  | l_Record :: p_Records =>
      '(s_Ret, p_Output) ← DispatchAppendAnswer DefaultTtl (m_Type_ l_Record) s_Qclass (m_Data_ l_Record)
                             p_Output (m_Name_ l_Record);
      if negb (s_Ret =? 0) then Done (-1, p_Output) else AppendRecords p_Records s_Qclass p_Output
  end.

Definition MultiAnswer p_Packet (p_Records : list (AnswerRecord J)) p_Output : outcome (Z * bytes) :=
  if (length p_Records =? 0)%nat || too_long (length p_Records) then Done (-1, p_Output) else
  p_Output ← WriteStandardHeader p_Packet DNS_RCODE_NOERROR (u16 (Z.of_nat (length p_Records))) 0 0 true;
  let '(s_Ok, p_Output) := WriteQuestion p_Output p_Packet in
  if negb s_Ok then Done (-1, p_Output) else
  s_Qclass ← FirstQclass p_Packet;
  AppendRecords p_Records s_Qclass p_Output.

Definition CallResponseFunction (p_RecordType : bytes) p_Packet p_Data p_Output : outcome (Z * bytes) :=
  if bool_decide (p_RecordType = str "PTR") then s ← get_string p_Data; PTR p_Packet s p_Output
  else if bool_decide (p_RecordType = str "CNAME") then s ← get_string p_Data; CNAME p_Packet s p_Output
  else if bool_decide (p_RecordType = str "A") then s ← get_string p_Data; A p_Packet s p_Output
  else if bool_decide (p_RecordType = str "AAAA") then s ← get_string p_Data; AAAA p_Packet s p_Output
  else if bool_decide (p_RecordType = str "NS") then s ← get_string p_Data; NS p_Packet s p_Output
  else if bool_decide (p_RecordType = str "SOA") then SOA p_Packet p_Data p_Output
  else if bool_decide (p_RecordType = str "MX") then MX p_Packet p_Data p_Output
  else if bool_decide (p_RecordType = str "TXT") then TXT p_Packet p_Data p_Output
  else if bool_decide (p_RecordType = str "SRV") then SRV p_Packet p_Data p_Output
  else if bool_decide (p_RecordType = str "NXDOMAIN") then
    s_Zone ← (if is_string p_Data then get_string p_Data else Done []);
    NXDOMAIN p_Packet p_Output s_Zone
  else if bool_decide (p_RecordType = str "NOTIMP") then NOTIMP p_Packet p_Output
  else if bool_decide (p_RecordType = str "FORMERR") then FORMERR p_Packet p_Output
  else if bool_decide (p_RecordType = str "SERVFAIL") then SERVFAIL p_Packet p_Output
  else if bool_decide (p_RecordType = str "REFUSED") then REFUSED p_Packet p_Output
  else Done (-1, p_Output).

Definition CallResponseFunction_raw (p_RecordType : bytes) (p_RawData : option bytes) (p_DataSize : nat)
    p_Output : outcome (Z * bytes) :=
  if bool_decide (p_RecordType = str "FORMERR") then FORMERR_raw p_RawData p_DataSize p_Output
  else Done (-1, p_Output).

(** The options echoed in a response: cookies of an acceptable length. *)
Definition echoed (l_Opt : EdnsOption) : bool :=
  (m_Code_ l_Opt =? EDNS_OPTION_CODE_COOKIE) && (EDNS_COOKIE_MIN_LENGTH <=? length (DnsRequestPacket.m_Data_ l_Opt))%nat
  && (length (DnsRequestPacket.m_Data_ l_Opt) <=? EDNS_COOKIE_MAX_LENGTH)%nat.

Definition AppendOpt p_Output (p_ExtendedRcode : Z) (p_RequestEdns : option EdnsData) : outcome bytes :=
  let s_Rdata :=
    match p_RequestEdns with
    | None => []
    | Some e =>
        fold_left (λ s_Rdata l_Opt,
          if echoed l_Opt then
            AppendUint16 (AppendUint16 s_Rdata (m_Code_ l_Opt))
              (u16 (Z.of_nat (length (DnsRequestPacket.m_Data_ l_Opt)))) ++ DnsRequestPacket.m_Data_ l_Opt
          else s_Rdata) (m_Options_ e) []
    end in
  let p_Output := p_Output ++ [x00] in
  let p_Output := AppendUint16 p_Output DNS_TYPE_OPT in
  let p_Output := AppendUint16 p_Output DEFAULT_EDNS_PACKET_SIZE in
  let s_Ttl := u32 (Z.shiftl p_ExtendedRcode 24) in
  let p_Output := AppendUint32 p_Output s_Ttl in
  let p_Output :=
    if too_long (length s_Rdata) then AppendUint16 p_Output 0
    else AppendUint16 p_Output (u16 (Z.of_nat (length s_Rdata))) ++ s_Rdata in
  if (HeaderSize <=? length p_Output)%nat then
    bs ← load_n p_Output 10 2;
    let s_Arcount := NetworkToHost 2 (object_value bs) in
    WriteUint16 p_Output 10 (u16 (s_Arcount + 1))
  else Done p_Output.

Definition FORMERR_OPT p_Packet p_Output (p_RequestEdns : option EdnsData) : outcome (Z * bytes) :=
  '(s_Ret, p_Output) ← FORMERR p_Packet p_Output;
  if s_Ret =? 0 then p_Output ← AppendOpt p_Output 0 p_RequestEdns; Done (s_Ret, p_Output)
  else Done (s_Ret, p_Output).

Definition FORMERR_OPT_raw (p_RawData : option bytes) (p_DataSize : nat) p_Output
    (p_RequestEdns : option EdnsData) : outcome (Z * bytes) :=
  '(s_Ret, p_Output) ← FORMERR_raw p_RawData p_DataSize p_Output;
  if s_Ret =? 0 then p_Output ← AppendOpt p_Output 0 p_RequestEdns; Done (s_Ret, p_Output)
  else Done (s_Ret, p_Output).

Definition BADVERS p_Packet p_Output (p_RequestEdns : option EdnsData) : outcome (Z * bytes) :=
  p_Output ← WriteStandardHeader p_Packet DNS_RCODE_NOERROR 0 0 0 false;
  let '(s_Ok, p_Output) := WriteQuestion p_Output p_Packet in
  if negb s_Ok then Done (-1, p_Output) else
  p_Output ← AppendOpt p_Output 1 p_RequestEdns;
  Done (0, p_Output).
End responses.
