(* ===== verification/ResponseFacts.v ===== *)
(** * What the relay's own responses contain (src/src/dns_response.cc)

    A response is specified as a header, a question and a list of records
    ([rr]); [packet] is its layout, in which a record's name may be the pointer to the
    question, and [packet_response] what the packet parser makes of it.  The
    functions of DnsResponse.v are shown to write such packets: for which data
    they succeed ([record_data]), and with which header, question and records. *)

From Stdlib Require Import ZArith Lia ZifyBool.
From Stdlib Require Import Strings.Byte Strings.String.
From stdpp Require Import base numbers list option sets.
From S2P Require Import Prelude.
From S2P Require Import Memory.
From S2P Require Import Utils.
From S2P Require Import Text.
From S2P Require Import Name.
From S2P Require Import DnsHeader.
From S2P Require Import DnsQuestion.
From S2P Require Import DnsAnswer.
From S2P Require Import WireFormat.
From S2P Require Import DnsRequestPacket.
From S2P Require Import DnsResponsePacket.
From S2P Require Import DnsResponse.

(** ** Specification *)

(** A record: its owner name ([None] is the question's), type, class, TTL and data. *)
Record rr : Type := {
  rr_owner : option (list bytes);
  rr_type : Z;
  rr_class : Z;
  rr_ttl : Z;
  rr_data : bytes
}.

Section specification.
  Context {H : Target}.
Local Open Scope Z_scope.
Implicit Types (r : rr) (q : DnsQuestion) (h : DnsHeader).

(** The name on the wire, with the pointer to offset 12 for the question's. *)
Definition owner_wire (o : option (list bytes)) : bytes :=
  match o with None => be_split 2 DNS_QUESTION_POINTER | Some labels => encode_name labels end.

Definition rr_wire r : bytes :=
  owner_wire (rr_owner r) ++ be_split 2 (rr_type r) ++ be_split 2 (rr_class r) ++ be_split 4 (rr_ttl r)
  ++ be_split 2 (Z.of_nat (length (rr_data r))) ++ rr_data r.

(** The record the packet parser gives for it. *)
Definition rr_answer (qname : list bytes) r : DnsAnswer :=
  answer_of (default qname (rr_owner r)) (rr_type r) (rr_class r) (rr_ttl r) (rr_data r).

Definition rr_ok r : Prop :=
  (∀ labels, rr_owner r = Some labels → Forall label_ok labels) ∧
  uint16 (rr_type r) ∧ uint16 (rr_class r) ∧ uint32 (rr_ttl r) ∧
  Z.of_nat (length (rr_data r)) <= UINT16_MAX ∧ plain_rdata (rr_type r) (rr_data r).

(** A packet with one question, and the response it holds. *)
Definition packet h q (ans auth add : list rr) : bytes :=
  DnsHeader.memory h ++ DnsQuestion.wire q ++ concat (rr_wire <$> (ans ++ auth ++ add)).

Definition packet_response h q (ans auth add : list rr) : DnsResponsePacket :=
  {| DnsResponsePacket.m_Header_ := h; DnsResponsePacket.m_Questions_ := [q];
     DnsResponsePacket.m_Answers_ := rr_answer (m_Qname_ q) <$> ans;
     DnsResponsePacket.m_Authority_ := rr_answer (m_Qname_ q) <$> auth;
     DnsResponsePacket.m_Additional_ := rr_answer (m_Qname_ q) <$> add |}.

(** The header of a response: identifier and RD of the request, QR and RA set, the
    opcode and the other flags 0. *)
Definition response_fields (request : DnsHeader) (rcode : Z) (aa : bool) (qd an ns ar : Z) : field → Z := λ a,
  match a with
  | FId => view false request FId
  | FRd => view false request FRd
  | FQr | FRa => 1
  | FAa => Z.b2z aa
  | FRcode => rcode
  | FQdcount => qd | FAncount => an | FNscount => ns | FArcount => ar
  | _ => 0
  end.

Definition response_header (request : DnsHeader) (rcode : Z) (aa : bool) (qd an ns ar : Z) : DnsHeader :=
  of_fields (response_fields request rcode aa qd an ns ar).
End specification.

(** The labels of a dotted name, when it can be encoded. *)
Definition name_pieces (s : bytes) : list bytes :=
  List.filter (λ p, 0 <? length p) (split_on "."%byte s).

Definition encodable (labels : list bytes) : Prop :=
  Forall label_ok labels ∧ length (encode_name labels) ≤ 255.

#[export] Instance label_ok_dec l : Decision (label_ok l).
Proof. unfold label_ok. apply _. Defined.

#[export] Instance encodable_dec labels : Decision (encodable labels).
Proof. unfold encodable. apply _. Defined.

(** The name written for a string: the root for the empty one. *)
Definition text_name (s : bytes) : option (list bytes) :=
  if decide (length s ≤ MAX_DNS_NAME_LENGTH ∧ encodable (name_pieces s)) then Some (name_pieces s) else None.

(** The owner written for an answer's name. *)
Definition text_owner (s : bytes) : option (option (list bytes)) :=
  match s with [] => Some None | _ => Some <$> text_name s end.

Definition txt_string (s : bytes) : bytes := ch (Z.of_nat (length s)) :: s.

(** [record_data T j t rd]: the zone data [j] of a record of type [T] is good, and is
    the data [rd] of a record of type number [t]. *)
Inductive record_data {J} `{Json J} : bytes → J → Z → bytes → Prop :=
  | data_A j s : get_string j = Done s → length s = 4 → record_data (str "A") j 1 s
  | data_AAAA j s : get_string j = Done s → length s = 16 → record_data (str "AAAA") j 28 s
  | data_domain T t j s labels :
      In (T, t) [(str "CNAME", 5%Z); (str "NS", 2%Z); (str "PTR", 12%Z)] →
      get_string j = Done s → s ≠ [] → text_name s = Some labels →
      record_data T j t (encode_name labels)
  | data_SOA j mname rname ms rs serial refresh retry expire minimum :
      is_object j = true → forallb (contains j) soa_fields = true →
      get_string (field_of j (str "primary")) = Done mname → mname ≠ [] → text_name mname = Some ms →
      get_string (field_of j (str "admin")) = Done rname → rname ≠ [] → text_name rname = Some rs →
      get_uint32 (field_of j (str "serial")) = Done serial →
      get_uint32 (field_of j (str "refresh")) = Done refresh →
      get_uint32 (field_of j (str "retry")) = Done retry →
      get_uint32 (field_of j (str "expire")) = Done expire →
      get_uint32 (field_of j (str "minimum")) = Done minimum →
      record_data (str "SOA") j 6
        (encode_name ms ++ encode_name rs ++ be_split 4 serial ++ be_split 4 refresh
         ++ be_split 4 retry ++ be_split 4 expire ++ be_split 4 minimum)
  | data_MX j exchange labels preference :
      is_object j = true → contains j (str "preference") = true → contains j (str "exchange") = true →
      get_string (field_of j (str "exchange")) = Done exchange → exchange ≠ [] →
      text_name exchange = Some labels →
      get_uint16 (field_of j (str "preference")) = Done preference →
      record_data (str "MX") j 15 (be_split 2 preference ++ encode_name labels)
  | data_TXT j ss :
      is_array j = true → elements j ≠ [] →
      Forall2 (λ e s, is_string e = true ∧ get_string e = Done s ∧ length s ≤ 255) (elements j) ss →
      (Z.of_nat (length (concat (txt_string <$> ss))) ≤ UINT16_MAX)%Z →
      record_data (str "TXT") j 16 (concat (txt_string <$> ss))
  | data_SRV j target labels priority weight port :
      is_object j = true → forallb (contains j) srv_fields = true →
      get_string (field_of j (str "target")) = Done target → target ≠ [] → text_name target = Some labels →
      get_uint16 (field_of j (str "priority")) = Done priority →
      get_uint16 (field_of j (str "weight")) = Done weight →
      get_uint16 (field_of j (str "port")) = Done port →
      record_data (str "SRV") j 33
        (be_split 2 priority ++ be_split 2 weight ++ be_split 2 port ++ encode_name labels).

(** ** Packets are read back *)

Section packets.
  Context {H : Target}.
Implicit Types (r : rr) (q : DnsQuestion) (h : DnsHeader).

Lemma rr_answer_fields qname r :
  rr_ok r →
  DnsAnswer.wf (rr_answer qname r) ∧ rdlength_ok (rr_answer qname r) ∧
  DnsAnswer.Type_ false (rr_answer qname r) = rr_type r ∧
  fixed_wire (rr_answer qname r) = be_split 2 (rr_type r) ++ be_split 2 (rr_class r)
    ++ be_split 4 (rr_ttl r) ++ be_split 2 (Z.of_nat (length (rr_data r))).
Proof.
  intros (_ & Ht & Hc & Httl & Hl & _). unfold UINT16_MAX in Hl.
  assert (Hu : u16 (Z.of_nat (length (rr_data r))) = Z.of_nat (length (rr_data r))) by (apply u16_small; lia).
  assert (Hl' : uint16 (Z.of_nat (length (rr_data r)))) by (unfold uint16; lia).
  set (a := rr_answer qname r).
  assert (E1 : DnsAnswer.Type_ false a = rr_type r) by (by apply (NetworkToHost_HostToNetwork 2)).
  assert (E2 : Rclass false a = rr_class r) by (by apply (NetworkToHost_HostToNetwork 2)).
  assert (E3 : DnsAnswer.Ttl false a = rr_ttl r) by (by apply (NetworkToHost_HostToNetwork 4)).
  assert (E4 : Rdlength false a = Z.of_nat (length (rr_data r))).
  { transitivity (u16 (Z.of_nat (length (rr_data r)))); [|done].
    apply (NetworkToHost_HostToNetwork 2), u16_range. }
  split_and!; [|done|done|unfold fixed_wire; by rewrite E1, E2, E3, E4].
  split_and!; [by apply (HostToNetwork_bound 2)|by apply (HostToNetwork_bound 2)
              |by apply (HostToNetwork_bound 4)|apply (HostToNetwork_bound 2), u16_range].
Qed.

(** The owner name is read as the question's name or its own. *)
Lemma owner_name data p_Size pre o rest qname m :
  name_at data p_Size 12 qname m 0 → (∀ labels, o = Some labels → Forall label_ok labels) →
  data = pre ++ owner_wire o ++ rest → length pre + length (owner_wire o) ≤ p_Size →
  name_from data p_Size (length pre) (default qname o) (length pre + length (owner_wire o)).
Proof.
  intros Hq Ho E Hs. destruct o as [labels|]; cbn [default owner_wire] in *.
  - apply name_from_encode with rest; [by apply Ho|done|done].
  - exists 1. split; [|unfold DNS_MAX_POINTER_HOPS; lia].
    assert (Eb : be_split 2 DNS_QUESTION_POINTER = [xc0; x0c]) by reflexivity.
    rewrite Eb in *. cbn [length app] in *. apply name_pointer with xc0 x0c m.
    + lia.
    + rewrite E, lookup_app_r, Nat.sub_diag by lia. reflexivity.
    + by vm_compute.
    + rewrite E, lookup_app_r by lia. replace (S (length pre) - length pre) with 1 by lia. reflexivity.
    + exact Hq.
Qed.

Lemma section_at_rr rs : ∀ data p_Size pre post qname m,
  name_at data p_Size 12 qname m 0 → Forall rr_ok rs →
  data = pre ++ concat (rr_wire <$> rs) ++ post → length pre + length (concat (rr_wire <$> rs)) ≤ p_Size →
  section_at data p_Size (length pre) (rr_answer qname <$> rs)
    (length pre + length (concat (rr_wire <$> rs))).
Proof.
  induction rs as [|r rs IH]; intros data p_Size pre post qname m Hq Hok E Hs.
  - simpl. rewrite Nat.add_0_r. constructor.
  - apply Forall_cons in Hok as [Hr Hok]. rewrite !fmap_cons in *. cbn [concat] in *.
    rewrite length_app in *. rewrite <- app_assoc in E.
    destruct (rr_answer_fields qname r Hr) as (Hw & Hrl & Ht & Hf). pose proof Hr as (Ho & _ & _ & _ & _ & Hp).
    assert (Ew : rr_wire r = owner_wire (rr_owner r) ++ fixed_wire (rr_answer qname r)
                             ++ m_Rdata_ (rr_answer qname r)).
    { rewrite Hf. unfold rr_wire. by rewrite <- !app_assoc. }
    assert (El : length (rr_wire r) = length (owner_wire (rr_owner r)) + 10
                                      + length (m_Rdata_ (rr_answer qname r))).
    { rewrite Ew, !length_app, length_fixed_wire. lia. }
    rewrite Nat.add_assoc. apply section_cons with (length pre + length (rr_wire r)).
    + rewrite El, !Nat.add_assoc. apply answer_at_record with (concat (rr_wire <$> rs) ++ post); try done.
      * by rewrite Ht.
      * by rewrite E, Ew, <- !app_assoc.
      * lia.
      * apply owner_name with (fixed_wire (rr_answer qname r) ++ m_Rdata_ (rr_answer qname r)
          ++ concat (rr_wire <$> rs) ++ post) m; [done|done|by rewrite E, Ew, <- !app_assoc|lia].
    + rewrite <- length_app. apply IH with post m; try done; [by rewrite E, <- app_assoc|].
      rewrite length_app. lia.
Qed.

Lemma packet_at h q ans auth add :
  DnsHeader.wf h → DnsHeader.Valid h = true → DnsHeader.IsResponse h = true →
  counts_exact (packet_response h q ans auth add) → question_ok q → Forall rr_ok (ans ++ auth ++ add) →
  response_at (packet h q ans auth add) (length (packet h q ans auth add))
    (packet_response h q ans auth add).
Proof.
  intros Hw Hv Hr Hc [Hqw Hql] Hok. apply Forall_app in Hok as [Ha Hok]. apply Forall_app in Hok as [Hn Hx].
  set (data := packet h q ans auth add). set (hb := DnsHeader.memory h). set (qb := DnsQuestion.wire q).
  assert (Ehb : length hb = 12) by apply length_memory.
  assert (E : data = hb ++ qb ++ concat (rr_wire <$> ans) ++ concat (rr_wire <$> auth)
                     ++ concat (rr_wire <$> add)).
  { unfold data, packet. by rewrite !fmap_app, !concat_app. }
  assert (El : length data = 12 + length qb + length (concat (rr_wire <$> ans))
                 + length (concat (rr_wire <$> auth)) + length (concat (rr_wire <$> add))).
  { rewrite E, !length_app. lia. }
  assert (Hname : ∃ m, name_at data (length data) 12 (m_Qname_ q) m 0).
  { eexists. rewrite <- Ehb. apply name_at_encode with (be_split 2 (Qtype false q)
      ++ be_split 2 (Qclass false q) ++ concat (rr_wire <$> (ans ++ auth ++ add))); [done| |].
    - unfold data, packet, DnsQuestion.wire. rewrite label_ok_kept by done. by rewrite <- !app_assoc.
    - rewrite El. unfold qb, DnsQuestion.wire. rewrite label_ok_kept, !length_app by done. lia. }
  destruct Hname as [m Hname]. split_and!; try done.
  - unfold HeaderSize. lia.
  - rewrite E. unfold HeaderSize. rewrite take_app_length' by done. symmetry. by apply of_memory_memory.
  - do 4 eexists. split_and!.
    + eapply section_cons; [|constructor]. unfold HeaderSize. rewrite <- Ehb.
      eapply question_at_wire; [done|done|exact E|].
      rewrite <- question_length_wire. fold qb. lia.
    + rewrite <- question_length_wire. fold qb. rewrite <- length_app.
      eapply section_at_rr; [exact Hname|done|by rewrite E, <- app_assoc|rewrite length_app; lia].
    + rewrite <- !length_app. eapply section_at_rr; [exact Hname|done|by rewrite E, <- !app_assoc|].
      rewrite El, !length_app. lia.
    + rewrite <- !length_app. eapply section_at_rr; [exact Hname|done| |].
      * rewrite app_nil_r. by rewrite E, <- !app_assoc.
      * rewrite El, !length_app. lia.
Qed.

(** The header of the relay's own responses. *)
Lemma response_fields_ok request rcode aa qd an ns ar :
  DnsHeader.wf request → (0 ≤ rcode < 16)%Z → uint16 qd → uint16 an → uint16 ns → uint16 ar →
  fields_ok (response_fields request rcode aa qd an ns ar).
Proof.
  intros Hw Hr ? ? ? ? a. pose proof (view_range false request Hw a). unfold uint16 in *.
  pose proof (b2z_range aa). destruct a; simpl in *; lia.
Qed.

Lemma response_header_facts request rcode aa qd an ns ar :
  DnsHeader.wf request → (0 ≤ rcode < 16)%Z → uint16 qd → uint16 an → uint16 ns → uint16 ar →
  let h := response_header request rcode aa qd an ns ar in
  DnsHeader.wf h ∧ DnsHeader.Valid h = true ∧ DnsHeader.IsResponse h = true ∧
  (∀ a, view false h a = response_fields request rcode aa qd an ns ar a) ∧
  DnsHeader.memory h = DnsHeader.wire (response_fields request rcode aa qd an ns ar).
Proof.
  intros Hw Hr ? ? ? ? h. assert (Hf : fields_ok (response_fields request rcode aa qd an ns ar))
    by (by apply response_fields_ok).
  assert (Hview : ∀ a, view false h a = response_fields request rcode aa qd an ns ar a)
    by (intros; by apply view_of_fields).
  split_and!; [by apply of_fields_wf|by rewrite Valid_view, Hview|apply IsResponse_view; by rewrite Hview
              |done|by apply memory_of_fields].
Qed.

(** A whole response, with its header's counts. *)
Lemma response_packet_at request rcode aa q ans auth add :
  DnsHeader.wf request → (0 ≤ rcode < 16)%Z → question_ok q → Forall rr_ok (ans ++ auth ++ add) →
  uint16 (Z.of_nat (length ans)) → uint16 (Z.of_nat (length auth)) → uint16 (Z.of_nat (length add)) →
  let h := response_header request rcode aa 1 (Z.of_nat (length ans)) (Z.of_nat (length auth))
             (Z.of_nat (length add)) in
  response_at (packet h q ans auth add) (length (packet h q ans auth add))
    (packet_response h q ans auth add).
Proof.
  intros Hw Hrc Hq Hok Ha Hn Hx h.
  destruct (response_header_facts request rcode aa 1 (Z.of_nat (length ans)) (Z.of_nat (length auth))
    (Z.of_nat (length add)) Hw Hrc ltac:(done) Ha Hn Hx) as (? & ? & ? & Hf & _). fold h in Hf.
  apply packet_at; try done. unfold counts_exact, packet_response.
  cbn [DnsResponsePacket.m_Header_ DnsResponsePacket.m_Questions_ DnsResponsePacket.m_Answers_
       DnsResponsePacket.m_Authority_ DnsResponsePacket.m_Additional_ length].
  rewrite !length_fmap.
  split_and!; [apply (Hf FQdcount)|apply (Hf FAncount)|apply (Hf FNscount)|apply (Hf FArcount)].
Qed.
End packets.

(** ** The writers *)

Section writers_facts.
  Context {H : Target}.
Implicit Types (p_Output : bytes) (p_Packet : DnsRequestPacket).

Lemma AppendUint16_eq out v : uint16 v → AppendUint16 out v = out ++ be_split 2 v.
Proof. intros. unfold AppendUint16. by rewrite object_bytes_HostToNetwork. Qed.

Lemma AppendUint32_eq out v : uint32 v → AppendUint32 out v = out ++ be_split 4 v.
Proof. intros. unfold AppendUint32. by rewrite object_bytes_HostToNetwork. Qed.

Lemma u16_uint16 z : uint16 (u16 z).
Proof. apply u16_range. Qed.

Lemma u32_uint32 z : uint32 (u32 z).
Proof. apply u32_range. Qed.

(** The flag word is the one of the fields. *)
Lemma standard_flags (rcode : Z) (rd aa : bool) :
  (0 ≤ rcode < 16)%Z →
  let flags := u16 (Z.lor (Z.lor 0x8000 0x0080) (Z.land rcode 0x000F)) in
  let flags := if rd then u16 (Z.lor flags 0x0100) else flags in
  (if aa then u16 (Z.lor flags 0x0400) else flags)
    = (32768 + 1024 * Z.b2z aa + 256 * Z.b2z rd + 128 + rcode)%Z.
Proof.
  intros Hr. pose (P := λ r : Z, forallb (λ rd : bool, forallb (λ aa : bool,
    let flags := u16 (Z.lor (Z.lor 0x8000 0x0080) (Z.land r 0x000F)) in
    let flags := if rd then u16 (Z.lor flags 0x0100) else flags in
    (if aa then u16 (Z.lor flags 0x0400) else flags)
      =? (32768 + 1024 * Z.b2z aa + 256 * Z.b2z rd + 128 + r))%Z [true; false]) [true; false]).
  assert (HP : P rcode = true).
  { apply (forall_bits_spec 4); [|simpl; lia]. by vm_compute. }
  unfold P in HP. cbn [forallb] in HP. rewrite !andb_true_r, !andb_true_iff, !Z.eqb_eq in HP.
  destruct HP as [[H1 H2] [H3 H4]]. cbv zeta. by destruct rd, aa.
Qed.

(** Within the output the assertion of [WriteUint16] holds. *)
Lemma WriteUint16_store w i v :
  i + 2 ≤ length w → WriteUint16 w i v = store_n w i (object_bytes 2 (HostToNetwork 2 v)).
Proof. intros Hi. unfold WriteUint16. rewrite assert_passes; [done|]. apply passes_true, Nat.ltb_lt. lia. Qed.

Lemma WriteUint16_written w i v :
  uint16 v → i + 2 ≤ length w → WriteUint16 w i v = Done (splice w i (be_split 2 v)).
Proof.
  intros Hv Hi. rewrite WriteUint16_store, object_bytes_HostToNetwork by done.
  by rewrite store_n_Done by (rewrite length_be_split; lia).
Qed.

Lemma WriteUint16_splice w i o bs v :
  uint16 v → o = i + length bs → i + length bs + 2 ≤ length w →
  WriteUint16 (splice w i bs) o v = Done (splice w i (bs ++ be_split 2 v)).
Proof.
  intros Hv -> Hi. rewrite WriteUint16_written by (done || rewrite length_splice; lia).
  by rewrite splice_splice by (rewrite length_be_split; lia).
Qed.

Lemma WriteUint16_next pre k v (m : nat) :
  uint16 v → m = length pre → 2 ≤ k →
  WriteUint16 (pre ++ repeat x00 k) m v = Done ((pre ++ be_split 2 v) ++ repeat x00 (k - 2)).
Proof.
  intros Hv -> Hk. rewrite WriteUint16_written by (done || rewrite length_app, repeat_length; lia). f_equal.
  replace k with (2 + (k - 2)) at 1 by lia. rewrite repeat_app, <- app_assoc. by apply splice_middle.
Qed.

Lemma WriteStandardHeader_Done p_Packet rcode an ns ar aa :
  DnsHeader.wf (DnsRequestPacket.m_Header_ p_Packet) →
  (0 ≤ rcode < 16)%Z → uint16 an → uint16 ns → uint16 ar →
  WriteStandardHeader p_Packet rcode an ns ar aa =
    Done (DnsHeader.memory (response_header (DnsRequestPacket.m_Header_ p_Packet) rcode aa 1 an ns ar)).
Proof.
  intros Hw Hr Han Hns Har. set (h := DnsRequestPacket.m_Header_ p_Packet) in *.
  destruct (response_header_facts h rcode aa 1 an ns ar Hw Hr ltac:(done) Han Hns Har)
    as (_ & _ & _ & _ & ->).
  assert (Hid : uint16 (DnsHeader.Id false h)) by apply (view_range false h Hw FId).
  unfold WriteStandardHeader, DnsRequestPacket.Header. fold h. cbv zeta.
  rewrite (standard_flags rcode (DnsHeader.Rd false h) aa Hr).
  set (fl := (32768 + _ + _ + _ + _)%Z).
  assert (Hfl : uint16 fl).
  { unfold fl, uint16. pose proof (b2z_range aa). pose proof (b2z_range (DnsHeader.Rd false h)). lia. }
  assert (Efl : flag_word (response_fields h rcode aa 1 an ns ar) = fl).
  { unfold flag_word, response_fields, fl. cbn [view]. lia. }
  unfold DnsHeader.wire. rewrite Efl. cbn [response_fields view].
  change (repeat x00 HeaderSize) with ([] ++ repeat x00 12).
  do 5 (rewrite WriteUint16_next, bind_done by (done || (by split) || (simpl; lia))).
  rewrite WriteUint16_next by (done || simpl; lia). cbn [repeat Nat.sub].
  by rewrite app_nil_r, app_nil_l, <- !app_assoc.
Qed.

(** Encoding labels: exactly the encodable names, in their encoding. *)
Lemma labels_total_spec labels n :
  labels_total labels n =
    if decide (Forall label_ok labels) then Some (n + (length (encode_name labels) - 1)) else None.
Proof.
  revert n. induction labels as [|l labels IH]; intros n; cbn [labels_total].
  - rewrite decide_True by constructor. simpl. f_equal. lia.
  - unfold MAX_DNS_LABEL_LENGTH in *.
    destruct (Nat.eqb_spec (length l) 0) as [E|Hn]; [|destruct (Nat.ltb_spec 63 (length l))].
    + rewrite decide_False; [done|]. intros [Hl _]%Forall_cons. unfold label_ok in Hl. lia.
    + rewrite decide_False; [done|]. intros [Hl _]%Forall_cons. unfold label_ok in Hl. lia.
    + rewrite IH. destruct (decide (Forall label_ok labels)) as [Hok|Hno].
      * rewrite decide_True by (constructor; [unfold label_ok; lia|done]). f_equal.
        simpl. rewrite length_app. assert (1 ≤ length (encode_name labels)) by (destruct labels; simpl; lia). lia.
      * rewrite decide_False; [done|]. by intros [_ Hl]%Forall_cons.
Qed.

Lemma encode_fold labels out :
  fold_left (λ out l, (out ++ [ch (Z.of_nat (length l))]) ++ l) labels out ++ [x00] = out ++ encode_name labels.
Proof.
  revert out. induction labels as [|l labels IH]; intros out; [done|]. cbn [fold_left encode_name].
  by rewrite IH, <- !app_assoc.
Qed.

Lemma DomainToQuestion_labels_spec labels out :
  DomainToQuestion_labels labels out =
    if decide (encodable labels) then (0%Z, out ++ encode_name labels) else ((-1)%Z, out).
Proof.
  unfold DomainToQuestion_labels. rewrite labels_total_spec. unfold encodable.
  assert (1 ≤ length (encode_name labels)) by (destruct labels; simpl; lia).
  destruct (decide (Forall label_ok labels)) as [Hok|Hno].
  - replace (1 + (length (encode_name labels) - 1)) with (length (encode_name labels)) by lia.
    destruct (Nat.ltb_spec 255 (length (encode_name labels))).
    + rewrite decide_False; [done|]. intros [_ ?]. lia.
    + rewrite decide_True by done. by rewrite encode_fold.
  - rewrite decide_False; [done|]. by intros [? _].
Qed.

Lemma DomainToQuestion_spec s out :
  DomainToQuestion s out =
    match text_name s with Some labels => (0%Z, out ++ encode_name labels) | None => ((-1)%Z, out) end.
Proof.
  unfold DomainToQuestion, text_name. destruct s as [|b s0] eqn:Es.
  { rewrite decide_True; [done|]. split; [simpl; lia|]. split; [constructor|simpl; lia]. }
  rewrite <- Es. assert (Hne : s ≠ []) by congruence. clear Es b s0. unfold IsValidDnsName.
  destruct (Nat.eqb_spec (length s) 0) as [E0|_]; [by apply nil_length_inv in E0|]. cbn [orb].
  destruct (Nat.ltb_spec MAX_DNS_NAME_LENGTH (length s)) as [Hl|Hl]; cbn [negb].
  { rewrite decide_False; [done|]. intros [? _]. lia. }
  pose proof (split_loop_split "."%byte s) as Hs. destruct (split_loop "."%byte s) as [ps i].
  destruct Hs as (Hs & Hi & _).
  assert (E : List.filter (λ p, 0 <? length p) ps ++ (if i <? length s then [substr_from s i] else [])
              = name_pieces s).
  { unfold name_pieces. rewrite Hs, List.filter_app. f_equal. cbn [List.filter]. unfold substr_from.
    rewrite length_drop. destruct (Nat.ltb_spec i (length s)), (Nat.ltb_spec 0 (length s - i)); done || lia. }
  rewrite E, DomainToQuestion_labels_spec.
  destruct (decide (encodable (name_pieces s))) as [He|Hn].
  - by rewrite decide_True.
  - rewrite decide_False; [done|]. by intros [_ ?].
Qed.

Lemma text_name_ok s labels : text_name s = Some labels → encodable labels.
Proof. unfold text_name. destruct (decide _) as [[_ He]|]; [by intros [= <-]|done]. Qed.

Lemma WriteQuestion_spec p_Packet q qs out :
  DnsRequestPacket.m_Questions_ p_Packet = q :: qs → question_ok q →
  WriteQuestion out p_Packet =
    if decide (encodable (m_Qname_ q)) then (true, out ++ DnsQuestion.wire q) else (false, out).
Proof.
  intros E [[Hw1 Hw2] Hl]. unfold WriteQuestion, DnsRequestPacket.Questions. rewrite E, DomainToQuestion_labels_spec.
  unfold Qname. destruct (decide (encodable (m_Qname_ q))); [|done]. cbn [Z.eqb]. cbv zeta.
  rewrite !AppendUint16_eq by (by apply NetworkToHost_uint16).
  unfold DnsQuestion.wire. rewrite label_ok_kept by done. by rewrite app_nil_l, <- !app_assoc.
Qed.

Lemma WriteAnswerName_spec s out :
  WriteAnswerName out s =
    match text_owner s with Some o => (0%Z, out ++ owner_wire o) | None => ((-1)%Z, out) end.
Proof.
  unfold WriteAnswerName, text_owner. destruct s as [|b s].
  - by rewrite AppendUint16_eq by by split.
  - rewrite DomainToQuestion_spec. by destruct (text_name (b :: s)).
Qed.

Lemma text_owner_ok s o labels : text_owner s = Some o → o = Some labels → Forall label_ok labels.
Proof.
  unfold text_owner. destruct s as [|b s]; [by intros [= <-]|].
  destruct (text_name (b :: s)) as [ls|] eqn:E; [|done]. intros [= <-] [= <-].
  by destruct (text_name_ok _ _ E).
Qed.
End writers_facts.

(** ** The records, one at a time *)

Section record_facts.
  Context {H : Target} {J : Type} `{JsonLaws J} (DefaultTtl : Z).
Implicit Types (p_Output out : bytes) (d : J) (name : bytes).

(** What precedes the data of a record. *)
Definition head_wire (o : option (list bytes)) (t cls : Z) (n : nat) : bytes :=
  owner_wire o ++ be_split 2 t ++ be_split 2 cls ++ be_split 4 (u32 DefaultTtl) ++ be_split 2 (Z.of_nat n).

Lemma AppendFixed_eq out t cls n :
  uint16 t → uint16 cls → (Z.of_nat n ≤ UINT16_MAX)%Z →
  AppendFixed DefaultTtl out t cls n =
    out ++ be_split 2 t ++ be_split 2 cls ++ be_split 4 (u32 DefaultTtl) ++ be_split 2 (Z.of_nat n).
Proof.
  intros Ht Hc Hn. unfold AppendFixed. cbv zeta. unfold UINT16_MAX in Hn.
  rewrite !AppendUint16_eq, AppendUint32_eq by (done || apply u16_range || apply u32_range).
  rewrite u16_small by lia. by rewrite <- !app_assoc.
Qed.

Lemma AppendHead_spec out name t cls n :
  uint16 t → uint16 cls → (Z.of_nat n ≤ UINT16_MAX)%Z →
  AppendHead DefaultTtl out name t cls n =
    match text_owner name with Some o => (0%Z, out ++ head_wire o t cls n) | None => ((-1)%Z, out) end.
Proof.
  intros Ht Hc Hn. unfold AppendHead. rewrite WriteAnswerName_spec.
  destruct (text_owner name) as [o|]; [|done]. cbn [Z.eqb negb].
  rewrite AppendFixed_eq by done. unfold head_wire. by rewrite <- !app_assoc.
Qed.

(** The functions, with what they do between checking the data and writing it as a
    parameter: the record's head, or a whole response up to it. *)
Section with_start.
  Context (start : Z → nat → Z * bytes).

Definition address_with (t : Z) (n : nat) (s out : bytes) : outcome (Z * bytes) :=
  if negb (length s =? n) then Done ((-1)%Z, out) else
  let '(r, out) := start t n in
  if negb (r =? 0)%Z then Done ((-1)%Z, out) else Done (0%Z, out ++ s).

Definition domain_with (t : Z) (s out : bytes) : outcome (Z * bytes) :=
  if (length s =? 0) || negb (IsValidDnsName s) then Done ((-1)%Z, out) else
  let '(r, w) := DomainToQuestion s [] in
  if (r =? -1)%Z then Done ((-1)%Z, out) else
  if too_long (length w) then Done ((-1)%Z, out) else
  let '(r, out) := start t (length w) in
  if negb (r =? 0)%Z then Done ((-1)%Z, out) else Done (0%Z, out ++ w).

Definition soa_with d out : outcome (Z * bytes) :=
  if negb (is_object d) then Done ((-1)%Z, out) else
  if negb (forallb (contains d) soa_fields) then Done ((-1)%Z, out) else
  s_Primary ← get_string (field_of d (str "primary"));
  s_Admin ← get_string (field_of d (str "admin"));
  if negb (IsValidDnsName s_Primary) || negb (IsValidDnsName s_Admin) then Done ((-1)%Z, out) else
  let '(r, w1) := DomainToQuestion s_Primary [] in
  if (r =? -1)%Z then Done ((-1)%Z, out) else
  let '(r, w2) := DomainToQuestion s_Admin [] in
  if (r =? -1)%Z then Done ((-1)%Z, out) else
  let n := length w1 + length w2 + 20 in
  if too_long n then Done ((-1)%Z, out) else
  let '(r, out) := start DNS_TYPE_SOA n in
  if negb (r =? 0)%Z then Done ((-1)%Z, out) else
  let out := (out ++ w1) ++ w2 in
  v1 ← get_uint32 (field_of d (str "serial")); let out := AppendUint32 out v1 in
  v2 ← get_uint32 (field_of d (str "refresh")); let out := AppendUint32 out v2 in
  v3 ← get_uint32 (field_of d (str "retry")); let out := AppendUint32 out v3 in
  v4 ← get_uint32 (field_of d (str "expire")); let out := AppendUint32 out v4 in
  v5 ← get_uint32 (field_of d (str "minimum")); Done (0%Z, AppendUint32 out v5).

Definition mx_with d out : outcome (Z * bytes) :=
  if negb (is_object d) || negb (contains d (str "preference")) || negb (contains d (str "exchange"))
  then Done ((-1)%Z, out) else
  s ← get_string (field_of d (str "exchange"));
  if negb (IsValidDnsName s) then Done ((-1)%Z, out) else
  let '(r, w) := DomainToQuestion s [] in
  if (r =? -1)%Z then Done ((-1)%Z, out) else
  let n := 2 + length w in
  if too_long n then Done ((-1)%Z, out) else
  let '(r, out) := start DNS_TYPE_MX n in
  if negb (r =? 0)%Z then Done ((-1)%Z, out) else
  v ← get_uint16 (field_of d (str "preference")); Done (0%Z, AppendUint16 out v ++ w).

Definition txt_with d out : outcome (Z * bytes) :=
  if negb (is_array d) || is_empty d then Done ((-1)%Z, out) else
  rd ← txt_rdata (elements d) [];
  match rd with
  | None => Done ((-1)%Z, out)
  | Some rd =>
      if too_long (length rd) then Done ((-1)%Z, out) else
      let '(r, out) := start DNS_TYPE_TXT (length rd) in
      if negb (r =? 0)%Z then Done ((-1)%Z, out) else Done (0%Z, out ++ rd)
  end.

Definition srv_with d out : outcome (Z * bytes) :=
  if negb (is_object d) then Done ((-1)%Z, out) else
  if negb (forallb (contains d) srv_fields) then Done ((-1)%Z, out) else
  s ← get_string (field_of d (str "target"));
  if negb (IsValidDnsName s) then Done ((-1)%Z, out) else
  let '(r, w) := DomainToQuestion s [] in
  if (r =? -1)%Z then Done ((-1)%Z, out) else
  let n := 6 + length w in
  if too_long n then Done ((-1)%Z, out) else
  let '(r, out) := start DNS_TYPE_SRV n in
  if negb (r =? 0)%Z then Done ((-1)%Z, out) else
  v1 ← get_uint16 (field_of d (str "priority")); let out := AppendUint16 out v1 in
  v2 ← get_uint16 (field_of d (str "weight")); let out := AppendUint16 out v2 in
  v3 ← get_uint16 (field_of d (str "port")); Done (0%Z, AppendUint16 out v3 ++ w).

Definition record_with (T : bytes) d out : outcome (Z * bytes) :=
  if bool_decide (T = str "A") then s ← get_string d; address_with DNS_TYPE_A 4 s out
  else if bool_decide (T = str "AAAA") then s ← get_string d; address_with DNS_TYPE_AAAA 16 s out
  else if bool_decide (T = str "CNAME") then s ← get_string d; domain_with DNS_TYPE_CNAME s out
  else if bool_decide (T = str "NS") then s ← get_string d; domain_with DNS_TYPE_NS s out
  else if bool_decide (T = str "PTR") then s ← get_string d; domain_with DNS_TYPE_PTR s out
  else if bool_decide (T = str "SOA") then soa_with d out
  else if bool_decide (T = str "MX") then mx_with d out
  else if bool_decide (T = str "TXT") then txt_with d out
  else if bool_decide (T = str "SRV") then srv_with d out
  else Done ((-1)%Z, out).
End with_start.

Lemma DispatchAppendAnswer_with T cls d out name :
  DispatchAppendAnswer DefaultTtl T cls d out name =
    record_with (λ t n, AppendHead DefaultTtl out name t cls n) T d out.
Proof. reflexivity. Qed.

(** Checks on names: what [IsValidDnsName] adds to the encoding. *)
Lemma valid_name s labels : s ≠ [] → text_name s = Some labels → IsValidDnsName s = true.
Proof.
  unfold text_name, IsValidDnsName. intros Hne. destruct (decide _) as [[Hl _]|]; [|done]. intros _.
  destruct (Nat.eqb_spec (length s) 0) as [E|_]; [by apply nil_length_inv in E|].
  by destruct (Nat.ltb_spec MAX_DNS_NAME_LENGTH (length s)); [lia|].
Qed.

Lemma IsValidDnsName_ne s : IsValidDnsName s = true → s ≠ [].
Proof. by intros E ->. Qed.

Lemma text_name_length s labels : text_name s = Some labels → 1 ≤ length (encode_name labels) ≤ 255.
Proof. intros [_ Hl]%text_name_ok. split; [destruct labels; simpl; lia|done]. Qed.

Lemma too_long_small n : (n ≤ 1000)%nat → too_long n = false.
Proof. unfold too_long, UINT16_MAX. intros. lia. Qed.

(** The texts of a TXT record: the loop collects them in order. *)
Lemma txt_rdata_iff es acc rd :
  txt_rdata es acc = Done (Some rd) ↔
  ∃ ss, Forall2 (λ e s, is_string e = true ∧ get_string e = Done s ∧ length s ≤ 255) es ss ∧
        rd = acc ++ concat (txt_string <$> ss).
Proof.
  revert acc. induction es as [|e es IH]; intros acc; cbn [txt_rdata].
  { split.
    - intros [= <-]. exists []. split; [constructor|]. by rewrite app_nil_r.
    - intros (ss & Hss & ->). apply Forall2_nil_inv_l in Hss as ->. simpl. by rewrite app_nil_r. }
  split.
  - destruct (is_string e) eqn:Es; [|done]. cbn [negb]. intros (s & Eg & E)%bind_Done_inv.
    unfold MAX_TXT_STRING_LENGTH in E. destruct (Nat.ltb_spec 255 (length s)); [done|].
    apply IH in E as (ss & Hss & ->). exists (s :: ss). split; [by constructor|].
    rewrite fmap_cons. cbn [concat]. unfold txt_string at 2. by rewrite <- !app_assoc.
  - intros (ss & Hss & ->). inversion Hss as [|? s ? ss' (Es & Eg & Hl) Hss' E1 E2]; subst.
    rewrite Es, Eg, bind_done. cbn [negb]. unfold MAX_TXT_STRING_LENGTH.
    destruct (Nat.ltb_spec 255 (length s)); [lia|]. apply IH. exists ss'. split; [done|].
    rewrite fmap_cons. cbn [concat]. unfold txt_string at 1. by rewrite <- !app_assoc.
Qed.

Section success.
  Context (start : Z → nat → Z * bytes) (base : bytes) (o : option (list bytes)) (cls : Z).
  Context (Hstart : ∀ t n, uint16 t → (Z.of_nat n ≤ UINT16_MAX)%Z →
                      start t n = (0%Z, base ++ head_wire o t cls n)).

Definition written (t : Z) (rd out' : bytes) : Prop := out' = base ++ head_wire o t cls (length rd) ++ rd.

Lemma start_small t n : uint16 t → n ≤ 1000 → start t n = (0%Z, base ++ head_wire o t cls n).
Proof. intros Ht Hn. apply Hstart; [done|]. unfold UINT16_MAX. lia. Qed.

Lemma address_with_iff t n s out out' :
  uint16 t → n ≤ 1000 →
  (address_with start t n s out = Done (0%Z, out') ↔ length s = n ∧ written t s out').
Proof.
  intros Ht Hn. unfold address_with. rewrite start_small by done.
  destruct (Nat.eqb_spec (length s) n) as [<-|Hne]; cbn [negb Z.eqb].
  - unfold written. rewrite app_assoc. split; [by intros [= <-]|by intros [_ ->]].
  - split; [done|by intros [? _]].
Qed.

Lemma domain_with_iff t s out out' :
  uint16 t →
  (domain_with start t s out = Done (0%Z, out') ↔
   s ≠ [] ∧ ∃ labels, text_name s = Some labels ∧ written t (encode_name labels) out').
Proof.
  intros Ht. unfold domain_with. rewrite DomainToQuestion_spec. split.
  - destruct (Nat.eqb_spec (length s) 0) as [|Hne]; [done|]. cbn [orb].
    destruct (IsValidDnsName s) eqn:Ev; [|done]. cbn [negb].
    destruct (text_name s) as [labels|] eqn:En; [|done]. pose proof (text_name_length _ _ En).
    cbn [Z.eqb]. rewrite app_nil_l, too_long_small, start_small by (done || lia).
    cbn [Z.eqb negb]. intros [= <-]. split; [by apply IsValidDnsName_ne|]. exists labels.
    split; [done|]. unfold written. by rewrite app_assoc.
  - intros (Hne & labels & En & ->). pose proof (text_name_length _ _ En).
    rewrite (valid_name _ _ Hne En), En. destruct (Nat.eqb_spec (length s) 0) as [E|_];
      [by apply nil_length_inv in E|].
    cbn [orb negb Z.eqb]. rewrite app_nil_l, too_long_small, start_small by (done || lia).
    cbn [Z.eqb negb]. by rewrite <- app_assoc.
Qed.

Lemma string_case d (f : bytes → outcome (Z * bytes)) out' :
  (s ← get_string d; f s) = Done (0%Z, out') ↔ ∃ s, get_string d = Done s ∧ f s = Done (0%Z, out').
Proof.
  split; [by intros (s & ? & ?)%bind_Done_inv; exists s|]. intros (s & -> & E). by rewrite bind_done.
Qed.

Lemma get16 d v : get_uint16 d = Done v → uint16 v.
Proof. intros E. destruct (get_uint16_spec d) as [(z & E' & Hz)|E']; rewrite E in E'; by simplify_eq. Qed.

Lemma get32 d v : get_uint32 d = Done v → uint32 v.
Proof. intros E. destruct (get_uint32_spec d) as [(z & E' & Hz)|E']; rewrite E in E'; by simplify_eq. Qed.

(** The case of [record_data] for a given type name. *)
Ltac record_case Hrd pat :=
  match type of Hrd with record_data ?T0 _ _ _ =>
    let T := fresh "T" in let ET := fresh "ET" in remember T0 as T eqn:ET;
    destruct Hrd as pat; try discriminate ET;
    try (subst; match goal with Hin : In _ _ |- _ =>
           exfalso; simpl in Hin; destruct Hin as [[=]|[[=]|[[=]|[]]]] end)
  end.
Tactic Notation "record_case" hyp(Hrd) "as" simple_intropattern(pat) := record_case Hrd pat.

Lemma mx_with_iff d out out' :
  mx_with start d out = Done (0%Z, out') ↔ ∃ t rd, record_data (str "MX") d t rd ∧ written t rd out'.
Proof.
  unfold mx_with. split.
  - destruct (is_object d) eqn:E1; [|done]. destruct (contains d (str "preference")) eqn:E2; [|done].
    destruct (contains d (str "exchange")) eqn:E3; [|done]. cbn [negb orb].
    intros (s & Es & E)%bind_Done_inv. destruct (IsValidDnsName s) eqn:Ev; [|done]. cbn [negb] in E.
    rewrite DomainToQuestion_spec in E. destruct (text_name s) as [labels|] eqn:En; [|done].
    pose proof (text_name_length _ _ En). cbn [Z.eqb] in E. cbv zeta in E.
    rewrite app_nil_l, too_long_small, start_small in E by (by split || lia). cbn [Z.eqb negb] in E.
    apply bind_Done_inv in E as (v & Eg & [= <-]). rewrite AppendUint16_eq by by eapply get16.
    eexists _, _. split; [eapply data_MX; [done..|by apply IsValidDnsName_ne|done|done]|].
    unfold written. rewrite length_app, length_be_split, <- !app_assoc. done.
  - intros (t & rd & Hrd & ->). record_case Hrd as [| | | |d s labels v E1 E2 E3 Es Hne En Eg| |].
    pose proof (text_name_length _ _ En).
    rewrite E1, E2, E3, Es, bind_done, (valid_name _ _ Hne En), DomainToQuestion_spec, En.
    cbn [negb orb Z.eqb]. cbv zeta. rewrite app_nil_l, too_long_small, start_small by (by split || lia).
    cbn [Z.eqb negb]. rewrite Eg, bind_done, AppendUint16_eq by by eapply get16.
    rewrite length_app, length_be_split, <- !app_assoc. done.
Qed.

Lemma srv_with_iff d out out' :
  srv_with start d out = Done (0%Z, out') ↔ ∃ t rd, record_data (str "SRV") d t rd ∧ written t rd out'.
Proof.
  unfold srv_with. split.
  - destruct (is_object d) eqn:E1; [|done]. destruct (forallb _ _) eqn:E2; [|done]. cbn [negb].
    intros (s & Es & E)%bind_Done_inv. destruct (IsValidDnsName s) eqn:Ev; [|done]. cbn [negb] in E.
    rewrite DomainToQuestion_spec in E. destruct (text_name s) as [labels|] eqn:En; [|done].
    pose proof (text_name_length _ _ En). cbn [Z.eqb] in E. cbv zeta in E.
    rewrite app_nil_l, too_long_small, start_small in E by (by split || lia). cbn [Z.eqb negb] in E.
    apply bind_Done_inv in E as (v1 & Eg1 & E). apply bind_Done_inv in E as (v2 & Eg2 & E).
    apply bind_Done_inv in E as (v3 & Eg3 & [= <-]). rewrite !AppendUint16_eq by by eapply get16.
    eexists _, _. split; [eapply data_SRV; [done..|by apply IsValidDnsName_ne|done|done|done|done]|].
    unfold written. rewrite !length_app, !length_be_split, <- !app_assoc. done.
  - intros (t & rd & Hrd & ->).
    record_case Hrd as [| | | | | |d s labels v1 v2 v3 E1 E2 Es Hne En Eg1 Eg2 Eg3].
    pose proof (text_name_length _ _ En).
    rewrite E1, E2, Es, bind_done, (valid_name _ _ Hne En), DomainToQuestion_spec, En.
    cbn [negb orb Z.eqb]. cbv zeta. rewrite app_nil_l, too_long_small, start_small by (by split || lia).
    cbn [Z.eqb negb]. rewrite Eg1, Eg2, Eg3, !bind_done, !AppendUint16_eq by by eapply get16.
    rewrite !length_app, !length_be_split, <- !app_assoc. done.
Qed.

Lemma soa_with_iff d out out' :
  soa_with start d out = Done (0%Z, out') ↔ ∃ t rd, record_data (str "SOA") d t rd ∧ written t rd out'.
Proof.
  unfold soa_with. split.
  - destruct (is_object d) eqn:E1; [|done]. destruct (forallb _ _) eqn:E2; [|done]. cbn [negb].
    intros (s & Es & E)%bind_Done_inv. apply bind_Done_inv in E as (s' & Es' & E).
    destruct (IsValidDnsName s) eqn:Ev; [|done]. destruct (IsValidDnsName s') eqn:Ev'; [|done].
    cbn [negb orb] in E.
    rewrite !DomainToQuestion_spec in E. destruct (text_name s) as [ms|] eqn:En; [|done]. cbn [Z.eqb] in E.
    destruct (text_name s') as [rs|] eqn:En'; [|done]. pose proof (text_name_length _ _ En).
    pose proof (text_name_length _ _ En'). cbn [Z.eqb] in E. cbv zeta in E.
    rewrite !app_nil_l, too_long_small, start_small in E by (by split || lia). cbn [Z.eqb negb] in E.
    apply bind_Done_inv in E as (v1 & Eg1 & E). apply bind_Done_inv in E as (v2 & Eg2 & E).
    apply bind_Done_inv in E as (v3 & Eg3 & E). apply bind_Done_inv in E as (v4 & Eg4 & E).
    apply bind_Done_inv in E as (v5 & Eg5 & [= <-]). rewrite !AppendUint32_eq by by eapply get32.
    eexists _, _. split; [eapply (data_SOA d s s'); try done; by apply IsValidDnsName_ne|].
    unfold written. rewrite !length_app, !length_be_split, <- !app_assoc. by rewrite Nat.add_assoc.
  - intros (t & rd & Hrd & ->).
    record_case Hrd as [| | |d s s' ms rs v1 v2 v3 v4 v5 E1 E2 Es Hne En Es' Hne' En'
      Eg1 Eg2 Eg3 Eg4 Eg5| | |].
    pose proof (text_name_length _ _ En). pose proof (text_name_length _ _ En').
    rewrite E1, E2, Es, Es', !bind_done, (valid_name _ _ Hne En), (valid_name _ _ Hne' En').
    rewrite !DomainToQuestion_spec, En, En'. cbn [negb orb Z.eqb]. cbv zeta.
    rewrite !app_nil_l, too_long_small, start_small by (by split || lia).
    cbn [Z.eqb negb]. rewrite Eg1, Eg2, Eg3, Eg4, Eg5, !bind_done, !AppendUint32_eq by by eapply get32.
    rewrite !length_app, !length_be_split, <- !app_assoc. by rewrite Nat.add_assoc.
Qed.

Lemma txt_with_iff d out out' :
  txt_with start d out = Done (0%Z, out') ↔ ∃ t rd, record_data (str "TXT") d t rd ∧ written t rd out'.
Proof.
  unfold txt_with, is_empty. split.
  - destruct (is_array d) eqn:E1; [|done]. destruct (elements d) as [|e es] eqn:Ee; [done|]. cbn [negb orb].
    intros (rd & Erd & E)%bind_Done_inv. destruct rd as [rd|]; [|done].
    apply txt_rdata_iff in Erd as (ss & Hss & ->). rewrite app_nil_l in *.
    destruct (too_long _) eqn:El; [done|]. unfold too_long in El. apply Z.ltb_ge in El.
    rewrite Hstart in E by first [done | by split]. cbn [Z.eqb negb] in E. injection E as <-.
    eexists _, _. split; [apply data_TXT; [done|by rewrite Ee|by rewrite Ee|done]|].
    unfold written. by rewrite app_assoc.
  - intros (t & rd & Hrd & ->). record_case Hrd as [| | | | |d ss E1 Hne Hss El|].
    rewrite E1. destruct (elements d) as [|e es] eqn:Ee; [done|]. cbn [negb orb].
    rewrite (proj2 (txt_rdata_iff (e :: es) [] (concat (txt_string <$> ss)))) by (by exists ss).
    rewrite bind_done. unfold too_long.
    destruct (Z.ltb_spec UINT16_MAX (Z.of_nat (length (concat (txt_string <$> ss))))); [lia|].
    rewrite Hstart by first [done | by split]. cbn [Z.eqb negb]. by rewrite app_assoc.
Qed.

Lemma domain_case T t d out out' :
  In (T, t) [(str "CNAME", 5%Z); (str "NS", 2%Z); (str "PTR", 12%Z)] → uint16 t →
  ((s ← get_string d; domain_with start t s out) = Done (0%Z, out') ↔
   ∃ t rd, record_data T d t rd ∧ written t rd out').
Proof.
  intros Hin Ht. rewrite string_case. setoid_rewrite domain_with_iff; [|done]. split.
  - intros (s & E & Hne & labels & En & Hw). exists t, (encode_name labels).
    split; [by apply data_domain with s|done].
  - intros (t' & rd & Hrd & Hw).
    destruct Hrd as [| |T t' j s labels Hin'| | | |];
      try (by destruct Hin as [[=]|[[=]|[[=]|[]]]]).
    assert (t' = t) as ->.
    { destruct Hin' as [[= <- <-]|[[= <- <-]|[[= <- <-]|[]]]]; by destruct Hin as [[=]|[[=]|[[=]|[]]]]. }
    exists s. split; [done|]. split; [done|].
    by exists labels.
Qed.

Lemma record_with_iff T d out out' :
  record_with start T d out = Done (0%Z, out') ↔ ∃ t rd, record_data T d t rd ∧ written t rd out'.
Proof.
  unfold record_with. repeat case_bool_decide; try subst T.
  - rewrite string_case. setoid_rewrite address_with_iff; [|by split|lia]. split.
    + intros (s & E & Hl & Hw). eexists _, _. split; [by apply data_A|done].
    + intros (t & rd & Hrd & Hw). record_case Hrd as [d s E Hl| | | | | |]. by exists s.
  - rewrite string_case. setoid_rewrite address_with_iff; [|by split|lia]. split.
    + intros (s & E & Hl & Hw). eexists _, _. split; [by apply data_AAAA|done].
    + intros (t & rd & Hrd & Hw). record_case Hrd as [|d s E Hl| | | | |]. by exists s.
  - apply domain_case; [by left|by split].
  - apply domain_case; [by right; left|by split].
  - apply domain_case; [by right; right; left|by split].
  - apply soa_with_iff.
  - apply mx_with_iff.
  - apply txt_with_iff.
  - apply srv_with_iff.
  - split; [done|]. intros (t & rd & Hrd & _). exfalso.
    destruct Hrd as [| |T t j s labels Hin| | | |]; try done. by destruct Hin as [[= <-]|[[= <-]|[[= <-]|[]]]].
Qed.
End success.

(** Without a head nothing is written with success. *)
Lemma record_with_fails start T d out out' :
  (∀ t n, ∃ w, start t n = ((-1)%Z, w)) → record_with start T d out ≠ Done (0%Z, out').
Proof.
  intros Hf. unfold record_with, address_with, domain_with, soa_with, mx_with, txt_with, srv_with. cbv zeta.
  repeat first
    [ done
    | match goal with
      | |- context [start ?t ?n] => destruct (Hf t n) as [? ->]
      | |- ?m ≫= _ ≠ _ => destruct m; [rewrite bind_done|done..]
      | |- (if ?b then _ else _) ≠ _ => destruct b
      | |- (let '(_, _) := ?p in _) ≠ _ => destruct p
      | |- match ?o with _ => _ end ≠ _ => destruct o
      end ].
Qed.
End record_facts.

(** The data of every record is valid record data, for the parser. *)
Section record_data_facts.
  Context {J : Type} `{JsonLaws J}.

Lemma record_data_ok T (d : J) t rd :
  record_data T d t rd → uint16 t ∧ (Z.of_nat (length rd) ≤ UINT16_MAX)%Z ∧ plain_rdata t rd.
Proof.
  assert (Hsmall : ∀ n : nat, n ≤ 1000 → (Z.of_nat n ≤ UINT16_MAX)%Z) by (unfold UINT16_MAX; lia).
  assert (Hname : ∀ s labels, text_name s = Some labels →
            Forall label_ok labels ∧ length (encode_name labels) ≤ 255) by (intros ? ? E; by apply text_name_ok in E).
  intros Hrd. destruct Hrd as [d s E Hl|d s E Hl|T t d s labels Hin E Hne En
    |d s s' ms rs v1 v2 v3 v4 v5 E1 E2 Es Hne En Es' Hne' En' Eg1 Eg2 Eg3 Eg4 Eg5
    |d s labels v E1 E2 E3 Es Hne En Eg|d ss E1 Hne Hss El|d s labels v1 v2 v3 E1 E2 Es Hne En Eg1 Eg2 Eg3].
  - split_and!; [by split|apply Hsmall; lia|split_and!; lia].
  - split_and!; [by split|apply Hsmall; lia|split_and!; lia].
  - apply Hname in En as [Hok ?].
    assert (t = 5 ∨ t = 2 ∨ t = 12)%Z as Ht by (destruct Hin as [[= _ <-]|[[= _ <-]|[[= _ <-]|[]]]]; lia).
    split_and!; [unfold uint16; lia|apply Hsmall; lia|split_and!; [|lia..]]. intros _. by exists labels.
  - apply Hname in En as [Hok ?], En' as [Hok' ?]. rewrite !length_app, !length_be_split.
    split_and!; [by split|apply Hsmall; lia|split_and!; [lia| |lia..]]. intros _.
    exists ms, rs. eexists. split_and!; [done|done| |done]. by rewrite !length_app, !length_be_split.
  - apply Hname in En as [Hok ?]. rewrite !length_app, !length_be_split.
    split_and!; [by split|apply Hsmall; lia|split_and!; [lia..| |lia]]. intros _.
    exists (be_split 2 v), labels. by rewrite length_be_split.
  - split_and!; [by split|done|split_and!; lia].
  - apply Hname in En as [Hok ?]. rewrite !length_app, !length_be_split.
    split_and!; [by split|apply Hsmall; lia|split_and!; [lia..|]]. intros _.
    exists (be_split 2 v1 ++ be_split 2 v2 ++ be_split 2 v3), labels.
    split_and!; [by rewrite !length_app, !length_be_split|done|by rewrite <- !app_assoc].
Qed.

(** What the records of an answer are, for given zone data. *)
Definition answers_data (ttl cls : Z) : list (AnswerRecord J) → list rr → Prop :=
  Forall2 (λ a r, ∃ o t rd, text_owner (DnsResponse.m_Name_ a) = Some o ∧
    record_data (DnsResponse.m_Type_ a) (DnsResponse.m_Data_ a) t rd ∧
    r = {| rr_owner := o; rr_type := t; rr_class := cls; rr_ttl := u32 ttl; rr_data := rd |}).

Lemma answers_data_ok ttl cls records rs : uint16 cls → answers_data ttl cls records rs → Forall rr_ok rs.
Proof.
  intros Hc Hr. induction Hr as [|a r records rs (o & t & rd & Ho & Hrd & ->) _ IH]; constructor; [|done].
  apply record_data_ok in Hrd as (? & ? & ?). split; [|split_and!; try done; apply u32_range].
  cbn [rr_owner]. intros labels ->. by eapply text_owner_ok.
Qed.
End record_data_facts.

(** ** Whole responses *)

Section responses.
  Context {H : Target} {J : Type} `{JsonLaws J} (DefaultTtl : Z).
Implicit Types (out : bytes) (p_Packet : DnsRequestPacket).

Lemma rr_wire_head o t cls rd :
  head_wire DefaultTtl o t cls (length rd) ++ rd =
    rr_wire {| rr_owner := o; rr_type := t; rr_class := cls; rr_ttl := u32 DefaultTtl; rr_data := rd |}.
Proof. unfold head_wire, rr_wire. by rewrite <- !app_assoc. Qed.

(** One record appended: exactly the good data under an encodable name. *)
Lemma DispatchAppendAnswer_iff T cls (d : J) out name out' :
  uint16 cls →
  (DispatchAppendAnswer DefaultTtl T cls d out name = Done (0%Z, out') ↔
   ∃ o t rd, text_owner name = Some o ∧ record_data T d t rd ∧
     out' = out ++ rr_wire {| rr_owner := o; rr_type := t; rr_class := cls;
                              rr_ttl := u32 DefaultTtl; rr_data := rd |}).
Proof.
  intros Hc. rewrite DispatchAppendAnswer_with. destruct (text_owner name) as [o|] eqn:Eo.
  - rewrite (record_with_iff DefaultTtl _ out o cls).
    + unfold written. setoid_rewrite rr_wire_head. split.
      * intros (t & rd & Hrd & ->). by exists o, t, rd.
      * intros (o' & t & rd & [= <-] & Hrd & ->). by exists t, rd.
    + intros t n Ht Hn. by rewrite AppendHead_spec, Eo.
  - split; [|by intros (? & ? & ? & ? & _)]. intros E. exfalso. revert E. apply record_with_fails.
    intros t n. unfold AppendHead. rewrite WriteAnswerName_spec, Eo. by eexists.
Qed.

Lemma AppendRecords_iff records cls : ∀ out out',
  uint16 cls →
  (AppendRecords DefaultTtl records cls out = Done (0%Z, out') ↔
   ∃ rs, answers_data DefaultTtl cls records rs ∧ out' = out ++ concat (rr_wire <$> rs)).
Proof.
  induction records as [|a records IH]; intros out out' Hc; cbn [AppendRecords].
  - split.
    + intros [= <-]. exists []. split; [constructor|]. by rewrite app_nil_r.
    + intros (rs & Hrs & ->). apply Forall2_nil_inv_l in Hrs as ->. by rewrite app_nil_r.
  - split.
    + intros ([r out1] & E1 & E)%bind_Done_inv. destruct (Z.eqb_spec r 0) as [->|]; [|done]. cbn [negb] in E.
      apply DispatchAppendAnswer_iff in E1 as (o & t & rd & Ho & Hrd & ->); [|done].
      apply IH in E as (rs & Hrs & ->); [|done]. eexists (_ :: rs). split; [constructor; [|exact Hrs]; by eexists _, _, _|].
      by rewrite fmap_cons, <- app_assoc.
    + intros (rs & Hrs & ->). inversion Hrs as [|? r ? rs' (o & t & rd & Ho & Hrd & Er) Hrs' E1 E2]; subst rs.
      assert (E : DispatchAppendAnswer DefaultTtl (m_Type_ a) cls (DnsResponse.m_Data_ a) out
                    (DnsResponse.m_Name_ a) = Done (0%Z, out ++ rr_wire r)).
      { apply DispatchAppendAnswer_iff; [done|]. exists o, t, rd. by rewrite Er. }
      rewrite E, bind_done. cbn [Z.eqb negb]. apply IH; [done|]. exists rs'. split; [done|].
      by rewrite fmap_cons, <- app_assoc.
Qed.
End responses.
