(* ===== verification/SampleJson.v ===== *)
(** * A concrete JSON type

    The JSON library is a parameter of the development (class [Json]).  This is a
    small implementation of what is documented of it, on which the examples and the
    witnesses evaluate: objects are association lists kept in key order, numbers are
    integers that are converted to the requested width by wrapping around. *)

From Stdlib Require Import ZArith Lia.
From Stdlib Require Import Strings.Byte Strings.String.
From stdpp Require Import base numbers list option.
From S2P Require Import Prelude.
From S2P Require Import Memory.
From S2P Require Import DnsResponse.

Inductive json : Type :=
  | JNull
  | JBool (b : bool)
  | JNumber (z : Z)
  | JString (s : bytes)
  | JArray (l : list json)
  | JObject (l : list (bytes * json)).

(** The member of an object with a given name. *)
Fixpoint member (l : list (bytes * json)) (k : bytes) : option json :=
  match l with
  | [] => None
  | (k', v) :: l => if bool_decide (k = k') then Some v else member l k
  end.

Definition json_string (j : json) : outcome bytes :=
  match j with JString s => Done s | _ => Throw JsonError end.

Definition json_number (n : nat) (j : json) : outcome Z :=
  match j with
  | JNumber z => Done (z mod width n)%Z
  | JBool b => Done (Z.b2z b)
  | _ => Throw JsonError
  end.

#[export] Instance sample_json : Json json := {
  is_object j := match j with JObject _ => true | _ => false end;
  is_array j := match j with JArray _ => true | _ => false end;
  is_string j := match j with JString _ => true | _ => false end;
  contains j k := match j with JObject l => bool_decide (is_Some (member l k)) | _ => false end;
  field_of j k := match j with JObject l => default JNull (member l k) | _ => JNull end;
  elements j := match j with JArray l => l | JObject l => l.*2 | JNull => [] | _ => [j] end;
  get_string := json_string;
  get_uint32 := json_number 4;
  get_uint16 := json_number 2
}.

Lemma json_number_range n j :
  n ≠ 0 → (∃ z, json_number n j = Done z ∧ (0 ≤ z < width n)%Z) ∨ json_number n j = Throw JsonError.
Proof.
  intros Hn. destruct j as [|b|z|s|l|l]; simpl; try (by right); left; eexists; split; try done.
  - destruct n; [done|]. rewrite width_S. pose proof (width_pos n). destruct b; simpl; lia.
  - apply Z.mod_pos_bound, width_pos.
Qed.

#[export] Instance sample_json_laws : JsonLaws json.
Proof.
  split.
  - by intros []; simpl; try by eexists.
  - intros j. by apply (json_number_range 4).
  - intros j. by apply (json_number_range 2).
Qed.
