(* ===== verification/WholeResponses.v ===== *)
(** * The relay's own responses, read back (src/src/dns_response.cc)

    The functions that answer a request on their own: with zone records
    ([MultiAnswer], [CallResponseFunction]), with an error code ([FORMERR], [NXDOMAIN],
    [NOTIMP], [SERVFAIL], [REFUSED], [BADVERS]) and with an OPT record ([AppendOpt]).  Each
    theorem says when the function succeeds and which response the packet parser
    reads from what it wrote. *)

From Stdlib Require Import ZArith Lia ZifyBool.
From Stdlib Require Import Strings.Byte Strings.String.
From stdpp Require Import base numbers list option sets.
From S2P Require Import Prelude.
From S2P Require Import Memory.
From S2P Require Import Utils.
From S2P Require Import Text.
From S2P Require Import Name.
From S2P Require Import DnsHeader.
From S2P Require Import DnsQuestion.
From S2P Require Import DnsAnswer.
From S2P Require Import WireFormat.
From S2P Require Import DnsRequestPacket.
From S2P Require Import DnsResponsePacket.
From S2P Require Import DnsResponse.
From S2P Require Import ResponseFacts.
From S2P Require Import SampleJson.

(** ** Specification *)

Section specification.
  Context {H : Target}.
Local Open Scope Z_scope.

(** The response to a request with first question [q]. *)
Definition reply_header (p_Packet : DnsRequestPacket) (rcode : Z) (aa : bool) (ans auth add : list rr) : DnsHeader :=
  response_header (DnsRequestPacket.m_Header_ p_Packet) rcode aa 1 (Z.of_nat (length ans))
    (Z.of_nat (length auth)) (Z.of_nat (length add)).

Definition reply p_Packet rcode aa q ans auth add : bytes :=
  packet (reply_header p_Packet rcode aa ans auth add) q ans auth add.

Definition reply_response p_Packet rcode aa q ans auth add : DnsResponsePacket :=
  packet_response (reply_header p_Packet rcode aa ans auth add) q ans auth add.
End specification.

(** The types with a record function. *)
Definition record_types : list bytes :=
  [str "A"; str "AAAA"; str "CNAME"; str "NS"; str "PTR"; str "SOA"; str "MX"; str "TXT"; str "SRV"].

(** ** Records as answers *)

Section answers.
  Context {H : Target} {J : Type} `{JsonLaws J} (DefaultTtl : Z).
  Context (p_Packet : DnsRequestPacket) (q : DnsQuestion) (qs : list DnsQuestion).
  Context (Hok : request_ok p_Packet) (Hqs : DnsRequestPacket.m_Questions_ p_Packet = q :: qs).
Implicit Types (out : bytes) (d : J).

Lemma first_question_ok : question_ok q.
Proof. destruct Hok as (_ & _ & _ & _ & _ & _ & Hq & _). rewrite Hqs in Hq. by apply Forall_cons in Hq as [? _]. Qed.

Lemma request_header_wf : DnsHeader.wf (DnsRequestPacket.m_Header_ p_Packet).
Proof. apply Hok. Qed.

Lemma first_qclass : FirstQclass p_Packet = Done (Qclass false q).
Proof. unfold FirstQclass, DnsRequestPacket.Questions. by rewrite Hqs. Qed.

Lemma first_qclass_range : uint16 (Qclass false q).
Proof. apply NetworkToHost_uint16. apply first_question_ok. Qed.

Lemma question_written out :
  WriteQuestion out p_Packet =
    if decide (encodable (m_Qname_ q)) then (true, out ++ DnsQuestion.wire q) else (false, out).
Proof. apply WriteQuestion_spec with qs; [done|apply first_question_ok]. Qed.

(** What a reply is read back as. *)
Lemma reply_FromWire rcode aa ans auth add p0 :
  (0 ≤ rcode < 16)%Z → Forall rr_ok (ans ++ auth ++ add) →
  uint16 (Z.of_nat (length ans)) → uint16 (Z.of_nat (length auth)) → uint16 (Z.of_nat (length add)) →
  let w := reply p_Packet rcode aa q ans auth add in
  DnsResponsePacket.FromWire (Some w) (length w) p0 =
    Done (true, reply_response p_Packet rcode aa q ans auth add).
Proof.
  intros Hrc Hrr Ha Hn Hx w. apply FromWire_complete; [done|].
  exact (response_packet_at _ rcode aa q ans auth add request_header_wf Hrc first_question_ok Hrr Ha Hn Hx).
Qed.

(** The header and the question, as every function starts. *)
Definition reply_start (rcode : Z) (aa : bool) (an ns ar : Z) : bytes :=
  DnsHeader.memory (response_header (DnsRequestPacket.m_Header_ p_Packet) rcode aa 1 an ns ar)
    ++ DnsQuestion.wire q.

Lemma reply_app rcode aa ans auth add :
  reply p_Packet rcode aa q ans auth add =
    reply_start rcode aa (Z.of_nat (length ans)) (Z.of_nat (length auth)) (Z.of_nat (length add))
      ++ concat (rr_wire <$> (ans ++ auth ++ add)).
Proof. unfold reply, packet, reply_start. by rewrite <- app_assoc. Qed.

Lemma MultiAnswer_iff records out out' :
  MultiAnswer DefaultTtl p_Packet records out = Done (0%Z, out') ↔
  encodable (m_Qname_ q) ∧ 1 ≤ length records ∧ (Z.of_nat (length records) ≤ UINT16_MAX)%Z ∧
  ∃ rs, answers_data DefaultTtl (Qclass false q) records rs ∧
        out' = reply p_Packet 0 true q rs [] [].
Proof.
  unfold MultiAnswer.
  destruct (Nat.eqb_spec (length records) 0) as [E0|Hn0]; [split; [done|lia]|]. cbn [orb]. unfold too_long.
  destruct (Z.ltb_spec UINT16_MAX (Z.of_nat (length records))) as [Hl|Hl]; [split; [done|lia]|].
  assert (Hu : uint16 (Z.of_nat (length records))) by (unfold uint16, UINT16_MAX in *; lia).
  rewrite u16_small by apply Hu.
  rewrite WriteStandardHeader_Done by (apply request_header_wf || done || by split).
  rewrite bind_done, question_written. destruct (decide (encodable (m_Qname_ q))) as [He|He]; [|naive_solver].
  cbn [negb]. rewrite first_qclass, bind_done, AppendRecords_iff by apply first_qclass_range.
  assert (Er : ∀ rs, answers_data DefaultTtl (Qclass false q) records rs →
    reply p_Packet 0 true q rs [] [] = reply_start 0 true (Z.of_nat (length records)) 0 0 ++ concat (rr_wire <$> rs)).
  { intros rs Hrs. rewrite reply_app. unfold answers_data in Hrs. apply Forall2_length in Hrs.
    rewrite app_nil_r, <- Hrs. done. }
  split.
  - intros (rs & Hrs & ->). do 3 (split; [done || lia|]). exists rs. split; [done|]. by rewrite Er.
  - intros (_ & _ & _ & rs & Hrs & ->). exists rs. split; [done|]. by rewrite Er.
Qed.

Lemma MultiAnswer_FromWire records rs p0 :
  1 ≤ length records → (Z.of_nat (length records) ≤ UINT16_MAX)%Z →
  answers_data DefaultTtl (Qclass false q) records rs →
  let w := reply p_Packet 0 true q rs [] [] in
  DnsResponsePacket.FromWire (Some w) (length w) p0 =
    Done (true, reply_response p_Packet 0 true q rs [] []).
Proof.
  intros Hn Hl Hrs. pose proof (Forall2_length _ _ _ Hrs) as El. apply reply_FromWire; [done| | |done..].
  - rewrite !app_nil_r. eapply answers_data_ok; [apply first_qclass_range|exact Hrs].
  - rewrite <- El. unfold uint16, UINT16_MAX in *. lia.
Qed.

(** *** One record, answered by its own function *)

Lemma AnswerStart_Done t :
  uint16 t →
  AnswerStart DefaultTtl p_Packet t =
    if decide (encodable (m_Qname_ q)) then
      Done (true, reply_start 0 true 1 0 0 ++ be_split 2 DNS_QUESTION_POINTER ++ be_split 2 t
        ++ be_split 2 (Qclass false q) ++ be_split 4 (u32 DefaultTtl))
    else Done (false, DnsHeader.memory (response_header (DnsRequestPacket.m_Header_ p_Packet) 0 true 1 1 0 0)).
Proof.
  intros Ht. unfold AnswerStart.
  rewrite WriteStandardHeader_Done by (apply request_header_wf || done || by split).
  rewrite bind_done, question_written. destruct (decide (encodable (m_Qname_ q))) as [He|He]; [|done].
  cbn [negb]. rewrite first_qclass, bind_done, !AppendUint16_eq, AppendUint32_eq
    by (done || apply first_qclass_range || apply u32_range || by split).
  unfold reply_start. by rewrite <- !app_assoc.
Qed.

(** The head of the record, as [record_with] takes it. *)
Definition answer_start (t : Z) (n : nat) : Z * bytes :=
  match DataStart DefaultTtl p_Packet t n with
  | Done (true, out) => (0%Z, out)
  | Done (false, out) => ((-1)%Z, out)
  | _ => ((-1)%Z, [])
  end.

Lemma DataStart_Done t n :
  uint16 t → (Z.of_nat n ≤ UINT16_MAX)%Z →
  ∃ b out, DataStart DefaultTtl p_Packet t n = Done (b, out) ∧ b = bool_decide (encodable (m_Qname_ q)) ∧
    (b = true → out = reply_start 0 true 1 0 0 ++ head_wire DefaultTtl None t (Qclass false q) n).
Proof.
  intros Ht Hn. unfold DataStart. rewrite AnswerStart_Done by done. case_bool_decide.
  - rewrite decide_True by done. rewrite bind_done. cbn [negb]. eexists _, _. split_and!; [done..|]. intros _.
    rewrite u16_small, AppendUint16_eq by (unfold uint16, UINT16_MAX in *; lia).
    unfold head_wire. by rewrite <- !app_assoc.
  - rewrite decide_False by done. rewrite bind_done. by eexists _, _.
Qed.

Lemma DataStart_start t n :
  uint16 t → (Z.of_nat n ≤ UINT16_MAX)%Z →
  ∃ out, answer_start t n = (if bool_decide (encodable (m_Qname_ q)) then 0%Z else (-1)%Z, out) ∧
    DataStart DefaultTtl p_Packet t n = Done (bool_decide (encodable (m_Qname_ q)), out).
Proof.
  intros Ht Hn. destruct (DataStart_Done t n Ht Hn) as (b & out & E & -> & _). exists out.
  unfold answer_start. rewrite E. by destruct (bool_decide _).
Qed.

(** Two functions that make the same tests, one with [DataStart], the other with
    [answer_start]. *)
Ltac lockstep :=
  repeat match goal with
  | |- (if ?b then _ else _) = _ ↔ (if ?b then _ else _) = _ => destruct b eqn:?
  | |- (?m ≫= _) = _ ↔ (?m ≫= _) = _ => destruct m; [rewrite !bind_done|done..]
  | |- (let '(_, _) := ?p in _) = _ ↔ (let '(_, _) := ?p in _) = _ => destruct p
  | |- match ?o with _ => _ end = _ ↔ match ?o with _ => _ end = _ => destruct o
  | |- context [answer_start ?t ?n] =>
      let w := fresh "w" in
      destruct (DataStart_start t n) as (w & -> & ->);
        [by split|match goal with E : too_long _ = false |- _ => unfold too_long in E end; lia|];
      destruct (bool_decide (encodable (m_Qname_ q))); cbn [Z.eqb negb outcome_bind]; rewrite ?bind_done; cbn [negb]
  | |- ?x ↔ ?x => reflexivity
  | _ => done
  end.

Lemma Address_start t n s out out0 out' :
  uint16 t → n ≤ 1000 →
  (Address DefaultTtl t n p_Packet s out = Done (0%Z, out') ↔
   address_with answer_start t n s out0 = Done (0%Z, out')).
Proof.
  intros Ht Hn. unfold Address, address_with, answer_start, DataStart.
  destruct (negb (length s =? n)); [done|].
  destruct (AnswerStart DefaultTtl p_Packet t) as [[[] o]| | | |]; rewrite ?bind_done; try done.
  cbn [negb Z.eqb]. by rewrite u16_small by lia.
Qed.

Lemma Domain_start t s out out0 out' :
  uint16 t →
  (Domain DefaultTtl t p_Packet s out = Done (0%Z, out') ↔
   domain_with answer_start t s out0 = Done (0%Z, out')).
Proof.
  intros Ht. unfold Domain, domain_with, answer_start, DataStart.
  destruct (length s =? 0); [done|]. destruct (IsValidDnsName s); [|done]. cbn [negb orb].
  destruct (AnswerStart DefaultTtl p_Packet t) as [[[] o]| | | |]; rewrite ?bind_done;
    destruct (DomainToQuestion s []) as [r w]; cbn [negb]; destruct (r =? -1)%Z, (too_long (length w)); done.
Qed.

Lemma data_functions_start d out out0 out' :
  (SOA DefaultTtl p_Packet d out = Done (0%Z, out') ↔ soa_with answer_start d out0 = Done (0%Z, out')) ∧
  (MX DefaultTtl p_Packet d out = Done (0%Z, out') ↔ mx_with answer_start d out0 = Done (0%Z, out')) ∧
  (TXT DefaultTtl p_Packet d out = Done (0%Z, out') ↔ txt_with answer_start d out0 = Done (0%Z, out')) ∧
  (SRV DefaultTtl p_Packet d out = Done (0%Z, out') ↔ srv_with answer_start d out0 = Done (0%Z, out')).
Proof.
  unfold SOA, MX, TXT, SRV, soa_with, mx_with, txt_with, srv_with. cbv zeta. split_and!.
  - lockstep.
  - destruct (is_object d), (contains d (str "preference")), (contains d (str "exchange")); cbn [negb orb]; lockstep.
  - lockstep.
  - lockstep.
Qed.

Lemma CallResponseFunction_start T d out out0 out' :
  In T record_types →
  (CallResponseFunction DefaultTtl T p_Packet d out = Done (0%Z, out') ↔
   record_with answer_start T d out0 = Done (0%Z, out')).
Proof.
  intros HT. destruct (data_functions_start d out out0 out') as (Hsoa & Hmx & Htxt & Hsrv).
  repeat destruct HT as [<-|HT]; [..|done]; unfold CallResponseFunction, record_with;
    repeat first [rewrite bool_decide_eq_true_2 by done | rewrite bool_decide_eq_false_2 by done]; try done;
    rewrite !string_case.
  - by setoid_rewrite Address_start; [|split|lia].
  - by setoid_rewrite Address_start; [|split|lia].
  - by setoid_rewrite Domain_start; [|split].
  - by setoid_rewrite Domain_start; [|split].
  - by setoid_rewrite Domain_start; [|split].
Qed.

Lemma answer_start_fails t n : ¬ encodable (m_Qname_ q) → ∃ w, answer_start t n = ((-1)%Z, w).
Proof.
  intros He. unfold answer_start, DataStart, AnswerStart.
  rewrite WriteStandardHeader_Done by (apply request_header_wf || done || by split).
  rewrite bind_done, question_written, decide_False by done. by eexists.
Qed.

(** The functions for one record succeed exactly for good data. *)
Lemma CallResponseFunction_iff T d out out' :
  In T record_types →
  (CallResponseFunction DefaultTtl T p_Packet d out = Done (0%Z, out') ↔
   encodable (m_Qname_ q) ∧ ∃ t rd, record_data T d t rd ∧
     out' = reply p_Packet 0 true q [{| rr_owner := None; rr_type := t; rr_class := Qclass false q;
                                        rr_ttl := u32 DefaultTtl; rr_data := rd |}] [] []).
Proof.
  intros HT. rewrite (CallResponseFunction_start T d out [] out' HT).
  destruct (decide (encodable (m_Qname_ q))) as [He|He].
  - rewrite (record_with_iff DefaultTtl _ (reply_start 0 true 1 0 0) None (Qclass false q)).
    + split.
      * intros (t & rd & Hrd & ->). split; [done|]. exists t, rd. split; [done|].
        rewrite reply_app, !app_nil_r, (rr_wire_head DefaultTtl). cbn [fmap list_fmap concat].
        by rewrite app_nil_r.
      * intros (_ & t & rd & Hrd & ->). exists t, rd. split; [done|]. unfold written.
        rewrite reply_app, !app_nil_r, (rr_wire_head DefaultTtl). cbn [fmap list_fmap concat].
        by rewrite app_nil_r.
    + intros t n Ht Hn. destruct (DataStart_Done t n Ht Hn) as (b & w & E & -> & Hw).
      unfold answer_start. rewrite E. rewrite bool_decide_eq_true_2 in * by done. by rewrite Hw.
  - split; [|by intros [? _]]. intros E. exfalso. revert E. apply record_with_fails.
    intros t n. by apply answer_start_fails.
Qed.

(** An answer of one record is the answer its own function makes. *)
Lemma MultiAnswer_one T d out out' :
  MultiAnswer DefaultTtl p_Packet [{| m_Type_ := T; DnsResponse.m_Data_ := d; DnsResponse.m_Name_ := [] |}] out
    = Done (0%Z, out') ↔
  encodable (m_Qname_ q) ∧ ∃ t rd, record_data T d t rd ∧
    out' = reply p_Packet 0 true q [{| rr_owner := None; rr_type := t; rr_class := Qclass false q;
                                       rr_ttl := u32 DefaultTtl; rr_data := rd |}] [] [].
Proof.
  rewrite MultiAnswer_iff. split.
  - intros (He & _ & _ & rs & Hrs & ->). split; [done|]. unfold answers_data in Hrs.
    apply Forall2_cons_inv_l in Hrs as (r & rs' & (o & t & rd & [= <-] & Hrd & ->) & Hrs & ->).
    apply Forall2_nil_inv_l in Hrs as ->. by exists t, rd.
  - intros (He & t & rd & Hrd & ->). split; [done|]. split_and!; [simpl; lia|done|].
    eexists. split; [|done]. constructor; [|constructor]. by exists None, t, rd.
Qed.
End answers.

(** ** Errors *)

(** The OPT record of a response: an extended response code and the request's cookies. *)
Definition opt_cookies (e : option EdnsData) : list EdnsOption :=
  match e with None => [] | Some e => List.filter echoed (m_Options_ e) end.

Definition opt_rdata (e : option EdnsData) : bytes :=
  let rd := concat (encode_option <$> opt_cookies e) in
  if (Z.of_nat (length rd) <=? UINT16_MAX)%Z then rd else [].

Definition opt_rr (ext : Z) (e : option EdnsData) : rr :=
  {| rr_owner := Some []; rr_type := 41; rr_class := 1232; rr_ttl := (ext * 16777216)%Z; rr_data := opt_rdata e |}.

(** The authority record of a negative answer for a zone, when its names can be encoded. *)
Definition zone_soa (ttl cls : Z) (zone : bytes) : option rr :=
  match text_name zone, text_name (str "ns." ++ zone ++ str "."),
        text_name (str "hostmaster." ++ zone ++ str ".") with
  | Some z, Some m, Some r =>
      Some {| rr_owner := Some z; rr_type := 6; rr_class := cls; rr_ttl := u32 ttl;
              rr_data := encode_name m ++ encode_name r ++ be_split 4 1 ++ be_split 4 86400
                ++ be_split 4 3600 ++ be_split 4 604800 ++ be_split 4 (u32 ttl) |}
  | _, _, _ => None
  end.

Definition zone_authority (ttl cls : Z) (zone : bytes) : list rr :=
  match zone with [] => [] | _ => option_list (zone_soa ttl cls zone) end.

Section errors.
  Context {H : Target} (DefaultTtl : Z).
  Context (p_Packet : DnsRequestPacket) (q : DnsQuestion) (qs : list DnsQuestion).
  Context (Hok : request_ok p_Packet) (Hqs : DnsRequestPacket.m_Questions_ p_Packet = q :: qs).
Implicit Types (out : bytes) (e : option EdnsData).

Lemma ErrorResponse_eq rcode out :
  (0 ≤ rcode < 16)%Z →
  ∃ w, ErrorResponse rcode p_Packet out = Done (if decide (encodable (m_Qname_ q)) then 0%Z else (-1)%Z, w) ∧
       (encodable (m_Qname_ q) → w = reply p_Packet rcode false q [] [] []).
Proof.
  intros Hr. unfold ErrorResponse.
  rewrite WriteStandardHeader_Done by (by eapply request_header_wf || done).
  rewrite bind_done, (question_written _ _ _ Hok Hqs).
  destruct (decide (encodable (m_Qname_ q))); cbn [negb]; eexists; split; try done.
  intros _. rewrite reply_app. cbn [app fmap list_fmap concat length]. by rewrite app_nil_r.
Qed.

(** The header in memory, split at a count. *)
Lemma write_field pre v v' post i :
  uint16 v' → length pre = i →
  load_n (pre ++ be_split 2 v ++ post) i 2 = Done (be_split 2 v) ∧
  WriteUint16 (pre ++ be_split 2 v ++ post) i v' = Done (pre ++ be_split 2 v' ++ post).
Proof.
  intros Hv <-. split; [by apply load_n_middle|].
  rewrite WriteUint16_written by (done || rewrite !length_app, !length_be_split; lia).
  f_equal. by apply splice_middle.
Qed.

(** The first eight bytes do not depend on the last two counts. *)
Definition reply_prefix rcode aa an : bytes :=
  be_split 2 (DnsHeader.Id false (DnsRequestPacket.m_Header_ p_Packet))
  ++ be_split 2 (flag_word (response_fields (DnsRequestPacket.m_Header_ p_Packet) rcode aa 1 an 0 0))
  ++ be_split 2 1 ++ be_split 2 an.

Lemma reply_start_counts rcode aa an ns ar rest :
  (0 ≤ rcode < 16)%Z → uint16 an → uint16 ns → uint16 ar →
  reply_start p_Packet q rcode aa an ns ar ++ rest =
    reply_prefix rcode aa an ++ be_split 2 ns ++ be_split 2 ar ++ DnsQuestion.wire q ++ rest.
Proof.
  intros Hr Ha Hn Hx. unfold reply_start.
  destruct (response_header_facts (DnsRequestPacket.m_Header_ p_Packet) rcode aa 1 an ns ar
    (request_header_wf _ Hok) Hr ltac:(done) Ha Hn Hx) as (_ & _ & _ & _ & ->).
  unfold DnsHeader.wire, reply_prefix. by rewrite <- !app_assoc.
Qed.

Lemma write_nscount rcode aa an ns ns' ar rest :
  (0 ≤ rcode < 16)%Z → uint16 an → uint16 ns → uint16 ns' → uint16 ar →
  WriteUint16 (reply_start p_Packet q rcode aa an ns ar ++ rest) 8 ns'
    = Done (reply_start p_Packet q rcode aa an ns' ar ++ rest).
Proof. intros. rewrite !reply_start_counts by done. by apply write_field. Qed.

(** Reading and changing the number of additional records. *)
Lemma write_arcount rcode aa an ns ar ar' rest :
  (0 ≤ rcode < 16)%Z → uint16 an → uint16 ns → uint16 ar → uint16 ar' →
  load_n (reply_start p_Packet q rcode aa an ns ar ++ rest) 10 2 = Done (be_split 2 ar) ∧
  WriteUint16 (reply_start p_Packet q rcode aa an ns ar ++ rest) 10 ar'
    = Done (reply_start p_Packet q rcode aa an ns ar' ++ rest).
Proof.
  intros. rewrite !reply_start_counts, !(app_assoc (reply_prefix _ _ _)) by done. by apply write_field.
Qed.

(** The cookies of the request, as options of the response. *)
Lemma cookies_fold opts rd :
  Forall option_ok opts →
  fold_left (λ s_Rdata l_Opt,
     if echoed l_Opt then
       AppendUint16 (AppendUint16 s_Rdata (m_Code_ l_Opt))
         (u16 (Z.of_nat (length (DnsRequestPacket.m_Data_ l_Opt)))) ++ DnsRequestPacket.m_Data_ l_Opt
     else s_Rdata) opts rd = rd ++ concat (encode_option <$> List.filter echoed opts).
Proof.
  intros Ho. revert rd. induction Ho as [|x opts [Hc Hl] _ IH]; intros rd; [by rewrite app_nil_r|].
  cbn [fold_left List.filter]. destruct (echoed x); [|apply IH].
  rewrite IH, fmap_cons. cbn [concat]. rewrite !AppendUint16_eq by (done || apply u16_range).
  rewrite u16_small by lia. unfold encode_option. by rewrite <- !app_assoc.
Qed.

(** [AppendOpt] adds the OPT record to the additional section of a reply. *)
Lemma AppendOpt_reply rcode aa ans auth add ext e :
  (0 ≤ rcode < 16)%Z → (0 ≤ ext < 256)%Z →
  uint16 (Z.of_nat (length ans)) → uint16 (Z.of_nat (length auth)) → uint16 (Z.of_nat (S (length add))) →
  (∀ d, e = Some d → Forall option_ok (m_Options_ d)) →
  AppendOpt (reply p_Packet rcode aa q ans auth add) ext e =
    Done (reply p_Packet rcode aa q ans auth (add ++ [opt_rr ext e])).
Proof.
  intros Hr Hext Ha Hn Hx He. unfold AppendOpt.
  assert (Erd : (match e with
    | None => []
    | Some e => fold_left (λ s_Rdata l_Opt,
     if echoed l_Opt then
       AppendUint16 (AppendUint16 s_Rdata (m_Code_ l_Opt))
         (u16 (Z.of_nat (length (DnsRequestPacket.m_Data_ l_Opt)))) ++ DnsRequestPacket.m_Data_ l_Opt
     else s_Rdata) (m_Options_ e) [] end) = concat (encode_option <$> opt_cookies e)).
  { destruct e as [d|]; [|done]. by rewrite cookies_fold by (by apply He). }
  rewrite Erd. cbv zeta. clear Erd. set (rd := concat (encode_option <$> opt_cookies e)).
  set (w := reply p_Packet rcode aa q ans auth add).
  assert (Ettl : u32 (Z.shiftl ext 24) = (ext * 16777216)%Z).
  { rewrite Z.shiftl_mul_pow2 by lia. apply u32_small. lia. }
  rewrite Ettl. match goal with |- (if _ <=? length ?o then _ else _) = _ => set (out := o) end.
  assert (Eout : out = w ++ rr_wire (opt_rr ext e)).
  { assert (uint32 (ext * 16777216)) by (unfold uint32; lia).
    unfold out, rr_wire, opt_rr, opt_rdata.
    cbn [rr_owner rr_type rr_class rr_ttl rr_data owner_wire encode_name]. fold rd. unfold too_long.
    destruct (Z.ltb_spec UINT16_MAX (Z.of_nat (length rd))), (Z.leb_spec (Z.of_nat (length rd)) UINT16_MAX); try lia.
    - rewrite !AppendUint16_eq, AppendUint32_eq by first [done | by split]. by rewrite <- !app_assoc.
    - rewrite u16_small, !AppendUint16_eq, AppendUint32_eq
        by first [done | by split | unfold uint16, UINT16_MAX in *; lia]. by rewrite <- !app_assoc. }
  rewrite Eout. clear Eout out. subst w. rewrite !reply_app.
  assert (Hl : HeaderSize ≤ length ((reply_start p_Packet q rcode aa (Z.of_nat (length ans)) (Z.of_nat (length auth))
    (Z.of_nat (length add)) ++ concat (rr_wire <$> (ans ++ auth ++ add))) ++ rr_wire (opt_rr ext e))).
  { unfold reply_start. rewrite !length_app, length_memory. lia. }
  apply Nat.leb_le in Hl. rewrite Hl. clear Hl.
  rewrite <- app_assoc.
  destruct (write_arcount rcode aa (Z.of_nat (length ans)) (Z.of_nat (length auth)) (Z.of_nat (length add))
    (Z.of_nat (length (add ++ [opt_rr ext e])))
    (concat (rr_wire <$> (ans ++ auth ++ add)) ++ rr_wire (opt_rr ext e))) as [E1 E2];
    [done|done|done|unfold uint16 in *; lia|rewrite length_app, Nat.add_1_r; done|].
  rewrite E1, bind_done, NetworkToHost_object, be_join_split_small by (unfold width, uint16 in *; simpl; lia).
  replace (u16 (Z.of_nat (length add) + 1)) with (Z.of_nat (length (add ++ [opt_rr ext e]))).
  2: { rewrite length_app, Nat.add_1_r, u16_small; [lia|unfold uint16 in *; lia]. }
  rewrite E2. do 2 f_equal. rewrite !fmap_app, !concat_app, <- !app_assoc. simpl. by rewrite app_nil_r.
Qed.

(** The first bytes of a negative answer's names are within the RDLENGTH. *)
Lemma zone_soa_ok cls zone r : uint16 cls → zone_soa DefaultTtl cls zone = Some r → rr_ok r.
Proof.
  intros Hc. unfold zone_soa.
  destruct (text_name zone) as [z|] eqn:Ez; [|done].
  destruct (text_name (str "ns." ++ _)) as [m|] eqn:Em; [|done].
  destruct (text_name (str "hostmaster." ++ _)) as [n|] eqn:En; [|done]. intros <-%(inj Some).
  apply text_name_ok in Ez as [Hz _], Em as [Hm ?], En as [Hn ?].
  unfold rr_ok. cbn [rr_owner rr_type rr_class rr_ttl rr_data].
  rewrite !length_app, !length_be_split.
  split; [by intros ? [= <-]|]. split; [by split|]. split; [done|]. split; [apply u32_range|].
  split; [unfold UINT16_MAX; lia|]. split_and!; [lia| |lia..]. intros _. exists m, n. eexists.
  split_and!; [done|done| |done]. by rewrite !length_app, !length_be_split.
Qed.

Lemma zone_authority_ok cls zone : uint16 cls → Forall rr_ok (zone_authority DefaultTtl cls zone).
Proof.
  intros Hc. destruct zone as [|b zone]; [constructor|]. cbn [zone_authority].
  destruct (zone_soa DefaultTtl cls (b :: zone)) as [r|] eqn:E; constructor; [|constructor].
  by eapply zone_soa_ok.
Qed.

Lemma zone_authority_small cls zone : uint16 (Z.of_nat (length (zone_authority DefaultTtl cls zone))).
Proof. destruct zone; [by split|]. cbn [zone_authority]. by destruct (zone_soa _ _ _). Qed.

Lemma NXDOMAIN_eq out zone :
  encodable (m_Qname_ q) →
  NXDOMAIN DefaultTtl p_Packet out zone =
    Done (0%Z, reply p_Packet 3 true q [] (zone_authority DefaultTtl (Qclass false q) zone) []).
Proof.
  intros He. unfold NXDOMAIN.
  assert (Hns : uint16 match zone with [] => 0%Z | _ => 1%Z end) by (by destruct zone).
  rewrite WriteStandardHeader_Done by (first [by eapply request_header_wf | done | by split]).
  rewrite bind_done, (question_written _ _ _ Hok Hqs), decide_True by done. cbn [negb].
  rewrite reply_app, app_nil_r. cbn [length app].
  fold (reply_start p_Packet q 3 true 0 match zone with [] => 0%Z | _ => 1%Z end 0).
  destruct zone as [|b zone0]; [by rewrite app_nil_r|]. cbn [zone_authority]. set (zone := b :: zone0).
  rewrite (bool_decide_eq_false_2 (zone = [])) by done.
  rewrite (bool_decide_eq_false_2 (DnsRequestPacket.Questions p_Packet = []))
    by (unfold DnsRequestPacket.Questions; by rewrite Hqs).
  cbn [negb andb]. rewrite !DomainToQuestion_spec. unfold zone_soa.
  assert (Eno : (p_Output ← WriteUint16 (reply_start p_Packet q 3 true 0 1 0) 8 0; Done (0%Z, p_Output)) =
    Done (0%Z, reply_start p_Packet q 3 true 0 0 0 ++ [])).
  { pose proof (write_nscount 3 true 0 1 0 0 []) as E. rewrite !app_nil_r in E.
    rewrite app_nil_r, E by by split. done. }
  destruct (text_name zone) as [z|] eqn:Ez, (text_name (str "ns." ++ _)) as [m|] eqn:Em,
    (text_name (str "hostmaster." ++ _)) as [n|] eqn:En; cbn [Z.eqb orb]; try exact Eno.
  apply text_name_length in Em, En. rewrite !app_nil_l, too_long_small by lia.
  rewrite (first_qclass _ _ _ Hqs), bind_done. cbv zeta.
  rewrite (AppendFixed_eq (H:=H)) by (first [by eapply first_qclass_range | by split | unfold UINT16_MAX; lia]).
  rewrite !AppendUint32_eq by (first [by split | apply u32_range]).
  do 2 f_equal. match goal with |- context [option_list (Some ?r)] => change (option_list (Some r)) with [r] end.
  cbn [length]. rewrite fmap_cons, fmap_nil. cbn [concat]. unfold rr_wire.
  cbn [rr_owner rr_type rr_class rr_ttl rr_data owner_wire]. rewrite app_nil_r.
  replace (length (encode_name m ++ _)) with (length (encode_name m) + length (encode_name n) + 20)
    by (rewrite !length_app, !length_be_split; lia).
  unfold reply_start. by rewrite <- !app_assoc.
Qed.

(** A header without question: what [FORMERR] leaves when there is none to copy. *)
Definition bare (rcode : Z) : DnsHeader :=
  response_header (DnsRequestPacket.m_Header_ p_Packet) rcode false 0 0 0 0.

Lemma write_qdcount rcode rest qd qd' :
  (0 ≤ rcode < 16)%Z → uint16 qd → uint16 qd' →
  WriteUint16 (DnsHeader.memory (response_header (DnsRequestPacket.m_Header_ p_Packet) rcode false qd 0 0 0) ++ rest) 4 qd'
  = Done (DnsHeader.memory (response_header (DnsRequestPacket.m_Header_ p_Packet) rcode false qd' 0 0 0) ++ rest).
Proof.
  intros Hr Hq Hq'.
  assert (E : ∀ n, uint16 n →
    DnsHeader.memory (response_header (DnsRequestPacket.m_Header_ p_Packet) rcode false n 0 0 0) ++ rest =
    (be_split 2 (DnsHeader.Id false (DnsRequestPacket.m_Header_ p_Packet))
     ++ be_split 2 (flag_word (response_fields (DnsRequestPacket.m_Header_ p_Packet) rcode false 0 0 0 0)))
    ++ be_split 2 n ++ be_split 2 0 ++ be_split 2 0 ++ be_split 2 0 ++ rest).
  { intros n Hn. unfold response_header. rewrite memory_of_fields.
    - unfold DnsHeader.wire. by rewrite <- !app_assoc.
    - apply response_fields_ok; try done. by apply request_header_wf. }
  rewrite !E by done. by apply write_field.
Qed.

Lemma FORMERR_eq out :
  FORMERR p_Packet out =
    Done (0%Z, if decide (encodable (m_Qname_ q)) then reply p_Packet 1 false q [] [] []
               else DnsHeader.memory (bare 1)).
Proof.
  pose proof Hok as (_ & _ & _ & Hqd & _).
  assert (E : (0 <? DnsHeader.Qdcount false (DnsRequestPacket.Header p_Packet))%Z = true).
  { apply Z.ltb_lt. unfold DnsRequestPacket.Header. rewrite Hqd, Hqs. simpl. lia. }
  unfold FORMERR. rewrite E, bool_decide_eq_false_2 by (unfold DnsRequestPacket.Questions; by rewrite Hqs).
  cbn [negb andb]. cbv zeta.
  rewrite WriteStandardHeader_Done by (first [by eapply request_header_wf | done | by split]).
  rewrite bind_done. pose proof (write_qdcount 1 [] 1 1) as E1. rewrite !app_nil_r in E1.
  unfold DNS_RCODE_FORMERR. rewrite E1, bind_done by by split.
  change (0 <? 1)%Z with true. cbv iota. rewrite (question_written _ _ _ Hok Hqs).
  destruct (decide (encodable (m_Qname_ q))); cbn [negb].
  - do 2 f_equal. rewrite reply_app. cbn [app fmap list_fmap concat length]. by rewrite app_nil_r.
  - pose proof (write_qdcount 1 [] 1 0) as E0. rewrite !app_nil_r in E0. rewrite E0 by by split. done.
Qed.

Lemma BADVERS_eq out e :
  encodable (m_Qname_ q) → (∀ d, e = Some d → Forall option_ok (m_Options_ d)) →
  BADVERS p_Packet out e = Done (0%Z, reply p_Packet 0 false q [] [] [opt_rr 1 e]).
Proof.
  intros He Ho. unfold BADVERS.
  rewrite WriteStandardHeader_Done by (first [by eapply request_header_wf | done | by split]).
  rewrite bind_done, (question_written _ _ _ Hok Hqs), decide_True by done. cbn [negb].
  pose proof (AppendOpt_reply 0 false [] [] [] 1 e) as E. rewrite reply_app in E.
  cbn [app fmap list_fmap concat length] in E. rewrite app_nil_r in E. change (Z.of_nat 0) with 0%Z in E.
  unfold reply_start in E.
  unfold DNS_RCODE_NOERROR. rewrite E, bind_done by (done || by split). done.
Qed.

Lemma opt_rr_ok ext e :
  (0 ≤ ext < 256)%Z → rr_ok (opt_rr ext e).
Proof.
  intros Hext. unfold rr_ok, opt_rr. cbn [rr_owner rr_type rr_class rr_ttl rr_data].
  split; [by intros ? [= <-]|]. split; [by split|]. split; [by split|]. split; [unfold uint32; lia|].
  split; [|split_and!; lia]. unfold opt_rdata.
  destruct (Z.leb_spec (Z.of_nat (length (concat (encode_option <$> opt_cookies e)))) UINT16_MAX); [done|].
  unfold UINT16_MAX. simpl. lia.
Qed.
End errors.

(** *** A header for bytes that could not be parsed *)

Section raw.
  Context {H : Target}.

(** The identifier and the RD bit, as far as the bytes go. *)
Definition raw_id (data : option bytes) (n : nat) : Z :=
  match data with Some d => if 2 <=? n then be_join (take 2 d) else 0%Z | None => 0%Z end.

Definition raw_rd (data : option bytes) (n : nat) : bool :=
  match data with Some d => if 4 <=? n then Z.testbit (be_join (take 2 (drop 2 d))) 8 else false | None => false end.

Definition raw_fields (data : option bytes) (n : nat) : field → Z := λ a,
  match a with
  | FId => raw_id data n | FRd => Z.b2z (raw_rd data n)
  | FQr | FRa | FRcode => 1%Z | _ => 0%Z
  end.

Lemma raw_fields_ok data n : from_option length 0 data ≥ n ∨ data = None → fields_ok (raw_fields data n).
Proof.
  intros Hn a. pose proof (b2z_range (raw_rd data n)).
  destruct a; simpl; try lia. unfold raw_id. destruct data as [d|]; [|lia]. destruct (Nat.leb_spec 2 n); [|lia].
  destruct Hn as [Hn|]; [|done]. simpl in Hn. pose proof (be_join_bound (take 2 d)) as B.
  rewrite length_take_le in B by lia. exact B.
Qed.

Lemma length_resize n out : length (resize n out) = n.
Proof. unfold resize. rewrite length_app, length_take, repeat_length. lia. Qed.

Lemma splice_all m bs : length bs = length m → splice m 0 bs = bs.
Proof. intros E. unfold splice. simpl. rewrite E, drop_all. by rewrite app_nil_r. Qed.

Lemma FORMERR_raw_eq data n out :
  (∀ d, data = Some d → n ≤ length d) →
  FORMERR_raw data n out = Done (0%Z, DnsHeader.memory (of_fields (raw_fields data n))).
Proof.
  intros Hn.
  assert (Hf : fields_ok (raw_fields data n)).
  { apply raw_fields_ok. destruct data as [d|]; [left; by apply Hn|by right]. }
  rewrite memory_of_fields by done. unfold FORMERR_raw.
  set (m := resize HeaderSize out). assert (Hm : length m = 12) by apply length_resize.
  match goal with |- ?x ≫= _ = _ => assert (E1 : x = Done (raw_id data n)) end.
  { unfold raw_id. destruct data as [d|]; [|done]. destruct (Nat.leb_spec 2 n); [|done].
    rewrite load_n_Done by (specialize (Hn d eq_refl); lia). rewrite bind_done, drop_0.
    by rewrite NetworkToHost_object by (rewrite length_take_le; [done|specialize (Hn d eq_refl); lia]). }
  rewrite E1, bind_done. clear E1.
  pose proof (Hf FId) as Hid. cbn [raw_fields] in Hid. change (2 ^ field_bits FId)%Z with 65536%Z in Hid.
  rewrite (WriteUint16_written m 0), bind_done by (done || lia). cbv zeta.
  match goal with |- ?x ≫= _ = _ => assert (E1 : x = Done (flag_word (raw_fields data n))) end.
  { unfold flag_word. cbn [raw_fields]. unfold raw_rd. destruct data as [d|]; [|done].
    destruct (Nat.leb_spec 4 n); [|done].
    rewrite load_n_Done by (specialize (Hn d eq_refl); lia). rewrite bind_done.
    rewrite NetworkToHost_object by (rewrite length_take_le; [done|rewrite length_drop; specialize (Hn d eq_refl); lia]).
    set (w := be_join _). f_equal.
    assert (E : tobool (Z.land w 0x0100) = Z.testbit w 8) by (by apply (tobool_mask w 8)). rewrite E.
    by destruct (Z.testbit w 8). }
  rewrite E1, bind_done. clear E1.
  pose proof (flag_word_range (raw_fields data n) Hf) as Hfl.
  do 5 (erewrite WriteUint16_splice, bind_done;
    [|first [done | by split]|by rewrite ?length_app, ?length_be_split|rewrite ?length_app, ?length_be_split; lia]).
  do 2 f_equal. rewrite splice_all by (rewrite !length_app, !length_be_split; lia).
  unfold DnsHeader.wire. by rewrite <- !app_assoc.
Qed.
End raw.

(** ** Properties *)

Section properties.
  Context {H : Target} {J : Type} `{JsonLaws J} (DefaultTtl : Z).
Implicit Types (p_Packet : DnsRequestPacket) (q : DnsQuestion) (records : list (AnswerRecord J)) (d : J).

(** A header alone is parsed as a response without records. *)
Definition header_only (h : DnsHeader) : DnsResponsePacket :=
  {| DnsResponsePacket.m_Header_ := h; DnsResponsePacket.m_Questions_ := [];
     DnsResponsePacket.m_Answers_ := []; DnsResponsePacket.m_Authority_ := [];
     DnsResponsePacket.m_Additional_ := [] |}.

Lemma header_only_FromWire f p0 :
  fields_ok f → f FQr = 1%Z → f FZ = 0%Z → f FQdcount = 0%Z → f FAncount = 0%Z → f FNscount = 0%Z →
  f FArcount = 0%Z →
  let w := DnsHeader.memory (of_fields f) in
  DnsResponsePacket.FromWire (Some w) (length w) p0 = Done (true, header_only (of_fields f)).
Proof.
  intros Hf Hqr Hz Hq Ha Hn Hx w.
  assert (Hok : response_ok (header_only (of_fields f))).
  { unfold response_ok, header_only, counts_exact.
    cbn [DnsResponsePacket.m_Header_ DnsResponsePacket.m_Questions_ DnsResponsePacket.m_Answers_
         DnsResponsePacket.m_Authority_ DnsResponsePacket.m_Additional_ length].
    assert (E : ∀ a, view false (of_fields f) a = f a) by (intros; by apply view_of_fields).
    split_and!; [by apply of_fields_wf|by rewrite Valid_view, E, Hz|apply IsResponse_view; by rewrite E
      |exact (eq_trans (E FQdcount) Hq)|exact (eq_trans (E FAncount) Ha)
      |exact (eq_trans (E FNscount) Hn)|exact (eq_trans (E FArcount) Hx)|constructor..]. }
  pose proof (FromWire_wire _ [] p0 Hok) as E. rewrite app_nil_r in E.
  assert (Ew : DnsResponsePacket.wire (header_only (of_fields f)) = w) by apply app_nil_r.
  by rewrite Ew in E.
Qed.

(** A reply and what it is read back as. *)
Definition replies (call : outcome (Z * bytes)) p_Packet q (rcode : Z) (aa : bool) (ans auth add : list rr)
    (p0 : DnsResponsePacket) : Prop :=
  ∃ w, call = Done (0%Z, w) ∧ w = reply p_Packet rcode aa q ans auth add ∧
    DnsResponsePacket.FromWire (Some w) (length w) p0 =
      Done (true, reply_response p_Packet rcode aa q ans auth add).

(** C29: for every request the parser accepts that has a question, [MultiAnswer] succeeds
    exactly when the question's name can be encoded, there are between 1 and 65535
    records and each has an encodable owner and data of its type; what it then writes is
    the authoritative NOERROR response with the request's identifier, RD and first
    question and with those records in order, and the packet parser reads exactly that
    response back. *)
Theorem MultiAnswer_response p_Packet q qs records out p0 :
  request_ok p_Packet → DnsRequestPacket.m_Questions_ p_Packet = q :: qs →
  (∀ out', MultiAnswer DefaultTtl p_Packet records out = Done (0%Z, out') ↔
     encodable (m_Qname_ q) ∧ 1 ≤ length records ∧ (Z.of_nat (length records) ≤ UINT16_MAX)%Z ∧
     ∃ rs, answers_data DefaultTtl (Qclass false q) records rs ∧ out' = reply p_Packet 0 true q rs [] []) ∧
  (∀ rs, encodable (m_Qname_ q) → 1 ≤ length records → (Z.of_nat (length records) ≤ UINT16_MAX)%Z →
     answers_data DefaultTtl (Qclass false q) records rs →
     replies (MultiAnswer DefaultTtl p_Packet records out) p_Packet q 0 true rs [] [] p0).
Proof.
  intros Hok Hqs. split; [intros out'; by apply MultiAnswer_iff with qs|].
  intros rs He Hn Hl Hrs. eexists. split_and!; [|done|].
  - eapply MultiAnswer_iff; [done..|]. do 3 (split; [done|]). by exists rs.
  - by eapply MultiAnswer_FromWire.
Qed.

(** For each of the nine record types the function for a single answer
    ([CallResponseFunction]) succeeds on the same data as [MultiAnswer] with that one
    record under the question's name, and writes the same bytes. *)
Theorem CallResponseFunction_MultiAnswer p_Packet q qs T d out1 out2 out' :
  request_ok p_Packet → DnsRequestPacket.m_Questions_ p_Packet = q :: qs → In T record_types →
  CallResponseFunction DefaultTtl T p_Packet d out1 = Done (0%Z, out') ↔
  MultiAnswer DefaultTtl p_Packet
    [{| m_Type_ := T; DnsResponse.m_Data_ := d; DnsResponse.m_Name_ := [] |}] out2 = Done (0%Z, out').
Proof.
  intros Hok Hqs HT. rewrite (CallResponseFunction_iff DefaultTtl p_Packet q qs Hok Hqs T d out1 out' HT).
  by rewrite (MultiAnswer_one DefaultTtl p_Packet q qs Hok Hqs T d out2 out').
Qed.

(** C30: the error functions answer every accepted request whose question can be
    encoded with the question and the right code, in packets the parser reads back:
    NOTIMP, SERVFAIL, REFUSED and FORMERR without records; NXDOMAIN, authoritative, with
    the zone's SOA record exactly when a zone is given whose three names can be encoded;
    BADVERS with an OPT record of extended code 1 that carries the request's cookies.
    For a question that cannot be encoded all report an error, but FORMERR, which
    answers with a bare header. *)
Theorem error_responses p_Packet q qs zone e out p0 :
  request_ok p_Packet → DnsRequestPacket.m_Questions_ p_Packet = q :: qs →
  (∀ x, e = Some x → Forall option_ok (m_Options_ x)) →
  (encodable (m_Qname_ q) →
     replies (NOTIMP p_Packet out) p_Packet q 4 false [] [] [] p0 ∧
     replies (SERVFAIL p_Packet out) p_Packet q 2 false [] [] [] p0 ∧
     replies (REFUSED p_Packet out) p_Packet q 5 false [] [] [] p0 ∧
     replies (FORMERR p_Packet out) p_Packet q 1 false [] [] [] p0 ∧
     replies (NXDOMAIN DefaultTtl p_Packet out zone) p_Packet q 3 true []
       (zone_authority DefaultTtl (Qclass false q) zone) [] p0 ∧
     replies (BADVERS p_Packet out e) p_Packet q 0 false [] [] [opt_rr 1 e] p0) ∧
  (¬ encodable (m_Qname_ q) →
     (∀ rcode, In rcode [4; 2; 5]%Z → ∃ w, ErrorResponse rcode p_Packet out = Done ((-1)%Z, w)) ∧
     (∃ w, NXDOMAIN DefaultTtl p_Packet out zone = Done ((-1)%Z, w)) ∧
     (∃ w, BADVERS p_Packet out e = Done ((-1)%Z, w)) ∧
     let w := DnsHeader.memory (bare p_Packet 1) in
     FORMERR p_Packet out = Done (0%Z, w) ∧
     DnsResponsePacket.FromWire (Some w) (length w) p0 = Done (true, header_only (bare p_Packet 1))).
Proof.
  intros Hok Hqs Ho. pose proof (request_header_wf p_Packet Hok) as Hw.
  pose proof (first_qclass_range _ _ _ Hok Hqs) as Hc. split; intros He.
  - assert (Hr : ∀ rcode aa auth add, (0 ≤ rcode < 16)%Z → Forall rr_ok (auth ++ add) →
      uint16 (Z.of_nat (length auth)) → uint16 (Z.of_nat (length add)) → ∀ call,
      call = Done (0%Z, reply p_Packet rcode aa q [] auth add) →
      replies call p_Packet q rcode aa [] auth add p0).
    { intros rcode aa auth add Hr Hrr Ha Hx call ->. eexists. split_and!; [done..|].
      by apply reply_FromWire with qs. }
    assert (Her : ∀ rcode, (0 ≤ rcode < 16)%Z →
      replies (ErrorResponse rcode p_Packet out) p_Packet q rcode false [] [] [] p0).
    { intros rcode Hrc. apply Hr; [done|constructor|by split..|].
      destruct (ErrorResponse_eq _ _ _ Hok Hqs rcode out Hrc) as (w & E & Ew).
      rewrite decide_True in E by done. by rewrite E, Ew. }
    split_and!; [by apply Her..| | |].
    + apply Hr; [done|constructor|by split..|]. rewrite (FORMERR_eq _ _ _ Hok Hqs). by rewrite decide_True.
    + apply Hr; [done|rewrite app_nil_r; by apply zone_authority_ok|apply zone_authority_small|by split|].
      by apply NXDOMAIN_eq with qs.
    + apply Hr; [done|constructor; [by apply opt_rr_ok|constructor]|by split..|]. by apply BADVERS_eq with qs.
  - split_and!.
    + intros rcode Hin. destruct (ErrorResponse_eq _ _ _ Hok Hqs rcode out) as (w & E & _).
      * destruct Hin as [<-|[<-|[<-|[]]]]; lia.
      * rewrite decide_False in E by done. by exists w.
    + unfold NXDOMAIN. rewrite WriteStandardHeader_Done by (first [done | by destruct zone | by split]).
      rewrite bind_done, (question_written _ _ _ Hok Hqs), decide_False by done. by eexists.
    + unfold BADVERS. rewrite WriteStandardHeader_Done by (first [done | by split]).
      rewrite bind_done, (question_written _ _ _ Hok Hqs), decide_False by done. by eexists.
    + intros w. rewrite (FORMERR_eq _ _ _ Hok Hqs), decide_False by exact He. split; [done|].
      apply header_only_FromWire; try done. by apply response_fields_ok.
Qed.

(** Whatever bytes arrive, [FORMERR] of the raw bytes answers with a twelve-byte
    packet, which the parser reads back as a FORMERR response without records whose
    identifier is the first two bytes received (0 when there are fewer) and whose RD bit
    is the one received; for at least a header it is the identifier and RD of that
    header. *)
Theorem FORMERR_raw_response data n out p0 :
  n ≤ length data →
  let h := of_fields (raw_fields (Some data) n) in
  FORMERR_raw (Some data) n out = Done (0%Z, DnsHeader.memory h) ∧
  DnsResponsePacket.FromWire (Some (DnsHeader.memory h)) HeaderSize p0 = Done (true, header_only h) ∧
  (∀ a, view false h a = raw_fields (Some data) n a) ∧
  (HeaderSize ≤ n → view false h FId = view false (of_memory (take HeaderSize data)) FId ∧
                    view false h FRd = view false (of_memory (take HeaderSize data)) FRd).
Proof.
  intros Hn h. assert (Hf : fields_ok (raw_fields (Some data) n)) by (apply raw_fields_ok; left; exact Hn).
  assert (Hv : ∀ a, view false h a = raw_fields (Some data) n a) by (intros; by apply view_of_fields).
  pose proof (header_only_FromWire (raw_fields (Some data) n) p0 Hf) as E. cbv zeta in E. rewrite length_memory in E.
  split_and!; [|by apply E|done|].
  - apply FORMERR_raw_eq. by intros ? [= <-].
  - intros Hs. unfold HeaderSize in Hs. rewrite !Hv. cbn [raw_fields raw_id raw_rd].
    destruct (Nat.leb_spec 2 n); [|lia]. destruct (Nat.leb_spec 4 n); [|lia].
    cbn [view]. unfold Id, Rd, Flags, of_memory. cbn [m_Id_ m_Flags_].
    rewrite skipn_firstn_comm, !take_take.
    rewrite !NetworkToHost_object, tobool_bit by first [lia | by rewrite length_take_le; [|rewrite ?length_drop; lia]].
    done.
Qed.
End properties.

(** ** Examples *)

Section examples.
#[local] Existing Instance x86_64.

(** The query "a.com IN A" of identifier 4660. *)
Definition example_request : DnsRequestPacket := DnsRequestPacket.a_query 4660 (str "a.com") true.

Definition example_records : list (AnswerRecord json) :=
  [{| m_Type_ := str "CNAME"; DnsResponse.m_Data_ := JString (str "b.org"); DnsResponse.m_Name_ := [] |};
   {| m_Type_ := str "A"; DnsResponse.m_Data_ := JString [x7f; x00; x00; x01];
      DnsResponse.m_Name_ := str "b.org" |}].

Definition example_rrs : list rr :=
  [{| rr_owner := None; rr_type := 5; rr_class := 1; rr_ttl := 3600; rr_data := encode_name [str "b"; str "org"] |};
   {| rr_owner := Some [str "b"; str "org"]; rr_type := 1; rr_class := 1; rr_ttl := 3600;
      rr_data := [x7f; x00; x00; x01] |}].

Lemma example_answers : answers_data 3600 1 example_records example_rrs.
Proof.
  constructor; [|constructor; [|constructor]].
  - exists None, 5%Z, (encode_name [str "b"; str "org"]). split_and!; [done| |done].
    apply data_domain with (str "b.org"); [by left|done|done|by vm_compute].
  - exists (Some [str "b"; str "org"]), 1%Z, [x7f; x00; x00; x01]. split_and!; [by vm_compute| |done].
    by apply data_A.
Qed.

Lemma MultiAnswer_response_witness :
  MultiAnswer 3600 example_request example_records [] =
    Done (0%Z, reply example_request 0 true (DnsQuestion.MakeAQuery (str "a.com")) example_rrs [] []).
Proof.
  destruct (proj2 (MultiAnswer_response 3600 example_request _ _ example_records [] DnsResponsePacket.clear
    example_request_ok eq_refl) example_rrs ltac:(vm_compute; repeat constructor; lia) ltac:(simpl; lia) ltac:(done)
    example_answers) as (w & E & -> & _).
  exact E.
Defined.

(** The bytes themselves. *)
Example MultiAnswer_bytes :
  match MultiAnswer 3600 example_request example_records [] with
  | Done (0%Z, w) => drop 23 w =
      [xc0; x0c; x00; x05; x00; x01; x00; x00; x0e; x10; x00; x07; x01; x62; x03; x6f; x72; x67; x00;
       x01; x62; x03; x6f; x72; x67; x00; x00; x01; x00; x01; x00; x00; x0e; x10; x00; x04; x7f; x00; x00; x01]
  | _ => False
  end.
Proof. vm_compute. reflexivity. Qed.

Lemma CallResponseFunction_MultiAnswer_witness :
  CallResponseFunction 3600 (str "A") example_request (JString [x7f; x00; x00; x01]) [] =
  MultiAnswer 3600 example_request
    [{| m_Type_ := str "A"; DnsResponse.m_Data_ := JString [x7f; x00; x00; x01]; DnsResponse.m_Name_ := [] |}] [].
Proof.
  destruct (CallResponseFunction 3600 (str "A") example_request (JString [x7f; x00; x00; x01]) []) as [[c w]| | | |] eqn:E;
    try (vm_compute in E; discriminate E).
  assert (c = 0%Z) as -> by (vm_compute in E; congruence).
  symmetry. apply (CallResponseFunction_MultiAnswer 3600 example_request _ _ (str "A") (JString [x7f; x00; x00; x01]) [] []
    w example_request_ok eq_refl (or_introl eq_refl)). exact E.
Defined.

Lemma error_responses_witness :
  replies (NXDOMAIN 3600 example_request [] (str "com")) example_request
    (DnsQuestion.MakeAQuery (str "a.com")) 3 true [] (zone_authority 3600 1 (str "com")) [] DnsResponsePacket.clear.
Proof.
  apply (proj1 (error_responses 3600 example_request _ _ (str "com") None [] DnsResponsePacket.clear
    example_request_ok eq_refl ltac:(done))). vm_compute. repeat constructor; lia.
Defined.

Lemma FORMERR_raw_response_witness :
  let h := of_fields (raw_fields (Some [x12; x34; x01; x00; x00]) 5) in
  FORMERR_raw (Some [x12; x34; x01; x00; x00]) 5 [] = Done (0%Z, DnsHeader.memory h) ∧ view false h FId = 4660%Z.
Proof.
  destruct (FORMERR_raw_response [x12; x34; x01; x00; x00] 5 [] DnsResponsePacket.clear (le_n 5)) as (E & _ & Hv & _).
  split; [exact E|exact (Hv FId)].
Defined.
End examples.
