(* ===== verification/ResponseSafety.v ===== *)
(** * What every response function leaves behind

    Whatever zone data it is given, a response function returns or throws the JSON
    library's exception: it never runs into undefined behaviour; and what it has
    written when it returns is its unchanged output or a message that carries the
    request's identifier and the QR bit, also when it reports failure. *)

From Stdlib Require Import ZArith Lia.
From Stdlib Require Import Strings.Byte Strings.String.
From stdpp Require Import base numbers list option sets.
From S2P Require Import Prelude.
From S2P Require Import Memory.
From S2P Require Import Text.
From S2P Require Import Name.
From S2P Require Import DnsHeader.
From S2P Require Import DnsQuestion.
From S2P Require Import WireFormat.
From S2P Require Import DnsRequestPacket.
From S2P Require Import DnsResponse.
From S2P Require Import ResponseFacts.
From S2P Require Import WholeResponses.

(** ** Computations that return or throw the JSON library's exception *)

Definition wp {A} (P : A → Prop) (m : outcome A) : Prop :=
  match m with Done a => P a | Throw e => e = JsonError | _ => False end.

Lemma wp_bind {A B} (P : A → Prop) (Q : B → Prop) (m : outcome A) f :
  wp P m → (∀ a, P a → wp Q (f a)) → wp Q (m ≫= f).
Proof. destruct m; simpl; auto. Qed.

Lemma wp_mono {A} (P Q : A → Prop) (m : outcome A) : wp P m → (∀ a, P a → Q a) → wp Q m.
Proof. destruct m; simpl; auto. Qed.

Lemma wp_Done {A} (P : A → Prop) a : P a → wp P (Done a).
Proof. done. Qed.

(** A message that carries the identifier and says it is a response. *)
Definition reply_to (id : Z) (w : bytes) : Prop :=
  12 ≤ length w ∧ ∃ b rest, w = be_split 2 id ++ b :: rest ∧ (128 ≤ u8 b)%Z.

Lemma reply_to_app id w x : reply_to id w → reply_to id (w ++ x).
Proof.
  intros [Hl (b & rest & -> & Hb)]. split; [rewrite length_app; lia|].
  exists b, (rest ++ x). by rewrite <- app_assoc.
Qed.

Section safety.
  Context {H : Target} {J : Type} `{JsonLaws J} (DefaultTtl : Z).
  Implicit Types (w out : bytes) (d : J).

Lemma reply_to_16 id w v : reply_to id w → reply_to id (AppendUint16 w v).
Proof. apply reply_to_app. Qed.

Lemma reply_to_32 id w v : reply_to id w → reply_to id (AppendUint32 w v).
Proof. apply reply_to_app. Qed.

Lemma reply_to_fixed id w t c n : reply_to id w → reply_to id (AppendFixed DefaultTtl w t c n).
Proof. intros Hw. by apply reply_to_16, reply_to_32, reply_to_16, reply_to_16. Qed.

Lemma reply_to_write id w i v :
  reply_to id w → 3 ≤ i → i + 2 ≤ length w → wp (reply_to id) (WriteUint16 w i v).
Proof.
  intros [Hl (b & rest & -> & Hb)] Hi Hw. rewrite WriteUint16_store by done.
  set (bs := object_bytes 2 _). assert (Hbs : length bs = 2) by apply length_object_bytes.
  rewrite store_n_Done by (rewrite Hbs; done). split; [by rewrite length_splice by lia|].
  destruct i as [|[|[|i]]]; [lia..|]. exists b, (take i rest ++ bs ++ drop (i + 2) rest). split; [|done].
  unfold splice. rewrite Hbs, be_split_2. replace (S (S (S i)) + 2) with (S (S (S (i + 2)))) by lia. done.
Qed.

Lemma reply_to_header p_Packet rcode an ns ar aa :
  DnsHeader.wf (DnsRequestPacket.m_Header_ p_Packet) →
  (0 ≤ rcode < 16)%Z → uint16 an → uint16 ns → uint16 ar →
  wp (reply_to (DnsHeader.Id false (DnsRequestPacket.Header p_Packet))) (WriteStandardHeader p_Packet rcode an ns ar aa).
Proof.
  intros Hw Hr Han Hns Har. rewrite WriteStandardHeader_Done by done. simpl.
  destruct (response_header_facts _ rcode aa 1 an ns ar Hw Hr ltac:(done) Han Hns Har) as (_ & _ & _ & _ & ->).
  split; [done|]. unfold DnsHeader.wire. set (g := response_fields _ _ _ _ _ _ _).
  rewrite (be_split_2 (flag_word g)). eexists _, _. split; [reflexivity|].
  assert (Hf : (32768 ≤ flag_word g < 65536)%Z).
  { unfold flag_word, g, response_fields. cbn [view]. pose proof (b2z_range aa).
    pose proof (view_range false _ Hw FRd) as Hrd. simpl in Hrd. simpl. lia. }
  rewrite u8_ch. rewrite Z.mod_small by (Z.to_euclidean_division_equations; lia).
  Z.to_euclidean_division_equations; lia.
Qed.

(** *** The parameters of the model *)

Lemma get_string_wp d : wp (λ _, True) (get_string d).
Proof. pose proof (get_string_spec d) as Hs. destruct (is_string d); [by destruct Hs as [s ->]|by rewrite Hs]. Qed.

Lemma get_uint32_wp d : wp (λ _, True) (get_uint32 d).
Proof. by destruct (get_uint32_spec d) as [(z & -> & _)| ->]. Qed.

Lemma get_uint16_wp d : wp (λ _, True) (get_uint16 d).
Proof. by destruct (get_uint16_spec d) as [(z & -> & _)| ->]. Qed.

(** *** Appending records *)

Lemma AppendHead_reply id out name t c n : reply_to id out → reply_to id (AppendHead DefaultTtl out name t c n).2.
Proof.
  intros Ho. unfold AppendHead, WriteAnswerName. destruct name as [|b name].
  - cbn [Z.eqb negb snd]. by apply reply_to_fixed, reply_to_16.
  - destruct (DomainToQuestion (b :: name) []) as [r w]. destruct (r =? -1)%Z; [done|].
    cbn [Z.eqb negb snd]. by apply reply_to_fixed, reply_to_app.
Qed.

Abbreviation kept id := (λ r : Z * bytes, reply_to id r.2).

(** Steps through a function that appends a record. *)
#[local] Ltac wp_step :=
  match goal with
  | |- wp _ (if ?b then _ else _) => destruct b
  | |- wp _ (let '(_, _) := AppendHead ?ttl ?o ?n ?t ?c ?l in _) =>
      let E := fresh in pose proof (AppendHead_reply _ o n t c l ltac:(eassumption)) as E;
      destruct (AppendHead ttl o n t c l) as [? ?]; cbn [snd] in E
  | |- wp _ (let '(_, _) := ?m in _) => destruct m as [? ?]
  | |- wp _ (let s := ?v in _) => cbv zeta
  | |- wp _ (get_string _ ≫= _) => eapply wp_bind; [apply get_string_wp|intros ? _]
  | |- wp _ (get_uint32 _ ≫= _) => eapply wp_bind; [apply get_uint32_wp|intros ? _]
  | |- wp _ (get_uint16 _ ≫= _) => eapply wp_bind; [apply get_uint16_wp|intros ? _]
  | |- wp _ (match ?m with Some _ => _ | None => _ end) => destruct m
  | |- wp _ (Done _) => simpl; repeat first [assumption | simple apply reply_to_app | simple apply reply_to_16 | simple apply reply_to_32]
  end.

Lemma txt_rdata_wp ds acc : wp (λ _, True) (txt_rdata ds acc).
Proof.
  revert acc. induction ds as [|d ds IH]; intros acc; [done|]. cbn [txt_rdata].
  destruct (negb _); [done|]. eapply wp_bind; [apply get_string_wp|]. intros s _. destruct (_ <? _); [done|apply IH].
Qed.

Lemma DispatchAppendAnswer_wp id T cls d out name :
  reply_to id out → wp (kept id) (DispatchAppendAnswer DefaultTtl T cls d out name).
Proof.
  intros Ho. unfold DispatchAppendAnswer, AppendAnswerA, AppendAnswerAAAA, AppendAnswerAddress, AppendAnswerDomain,
    AppendAnswerSOA, AppendAnswerMX, AppendAnswerTXT, AppendAnswerSRV.
  repeat wp_step. eapply wp_bind; [apply txt_rdata_wp|]. intros [rd|] _; repeat wp_step.
Qed.

Lemma AppendRecords_wp id records cls out :
  reply_to id out → wp (kept id) (AppendRecords DefaultTtl records cls out).
Proof.
  revert out. induction records as [|r records IH]; intros out Ho; [done|]. cbn [AppendRecords].
  eapply wp_bind; [by apply DispatchAppendAnswer_wp|]. intros [c w] Hw. destruct (negb _); [done|by apply IH].
Qed.

(** *** Whole responses *)

Context (p_Packet : DnsRequestPacket) (q : DnsQuestion) (qs : list DnsQuestion).
Context (Hok : request_ok p_Packet) (Hqs : DnsRequestPacket.m_Questions_ p_Packet = q :: qs).

Abbreviation id := (DnsHeader.Id false (DnsRequestPacket.Header p_Packet)).

(** What is left of the output: a message for the request, or after an early error the
    output as it was. *)
Definition leaves out (r : Z * bytes) : Prop := reply_to id r.2 ∨ r = ((-1)%Z, out).

Lemma header_wp rcode an ns ar aa :
  (0 ≤ rcode < 16)%Z → uint16 an → uint16 ns → uint16 ar → wp (reply_to id) (WriteStandardHeader p_Packet rcode an ns ar aa).
Proof. intros. apply reply_to_header; [apply Hok|done..]. Qed.

Lemma question_reply w : reply_to id w → reply_to id (WriteQuestion w p_Packet).2.
Proof.
  intros Hw. rewrite (question_written p_Packet q qs Hok Hqs). destruct (decide _); [by apply reply_to_app|done].
Qed.

#[local] Ltac start_step :=
  eapply wp_bind; [apply header_wp; first [done | by split | apply u16_uint16]|]; intros ?w ?Hw;
  let E := fresh in pose proof (question_reply _ Hw) as E; revert E;
  destruct (WriteQuestion _ p_Packet) as [[] ?w]; cbn [snd negb]; intros E.

Lemma AnswerStart_wp t : wp (λ r, reply_to id r.2) (AnswerStart DefaultTtl p_Packet t).
Proof.
  unfold AnswerStart. start_step; [|done]. rewrite (first_qclass p_Packet q qs Hqs), bind_done.
  simpl. by apply reply_to_32, reply_to_16, reply_to_16, reply_to_16.
Qed.

Lemma DataStart_wp t n : wp (λ r, reply_to id r.2) (DataStart DefaultTtl p_Packet t n).
Proof.
  unfold DataStart. eapply wp_bind; [apply AnswerStart_wp|]. intros [[] w] Hw; simpl in *; [by apply reply_to_16|done].
Qed.

Lemma ErrorResponse_wp rcode out : (0 ≤ rcode < 16)%Z → wp (kept id) (ErrorResponse rcode p_Packet out).
Proof. intros Hr. unfold ErrorResponse. by start_step. Qed.

Lemma FORMERR_wp out : wp (kept id) (FORMERR p_Packet out).
Proof.
  unfold FORMERR. cbv zeta. eapply wp_bind; [by apply header_wp|]. intros w Hw. pose proof (proj1 Hw).
  eapply wp_bind; [apply reply_to_write; [done|lia..]|]. intros w' Hw'. destruct (_ <? _)%Z; [|done].
  pose proof (question_reply _ Hw') as E. destruct (WriteQuestion _ p_Packet) as [[] w'']; cbn [snd negb] in *; [done|].
  pose proof (proj1 E). eapply wp_bind; [apply reply_to_write; [done|lia..]|]. done.
Qed.

Lemma NXDOMAIN_wp out zone : wp (kept id) (NXDOMAIN DefaultTtl p_Packet out zone).
Proof.
  unfold NXDOMAIN. eapply wp_bind; [apply header_wp; first [done | by destruct zone]|]. intros w Hw.
  pose proof (question_reply _ Hw) as E. destruct (WriteQuestion _ p_Packet) as [[] w']; cbn [snd negb] in *; [|done].
  destruct (_ && _); [|done]. destruct (DomainToQuestion zone []) as [r1 z1].
  destruct (DomainToQuestion (str "ns." ++ _) []) as [r2 z2], (DomainToQuestion (str "hostmaster." ++ _) []) as [r3 z3].
  pose proof (proj1 E).
  destruct (_ || _); [eapply wp_bind; [apply reply_to_write; [done|lia..]|]; done|]. cbv zeta.
  destruct (too_long _); [eapply wp_bind; [apply reply_to_write; [done|lia..]|]; done|].
  rewrite (first_qclass p_Packet q qs Hqs), bind_done. simpl.
  by apply reply_to_32, reply_to_32, reply_to_32, reply_to_32, reply_to_32, reply_to_app, reply_to_app, reply_to_fixed, reply_to_app.
Qed.

#[local] Ltac data_step :=
  match goal with
  | |- wp _ (if ?b then Done ((-1)%Z, ?o) else _) => destruct b; [by right|]
  | |- wp _ (match ?m with Some _ => _ | None => Done ((-1)%Z, ?o) end) => destruct m; [|by right]
  | |- wp _ (let '(_, _) := ?m in _) => destruct m as [? ?]
  | |- wp _ (let s := ?v in _) => cbv zeta
  | |- wp _ (get_string _ ≫= _) => eapply wp_bind; [apply get_string_wp|intros ? _]
  | |- wp _ (txt_rdata _ _ ≫= _) => eapply wp_bind; [apply txt_rdata_wp|intros ? _]
  end.

(** After the start of the answer the output is a message whatever happens. *)
#[local] Ltac started :=
  apply wp_mono with (P := kept id); [|by left];
  eapply wp_bind; [first [apply AnswerStart_wp | apply DataStart_wp]|];
  intros [[] ?w] ?Hw; cbn [snd negb] in *; [repeat wp_step|done].

Lemma Address_wp t n s out : wp (leaves out) (Address DefaultTtl t n p_Packet s out).
Proof. unfold Address. repeat data_step. started. Qed.

Lemma Domain_wp t s out : wp (leaves out) (Domain DefaultTtl t p_Packet s out).
Proof. unfold Domain. do 2 data_step. started. Qed.

Lemma MultiAnswer_wp records out : wp (leaves out) (MultiAnswer DefaultTtl p_Packet records out).
Proof.
  unfold MultiAnswer. data_step. apply wp_mono with (P := kept id); [|by left]. start_step; [|done].
  rewrite (first_qclass p_Packet q qs Hqs), bind_done. by apply AppendRecords_wp.
Qed.

Lemma CallResponseFunction_wp T d out : wp (leaves out) (CallResponseFunction DefaultTtl T p_Packet d out).
Proof.
  unfold CallResponseFunction, PTR, CNAME, NS, A, AAAA, NOTIMP, SERVFAIL, REFUSED, SOA, MX, TXT, SRV.
  repeat match goal with
  | |- wp _ (if bool_decide _ then _ else _) => case_bool_decide
  | |- wp _ (get_string _ ≫= _) => eapply wp_bind; [apply get_string_wp|intros ? _]
  | |- wp _ (Address _ _ _ _ _ _) => apply Address_wp
  | |- wp _ (Domain _ _ _ _ _) => apply Domain_wp
  end.
  all: try (repeat data_step; by started).
  - eapply wp_bind with (P := λ _, True); [destruct (is_string d); [apply get_string_wp|done]|]. intros z _.
    apply wp_mono with (P := kept id); [apply NXDOMAIN_wp|by left].
  - apply wp_mono with (P := kept id); [by apply ErrorResponse_wp|by left].
  - apply wp_mono with (P := kept id); [apply FORMERR_wp|by left].
  - apply wp_mono with (P := kept id); [by apply ErrorResponse_wp|by left].
  - apply wp_mono with (P := kept id); [by apply ErrorResponse_wp|by left].
  - by right.
Qed.

Lemma AppendOpt_wp w ext e : reply_to id w → wp (reply_to id) (AppendOpt w ext e).
Proof.
  intros Hw. unfold AppendOpt. cbv zeta. set (rd := match e with Some _ => _ | None => [] end).
  set (out := if too_long (length rd) then _ else _).
  assert (Ho : reply_to id out).
  { unfold out. destruct (too_long _); [|apply reply_to_app]; by apply reply_to_16, reply_to_32, reply_to_16, reply_to_16, reply_to_app. }
  pose proof (proj1 Ho). destruct (_ <=? _); [|done]. rewrite load_n_Done, bind_done by lia.
  apply reply_to_write; [done|lia..].
Qed.

Lemma BADVERS_wp out e : wp (kept id) (BADVERS p_Packet out e).
Proof. unfold BADVERS. start_step; [|done]. eapply wp_bind; [by apply AppendOpt_wp|]. done. Qed.

Lemma FORMERR_OPT_wp out e : wp (kept id) (FORMERR_OPT p_Packet out e).
Proof.
  unfold FORMERR_OPT. eapply wp_bind; [apply FORMERR_wp|]. intros [r w] Hw. destruct (_ =? _)%Z; [|done].
  eapply wp_bind; [by apply AppendOpt_wp|]. done.
Qed.

End safety.
