(* ===== verification/Doh.v ===== *)
(** * The DNS-over-HTTPS client (src/include/dns_over_https.h, src/src/dns_over_https.cc)

    The client tries the configured resolvers one after the other within a time
    budget.  libcurl and the clock are parameters, an interface ([Curl]) over the
    state [W] of the outside world, which every call threads; what the program
    relies on of libcurl is [CurlLaws] (how it uses the write callback) and
    [CurlProgress] (a transfer ends at its time limit).  The order of the resolvers, shuffled at
    random, is an argument of [Resolve]; the table of the character codes and the
    encoding of GET queries are the program's own. *)

From Stdlib Require Import ZArith Lia ZifyBool.
From Stdlib Require Import Strings.Byte Strings.String.
From stdpp Require Import base numbers list option sorting.
From S2P Require Import Prelude.
From S2P Require Import Memory.
From S2P Require Import Text.

Inductive ResolveResult : Type :=
  | Success | InvalidInput | CurlError | BadRequest | PayloadTooLarge | UnsupportedMediaType
  | TooManyRequests | InternalServerError | NotImplemented | BadGateway | GatewayTimeout | UnknownHttpError.

#[export] Instance ResolveResult_eq_dec : EqDecision ResolveResult.
Proof. solve_decision. Defined.

Inductive HttpMethod : Type := POST | GET.

#[export] Instance HttpMethod_eq_dec : EqDecision HttpMethod.
Proof. solve_decision. Defined.

Definition MAX_DOH_RESPONSE_SIZE : Z := 65535.
Definition SIZE_MAX : Z := 18446744073709551615.
Definition u64 (z : Z) : Z := (z mod 18446744073709551616)%Z.

Section codes.
Local Open Scope Z_scope.

Definition IsRetryable (p_Result : ResolveResult) : bool :=
  match p_Result with
  | CurlError | InternalServerError | BadGateway | GatewayTimeout | TooManyRequests => true
  | _ => false
  end.

Definition HttpCodeToResult (p_HttpCode : Z) : ResolveResult :=
  if p_HttpCode =? 200 then Success
  else if p_HttpCode =? 400 then BadRequest
  else if p_HttpCode =? 413 then PayloadTooLarge
  else if p_HttpCode =? 415 then UnsupportedMediaType
  else if p_HttpCode =? 429 then TooManyRequests
  else if p_HttpCode =? 500 then InternalServerError
  else if p_HttpCode =? 501 then NotImplemented
  else if p_HttpCode =? 502 then BadGateway
  else if p_HttpCode =? 504 then GatewayTimeout
  else UnknownHttpError.
End codes.

(** ** The query in a URL *)

Section base64.
Local Open Scope Z_scope.

Definition s_Table : bytes := str "ABCDEFGHIJKLMNOPQRSTUVWXYZabcdefghijklmnopqrstuvwxyz0123456789-_".

Definition table_char (z : Z) : byte := nth (Z.to_nat (Z.land z 0x3F)) s_Table x00.

(** One iteration per three bytes; the last may have fewer. *)
Fixpoint Base64UrlEncode (p_Data : bytes) : bytes :=
  match p_Data with
  | [] => []
  | [a] =>
      let s_N := Z.shiftl (u8 a) 16 in
      [table_char (Z.shiftr s_N 18); table_char (Z.shiftr s_N 12)]
  | [a; b] =>
      let s_N := Z.lor (Z.shiftl (u8 a) 16) (Z.shiftl (u8 b) 8) in
      [table_char (Z.shiftr s_N 18); table_char (Z.shiftr s_N 12); table_char (Z.shiftr s_N 6)]
  | a :: b :: c :: p_Data =>
      let s_N := Z.lor (Z.lor (Z.shiftl (u8 a) 16) (Z.shiftl (u8 b) 8)) (u8 c) in
      table_char (Z.shiftr s_N 18) :: table_char (Z.shiftr s_N 12) :: table_char (Z.shiftr s_N 6)
      :: table_char s_N :: Base64UrlEncode p_Data
  end.

(** RFC 4648, section 5, read back: the value of a character, and of a text without
    padding, whose unused bits must be zero. *)
Definition url_value (c : byte) : option Z :=
  let z := u8 c in
  if (65 <=? z) && (z <=? 90) then Some (z - 65)
  else if (97 <=? z) && (z <=? 122) then Some (z - 71)
  else if (48 <=? z) && (z <=? 57) then Some (z + 4)
  else if z =? 45 then Some 62
  else if z =? 95 then Some 63
  else None.

Fixpoint url_decode (s : bytes) : option bytes :=
  match s with
  | [] => Some []
  | [x; y] =>
      x ← url_value x; y ← url_value y;
      let n := x * 64 + y in
      if n mod 16 =? 0 then Some [ch (n / 16)] else None
  | [x; y; z] =>
      x ← url_value x; y ← url_value y; z ← url_value z;
      let n := (x * 64 + y) * 64 + z in
      if n mod 4 =? 0 then Some [ch (n / 1024); ch (n / 4)] else None
  | x :: y :: z :: t :: s =>
      x ← url_value x; y ← url_value y; z ← url_value z; t ← url_value t;
      let n := ((x * 64 + y) * 64 + z) * 64 + t in
      rest ← url_decode s;
      Some (ch (n / 65536) :: ch (n / 256) :: ch n :: rest)
  | _ => None
  end.

Definition table_ok (z : Z) : bool := bool_decide (url_value (table_char z) = Some z).

Lemma table_value z : 0 ≤ z < 64 → url_value (table_char z) = Some z.
Proof.
  intros Hz. assert (E : table_ok z = true).
  { apply (forall_bits_spec 6); [|simpl; lia]. by vm_compute. }
  by apply bool_decide_eq_true_1 in E.
Qed.

Lemma table_char_mod z : table_char z = table_char (z mod 64).
Proof.
  unfold table_char. change 63 with (Z.ones 6). rewrite !Z.land_ones by lia.
  change (2 ^ 6) with 64. by rewrite Z.mod_mod.
Qed.

Lemma table_digit n k : 0 ≤ k → url_value (table_char (Z.shiftr n k)) = Some (n / 2 ^ k mod 64).
Proof.
  intros Hk. rewrite table_char_mod, Z.shiftr_div_pow2 by done. apply table_value. apply Z.mod_pos_bound. lia.
Qed.

Lemma word_3 a b c :
  Z.lor (Z.lor (Z.shiftl (u8 a) 16) (Z.shiftl (u8 b) 8)) (u8 c) = u8 a * 65536 + u8 b * 256 + u8 c.
Proof.
  pose proof (u8_range a); pose proof (u8_range b); pose proof (u8_range c).
  rewrite <- Z.lor_assoc, (lor_shiftl (u8 b) (u8 c) 8) by (simpl; lia).
  rewrite (lor_shiftl (u8 a) _ 16) by (simpl; lia). simpl. lia.
Qed.

Lemma word_2 a b : Z.lor (Z.shiftl (u8 a) 16) (Z.shiftl (u8 b) 8) = u8 a * 65536 + u8 b * 256.
Proof. pose proof (word_3 a b x00) as E. rewrite Z.lor_0_r in E. rewrite E. change (u8 x00) with 0. lia. Qed.

Lemma word_1 a : Z.shiftl (u8 a) 16 = u8 a * 65536.
Proof. by rewrite Z.shiftl_mul_pow2. Qed.

Lemma url_decode_4 x y z t s :
  url_decode (x :: y :: z :: t :: s) =
    (x ← url_value x; y ← url_value y; z ← url_value z; t ← url_value t;
     let n := ((x * 64 + y) * 64 + z) * 64 + t in
     rest ← url_decode s; Some (ch (n / 65536) :: ch (n / 256) :: ch n :: rest)).
Proof. reflexivity. Qed.

#[local] Ltac div_lia := Z.to_euclidean_division_equations; lia.

(** Three bytes are four digits. *)
Lemma digits_word n :
  0 ≤ n < 16777216 →
  (((n / 2 ^ 18 mod 64) * 64 + n / 2 ^ 12 mod 64) * 64 + n / 2 ^ 6 mod 64) * 64 + n / 2 ^ 0 mod 64 = n.
Proof.
  change (2 ^ 18) with 262144. change (2 ^ 12) with 4096. change (2 ^ 6) with 64. change (2 ^ 0) with 1.
  intros Hn. rewrite Z.div_1_r. div_lia.
Qed.

Lemma decode_encode n : ∀ d, (length d < n)%nat → url_decode (Base64UrlEncode d) = Some d.
Proof.
  induction n as [|n IH]; intros d Hn; [lia|].
  destruct d as [|a [|b [|c d]]]; [done| | |]; simpl in Hn.
  - pose proof (u8_range a). cbn [Base64UrlEncode]. cbv zeta. rewrite word_1. cbn [url_decode].
    rewrite !table_digit by lia. cbn [mbind option_bind]. cbv zeta.
    change (2 ^ 18) with 262144. change (2 ^ 12) with 4096.
    assert (E : u8 a * 65536 / 262144 mod 64 * 64 + u8 a * 65536 / 4096 mod 64 = u8 a * 16) by div_lia.
    rewrite E, Z.mod_mul, Z.div_mul by lia. cbn [Z.eqb]. by rewrite ch_u8.
  - pose proof (u8_range a). pose proof (u8_range b). cbn [Base64UrlEncode]. cbv zeta. rewrite word_2.
    cbn [url_decode]. rewrite !table_digit by lia. cbn [mbind option_bind]. cbv zeta.
    change (2 ^ 18) with 262144. change (2 ^ 12) with 4096. change (2 ^ 6) with 64.
    set (w := u8 a * 65536 + u8 b * 256).
    assert (E : (w / 262144 mod 64 * 64 + w / 4096 mod 64) * 64 + w / 64 mod 64 = (u8 a * 256 + u8 b) * 4).
    { unfold w. div_lia. }
    rewrite E, Z.mod_mul, Z.div_mul by lia. cbn [Z.eqb].
    f_equal. f_equal; [|f_equal]; apply u8_inj; rewrite u8_ch; div_lia.
  - pose proof (u8_range a). pose proof (u8_range b). pose proof (u8_range c). cbn [Base64UrlEncode]. cbv zeta.
    rewrite word_3. set (w := u8 a * 65536 + u8 b * 256 + u8 c).
    rewrite <- (Z.shiftr_0_r w) at 4. rewrite url_decode_4, !table_digit by lia. cbn [mbind option_bind]. cbv zeta.
    rewrite digits_word by (unfold w; lia). rewrite IH by lia. cbn [mbind option_bind].
    unfold w. f_equal. f_equal; [|f_equal; [|f_equal]]; apply u8_inj; rewrite u8_ch; div_lia.
Qed.
End base64.

(** ** Collecting the body *)

Record CurlResponse : Type := { memory : option bytes; size : Z }.

Definition empty_response : CurlResponse := {| memory := None; size := 0 |}.

Section callback.
Local Open Scope Z_scope.

(** [std::realloc]: [None] when it fails; the bytes it adds are indeterminate (zero
    here) and are all written below before anything reads them. *)
Definition realloc (ok : bool) (p_Memory : option bytes) (p_Size : nat) : option bytes :=
  let m := default [] p_Memory in
  if ok then Some (take p_Size m ++ repeat x00 (p_Size - length m)) else None.

(** The result, 0 for an error, and the response after the call. *)
Definition WriteCallback (ok : bool) (p_Pointer : bytes) (p_Size p_DataSize : Z) (s_Response : CurlResponse)
    : outcome (Z * CurlResponse) :=
  if (0 <? p_Size) && (SIZE_MAX / p_Size <? p_DataSize) then Done (0, s_Response) else
  let s_RealSize := u64 (p_Size * p_DataSize) in
  if MAX_DOH_RESPONSE_SIZE <? u64 (size s_Response + s_RealSize) then Done (0, s_Response) else
  if u64 (u64 (SIZE_MAX - s_RealSize) - 1) <? size s_Response then Done (0, s_Response) else
  match realloc ok (memory s_Response) (Z.to_nat (u64 (u64 (size s_Response + s_RealSize) + 1))) with
  | None => Done (0, s_Response)
  | Some s_NewMemory =>
      bs ← load_n p_Pointer 0 (Z.to_nat s_RealSize);
      s_NewMemory ← store_n s_NewMemory (Z.to_nat (size s_Response)) bs;
      let s_Size := u64 (size s_Response + s_RealSize) in
      s_NewMemory ← store_n s_NewMemory (Z.to_nat s_Size) [x00];
      Done (s_RealSize, {| memory := Some s_NewMemory; size := s_Size |})
  end.

(** What the client knows of the response: it holds a body, within the limit. *)
Definition holds (body : bytes) (r : CurlResponse) : Prop :=
  size r = Z.of_nat (length body) ∧ Z.of_nat (length body) <= MAX_DOH_RESPONSE_SIZE ∧
  (memory r = Some (body ++ [x00]) ∨ memory r = None ∧ body = []).

Lemma empty_holds : holds [] empty_response.
Proof. split_and!; [done|done|by right]. Qed.

(** A chunk of data in memory, as the callback is called with it. *)
Record chunk : Type := { c_alloc : bool; c_Size : Z; c_DataSize : Z; c_data : bytes }.

Definition chunk_ok (c : chunk) : Prop :=
  0 <= c_Size c ∧ 0 <= c_DataSize c ∧ c_Size c * c_DataSize c = Z.of_nat (length (c_data c)) ∧
  Z.of_nat (length (c_data c)) < SIZE_MAX.

Definition call (c : chunk) (r : CurlResponse) : outcome (Z * CurlResponse) :=
  WriteCallback (c_alloc c) (c_data c) (c_Size c) (c_DataSize c) r.

Lemma u64_small z : 0 <= z < 18446744073709551616 → u64 z = z.
Proof. apply Z.mod_small. Qed.

(** Whether the chunk is taken. *)
Definition fits (c : chunk) (body : bytes) : bool :=
  (Z.of_nat (length body) + Z.of_nat (length (c_data c)) <=? MAX_DOH_RESPONSE_SIZE) && c_alloc c.

Lemma call_spec c r body :
  chunk_ok c → holds body r →
  ∃ r', call c r = Done (if fits c body then Z.of_nat (length (c_data c)) else 0, r') ∧
    holds (if fits c body then body ++ c_data c else body) r'.
Proof.
  intros (H1 & H2 & Hl & Hm) Hh. pose proof Hh as (Hs & Hb & Hmem). unfold call, WriteCallback, fits.
  unfold MAX_DOH_RESPONSE_SIZE, SIZE_MAX in *. set (n := Z.of_nat (length (c_data c))) in *.
  destruct c as [ok a b data]. cbn [c_alloc c_Size c_DataSize c_data] in *.
  assert (E0 : (0 <? a) && (18446744073709551615 / a <? b) = false).
  { apply andb_false_iff. destruct (Z.ltb_spec 0 a); [right|by left]. apply Z.ltb_ge.
    apply Z.div_le_lower_bound; lia. }
  rewrite E0, Hl, Hs, (u64_small n) by lia. cbv zeta.
  set (m := Z.of_nat (length body)) in *.
  rewrite (u64_small (18446744073709551615 - n)), (u64_small (18446744073709551615 - n - 1)) by lia.
  destruct (Z.leb_spec (m + n) 65535) as [Hfit|Hbig]; cbn [andb].
  - rewrite (u64_small (m + n)), (u64_small (m + n + 1)) by lia.
    destruct (Z.ltb_spec 65535 (m + n)); [lia|].
    destruct (Z.ltb_spec (18446744073709551615 - n - 1) m); [lia|].
    destruct ok; [|by exists r].
    replace (Z.to_nat (m + n + 1)) with (S (length (body ++ data))) by (rewrite length_app; lia).
    replace (Z.to_nat n) with (length data) by lia. replace (Z.to_nat m) with (length body) by lia.
    replace (Z.to_nat (m + n)) with (length (body ++ data)) by (rewrite length_app; lia).
    assert (Er : ∃ t, length t = S (length data) ∧
      take (S (length (body ++ data))) (default [] (memory r))
        ++ repeat x00 (S (length (body ++ data)) - length (default [] (memory r))) = body ++ t).
    { destruct Hmem as [E|[E ->]]; rewrite E; cbn [default from_option id].
      - exists (x00 :: repeat x00 (S (length (body ++ data)) - length (body ++ [x00]))).
        rewrite take_ge by (rewrite !length_app; simpl; lia). rewrite <- app_assoc. split; [|done].
        simpl. rewrite repeat_length, !length_app. simpl. lia.
      - exists (repeat x00 (S (length data))). by rewrite repeat_length. }
    destruct Er as (t & Ht & Er). unfold realloc. rewrite Er.
    rewrite load_n_Done, bind_done, drop_0, take_ge by (simpl; lia).
    rewrite store_n_Done, bind_done by (rewrite !length_app; lia).
    assert (E1 : splice (body ++ t) (length body) data = (body ++ data) ++ drop (length data) t).
    { unfold splice. rewrite take_app_length, drop_app_add, <- app_assoc. done. }
    rewrite E1. assert (Hd : length (drop (length data) t) = 1%nat) by (rewrite length_drop; lia).
    rewrite store_n_Done, bind_done by (rewrite !length_app, Hd; simpl; lia).
    eexists. split; [done|]. split_and!; cbn [size memory].
    + rewrite length_app, Nat2Z.inj_add. unfold m, n in *. unfold MAX_DOH_RESPONSE_SIZE. lia.
    + rewrite length_app, Nat2Z.inj_add. unfold m, n in *. unfold MAX_DOH_RESPONSE_SIZE. lia.
    + left. f_equal. unfold splice. rewrite take_app_length. f_equal. rewrite drop_ge; [by rewrite app_nil_r|].
      rewrite !length_app, Hd. simpl. lia.
  - exists r. split; [|done]. destruct (Z.lt_ge_cases (m + n) 18446744073709551616).
    + rewrite (u64_small (m + n)) by lia. destruct (Z.ltb_spec 65535 (m + n)); [done|lia].
    + destruct (65535 <? u64 (m + n)); [done|].
      destruct (Z.ltb_spec (18446744073709551615 - n - 1) m); [done|lia].
Qed.
End callback.

(** ** libcurl *)

(** The options a transfer is set up with; those that are constant are left out. *)
Record EasyHandle : Type := {
  e_Url : bytes;
  e_Useragent : bytes;
  e_Timeout : Z;
  e_ConnectTimeout : Z;
  e_CaInfo : option bytes;
  e_Post : option bytes
}.

(** [CURLMSG_DONE] and the transfer's code, or another message. *)
Inductive CurlMsg : Type := MsgDone (ok : bool) | MsgOther.

(** The calls, over the state of the outside world.  [curl_multi_perform] is given the
    write callback and the response it writes to; it reports whether it succeeded and
    whether the transfer is still running. *)
Class Curl (W : Type) := {
  steady_now : W → Z * W;
  curl_easy_init : W → bool * W;
  curl_multi_add_handle : EasyHandle → W → bool * W;
  curl_multi_perform : (chunk → CurlResponse → outcome (Z * CurlResponse)) → CurlResponse → W →
    outcome (bool * bool * CurlResponse * W);
  curl_multi_wait : W → bool * W;
  curl_multi_info_read : W → option CurlMsg * W;
  response_code : W → Z;
  curl_multi_remove_handle : W → W
}.

(** The callback called on several chunks, in order. *)
Fixpoint deliver (cb : chunk → CurlResponse → outcome (Z * CurlResponse)) (cs : list chunk)
    (r : CurlResponse) : outcome CurlResponse :=
  match cs with
  | [] => Done r
  | c :: cs => '(_, r) ← cb c r; deliver cb cs r
  end.

(** libcurl's documented use of the callback: [curl_multi_perform] changes the response
    only by calling it, with data that is in memory. *)
Class CurlLaws (W : Type) `{Curl W} := {
  perform_delivers cb r w :
    ∃ cs ok running w', Forall chunk_ok cs ∧
      curl_multi_perform cb r w = (r ← deliver cb cs r; Done (ok, running, r, w'))
}.

(** libcurl's time limit, as documented: a handle's CURLOPT_TIMEOUT, in seconds, counts from
    when the handle is added, 0 means that there is no limit, and a transfer past its limit
    is over (it fails).  [clock] is the time, in nanoseconds, and every successful wait takes
    some; [deadline] is the limit of the transfer under way.  The messages read after a
    transfer are finitely many. *)
Class CurlProgress (W : Type) `{Curl W} := {
  clock : W → Z;
  deadline : W → option Z;
  messages : W → nat;
  add_handle_deadline e w w' :
    curl_multi_add_handle e w = (true, w') →
    deadline w' = if (0 <? e_Timeout e)%Z then Some (clock w' + e_Timeout e * 1000000000)%Z else None;
  perform_deadline cb r w ok running r' w' :
    curl_multi_perform cb r w = Done (ok, running, r', w') →
    deadline w' = deadline w ∧ (clock w ≤ clock w')%Z ∧
    (ok = true → ∀ d, deadline w = Some d → (d ≤ clock w)%Z → running = false);
  wait_clock w w' :
    curl_multi_wait w = (true, w') → deadline w' = deadline w ∧ (clock w < clock w')%Z;
  info_read_progress w m w' : curl_multi_info_read w = (Some m, w') → messages w' < messages w
}.

(** ** The client *)

Record DnsOverHttps : Type := {
  m_Resolvers_ : list bytes;
  m_Useragent_ : bytes;
  m_HttpMethod_ : HttpMethod;
  m_CacertPath_ : bytes;
  m_DohTimeoutMs_ : Z;
  m_MultiHandle_ : bool
}.

Section client.
Local Open Scope Z_scope.
Implicit Types (c : DnsOverHttps).

Definition with_Useragent (u : bytes) c : DnsOverHttps :=
  {| m_Resolvers_ := m_Resolvers_ c; m_Useragent_ := u; m_HttpMethod_ := m_HttpMethod_ c;
     m_CacertPath_ := m_CacertPath_ c; m_DohTimeoutMs_ := m_DohTimeoutMs_ c; m_MultiHandle_ := m_MultiHandle_ c |}.
Definition with_Resolvers (rs : list bytes) c : DnsOverHttps :=
  {| m_Resolvers_ := rs; m_Useragent_ := m_Useragent_ c; m_HttpMethod_ := m_HttpMethod_ c;
     m_CacertPath_ := m_CacertPath_ c; m_DohTimeoutMs_ := m_DohTimeoutMs_ c; m_MultiHandle_ := m_MultiHandle_ c |}.
Definition with_CacertPath (p : bytes) c : DnsOverHttps :=
  {| m_Resolvers_ := m_Resolvers_ c; m_Useragent_ := m_Useragent_ c; m_HttpMethod_ := m_HttpMethod_ c;
     m_CacertPath_ := p; m_DohTimeoutMs_ := m_DohTimeoutMs_ c; m_MultiHandle_ := m_MultiHandle_ c |}.

(** The members before the constructor's body runs. *)
Definition initial : DnsOverHttps :=
  {| m_Resolvers_ := []; m_Useragent_ := []; m_HttpMethod_ := POST; m_CacertPath_ := [];
     m_DohTimeoutMs_ := 15000; m_MultiHandle_ := false |}.

Definition Useragent (p_Useragent : bytes) c : outcome DnsOverHttps :=
  if bool_decide (p_Useragent = []) then Throw InvalidArgument else Done (with_Useragent p_Useragent c).

Definition Resolvers (p_Resolvers : list bytes) c : outcome DnsOverHttps :=
  if bool_decide (p_Resolvers = []) then Throw InvalidArgument else Done (with_Resolvers p_Resolvers c).

Definition Method (p_Method : HttpMethod) c : DnsOverHttps :=
  {| m_Resolvers_ := m_Resolvers_ c; m_Useragent_ := m_Useragent_ c; m_HttpMethod_ := p_Method;
     m_CacertPath_ := m_CacertPath_ c; m_DohTimeoutMs_ := m_DohTimeoutMs_ c; m_MultiHandle_ := m_MultiHandle_ c |}.

Definition DohTimeoutMs (p_TimeoutMs : Z) c : DnsOverHttps :=
  let p_TimeoutMs := if p_TimeoutMs <? 100 then 100 else p_TimeoutMs in
  let p_TimeoutMs := if 60000 <? p_TimeoutMs then 60000 else p_TimeoutMs in
  {| m_Resolvers_ := m_Resolvers_ c; m_Useragent_ := m_Useragent_ c; m_HttpMethod_ := m_HttpMethod_ c;
     m_CacertPath_ := m_CacertPath_ c; m_DohTimeoutMs_ := p_TimeoutMs; m_MultiHandle_ := m_MultiHandle_ c |}.

(** Whether the file can be opened is an argument. *)
Definition CacertPath (opens : bool) (p_Path : bytes) c : DnsOverHttps :=
  if bool_decide (p_Path = []) then with_CacertPath [] c else
  if bool_decide (p_Path = m_CacertPath_ c) then c else
  if negb opens then with_CacertPath [] c else with_CacertPath p_Path c.

Definition InitMultiHandle (init_ok post_ok get_ok : bool) c : outcome DnsOverHttps :=
  if init_ok && post_ok && get_ok then
    Done {| m_Resolvers_ := m_Resolvers_ c; m_Useragent_ := m_Useragent_ c; m_HttpMethod_ := m_HttpMethod_ c;
            m_CacertPath_ := m_CacertPath_ c; m_DohTimeoutMs_ := m_DohTimeoutMs_ c; m_MultiHandle_ := true |}
  else Throw RuntimeError.

(** The constructor: [global_ok] is the result of libcurl's initialization. *)
Definition construct (global_ok opens init_ok post_ok get_ok : bool) (p_Useragent : bytes)
    (p_Resolvers : list bytes) (p_CacertPath : bytes) (p_DohTimeoutMs : Z) : outcome DnsOverHttps :=
  if negb global_ok then Throw RuntimeError else
  c ← Useragent p_Useragent initial;
  c ← Resolvers p_Resolvers c;
  let c := DohTimeoutMs p_DohTimeoutMs c in
  let c := if bool_decide (p_CacertPath = []) then c else CacertPath opens p_CacertPath c in
  InitMultiHandle init_ok post_ok get_ok c.
End client.

(** ** Transfers *)

Section transfers.
  Context {W : Type} `{Curl W}.
Local Open Scope Z_scope.
Implicit Types (c : DnsOverHttps) (w : W) (r s_Buffer : CurlResponse) (p_Data p_Output : bytes).

Definition CreateEasyHandle c (p_Url p_Data : bytes) (p_DataLen : nat) (p_TimeoutMs : Z) w
    : option EasyHandle * W :=
  let '(ok, w) := curl_easy_init w in
  if negb ok then (None, w) else
  let s_TimeoutSec := Z.max 1 (p_TimeoutMs / 1000) in
  let s_ConnectTimeoutSec := Z.max 1 (Z.min 5 (s_TimeoutSec / 2)) in
  (Some {| e_Url := p_Url; e_Useragent := m_Useragent_ c; e_Timeout := s_TimeoutSec;
           e_ConnectTimeout := s_ConnectTimeoutSec;
           e_CaInfo := if bool_decide (m_CacertPath_ c = []) then None else Some (m_CacertPath_ c);
           e_Post := match m_HttpMethod_ c with POST => Some (take p_DataLen p_Data) | GET => None end |}, w).

(** The transfer loop: the call that failed, or the end of the transfer. *)
Fixpoint perform_loop (fuel : nat) s_Buffer w : outcome (bool * CurlResponse * W) :=
  match fuel with
  | O => Unfinished
  | S fuel =>
      '(ok, s_StillRunning, s_Buffer, w) ← curl_multi_perform call s_Buffer w;
      if negb ok then Done (false, s_Buffer, w)
      else if negb s_StillRunning then Done (true, s_Buffer, w)
      else
        let '(ok, w) := curl_multi_wait w in
        if negb ok then Done (false, s_Buffer, w) else perform_loop fuel s_Buffer w
  end.

(** The last message that ends a transfer gives the result. *)
Fixpoint read_loop (fuel : nat) (s_Result : ResolveResult) w : outcome (ResolveResult * W) :=
  match fuel with
  | O => Unfinished
  | S fuel =>
      match curl_multi_info_read w with
      | (None, w) => Done (s_Result, w)
      | (Some MsgOther, w) => read_loop fuel s_Result w
      | (Some (MsgDone ok), w) =>
          read_loop fuel (if ok then HttpCodeToResult (response_code w) else CurlError) w
      end
  end.

Definition PerformSingleTransfer (fuel : nat) (p_Easy : EasyHandle) s_Buffer w
    : outcome (ResolveResult * CurlResponse * W) :=
  let '(ok, w) := curl_multi_add_handle p_Easy w in
  if negb ok then Done (CurlError, s_Buffer, w) else
  '(ok, s_Buffer, w) ← perform_loop fuel s_Buffer w;
  if negb ok then Done (CurlError, s_Buffer, curl_multi_remove_handle w) else
  '(s_Result, w) ← read_loop fuel CurlError w;
  Done (s_Result, s_Buffer, curl_multi_remove_handle w).

Definition query_url c (s_ResolverUrl s_Base64Query : bytes) : bytes :=
  match m_HttpMethod_ c with
  | GET => (s_ResolverUrl ++ (if bool_decide ("?"%byte ∈ s_ResolverUrl) then str "&dns=" else str "?dns="))
             ++ s_Base64Query
  | POST => s_ResolverUrl
  end.

(** The loop over the resolvers: the result so far, and what to return. *)
Fixpoint resolve_loop (fuel : nat) c (s_Resolvers : list bytes) (s_LastResult : ResolveResult)
    (s_StartTime : Z) p_Data (p_DataLength : nat) (s_Base64Query : bytes) p_Output w
    : outcome (ResolveResult * bytes * W) :=
  match s_Resolvers with
  | [] => Done (s_LastResult, p_Output, w)
  | s_ResolverUrl :: s_Resolvers =>
      let '(now, w) := steady_now w in
      let s_RemainingMs := m_DohTimeoutMs_ c - (now - s_StartTime) in
      if s_RemainingMs <=? 0 then Done (s_LastResult, p_Output, w) else
      let s_Url := query_url c s_ResolverUrl s_Base64Query in
      let '(s_Easy, w) := CreateEasyHandle c s_Url p_Data p_DataLength s_RemainingMs w in
      match s_Easy with
      | None => resolve_loop fuel c s_Resolvers s_LastResult s_StartTime p_Data p_DataLength s_Base64Query p_Output w
      | Some s_Easy =>
          '(s_Result, s_Buffer, w) ← PerformSingleTransfer fuel s_Easy empty_response w;
          if bool_decide (s_Result = Success) then
            let p_Output :=
              match memory s_Buffer with
              | Some m => if 0 <? size s_Buffer then take (Z.to_nat (size s_Buffer)) m else p_Output
              | None => p_Output
              end in
            Done (Success, p_Output, w)
          else if negb (IsRetryable s_Result) then Done (s_Result, p_Output, w)
          else resolve_loop fuel c s_Resolvers s_Result s_StartTime p_Data p_DataLength s_Base64Query p_Output w
      end
  end.

(** [s_Resolvers] is the shuffled list; [fuel] bounds the loops of each transfer. *)
Definition Resolve (fuel : nat) c (s_Resolvers : list bytes) (p_Data : option bytes) (p_DataLength : nat)
    p_Output w : outcome (ResolveResult * bytes * W) :=
  match p_Data with
  | None => Done (InvalidInput, p_Output, w)
  | Some p_Data =>
      if (p_DataLength =? 0)%nat then Done (InvalidInput, p_Output, w) else
      if negb (m_MultiHandle_ c) then Done (CurlError, p_Output, w) else
      s_Base64Query ← match m_HttpMethod_ c with
                      | GET => d ← load_n p_Data 0 p_DataLength; Done (Base64UrlEncode d)
                      | POST => Done []
                      end;
      let '(s_StartTime, w) := steady_now w in
      resolve_loop fuel c s_Resolvers CurlError s_StartTime p_Data p_DataLength s_Base64Query p_Output w
  end.
End transfers.

(** ** Properties *)

(** The body after a sequence of chunks: those that fit, in order. *)
Definition taken (cs : list chunk) (body : bytes) : bytes :=
  fold_left (λ body c, if fits c body then body ++ c_data c else body) cs body.

Lemma deliver_spec cs : ∀ r body,
  Forall chunk_ok cs → holds body r → ∃ r', deliver call cs r = Done r' ∧ holds (taken cs body) r'.
Proof.
  induction cs as [|c cs IH]; intros r body Hcs Hh; [by exists r|].
  apply Forall_cons in Hcs as [Hc Hcs]. destruct (call_spec c r body Hc Hh) as (r1 & E & Hr1).
  cbn [deliver]. rewrite E, bind_done. by apply IH.
Qed.

(** C32: the write callback collects the chunks libcurl delivers, dropping (and
    reporting as errors) those that would take the body past 65535 bytes and those for
    which there is no memory; the buffer holds exactly the collected body and a
    terminator, and no access leaves it, whatever the sizes passed. *)
Theorem WriteCallback_bounded cs :
  Forall chunk_ok cs →
  ∃ r, deliver call cs empty_response = Done r ∧ holds (taken cs []) r ∧
    (Z.of_nat (length (taken cs [])) ≤ MAX_DOH_RESPONSE_SIZE)%Z ∧
    (∀ c, chunk_ok c →
       ∃ r', call c r = Done (if fits c (taken cs []) then Z.of_nat (length (c_data c)) else 0%Z, r')).
Proof.
  intros Hcs. destruct (deliver_spec cs empty_response [] Hcs empty_holds) as (r & E & Hr).
  exists r. split_and!; [done|apply Hr..|]. intros c Hc.
  destruct (call_spec c r _ Hc Hr) as (r' & -> & _). by exists r'.
Qed.

(** Decoding the GET encoding of a query gives the query back, and the encoding has
    no padding: four characters of the URL-safe alphabet for three bytes. *)
Theorem Base64UrlEncode_roundtrip d :
  url_decode (Base64UrlEncode d) = Some d ∧
  Forall (λ c, is_Some (url_value c)) (Base64UrlEncode d) ∧
  length (Base64UrlEncode d) = (4 * length d + 2) `div` 3.
Proof.
  split; [apply (decode_encode (S (length d))); lia|].
  assert (Hc : ∀ z, is_Some (url_value (table_char z))).
  { intros z. rewrite table_char_mod, table_value by (apply Z.mod_pos_bound; lia). done. }
  assert (Hl : ∀ n d, length d < n → Forall (λ c, is_Some (url_value c)) (Base64UrlEncode d) ∧
            3 * length (Base64UrlEncode d) = 4 * length d + (3 - length d `mod` 3) `mod` 3).
  { clear d. induction n as [|n IH]; intros d Hn; [lia|].
    destruct d as [|a [|b [|c d]]]; [by split; [constructor|]|..].
    - split; [repeat (constructor; [apply Hc|]); constructor|done].
    - split; [repeat (constructor; [apply Hc|]); constructor|done].
    - simpl in Hn. destruct (IH d) as [Hf E]; [lia|]. cbn [Base64UrlEncode length]. split.
      + by repeat (constructor; [apply Hc|]).
      + replace (S (S (S (length d))) `mod` 3) with (length d `mod` 3); [lia|].
        replace (S (S (S (length d)))) with (length d + 1 * 3) by lia. by rewrite Nat.Div0.mod_add. }
  destruct (Hl (S (length d)) d) as [Hf E]; [lia|]. split; [done|].
  apply (Nat.div_unique _ _ _ (2 - (3 - length d `mod` 3) `mod` 3));
    pose proof (Nat.mod_upper_bound (3 - length d `mod` 3) 3); lia.
Qed.

(** A client that can resolve. *)
Definition client_ok (c : DnsOverHttps) : Prop :=
  m_Resolvers_ c ≠ [] ∧ m_Useragent_ c ≠ [] ∧ (100 ≤ m_DohTimeoutMs_ c ≤ 60000)%Z ∧ m_MultiHandle_ c = true.

Lemma DohTimeoutMs_range z c : (100 ≤ m_DohTimeoutMs_ (DohTimeoutMs z c) ≤ 60000)%Z.
Proof.
  unfold DohTimeoutMs. cbn [m_DohTimeoutMs_].
  destruct (Z.ltb_spec z 100); [done|]. destruct (Z.ltb_spec 60000 z); lia.
Qed.

(** C34: constructing a client either throws, exactly when libcurl fails to initialize,
    the user agent or the resolver list is empty or the handle cannot be made, or gives a
    client with resolvers, a user agent, a time budget of 100 ms to 60 s and a handle; no
    setter takes a client out of these types, the two that could throw instead. *)
Theorem client_invariant global_ok opens init_ok post_ok get_ok ua rs ca ms :
  (∀ c, construct global_ok opens init_ok post_ok get_ok ua rs ca ms = Done c → client_ok c) ∧
  (returns (construct global_ok opens init_ok post_ok get_ok ua rs ca ms) ↔
     global_ok && init_ok && post_ok && get_ok = true ∧ ua ≠ [] ∧ rs ≠ []) ∧
  (∀ c, client_ok c →
     (∀ u, Useragent u c = if bool_decide (u = []) then Throw InvalidArgument else Done (with_Useragent u c)) ∧
     (∀ u c', Useragent u c = Done c' → client_ok c') ∧
     (∀ l c', Resolvers l c = Done c' → client_ok c') ∧
     (∀ k, client_ok (Method k c)) ∧ (∀ z, client_ok (DohTimeoutMs z c)) ∧
     (∀ b p, client_ok (CacertPath b p c))).
Proof.
  assert (Hca : ∀ b p c, m_Resolvers_ (CacertPath b p c) = m_Resolvers_ c ∧
    m_Useragent_ (CacertPath b p c) = m_Useragent_ c ∧ m_DohTimeoutMs_ (CacertPath b p c) = m_DohTimeoutMs_ c ∧
    m_MultiHandle_ (CacertPath b p c) = m_MultiHandle_ c).
  { intros b p c. unfold CacertPath. repeat case_bool_decide; try done. by destruct b. }
  split_and!.
  - intros c. unfold construct, Useragent, Resolvers, InitMultiHandle. destruct global_ok; [|done]. cbn [negb].
    destruct (bool_decide_reflect (ua = [])) as [|Hu]; [done|]. rewrite bind_done.
    destruct (bool_decide_reflect (rs = [])) as [|Hr]; [done|]. rewrite bind_done. cbv zeta.
    destruct (init_ok && post_ok && get_ok); [|done].
    intros [= <-]. unfold client_ok. cbn [m_Resolvers_ m_Useragent_ m_DohTimeoutMs_ m_MultiHandle_].
    case_bool_decide; [|destruct (Hca opens ca (DohTimeoutMs ms (with_Resolvers rs (with_Useragent ua initial))))
      as (-> & -> & -> & _)]; split_and!; try done; apply DohTimeoutMs_range.
  - unfold construct, Useragent, Resolvers, InitMultiHandle. split.
    + intros [c E]. destruct global_ok; [|done]. cbn [negb] in E.
      destruct (bool_decide_reflect (ua = [])) as [|Hu]; [done|]. rewrite bind_done in E.
      destruct (bool_decide_reflect (rs = [])) as [|Hr]; [done|]. rewrite bind_done in E. cbv zeta in E.
      by destruct init_ok, post_ok, get_ok.
    + intros (E & Hu & Hr). destruct global_ok, init_ok, post_ok, get_ok; try done. cbn [negb andb].
      rewrite (bool_decide_eq_false_2 (ua = [])), bind_done by done.
      rewrite (bool_decide_eq_false_2 (rs = [])), bind_done by done. by eexists.
  - intros c (Hr & Hu & Ht & Hm). split_and!.
    + done.
    + intros u c'. unfold Useragent. case_bool_decide; [done|]. by intros [= <-].
    + intros l c'. unfold Resolvers. case_bool_decide; [done|]. by intros [= <-].
    + by intros k.
    + intros z. by split_and!; try apply DohTimeoutMs_range.
    + intros b p. unfold client_ok. by destruct (Hca b p c) as (-> & -> & -> & ->).
Qed.

(** ** Resolutions *)

Section resolving.
  Context {W : Type} `{CurlLaws W} `{!CurlProgress W}.
Implicit Types (c : DnsOverHttps) (w : W) (r : CurlResponse) (out query : bytes).

(** *** A transfer *)

(** The calls of [curl_multi_perform] that are left to a transfer with a time limit. *)
Definition patience (d : Z) w : nat := S (Z.to_nat (d - clock w)).

Lemma perform_loop_returns n d : ∀ w r body,
  deadline w = Some d → patience d w ≤ n → holds body r →
  ∃ ok r' w' body', holds body' r' ∧ ∀ k, patience d w ≤ k → perform_loop k r w = Done (ok, r', w').
Proof.
  induction n as [|n IH]; intros w r body Hd Hn Hh; [unfold patience in Hn; lia|].
  destruct (perform_delivers call r w) as (cs & ok & running & w1 & Hcs & E).
  destruct (deliver_spec cs r body Hcs Hh) as (r1 & Ed & Hr1). rewrite Ed, bind_done in E.
  destruct (perform_deadline _ _ _ _ _ _ _ E) as (Hd1 & Hc1 & Hlate).
  assert (Ek : ∀ k, patience d w ≤ k → perform_loop k r w =
    if negb ok then Done (false, r1, w1) else if negb running then Done (true, r1, w1) else
    let '(ok, w2) := curl_multi_wait w1 in if negb ok then Done (false, r1, w2) else perform_loop (pred k) r1 w2).
  { intros [|k] Hk; [unfold patience in Hk; lia|]. cbn [perform_loop]. by rewrite E, bind_done. }
  destruct ok; cbn [negb] in Ek; [|by exists false, r1, w1, (taken cs body)].
  destruct running; cbn [negb] in Ek; [|by exists true, r1, w1, (taken cs body)].
  destruct (curl_multi_wait w1) as [ok w2] eqn:Ew. destruct ok; cbn [negb] in Ek;
    [|by exists false, r1, w2, (taken cs body)].
  destruct (wait_clock _ _ Ew) as [Hd2 Hc2].
  assert (clock w < d)%Z.
  { destruct (Z.lt_ge_cases (clock w) d) as [|Hge]; [done|]. specialize (Hlate eq_refl d Hd Hge). done. }
  assert (patience d w2 < patience d w) by (unfold patience; lia).
  destruct (IH w2 r1 (taken cs body)) as (ok & r' & w' & body' & Hb & Hk); [congruence|lia|done|].
  exists ok, r', w', body'. split; [done|]. intros k Hlt'. rewrite Ek by done. apply Hk. lia.
Qed.

Lemma read_loop_returns n : ∀ w res,
  messages w < n → res ≠ InvalidInput →
  ∃ res' w', res' ≠ InvalidInput ∧ ∀ k, messages w < k → read_loop k res w = Done (res', w').
Proof.
  induction n as [|n IH]; intros w res Hn Hres; [lia|].
  destruct (curl_multi_info_read w) as [m w1] eqn:E.
  assert (Hcode : ∀ z, HttpCodeToResult z ≠ InvalidInput) by (intros z; unfold HttpCodeToResult; by repeat case_match).
  assert (Ek : ∀ k, messages w < k → read_loop k res w =
    match m with
    | None => Done (res, w1) | Some MsgOther => read_loop (pred k) res w1
    | Some (MsgDone ok) => read_loop (pred k) (if ok then HttpCodeToResult (response_code w1) else CurlError) w1
    end).
  { intros [|k] Hk; [lia|]. cbn [read_loop]. rewrite E. by destruct m as [[]|]. }
  destruct m as [m|]; [|by exists res, w1]. pose proof (info_read_progress w m w1 E) as Hlt.
  assert (Hnext : ∃ res1, res1 ≠ InvalidInput ∧ ∀ k, messages w < k → read_loop k res w = read_loop (pred k) res1 w1).
  { destruct m as [ok|]; [|by exists res]. eexists. split; [|exact Ek]. by destruct ok. }
  destruct Hnext as (res1 & Hr1 & Ek1). destruct (IH w1 res1 ltac:(lia) Hr1) as (res' & w' & Hr' & Hk).
  exists res', w'. split; [done|]. intros k Hk'. rewrite Ek1 by done. apply Hk. lia.
Qed.

(** The transfer of a handle ends, with this result, this body and this state of the world. *)
Definition transferred (e : EasyHandle) w (res : ResolveResult) (body : bytes) w' : Prop :=
  res ≠ InvalidInput ∧
  ∃ bound r, holds body r ∧ ∀ k, bound ≤ k → PerformSingleTransfer k e empty_response w = Done (res, r, w').

(** A transfer that has a time limit ends. *)
Lemma transfer_returns e w : (0 < e_Timeout e)%Z → ∃ res body w', transferred e w res body w'.
Proof.
  intros He. unfold transferred, PerformSingleTransfer.
  destruct (curl_multi_add_handle e w) as [ok w0] eqn:Ea. destruct ok; cbn [negb].
  2: { exists CurlError, [], w0. split; [done|]. exists 0, empty_response. by split; [apply empty_holds|]. }
  apply add_handle_deadline in Ea. destruct (Z.ltb_spec 0 (e_Timeout e)); [|lia].
  destruct (perform_loop_returns _ _ w0 empty_response [] Ea (le_n _) empty_holds) as (ok & r' & w1 & body & Hb & Hk).
  destruct (read_loop_returns (S (messages w1)) w1 CurlError ltac:(lia) ltac:(done)) as (res & w2 & Hres & Hk2).
  exists (if ok then res else CurlError), body, (curl_multi_remove_handle (if ok then w2 else w1)).
  split; [by destruct ok|]. eexists (_ + S (messages w1)), r'. split; [done|]. intros k Hbk.
  rewrite Hk, bind_done by exact (Nat.le_trans _ _ _ (Nat.le_add_r _ _) Hbk).
  destruct ok; cbn [negb]; [|done]. by rewrite Hk2, bind_done by lia.
Qed.

(** *** The attempts of a resolution *)

(** The handle asks the resolver [u] the query: in the body of a POST request, in the URL of
    a GET request; its time limit is at least a second, and otherwise within what remains of
    the budget, [rem] milliseconds. *)
Definition asks c query (u : bytes) (rem : Z) (e : EasyHandle) : Prop :=
  match m_HttpMethod_ c with
  | POST => e_Url e = u ∧ e_Post e = Some query
  | GET => e_Post e = None ∧
      ∃ text, url_decode text = Some query ∧
        e_Url e = u ++ (if bool_decide ("?"%byte ∈ u) then str "&dns=" else str "?dns=") ++ text
  end ∧
  e_Useragent e = m_Useragent_ c ∧ (1 ≤ e_Timeout e ∧ e_Timeout e * 1000 ≤ Z.max 1000 rem)%Z.

(** [attempts c query t0 us last w res body w']: a resolution that began at [t0] and whose
    last attempt gave [last] asks the resolvers [us] in this order, as long as the time
    budget lasts and until one of them gives an answer or an error that another resolver
    would give too; it gives [res], the last result, and the answer's body. *)
Inductive attempts c query (t0 : Z) :
    list bytes → ResolveResult → W → ResolveResult → option bytes → W → Prop :=
  | attempts_none last w : attempts c query t0 [] last w last None w
  | attempts_late u us last w now w1 :
      steady_now w = (now, w1) → (m_DohTimeoutMs_ c ≤ now - t0)%Z →
      attempts c query t0 (u :: us) last w last None w1
  | attempts_unable u us last w now w1 w2 res body w' :
      steady_now w = (now, w1) → (now - t0 < m_DohTimeoutMs_ c)%Z → curl_easy_init w1 = (false, w2) →
      attempts c query t0 us last w2 res body w' →
      attempts c query t0 (u :: us) last w res body w'
  | attempts_answer u us last w now w1 w2 e body w' :
      steady_now w = (now, w1) → (now - t0 < m_DohTimeoutMs_ c)%Z → curl_easy_init w1 = (true, w2) →
      asks c query u (m_DohTimeoutMs_ c - (now - t0)) e → transferred e w2 Success body w' →
      attempts c query t0 (u :: us) last w Success (Some body) w'
  | attempts_error u us last w now w1 w2 e res body w' :
      steady_now w = (now, w1) → (now - t0 < m_DohTimeoutMs_ c)%Z → curl_easy_init w1 = (true, w2) →
      asks c query u (m_DohTimeoutMs_ c - (now - t0)) e → transferred e w2 res body w' →
      res ≠ Success → IsRetryable res = false →
      attempts c query t0 (u :: us) last w res None w'
  | attempts_retry u us last w now w1 w2 e res1 body1 w3 res body w' :
      steady_now w = (now, w1) → (now - t0 < m_DohTimeoutMs_ c)%Z → curl_easy_init w1 = (true, w2) →
      asks c query u (m_DohTimeoutMs_ c - (now - t0)) e → transferred e w2 res1 body1 w3 →
      IsRetryable res1 = true → attempts c query t0 us res1 w3 res body w' →
      attempts c query t0 (u :: us) last w res body w'.

(** What a resolution leaves in the output: the body of the answer when there is one. *)
Definition output (body : option bytes) out : bytes :=
  match body with Some (b :: bs) => b :: bs | _ => out end.

(** The query as the client prepares it. *)
Definition encoded c query : bytes :=
  match m_HttpMethod_ c with GET => Base64UrlEncode query | POST => [] end.

Lemma CreateEasyHandle_asks c data n u rem w w' e :
  CreateEasyHandle c (query_url c u (encoded c (take n data))) data n rem w = (Some e, w') →
  curl_easy_init w = (true, w') ∧ asks c (take n data) u rem e ∧ (0 < e_Timeout e)%Z.
Proof.
  unfold CreateEasyHandle. destruct (curl_easy_init w) as [[] w1]; [|done]. intros [= <- <-].
  assert (Ht : (1 ≤ Z.max 1 (rem / 1000) ∧ Z.max 1 (rem / 1000) * 1000 ≤ Z.max 1000 rem)%Z)
    by (pose proof (Z.mul_div_le rem 1000); lia).
  split; [done|]. split; [|cbn [e_Timeout]; lia]. unfold asks, query_url, encoded.
  split; [|by split]. destruct (m_HttpMethod_ c); cbn [e_Post e_Url]; [done|]. split; [done|].
  exists (Base64UrlEncode (take n data)). split; [apply (decode_encode (S (length (take n data)))); lia|].
  by rewrite <- app_assoc.
Qed.

Lemma body_output r body out :
  holds body r →
  match memory r with
  | Some m => if (0 <? size r)%Z then take (Z.to_nat (size r)) m else out
  | None => out
  end = output (Some body) out.
Proof.
  intros (Hs & _ & [E|[E ->]]); rewrite E; [|done]. rewrite Hs. destruct body as [|b bs]; [done|].
  destruct (Z.ltb_spec 0 (Z.of_nat (length (b :: bs)))); [|simpl in *; lia].
  by rewrite Nat2Z.id, take_app_length.
Qed.

Lemma resolve_loop_attempts c data n t0 out us : ∀ last w,
  ∃ bound res body w', attempts c (take n data) t0 us last w res body w' ∧
    ∀ k, bound ≤ k →
      resolve_loop k c us last t0 data n (encoded c (take n data)) out w = Done (res, output body out, w').
Proof.
  induction us as [|u us IH]; intros last w; cbn [resolve_loop].
  { exists 0, last, None, w. split; [constructor|done]. }
  destruct (steady_now w) as [now w1] eqn:Et.
  destruct (Z.leb_spec (m_DohTimeoutMs_ c - (now - t0)) 0) as [Hlate|Hin].
  { exists 0, last, None, w1. split; [apply attempts_late with now; [done|lia]|done]. }
  set (e0 := CreateEasyHandle _ _ _ _ _ _). destruct e0 as [[e|] w2] eqn:Ee; subst e0.
  2: { destruct (IH last w2) as (bound & res & body & w' & Ha & Hk). exists bound, res, body, w'. split; [|done].
       apply attempts_unable with now w1 w2; [done|lia| |done]. revert Ee. unfold CreateEasyHandle.
       destruct (curl_easy_init w1) as [[] ?]; [done|]. by intros [= ->]. }
  destruct (CreateEasyHandle_asks _ _ _ _ _ _ _ _ Ee) as (Ei & Hasks & Hpos).
  destruct (transfer_returns e w2 Hpos) as (res & body & w3 & Htr). pose proof Htr as (Hres & b1 & r & Hb & Hk1).
  assert (Ek : ∀ k, b1 ≤ k → ∀ f : ResolveResult * CurlResponse * W → outcome (ResolveResult * bytes * W),
    (PerformSingleTransfer k e empty_response w2 ≫= f) = f (res, r, w3)) by (intros k Hle f; by rewrite Hk1 by lia).
  destruct (decide (res = Success)) as [->|Hns].
  { exists b1, Success, (Some body), w3. split; [apply attempts_answer with now w1 w2 e; done || lia|].
    intros k Hle. rewrite Ek by done. by rewrite bool_decide_eq_true_2, (body_output r body out Hb). }
  destruct (IsRetryable res) eqn:Er.
  - destruct (IH res w3) as (b2 & res' & body' & w' & Ha & Hk2). exists (b1 + b2), res', body', w'.
    split; [apply attempts_retry with now w1 w2 e res body w3; done || lia|]. intros k Hle. rewrite Ek by lia.
    rewrite bool_decide_eq_false_2, Er by done. apply Hk2. lia.
  - exists b1, res, None, w3. split; [apply attempts_error with now w1 w2 e body; done || lia|].
    intros k Hle. rewrite Ek by lia. by rewrite bool_decide_eq_false_2, Er by done.
Qed.

(** The result and the body of the attempts. *)
Lemma attempts_output c query t0 us last w res body w' :
  attempts c query t0 us last w res body w' → last ≠ InvalidInput →
  res ≠ InvalidInput ∧
  ∀ out, output body out = out ∨
    res = Success ∧ (1 ≤ Z.of_nat (length (output body out)) ≤ MAX_DOH_RESPONSE_SIZE)%Z.
Proof.
  induction 1 as [| | |? ? ? ? ? ? ? ? body ? _ _ _ _ Htr|? ? ? ? ? ? ? ? ? ? ? _ _ _ _ [Hres _]
    |? ? ? ? ? ? ? ? ? ? ? ? ? ? _ _ _ _ [Hres _] _ _ IH]; intros Hl; auto.
  split; [done|]. intros out. destruct Htr as (_ & _ & r & (_ & Hb & _) & _).
  destruct body as [|b bs]; [by left|right]. cbn [output]. split; [done|]. simpl in *. lia.
Qed.

Lemma Resolve_attempts c rs d n out w :
  n ≤ length d → n ≠ 0 → m_MultiHandle_ c = true →
  ∃ bound t0 w0 res body w', steady_now w = (t0, w0) ∧ attempts c (take n d) t0 rs CurlError w0 res body w' ∧
    ∀ k, bound ≤ k → Resolve k c rs (Some d) n out w = Done (res, output body out, w').
Proof.
  intros Hn Hne Hm. destruct (steady_now w) as [t0 w0] eqn:Et.
  destruct (resolve_loop_attempts c d n t0 out rs CurlError w0) as (bound & res & body & w' & Ha & Hk).
  exists bound, t0, w0, res, body, w'. split_and!; [done..|]. intros k Hle. unfold Resolve.
  destruct (Nat.eqb_spec n 0); [done|]. rewrite Hm. cbn [negb]. rewrite Et.
  rewrite <- (Hk k Hle). unfold encoded. destruct (m_HttpMethod_ c); [done|]. by rewrite load_n_Done.
Qed.

Lemma Resolve_returns c rs data n out w :
  (∀ d, data = Some d → n ≤ length d) →
  ∃ bound res out' w',
    (∀ k, bound ≤ k → Resolve k c rs data n out w = Done (res, out', w')) ∧
    (res = InvalidInput ↔ data = None ∨ n = 0) ∧
    (out' = out ∨ res = Success ∧ (1 ≤ Z.of_nat (length out') ≤ MAX_DOH_RESPONSE_SIZE)%Z).
Proof.
  intros Hn. destruct data as [d|]; [|by exists 0, InvalidInput, out, w; split_and!; [|split; [by left|]|left]].
  destruct (decide (n = 0)) as [->|Hne].
  { exists 0, InvalidInput, out, w. split_and!; [done|split; [by right|done]|by left]. }
  destruct (m_MultiHandle_ c) eqn:Em.
  2: { exists 0, CurlError, out, w. split_and!; [|split; [done|by intros [?|?]]|by left].
       intros k _. unfold Resolve. destruct (Nat.eqb_spec n 0); [done|]. by rewrite Em. }
  destruct (Resolve_attempts c rs d n out w (Hn d eq_refl) Hne Em) as (bound & t0 & w0 & res & body & w' & _ & Ha & Hk).
  destruct (attempts_output _ _ _ _ _ _ _ _ _ Ha ltac:(done)) as [Hres Ho].
  exists bound, res, (output body out), w'. split_and!; [done|split; [done|by intros [?|?]]|done].
Qed.

End resolving.

(** ** Examples *)

(** A network that answers every transfer with the next of its bodies (an error when
    there is none left, or no time), in two calls of [curl_multi_perform]. *)
Record network : Type := {
  bodies : list bytes;
  waiting : bool;
  message : option CurlMsg;
  nanoseconds : Z;
  time_limit : option Z
}.

(** Before any transfer. *)
Definition idle (bs : list bytes) : network :=
  {| bodies := bs; waiting := false; message := None; nanoseconds := 0; time_limit := None |}.

Definition late (w : network) : bool :=
  match time_limit w with Some d => (d <=? nanoseconds w)%Z | None => false end.

Definition network_chunk (b : bytes) : chunk :=
  {| c_alloc := true; c_Size := 1; c_DataSize := Z.of_nat (length (take 100 b)); c_data := take 100 b |}.

(** The transfer is over. *)
Definition over (bs : list bytes) (ok : bool) (w : network) : network :=
  {| bodies := bs; waiting := false; message := Some (MsgDone ok); nanoseconds := nanoseconds w;
     time_limit := time_limit w |}.

#[export] Instance sample_curl : Curl network := {
  steady_now w := (nanoseconds w / 1000000, w)%Z;
  curl_easy_init w := (true, w);
  curl_multi_add_handle e w :=
    (true, {| bodies := bodies w; waiting := true; message := None; nanoseconds := nanoseconds w;
              time_limit := if (0 <? e_Timeout e)%Z then Some (nanoseconds w + e_Timeout e * 1000000000)%Z else None |});
  curl_multi_perform cb r w :=
    if late w then Done (true, false, r, over (bodies w) false w)
    else if waiting w then Done (true, true, r, w)
    else match bodies w with
         | [] => Done (true, false, r, over [] false w)
         | b :: bs => r ← deliver cb [network_chunk b] r; Done (true, false, r, over bs true w)
         end;
  curl_multi_wait w :=
    (true, {| bodies := bodies w; waiting := false; message := message w; nanoseconds := nanoseconds w + 20000000;
              time_limit := time_limit w |})%Z;
  curl_multi_info_read w :=
    (message w, {| bodies := bodies w; waiting := waiting w; message := None; nanoseconds := nanoseconds w;
                   time_limit := time_limit w |});
  response_code w := 200%Z;
  curl_multi_remove_handle w := w
}.

#[export] Instance sample_curl_laws : CurlLaws network.
Proof.
  split. intros cb r w. cbn [curl_multi_perform sample_curl]. destruct (late w).
  { eexists [], true, false, _. by split. }
  destruct (waiting w); [by exists [], true, true, w|].
  destruct (bodies w) as [|b bs]; [by eexists [], _, _, _|].
  eexists [network_chunk b], _, _, _. split; [|done]. constructor; [|constructor].
  assert (length (take 100 b) ≤ 100) by (rewrite length_take; lia).
  split_and!; unfold network_chunk; cbn [c_Size c_DataSize c_data]; unfold SIZE_MAX; lia.
Qed.

#[export] Instance sample_curl_progress : CurlProgress network.
Proof.
  refine {| clock := nanoseconds; deadline := time_limit;
            messages w := match message w with Some _ => 1 | None => 0 end |}.
  - intros e w w'. cbn [curl_multi_add_handle sample_curl]. by intros [= <-].
  - intros cb r w ok running r' w'. cbn [curl_multi_perform sample_curl]. unfold late.
    destruct (time_limit w) as [d|] eqn:Ed; [destruct (Z.leb_spec d (nanoseconds w))|];
      [intros [= <- <- <- <-]; by split_and!| |];
      (destruct (waiting w); [intros [= <- <- <- <-]|
       destruct (bodies w); [intros [= <- <- <- <-]|intros (? & _ & [= <- <- <- <-])%bind_Done_inv]]);
      cbn [over time_limit nanoseconds]; split_and!; (done || congruence || (intros _ ? [= <-]; lia) || (by rewrite Ed) || idtac).
  - intros w w' [= <-]. cbn [time_limit nanoseconds]. split; [done|lia].
  - intros w m w'. cbn [curl_multi_info_read sample_curl]. intros [= -> <-]. simpl. lia.
Qed.

Lemma WriteCallback_bounded_witness :
  ∃ r, deliver call [network_chunk (str "abc"); network_chunk (str "d")] empty_response = Done r ∧
       holds (str "abcd") r.
Proof.
  destruct (WriteCallback_bounded [network_chunk (str "abc"); network_chunk (str "d")]) as (r & E & Hr & _).
  - repeat constructor; vm_compute; done.
  - exists r. split; [exact E|exact Hr].
Defined.

Definition example_client : DnsOverHttps :=
  {| m_Resolvers_ := [str "https://1.1.1.1/dns-query"; str "https://8.8.8.8/dns-query"];
     m_Useragent_ := str "chukei"; m_HttpMethod_ := GET; m_CacertPath_ := []; m_DohTimeoutMs_ := 15000;
     m_MultiHandle_ := true |}.

Lemma client_invariant_witness : client_ok (DohTimeoutMs 5 example_client).
Proof.
  apply (proj2 (proj2 (client_invariant true true true true true (str "u") [str "r"] [] 5)) example_client).
  split_and!; (done || (cbn [m_DohTimeoutMs_ example_client]; lia)).
Defined.

Definition example_network : network := idle [str "answer"].


(** The first resolver answers; without an answer the second is tried as well. *)
Example Resolve_answer :
  match Resolve 10 example_client (m_Resolvers_ example_client) (Some (str "query")) 5 [] example_network with
  | Done (Success, out, _) => out = str "answer"
  | _ => False
  end.
Proof. vm_compute. reflexivity. Qed.

Example Resolve_exhausted :
  match Resolve 10 example_client (m_Resolvers_ example_client) (Some (str "query")) 5 []
          (idle []) with
  | Done (CurlError, out, _) => out = []
  | _ => False
  end.
Proof. vm_compute. reflexivity. Qed.
