(* ===== verification/Regex.v ===== *)
(** * The two fixed regular expressions (src/include/constants.h: ROOT_DOMAIN_PATTERN,
      SUB_DOMAIN_PATTERN)

    [std::regex] with the ECMAScript grammar is a backtracking matcher: the matchers
    below are those of the standard (ECMA-262, 21.2.2), with continuations, for
    the constructs the two patterns use.  Star is greedy and refuses an empty
    iteration; "." excludes line terminators; "^" and "$" are not multi-line.
    The theorems say which pieces of a domain name the patterns capture, in terms
    of its dots. *)

From Stdlib Require Import ZArith Lia.
From Stdlib Require Import Strings.Byte Strings.String.
From stdpp Require Import base numbers list option.
From S2P Require Import Prelude.
From S2P Require Import Text.

Inductive regex : Type :=
  | Chr (P : byte → bool)
  | Cat (r1 r2 : regex)
  | Star (r : regex)
  | Opt (r : regex)
  | Group (n : nat) (r : regex)
  | Bol
  | Eol.

(** The captured groups, the latest first. *)
Abbreviation captures := (list (nat * bytes)).

(** A continuation: offset, rest of the text, captures so far. *)
Abbreviation continuation := (nat → bytes → captures → option captures).

(** [f n], [f (n - 1)], ..., [f 0]: the first that succeeds. *)
Fixpoint downto {A} (n : nat) (f : nat → option A) : option A :=
  match f n with
  | Some r => Some r
  | None => match n with O => None | S n => downto n f end
  end.

(** Repetition of a matcher, at most [fuel] times. *)
Fixpoint star (m : nat → bytes → captures → continuation → option captures) (fuel : nat)
    (i : nat) (s : bytes) (c : captures) (k : continuation) : option captures :=
  match fuel with
  | O => k i s c
  | S fuel =>
      match m i s c (λ i' s' c', if i' =? i then None else star m fuel i' s' c' k) with
      | Some r => Some r
      | None => k i s c
      end
  end.

Fixpoint matcher (r : regex) (i : nat) (s : bytes) (c : captures) (k : continuation) : option captures :=
  match r with
  | Chr P => match s with b :: s => if P b then k (S i) s c else None | [] => None end
  | Cat r1 r2 => matcher r1 i s c (λ i s c, matcher r2 i s c k)
  | Star r => star (matcher r) (length s) i s c k
  | Opt r =>
      match matcher r i s c (λ i' s' c', if i' =? i then None else k i' s' c') with
      | Some r => Some r
      | None => k i s c
      end
  | Group n r => matcher r i s c (λ i' s' c', k i' s' ((n, take (i' - i) s) :: c'))
  | Bol => if i =? 0 then k i s c else None
  | Eol => match s with [] => k i s c | _ => None end
  end.

(** [std::regex_search]: the first start offset with a match. *)
Fixpoint search (r : regex) (i : nat) (s : bytes) : option captures :=
  match matcher r i s [] (λ _ _ c, Some c) with
  | Some c => Some c
  | None => match s with [] => None | _ :: s => search r (S i) s end
  end.

Definition regex_search (s : bytes) (r : regex) : option captures := search r 0 s.

(** [s_Match.str(n)]: empty for a group that took no part. *)
Fixpoint group_str (n : nat) (c : captures) : bytes :=
  match c with
  | [] => []
  | (m, s) :: c => if m =? n then s else group_str n c
  end.

(** *** The patterns *)

Definition dot_any (b : byte) : bool := negb (bool_decide (b = x0a)) && negb (bool_decide (b = x0d)).
Definition any : regex := Star (Chr dot_any).
Definition lit (c : byte) : regex := Chr (λ b, bool_decide (b = c)).
Definition none_of (c : byte) : regex := Chr (λ b, negb (bool_decide (b = c))).

(** [(.*\..*[^\.])]. *)
Definition two_labels : regex := Cat any (Cat (lit ".") (Cat any (none_of "."))).

(** [^(.*\.)*(.*\..*[^\.])$]. *)
Definition ROOT_DOMAIN_PATTERN : regex :=
  Cat Bol (Cat (Star (Group 1 (Cat any (lit ".")))) (Cat (Group 2 two_labels) Eol)).

(** [^(.*\.?)\.(.*\..*[^\.])$]. *)
Definition SUB_DOMAIN_PATTERN : regex :=
  Cat Bol (Cat (Group 1 (Cat any (Opt (lit ".")))) (Cat (lit ".") (Cat (Group 2 two_labels) Eol))).

(** ** Greedy repetition *)

(** The length of the longest prefix "." can repeat over. *)
Fixpoint run (s : bytes) : nat :=
  match s with b :: s => if dot_any b then S (run s) else 0 | [] => 0 end.

Lemma run_length s : run s ≤ length s.
Proof. induction s as [|b s IH]; simpl; [lia|]. destruct (dot_any b); lia. Qed.

Lemma downto_S {A} n (f : nat → option A) :
  downto (S n) f = match downto n (λ j, f (S j)) with Some r => Some r | None => f 0 end.
Proof.
  revert f. induction n as [|n IH]; intros f; [by simpl; destruct (f 1), (f 0)|].
  change (downto (S (S n)) f) with (match f (S (S n)) with Some r => Some r | None => downto (S n) f end).
  rewrite IH. simpl. by destruct (f (S (S n))).
Qed.

Lemma downto_None {A} n (f : nat → option A) : (∀ j, j ≤ n → f j = None) → downto n f = None.
Proof. induction n as [|n IH]; intros Hf; simpl; rewrite Hf by lia; [done|]. apply IH. intros j Hj. apply Hf. lia. Qed.

Lemma downto_Some {A} n j0 (f : nat → option A) r :
  j0 ≤ n → f j0 = Some r → (∀ j, j0 < j ≤ n → f j = None) → downto n f = Some r.
Proof.
  induction n as [|n IH]; intros Hj0 Hr Hf; simpl.
  - assert (j0 = 0) as -> by lia. by rewrite Hr.
  - destruct (Nat.eq_dec j0 (S n)) as [->|]; [by rewrite Hr|].
    rewrite Hf by lia. apply IH; [lia|done|]. intros j Hj. apply Hf. lia.
Qed.

Lemma downto_ext {A} n (f g : nat → option A) : (∀ j, j ≤ n → f j = g j) → downto n f = downto n g.
Proof. induction n as [|n IH]; intros Hf; simpl; rewrite Hf by lia; [done|]. rewrite IH; [done|]. intros j Hj. apply Hf. lia. Qed.

(** ".*" tries every length it can, the longest first. *)
Lemma any_downto s : ∀ i c k, matcher any i s c k = downto (run s) (λ j, k (i + j) (drop j s) c).
Proof.
  intros i c k. unfold any. cbn [matcher].
  assert (H : ∀ fuel, length s ≤ fuel → ∀ i,
    star (matcher (Chr dot_any)) fuel i s c k = downto (run s) (λ j, k (i + j) (drop j s) c)).
  { clear i. induction s as [|b s IH]; intros fuel Hf i.
    - destruct fuel; simpl; rewrite Nat.add_0_r; by destruct (k i [] c).
    - destruct fuel as [|fuel]; [simpl in Hf; lia|]. simpl in Hf. cbn [star matcher run].
      destruct (dot_any b).
      + destruct (Nat.eqb_spec (S i) i); [lia|]. rewrite IH by lia. rewrite downto_S, Nat.add_0_r, drop_0.
        erewrite downto_ext; [done|]. intros j _. cbn [drop]. by rewrite Nat.add_succ_r.
      + simpl. rewrite Nat.add_0_r. by destruct (k i (b :: s) c). }
  by apply H.
Qed.

(** ** What the patterns match *)

Abbreviation plain p := (Forall (λ b, dot_any b = true) p).

(** A text that ends in a character other than a dot, with no line break before it. *)
Fixpoint line_text (s : bytes) : bool :=
  match s with
  | [] => false
  | [b] => negb (bool_decide (b = "."%byte))
  | b :: s => dot_any b && line_text s
  end.

Lemma line_text_cons b s : s ≠ [] → line_text (b :: s) = dot_any b && line_text s.
Proof. by destruct s. Qed.

(** A suffix after plain characters. *)
Lemma line_text_app p s : s ≠ [] → line_text (p ++ s) = true ↔ plain p ∧ line_text s = true.
Proof.
  intros Hs. induction p as [|b p IH]; [split; [by split; [constructor|]|by intros [_ ?]]|].
  cbn [app]. rewrite line_text_cons by (by destruct p). split.
  - intros [Hb Hp]%andb_true_iff. apply IH in Hp as [Hp Hl]. split; [by constructor|done].
  - intros [Hb Hl]. inversion_clear Hb as [|? ? Hb1 Hp]. rewrite Hb1. cbn [andb]. by apply IH.
Qed.

Lemma line_text_last s : line_text s = true → ∃ p b, s = p ++ [b] ∧ plain p ∧ b ≠ "."%byte.
Proof.
  intros Hs. destruct s as [|b s _] using rev_ind; [done|]. exists s, b. split; [done|].
  apply line_text_app in Hs as [Hp Hb]; [|done]. split; [done|]. simpl in Hb. by case_bool_decide.
Qed.

Lemma run_app p s : plain p → run (p ++ s) = length p + run s.
Proof. induction 1 as [|b p Hb _ IH]; [done|]. simpl. by rewrite Hb, IH. Qed.

Lemma run_take s j : j ≤ run s → plain (take j s).
Proof.
  revert j. induction s as [|b s IH]; intros j Hj; [destruct j; constructor|].
  destruct j as [|j]; [constructor|]. simpl in *. destruct (dot_any b) eqn:E; [|lia]. constructor; [done|]. apply IH. lia.
Qed.

Lemma run_before s p t : line_text s = true → s = p ++ t → t ≠ [] → length p ≤ run s.
Proof.
  intros Hs -> Ht. apply line_text_app in Hs as [Hp _]; [|done]. rewrite run_app by done. lia.
Qed.

(** [.*[^\.]], before the end of the text. *)
Lemma tail_match s i c (k : continuation) :
  (∀ i' b s' c', k i' (b :: s') c' = None) →
  matcher (Cat any (none_of ".")) i s c k = if line_text s then k (i + length s) [] c else None.
Proof.
  intros Hk. cbn [matcher]. rewrite any_downto. unfold none_of. cbn [matcher].
  assert (Hnone : ∀ j, (∀ b, drop j s = [b] → b = "."%byte) →
    match drop j s with b :: s' => if negb (bool_decide (b = "."%byte)) then k (S (i + j)) s' c else None
    | [] => None end = None).
  { intros j Hj. destruct (drop j s) as [|b [|b' s']] eqn:E; [done| |by destruct (negb _)].
    by rewrite bool_decide_eq_true_2 by (by apply Hj). }
  destruct (line_text s) eqn:El.
  - destruct (line_text_last s El) as (p & b & -> & Hp & Hb). rewrite length_app. cbn [length].
    assert (Hle : length p ≤ run (p ++ [b])) by (by apply run_before with [b]).
    destruct (k (i + (length p + 1)) [] c) as [r|] eqn:Er.
    + apply (downto_Some _ (length p)); [done| |].
      * rewrite drop_app_length, bool_decide_eq_false_2 by done. cbn [negb]. rewrite <- Er. f_equal. lia.
      * intros j Hj. apply Hnone. intros b' E. apply (f_equal length) in E. rewrite length_drop, length_app in E.
        simpl in E. lia.
    + apply downto_None. intros j Hj. destruct (Nat.eq_dec j (length p)) as [->|].
      * rewrite drop_app_length, bool_decide_eq_false_2 by done. cbn [negb]. rewrite <- Er. f_equal. lia.
      * apply Hnone. intros b' E. apply (f_equal length) in E. rewrite length_drop, length_app in E. simpl in E. lia.
  - apply downto_None. intros j Hj. apply Hnone. intros b E.
    destruct (decide (b = "."%byte)) as [->|Hb]; [done|]. exfalso.
    assert (Hl : line_text (take j s ++ [b]) = true).
    { apply line_text_app; [done|]. split; [by apply run_take|]. simpl. by rewrite bool_decide_eq_false_2. }
    rewrite <- E, take_drop in Hl. congruence.
Qed.

Lemma downto_const {A} n (f : nat → option A) o :
  (∀ j, j ≤ n → f j = None ∨ f j = o) → (∃ j, j ≤ n ∧ f j = o) → downto n f = o.
Proof.
  intros Hf (j & Hj & Ej). destruct o as [r|].
  - induction n as [|n IH]; simpl.
    + assert (j = 0) as -> by lia. by rewrite Ej.
    + destruct (Hf (S n)) as [E| ->]; [done| |done]. rewrite E. destruct (Nat.eq_dec j (S n)); [congruence|].
      apply IH; [|lia]. intros j' Hj'. apply Hf. lia.
  - apply downto_None. intros j' Hj'. by destruct (Hf j' Hj').
Qed.

Definition dotted (s : bytes) : bool := bool_decide ("."%byte ∈ s).

(** [.*\..*[^\.]], before the end of the text. *)
Lemma two_labels_match s i c (k : continuation) :
  (∀ i' b s' c', k i' (b :: s') c' = None) →
  matcher two_labels i s c k = if line_text s && dotted s then k (i + length s) [] c else None.
Proof.
  intros Hk. unfold two_labels.
  change (matcher any i s c (λ i s c, matcher (Cat (lit ".") (Cat any (none_of "."))) i s c k)
    = if line_text s && dotted s then k (i + length s) [] c else None).
  rewrite any_downto.
  set (f := λ j, matcher (Cat (lit ".") (Cat any (none_of "."))) (i + j) (drop j s) c k).
  assert (Ef : ∀ j, f j = match drop j s with
    | b :: s' => if bool_decide (b = "."%byte) && line_text s' then k (i + length s) [] c else None
    | [] => None end).
  { intros j. unfold f. destruct (drop j s) as [|b s'] eqn:E; [done|].
    change (matcher (Cat (lit ".") (Cat any (none_of "."))) (i + j) (b :: s') c k)
      with (if bool_decide (b = "."%byte) then matcher (Cat any (none_of ".")) (S (i + j)) s' c k else None).
    rewrite tail_match by done. assert (El : length s = j + S (length s')).
    { apply (f_equal length) in E. rewrite length_drop in E. simpl in E. lia. }
    replace (i + length s) with (S (i + j) + length s') by lia. by destruct (bool_decide _). }
  destruct (line_text s) eqn:El; cbn [andb].
  - unfold dotted. case_bool_decide as Hd.
    + apply list_elem_of_split in Hd as (p & t & E).
      assert (Ht : t ≠ []).
      { intros ->. destruct (line_text_last s El) as (p' & b & E' & _ & Hb). rewrite E in E'.
        apply app_inj_tail in E' as [_ E']. congruence. }
      apply downto_const.
      * intros j _. rewrite Ef. destruct (drop j s) as [|b s']; [by left|]. destruct (_ && _); [by right|by left].
      * exists (length p). split; [by apply (run_before s p ("."%byte :: t))|]. rewrite Ef, E, drop_app_length.
        rewrite bool_decide_eq_true_2 by done. cbn [andb].
        assert (Hlt : line_text t = true).
        { rewrite E in El. change (p ++ "."%byte :: t) with (p ++ ["."%byte] ++ t) in El.
          rewrite app_assoc in El. by apply line_text_app in El as [_ ?]. }
        by rewrite Hlt.
    + apply downto_None. intros j _. rewrite Ef. destruct (drop j s) as [|b s'] eqn:E; [done|].
      rewrite bool_decide_eq_false_2; [done|]. intros ->. destruct Hd. rewrite <- (take_drop j s), E.
      apply elem_of_app. right. by left.
  - apply downto_None. intros j Hj. rewrite Ef. destruct (drop j s) as [|b s'] eqn:E; [done|].
    case_bool_decide as Hb; [|done]. cbn [andb]. destruct (line_text s') eqn:El'; [|done]. exfalso.
    assert (Hne : s' ≠ []) by (by intros ->). subst b.
    assert (Hl : line_text ((take j s ++ ["."%byte]) ++ s') = true).
    { apply line_text_app; [done|]. split; [|done]. apply Forall_app. split; [by apply run_take|]. by repeat constructor. }
    rewrite <- app_assoc in Hl. cbn [app] in Hl. rewrite <- E, take_drop in Hl. congruence.
Qed.

(** *** The last two labels *)

(** [two_last s p u]: [u] is the last two dot-separated pieces of [s], after [p]. *)
Definition two_last (s : bytes) (p : option bytes) (u : bytes) : Prop :=
  ∃ q t, u = q ++ "."%byte :: t ∧ "."%byte ∉ q ∧ "."%byte ∉ t ∧
    match p with None => s = u | Some p => s = p ++ "."%byte :: u end.

(** The only dot of [u], and the last one of a text that ends in [u]. *)
Lemma last_dot q t j s' :
  "."%byte ∉ q → "."%byte ∉ t → drop j (q ++ "."%byte :: t) = "."%byte :: s' → j = length q ∧ s' = t.
Proof.
  intros Hq Ht E. assert (Hj : (q ++ "."%byte :: t) !! j = Some "."%byte).
  { rewrite <- (Nat.add_0_r j), <- lookup_drop, E. done. }
  destruct (Nat.lt_trichotomy j (length q)) as [Hlt|[->|Hgt]].
  - rewrite lookup_app_l in Hj by done. by apply list_elem_of_lookup_2 in Hj.
  - rewrite drop_app_length in E. by injection E as ->.
  - rewrite lookup_app_r in Hj by lia. destruct (j - length q) as [|d] eqn:Ed; [lia|].
    simpl in Hj. by apply list_elem_of_lookup_2 in Hj.
Qed.

Lemma last_dot_after p q t j s' :
  "."%byte ∉ q → "."%byte ∉ t → length p < j →
  drop j (p ++ "."%byte :: q ++ "."%byte :: t) = "."%byte :: s' → s' = t.
Proof.
  intros Hq Ht Hj E. replace j with (length p + S (j - length p - 1)) in E by lia.
  rewrite drop_app_add in E. cbn [drop] in E. by apply last_dot in E as [_ ->].
Qed.

Lemma not_dotted t : "."%byte ∉ t → dotted t = false.
Proof. intros Ht. unfold dotted. by rewrite bool_decide_eq_false_2. Qed.

(** Where a dot stands in a text, the rest is matched only if the whole is. *)
Lemma good_suffix s j s' :
  j ≤ run s → drop j s = "."%byte :: s' → line_text s' = true → line_text s = true ∧ dotted s = true.
Proof.
  intros Hj E Hl. assert (Es : s = (take j s ++ ["."%byte]) ++ s') by (by rewrite <- app_assoc; cbn [app]; rewrite <- E, take_drop).
  assert (Hne : s' ≠ []) by (by intros ->). split.
  - rewrite Es. apply line_text_app; [done|]. split; [|done]. apply Forall_app. split; [by apply run_take|].
    by repeat constructor.
  - unfold dotted. apply bool_decide_eq_true_2. rewrite Es. apply elem_of_app. left. apply elem_of_app. right. by left.
Qed.

Abbreviation final := (λ (_ : nat) (_ : bytes) (c : captures), Some c).

(** [(.*\\..*[^\\.])$] *)
Lemma labels_end_match s i c :
  matcher (Cat (Group 2 two_labels) Eol) i s c final =
    if line_text s && dotted s then Some ((2, s) :: c) else None.
Proof.
  change (matcher (Cat (Group 2 two_labels) Eol) i s c final)
    with (matcher two_labels i s c (λ i' s' c', matcher Eol i' s' ((2, take (i' - i) s) :: c') final)).
  rewrite two_labels_match by done. destruct (_ && _); [|done].
  cbn [matcher]. do 3 f_equal. rewrite Nat.add_comm, Nat.add_sub. by apply take_ge.
Qed.

(** One iteration of [(.*\.)*]. *)
Lemma label_iteration fuel s i c (k : continuation) :
  star (matcher (Group 1 (Cat any (lit ".")))) (S fuel) i s c k =
    match downto (run s) (λ j, match drop j s with
      | b :: s' => if bool_decide (b = "."%byte)
                   then star (matcher (Group 1 (Cat any (lit ".")))) fuel (S (i + j)) s' ((1, take (S (i + j) - i) s) :: c) k
                   else None
      | [] => None end) with
    | Some r => Some r
    | None => k i s c
    end.
Proof.
  cbn [star]. set (k' := λ i' s' c', if i' =? i then None else _).
  change (matcher (Group 1 (Cat any (lit "."))) i s c k')
    with (matcher any i s c (λ i1 s1 c1, matcher (lit ".") i1 s1 c1 (λ i' s' c', k' i' s' ((1, take (i' - i) s) :: c')))).
  rewrite any_downto. erewrite downto_ext; [done|]. intros j _. unfold lit. cbn [matcher].
  destruct (drop j s) as [|b s']; [done|]. destruct (bool_decide (b = "."%byte)); [|done].
  unfold k'. by destruct (Nat.eqb_spec (S (i + j)) i); [lia|].
Qed.

Abbreviation labels fuel i s c := (star (matcher (Group 1 (Cat any (lit ".")))) fuel i s c
  (λ i' s' c', matcher (Cat (Group 2 two_labels) Eol) i' s' c' final)).

Lemma labels_bad fuel : ∀ s i c, line_text s && dotted s = false → labels fuel i s c = None.
Proof.
  induction fuel as [|fuel IH]; intros s i c Hs; [cbn [star]; by rewrite labels_end_match, Hs|].
  rewrite label_iteration, downto_None; [by rewrite labels_end_match, Hs|].
  intros j Hj. destruct (drop j s) as [|b s'] eqn:E; [done|]. case_bool_decide as Hb; [|done]. subst b.
  apply IH. destruct (line_text s') eqn:El; [|done]. exfalso.
  destruct (good_suffix s j s' Hj E El) as [E1 E2]. by rewrite E1, E2 in Hs.
Qed.

Lemma labels_good fuel : ∀ s p u i c,
  length s ≤ fuel → line_text s = true → two_last s p u → ∃ c', labels fuel i s c = Some ((2, u) :: c').
Proof.
  induction fuel as [|fuel IH]; intros s p u i c Hf Hs Hu; [destruct s; [done|simpl in Hf; lia]|].
  destruct Hu as (q & t & Eu & Hq & Ht & Es). rewrite label_iteration. destruct p as [p|].
  - assert (Hlu : line_text u = true).
    { rewrite Es in Hs. change (p ++ "."%byte :: u) with (p ++ ["."%byte] ++ u) in Hs. rewrite app_assoc in Hs.
      apply line_text_app in Hs as [_ ?]; [done|]. rewrite Eu. by destruct q. }
    destruct (IH u None u (S (i + length p)) ((1, take (S (i + length p) - i) s) :: c)) as [c' Ec].
    { rewrite Es, length_app in Hf. simpl in Hf. lia. } { done. } { by exists q, t. }
    exists c'. erewrite downto_Some; [done|by apply (run_before s p ("."%byte :: u))| |].
    + rewrite Es, drop_app_length, bool_decide_eq_true_2 by done. rewrite <- Es. exact Ec.
    + intros j [Hj1 Hj2]. destruct (drop j s) as [|b s'] eqn:E; [done|]. case_bool_decide as Hb; [|done]. subst b.
      rewrite Es, Eu in E. apply last_dot_after in E as ->; [|done..]. apply labels_bad.
      by rewrite not_dotted, andb_false_r.
  - exists c. rewrite downto_None.
    + rewrite labels_end_match, Hs. unfold dotted. rewrite bool_decide_eq_true_2; [by rewrite Es|].
      rewrite Es, Eu. apply elem_of_app. right. by left.
    + intros j Hj. destruct (drop j s) as [|b s'] eqn:E; [done|]. case_bool_decide as Hb; [|done]. subst b.
      rewrite Es, Eu in E. apply last_dot in E as [_ ->]; [|done..]. apply labels_bad.
      by rewrite not_dotted, andb_false_r.
Qed.

Lemma search_anchored r s : regex_search s (Cat Bol r) = matcher r 0 s [] final.
Proof.
  assert (H : ∀ s i, search (Cat Bol r) (S i) s = None).
  { intros s'. induction s' as [|b s' IH]; intros i; [done|]. simpl. apply IH. }
  unfold regex_search. destruct s as [|b s]; cbn [search].
  - change (matcher (Cat Bol r) 0 [] [] final) with (matcher r 0 [] [] final). by destruct (matcher _ _ _ _ _).
  - change (matcher (Cat Bol r) 0 (b :: s) [] final) with (matcher r 0 (b :: s) [] final).
    rewrite H. by destruct (matcher _ _ _ _ _).
Qed.

(** [two_last] cuts every text with a dot. *)
Lemma two_last_exists s : dotted s = true → ∃ p u, two_last s p u.
Proof.
  intros Hs. unfold dotted in Hs. apply bool_decide_eq_true in Hs.
  assert (Hlast : ∀ s : bytes, "."%byte ∈ s → ∃ a t, s = a ++ "."%byte :: t ∧ "."%byte ∉ t).
  { clear. intros s. induction s as [|b s IH] using rev_ind; intros Hs; [by apply not_elem_of_nil in Hs|].
    destruct (decide (b = "."%byte)) as [->|Hb]; [exists s, []; split; [done|apply not_elem_of_nil]|].
    apply elem_of_app in Hs as [Hs|Hs%list_elem_of_singleton]; [|congruence].
    destruct (IH Hs) as (a & t & -> & Ht). exists a, (t ++ [b]). split; [by rewrite <- app_assoc|].
    intros [?|Hin%list_elem_of_singleton]%elem_of_app; [done|]. congruence. }
  destruct (Hlast s Hs) as (a & t & -> & Ht).
  destruct (decide ("."%byte ∈ a)) as [Ha|Ha].
  - destruct (Hlast a Ha) as (p & q & -> & Hq). exists (Some p), (q ++ "."%byte :: t), q, t.
    do 3 (split; [done|]). by rewrite <- app_assoc.
  - by exists None, (a ++ "."%byte :: t), a, t.
Qed.

(** ** The root domain *)

Lemma ROOT_search s :
  regex_search s ROOT_DOMAIN_PATTERN = labels (length s) 0 s (@nil (nat * bytes)).
Proof. unfold ROOT_DOMAIN_PATTERN. by rewrite search_anchored. Qed.

Lemma ROOT_matches s p u :
  line_text s = true → two_last s p u →
  ∃ c, regex_search s ROOT_DOMAIN_PATTERN = Some c ∧ group_str 2 c = u.
Proof.
  intros Hs Hu. rewrite ROOT_search. destruct (labels_good (length s) s p u 0 []) as [c Ec]; [done..|].
  by exists ((2, u) :: c).
Qed.

Lemma ROOT_fails s : line_text s && dotted s = false → regex_search s ROOT_DOMAIN_PATTERN = None.
Proof. intros Hs. rewrite ROOT_search. by apply labels_bad. Qed.

(** ** The subdomain *)

(** [\.(.*\..*[^\.])$]: what group 2 takes. *)
Definition sub_tail (s : bytes) : option bytes :=
  match s with
  | b :: s' => if bool_decide (b = "."%byte) && (line_text s' && dotted s') then Some s' else None
  | [] => None
  end.

Lemma sub_tail_match i s c :
  matcher (Cat (lit ".") (Cat (Group 2 two_labels) Eol)) i s c final = (v ← sub_tail s; Some ((2, v) :: c)).
Proof.
  destruct s as [|b s']; [done|].
  change (matcher (Cat (lit ".") (Cat (Group 2 two_labels) Eol)) i (b :: s') c final)
    with (if bool_decide (b = "."%byte) then matcher (Cat (Group 2 two_labels) Eol) (S i) s' c final else None).
  rewrite labels_end_match. unfold sub_tail. by destruct (bool_decide (b = _)), (line_text s' && dotted s').
Qed.

Lemma opt_dot i s c (k : continuation) :
  matcher (Opt (lit ".")) i s c k =
    match match s with b :: s' => if bool_decide (b = "."%byte) then k (S i) s' c else None | [] => None end with
    | Some r => Some r
    | None => k i s c
    end.
Proof.
  cbn [matcher]. unfold lit. cbn [matcher]. destruct s as [|b s']; [done|].
  destruct (bool_decide (b = "."%byte)); [|done]. by destruct (Nat.eqb_spec (S i) i); [lia|].
Qed.

Lemma SUB_search s :
  regex_search s SUB_DOMAIN_PATTERN = downto (run s) (λ j,
    match match drop j s with
          | b :: s' => if bool_decide (b = "."%byte) then v ← sub_tail s'; Some [(2, v); (1, take (S j) s)] else None
          | [] => None end with
    | Some r => Some r
    | None => v ← sub_tail (drop j s); Some [(2, v); (1, take j s)]
    end).
Proof.
  unfold SUB_DOMAIN_PATTERN. rewrite search_anchored.
  set (tl := Cat (lit ".") (Cat (Group 2 two_labels) Eol)).
  change (matcher (Cat (Group 1 (Cat any (Opt (lit ".")))) tl) 0 s [] final)
    with (matcher any 0 s [] (λ i1 s1 c1, matcher (Opt (lit ".")) i1 s1 c1
      (λ i' s' c', matcher tl i' s' ((1, take (i' - 0) s) :: c') final))).
  rewrite any_downto. apply downto_ext. intros j _. rewrite Nat.add_0_l, opt_dot.
  subst tl. cbv beta. rewrite sub_tail_match.
  destruct (drop j s) as [|b s']; [by rewrite Nat.sub_0_r|]. destruct (bool_decide (b = "."%byte)) ; [|by rewrite Nat.sub_0_r].
  by rewrite sub_tail_match, !Nat.sub_0_r.
Qed.

Lemma sub_tail_undotted t : "."%byte ∉ t → sub_tail t = None.
Proof. destruct t as [|b t]; [done|]. intros Hb. unfold sub_tail. rewrite bool_decide_eq_false_2; [done|]. intros ->. apply Hb. by left. Qed.

Lemma sub_tail_dot t : "."%byte ∉ t → sub_tail ("."%byte :: t) = None.
Proof. intros Ht. unfold sub_tail. by rewrite (not_dotted t), !andb_false_r. Qed.

Lemma SUB_matches s p u :
  line_text s = true → two_last s (Some p) u →
  ∃ c, regex_search s SUB_DOMAIN_PATTERN = Some c ∧ group_str 1 c = p.
Proof.
  intros Hs (q & t & Eu & Hq & Ht & Es).
  assert (Hu : u ≠ []) by (rewrite Eu; by destruct q).
  assert (Hlu : line_text u = true).
  { rewrite Es in Hs. change (p ++ "."%byte :: u) with (p ++ ["."%byte] ++ u) in Hs. rewrite app_assoc in Hs.
    by apply line_text_app in Hs as [_ ?]. }
  assert (Hdu : dotted u = true).
  { unfold dotted. apply bool_decide_eq_true_2. rewrite Eu. apply elem_of_app. right. by left. }
  exists [(2, u); (1, p)]. split; [|done]. rewrite SUB_search. apply (downto_Some _ (length p)).
  - by apply (run_before s p ("."%byte :: u)).
  - rewrite Es, drop_app_length, take_app_length, bool_decide_eq_true_2 by done.
    assert (E1 : sub_tail u = None).
    { rewrite Eu. destruct q as [|b q]; [by apply sub_tail_dot|]. cbn [app]. unfold sub_tail.
      rewrite bool_decide_eq_false_2; [done|]. intros ->. apply Hq. by left. }
    rewrite E1. unfold sub_tail. by rewrite Hlu, Hdu, bool_decide_eq_true_2.
  - intros j [Hj1 Hj2]. destruct (drop j s) as [|b s'] eqn:E; [done|].
    destruct (decide (b = "."%byte)) as [->|Hb].
    + rewrite Es, Eu in E. apply last_dot_after in E as ->; [|done..]. rewrite bool_decide_eq_true_2 by done.
      by rewrite sub_tail_undotted, sub_tail_dot.
    + unfold sub_tail at 2. by rewrite !bool_decide_eq_false_2.
Qed.

Lemma sub_tail_good s v : sub_tail s = Some v → s = "."%byte :: v ∧ line_text v = true ∧ dotted v = true.
Proof.
  destruct s as [|b s']; [done|]. unfold sub_tail. case_bool_decide as Hb; [|done]. subst b. cbn [andb].
  destruct (line_text s' && dotted s') eqn:E; [|done]. intros [= <-]. by apply andb_true_iff in E.
Qed.

(** Two dots at least, the text after the first of them matched. *)
Lemma SUB_fails s :
  line_text s = false ∨ (∃ u, two_last s None u) ∨ dotted s = false → regex_search s SUB_DOMAIN_PATTERN = None.
Proof.
  intros Hs. rewrite SUB_search. apply downto_None. intros j Hj.
  assert (H1 : ∀ s', drop j s = "."%byte :: s' → line_text s' = true → dotted s' = true → False).
  { intros s' E Hl Hd. destruct (good_suffix s j s' Hj E Hl) as [Hl' Hd'].
    destruct Hs as [?|[[u (q & t & Eu & Hq & Ht & Es)]|?]]; [congruence| |congruence].
    rewrite Es, Eu in E. apply last_dot in E as [_ ->]; [|done..]. by rewrite not_dotted in Hd. }
  assert (H2 : sub_tail (drop j s) = None).
  { destruct (sub_tail (drop j s)) as [v|] eqn:E; [|done]. apply sub_tail_good in E as (E & Hl & Hd).
    by destruct (H1 v). }
  rewrite H2. destruct (drop j s) as [|b s'] eqn:E; [done|]. case_bool_decide as Hb; [|done]. subst b.
  destruct (sub_tail s') as [v|] eqn:E'; [|done]. apply sub_tail_good in E' as (-> & Hl & Hd).
  exfalso. apply (H1 ("."%byte :: v)); [done| |].
  - rewrite line_text_cons by (by intros ->). by rewrite Hl.
  - unfold dotted. apply bool_decide_eq_true_2. by left.
Qed.
