(* ===== verification/DnsParser.v ===== *)
(** * The query parser (src/include/dns_parser.h, src/src/dns_parser.cc)

    [DnsParser]'s constructor checks the size of a datagram, parses it as a request,
    insists on one question and splits the name asked for into the root domain (its
    last two labels) and the subdomain (the others), by the two fixed patterns of
    [Regex].  The debug output of [PrintPacketDebug] is not modelled; the two
    lazily compiled patterns are constants. *)

From Stdlib Require Import ZArith Lia.
From Stdlib Require Import Strings.Byte Strings.String.
From stdpp Require Import base numbers list option.
From S2P Require Import Prelude.
From S2P Require Import Memory.
From S2P Require Import Text.
From S2P Require Import Name.
From S2P Require Import DnsHeader.
From S2P Require Import DnsQuestion.
From S2P Require Import WireFormat.
From S2P Require Import DnsRequestPacket.
From S2P Require Import DnsResponse.
From S2P Require Import ResponseFacts.
From S2P Require Import SampleJson.
From S2P Require Import Regex.

Record DnsParser : Type := {
  m_ParsedPacket_ : DnsRequestPacket.DnsRequestPacket;
  m_Domain_ : bytes;
  m_RootDomain_ : bytes;
  m_SubDomain_ : bytes
}.

Section operations.
  Context {H : Target}.
  Implicit Types (d : DnsParser).

Definition CacheDomainParts d : DnsParser :=
  match DnsRequestPacket.Questions (m_ParsedPacket_ d) with
  | [] => d
  | q :: _ =>
      let s_Domain := DnsQuestion.QnameAsString q in
      {| m_ParsedPacket_ := m_ParsedPacket_ d;
         m_Domain_ := s_Domain;
         m_RootDomain_ :=
           match regex_search s_Domain ROOT_DOMAIN_PATTERN with
           | Some s_Match => group_str 2 s_Match
           | None => s_Domain
           end;
         m_SubDomain_ :=
           match regex_search s_Domain SUB_DOMAIN_PATTERN with
           | Some s_Match => group_str 1 s_Match
           | None => m_SubDomain_ d
           end |}
  end.

Definition construct (p_Data : option bytes) (p_DataLength : nat) : outcome DnsParser :=
  if p_DataLength <? HeaderSize then Throw OutOfRange
  else if (UINT16_MAX <? Z.of_nat p_DataLength)%Z then Throw OutOfRange
  else match p_Data with
  | None => Throw InvalidArgument
  | Some _ =>
      p ← match DnsRequestPacket.construct p_Data p_DataLength with
          | Throw InvalidArgument => Throw RuntimeError
          | o => o
          end;
      if negb (DnsHeader.Qdcount false (DnsRequestPacket.Header p) =? 1)%Z then Throw RuntimeError
      else Done (CacheDomainParts {| m_ParsedPacket_ := p; m_Domain_ := []; m_RootDomain_ := []; m_SubDomain_ := [] |})
  end.

Definition Domain d : bytes := m_Domain_ d.
Definition RootDomain d : bytes := m_RootDomain_ d.
Definition SubDomain d : bytes := m_SubDomain_ d.
Definition Packet d : DnsRequestPacket.DnsRequestPacket := m_ParsedPacket_ d.

Definition s_RecordTypes : list (Z * bytes) := [
    (1%Z, str "A"); (28%Z, str "AAAA"); (18%Z, str "AFSDB"); (42%Z, str "APL"); (257%Z, str "CAA");
    (60%Z, str "CDNSKEY"); (59%Z, str "CDS"); (37%Z, str "CERT"); (5%Z, str "CNAME"); (62%Z, str "CSYNC");
    (49%Z, str "DHCID"); (32769%Z, str "DLV"); (39%Z, str "DNAME"); (48%Z, str "DNSKEY"); (43%Z, str "DS");
    (108%Z, str "EUI48"); (109%Z, str "EUI64"); (13%Z, str "HINFO"); (55%Z, str "HIP");
    (65%Z, str "HTTPS"); (45%Z, str "IPSECKEY"); (25%Z, str "KEY"); (36%Z, str "KX"); (29%Z, str "LOC");
    (15%Z, str "MX"); (35%Z, str "NAPTR"); (2%Z, str "NS"); (47%Z, str "NSEC"); (50%Z, str "NSEC3");
    (51%Z, str "NSEC3PARAM"); (61%Z, str "OPENPGPKEY"); (12%Z, str "PTR"); (46%Z, str "RRSIG");
    (17%Z, str "RP"); (24%Z, str "SIG"); (53%Z, str "SMIMEA"); (6%Z, str "SOA"); (33%Z, str "SRV");
    (44%Z, str "SSHFP"); (64%Z, str "SVCB"); (32768%Z, str "TA"); (249%Z, str "TKEY"); (52%Z, str "TLSA");
    (250%Z, str "TSIG"); (16%Z, str "TXT"); (256%Z, str "URI"); (63%Z, str "ZONEMD"); (255%Z, str "*");
    (252%Z, str "AXFR"); (251%Z, str "IXFR"); (41%Z, str "OPT"); (3%Z, str "MD"); (4%Z, str "MF");
    (254%Z, str "MAILA"); (7%Z, str "MB"); (8%Z, str "MG"); (9%Z, str "MR"); (14%Z, str "MINFO");
    (253%Z, str "MAILB"); (11%Z, str "WKS"); (32%Z, str "NB"); (10%Z, str "NULL"); (38%Z, str "A6");
    (30%Z, str "NXT"); (19%Z, str "X25"); (20%Z, str "ISDN"); (21%Z, str "RT"); (22%Z, str "NSAP");
    (23%Z, str "NSAP-PTR"); (26%Z, str "PX"); (31%Z, str "EID"); (34%Z, str "ATMA"); (40%Z, str "SINK");
    (27%Z, str "GPOS"); (100%Z, str "UINFO"); (101%Z, str "UID"); (102%Z, str "GID");
    (103%Z, str "UNSPEC"); (99%Z, str "SPF"); (56%Z, str "NINFO"); (57%Z, str "RKEY");
    (58%Z, str "TALINK"); (104%Z, str "NID"); (105%Z, str "L32"); (106%Z, str "L64"); (107%Z, str "LP");
    (259%Z, str "DOA")
  ].

(** [find] in the table of types. *)
Fixpoint find_type (t : Z) (l : list (Z * bytes)) : bytes :=
  match l with
  | [] => str "Unknown"
  | (t', s) :: l => if (t =? t')%Z then s else find_type t l
  end.

Definition RecordType d : bytes :=
  match DnsRequestPacket.Questions (m_ParsedPacket_ d) with
  | [] => str "Unknown"
  | q :: _ => find_type (DnsQuestion.Qtype false q) s_RecordTypes
  end.
End operations.

(** ** Domain names in two parts *)

(** The labels before the last two, and the last two. *)
Definition sub_labels (labels : list bytes) : list bytes := take (length labels - 2) labels.
Definition root_labels (labels : list bytes) : list bytes := drop (length labels - 2) labels.

(** A label the patterns see as one piece: no dot and no line break. *)
Definition plain_label (l : bytes) : Prop := l ≠ [] ∧ Forall (λ b, b ≠ "."%byte ∧ dot_any b = true) l.

Lemma plain_label_plain l : plain_label l → plain l.
Proof. intros [_ Hl]. eapply Forall_impl; [|exact Hl]. by intros ? []. Qed.

Lemma plain_join labels : Forall plain_label labels → plain (LabelsAsString labels).
Proof.
  unfold LabelsAsString. induction 1 as [|l labels Hp%plain_label_plain Hls IH]; [constructor|].
  destruct labels as [|l' labels]; [done|]. change (join _ (l :: l' :: labels)) with (l ++ "."%byte :: join "."%byte (l' :: labels)).
  apply Forall_app. split; [done|]. by constructor.
Qed.

Lemma undotted l : plain_label l → "."%byte ∉ l.
Proof. intros [_ Hl] Hin. rewrite list.Forall_forall in Hl. by destruct (Hl _ Hin). Qed.

Lemma line_text_end p l : plain p → plain_label l → line_text (p ++ l) = true.
Proof.
  intros Hp [Hne Hl]. destruct l as [|x l _] using rev_ind; [done|]. apply Forall_app in Hl as [Hl Hx].
  rewrite app_assoc. apply line_text_app; [done|]. split.
  - apply Forall_app. split; [done|]. eapply Forall_impl; [|exact Hl]. by intros ? [].
  - rewrite Forall_singleton in Hx; destruct Hx as [Hx _]. simpl. by rewrite bool_decide_eq_false_2.
Qed.

Lemma join_app ls a b :
  LabelsAsString (ls ++ [a; b]) =
    match ls with [] => a ++ "."%byte :: b | _ => LabelsAsString ls ++ "."%byte :: a ++ "."%byte :: b end.
Proof.
  unfold LabelsAsString. induction ls as [|l ls IH]; [done|].
  destruct ls as [|l' ls]; [done|].
  change (join "."%byte ((l :: l' :: ls) ++ [a; b])) with (l ++ "."%byte :: join "."%byte ((l' :: ls) ++ [a; b])).
  rewrite IH. change (join "."%byte (l :: l' :: ls)) with (l ++ "."%byte :: join "."%byte (l' :: ls)).
  rewrite <- app_assoc. done.
Qed.

Lemma QnameAsString_join q : DnsQuestion.QnameAsString q = LabelsAsString (DnsQuestion.m_Qname_ q).
Proof. unfold DnsQuestion.QnameAsString. by destruct (DnsQuestion.m_Qname_ q). Qed.

Lemma patterns_spec labels :
  Forall plain_label labels →
  match regex_search (LabelsAsString labels) ROOT_DOMAIN_PATTERN with
  | Some c => group_str 2 c | None => LabelsAsString labels end = LabelsAsString (root_labels labels) ∧
  match regex_search (LabelsAsString labels) SUB_DOMAIN_PATTERN with
  | Some c => group_str 1 c | None => [] end = LabelsAsString (sub_labels labels).
Proof.
  intros Hls. unfold root_labels, sub_labels. destruct (Nat.le_gt_cases 2 (length labels)) as [H2|H2].
  - destruct labels as [|b ls _] using rev_ind; [simpl in H2; lia|]. rewrite length_app in H2. simpl in H2.
    destruct ls as [|a ls _] using rev_ind; [simpl in H2; lia|]. rewrite <- app_assoc in *. cbn [app] in *.
    replace (length (ls ++ [a; b]) - 2) with (length ls) by (rewrite length_app; simpl; lia).
    rewrite drop_app_length, take_app_length. apply Forall_app in Hls as [Hls Hab].
    apply Forall_cons_iff in Hab as [Ha Hb]. rewrite Forall_singleton in Hb.
    assert (Hu : ∀ s p, s = LabelsAsString (ls ++ [a; b]) →
      match p with None => s = a ++ "."%byte :: b | Some p => s = p ++ "."%byte :: a ++ "."%byte :: b end →
      two_last s p (a ++ "."%byte :: b)).
    { intros s p _ E. exists a, b. split; [done|]. split; [by apply undotted|]. by split; [apply undotted|]. }
    assert (Hlt : line_text (LabelsAsString (ls ++ [a; b])) = true).
    { rewrite join_app. pose proof (plain_label_plain a Ha) as Hpa.
      pose proof (plain_join ls Hls) as Hpl. destruct ls as [|l ls].
      - replace (a ++ "."%byte :: b) with ((a ++ ["."%byte]) ++ b) by (by rewrite <- app_assoc).
        apply line_text_end; [|done]. apply Forall_app. by repeat constructor.
      - replace (LabelsAsString (l :: ls) ++ "."%byte :: a ++ "."%byte :: b)
          with ((LabelsAsString (l :: ls) ++ ["."%byte] ++ a ++ ["."%byte]) ++ b) by (by rewrite <- !app_assoc).
        apply line_text_end; [|done]. rewrite !Forall_app. by repeat constructor. }
    rewrite join_app in *. destruct ls as [|l ls].
    + destruct (ROOT_matches _ None _ Hlt (Hu _ None eq_refl eq_refl)) as (c & -> & ->).
      rewrite SUB_fails; [done|]. right. left. eexists. by apply (Hu _ None).
    + set (p := LabelsAsString (l :: ls)) in *.
      destruct (ROOT_matches _ (Some p) _ Hlt (Hu _ (Some p) eq_refl eq_refl)) as (c & -> & ->).
      by destruct (SUB_matches _ p _ Hlt (Hu _ (Some p) eq_refl eq_refl)) as (c' & -> & ->).
  - assert (Hd : dotted (LabelsAsString labels) = false).
    { destruct labels as [|l [|? ?]]; [done| |simpl in H2; lia]. rewrite Forall_singleton in Hls.
      by apply not_dotted, undotted. }
    rewrite ROOT_fails, SUB_fails by first [by rewrite Hd, andb_false_r|by right; right].
    by replace (length labels - 2) with 0 by lia.
Qed.

(** ** The constructor *)

Section parser.
  Context {H : Target}.
  Implicit Types (d : DnsParser).

(** A parser that was constructed. *)
Definition parser_ok d : Prop :=
  DnsRequestPacket.request_ok (m_ParsedPacket_ d) ∧
  ∃ q, DnsRequestPacket.Questions (m_ParsedPacket_ d) = [q] ∧
    m_Domain_ d = DnsQuestion.QnameAsString q ∧ question_ok q.

Lemma request_construct_cases data n :
  n ≤ length data →
  (∃ p, DnsRequestPacket.construct (Some data) n = Done p ∧
        DnsRequestPacket.FromWire (Some data) n DnsRequestPacket.clear = Done (true, p) ∧
        DnsRequestPacket.request_ok p) ∨
  (DnsRequestPacket.construct (Some data) n = Throw InvalidArgument ∧
   ∃ p, DnsRequestPacket.FromWire (Some data) n DnsRequestPacket.clear = Done (false, p)).
Proof.
  intros Hd. destruct (DnsRequestPacket.request_FromWire_ok data n DnsRequestPacket.clear Hd) as (r & p & E & Hp).
  unfold DnsRequestPacket.construct. rewrite E, bind_done. destruct r; [left|right]; [|by eauto].
  exists p. auto.
Qed.

Lemma CacheDomainParts_ok p q :
  DnsRequestPacket.request_ok p → DnsRequestPacket.Questions p = [q] →
  let d := CacheDomainParts {| m_ParsedPacket_ := p; m_Domain_ := []; m_RootDomain_ := []; m_SubDomain_ := [] |} in
  parser_ok d ∧ m_ParsedPacket_ d = p ∧
  (Forall plain_label (DnsQuestion.m_Qname_ q) →
     m_RootDomain_ d = LabelsAsString (root_labels (DnsQuestion.m_Qname_ q)) ∧
     m_SubDomain_ d = LabelsAsString (sub_labels (DnsQuestion.m_Qname_ q))).
Proof.
  intros Hp Hq d. unfold d, CacheDomainParts. cbn [m_ParsedPacket_ m_SubDomain_]. rewrite Hq.
  cbn [m_ParsedPacket_ m_Domain_ m_RootDomain_ m_SubDomain_]. split_and!; [|done|].
  - split; [done|]. exists q. split_and!; [done|done|]. destruct Hp as (_&_&_&_&_&_&Hqs&_).
    unfold DnsRequestPacket.Questions in Hq. rewrite Hq in Hqs. by rewrite Forall_singleton in Hqs.
  - rewrite QnameAsString_join. apply patterns_spec.
Qed.

Lemma one_question p :
  DnsRequestPacket.request_ok p →
  (DnsHeader.Qdcount false (DnsRequestPacket.Header p) =? 1)%Z =
    bool_decide (length (DnsRequestPacket.Questions p) = 1).
Proof.
  intros (_&_&_&E&_). unfold DnsRequestPacket.Header, DnsRequestPacket.Questions. rewrite E.
  case_bool_decide as Hl; [by rewrite Hl|]. apply Z.eqb_neq. lia.
Qed.

Lemma construct_Done data n :
  n ≤ length data →
  construct (Some data) n =
    if (n <? HeaderSize) || (UINT16_MAX <? Z.of_nat n)%Z then Throw OutOfRange
    else match DnsRequestPacket.FromWire (Some data) n DnsRequestPacket.clear with
    | Done (true, p) =>
        if bool_decide (length (DnsRequestPacket.Questions p) = 1)
        then Done (CacheDomainParts {| m_ParsedPacket_ := p; m_Domain_ := []; m_RootDomain_ := []; m_SubDomain_ := [] |})
        else Throw RuntimeError
    | _ => Throw RuntimeError
    end.
Proof.
  intros Hd. unfold construct. destruct (n <? HeaderSize); [done|]. cbn [orb]. destruct (UINT16_MAX <? _)%Z; [done|].
  destruct (request_construct_cases data n Hd) as [(p & -> & -> & Hp)|(-> & p & ->)]; [|done].
  rewrite bind_done, one_question by done. by destruct (bool_decide _).
Qed.

(** C39: constructing a parser from a datagram never reads outside it and never runs into
    undefined behaviour: it throws out_of_range exactly for fewer than 12 or more than 65535
    bytes, runtime_error exactly when the bytes are not an accepted request or the request
    does not have one question, and otherwise holds that request, which satisfies the
    request invariant, and the name its question asks for; when no label of the name holds
    a dot or a line break, the root domain is the name's last two labels (the whole of a
    shorter name) and the subdomain is the others. *)
Theorem parser_construct_spec data n :
  n ≤ length data →
  ∃ r p, DnsRequestPacket.FromWire (Some data) n DnsRequestPacket.clear = Done (r, p) ∧
  match construct (Some data) n with
  | Done d =>
      12 ≤ n ∧ (Z.of_nat n ≤ 65535)%Z ∧ r = true ∧ Packet d = p ∧ DnsRequestPacket.request_ok p ∧
      ∃ q, DnsRequestPacket.Questions p = [q] ∧ Domain d = DnsQuestion.QnameAsString q ∧
        (Forall plain_label (DnsQuestion.m_Qname_ q) →
           RootDomain d = LabelsAsString (root_labels (DnsQuestion.m_Qname_ q)) ∧
           SubDomain d = LabelsAsString (sub_labels (DnsQuestion.m_Qname_ q)))
  | Throw OutOfRange => n < 12 ∨ (65535 < Z.of_nat n)%Z
  | Throw RuntimeError =>
      12 ≤ n ∧ (Z.of_nat n ≤ 65535)%Z ∧ (r = false ∨ length (DnsRequestPacket.Questions p) ≠ 1)
  | _ => False
  end.
Proof.
  intros Hd. rewrite (construct_Done data n Hd). unfold HeaderSize, UINT16_MAX.
  destruct (DnsRequestPacket.request_FromWire_ok data n DnsRequestPacket.clear Hd) as (r & p & -> & Hp).
  exists r, p. split; [done|].
  destruct (Nat.ltb_spec n 12); [by left|]. cbn [orb]. destruct (Z.ltb_spec 65535 (Z.of_nat n)); [by right|].
  destruct r; [|by auto]. specialize (Hp eq_refl). case_bool_decide as Hl; [|by auto].
  destruct (DnsRequestPacket.Questions p) as [|q [|? ?]] eqn:Hq; [done| |done].
  destruct (CacheDomainParts_ok p q Hp Hq) as ((_ & q' & Hq' & Hdom & _) & Ep & Hparts). split_and!; [done..|].
  exists q. split; [done|]. rewrite Ep in Hq'. unfold DnsRequestPacket.Questions in *. rewrite Hq in Hq'. injection Hq' as <-. done.
Qed.

End parser.

Section parser_construct_spec_example.
  #[local] Existing Instance x86_64.

Lemma parser_construct_spec_witness :
  34 ≤ length DnsRequestPacket.example_query ∧
  ∃ r p, DnsRequestPacket.FromWire (Some DnsRequestPacket.example_query) 34 DnsRequestPacket.clear = Done (r, p) ∧
  match construct (Some DnsRequestPacket.example_query) 34 with
  | Done d => RootDomain d = str "a.com" ∧ SubDomain d = []
  | _ => False
  end.
Proof.
  split; [simpl; lia|].
  destruct (parser_construct_spec DnsRequestPacket.example_query 34 ltac:(simpl; lia)) as (r & p & E & _).
  exists r, p. split; [exact E|]. vm_compute. by split.
Defined.
End parser_construct_spec_example.

(** ** Record types *)

Lemma s_RecordTypes_NoDup : NoDup (fst <$> s_RecordTypes).
Proof. by apply (bool_decide_unpack _). Qed.

(** The type names under which zone data is looked up are the parser's: when zone data
    listed under the name [T] is written as a record of type [t], the parser names a question
    of type [t] by [T].  The type table lists no number twice, so its order does not matter. *)
Theorem RecordType_of_record {J} {HJ : Json J} {H : Target} d q T j t rd :
  DnsRequestPacket.Questions (m_ParsedPacket_ d) = [q] → DnsQuestion.Qtype false q = t →
  record_data (J:=J) T j t rd → RecordType d = T.
Proof.
  intros Hq Ht Hr. unfold RecordType. rewrite Hq, Ht. clear Hq Ht.
  destruct Hr as [| |T t j s labels Hin _ _ _| | | |]; try (by vm_compute).
  destruct Hin as [Hin|[Hin|[Hin|[]]]]; injection Hin as <- <-; by vm_compute.
Qed.

Section RecordType_of_record_example.
  #[local] Existing Instance x86_64.

Lemma RecordType_of_record_witness :
  RecordType {| m_ParsedPacket_ := made_request DnsHeader.clear [DnsQuestion.MakeAaaaQuery (str "a.com")];
                m_Domain_ := []; m_RootDomain_ := []; m_SubDomain_ := [] |} = str "AAAA".
Proof.
  apply (RecordType_of_record (J:=json) _ (DnsQuestion.MakeAaaaQuery (str "a.com")) (str "AAAA")
    (JString (repeat x00 16)) 28 (repeat x00 16)); [done|done|].
  by apply data_AAAA.
Defined.
End RecordType_of_record_example.
