(* ===== verification/ReverseIp.v ===== *)
(** * Addresses in reverse-lookup names (src/src/local_dns.cc)

    The zone data lists PTR records under plain addresses; the functions of
    this file turn the subdomain of a name below in-addr.arpa or ip6.arpa into
    the address it stands for, in the shortest form of an IPv6 address. *)

From Stdlib Require Import ZArith Lia.
From Stdlib Require Import Strings.Byte Strings.String.
From stdpp Require Import base numbers list option sets.
From S2P Require Import Prelude.
From S2P Require Import Text.
From S2P Require Import Memory.
From S2P Require Import DnsQuestion.

(** ** Operations *)

Section operations.
Implicit Types (p_Input : bytes).

(** The loop that splits at a separator, and the piece after the last one. *)
Definition split_parts (c : byte) p_Input : list bytes :=
  let '(s_Parts, s_Start) := split_loop c p_Input in
  if s_Start <=? length p_Input then s_Parts ++ [substr_from p_Input s_Start] else s_Parts.

Definition ReverseIpv4Components p_Input : bytes :=
  match p_Input with
  | [] => []
  | _ =>
      fold_left (λ s_Reversed l_Part,
        (if bool_decide (s_Reversed = []) then s_Reversed else s_Reversed ++ ["."%byte]) ++ l_Part)
        (rev (split_parts "." p_Input)) []
  end.

(** Groups of four parts, the last one possibly shorter. *)
Fixpoint group4 (fuel : nat) (s_Parts : list bytes) : list bytes :=
  match fuel, s_Parts with
  | _, [] | O, _ => []
  | S fuel, _ => concat (take 4 s_Parts) :: group4 fuel (drop 4 s_Parts)
  end.

Definition ReverseIpv6Components p_Input : bytes :=
  match p_Input with
  | [] => []
  | _ =>
      let s_Parts := rev (split_parts "." p_Input) in
      join ":" (group4 (length s_Parts) s_Parts)
  end.

(** A group without its leading zeros. *)
Fixpoint find_nonzero (s_Group : bytes) : bytes :=
  match s_Group with
  | b :: s => if bool_decide (b = "0"%byte) then find_nonzero s else b :: s
  | [] => []
  end.

Definition strip_zeros (s_Group : bytes) : bytes :=
  match find_nonzero s_Group with [] => ["0"%byte] | s => s end.

(** The search for the longest run of zero groups. *)
Record zero_run : Type := {
  s_MaxZeroStart : nat;
  s_MaxZeroLength : nat;
  s_CurrentZeroStart : nat;
  s_CurrentZeroLength : nat
}.

Definition close_run (z : zero_run) : zero_run :=
  if s_MaxZeroLength z <? s_CurrentZeroLength z then
    {| s_MaxZeroStart := s_CurrentZeroStart z; s_MaxZeroLength := s_CurrentZeroLength z;
       s_CurrentZeroStart := s_CurrentZeroStart z; s_CurrentZeroLength := s_CurrentZeroLength z |}
  else z.

Definition run_step (l_Index : nat) (s_Group : bytes) (z : zero_run) : zero_run :=
  if bool_decide (s_Group = ["0"%byte]) then
    {| s_MaxZeroStart := s_MaxZeroStart z; s_MaxZeroLength := s_MaxZeroLength z;
       s_CurrentZeroStart := if s_CurrentZeroLength z =? 0 then l_Index else s_CurrentZeroStart z;
       s_CurrentZeroLength := S (s_CurrentZeroLength z) |}
  else
    let z := close_run z in
    {| s_MaxZeroStart := s_MaxZeroStart z; s_MaxZeroLength := s_MaxZeroLength z;
       s_CurrentZeroStart := s_CurrentZeroStart z; s_CurrentZeroLength := 0 |}.

Fixpoint run_loop (l_Index : nat) (s_Groups : list bytes) (z : zero_run) : zero_run :=
  match s_Groups with
  | [] => close_run z
  | g :: s_Groups => run_loop (S l_Index) s_Groups (run_step l_Index g z)
  end.

(** [s_Result] ends in "::". *)
Definition ends_double (s_Result : bytes) : bool :=
  match rev s_Result with a :: b :: _ => bool_decide (a = ":"%byte) && bool_decide (b = ":"%byte) | _ => false end.

(** The output loop; the groups of the run are stepped over. *)
Fixpoint output_loop (fuel l_Index : nat) (s_Groups : list bytes) (s_MaxZeroStart s_MaxZeroLength : nat)
    (s_Result : bytes) : bytes :=
  match fuel, s_Groups with
  | _, [] | O, _ => s_Result
  | S fuel, g :: s_Groups =>
      if l_Index =? s_MaxZeroStart then
        output_loop fuel (S (l_Index + (s_MaxZeroLength - 1))) (drop (s_MaxZeroLength - 1) s_Groups)
          s_MaxZeroStart s_MaxZeroLength (s_Result ++ [":"%byte; ":"%byte])
      else
        let s_Result :=
          if negb (bool_decide (s_Result = [])) && negb (ends_double s_Result) then s_Result ++ [":"%byte]
          else s_Result in
        output_loop fuel (S l_Index) s_Groups s_MaxZeroStart s_MaxZeroLength (s_Result ++ g)
  end.

Definition SimplifyIpv6 p_Input : bytes :=
  let s_Groups := strip_zeros <$> split_parts ":" p_Input in
  let z := run_loop 0 s_Groups
    {| s_MaxZeroStart := 0; s_MaxZeroLength := 0; s_CurrentZeroStart := 0; s_CurrentZeroLength := 0 |} in
  if s_MaxZeroLength z <? 2 then join ":" s_Groups
  else output_loop (length s_Groups) 0 s_Groups (s_MaxZeroStart z) (s_MaxZeroLength z) [].
End operations.

(** ** Concrete addresses *)

Example ReverseIpv4Components_example :
  ReverseIpv4Components (str "4.3.2.1") = str "1.2.3.4".
Proof. reflexivity. Qed.

Example SimplifyIpv6_example :
  SimplifyIpv6 (str "2001:0db8:0000:0000:0001:0000:0000:0001") = str "2001:db8::1:0:0:1" ∧
  SimplifyIpv6 (str "0000:0000:0000:0000:0000:0000:0000:0000") = str "::" ∧
  SimplifyIpv6 (str "0000:0001:0002:0003:0004:0005:0006:0007") = str "0:1:2:3:4:5:6:7" ∧
  SimplifyIpv6 (str "0001:0002:0003:0004:0005:0006:0000:0000") = str "1:2:3:4:5:6::".
Proof. repeat split. Qed.

(** ** Octets *)

Lemma split_parts_eq c s : split_parts c s = split_on c s.
Proof.
  unfold split_parts. pose proof (split_loop_all c s) as Hs. destruct (split_loop c s) as [ps l].
  destruct Hs as [<- Hl]. by destruct (Nat.leb_spec l (length s)); [|lia].
Qed.

Lemma reverse_fold c ps r :
  r ≠ [] → Forall (λ p, p ≠ []) ps →
  fold_left (λ r p, (if bool_decide (r = []) then r else r ++ [c]) ++ p) ps r = join c (r :: ps).
Proof.
  intros Hr Hps. revert r Hr. induction Hps as [|p ps Hp Hps IH]; intros r Hr; [done|].
  cbn [fold_left]. rewrite bool_decide_eq_false_2 by done. rewrite IH by (by destruct r).
  rewrite (join_cons c r p ps). destruct ps as [|q ps]; [by rewrite <- app_assoc|].
  rewrite !join_cons. by rewrite <- !app_assoc.
Qed.

Lemma ReverseIpv4_join os :
  os ≠ [] → Forall octet_ok os → ReverseIpv4Components (join "." os) = join "." (rev os).
Proof.
  intros Hne Ho. unfold ReverseIpv4Components.
  assert (Hj : join "." os ≠ []).
  { destruct os as [|o os]; [done|]. inversion_clear Ho as [|? ? [_ [_ Ho1]] _]. apply join_nonempty with o; [done|by left]. }
  destruct (join "." os) as [|b t] eqn:E; [done|]. rewrite <- E. clear E Hj b t.
  rewrite split_parts_eq, split_on_join by (done || by eapply Forall_impl; [done|]; intros ? []).
  assert (Hr : Forall (λ p, p ≠ []) (rev os)).
  { apply Forall_rev. eapply Forall_impl; [done|]. by intros ? (_ & _ & ?). }
  destruct (rev os) as [|p ps]; [done|]. inversion_clear Hr. cbn [fold_left].
  rewrite bool_decide_eq_true_2 by done. by apply reverse_fold.
Qed.

(** ** Groups of hexadecimal digits *)

(** A group of an IPv6 address: one to four hexadecimal digits. *)
Definition hex_group (g : bytes) : Prop := Forall is_hex g ∧ 1 ≤ length g ≤ 4.

(** A group of four lower-case digits. *)
Definition full_group (g : bytes) : Prop := Forall is_hex g ∧ length g = 4 ∧ (tolower <$> g) = g.

Lemma hex_not c : is_hex c → c ≠ ":"%byte ∧ c ≠ "."%byte.
Proof. intros [d Hd]. split; intros ->; discriminate Hd. Qed.

Lemma hex_sep g : Forall is_hex g → (":"%byte ∉ g) ∧ ("."%byte ∉ g).
Proof. rewrite list.Forall_forall. intros Hg. split; intros Hin; by destruct (hex_not _ (Hg _ Hin)). Qed.

Lemma hex_group_ok g : hex_group g → group_ok g.
Proof. intros [Hg Hl]. split; [apply (hex_sep g Hg)|done]. Qed.

Lemma all_bytes (P : byte → bool) : forallb (λ n, P (ch (Z.of_nat n))) (seq 0 256) = true → ∀ b, P b = true.
Proof.
  intros Ha b. rewrite forallb_forall in Ha. pose proof (u8_range b). specialize (Ha (Z.to_nat (u8 b))).
  rewrite Z2Nat.id, ch_u8 in Ha by lia. apply Ha, in_seq. lia.
Qed.

Lemma tolower_hex c : is_hex c → is_hex (tolower c) ∧ tolower (tolower c) = tolower c.
Proof.
  assert (Ha : ∀ c, match digit_value c with Some _ => bool_decide (is_Some (digit_value (tolower c)))
    && bool_decide (tolower (tolower c) = tolower c) | None => true end = true) by (apply all_bytes; vm_compute; done).
  intros [d Hd]. specialize (Ha c). rewrite Hd in Ha. apply andb_true_iff in Ha as [H1 H2].
  apply bool_decide_eq_true in H1, H2. split; [|done]. destruct H1 as [d' Hd']. by exists d'.
Qed.

Lemma pad_group_full g : hex_group g → full_group (pad_group g).
Proof.
  intros [Hg Hl]. unfold pad_group. split_and!.
  - apply Forall_app. split.
    + apply list.Forall_forall. intros c Hc%list_elem_of_In%repeat_spec. subst. by exists 0%Z.
    + apply Forall_fmap. eapply Forall_impl; [done|]. intros c Hc. by apply tolower_hex.
  - rewrite length_app, repeat_length, length_fmap. lia.
  - rewrite fmap_app. f_equal.
    + induction (4 - length g) as [|n IH]; [done|]. cbn [repeat]. by rewrite fmap_cons, IH.
    + rewrite <- list_fmap_compose. apply list_fmap_ext. intros i c Hc. simpl. apply tolower_hex.
      rewrite list.Forall_forall in Hg. by apply Hg, list_elem_of_lookup_2 with i.
Qed.

Lemma find_nonzero_spec g :
  ∃ n, g = repeat "0"%byte n ++ find_nonzero g ∧
    (find_nonzero g = [] ∨ ∃ b t, find_nonzero g = b :: t ∧ b ≠ "0"%byte).
Proof.
  induction g as [|b g (n & IH & Hn)]; [by exists 0; split; [|left]|]. simpl. case_bool_decide as Hb.
  - subst b. exists (S n). split; [|done]. simpl. by rewrite <- IH.
  - exists 0. split; [done|]. right. by exists b, g.
Qed.

(** Stripping the zeros and padding again is the identity on full groups. *)
Lemma strip_zeros_full g : full_group g → hex_group (strip_zeros g) ∧ pad_group (strip_zeros g) = g.
Proof.
  intros (Hg & Hl & Hlow). unfold strip_zeros. destruct (find_nonzero_spec g) as (n & Eg & Hf).
  set (s := find_nonzero g) in *. assert (Hs : Forall is_hex s ∧ (tolower <$> s) = s ∧ n + length s = 4).
  { rewrite Eg in Hg, Hlow, Hl. apply Forall_app in Hg as [_ Hg]. rewrite fmap_app in Hlow.
    apply app_inj_2 in Hlow as [_ ?]; [|by rewrite length_fmap]. rewrite length_app, repeat_length in Hl. done. }
  destruct Hs as (Hs1 & Hs2 & Hs3). destruct s as [|b t] eqn:Es.
  - simpl in Hs3. assert (n = 4) as -> by lia. rewrite Eg. split; [|done]. split; [|simpl; lia].
    constructor; [|done]. by exists 0%Z.
  - split; [split; [done|simpl in *; lia]|]. unfold pad_group. rewrite Hs2. rewrite Eg at 1. f_equal. f_equal. lia.
Qed.

(** A stripped group is "0" exactly when its digits are. *)
Lemma hex_group_ne g : hex_group g → g ≠ [].
Proof. intros [_ Hl] ->. simpl in Hl. lia. Qed.

Lemma group4_concat gs fuel : Forall (λ g, length g = 4) gs → length gs ≤ fuel →
  group4 fuel ((λ c, [c]) <$> concat gs) = gs.
Proof.
  intros Hgs. revert fuel. induction Hgs as [|g gs Hg _ IH]; intros fuel Hf; [by destruct fuel|].
  destruct fuel as [|fuel]; simpl in Hf; [lia|]. destruct g as [|a [|b [|c [|d [|? ?]]]]]; try done.
  cbn [concat app]. rewrite !fmap_cons. cbn [group4 take drop concat app]. f_equal.
  apply IH. lia.
Qed.

Lemma length_concat4 gs : Forall (λ g : bytes, length g = 4) gs → length (concat gs) = 4 * length gs.
Proof. induction 1 as [|g gs Hg _ IH]; [done|]. simpl. rewrite length_app, Hg, IH. lia. Qed.

Lemma rev_fmap {A B} (f : A → B) l : rev (f <$> l) = f <$> rev l.
Proof. induction l as [|a l IH]; [done|]. rewrite fmap_cons. simpl. by rewrite IH, fmap_app. Qed.

Lemma ReverseIpv6_groups gs :
  gs ≠ [] → Forall full_group gs →
  ReverseIpv6Components (join "." ((λ c, [c]) <$> rev (concat gs))) = join ":" gs.
Proof.
  intros Hne Hg. assert (H4 : Forall (λ g : bytes, length g = 4) gs) by (eapply Forall_impl; [done|]; by intros ? (_ & ? & _)).
  assert (Hd : Forall (λ c, is_hex c) (concat gs)).
  { clear Hne H4. induction Hg as [|g gs [Hg _] _ IH]; [constructor|]. simpl. by apply Forall_app. }
  set (ds := (λ c, [c]) <$> rev (concat gs)).
  assert (Eds : rev ds = (λ c, [c]) <$> concat gs) by (unfold ds; by rewrite rev_fmap, rev_involutive).
  assert (Hds : Forall (λ p, "."%byte ∉ p) ds).
  { unfold ds. apply Forall_fmap, Forall_rev. eapply Forall_impl; [done|]. intros c Hc.
    apply not_elem_of_cons. split; [|apply not_elem_of_nil]. intros E. by destruct (hex_not c Hc). }
  assert (Hl : length ds = 4 * length gs).
  { unfold ds. rewrite length_fmap, length_rev. by apply length_concat4. }
  assert (Hdn : ds ≠ []) by (intros E; rewrite E in Hl; destruct gs; simpl in Hl; done || lia).
  unfold ReverseIpv6Components. destruct (join "." ds) as [|b t] eqn:E.
  - exfalso. assert (Ej : split_on "." (join "." ds) = ds) by (by apply split_on_join).
    rewrite E in Ej. simpl in Ej. rewrite <- Ej in Hl. destruct gs as [|g gs]; [done|]. simpl in Hl. lia.
  - rewrite <- E, split_parts_eq, split_on_join by done. rewrite length_rev, Eds, group4_concat; [done..|].
    rewrite Hl. lia.
Qed.

(** ** The longest run of zero groups *)

(** [len] zero groups from [start] on. *)
Definition zeros_at (gs : list bytes) (start len : nat) : Prop :=
  start + len ≤ length gs ∧ ∀ i, start ≤ i < start + len → gs !! i = Some ["0"%byte].

Definition run_inv (gs : list bytes) (idx : nat) (z : zero_run) : Prop :=
  zeros_at gs (s_MaxZeroStart z) (s_MaxZeroLength z) ∧
  (s_CurrentZeroLength z = 0 ∨
   s_CurrentZeroStart z + s_CurrentZeroLength z = idx ∧ zeros_at gs (s_CurrentZeroStart z) (s_CurrentZeroLength z)) ∧
  (∀ s l, zeros_at gs s l → s + l ≤ idx → l ≤ s_MaxZeroLength z ∨ l ≤ s_CurrentZeroLength z) ∧
  (∀ s l, zeros_at gs s l → s + l = idx → l ≤ s_CurrentZeroLength z).

Lemma close_run_inv gs idx z :
  run_inv gs idx z →
  zeros_at gs (s_MaxZeroStart (close_run z)) (s_MaxZeroLength (close_run z)) ∧
  (∀ s l, zeros_at gs s l → s + l ≤ idx → l ≤ s_MaxZeroLength (close_run z)).
Proof.
  intros (Hm & Hc & Hall & _). unfold close_run. destruct (Nat.ltb_spec (s_MaxZeroLength z) (s_CurrentZeroLength z)).
  - cbn [s_MaxZeroStart s_MaxZeroLength]. destruct Hc as [?|[_ Hc]]; [lia|]. split; [done|].
    intros s l Hs Hl. destruct (Hall s l Hs Hl); lia.
  - split; [done|]. intros s l Hs Hl. destruct (Hall s l Hs Hl); lia.
Qed.

Lemma run_step_inv gs idx g z :
  gs !! idx = Some g → run_inv gs idx z → run_inv gs (S idx) (run_step idx g z).
Proof.
  intros Hg Hz. pose proof Hz as (Hm & Hc & Hall & Hend). unfold run_step. case_bool_decide as E.
  - subst g. unfold run_inv. cbn [s_MaxZeroStart s_MaxZeroLength s_CurrentZeroStart s_CurrentZeroLength].
    assert (Hnew : ∀ s l, s + l = idx → zeros_at gs s l → zeros_at gs s (S l)).
    { intros s l E [_ Hi]. apply lookup_lt_Some in Hg as Hlt. split; [lia|]. intros i Hi'.
      destruct (Nat.eq_dec i idx) as [->|]; [done|]. apply Hi. lia. }
    assert (Hshort : ∀ s l, zeros_at gs s l → s + l = S idx → l ≤ S (s_CurrentZeroLength z)).
    { intros s [|l] [Hb Hi] Hl; [lia|]. apply le_n_S, (Hend s); [|lia]. split; [lia|]. intros i Hi'. apply Hi. lia. }
    split_and!; [done| | |done].
    + right. destruct (Nat.eqb_spec (s_CurrentZeroLength z) 0) as [E0|].
      * rewrite E0. split; [lia|]. apply Hnew; [lia|]. split; [apply lookup_lt_Some in Hg; lia|lia].
      * destruct Hc as [?|[Hc1 Hc2]]; [lia|]. split; [lia|]. by apply Hnew.
    + intros s l Hs Hl. destruct (Nat.eq_dec (s + l) (S idx)) as [El|]; [right; by apply Hshort with s|].
      destruct (Hall s l Hs); lia.
  - destruct (close_run_inv gs idx z Hz) as [H1 H2].
    assert (Hno : ∀ s l, zeros_at gs s l → s + l = S idx → l = 0).
    { intros s [|l] [_ Hi] Hl; [done|]. rewrite Hi in Hg by lia. congruence. }
    unfold run_inv. cbn [s_MaxZeroStart s_MaxZeroLength s_CurrentZeroStart s_CurrentZeroLength].
    split_and!; [done|by left| |].
    + intros s l Hs Hl. left. destruct (Nat.eq_dec (s + l) (S idx)) as [El|].
      * rewrite (Hno s l Hs El). lia.
      * apply H2 with s; [done|lia].
    + intros s l Hs Hl. by rewrite (Hno s l Hs Hl).
Qed.

Lemma run_loop_spec gs rest z : ∀ done_gs,
  gs = done_gs ++ rest → run_inv gs (length done_gs) z →
  let z' := run_loop (length done_gs) rest z in
  zeros_at gs (s_MaxZeroStart z') (s_MaxZeroLength z') ∧ ∀ s l, zeros_at gs s l → l ≤ s_MaxZeroLength z'.
Proof.
  revert z. induction rest as [|g rest IH]; intros z dgs E Hz; cbn [run_loop].
  - rewrite app_nil_r in E. subst dgs. destruct (close_run_inv gs _ z Hz) as [H1 H2]. split; [done|].
    intros s l Hs. apply H2 with s; [done|]. apply Hs.
  - assert (E' : gs = (dgs ++ [g]) ++ rest) by (by rewrite <- app_assoc).
    replace (S (length dgs)) with (length (dgs ++ [g])) by (rewrite length_app; simpl; lia).
    apply IH; [done|]. rewrite length_app, Nat.add_1_r. apply run_step_inv; [|done].
    rewrite E. by apply list_lookup_middle.
Qed.

(** ** The output *)

Lemma ends_double_group r g : hex_group g → ends_double (r ++ g) = false.
Proof.
  intros [Hg Hl]. destruct g as [|b g _] using rev_ind; [simpl in Hl; lia|].
  apply Forall_app in Hg as [_ Hb]. rewrite Forall_singleton in Hb. unfold ends_double.
  rewrite app_assoc, rev_app_distr. cbn [rev app]. destruct (rev (r ++ g)) as [|c t]; [done|].
  rewrite bool_decide_eq_false_2; [done|]. by apply hex_not.
Qed.

(** What the loop appends once the run is behind it. *)
Definition glue (r : bytes) (rs : list bytes) : bytes :=
  match rs with
  | [] => r
  | _ => (if ends_double r then r else r ++ [":"%byte]) ++ join ":" rs
  end.

Lemma output_after rs start len : ∀ fuel idx r,
  Forall hex_group rs → start < idx → r ≠ [] → length rs ≤ fuel →
  output_loop fuel idx rs start len r = glue r rs.
Proof.
  induction rs as [|g rs IH]; intros fuel idx r Hrs Hi Hr Hf; [by destruct fuel|].
  destruct fuel as [|fuel]; simpl in Hf; [lia|]. inversion_clear Hrs as [|? ? Hg Hgs]. cbn [output_loop].
  destruct (Nat.eqb_spec idx start); [lia|]. rewrite bool_decide_eq_false_2 by done. cbn [negb andb].
  assert (Er : (if negb (ends_double r) then r ++ [":"%byte] else r) = if ends_double r then r else r ++ [":"%byte]) by (by destruct (ends_double r)).
  rewrite Er. clear Er. set (r' := if ends_double r then r else r ++ [":"%byte]).
  assert (Hne : r' ++ g ≠ []).
  { intros [_ ->]%app_eq_nil. by apply (hex_group_ne []). }
  rewrite IH by (done || lia). unfold glue. rewrite ends_double_group by done.
  fold r'. destruct rs as [|g' rs]; [done|]. rewrite join_cons, <- !app_assoc. done.
Qed.

Lemma join_snoc c ls g : ls ≠ [] → join c (ls ++ [g]) = join c ls ++ c :: g.
Proof.
  induction ls as [|l ls IH]; [done|]. intros _. destruct ls as [|l' ls]; [done|].
  change ((l :: l' :: ls) ++ [g]) with (l :: (l' :: ls) ++ [g]).
  change (join c (l :: (l' :: ls) ++ [g])) with (l ++ c :: join c ((l' :: ls) ++ [g])).
  rewrite IH, join_cons by done. by rewrite <- app_assoc.
Qed.

Lemma output_before ls start len rest : ∀ fuel dls,
  Forall hex_group (dls ++ ls) → start = length dls + length ls → length ls ≤ fuel →
  output_loop fuel (length dls) (ls ++ rest) start len (join ":" dls) =
    output_loop (fuel - length ls) start rest start len (join ":" (dls ++ ls)).
Proof.
  induction ls as [|g ls IH]; intros fuel dls Hls Hs Hf.
  - rewrite app_nil_r. cbn [length app] in *. by rewrite Nat.sub_0_r, Hs, Nat.add_0_r.
  - destruct fuel as [|fuel]; simpl in Hf; [lia|]. simpl in Hs. cbn [output_loop app length].
    destruct (Nat.eqb_spec (length dls) start); [lia|].
    replace (dls ++ g :: ls) with ((dls ++ [g]) ++ ls) in * by (by rewrite <- app_assoc).
    specialize (IH fuel (dls ++ [g]) Hls ltac:(rewrite length_app; simpl; lia) ltac:(lia)).
    rewrite length_app, Nat.add_1_r in IH. rewrite Nat.sub_succ, <- IH. f_equal.
    destruct dls as [|d dls _] using rev_ind; [done|].
    apply Forall_app in Hls as [Hls _]. apply Forall_app in Hls as [Hls _]. apply Forall_app in Hls as [Hls Hd].
    rewrite Forall_singleton in Hd. rewrite (join_snoc _ (dls ++ [d])) by (by destruct dls).
    assert (Hj : join ":" (dls ++ [d]) ≠ []).
    { apply join_nonempty with d; [by apply hex_group_ne|]. apply elem_of_app. right. by left. }
    rewrite bool_decide_eq_false_2 by done.
    assert (He : ends_double (join ":" (dls ++ [d])) = false).
    { destruct dls as [|d' dls']; [by apply (ends_double_group [])|]. rewrite join_snoc by done.
      replace (join ":" (d' :: dls') ++ ":"%byte :: d) with ((join ":" (d' :: dls') ++ [":"%byte]) ++ d) by (by rewrite <- app_assoc).
      by apply ends_double_group. }
    rewrite He. cbn [negb andb]. by rewrite <- app_assoc.
Qed.

Lemma output_skip fuel g gs start len r :
  output_loop (S fuel) start (g :: gs) start len r =
    output_loop fuel (S (start + (len - 1))) (drop (len - 1) gs) start len (r ++ [":"%byte; ":"%byte]).
Proof. cbn [output_loop]. by rewrite Nat.eqb_refl. Qed.

Lemma output_run ls zs rs :
  Forall hex_group ls → Forall hex_group rs → 2 ≤ length zs →
  let gs := ls ++ zs ++ rs in
  output_loop (length gs) 0 gs (length ls) (length zs) [] =
    join ":" ls ++ ":"%byte :: ":"%byte :: join ":" rs.
Proof.
  intros Hl Hr Hz gs. unfold gs.
  pose proof (output_before ls (length ls) (length zs) (zs ++ rs) (length (ls ++ zs ++ rs)) [] Hl eq_refl) as E.
  change (join ":" []) with (@nil byte) in E. cbn [length app] in E. rewrite E by (rewrite length_app; lia). clear E.
  replace (length (ls ++ zs ++ rs) - length ls) with (length zs + length rs) by (rewrite !length_app; lia).
  destruct zs as [|z zs]; [simpl in Hz; lia|]. cbn [length] in *. rewrite Nat.add_succ_l, <- app_comm_cons, output_skip.
  replace (S (length zs) - 1) with (length zs) by lia. rewrite drop_app_length.
  rewrite output_after; [|done|lia|by intros [_ ?]%app_eq_nil|lia].
  assert (Ed : ends_double (join ":" ls ++ [":"%byte; ":"%byte]) = true).
  { unfold ends_double. by rewrite rev_app_distr. }
  unfold glue. rewrite Ed, <- app_assoc. by destruct rs.
Qed.

(** ** The shape of a simplified address *)

Definition zero_group : bytes := ["0"%byte].

(** [short_form gs s]: [s] is the address with groups [gs] in which a longest run of at
    least two zero groups, if there is any, is written as "::". *)
Definition short_form (gs : list bytes) (s : bytes) : Prop :=
  ((∀ i n, zeros_at gs i n → n < 2) ∧ s = join ":" gs) ∨
  ∃ ls n rs, gs = ls ++ repeat zero_group n ++ rs ∧ 2 ≤ n ∧ (∀ i m, zeros_at gs i m → m ≤ n) ∧
    s = join ":" ls ++ ":"%byte :: ":"%byte :: join ":" rs.

Lemma lookup_repeat_lt {A} (x : A) n i : i < n → repeat x n !! i = Some x.
Proof. revert i. induction n as [|n IH]; intros i Hi; [lia|]. destruct i as [|i]; [done|]. apply IH. lia. Qed.

Lemma zeros_at_split gs start len :
  zeros_at gs start len → gs = take start gs ++ repeat zero_group len ++ drop (start + len) gs.
Proof.
  intros [Hl Hz]. rewrite <- (take_drop start gs) at 1. f_equal.
  rewrite <- (take_drop len (drop start gs)), drop_drop. f_equal.
  apply list_eq. intros i. destruct (Nat.lt_ge_cases i len) as [Hi|Hi].
  - rewrite lookup_take_lt, lookup_drop, Hz by lia. symmetry. by apply lookup_repeat_lt.
  - rewrite !lookup_ge_None_2; [done|rewrite repeat_length; lia|rewrite length_take; lia].
Qed.

Lemma Simplify_short gs :
  gs ≠ [] → Forall full_group gs → short_form (strip_zeros <$> gs) (SimplifyIpv6 (join ":" gs)).
Proof.
  intros Hne Hg. unfold SimplifyIpv6. rewrite split_parts_eq, split_on_join.
  2: done. 2: { eapply Forall_impl; [done|]. intros g [Hh _]. apply (hex_sep g Hh). }
  set (hs := strip_zeros <$> gs).
  assert (Hh : Forall hex_group hs).
  { apply Forall_fmap. eapply Forall_impl; [done|]. intros g Hf. by apply strip_zeros_full. }
  set (z0 := {| s_MaxZeroStart := 0; s_MaxZeroLength := 0; s_CurrentZeroStart := 0; s_CurrentZeroLength := 0 |}).
  assert (Hz0 : run_inv hs (length (@nil bytes)) z0).
  { split_and!; [split; simpl; lia|by left|simpl; lia|simpl; lia]. }
  destruct (run_loop_spec hs hs z0 [] eq_refl Hz0) as [Hz Hmax]. cbn [length] in Hz, Hmax.
  set (z := run_loop 0 hs z0) in *. destruct (Nat.ltb_spec (s_MaxZeroLength z) 2) as [Hlt|Hge].
  - left. split; [|done]. intros i n Hn. specialize (Hmax i n Hn). lia.
  - right. exists (take (s_MaxZeroStart z) hs), (s_MaxZeroLength z), (drop (s_MaxZeroStart z + s_MaxZeroLength z) hs).
    pose proof (zeros_at_split hs _ _ Hz) as Es. split_and!; [done|done|done|].
    assert (Hlen : length (take (s_MaxZeroStart z) hs) = s_MaxZeroStart z).
    { rewrite length_take. destruct Hz as [Hz _]. lia. }
    pose proof (output_run (take (s_MaxZeroStart z) hs) (repeat zero_group (s_MaxZeroLength z))
      (drop (s_MaxZeroStart z + s_MaxZeroLength z) hs)) as E. cbv zeta in E. rewrite <- Es, repeat_length, Hlen in E.
    apply E; [by apply Forall_take|by apply Forall_drop|done].
Qed.

(** ** Reverse lookups *)

Section reverse_lookup.
  Context {H : Target}.
  Implicit Types (q : DnsQuestion).

Lemma simplified_labels gs s q :
  length gs = 8 → Forall full_group gs → short_form (strip_zeros <$> gs) s →
  m_Qname_ (SetPTRFromIp s q) = ((λ c, [c]) <$> rev (concat gs)) ++ [str "ip6"; str "arpa"].
Proof.
  intros Hl Hg Hs. set (hs := strip_zeros <$> gs) in *.
  assert (Hh : Forall group_ok hs).
  { apply Forall_fmap. eapply Forall_impl; [done|]. intros g Hf. by apply hex_group_ok, strip_zeros_full. }
  assert (Hlen : length hs = 8) by (unfold hs; by rewrite length_fmap).
  assert (Hp : pad_group <$> hs = gs).
  { unfold hs. rewrite <- list_fmap_compose. rewrite <- (list_fmap_id gs) at 2. apply list_fmap_ext.
    intros i g Hi. simpl. apply strip_zeros_full. rewrite list.Forall_forall in Hg. by apply Hg, list_elem_of_lookup_2 with i. }
  assert (Hos : Forall octet_ok [str "1"]) by (repeat constructor; by_decide).
  assert (E : ∀ s, m_Qname_ (SetPTRFromIp s q) = ip6_labels hs →
    m_Qname_ (SetPTRFromIp s q) = ((λ c, [c]) <$> rev (concat gs)) ++ [str "ip6"; str "arpa"]).
  { intros s' ->. unfold ip6_labels. by rewrite Hp. }
  destruct Hs as [[_ ->]|(ls & n & rs & Eh & Hn & _ & ->)]; apply E.
  - exact (proj2 (proj2 (SetPTRFromIp_names [str "1"] [] [] hs q ltac:(done) Hos ltac:(constructor) ltac:(constructor)
      ltac:(simpl; lia) Hh Hlen))).
  - pose proof Hh as Hh'. rewrite Eh in Hh. apply Forall_app in Hh as [Hls Hh]. apply Forall_app in Hh as [_ Hrs].
    pose proof Hlen as Hlen'. rewrite Eh, !length_app, repeat_length in Hlen.
    rewrite (proj1 (proj2 (SetPTRFromIp_names [str "1"] ls rs hs q ltac:(done) Hos Hls Hrs ltac:(lia) Hh' Hlen'))).
    rewrite Eh. unfold zero_group. by replace (8 - (length ls + length rs)) with n by lia.
Qed.

(** C40: reverse lookups find the address they ask for: the reverse-lookup name that
    [SetPTRFromIp] gives an IPv4 address is its octets followed by in-addr.arpa, and
    [ReverseIpv4Components] turns the first part back into the address; the name of an
    IPv6 address of eight groups of hexadecimal digits is 32 digits followed by ip6.arpa, and
    [ReverseIpv6Components] and [SimplifyIpv6] turn them into the address in its short form:
    lower case, no leading zeros, and a longest run of two or more zero groups, if there is
    any, written "::"; that form has the same reverse-lookup name. *)
Theorem reverse_lookup os gs q :
  os ≠ [] → Forall octet_ok os → length gs = 8 → Forall hex_group gs →
  (∃ sub, m_Qname_ (SetPTRFromIp (join "." os) q) = sub ++ [str "in-addr"; str "arpa"] ∧
     ReverseIpv4Components (join "." sub) = join "." os) ∧
  (∃ sub, m_Qname_ (SetPTRFromIp (join ":" gs) q) = sub ++ [str "ip6"; str "arpa"] ∧
     let s := SimplifyIpv6 (ReverseIpv6Components (join "." sub)) in
     short_form ((strip_zeros ∘ pad_group) <$> gs) s ∧
     m_Qname_ (SetPTRFromIp s q) = m_Qname_ (SetPTRFromIp (join ":" gs) q)).
Proof.
  intros Hne Ho H8 Hg.
  assert (Hgo : Forall group_ok gs) by (eapply Forall_impl; [done|]; apply hex_group_ok).
  destruct (SetPTRFromIp_names os [] [] gs q Hne Ho ltac:(constructor) ltac:(constructor) ltac:(simpl; lia) Hgo H8)
    as (-> & _ & ->). split.
  - exists (rev os). split; [done|]. rewrite ReverseIpv4_join, rev_involutive; [done| |by apply Forall_rev].
    by intros E%(f_equal (@rev _)); rewrite rev_involutive in E.
  - eexists. split; [reflexivity|]. cbv zeta.
    assert (Hp : Forall full_group (pad_group <$> gs)).
    { apply Forall_fmap. eapply Forall_impl; [exact Hg|]. apply pad_group_full. }
    assert (Hpn : pad_group <$> gs ≠ []) by (by destruct gs).
    rewrite ReverseIpv6_groups by done. pose proof (Simplify_short _ Hpn Hp) as Hs.
    rewrite (list_fmap_compose pad_group strip_zeros). split; [done|].
    unfold ip6_labels. apply simplified_labels; [by rewrite length_fmap|done|done].
Qed.
End reverse_lookup.

Section reverse_lookup_example.
  #[local] Existing Instance x86_64.

Lemma reverse_lookup_witness :
  let gs := [str "2001"; str "DB8"; str "0"; str "0"; str "1"; str "0"; str "0"; str "1"] in
  let s := str "2001:db8::1:0:0:1" in
  m_Qname_ (SetPTRFromIp s clear) = m_Qname_ (SetPTRFromIp (join ":" gs) clear).
Proof.
  intros gs s.
  destruct (reverse_lookup [str "10"; str "1"] gs clear ltac:(done)
    ltac:(unfold octet_ok; by_decide) eq_refl) as [_ (sub & E & _ & E2)].
  { repeat constructor; by eexists. }
  change (ip6_labels gs = sub ++ [str "ip6"; str "arpa"]) in E.
  apply app_inj_2 in E as [<- _]; [exact E2|reflexivity].
Defined.
End reverse_lookup_example.
