(* ===== verification/LocalDns.v ===== *)
(** * Local zones (src/include/local_dns.h, src/src/local_dns.cc)

    [CheckLocalMatch] answers a query from the configured zones.  The zone data, the
    configured TTL and the library for user-written patterns ([RegexEngine]) are
    parameters; the static cache of compiled patterns is a state that every lookup
    threads, its changes surviving exceptions.  The mutex, held during one match, makes
    each match one step of that state.  What a response function has written when it
    throws is the argument [partial], of which nothing is known. *)

From Stdlib Require Import ZArith Lia.
From Stdlib Require Import Strings.Byte Strings.String.
From stdpp Require Import base numbers list option sets gmap.
From S2P Require Import Prelude.
From S2P Require Import Stateful.
From S2P Require Import Memory.
From S2P Require Import Text.
From S2P Require Import Name.
From S2P Require Import DnsHeader.
From S2P Require Import DnsQuestion.
From S2P Require Import DnsRequestPacket.
From S2P Require Import DnsResponse.
From S2P Require Import DnsParser.
From S2P Require Import ReverseIp.

(** [std::regex] on patterns that are not known in advance: compiling throws on bad
    patterns, matching may throw too. *)
Class RegexEngine := {
  compiled : Type;
  compile : bytes → outcome compiled;
  regex_match : bytes → compiled → outcome bool
}.

(** What is documented of it: the only exception is [regex_error]. *)
Class RegexLaws `{RegexEngine} := {
  compile_spec p : (∃ r, compile p = Done r) ∨ compile p = Throw RegexError;
  regex_match_spec s r : (∃ b, regex_match s r = Done b) ∨ regex_match s r = Throw RegexError
}.

(** What [LocalDns] uses of JSON values besides [Json]: the members of an object with their
    names, and the construction from a string. *)
Class JsonZones (J : Type) `{Json J} := {
  items : J → list (bytes * J);
  of_string : bytes → J
}.

Class JsonZonesLaws (J : Type) `{JsonZones J} := {
  of_string_is s : is_string (of_string s) = true;
  of_string_get s : get_string (of_string s) = Done s
}.

Definition DNS_MAX_CNAME_DEPTH : nat := 8.
Definition DNS_REGEX_CACHE_SIZE : nat := 1024.

(** [m_RegexCache_]: an entry is a compiled pattern, or null. *)
Abbreviation RegexCache := (gmap bytes (option compiled)).

Abbreviation any_exception := (λ _ : exn, true).

(** ** Operations *)

Section operations.
  Context {H : Target} {RE : RegexEngine} {J : Type} `{JsonZones J}.
  Context (DefaultTtl : Z) (g_Zones : J) (partial : bytes).
  Implicit Types (p_Data j : J).

Abbreviation search A := (stateful RegexCache A).

Definition evict (c : RegexCache) : RegexCache := if DNS_REGEX_CACHE_SIZE <=? base.size c then ∅ else c.

(** [*entry] when it is null is undefined. *)
Definition deref (e : option (option compiled)) : outcome compiled :=
  match e with Some (Some r) => Done r | _ => Undef end.

Definition SafeRegexMatch (p_Input p_Pattern : bytes) : search bool :=
  catch (λ e, bool_decide (e = RegexError))
    (_ ← modify evict;
     s_Inserted ← gets (λ c, bool_decide (c !! p_Pattern = None));
     _ ← (if s_Inserted : bool then
            _ ← modify (<[p_Pattern := None]>);
            r ← lift (compile p_Pattern);
            modify (<[p_Pattern := Some r]>)
          else mret tt);
     e ← gets (λ c, c !! p_Pattern);
     r ← lift (deref e);
     lift (regex_match p_Input r))
    (mret false).

Definition IsForwardValue (p_Value : J) : outcome bool :=
  if is_string p_Value then s ← get_string p_Value; Done (bool_decide (s = str "{{FORWARD}}"))
  else Done false.

Definition record (t : bytes) (d : J) (n : bytes) : AnswerRecord J :=
  {| m_Type_ := t; DnsResponse.m_Data_ := d; m_Name_ := n |}.

Definition ExpandAnswerRecords (p_Type : bytes) p_Data (p_Name : bytes) (p_Answers : list (AnswerRecord J))
    : list (AnswerRecord J) :=
  if is_array p_Data then p_Answers ++ ((λ l_Element, record p_Type l_Element p_Name) <$> elements p_Data)
  else p_Answers ++ [record p_Type p_Data p_Name].

Definition DispatchSingleOrMulti (p_RecordType : bytes) (p_Packet : DnsRequestPacket.DnsRequestPacket) p_Data (p_Output : bytes)
    : outcome (Z * bytes) :=
  if is_array p_Data then
    MultiAnswer DefaultTtl p_Packet ((λ l_Element, record p_RecordType l_Element []) <$> elements p_Data) p_Output
  else CallResponseFunction DefaultTtl p_RecordType p_Packet p_Data p_Output.

(** The first member whose name, as a pattern, matches. *)
Fixpoint first_match (s_SubDomain : bytes) (l : list (bytes * J)) : search (option J) :=
  match l with
  | [] => mret None
  | (l_Key, l_Value) :: l =>
      b ← SafeRegexMatch s_SubDomain l_Key;
      if b : bool then mret (Some l_Value) else first_match s_SubDomain l
  end.

(** A result and the data found. *)
Abbreviation found := (option J).

(** The data itself unless it is a forward directive. *)
Definition unless_forward (j : J) : outcome found :=
  f ← IsForwardValue j; Done (if f : bool then None else Some j).

Definition LookupLocalRecord (p_Domain p_RecordType : bytes) : search found :=
  if bool_decide (p_Domain = []) || bool_decide (p_RecordType = []) then mret None else
  let s_Domain := drop_last_if "." p_Domain in
  if bool_decide (s_Domain = []) then mret None else
  let s_Parts := split_parts "." s_Domain in
  let n := length s_Parts in
  if n <? 2 then mret None else
  let s_RootDomain := nth (n - 2) s_Parts [] ++ ["."%byte] ++ nth (n - 1) s_Parts [] in
  let s_SubDomain :=
    fold_left (λ s l_Part, (if bool_decide (s = []) then s else s ++ ["."%byte]) ++ l_Part) (take (n - 2) s_Parts) [] in
  if negb (contains g_Zones s_RootDomain) then mret None else
  let s_DomainConfig := field_of g_Zones s_RootDomain in
  if negb (is_object s_DomainConfig) || negb (contains s_DomainConfig p_RecordType) then mret None else
  let s_Records := field_of s_DomainConfig p_RecordType in
  if negb (is_object s_Records) then mret None else
  if bool_decide (s_SubDomain = []) then
    if contains s_Records (str "@") then lift (unless_forward (field_of s_Records (str "@"))) else mret None
  else
    m ← first_match s_SubDomain (items s_Records);
    match m with
    | Some l_Value => lift (unless_forward l_Value)
    | None =>
        if contains s_Records (str "\*") then lift (unless_forward (field_of s_Records (str "\*"))) else mret None
    end.

(** The first member that is no forward directive and whose name matches. *)
Fixpoint first_cname (s_SubDomain : bytes) (l : list (bytes * J)) : search found :=
  match l with
  | [] => mret None
  | (l_Key, l_Value) :: l =>
      f ← lift (IsForwardValue l_Value);
      if f : bool then first_cname s_SubDomain l else
      b ← SafeRegexMatch s_SubDomain l_Key;
      if b : bool then mret (Some l_Value) else first_cname s_SubDomain l
  end.

(** The member of a record object with a given name, unless it is a forward directive. *)
Definition named (s_Records : J) (k : bytes) : outcome found :=
  if contains s_Records k then unless_forward (field_of s_Records k) else Done None.

Definition cname_target (s_CnameObj : J) (s_SubDomain : bytes) : search found :=
  if bool_decide (s_SubDomain = []) then lift (named s_CnameObj (str "@"))
  else
    m ← first_cname s_SubDomain (items s_CnameObj);
    match m with
    | Some j => mret (Some j)
    | None => lift (named s_CnameObj (str "\*"))
    end.

(** The loop over the chain of names, at most [fuel] of them. *)
Fixpoint chain_loop (fuel : nat) (s_RecordType s_CurrentTarget : bytes) (s_Answers : list (AnswerRecord J))
    : search (list (AnswerRecord J)) :=
  match fuel with
  | O => mret s_Answers
  | S fuel =>
      s_ChainData ← LookupLocalRecord s_CurrentTarget (str "CNAME");
      match s_ChainData with
      | Some s_ChainData =>
          let s_Answers := s_Answers ++ [record (str "CNAME") s_ChainData s_CurrentTarget] in
          s_CurrentTarget ← lift (get_string s_ChainData);
          chain_loop fuel s_RecordType s_CurrentTarget s_Answers
      | None =>
          if bool_decide (s_RecordType = str "*") then mret s_Answers else
          s_ResolvedData ← LookupLocalRecord s_CurrentTarget s_RecordType;
          mret (match s_ResolvedData with
                | Some d => ExpandAnswerRecords s_RecordType d s_CurrentTarget s_Answers
                | None => s_Answers
                end)
      end
  end.

Definition s_AnyTypes : list bytes :=
  [str "A"; str "AAAA"; str "CNAME"; str "NS"; str "MX"; str "TXT"; str "SRV"; str "SOA"].

(** The records of one type for an ANY query. *)
Definition any_records (s_DomainConfig : J) (s_SubDomain l_Type : bytes) : search found :=
  if negb (contains s_DomainConfig l_Type) || negb (is_object (field_of s_DomainConfig l_Type)) then mret None else
  let s_Records := field_of s_DomainConfig l_Type in
  if bool_decide (s_SubDomain = []) then lift (named s_Records (str "@"))
  else
    m ← first_match s_SubDomain (items s_Records);
    match m with
    | Some j => lift (unless_forward j)
    | None => lift (named s_Records (str "\*"))
    end.

Fixpoint any_loop (s_DomainConfig : J) (s_SubDomain : bytes) (types : list bytes) (s_Answers : list (AnswerRecord J))
    : search (list (AnswerRecord J)) :=
  match types with
  | [] => mret s_Answers
  | l_Type :: types =>
      d ← any_records s_DomainConfig s_SubDomain l_Type;
      any_loop s_DomainConfig s_SubDomain types
        (match d with Some d => ExpandAnswerRecords l_Type d [] s_Answers | None => s_Answers end)
  end.

(** 0 with what the response function wrote, whatever it returned. *)
Definition answered (call : outcome (Z * bytes)) : outcome (Z * bytes) :=
  '(_, p_Output) ← call; Done (0%Z, p_Output).

Definition local_match (p_Parser : DnsParser.DnsParser) (p_Output : bytes) : search (Z * bytes) :=
  let s_RootDomain := RootDomain p_Parser in
  let s_SubDomain := SubDomain p_Parser in
  let s_RecordType := RecordType p_Parser in
  let none := mret ((-1)%Z, p_Output) : search (Z * bytes) in
  if bool_decide (s_RootDomain = []) then none else
  if bool_decide (s_RecordType = []) then none else
  if negb (contains g_Zones s_RootDomain) then none else
  let s_DomainConfig := field_of g_Zones s_RootDomain in
  s_Blocked ← lift (if is_string s_DomainConfig then s ← get_string s_DomainConfig; Done (bool_decide (s = str "{{BLOCKED}}"))
                    else Done false);
  if s_Blocked : bool then
    lift (answered (CallResponseFunction DefaultTtl (str "NXDOMAIN") (Packet p_Parser) (of_string s_RootDomain) p_Output))
  else if negb (is_object s_DomainConfig) then none
  else if bool_decide (s_RecordType = str "PTR") then
    let ptr (s_FormattedSubDomain : bytes) : search (Z * bytes) :=
      if contains s_DomainConfig s_FormattedSubDomain then
        lift (answered (CallResponseFunction DefaultTtl (str "PTR") (Packet p_Parser)
                          (field_of s_DomainConfig s_FormattedSubDomain) p_Output))
      else none in
    if bool_decide (s_RootDomain = str "in-addr.arpa") then ptr (ReverseIpv4Components s_SubDomain)
    else if bool_decide (s_RootDomain = str "ip6.arpa") then ptr (SimplifyIpv6 (ReverseIpv6Components s_SubDomain))
    else none
  else
    s_Cname ← (if negb (bool_decide (s_RecordType = str "CNAME")) && contains s_DomainConfig (str "CNAME")
               then cname_target (field_of s_DomainConfig (str "CNAME")) s_SubDomain else mret None);
    match s_Cname with
    | Some s_CnameTarget =>
        s_CurrentTarget ← lift (get_string s_CnameTarget);
        s_Answers ← chain_loop DNS_MAX_CNAME_DEPTH s_RecordType s_CurrentTarget
                      [record (str "CNAME") s_CnameTarget []];
        lift (answered (MultiAnswer DefaultTtl (Packet p_Parser) s_Answers p_Output))
    | None =>
        if bool_decide (s_RecordType = str "*") then
          s_Answers ← any_loop s_DomainConfig s_SubDomain s_AnyTypes [];
          match s_Answers with
          | [] => none
          | _ => lift (answered (MultiAnswer DefaultTtl (Packet p_Parser) s_Answers p_Output))
          end
        else if negb (contains s_DomainConfig s_RecordType) then none
        else if negb (is_object (field_of s_DomainConfig s_RecordType)) then none
        else
          let s_Records := field_of s_DomainConfig s_RecordType in
          (* the data found is sent, nothing found or a forward directive is no match *)
          let dispatch (d : found) : search (Z * bytes) :=
            match d with
            | Some d => lift (answered (DispatchSingleOrMulti s_RecordType (Packet p_Parser) d p_Output))
            | None => none
            end in
          if bool_decide (s_SubDomain = []) then d ← lift (named s_Records (str "@")); dispatch d
          else
            m ← first_match s_SubDomain (items s_Records);
            d ← lift (match m with Some j => unless_forward j | None => named s_Records (str "\*") end);
            dispatch d
    end.

Definition CheckLocalMatch (p_Parser : DnsParser.DnsParser) (p_Output : bytes) : search (Z * bytes) :=
  catch any_exception (local_match p_Parser p_Output) (mret ((-1)%Z, partial)).
End operations.

(** ** The cache of patterns *)

Section cache.
  Context {RE : RegexEngine} `{!RegexLaws}.
  Implicit Types (c : RegexCache).

(** Whether a text matches a pattern: bad patterns, and matches that throw, count as no. *)
Definition matches (s p : bytes) : bool :=
  match compile p with
  | Done r => match regex_match s r with Done b => b | _ => false end
  | _ => false
  end.

Definition valid_pattern (p : bytes) : Prop := ∃ r, compile p = Done r.

(** The cache's invariant: at most 1024 entries, each what compiling its pattern gave. *)
Definition cache_ok c : Prop :=
  base.size c ≤ DNS_REGEX_CACHE_SIZE ∧
  ∀ p e, c !! p = Some e → match e with Some r => compile p = Done r | None => compile p = Throw RegexError end.

(** Caches in which no pattern has failed. *)
Definition cache_clean c : Prop := cache_ok c ∧ ∀ p, c !! p ≠ Some None.

Lemma evict_room c : cache_ok c → base.size (evict c) < DNS_REGEX_CACHE_SIZE ∧ cache_ok (evict c).
Proof.
  intros Hc. unfold evict. destruct (Nat.leb_spec DNS_REGEX_CACHE_SIZE (base.size c)) as [|Hlt].
  - rewrite map_size_empty. unfold DNS_REGEX_CACHE_SIZE. split; [lia|]. split; [rewrite map_size_empty; lia|].
    intros p e He. by rewrite lookup_empty in He.
  - by split.
Qed.

Lemma insert_ok c p e :
  base.size c < DNS_REGEX_CACHE_SIZE → cache_ok c →
  match e with Some r => compile p = Done r | None => compile p = Throw RegexError end → cache_ok (<[p := e]> c).
Proof.
  intros Hs [_ Hc] He. split.
  - destruct (c !! p) eqn:E; [rewrite map_size_insert_Some by eauto|rewrite map_size_insert_None by done]; lia.
  - intros p' e' Hl. apply lookup_insert_Some in Hl as [[<- <-]|[_ Hl]]; [done|by apply Hc].
Qed.

(** One match: a pattern not seen yet is compiled and remembered, null when it is bad;
    one that is remembered is used as it is, null too. *)
Lemma SafeRegexMatch_eq s p c :
  cache_ok c →
  SafeRegexMatch s p c =
    match evict c !! p with
    | Some (Some _) => (Done (matches s p), evict c)
    | Some None => (Undef, evict c)
    | None =>
        (Done (matches s p),
         <[p := match compile p with Done r => Some r | _ => None end]> (evict c))
    end.
Proof.
  intros Hc. destruct (evict_room c Hc) as [_ [_ Hv]]. unfold SafeRegexMatch, catch.
  change (modify evict) with (λ c : RegexCache, (Done tt : outcome unit, evict c)).
  unfold mbind, stateful_mbind, gets, modify, lift, mret, stateful_mret. set (c0 := evict c) in *.
  destruct (c0 !! p) as [[r|]|] eqn:E.
  - rewrite bool_decide_eq_false_2 by done. rewrite E. cbn [deref]. unfold matches. rewrite (Hv p (Some r) E).
    by destruct (regex_match_spec s r) as [[b ->]| ->].
  - rewrite bool_decide_eq_false_2 by done. by rewrite E.
  - rewrite bool_decide_eq_true_2 by done. unfold matches.
    destruct (compile_spec p) as [[r Hr]|Hr]; rewrite Hr; [|done].
    rewrite lookup_insert_eq. cbn [deref]. rewrite insert_insert_eq. by destruct (regex_match_spec s r) as [[b ->]| ->].
Qed.

Lemma matches_valid s p : matches s p = true → valid_pattern p.
Proof. unfold matches, valid_pattern. destruct (compile p) as [r| | | |]; [by exists r|done..]. Qed.

(** With good patterns only, the cache does not show. *)
Lemma SafeRegexMatch_clean s p c :
  cache_clean c → valid_pattern p → ∃ c', SafeRegexMatch s p c = (Done (matches s p), c') ∧ cache_clean c'.
Proof.
  intros [Hc Hn] [r Hr]. rewrite SafeRegexMatch_eq by done. destruct (evict_room c Hc) as [Hs Hv].
  assert (Hn' : ∀ p, evict c !! p ≠ Some None).
  { intros p'. unfold evict. destruct (_ <=? _); [by rewrite lookup_empty|apply Hn]. }
  destruct (evict c !! p) as [[r'|]|] eqn:E; [by eexists|by destruct (Hn' p)|]. rewrite Hr. eexists. split; [done|].
  split; [by apply insert_ok|]. intros p' Hl. apply lookup_insert_Some in Hl as [[_ ?]|[_ ?]]; [done|by apply (Hn' p')].
Qed.

End cache.
