(* ===== verification/SampleRegex.v ===== *)
(** * A concrete engine for user-written patterns

    The engine for patterns in the zone data is a parameter ([RegexEngine]).  This is a
    small one on which the examples and the witnesses evaluate: characters, escaped
    characters, "." and "*", matched by the matcher of [Regex]; other special
    characters make a pattern bad. *)

From Stdlib Require Import ZArith Lia.
From Stdlib Require Import Strings.Byte Strings.String.
From stdpp Require Import base numbers list option.
From S2P Require Import Prelude.
From S2P Require Import Text.
From S2P Require Import SampleJson.
From S2P Require Import DnsResponse.
From S2P Require Import Regex.
From S2P Require Import LocalDns.

(** A token: a single-character pattern, or the quantifier. *)
Fixpoint tokens (p : bytes) : option (list (option regex)) :=
  match p with
  | [] => Some []
  | b :: p =>
      if bool_decide (b = "\"%byte) then
        match p with c :: p => cons (Some (lit c)) <$> tokens p | [] => None end
      else if bool_decide (b = "."%byte) then cons (Some (Chr dot_any)) <$> tokens p
      else if bool_decide (b = "*"%byte) then cons None <$> tokens p
      else if bool_decide (b ∈ str "^$+?()[]{}|") then None
      else cons (Some (lit b)) <$> tokens p
  end.

Fixpoint assemble (ts : list (option regex)) : option regex :=
  match ts with
  | [] => Some Eol
  | Some r :: None :: ts => Cat (Star r) <$> assemble ts
  | Some r :: ts => Cat r <$> assemble ts
  | None :: _ => None
  end.

#[export] Instance sample_regex : RegexEngine := {
  compiled := regex;
  compile p := match tokens p ≫= assemble with Some r => Done r | None => Throw RegexError end;
  regex_match s r := Done (bool_decide (is_Some (regex_search s (Cat Bol r))))
}.

#[export] Instance sample_regex_laws : RegexLaws.
Proof.
  split; simpl.
  - intros p. destruct (tokens p ≫= assemble); [left; by eexists|by right].
  - intros s r. left. by eexists.
Qed.

(** The members of an object, each name once. *)
Fixpoint first_members (l : list (bytes * json)) : list (bytes * json) :=
  match l with
  | [] => []
  | p :: l => p :: filter (λ q, q.1 ≠ p.1) (first_members l)
  end.

(** Arrays are iterated with their indices as names, other values with an empty one. *)
#[export] Instance sample_zones : JsonZones json := {
  items j := match j with
             | JObject l => first_members l
             | JArray l => imap (λ i j, (print_dec (Z.of_nat i), j)) l
             | JNull => []
             | _ => [([], j)]
             end;
  of_string := JString
}.

#[export] Instance sample_zones_laws : JsonZonesLaws json.
Proof. by split. Qed.

Example sample_regex_example :
  matches (str "www") (str "w*") = true ∧ matches (str "www") (str "\*") = false ∧ matches (str "w") (str "(w") = false.
Proof. by vm_compute. Qed.
