(* ===== verification/LocalFacts.v ===== *)
(** * What the local zones answer

    Facts about [LocalDns.CheckLocalMatch]: it is total and independent of the cache of
    patterns when the zone data's patterns are good, and it answers with the zone data. *)

From Stdlib Require Import ZArith Lia.
From Stdlib Require Import Strings.Byte Strings.String.
From stdpp Require Import base numbers list option sets gmap.
From S2P Require Import Prelude.
From S2P Require Import Stateful.
From S2P Require Import Memory.
From S2P Require Import Text.
From S2P Require Import Name.
From S2P Require Import DnsHeader.
From S2P Require Import DnsQuestion.
From S2P Require Import WireFormat.
From S2P Require Import DnsRequestPacket.
From S2P Require Import DnsResponsePacket.
From S2P Require Import DnsResponse.
From S2P Require Import ResponseFacts.
From S2P Require Import SampleJson.
From S2P Require Import WholeResponses.
From S2P Require Import ResponseSafety.
From S2P Require Import DnsParser.
From S2P Require Import ReverseIp.
From S2P Require Import LocalDns.
From S2P Require Import SampleRegex.

Section steady.
  Context {RE : RegexEngine} `{!RegexLaws}.

(** [m] has the same outcome, satisfying [Q] or the JSON exception, on every clean cache,
    and leaves it clean. *)
Definition steady {A} (Q : A → Prop) (m : stateful RegexCache A) : Prop :=
  ∃ o, wp Q o ∧ ∀ c, cache_clean c → ∃ c', m c = (o, c') ∧ cache_clean c'.

Lemma steady_lift {A} (Q : A → Prop) o : wp Q o → steady Q (lift o).
Proof. intros Ho. exists o. split; [done|]. intros c Hc. by exists c. Qed.

Lemma steady_ret {A} (Q : A → Prop) a : Q a → steady Q (mret a).
Proof. apply (steady_lift Q (Done a)). Qed.

Lemma steady_bind {A B} (P : A → Prop) (Q : B → Prop) (m : stateful RegexCache A) f :
  steady P m → (∀ a, P a → steady Q (f a)) → steady Q (m ≫= f).
Proof.
  intros (o & Ho & Hm) Hf. destruct o as [a|e| | |]; [|exists (Throw e)|done..].
  - destruct (Hf a Ho) as (o' & Ho' & Hf'). exists o'. split; [done|]. intros c Hc.
    destruct (Hm c Hc) as (c1 & Ec & Hc1). rewrite (stateful_bind_Done _ _ _ _ _ Ec). by apply Hf'.
  - split; [done|]. intros c Hc. destruct (Hm c Hc) as (c1 & Ec & Hc1). exists c1.
    by rewrite (stateful_bind_Throw _ _ _ _ _ Ec).
Qed.

Lemma steady_mono {A} (P Q : A → Prop) m : steady P m → (∀ a, P a → Q a) → steady Q m.
Proof. intros (o & Ho & Hm) HPQ. exists o. split; [by eapply wp_mono|done]. Qed.

Lemma steady_match s p : valid_pattern p → steady (λ _, True) (SafeRegexMatch s p).
Proof. intros Hp. exists (Done (matches s p)). split; [done|]. intros c Hc. by apply SafeRegexMatch_clean. Qed.
End steady.

Section safety.
  Context {H : Target} {RE : RegexEngine} `{!RegexLaws} {J : Type}
    `{HJ : Json J} `{!JsonLaws J} `{HZ : !JsonZones J} `{!JsonZonesLaws J}.
  Context (DefaultTtl : Z) (g_Zones : J) (partial : bytes).
  Implicit Types (j d : J) (out : bytes).

(** The names of the records in the zone data are good patterns. *)
Definition patterns_ok : Prop :=
  ∀ root T k v, (k, v) ∈ items (field_of (field_of g_Zones root) T) → valid_pattern k.

Lemma IsForwardValue_wp j : wp (λ _, True) (IsForwardValue j).
Proof. unfold IsForwardValue. destruct (is_string j); [|done]. eapply wp_bind; [apply get_string_wp|]. done. Qed.

Lemma unless_forward_wp j : wp (λ _, True) (unless_forward j).
Proof. unfold unless_forward. eapply wp_bind; [apply IsForwardValue_wp|]. done. Qed.

Lemma named_wp j k : wp (λ _, True) (named j k).
Proof. unfold named. destruct (contains j k); [apply unless_forward_wp|done]. Qed.

Lemma first_match_steady s (l : list (bytes * J)) :
  (∀ k v, (k, v) ∈ l → valid_pattern k) → steady (λ _, True) (first_match s l).
Proof.
  induction l as [|[k v] l IH]; intros Hl; [by apply steady_ret|]. cbn [first_match].
  eapply steady_bind; [apply steady_match; apply (Hl k v); by left|]. intros [] _; [by apply steady_ret|].
  apply IH. intros k' v' Hin. apply (Hl k' v'). by right.
Qed.

Lemma first_cname_steady s (l : list (bytes * J)) :
  (∀ k v, (k, v) ∈ l → valid_pattern k) → steady (λ _, True) (first_cname s l).
Proof.
  induction l as [|[k v] l IH]; intros Hl; [by apply steady_ret|]. cbn [first_cname].
  assert (IH' : steady (λ _, True) (first_cname s l)) by (apply IH; intros k' v' Hin; apply (Hl k' v'); by right).
  eapply steady_bind; [apply steady_lift, IsForwardValue_wp|]. intros [] _; [done|].
  eapply steady_bind; [apply steady_match; apply (Hl k v); by left|]. intros [] _; [by apply steady_ret|done].
Qed.

Context (Hpat : patterns_ok).

(** Steps through the searches of the zone data. *)
#[local] Ltac steady_step :=
  match goal with
  | |- steady _ (let s := _ in _) => cbv zeta
  | |- steady _ (if ?b then _ else _) => destruct b
  | |- steady _ (match ?m with Some _ => _ | None => _ end) => destruct m
  | |- steady _ (match ?m with [] => _ | _ => _ end) => destruct m
  | |- steady _ (mret _) => by apply steady_ret
  | |- steady _ (lift (unless_forward _)) => apply steady_lift, unless_forward_wp
  | |- steady _ (lift (named _ _)) => apply steady_lift, named_wp
  | |- steady _ (first_match _ _ ≫= _) => eapply steady_bind; [apply first_match_steady; apply Hpat|intros ? _]
  | |- steady _ (first_cname _ _ ≫= _) => eapply steady_bind; [apply first_cname_steady; apply Hpat|intros ? _]
  end.

Lemma LookupLocalRecord_steady dom T : steady (λ _, True) (LookupLocalRecord g_Zones dom T).
Proof. unfold LookupLocalRecord. repeat steady_step. Qed.

Lemma chain_loop_steady fuel : ∀ T target (answers : list (AnswerRecord J)),
  steady (λ _, True) (chain_loop g_Zones fuel T target answers).
Proof.
  induction fuel as [|fuel IH]; intros T target answers; [by apply steady_ret|]. cbn [chain_loop].
  eapply steady_bind; [apply LookupLocalRecord_steady|]. intros [d|] _.
  - cbv zeta. eapply steady_bind; [apply steady_lift, get_string_wp|]. intros s _. apply IH.
  - destruct (bool_decide _); [by apply steady_ret|]. eapply steady_bind; [apply LookupLocalRecord_steady|].
    intros d _. by apply steady_ret.
Qed.

Lemma cname_target_steady root T s : steady (λ _, True) (cname_target (field_of (field_of g_Zones root) T) s).
Proof. unfold cname_target. repeat steady_step. Qed.

Lemma any_records_steady root s T : steady (λ _, True) (any_records (field_of g_Zones root) s T).
Proof. unfold any_records. repeat steady_step. Qed.

Lemma any_loop_steady root s types : ∀ answers, steady (λ _, True) (any_loop (field_of g_Zones root) s types answers).
Proof.
  induction types as [|T types IH]; intros answers; [by apply steady_ret|]. cbn [any_loop].
  eapply steady_bind; [apply any_records_steady|]. intros d _. apply IH.
Qed.

(** *** The whole match *)

Context (P : DnsParser) (HP : parser_ok P).

Abbreviation id := (DnsHeader.Id false (DnsRequestPacket.Header (Packet P))).

(** What a match leaves: -1 and the output as it was, or 0 and a message for the
    request, or 0 and the output as it was when the zone data is bad. *)
Definition matched out (r : Z * bytes) : Prop :=
  r = ((-1)%Z, out) ∨ r.1 = 0%Z ∧ (reply_to id r.2 ∨ r.2 = out).

Lemma answered_wp out (m : outcome (Z * bytes)) : wp (leaves (m_ParsedPacket_ P) out) m → wp (matched out) (answered m).
Proof.
  intros Hm. unfold answered. eapply wp_bind; [exact Hm|]. intros [r w] [Hr|[= -> ->]]; simpl; right; (split; [done|]).
  - by left.
  - by right.
Qed.

Lemma Dispatch_wp T d out : wp (leaves (m_ParsedPacket_ P) out) (DispatchSingleOrMulti DefaultTtl T (Packet P) d out).
Proof.
  destruct HP as (Hok & q & Hq & _). unfold DispatchSingleOrMulti.
  destruct (is_array d); [by eapply MultiAnswer_wp|by eapply CallResponseFunction_wp].
Qed.

Lemma local_match_steady out : steady (matched out) (local_match DefaultTtl g_Zones P out).
Proof.
  pose proof HP as (Hok & q & Hq & _).
  assert (Hnone : steady (matched out) (mret ((-1)%Z, out))) by (apply steady_ret; by left).
  assert (Hcall : ∀ T d, steady (matched out) (lift (answered (CallResponseFunction DefaultTtl T (Packet P) d out)))).
  { intros T d. by eapply steady_lift, answered_wp, CallResponseFunction_wp. }
  assert (Hmulti : ∀ rs : list (AnswerRecord J), steady (matched out) (lift (answered (MultiAnswer DefaultTtl (Packet P) rs out)))).
  { intros rs. by eapply steady_lift, answered_wp, MultiAnswer_wp. }
  unfold local_match. cbv zeta. do 3 (case_match; [done|]).
  eapply steady_bind with (P := λ _, True).
  { apply steady_lift. destruct (is_string _); [|done]. eapply wp_bind; [apply get_string_wp|]. done. }
  intros [] _; [apply Hcall|]. case_match; [done|]. case_match; [repeat (case_match; try done)|].
  eapply steady_bind with (P := λ _, True); [case_match; [apply cname_target_steady|by apply steady_ret]|].
  intros [t|] _.
  - eapply steady_bind; [apply steady_lift, get_string_wp|]. intros s _.
    eapply steady_bind; [apply chain_loop_steady|]. intros rs _. apply Hmulti.
  - case_match; [|do 2 (case_match; [done|])].
    + eapply steady_bind; [apply any_loop_steady|]. intros [|r rs] _; [done|apply Hmulti].
    + assert (Hd : ∀ d : option J, steady (matched out) (match d with
        | Some d => lift (answered (DispatchSingleOrMulti DefaultTtl (RecordType P) (Packet P) d out))
        | None => mret ((-1)%Z, out) end)).
      { intros [d|]; [|done]. apply steady_lift, answered_wp, Dispatch_wp. }
      case_match.
      * eapply steady_bind; [apply steady_lift, named_wp|]. intros d _. apply Hd.
      * eapply steady_bind; [apply first_match_steady; apply Hpat|]. intros m _.
        eapply steady_bind with (P := λ _, True); [apply steady_lift; destruct m; [apply unless_forward_wp|apply named_wp]|].
        intros d _. apply Hd.
Qed.

Lemma CheckLocalMatch_steady out :
  ∃ r, (∀ c, cache_clean c → ∃ c', CheckLocalMatch DefaultTtl g_Zones partial P out c = (Done r, c') ∧ cache_clean c') ∧
    (matched out r ∨ r = ((-1)%Z, partial)).
Proof.
  destruct (local_match_steady out) as (o & Ho & Hm). unfold CheckLocalMatch, catch. destruct o as [r|e| | |]; [| |done..].
  - exists r. split; [|by left]. intros c Hc. destruct (Hm c Hc) as (c' & -> & ?). by exists c'.
  - exists ((-1)%Z, partial). split; [|by right]. intros c Hc. destruct (Hm c Hc) as (c' & -> & ?). by exists c'.
Qed.
End safety.

Section answers.
  Context {H : Target} {RE : RegexEngine} `{!RegexLaws} {J : Type}
    `{HJ : Json J} `{!JsonLaws J} `{HZ : !JsonZones J} `{!JsonZonesLaws J}.
  Context (DefaultTtl : Z) (g_Zones : J) (partial : bytes).
  Implicit Types (recs v d : J) (out : bytes).

Definition forward v : Prop := is_string v = true ∧ get_string v = Done (str "{{FORWARD}}").

(** The data that a record object holds for a subdomain: the one under "@" for the zone
    itself, else the first one whose name, as a pattern, matches, else the wildcard's. *)
Definition selected recs (s : bytes) v : Prop :=
  if bool_decide (s = []) then contains recs (str "@") = true ∧ v = field_of recs (str "@")
  else
    (∃ l1 k l2, items recs = l1 ++ (k, v) :: l2 ∧ matches s k = true ∧ Forall (λ x, matches s x.1 = false) l1) ∨
    (Forall (λ x, matches s x.1 = false) (items recs) ∧ contains recs (str "\*") = true ∧
     v = field_of recs (str "\*")).

Lemma first_match_found s (l1 l2 : list (bytes * J)) k v c :
  cache_clean c → (∀ k' v', (k', v') ∈ l1 ++ (k, v) :: l2 → valid_pattern k') →
  matches s k = true → Forall (λ x, matches s x.1 = false) l1 →
  ∃ c', first_match s (l1 ++ (k, v) :: l2) c = (Done (Some v), c') ∧ cache_clean c'.
Proof.
  intros Hc Hv Hk Hl1. revert c Hc. induction Hl1 as [|[k1 v1] l1 Hk1 _ IH]; intros c Hc; cbn [app first_match].
  - destruct (SafeRegexMatch_clean s k c Hc) as (c' & E & Hc'); [apply (Hv k v); by left|].
    rewrite (stateful_bind_Done _ _ _ _ _ E), Hk. by exists c'.
  - destruct (SafeRegexMatch_clean s k1 c Hc) as (c' & E & Hc'); [apply (Hv k1 v1); by left|].
    rewrite (stateful_bind_Done _ _ _ _ _ E). simpl in Hk1. rewrite Hk1. apply IH; [|done].
    intros k' v' Hin. apply (Hv k' v'). by right.
Qed.

Lemma first_match_none s (l : list (bytes * J)) c :
  cache_clean c → (∀ k' v', (k', v') ∈ l → valid_pattern k') → Forall (λ x, matches s x.1 = false) l →
  ∃ c', first_match s l c = (Done None, c') ∧ cache_clean c'.
Proof.
  intros Hc Hv Hl. revert c Hc. induction Hl as [|[k1 v1] l Hk1 _ IH]; intros c Hc; cbn [first_match]; [by exists c|].
  destruct (SafeRegexMatch_clean s k1 c Hc) as (c' & E & Hc'); [apply (Hv k1 v1); by left|].
  rewrite (stateful_bind_Done _ _ _ _ _ E). simpl in Hk1. rewrite Hk1. apply IH; [|done].
  intros k' v' Hin. apply (Hv k' v'). by right.
Qed.

Lemma IsForward_true v : forward v → IsForwardValue v = Done true.
Proof. intros [Hs Hg]. unfold IsForwardValue. rewrite Hs, Hg, bind_done. by rewrite bool_decide_eq_true_2. Qed.

Lemma IsForward_false v : ¬ forward v → IsForwardValue v = Done false.
Proof.
  intros Hf. unfold IsForwardValue. destruct (is_string v) eqn:Es; [|done].
  pose proof (get_string_spec v) as Hs. rewrite Es in Hs. destruct Hs as [s Hs]. rewrite Hs, bind_done.
  rewrite bool_decide_eq_false_2; [done|]. intros ->. by apply Hf.
Qed.

(** The data that is found, nothing when it is a forward directive. *)
Definition chosen v : option J := if decide (IsForwardValue v = Done true) then None else Some v.

Lemma unless_forward_eq v : unless_forward v = Done (chosen v).
Proof.
  unfold unless_forward, chosen. destruct (decide (IsForwardValue v = Done true)) as [E|Hf]; [by rewrite E|].
  rewrite IsForward_false, bind_done; [done|]. by intros Hv%IsForward_true.
Qed.

Lemma chosen_some v : ¬ forward v → chosen v = Some v.
Proof. intros Hf. unfold chosen. rewrite decide_False; [done|]. by rewrite IsForward_false. Qed.

Lemma chosen_none v : forward v → chosen v = None.
Proof. intros Hf. unfold chosen. rewrite decide_True; [done|]. by apply IsForward_true. Qed.

Context (Hpat : patterns_ok g_Zones).

(** The search for data of a type, as the last part of a match runs it. *)
Definition search_records recs (s : bytes) : stateful RegexCache (option J) :=
  if bool_decide (s = []) then lift (named recs (str "@"))
  else m ← first_match s (items recs); lift (match m with Some j => unless_forward j | None => named recs (str "\*") end).

Lemma search_selected root T s v c :
  let recs := field_of (field_of g_Zones root) T in
  selected recs s v → cache_clean c →
  ∃ c', search_records recs s c = (Done (chosen v), c') ∧ cache_clean c'.
Proof.
  intros recs Hv Hc. unfold search_records, selected in *. destruct (bool_decide_reflect (s = [])) as [->|Hs].
  - destruct Hv as [Hin ->]. exists c. split; [|done]. unfold named. rewrite Hin, unless_forward_eq. done.
  - destruct Hv as [(l1 & k & l2 & El & Hk & Hl1)|(Hl & Hin & ->)].
    + destruct (first_match_found s l1 l2 k v c Hc) as (c' & E & Hc'); [rewrite <- El; apply Hpat|done..|].
      exists c'. split; [|done]. rewrite El, (stateful_bind_Done _ _ _ _ _ E). unfold lift. by rewrite unless_forward_eq.
    + destruct (first_match_none s (items recs) c Hc) as (c' & E & Hc'); [apply Hpat|done|].
      exists c'. split; [|done]. rewrite (stateful_bind_Done _ _ _ _ _ E). unfold lift, named. by rewrite Hin, unless_forward_eq.
Qed.

(** *** Answers *)

Context (P : DnsParser) (q : DnsQuestion) (HP : parser_ok P).
Context (Hq : DnsRequestPacket.Questions (Packet P) = [q]) (He : encodable (m_Qname_ q)).

Abbreviation Packet := (DnsParser.Packet P).
Abbreviation cls := (DnsQuestion.Qclass false q).

(** The message with the answers [rs], which the packet parser reads back. *)
Definition answer_message (rs : list rr) (p0 : DnsResponsePacket) (w : bytes) : Prop :=
  w = reply Packet 0 true q rs [] [] ∧
  DnsResponsePacket.FromWire (Some w) (length w) p0 = Done (true, reply_response Packet 0 true q rs [] []).

Lemma request_accepted : request_ok Packet.
Proof. apply HP. Qed.

Lemma MultiAnswer_message records rs out p0 :
  answers_data DefaultTtl cls records rs → 1 ≤ length rs → (Z.of_nat (length rs) ≤ UINT16_MAX)%Z →
  ∃ w, MultiAnswer DefaultTtl Packet records out = Done (0%Z, w) ∧ answer_message rs p0 w.
Proof.
  intros Hrs Hn Hl. pose proof (Forall2_length _ _ _ Hrs) as El. eexists. split.
  - apply (MultiAnswer_iff DefaultTtl Packet q [] request_accepted Hq). do 3 (split; [done || lia|]). by exists rs.
  - split; [done|]. by apply (MultiAnswer_FromWire DefaultTtl Packet q [] request_accepted Hq records); [lia..|].
Qed.

Lemma Call_message T d rs out p0 :
  In T record_types → answers_data DefaultTtl cls [record T d []] rs →
  ∃ w, CallResponseFunction DefaultTtl T Packet d out = Done (0%Z, w) ∧ answer_message rs p0 w.
Proof.
  intros HT Hrs. pose proof (Forall2_length _ _ _ Hrs) as El. simpl in El.
  destruct (MultiAnswer_message _ rs out p0 Hrs) as (w & E & Hw); [lia|unfold UINT16_MAX; lia|].
  exists w. split; [|done]. apply (CallResponseFunction_iff DefaultTtl Packet q [] request_accepted Hq); [done|].
  by apply (MultiAnswer_one DefaultTtl Packet q [] request_accepted Hq) in E.
Qed.

Lemma Dispatch_message T d rs out p0 :
  In T record_types → answers_data DefaultTtl cls (ExpandAnswerRecords T d [] []) rs →
  1 ≤ length rs → (Z.of_nat (length rs) ≤ UINT16_MAX)%Z →
  ∃ w, DispatchSingleOrMulti DefaultTtl T Packet d out = Done (0%Z, w) ∧ answer_message rs p0 w.
Proof.
  intros HT Hrs Hn Hl. unfold DispatchSingleOrMulti, ExpandAnswerRecords in *. rewrite !app_nil_l in Hrs.
  destruct (is_array d); [by apply MultiAnswer_message|by apply Call_message].
Qed.

Abbreviation cfg := (field_of g_Zones (RootDomain P)).

(** The zone of the name asked for is listed. *)
Definition zone_listed : Prop := RootDomain P ≠ [] ∧ contains g_Zones (RootDomain P) = true.

(** The search for the data of the type asked for, and what is done with it. *)
Definition type_search out : stateful RegexCache (Z * bytes) :=
  d ← search_records (field_of cfg (RecordType P)) (SubDomain P);
  match d with
  | Some d => lift (answered (DispatchSingleOrMulti DefaultTtl (RecordType P) Packet d out))
  | None => mret ((-1)%Z, out)
  end.

(** A match in a zone whose data is an object, up to the type's own search. *)
Lemma local_match_type out c :
  zone_listed → is_string cfg = false → is_object cfg = true → In (RecordType P) record_types →
  RecordType P ≠ str "PTR" → RecordType P = str "CNAME" ∨ contains cfg (str "CNAME") = false →
  local_match DefaultTtl g_Zones P out c =
    (if contains cfg (RecordType P) && is_object (field_of cfg (RecordType P)) then type_search out c
     else (Done ((-1)%Z, out), c)).
Proof.
  intros [Hr Hz] Hs Ho HT Hptr Hc. unfold local_match. cbv zeta. rewrite Hz, Hs, Ho.
  assert (HTne : RecordType P ≠ [] ∧ RecordType P ≠ str "*").
  { split; intros E; rewrite E in HT; repeat (destruct HT as [HT|HT]; [discriminate HT|]); done. }
  destruct HTne as [HT1 HT2]. rewrite !(bool_decide_eq_false_2 _ Hr), !(bool_decide_eq_false_2 _ HT1),
    !(bool_decide_eq_false_2 _ HT2), !(bool_decide_eq_false_2 _ Hptr). cbn [negb].
  assert (E : (if negb (bool_decide (RecordType P = str "CNAME")) && contains cfg (str "CNAME")
               then cname_target (field_of cfg (str "CNAME")) (SubDomain P) else mret None) = (mret None : stateful RegexCache (option J))).
  { destruct Hc as [Hc|Hc]; [by rewrite bool_decide_eq_true_2|by rewrite Hc, andb_false_r]. }
  rewrite E, lift_Done.
  rewrite (stateful_bind_Done _ (mret None : stateful RegexCache (option J)) c None c eq_refl).
  destruct (contains cfg (RecordType P)), (is_object (field_of cfg (RecordType P))); cbn [andb negb]; try done.
  unfold type_search, search_records. destruct (bool_decide (SubDomain P = [])); [done|].
  unfold mbind, stateful_mbind. by destruct (first_match _ _ c) as [[m|e| | |] c'].
Qed.

Lemma local_match_object out c :
  zone_listed → is_string cfg = false → is_object cfg = true → In (RecordType P) record_types →
  RecordType P ≠ str "PTR" → RecordType P = str "CNAME" ∨ contains cfg (str "CNAME") = false →
  contains cfg (RecordType P) = true → is_object (field_of cfg (RecordType P)) = true →
  local_match DefaultTtl g_Zones P out c = type_search out c.
Proof. intros Hl Hs Ho HT Hptr Hc HcT HoT. by rewrite local_match_type, HcT, HoT. Qed.

(** The address a reverse lookup asks for, by the zone it is made in. *)
Definition reverse_address (root sub : bytes) : option bytes :=
  if bool_decide (root = str "in-addr.arpa") then Some (ReverseIpv4Components sub)
  else if bool_decide (root = str "ip6.arpa") then Some (SimplifyIpv6 (ReverseIpv6Components sub))
  else None.

Lemma local_match_ptr out c a :
  zone_listed → is_string cfg = false → is_object cfg = true → RecordType P = str "PTR" →
  reverse_address (RootDomain P) (SubDomain P) = Some a → contains cfg a = true →
  local_match DefaultTtl g_Zones P out c =
    (answered (CallResponseFunction DefaultTtl (str "PTR") Packet (field_of cfg a) out), c).
Proof.
  intros [Hr Hz] Hs Ho HT Ha Hc. unfold local_match. cbv zeta. rewrite Hz, Hs, Ho, HT.
  rewrite (bool_decide_eq_false_2 _ Hr), (bool_decide_eq_false_2 (str "PTR" = [])) by done. cbn [negb].
  rewrite lift_Done, (bool_decide_eq_true_2 (str "PTR" = str "PTR")) by done.
  unfold reverse_address in Ha. destruct (bool_decide (RootDomain P = str "in-addr.arpa")).
  - injection Ha as <-. by rewrite Hc.
  - destruct (bool_decide (RootDomain P = str "ip6.arpa")); [|done]. injection Ha as <-. by rewrite Hc.
Qed.

Lemma local_match_blocked out c :
  zone_listed → RecordType P ≠ [] → is_string cfg = true → get_string cfg = Done (str "{{BLOCKED}}") →
  local_match DefaultTtl g_Zones P out c =
    (answered (CallResponseFunction DefaultTtl (str "NXDOMAIN") Packet (of_string (RootDomain P)) out), c).
Proof.
  intros [Hr Hz] HT Hs Hg. unfold local_match. cbv zeta. rewrite Hz, Hs, Hg, bind_done.
  rewrite (bool_decide_eq_false_2 _ Hr), (bool_decide_eq_false_2 _ HT). cbn [negb]. by rewrite lift_Done, bool_decide_eq_true_2.
Qed.

Lemma Check_of_match out c w c' :
  local_match DefaultTtl g_Zones P out c = (Done w, c') →
  CheckLocalMatch DefaultTtl g_Zones partial P out c = (Done w, c').
Proof. intros E. unfold CheckLocalMatch, catch. by rewrite E. Qed.

Lemma reply_of_zone zone p0 :
  let auth := zone_authority DefaultTtl cls zone in
  let w := reply Packet 3 true q [] auth [] in
  DnsResponsePacket.FromWire (Some w) (length w) p0 = Done (true, reply_response Packet 3 true q [] auth []).
Proof.
  intros auth w. assert (Hc : uint16 cls) by (by eapply first_qclass_range; [apply request_accepted|exact Hq]).
  apply (reply_FromWire Packet q [] request_accepted Hq); [done| |by split| |by split].
  - rewrite app_nil_r. by apply zone_authority_ok.
  - apply zone_authority_small.
Qed.
End answers.

(** ** The properties *)

Section properties.
  Context {H : Target} {RE : RegexEngine} `{!RegexLaws} {J : Type}
    `{HJ : Json J} `{!JsonLaws J} `{HZ : !JsonZones J} `{!JsonZonesLaws J}.
  Implicit Types (g_Zones v : J) (out : bytes) (P : DnsParser).

(** C38: the cache of compiled patterns never holds more than 1024 patterns nor anything but
    what compiling its patterns gave, whatever is matched; matching gives what compiling
    and matching give, false for a bad pattern; but a bad pattern leaves a null entry, and
    unless the cache is emptied in between, the next match against it dereferences it,
    which is undefined behaviour. *)
Theorem regex_cache s p c :
  cache_ok c →
  let '(o, c') := SafeRegexMatch s p c in
  cache_ok c' ∧
  (evict c !! p ≠ Some None → o = Done (matches s p)) ∧
  (evict c !! p = Some None → o = Undef) ∧
  (compile p = Throw RegexError → base.size c' < DNS_REGEX_CACHE_SIZE →
     ∀ s', fst (SafeRegexMatch s' p c') = Undef).
Proof.
  intros Hc. destruct (evict_room c Hc) as [Hs Hv]. rewrite SafeRegexMatch_eq by done.
  assert (Hkeep : ∀ c1 : RegexCache, base.size c1 < DNS_REGEX_CACHE_SIZE → evict c1 = c1).
  { intros c1 H1. unfold evict. by destruct (Nat.leb_spec DNS_REGEX_CACHE_SIZE (base.size c1)); [lia|]. }
  destruct (evict c !! p) as [[r|]|] eqn:E.
  - split_and!; [done..|]. intros Hp _. destruct Hv as [_ Hv]. specialize (Hv p _ E). simpl in Hv. congruence.
  - split_and!; [done..|]. intros _ H1 s'. rewrite SafeRegexMatch_eq by done. by rewrite Hkeep, E.
  - assert (Hi : cache_ok (<[p:=match compile p with Done r => Some r | _ => None end]> (evict c))).
    { apply insert_ok; [done..|]. by destruct (compile_spec p) as [[r ->]| ->]. }
    split_and!; [done..|]. intros Hp H1 s'. rewrite SafeRegexMatch_eq by done. rewrite Hkeep by done.
    by rewrite lookup_insert_eq, Hp.
Qed.

(** With good patterns in the zone data, and whatever the data itself, [CheckLocalMatch]
    returns for every query that was parsed, without undefined behaviour and without an
    exception, also when CNAME records form a cycle; what it returns does not depend on
    what the cache of patterns holds, and the cache stays good.  When it reports a match,
    the output is a message with the query's identifier and the QR bit set, or has not been
    touched; when it reports none, the output has not been touched or is what an abandoned
    response function left. *)
Theorem CheckLocalMatch_total DefaultTtl g_Zones partial P out :
  patterns_ok g_Zones → parser_ok P →
  ∃ r w, (∀ c, cache_clean c → ∃ c',
            CheckLocalMatch DefaultTtl g_Zones partial P out c = (Done (r, w), c') ∧ cache_clean c') ∧
    (r = 0%Z ∧ (reply_to (DnsHeader.Id false (DnsRequestPacket.Header (DnsParser.Packet P))) w ∨ w = out) ∨
     r = (-1)%Z ∧ (w = out ∨ w = partial)).
Proof.
  intros Hpat HP. destruct (CheckLocalMatch_steady DefaultTtl g_Zones partial Hpat P HP out) as ([r w] & Hc & Hr).
  exists r, w. split; [done|]. destruct Hr as [[[= -> ->]|[E Hw]]|[= -> ->]]; [right; auto|left; auto|right; auto].
Qed.

(** C9: the answers are the zone data: a query for a name below a zone that is blocked gets
    an authoritative NXDOMAIN with the zone's SOA record; a query of one of the record types,
    in a zone without CNAME records (or for CNAME records), gets the records selected for its
    subdomain (under "@" for the zone itself, else under the first name that matches as a
    pattern, else under the wildcard), one per element when they are listed in an array,
    and is passed on when they are a forward directive; and a reverse lookup gets the name
    listed under the address it asks for.  Each message is read back as that response to the
    query by the packet parser. *)
Theorem local_answers DefaultTtl g_Zones partial P q out c p0 :
  patterns_ok g_Zones → cache_clean c → parser_ok P →
  DnsRequestPacket.Questions (DnsParser.Packet P) = [q] → encodable (m_Qname_ q) → zone_listed g_Zones P →
  let cfg := field_of g_Zones (RootDomain P) in
  let T := RecordType P in
  let check := CheckLocalMatch DefaultTtl g_Zones partial P out c in
  (T ≠ [] → is_string cfg = true → get_string cfg = Done (str "{{BLOCKED}}") →
     let auth := zone_authority DefaultTtl (DnsQuestion.Qclass false q) (RootDomain P) in
     let w := reply (DnsParser.Packet P) 3 true q [] auth [] in
     check = (Done (0%Z, w), c) ∧
     DnsResponsePacket.FromWire (Some w) (length w) p0 =
       Done (true, reply_response (DnsParser.Packet P) 3 true q [] auth [])) ∧
  (∀ v, is_string cfg = false → is_object cfg = true → In T record_types → T ≠ str "PTR" →
     T = str "CNAME" ∨ contains cfg (str "CNAME") = false →
     contains cfg T = true → is_object (field_of cfg T) = true → selected (field_of cfg T) (SubDomain P) v →
     (forward v → ∃ c', check = (Done ((-1)%Z, out), c')) ∧
     (¬ forward v → ∀ rs,
        answers_data DefaultTtl (DnsQuestion.Qclass false q) (ExpandAnswerRecords T v [] []) rs →
        1 ≤ length rs → (Z.of_nat (length rs) ≤ UINT16_MAX)%Z →
        ∃ w c', check = (Done (0%Z, w), c') ∧ answer_message P q rs p0 w)) ∧
  (∀ a rs, is_string cfg = false → is_object cfg = true → T = str "PTR" →
     reverse_address (RootDomain P) (SubDomain P) = Some a → contains cfg a = true →
     answers_data DefaultTtl (DnsQuestion.Qclass false q) [record T (field_of cfg a) []] rs →
     ∃ w, check = (Done (0%Z, w), c) ∧ answer_message P q rs p0 w).
Proof.
  intros Hpat Hc HP Hq He Hz cfg T check. split_and!.
  - intros HT Hs Hg auth w. split; [|by apply reply_of_zone]. apply Check_of_match.
    rewrite local_match_blocked by done. f_equal. unfold answered.
    change (CallResponseFunction DefaultTtl (str "NXDOMAIN") ?p ?d out)
      with (s_Zone ← (if is_string d then get_string d else Done []); NXDOMAIN DefaultTtl p out s_Zone).
    rewrite of_string_is, of_string_get, bind_done.
    by rewrite (NXDOMAIN_eq DefaultTtl (DnsParser.Packet P) q [] (request_accepted P HP) Hq out (RootDomain P) He).
  - intros v Hs Ho HT Hptr Hcn HcT HoT Hv.
    destruct (search_selected g_Zones Hpat (RootDomain P) T (SubDomain P) v c Hv Hc) as (c' & E & _).
    pose proof (local_match_object DefaultTtl g_Zones P out c Hz Hs Ho HT Hptr Hcn HcT HoT) as El.
    unfold type_search in El. rewrite (stateful_bind_Done _ _ _ _ _ E) in El. split.
    + intros Hf. rewrite chosen_none in El by done. exists c'. by apply Check_of_match.
    + intros Hf rs Hrs Hn Hl. rewrite chosen_some in El by done.
      destruct (Dispatch_message DefaultTtl P q HP Hq He T v rs out p0 HT Hrs Hn Hl) as (w & Ew & Hw).
      exists w, c'. split; [|done]. apply Check_of_match. rewrite El. unfold lift, answered. fold T. by rewrite Ew.
  - intros a rs Hs Ho HT Ha Hca Hrs. fold T in HT. rewrite HT in Hrs.
    destruct (Call_message DefaultTtl P q HP Hq He (str "PTR") (field_of cfg a) rs out p0) as (w & Ew & Hw); [|done|].
    { do 4 right. by left. }
    exists w. split; [|done]. apply Check_of_match.
    rewrite (local_match_ptr DefaultTtl g_Zones P out c a) by done. f_equal. unfold answered. fold cfg. by rewrite Ew.
Qed.
End properties.

Section examples.
  #[local] Existing Instance x86_64.

(** The zone a.com with its own address, the addresses of names that begin with a "w", and a
    name that is passed on; and a zone that is blocked. *)
Definition example_zones : json :=
  JObject [(str "a.com", JObject [(str "A", JObject
             [(str "@", JString [x01; x02; x03; x04]);
              (str "w.*", JArray [JString [x05; x06; x07; x08]; JString [x05; x06; x07; x09]]);
              (str "f", JString (str "{{FORWARD}}"))])]);
           (str "b.com", JString (str "{{BLOCKED}}"))].

Definition example_parser : DnsParser :=
  CacheDomainParts {| m_ParsedPacket_ := DnsRequestPacket.a_query 4660 (str "a.com") true;
                      m_Domain_ := []; m_RootDomain_ := []; m_SubDomain_ := [] |}.

Lemma example_parser_ok : parser_ok example_parser.
Proof.
  exact (proj1 (CacheDomainParts_ok _ (DnsQuestion.MakeAQuery (str "a.com")) example_request_ok eq_refl)).
Qed.

Lemma example_patterns_ok : patterns_ok example_zones.
Proof.
  intros root T k v. unfold example_zones, field_of, sample_json. cbn [member].
  case_bool_decide; cbn [default from_option id].
  - cbn [member]. case_bool_decide; cbn [default from_option id items sample_zones].
    + intros Hin. repeat (apply elem_of_cons in Hin as [[= -> ->]|Hin]; [by eexists|]). by apply not_elem_of_nil in Hin.
    + intros Hin. by apply not_elem_of_nil in Hin.
  - case_bool_decide; cbn [default from_option id items sample_zones].
    + intros Hin. by apply not_elem_of_nil in Hin.
    + intros Hin. by apply not_elem_of_nil in Hin.
Qed.

Lemma empty_cache_clean : cache_clean (∅ : RegexCache).
Proof.
  split; [split|].
  - rewrite map_size_empty. unfold DNS_REGEX_CACHE_SIZE. lia.
  - intros p e He. by rewrite lookup_empty in He.
  - intros p He. by rewrite lookup_empty in He.
Qed.

(** A bad pattern, used twice. *)
Lemma regex_cache_witness :
  let '(o, c') := SafeRegexMatch (str "w") (str "(w") ∅ in
  o = Done false ∧ fst (SafeRegexMatch (str "w") (str "(w") c') = Undef.
Proof.
  pose proof (regex_cache (str "w") (str "(w") ∅ (proj1 empty_cache_clean)) as Hr.
  assert (Ec : base.size (snd (SafeRegexMatch (str "w") (str "(w") ∅)) = 1) by (by vm_compute).
  destruct (SafeRegexMatch (str "w") (str "(w") ∅) as [o c'] eqn:E; cbn [snd] in Ec. destruct Hr as (Hc & Ho & _ & Hu).
  split; [by apply Ho|]. apply Hu; [by vm_compute|]. rewrite Ec. unfold DNS_REGEX_CACHE_SIZE. lia.
Defined.

Lemma CheckLocalMatch_total_witness :
  ∃ r w, (∀ c, cache_clean c → ∃ c',
            CheckLocalMatch 3600 example_zones [] example_parser [] c = (Done (r, w), c') ∧ cache_clean c').
Proof.
  destruct (CheckLocalMatch_total 3600 example_zones [] example_parser [] example_patterns_ok example_parser_ok)
    as (r & w & Hc & _).
  by exists r, w.
Defined.

Lemma local_answers_witness :
  let rs := [{| rr_owner := None; rr_type := 1; rr_class := 1; rr_ttl := 3600; rr_data := [x01; x02; x03; x04] |}] in
  ∃ w c', CheckLocalMatch 3600 example_zones [] example_parser [] ∅ = (Done (0%Z, w), c') ∧
          answer_message example_parser (DnsQuestion.MakeAQuery (str "a.com")) rs DnsResponsePacket.clear w.
Proof.
  intros rs.
  destruct (local_answers 3600 example_zones [] example_parser (DnsQuestion.MakeAQuery (str "a.com")) [] ∅
    DnsResponsePacket.clear example_patterns_ok empty_cache_clean example_parser_ok eq_refl) as (_ & Ht & _).
  - by split; [apply example_question_ok|simpl; lia].
  - by split.
  - assert (E1 : RootDomain example_parser = str "a.com") by (by vm_compute).
    assert (E2 : RecordType example_parser = str "A") by (by vm_compute).
    assert (E3 : SubDomain example_parser = []) by (by vm_compute). rewrite E1, E2, E3 in Ht.
    assert (Hs : selected (field_of (field_of example_zones (str "a.com")) (str "A")) [] (JString [x01; x02; x03; x04])) by (by split).
    destruct (Ht (JString [x01; x02; x03; x04]) eq_refl eq_refl (or_introl eq_refl) ltac:(done) (or_intror eq_refl)
      eq_refl eq_refl Hs) as [_ Hw].
    apply Hw; [by intros [_ [=]]| |simpl; lia|done].
    constructor; [|constructor]. exists None, 1%Z, [x01; x02; x03; x04]. split_and!; [done| |done]. by apply data_A.
Defined.
End examples.
