(* ===== verification/LocalChains.v ===== *)
(** * Aliases and ANY queries

    What [LocalDns] answers from CNAME records and to queries of type ANY, without the cache
    of patterns: the data that a zone holds for a name and a type ([type_value],
    [local_value]), the alias of a name ([alias]), and the chain of aliases with the data at
    its end ([chain]), a relation that stops after [DNS_MAX_CNAME_DEPTH] aliases. *)

From Stdlib Require Import ZArith Lia List.
From Stdlib Require Import Strings.Byte Strings.String.
From stdpp Require Import base numbers list option sets gmap.
From S2P Require Import Prelude.
From S2P Require Import Stateful.
From S2P Require Import Memory.
From S2P Require Import Text.
From S2P Require Import Name.
From S2P Require Import DnsHeader.
From S2P Require Import DnsQuestion.
From S2P Require Import WireFormat.
From S2P Require Import DnsRequestPacket.
From S2P Require Import DnsResponsePacket.
From S2P Require Import DnsResponse.
From S2P Require Import ResponseFacts.
From S2P Require Import SampleJson.
From S2P Require Import WholeResponses.
From S2P Require Import DnsParser.
From S2P Require Import ReverseIp.
From S2P Require Import LocalDns.
From S2P Require Import SampleRegex.
From S2P Require Import LocalFacts.

Section data.
  Context {RE : RegexEngine} `{!RegexLaws} {J : Type}
    `{HJ : Json J} `{!JsonLaws J} `{HZ : !JsonZones J} `{!JsonZonesLaws J}.
  Context (g_Zones : J).
  Implicit Types (recs v d : J) (s t : bytes) (c : RegexCache).

(** The data that is selected for a subdomain, if there is any. *)
Definition pick recs s : option J :=
  if bool_decide (s = []) then (if contains recs (str "@") then Some (field_of recs (str "@")) else None)
  else match List.find (λ x, matches s x.1) (items recs) with
       | Some x => Some x.2
       | None => if contains recs (str "\*") then Some (field_of recs (str "\*")) else None
       end.

Lemma find_first {A} (f : A → bool) l :
  match List.find f l with
  | Some x => ∃ l1 l2, l = l1 ++ x :: l2 ∧ f x = true ∧ Forall (λ y, f y = false) l1
  | None => Forall (λ y, f y = false) l
  end.
Proof.
  induction l as [|y l IH]; cbn [List.find]; [constructor|]. destruct (f y) eqn:E; [by exists [], l|].
  destruct (List.find f l) as [x|]; [|by constructor]. destruct IH as (l1 & l2 & -> & Hx & Hl1). exists (y :: l1), l2.
  split_and!; [done|done|by constructor].
Qed.

Lemma pick_selected recs s v : pick recs s = Some v → selected recs s v.
Proof.
  unfold pick, selected. case_bool_decide as E; [destruct (contains recs (str "@")); [by intros [= <-]|done]|].
  pose proof (find_first (λ x, matches s x.1) (items recs)) as Hf. destruct (List.find _ _) as [[k w]|].
  - intros [= <-]. left. destruct Hf as (l1 & l2 & El & Hk & Hl1). by exists l1, k, l2.
  - destruct (contains recs (str "\*")); [|done]. intros [= <-]. by right.
Qed.

Context (Hpat : patterns_ok g_Zones).

(** The search finds it, unless it is a directive to forward. *)
Lemma search_pick root t s c :
  cache_clean c →
  ∃ c', search_records (field_of (field_of g_Zones root) t) s c =
          (Done (pick (field_of (field_of g_Zones root) t) s ≫= chosen), c') ∧ cache_clean c'.
Proof.
  intros Hc. set (recs := field_of _ _). destruct (pick recs s) as [v|] eqn:Ep; [apply (search_selected g_Zones Hpat root t s v c); [by apply pick_selected|done]|].
  unfold search_records, pick in *. case_bool_decide as E.
  - exists c. unfold lift, named. by destruct (contains recs (str "@")).
  - pose proof (find_first (λ x, matches s x.1) (items recs)) as Hf. destruct (List.find _ _); [done|].
    destruct (first_match_none s (items recs) c Hc (Hpat root t) Hf) as (c' & Em & Hc').
    exists c'. split; [|done]. rewrite (stateful_bind_Done _ _ _ _ _ Em). unfold lift, named.
    by destruct (contains recs (str "\*")).
Qed.

(** The data that a zone holds for a subdomain and a type, to be sent. *)
Definition type_value (cfg : J) s t : option J :=
  if contains cfg t && is_object (field_of cfg t) then pick (field_of cfg t) s ≫= chosen else None.

(** The zone and the subdomain of a domain name: its last two labels and the others. *)
Definition domain_parts (dom : bytes) : option (bytes * bytes) :=
  let dom := drop_last_if "." dom in
  if bool_decide (dom = []) then None else
  let ps := split_parts "." dom in
  let n := length ps in
  if n <? 2 then None else
  Some (nth (n - 2) ps [] ++ ["."%byte] ++ nth (n - 1) ps [],
        fold_left (λ s p, (if bool_decide (s = []) then s else s ++ ["."%byte]) ++ p) (take (n - 2) ps) []).

(** The data held for a domain name and a type. *)
Definition local_value (dom t : bytes) : option J :=
  if bool_decide (dom = []) then None else
  '(root, s) ← domain_parts dom;
  if contains g_Zones root && is_object (field_of g_Zones root) then type_value (field_of g_Zones root) s t else None.

Lemma LookupLocalRecord_value dom t c :
  t ≠ [] → cache_clean c → ∃ c', LookupLocalRecord g_Zones dom t c = (Done (local_value dom t), c') ∧ cache_clean c'.
Proof.
  intros Ht Hc. unfold LookupLocalRecord, local_value. rewrite (bool_decide_eq_false_2 (t = [])), orb_false_r by done.
  case_bool_decide; [by exists c|]. unfold domain_parts. cbv zeta. case_bool_decide; [by exists c|].
  destruct (_ <? 2); [by exists c|]. cbn [mbind option_bind]. set (root := nth _ _ [] ++ _). set (s := fold_left _ _ []).
  destruct (contains g_Zones root); [|by exists c]. cbn [negb andb]. destruct (is_object (field_of g_Zones root)); [|by exists c].
  cbn [negb orb]. unfold type_value. destruct (contains _ t); [|by exists c]. cbn [negb orb andb].
  destruct (is_object (field_of _ t)); [|by exists c]. cbn [negb].
  destruct (search_pick root t s c Hc) as (c' & Es & Hc'). exists c'. split; [|done]. rewrite <- Es. unfold search_records.
  case_bool_decide; [unfold named; by destruct (contains _ (str "@"))|]. unfold mbind, stateful_mbind.
  destruct (first_match _ _ c) as [[[m|]| | | |] c1]; try done. unfold named. by destruct (contains _ (str "\*")).
Qed.
(** ** Aliases *)

(** The alias of a subdomain among the CNAME records of its zone: directives to forward are
    skipped. *)
Definition alias recs s : option J :=
  if bool_decide (s = []) then (if contains recs (str "@") then chosen (field_of recs (str "@")) else None)
  else match List.find (λ x, bool_decide (chosen x.2 ≠ None) && matches s x.1) (items recs) with
       | Some x => Some x.2
       | None => if contains recs (str "\*") then chosen (field_of recs (str "\*")) else None
       end.

Lemma IsForwardValue_chosen v : IsForwardValue v = Done (bool_decide (chosen v = None)).
Proof.
  unfold chosen. case_decide as E; [by rewrite E|]. rewrite bool_decide_eq_false_2 by done. apply IsForward_false.
  by intros Hv%IsForward_true.
Qed.

Lemma named_chosen recs k : named recs k = Done (if contains recs k then chosen (field_of recs k) else None).
Proof. unfold named. destruct (contains recs k); [apply unless_forward_eq|done]. Qed.

Lemma first_cname_find s (l : list (bytes * J)) c :
  cache_clean c → (∀ k v, (k, v) ∈ l → valid_pattern k) →
  ∃ c', first_cname s l c = (Done (snd <$> List.find (λ x, bool_decide (chosen x.2 ≠ None) && matches s x.1) l), c') ∧ cache_clean c'.
Proof.
  revert c. induction l as [|[k v] l IH]; intros c Hc Hv; cbn [first_cname List.find]; [by exists c|].
  rewrite IsForwardValue_chosen, lift_Done. cbn [fst snd].
  assert (Hl : ∀ k v, (k, v) ∈ l → valid_pattern k) by (intros k' v' Hin; apply (Hv k' v'); by right).
  destruct (chosen v) as [w|]; cbn [bool_decide decide]; [|by apply IH].
  rewrite (bool_decide_eq_false_2 (Some w = None)), (bool_decide_eq_true_2 (Some w ≠ None)) by done. cbn [andb].
  destruct (SafeRegexMatch_clean s k c Hc) as (c1 & E & Hc1); [apply (Hv k v); by left|].
  rewrite (stateful_bind_Done _ _ _ _ _ E). destruct (matches s k); [by exists c1|]. by apply IH.
Qed.

Lemma cname_target_alias root t s c :
  cache_clean c →
  ∃ c', cname_target (field_of (field_of g_Zones root) t) s c =
          (Done (alias (field_of (field_of g_Zones root) t) s), c') ∧ cache_clean c'.
Proof.
  intros Hc. unfold cname_target, alias. case_bool_decide; [exists c; unfold lift; by rewrite named_chosen|].
  destruct (first_cname_find s (items (field_of (field_of g_Zones root) t)) c Hc (Hpat root t)) as (c1 & E & Hc1).
  rewrite (stateful_bind_Done _ _ _ _ _ E). exists c1. split; [|done].
  destruct (List.find _ _) as [[k v]|]; [done|]. cbn [fmap option_fmap option_map]. unfold lift. by rewrite named_chosen.
Qed.

(** ** Chains *)

(** What follows the first alias, for a query of type [t]: at most [n] further aliases, then the
    data of the last name. *)
Inductive chain t : nat → bytes → list (AnswerRecord J) → Prop :=
  | chain_full target : chain t 0 target []
  | chain_alias n target v next rs :
      local_value target (str "CNAME") = Some v → get_string v = Done next → chain t n next rs →
      chain t (S n) target (record (str "CNAME") v target :: rs)
  | chain_data n target v :
      local_value target (str "CNAME") = None → t ≠ str "*" → local_value target t = Some v →
      chain t (S n) target (ExpandAnswerRecords t v target [])
  | chain_none n target :
      local_value target (str "CNAME") = None → t = str "*" ∨ local_value target t = None → chain t (S n) target [].

Lemma Expand_app t v name (rs : list (AnswerRecord J)) :
  ExpandAnswerRecords t v name rs = rs ++ ExpandAnswerRecords t v name [].
Proof. unfold ExpandAnswerRecords. by destruct (is_array v). Qed.

Lemma chain_loop_chain t n target rs : t ≠ [] →
  chain t n target rs → ∀ (answers : list (AnswerRecord J)) c, cache_clean c →
  ∃ c', chain_loop g_Zones n t target answers c = (Done (answers ++ rs), c') ∧ cache_clean c'.
Proof.
  intros Ht. induction 1 as [target|n target v next rs Hv Hg _ IH|n target v Hn Hs Hv|n target Hn Hd]; intros answers c Hc;
    cbn [chain_loop]; [rewrite app_nil_r; by exists c|..];
    destruct (LookupLocalRecord_value target (str "CNAME") c ltac:(done) Hc) as (c1 & E & Hc1);
    rewrite (stateful_bind_Done _ _ _ _ _ E); rewrite ?Hv, ?Hn.
  - cbv zeta. rewrite Hg, lift_Done. destruct (IH (answers ++ [record (str "CNAME") v target]) c1 Hc1) as (c2 & -> & Hc2).
    rewrite <- app_assoc. by exists c2.
  - rewrite bool_decide_eq_false_2 by done. destruct (LookupLocalRecord_value target t c1 Ht Hc1) as (c2 & E2 & Hc2).
    rewrite (stateful_bind_Done _ _ _ _ _ E2), Hv, Expand_app. by exists c2.
  - rewrite app_nil_r. case_bool_decide; [by exists c1|]. destruct Hd as [?|Hd]; [done|].
    destruct (LookupLocalRecord_value target t c1 Ht Hc1) as (c2 & E2 & Hc2). rewrite (stateful_bind_Done _ _ _ _ _ E2), Hd. by exists c2.
Qed.

(** Aliases are texts: every chain comes to its end. *)
Definition aliases_are_texts : Prop := ∀ dom v, local_value dom (str "CNAME") = Some v → is_string v = true.

Lemma chain_exists t n target : aliases_are_texts → ∃ rs, chain t n target rs.
Proof.
  intros Hs. revert target. induction n as [|n IH]; intros target; [eexists; constructor|].
  destruct (local_value target (str "CNAME")) as [v|] eqn:Ev.
  - pose proof (get_string_spec v) as Hg. rewrite (Hs _ _ Ev) in Hg. destruct Hg as [next Hg]. destruct (IH next) as [rs Hrs].
    eexists. by eapply chain_alias.
  - destruct (decide (t = str "*")); [eexists; apply chain_none; auto|].
    destruct (local_value target t) as [v|] eqn:Ed; eexists; [by eapply chain_data|apply chain_none; auto].
Qed.

Definition is_alias (r : AnswerRecord J) : Prop := m_Type_ r = str "CNAME".
#[global] Instance is_alias_dec r : Decision (is_alias r) := decide (m_Type_ r = str "CNAME").

Lemma chain_bound t n target rs : t ≠ str "CNAME" → chain t n target rs → length (filter is_alias rs) ≤ n.
Proof.
  intros Ht. induction 1 as [target|n target v next rs _ _ _ IH|n target v _ _ _|n target _ _]; [cbn; lia| | |cbn; lia].
  - rewrite filter_cons_True by done. cbn [length]. lia.
  - enough (filter is_alias (ExpandAnswerRecords t v target []) = []) as -> by (cbn; lia).
    unfold ExpandAnswerRecords. rewrite !app_nil_l. destruct (is_array v).
    + induction (elements v) as [|e l IH]; [done|]. cbn [fmap list_fmap]. by rewrite filter_cons_False.
    + by rewrite filter_cons_False.
Qed.

(** ** ANY *)

(** The records of the types an ANY query asks for, in the code's order. *)
Definition any_answers (cfg : J) s (types : list bytes) : list (AnswerRecord J) :=
  concat ((λ t, from_option (λ v, ExpandAnswerRecords t v [] []) [] (type_value cfg s t)) <$> types).

Lemma any_records_value root s t c :
  cache_clean c → ∃ c', any_records (field_of g_Zones root) s t c = (Done (type_value (field_of g_Zones root) s t), c') ∧ cache_clean c'.
Proof.
  intros Hc. unfold any_records, type_value. destruct (contains _ t); [|by exists c]. cbn [negb orb andb].
  destruct (is_object (field_of _ t)); [|by exists c]. cbn [negb].
  destruct (search_pick root t s c Hc) as (c' & Es & Hc'). exists c'. split; [|done]. rewrite <- Es. unfold search_records.
  case_bool_decide; [done|]. unfold mbind, stateful_mbind. by destruct (first_match _ _ c) as [[[m|]| | | |] c1].
Qed.

Lemma any_loop_answers root s types : ∀ (answers : list (AnswerRecord J)) c, cache_clean c →
  ∃ c', any_loop (field_of g_Zones root) s types answers c =
          (Done (answers ++ any_answers (field_of g_Zones root) s types), c') ∧ cache_clean c'.
Proof.
  induction types as [|t types IH]; intros answers c Hc; cbn [any_loop]; [rewrite app_nil_r; by exists c|].
  destruct (any_records_value root s t c Hc) as (c1 & E & Hc1). rewrite (stateful_bind_Done _ _ _ _ _ E).
  unfold any_answers. cbn [fmap list_fmap concat]. fold (any_answers (field_of g_Zones root) s types).
  destruct (type_value _ s t) as [v|]; cbn [from_option]; [|by apply IH].
  rewrite app_assoc, <- Expand_app. by apply IH.
Qed.
End data.

(** ** The answers *)

Section answers.
  Context {H : Target} {RE : RegexEngine} `{!RegexLaws} {J : Type}
    `{HJ : Json J} `{!JsonLaws J} `{HZ : !JsonZones J} `{!JsonZonesLaws J}.
  Implicit Types (g_Zones v : J) (out : bytes) (P : DnsParser).

(** The alias of the name asked for; CNAME records themselves are no alias. *)
Definition query_alias g_Zones P : option J :=
  let cfg := field_of g_Zones (RootDomain P) in
  if bool_decide (RecordType P = str "CNAME") then None
  else if contains cfg (str "CNAME") then alias (field_of cfg (str "CNAME")) (SubDomain P) else None.

(** A match in a zone whose data is an object, from its aliases on. *)
Lemma local_match_aliases ttl g_Zones P out c :
  patterns_ok g_Zones → cache_clean c → zone_listed g_Zones P →
  let cfg := field_of g_Zones (RootDomain P) in
  is_string cfg = false → is_object cfg = true → RecordType P ≠ [] → RecordType P ≠ str "PTR" →
  match query_alias g_Zones P with
  | Some v => ∀ target rs, get_string v = Done target → chain g_Zones (RecordType P) DNS_MAX_CNAME_DEPTH target rs →
      ∃ c', local_match ttl g_Zones P out c =
              (answered (MultiAnswer ttl (DnsParser.Packet P) (record (str "CNAME") v [] :: rs) out), c')
  | None => RecordType P = str "*" →
      ∃ c', local_match ttl g_Zones P out c =
              (match any_answers cfg (SubDomain P) s_AnyTypes with
               | [] => Done ((-1)%Z, out)
               | rs => answered (MultiAnswer ttl (DnsParser.Packet P) rs out)
               end, c')
  end.
Proof.
  intros Hpat Hc [Hr Hz] cfg Hs Ho HT Hptr.
  assert (Ea : ∃ c1, (if negb (bool_decide (RecordType P = str "CNAME")) && contains cfg (str "CNAME")
    then cname_target (field_of cfg (str "CNAME")) (SubDomain P) else mret None) c = (Done (query_alias g_Zones P), c1) ∧ cache_clean c1).
  { unfold query_alias. fold cfg. case_bool_decide; [by exists c|]. cbn [negb andb]. destruct (contains cfg (str "CNAME")); [|by exists c].
    by apply cname_target_alias. }
  destruct Ea as (c1 & Ea & Hc1). unfold local_match. cbv zeta. fold cfg. rewrite Hz, Hs, Ho.
  rewrite (bool_decide_eq_false_2 _ Hr), (bool_decide_eq_false_2 _ HT), (bool_decide_eq_false_2 _ Hptr). cbn [negb]. rewrite lift_Done.
  destruct (query_alias g_Zones P) as [v|].
  - intros target rs Hg Hrs. rewrite (stateful_bind_Done _ _ _ _ _ Ea), Hg, lift_Done.
    destruct (chain_loop_chain g_Zones Hpat _ _ _ _ HT Hrs [record (str "CNAME") v []] c1 Hc1) as (c2 & E2 & _).
    rewrite (stateful_bind_Done _ _ _ _ _ E2). by exists c2.
  - intros HTs. rewrite (stateful_bind_Done _ _ _ _ _ Ea), (bool_decide_eq_true_2 _ HTs).
    destruct (any_loop_answers g_Zones Hpat (RootDomain P) (SubDomain P) s_AnyTypes [] c1 Hc1) as (c2 & E2 & _).
    rewrite (stateful_bind_Done _ _ _ _ _ E2). exists c2. fold cfg. by destruct (any_answers cfg _ _).
Qed.

(** C10: aliases and ANY.  A query for a name with an alias in its zone (and not for the alias
    itself) is answered by the alias, under the name asked for, followed by the chain of
    further aliases and, unless it is longer than eight aliases, by the data of the type asked
    for at its end, each under the name it belongs to; when the aliases in the zone data are
    texts there is such a chain, also when aliases form a cycle, and it has at most eight
    aliases.  This holds whatever data the name itself has, also when that is a directive to
    forward: a name listed with {{FORWARD}} or {{FORWARD_ALL}} and with an alias, as in the
    README's example, is answered locally by the alias and not passed on, although the README
    says that the directive skips the local data (see [ZoneLimits.forward_all_alias]).  An ANY query
    without an alias is answered by all the data of the eight types, and is no match when
    there is none.  The packet parser reads the messages back. *)
Theorem aliases_answered ttl g_Zones partial P q out c p0 :
  patterns_ok g_Zones → cache_clean c → parser_ok P → DnsRequestPacket.Questions (DnsParser.Packet P) = [q] →
  encodable (m_Qname_ q) → zone_listed g_Zones P →
  let cfg := field_of g_Zones (RootDomain P) in
  let T := RecordType P in
  let cls := DnsQuestion.Qclass false q in
  let check := CheckLocalMatch ttl g_Zones partial P out c in
  is_string cfg = false → is_object cfg = true → T ≠ [] → T ≠ str "PTR" →
  (∀ v target, query_alias g_Zones P = Some v → get_string v = Done target →
     (aliases_are_texts g_Zones → ∃ rs, chain g_Zones T DNS_MAX_CNAME_DEPTH target rs) ∧
     ∀ rs, chain g_Zones T DNS_MAX_CNAME_DEPTH target rs →
       length (filter is_alias rs) ≤ DNS_MAX_CNAME_DEPTH ∧
       ∀ l, answers_data ttl cls (record (str "CNAME") v [] :: rs) l → (Z.of_nat (length l) ≤ UINT16_MAX)%Z →
         ∃ w c', check = (Done (0%Z, w), c') ∧ answer_message P q l p0 w) ∧
  (T = str "*" → query_alias g_Zones P = None →
     let rs := any_answers cfg (SubDomain P) s_AnyTypes in
     (rs = [] → ∃ c', check = (Done ((-1)%Z, out), c')) ∧
     ∀ l, answers_data ttl cls rs l → 1 ≤ length l → (Z.of_nat (length l) ≤ UINT16_MAX)%Z →
       ∃ w c', check = (Done (0%Z, w), c') ∧ answer_message P q l p0 w).
Proof.
  intros Hpat Hc HP Hq He Hz cfg T cls check Hs Ho HT Hptr.
  pose proof (local_match_aliases ttl g_Zones P out c Hpat Hc Hz Hs Ho HT Hptr) as Hm. fold cfg T in Hm.
  assert (Hsend : ∀ (rs : list (AnswerRecord J)) l c', local_match ttl g_Zones P out c = (answered (MultiAnswer ttl (DnsParser.Packet P) rs out), c') →
    answers_data ttl cls rs l → 1 ≤ length l → (Z.of_nat (length l) ≤ UINT16_MAX)%Z →
    ∃ w c', check = (Done (0%Z, w), c') ∧ answer_message P q l p0 w).
  { intros rs l c' El Hl Hn Hmax. destruct (MultiAnswer_message ttl P q HP Hq He rs l out p0 Hl Hn Hmax) as (w & Ew & Hw).
    exists w, c'. split; [|done]. apply Check_of_match. rewrite El. unfold answered. by rewrite Ew. }
  split.
  - intros v target Hv Hg. rewrite Hv in Hm. split; [intros Ht; by apply chain_exists|]. intros rs Hrs. split.
    + apply (chain_bound g_Zones T _ target); [|done]. intros E. unfold query_alias in Hv. fold T in Hv. by rewrite bool_decide_eq_true_2 in Hv.
    + intros l Hl Hmax. destruct (Hm target rs Hg Hrs) as [c' El]. eapply Hsend; [exact El|exact Hl| |done].
      apply Forall2_length in Hl. rewrite <- Hl. cbn [length]. lia.
  - intros HTs Hv rs. rewrite Hv in Hm. destruct (Hm HTs) as [c' El]. split.
    + intros E. unfold rs in E. rewrite E in El. exists c'. by apply Check_of_match.
    + intros l Hl Hn Hmax. fold rs in El. destruct rs as [|r rs]; [|by eapply Hsend].
      apply Forall2_length in Hl. rewrite <- Hl in Hn. cbn [length] in Hn. lia.
Qed.
End answers.

(** ** Examples *)

Section example.
  #[local] Existing Instance x86_64.

(** a.com stands for x.b.net, and that for y.b.net, which has an address. *)
Definition chain_zones : json :=
  JObject [(str "a.com", JObject [(str "CNAME", JObject [(str "@", JString (str "x.b.net"))])]);
           (str "b.net", JObject [(str "CNAME", JObject [(str "x", JString (str "y.b.net"))]);
                                  (str "A", JObject [(str "y", JString [x01; x02; x03; x04])])])].

Lemma chain_patterns_ok : patterns_ok chain_zones.
Proof.
  intros root T k v. unfold chain_zones, field_of, sample_json. cbn [member].
  repeat (case_bool_decide; cbn [default from_option id items sample_zones member]);
    intros Hin; cbn in Hin; repeat (apply elem_of_cons in Hin as [[= -> ->]|Hin]; [by eexists|]); by apply not_elem_of_nil in Hin.
Qed.

Definition chain_answers : list rr :=
  let r o t d := {| rr_owner := o; rr_type := t; rr_class := 1; rr_ttl := 60; rr_data := d |} in
  let x := [str "x"; str "b"; str "net"] in
  let y := [str "y"; str "b"; str "net"] in
  [r None 5 (encode_name x); r (Some x) 5 (encode_name y); r (Some y) 1 [x01; x02; x03; x04]]%Z.

Lemma aliases_answered_witness :
  ∃ w c', CheckLocalMatch 60 chain_zones [] example_parser [] ∅ = (Done (0%Z, w), c') ∧
    answer_message example_parser (DnsQuestion.MakeAQuery (str "a.com")) chain_answers DnsResponsePacket.clear w.
Proof.
  assert (E1 : RootDomain example_parser = str "a.com") by (by vm_compute).
  assert (E2 : RecordType example_parser = str "A") by (by vm_compute).
  destruct (aliases_answered 60 chain_zones [] example_parser (DnsQuestion.MakeAQuery (str "a.com")) [] ∅ DnsResponsePacket.clear
    chain_patterns_ok empty_cache_clean example_parser_ok eq_refl) as [Ha _]; [|rewrite ?E1, ?E2; done..|].
  { by split; [apply example_question_ok|simpl; lia]. }
  destruct (Ha (JString (str "x.b.net")) (str "x.b.net")) as [_ Hc]; [by vm_compute|done|]. rewrite E2 in Hc.
  destruct (Hc [record (str "CNAME") (JString (str "y.b.net")) (str "x.b.net"); record (str "A") (JString [x01; x02; x03; x04]) (str "y.b.net")])
    as [_ Hl].
  - eapply chain_alias; [by vm_compute|done|].
    change [record (str "A") (JString [x01; x02; x03; x04]) (str "y.b.net")]
      with (ExpandAnswerRecords (str "A") (JString [x01; x02; x03; x04]) (str "y.b.net") []).
    apply chain_data; by vm_compute.
  - apply Hl; [|by vm_compute]. repeat constructor; eexists _, _, _; (split; [reflexivity|]; split; [|reflexivity]).
    + eapply (data_domain (str "CNAME") 5%Z _ (str "x.b.net")); [by left|done|done|reflexivity].
    + eapply (data_domain (str "CNAME") 5%Z _ (str "y.b.net")); [by left|done|done|reflexivity].
    + by apply data_A.
Defined.

(** Two names that are aliases of each other: the answer ends after eight further aliases. *)
Example alias_cycle :
  let zones := JObject [(str "a.com", JObject [(str "CNAME", JObject [(str "@", JString (str "w.a.com")); (str "w", JString (str "a.com"))])])] in
  match fst (chain_loop zones DNS_MAX_CNAME_DEPTH (str "A") (str "w.a.com") [] ∅) with
  | Done rs => length rs = DNS_MAX_CNAME_DEPTH
  | _ => False
  end.
Proof. by vm_compute. Qed.
End example.
