(* ===== verification/ConfigParser.v ===== *)
(** * The zone file (src/include/config_parser.h, src/src/config_parser.cc)

    The zone file lists zones with their records; [NormalizeZones] groups the data by zone,
    record type and subdomain, which is the form [LocalDns] searches, and
    [ValidateAndOptimize] replaces textual addresses by their bytes.  The JSON library is a
    parameter: what is used here besides [Json] and [JsonZones] is [JsonBuild], and what
    its documentation says of it is [JsonBuildLaws].  The file system and the parser of
    JSON text are parameters too, like [inet_pton].  Exceptions' texts are left out. *)

From Stdlib Require Import ZArith Lia.
From Stdlib Require Import Strings.Byte Strings.String.
From stdpp Require Import base numbers list option sets.
From S2P Require Import Prelude.
From S2P Require Import Memory.
From S2P Require Import Utils.
From S2P Require Import Text.
From S2P Require Import DnsResponse.
From S2P Require Import LocalDns.

(** The construction and update of JSON values: [set_member j k v] is [j[k] = v] on an
    object, [get_bool] is [get<bool>()], [is_empty] is [empty()]. *)
Class JsonBuild (J : Type) := {
  empty_object : J;
  set_member : J → bytes → J → J;
  of_array : list J → J;
  get_bool : J → outcome bool;
  is_empty : J → bool
}.

Class JsonBuildLaws (J : Type) `{JsonZones J} `{!JsonBuild J} := {
  contains_object j k : contains j k = true → is_object j = true;
  array_no_object j : is_array j = true → is_object j = false;
  string_no_object j : is_string j = true → is_object j = false;
  string_no_array j : is_string j = true → is_array j = false;
  empty_is_object : is_object empty_object = true;
  empty_contains k : contains empty_object k = false;
  set_is_object j k v : is_object j = true → is_object (set_member j k v) = true;
  set_contains j k v k' : is_object j = true → contains (set_member j k v) k' = bool_decide (k = k') || contains j k';
  set_field_of j k v k' : is_object j = true → field_of (set_member j k v) k' = if bool_decide (k = k') then v else field_of j k';
  of_array_is l : is_array (of_array l) = true;
  of_array_elements l : elements (of_array l) = l;
  items_members j k v : is_object j = true → (k, v) ∈ items j ↔ contains j k = true ∧ field_of j k = v;
  items_NoDup j : is_object j = true → NoDup (items j).*1;
  get_bool_spec j : (∃ b, get_bool j = Done b) ∨ get_bool j = Throw JsonError;
  empty_is_empty : is_empty empty_object = true
}.

(** The C library's [inet_pton] for the two address families. *)
Class Inet := { inet_pton4 : bytes → option bytes; inet_pton6 : bytes → option bytes }.

(** Its documented behaviour: the sizes of addresses, dotted quads, the colons of IPv6. *)
Class InetLaws `{Inet} := {
  inet4_length s a : inet_pton4 s = Some a → length a = IPV4_BINARY_SIZE;
  inet6_length s a : inet_pton6 s = Some a → length a = IPV6_BINARY_SIZE;
  inet4_quad (a b c d : byte) :
    inet_pton4 (join "." [print_dec (u8 a); print_dec (u8 b); print_dec (u8 c); print_dec (u8 d)]) = Some [a; b; c; d];
  inet6_colon s a : inet_pton6 s = Some a → ":"%byte ∈ s;
  inet6_any : inet_pton6 (str "::") = Some (repeat x00 16);
  inet6_loopback : inet_pton6 (str "::1") = Some (repeat x00 15 ++ [x01])
}.

(** The file system and the JSON parser: whether a path exists and is a regular file, the
    contents of the file that was opened, and what parsing gives. *)
Class Files (J : Type) := {
  stat_regular : bytes → option bool;
  read_file : bytes → option bytes;
  parse_json : bytes → outcome J;
  g_DefaultJson : bytes
}.

(** Parsing JSON text returns a value or throws the library's exception. *)
Class FilesLaws (J : Type) `{Files J} := {
  parse_json_spec s : (∃ j, parse_json s = Done j) ∨ parse_json s = Throw JsonError
}.

Section operations.
  Context {J : Type} `{JsonZones J} `{!JsonBuild J}.
  Implicit Types (j p_Zones l_Zone l_Record s_Result : J).

(** [j == "text"]. *)
Definition equals_text j (s : bytes) : bool :=
  is_string j && match get_string j with Done t => bool_decide (t = s) | _ => false end.

(** [j.value(k, d)] for a boolean. *)
Definition value_bool j (k : bytes) (d : bool) : outcome bool :=
  if contains j k then get_bool (field_of j k) else Done d.

(** ** Reading the file *)

Section files.
  Context `{!Files J}.

Definition Parse (p_Path : bytes) : outcome J :=
  if bool_decide (p_Path = []) then Done empty_object else
  match stat_regular p_Path with
  | None => Done empty_object
  | Some s_Regular =>
      if negb s_Regular then Done empty_object else
      match read_file p_Path with
      | None => Done empty_object
      | Some s_InputFile => try_catch (parse_json s_InputFile) (λ _, Done empty_object)
      end
  end.

Definition LoadDefault : outcome J := try_catch (parse_json g_DefaultJson) (λ _, Throw RuntimeError).
End files.

(** ** Grouping the records *)

(** The loop that puts a backslash before every dot. *)
Fixpoint escape_dots (s : bytes) : bytes :=
  match s with
  | [] => []
  | c :: s => (if decide (c = "."%byte) then ["\"%byte; "."%byte] else [c]) ++ escape_dots s
  end.

(** The key under which a record is listed. *)
Definition sub_key (s_IsRegex s_IsForwardAll : bool) (s_Name : bytes) : bytes :=
  if s_IsRegex then (if s_IsForwardAll then str "(.*\.)?" ++ s_Name else s_Name)
  else if bool_decide (s_Name = str "@") then str "@"
  else if bool_decide (s_Name = str "*") then str "\*"
  else if s_IsForwardAll then str "(.*\.)?" ++ escape_dots s_Name else escape_dots s_Name.

(** [s_Result[z][t] = v] and [s_Result[z][t][k] = v], where the objects on the way exist. *)
Definition set2 s_Result (z t : bytes) (v : J) : J :=
  set_member s_Result z (set_member (field_of s_Result z) t v).
Definition set3 s_Result (z t k : bytes) (v : J) : J :=
  set2 s_Result z t (set_member (field_of (field_of s_Result z) t) k v).

(** Another value for a key: it becomes, or stays, an array. *)
Definition append_value (s_Existing v : J) : J :=
  if is_array s_Existing then of_array (elements s_Existing ++ [v]) else of_array [s_Existing; v].

Definition normalize_record (s_ZoneName : bytes) l_Record s_Result : outcome J :=
  if negb (is_object l_Record) || negb (contains l_Record (str "name")) || negb (contains l_Record (str "type"))
       || negb (contains l_Record (str "data")) then Done s_Result else
  s_Type ← get_string (field_of l_Record (str "type"));
  s_Name ← get_string (field_of l_Record (str "name"));
  s_IsRegex ← value_bool l_Record (str "regex") false;
  let s_Name := drop_last_if "." s_Name in
  let s_IsForwardAll := equals_text (field_of l_Record (str "data")) (str "{{FORWARD_ALL}}") in
  let s_DataValue := if s_IsForwardAll then of_string (str "{{FORWARD}}") else field_of l_Record (str "data") in
  let s_SubKey := sub_key s_IsRegex s_IsForwardAll s_Name in
  let s_Result := if negb (contains (field_of s_Result s_ZoneName) s_Type)
                  then set2 s_Result s_ZoneName s_Type empty_object else s_Result in
  let s_Records := field_of (field_of s_Result s_ZoneName) s_Type in
  let s_Result := set3 s_Result s_ZoneName s_Type s_SubKey
                    (if contains s_Records s_SubKey then append_value (field_of s_Records s_SubKey) s_DataValue
                     else s_DataValue) in
  Done (if s_IsForwardAll && bool_decide (s_Name = str "@")
        then set3 s_Result s_ZoneName s_Type (str ".*") (of_string (str "{{FORWARD}}")) else s_Result).

Definition normalize_zone l_Zone s_Result : outcome J :=
  if negb (is_object l_Zone) || negb (contains l_Zone (str "zone")) then Done s_Result else
  s_ZoneName ← get_string (field_of l_Zone (str "zone"));
  let s_ZoneName := drop_last_if "." s_ZoneName in
  if bool_decide (s_ZoneName = []) then Done s_Result else
  s_Blocked ← value_bool l_Zone (str "blocked") false;
  if s_Blocked : bool then Done (set_member s_Result s_ZoneName (of_string (str "{{BLOCKED}}"))) else
  if negb (contains l_Zone (str "records")) || negb (is_array (field_of l_Zone (str "records"))) then Done s_Result else
  foldM (normalize_record s_ZoneName) (elements (field_of l_Zone (str "records")))
    (set_member s_Result s_ZoneName empty_object).

Definition NormalizeZones p_Zones : outcome J :=
  if negb (contains p_Zones (str "zones")) || negb (is_array (field_of p_Zones (str "zones"))) then Done empty_object
  else foldM normalize_zone (elements (field_of p_Zones (str "zones"))) empty_object.

(** ** Converting the addresses *)

Section addresses.
  Context `{Inet} (p_Ipv4Redirect p_Ipv6Redirect : bytes).

(** [Ipv4ToHex] or [Ipv6ToHex], by the record type. *)
Definition to_hex (p_RecType s s_Hex : bytes) : outcome (Z * bytes) :=
  if bool_decide (p_RecType = str "A") then Ipv4ToHex inet_pton4 s s_Hex else Ipv6ToHex inet_pton6 s s_Hex.

Definition checked_hex (p_RecType s s_Hex : bytes) : outcome bytes :=
  '(s_Ret, s_Hex) ← to_hex p_RecType s s_Hex;
  if (s_Ret =? 0)%Z then Done s_Hex else Throw RuntimeError.

Definition convertSingleValue (p_Val : J) (p_RecType : bytes) : outcome bytes :=
  let s_Hex := repeat x00 (if bool_decide (p_RecType = str "A") then IPV4_BINARY_SIZE else IPV6_BINARY_SIZE) in
  if equals_text p_Val (str "{{SELF}}") then
    checked_hex p_RecType (if bool_decide (p_RecType = str "A") then p_Ipv4Redirect else p_Ipv6Redirect) s_Hex
  else if equals_text p_Val (str "{{BLOCKED}}") then
    '(_, s_Hex) ← to_hex p_RecType (if bool_decide (p_RecType = str "A") then str "0.0.0.0" else str "::") s_Hex;
    Done s_Hex
  else if negb (is_string p_Val) then Throw RuntimeError
  else s ← get_string p_Val; checked_hex p_RecType s s_Hex.

(** The values that are left as they are: a forward directive, or an array that has one. *)
Definition has_forward (l_Value : J) : bool :=
  equals_text l_Value (str "{{FORWARD}}")
  || is_array l_Value && existsb (λ el, equals_text el (str "{{FORWARD}}")) (elements l_Value).

Definition convert_value (l_RecordType : bytes) (l_Value : J) : outcome J :=
  if is_array l_Value then
    s_HexArray ← foldM (λ el s_HexArray, s_Hex ← convertSingleValue el l_RecordType; Done (s_HexArray ++ [of_string s_Hex]))
                   (elements l_Value) [];
    Done (of_array s_HexArray)
  else s_Hex ← convertSingleValue l_Value l_RecordType; Done (of_string s_Hex).

Definition convert_subdomain (l_RootDomain l_RecordType : bytes) (p : bytes * J) (s_NewZones : J) : outcome J :=
  let '(l_Subdomain, l_Value) := p in
  if has_forward l_Value then Done s_NewZones else
  v ← convert_value l_RecordType l_Value;
  Done (set3 s_NewZones l_RootDomain l_RecordType l_Subdomain v).

Definition is_address (l_RecordType : bytes) : bool :=
  bool_decide (l_RecordType = str "A") || bool_decide (l_RecordType = str "AAAA").

Definition convert_type (l_RootDomain : bytes) (p : bytes * J) (s_NewZones : J) : outcome J :=
  let '(l_RecordType, l_Subdomains) := p in
  if is_address l_RecordType then foldM (convert_subdomain l_RootDomain l_RecordType) (items l_Subdomains) s_NewZones
  else Done s_NewZones.

Definition convert_zone (p : bytes * J) (s_NewZones : J) : outcome J :=
  let '(l_RootDomain, l_Records) := p in
  if equals_text l_Records (str "{{BLOCKED}}") then Done s_NewZones
  else foldM (convert_type l_RootDomain) (items l_Records) s_NewZones.

Definition ValidateAndOptimize p_Zones : outcome J := foldM convert_zone (items p_Zones) p_Zones.
End addresses.
End operations.
