(* ===== verification/SampleConfig.v ===== *)
(** * Concrete parameters of the configuration

    The construction of JSON values, [inet_pton] and the file system are parameters of
    [ConfigParser]; these are small implementations of what is documented of them, on which the
    examples and the witnesses evaluate. *)

From Stdlib Require Import ZArith Lia.
From Stdlib Require Import Strings.Byte Strings.String.
From stdpp Require Import base numbers list option sets.
From S2P Require Import Prelude.
From S2P Require Import Memory.
From S2P Require Import Utils.
From S2P Require Import Text.
From S2P Require Import DnsResponse.
From S2P Require Import LocalDns.
From S2P Require Import SampleJson.
From S2P Require Import SampleRegex.
From S2P Require Import ConfigParser.

(** Objects are association lists; a new value for a name hides the old one. *)
#[export] Instance sample_build : JsonBuild json := {
  empty_object := JObject [];
  set_member j k v := match j with JObject l => JObject ((k, v) :: l) | _ => j end;
  of_array := JArray;
  get_bool j := match j with JBool b => Done b | _ => Throw JsonError end;
  is_empty j := match j with JNull | JObject [] | JArray [] => true | _ => false end
}.

Lemma member_first l k v : (k, v) ∈ first_members l ↔ SampleJson.member l k = Some v.
Proof.
  induction l as [|[k' v'] l IH]; simpl; [set_solver|]. rewrite elem_of_cons, list_elem_of_filter, IH. simpl.
  case_bool_decide; subst; naive_solver.
Qed.

Lemma first_members_NoDup l : NoDup (first_members l).*1.
Proof.
  induction l as [|p l IH]; simpl; constructor.
  - intros (q & E & [Hq _]%list_elem_of_filter)%list_elem_of_fmap. by destruct Hq.
  - eapply sublist_NoDup; [exact IH|]. apply fmap_sublist, sublist_filter.
Qed.

#[export] Instance sample_build_laws : JsonBuildLaws json.
Proof.
  split; try done; try by intros [].
  - intros [] k v k'; simpl; try done. intros _. repeat case_bool_decide; subst; simpl; try done; naive_solver.
  - intros [] k v k'; simpl; try done. intros _. by case_bool_decide; case_bool_decide.
  - intros [] k v; simpl; try done. intros _. rewrite member_first. case_bool_decide as E; split; try done.
    + intros ->. done.
    + destruct E as [w ->]. simpl. by intros [_ ->].
    + intros E'. rewrite E' in E. by destruct E.
    + by intros [].
  - intros []; simpl; try done. intros _. apply first_members_NoDup.
  - intros []; simpl; try (by right). left. by eexists.
Qed.

(** Dotted quads in their canonical form, and two IPv6 addresses. *)
Definition octet_of (p : bytes) : option byte :=
  match stoi 10 p with
  | Done z => if bool_decide (p = print_dec (z mod 256)%Z) then Some (ch z) else None
  | _ => None
  end.

#[export] Instance sample_inet : Inet := {
  inet_pton4 s := match split_on "." s with
                  | [a; b; c; d] => mapM octet_of [a; b; c; d]
                  | _ => None
                  end;
  inet_pton6 s := if bool_decide (s = str "::") then Some (repeat x00 16)
                  else if bool_decide (s = str "::1") then Some (repeat x00 15 ++ [x01]) else None
}.

Lemma octet_of_print (b : byte) : octet_of (print_dec (u8 b)) = Some b.
Proof. destruct b; by vm_compute. Qed.

Lemma print_no_dot (b : byte) : ("."%byte) ∉ print_dec (u8 b).
Proof. destruct b; by_decide. Qed.

#[export] Instance sample_inet_laws : InetLaws.
Proof.
  split.
  - intros s a. cbn [inet_pton4 sample_inet]. destruct (split_on "." s) as [|p1 [|p2 [|p3 [|p4 [|]]]]]; try done.
    intros Ha%length_mapM. by rewrite <- Ha.
  - intros s a. simpl. repeat case_bool_decide; intros; simplify_eq; done.
  - intros a b c d. cbn [inet_pton4 sample_inet].
    rewrite split_on_join; [|done|repeat constructor; apply print_no_dot]. cbn [mapM]. by rewrite !octet_of_print.
  - intros s a. simpl. repeat case_bool_decide; intros; simplify_eq; by_decide.
  - done.
  - done.
Qed.

#[export] Instance sample_files : Files json := {
  stat_regular p := if bool_decide (p = str "./zones.json") then Some true else None;
  read_file p := if bool_decide (p = str "./zones.json") then Some (str "zones") else None;
  parse_json s := if bool_decide (s = str "options") then
    Done (JObject [(str "dns_port", JNumber 65589); (str "ttl", JNumber 60); (str "doh_only", JString (str "yes"))]) else
    Done (JObject [(str "zones", JArray
    [JObject [(str "zone", JString (str "example.com.")); (str "records", JArray
       [JObject [(str "name", JString (str "www")); (str "type", JString (str "A")); (str "data", JString (str "{{SELF}}"))];
        JObject [(str "name", JString (str "www")); (str "type", JString (str "A")); (str "data", JString (str "10.0.0.1"))];
        JObject [(str "name", JString (str "a.b")); (str "type", JString (str "TXT")); (str "data", JString (str "x"))];
        JObject [(str "name", JString (str "@")); (str "type", JString (str "A")); (str "data", JString (str "{{FORWARD_ALL}}"))]])];
     JObject [(str "zone", JString (str "evil.org")); (str "blocked", JBool true)]])]);
  g_DefaultJson := str "default"
}.

#[export] Instance sample_files_laws : FilesLaws json.
Proof. split. intros s. left. cbn. by case_bool_decide; eexists. Qed.
