(* ===== verification/ConfigFacts.v ===== *)
(** * What the zone file means

    The functions of [ConfigParser] build and rewrite JSON values member by member.  Here
    the zone file is read into typed zones and records ([parse_zones]), and the values the
    functions build are described by what stands under a zone, a record type and a
    subdomain. *)

From Stdlib Require Import ZArith Lia.
From Stdlib Require Import Strings.Byte Strings.String.
From stdpp Require Import base numbers list option sets.
From S2P Require Import Prelude.
From S2P Require Import Memory.
From S2P Require Import Utils.
From S2P Require Import Text.
From S2P Require Import DnsResponse.
From S2P Require Import LocalDns.
From S2P Require Import SampleJson.
From S2P Require Import SampleRegex.
From S2P Require Import ConfigParser.
From S2P Require Import SampleConfig.

Section members.
  Context {J : Type} `{HZ : JsonZones J} {HB : JsonBuild J}.
  Implicit Types (j v : J) (z t k : bytes).

(** What stands under one, two and three names. *)
Definition member j k : option J := if contains j k then Some (field_of j k) else None.
Definition member2 j z t : option J := r ← member j z; member r t.
Definition member3 j z t k : option J := s ← member2 j z t; member s k.

  Context `{HL : !JsonBuildLaws J}.

Lemma member_field j k v : member j k = Some v → field_of j k = v.
Proof. unfold member. by destruct (contains j k); intros [= ->]. Qed.

Lemma member_contains j k : contains j k = bool_decide (is_Some (member j k)).
Proof. unfold member. destruct (contains j k); symmetry; [by apply bool_decide_eq_true|]. by apply bool_decide_eq_false; intros []. Qed.

Lemma member_no_object j k : is_object j = false → member j k = None.
Proof.
  unfold member. intros E. destruct (contains j k) eqn:Hc; [|done]. apply contains_object in Hc. congruence.
Qed.

Lemma member_set j k v k' :
  is_object j = true → member (set_member j k v) k' = if decide (k = k') then Some v else member j k'.
Proof.
  intros Hj. unfold member. rewrite set_contains, set_field_of by done.
  by repeat case_decide; subst; repeat (rewrite bool_decide_eq_true_2 by done || rewrite bool_decide_eq_false_2 by done).
Qed.

Lemma member_empty k : member empty_object k = None.
Proof. unfold member. by rewrite empty_contains. Qed.

Lemma items_member j k v : is_object j = true → (k, v) ∈ items j ↔ member j k = Some v.
Proof.
  intros Hj. rewrite items_members by done. unfold member. destruct (contains j k); naive_solver.
Qed.

(** Updating below a zone whose members are objects. *)
Lemma set2_object j z t v : is_object j = true → is_object (set2 j z t v) = true.
Proof. apply set_is_object. Qed.

Lemma set2_member j z r t v z' :
  is_object j = true → member j z = Some r →
  member (set2 j z t v) z' = if decide (z = z') then Some (set_member r t v) else member j z'.
Proof. intros Hj Hr. unfold set2. rewrite member_set by done. by rewrite (member_field _ _ _ Hr). Qed.

Lemma set3_member j z r t s k v z' :
  is_object j = true → member j z = Some r → member r t = Some s →
  member (set3 j z t k v) z' = if decide (z = z') then Some (set_member r t (set_member s k v)) else member j z'.
Proof.
  intros Hj Hr Hs. unfold set3. rewrite (set2_member j z r) by done.
  by rewrite (member_field _ _ _ Hr), (member_field _ _ _ Hs).
Qed.
End members.

(** ** Grouping *)

Section grouping.
  Context {J : Type} `{HZ : JsonZones J} {HB : JsonBuild J}.
  Implicit Types (j v : J) (z t k : bytes).

(** A record of the zone file, and a zone: blocked, or with its records. *)
Record zone_record : Type := { r_type : bytes; r_key : bytes; r_data : J; r_root_forward : bool }.

Definition forward_value : J := of_string (str "{{FORWARD}}").

Definition parse_record j : outcome (option zone_record) :=
  if negb (is_object j) || negb (contains j (str "name")) || negb (contains j (str "type"))
       || negb (contains j (str "data")) then Done None else
  t ← get_string (field_of j (str "type"));
  n ← get_string (field_of j (str "name"));
  rx ← value_bool j (str "regex") false;
  let n := drop_last_if "." n in
  let fa := equals_text (field_of j (str "data")) (str "{{FORWARD_ALL}}") in
  Done (Some {| r_type := t; r_key := sub_key rx fa n;
                r_data := if fa then forward_value else field_of j (str "data");
                r_root_forward := fa && bool_decide (n = str "@") |}).

(** The elements that are not skipped. *)
Fixpoint parse_all {B} (f : J → outcome (option B)) (l : list J) : outcome (list B) :=
  match l with
  | [] => Done []
  | j :: l => o ← f j; bs ← parse_all f l; Done (match o with Some b => b :: bs | None => bs end)
  end.

Definition parse_zone j : outcome (option (bytes * option (list zone_record))) :=
  if negb (is_object j) || negb (contains j (str "zone")) then Done None else
  z ← get_string (field_of j (str "zone"));
  let z := drop_last_if "." z in
  if bool_decide (z = []) then Done None else
  b ← value_bool j (str "blocked") false;
  if b : bool then Done (Some (z, None)) else
  if negb (contains j (str "records")) || negb (is_array (field_of j (str "records"))) then Done None else
  rs ← parse_all parse_record (elements (field_of j (str "records")));
  Done (Some (z, Some rs)).

Definition parse_zones j : outcome (list (bytes * option (list zone_record))) :=
  if negb (contains j (str "zones")) || negb (is_array (field_of j (str "zones"))) then Done []
  else parse_all parse_zone (elements (field_of j (str "zones"))).

(** The last entry of a zone counts. *)
Definition zone_of (zs : list (bytes * option (list zone_record))) z : option (option (list zone_record)) :=
  snd <$> list.last (filter (λ p, p.1 = z) zs).

(** The data listed under a type and a key, in order; a FORWARD_ALL record of the zone's
    root replaces what is listed under [.*]. *)
Definition add_values t k (vs : list J) (r : zone_record) : list J :=
  if bool_decide (r_type r = t) then
    let vs := if bool_decide (r_key r = k) then vs ++ [r_data r] else vs in
    if r_root_forward r && bool_decide (k = str ".*") then [forward_value] else vs
  else vs.

Definition values (rs : list zone_record) t k : list J := fold_left (add_values t k) rs [].

(** Several values are an array; the first may be one already. *)
Definition merged (vs : list J) : option J :=
  match vs with
  | [] => None
  | [v] => Some v
  | v :: vs => Some (of_array ((if is_array v then elements v else [v]) ++ vs))
  end.

(** ** As the code groups them *)

Definition apply_record z (r : zone_record) (R : J) : J :=
  let R := if negb (contains (field_of R z) (r_type r)) then set2 R z (r_type r) empty_object else R in
  let s := field_of (field_of R z) (r_type r) in
  let R := set3 R z (r_type r) (r_key r)
             (if contains s (r_key r) then append_value (field_of s (r_key r)) (r_data r) else r_data r) in
  if r_root_forward r then set3 R z (r_type r) (str ".*") forward_value else R.

Definition apply_zone (R : J) (p : bytes * option (list zone_record)) : J :=
  match p.2 with
  | None => set_member R p.1 (of_string (str "{{BLOCKED}}"))
  | Some rs => fold_left (λ R r, apply_record p.1 r R) rs (set_member R p.1 empty_object)
  end.

Lemma parse_all_fold {B} (f : J → outcome (option B)) (g : J → J → outcome J) (ap : J → B → J) l R :
  (∀ j R, g j R = (o ← f j; Done (match o with Some b => ap R b | None => R end))) →
  foldM g l R = (bs ← parse_all f l; Done (fold_left ap bs R)).
Proof.
  intros Hg. revert R. induction l as [|j l IH]; intros R; [done|]. cbn [foldM parse_all]. rewrite Hg.
  destruct (f j) as [[b|]| | | |]; simpl; try done; rewrite IH; by destruct (parse_all f l).
Qed.

Lemma normalize_record_parse z j R :
  normalize_record z j R = (o ← parse_record j; Done (match o with Some r => apply_record z r R | None => R end)).
Proof.
  unfold normalize_record, parse_record. destruct (_ || _); [done|].
  destruct (get_string (field_of j (str "type"))); simpl; try done.
  destruct (get_string (field_of j (str "name"))); simpl; try done.
  by destruct (value_bool j (str "regex") false).
Qed.

Lemma normalize_zone_parse j R :
  normalize_zone j R = (o ← parse_zone j; Done (match o with Some p => apply_zone R p | None => R end)).
Proof.
  unfold normalize_zone, parse_zone. destruct (_ || _); [done|].
  destruct (get_string (field_of j (str "zone"))) as [z| | | |]; simpl; try done. case_bool_decide; [done|].
  destruct (value_bool j (str "blocked") false) as [[]| | | |]; simpl; try done. destruct (_ || _); [done|].
  erewrite parse_all_fold by (intros; apply normalize_record_parse). by destruct (parse_all _ _).
Qed.

Lemma NormalizeZones_parse j : NormalizeZones j = (zs ← parse_zones j; Done (fold_left apply_zone zs empty_object)).
Proof.
  unfold NormalizeZones, parse_zones. destruct (_ || _); [done|]. apply parse_all_fold, normalize_zone_parse.
Qed.

(** What a grouped zone holds. *)
Definition is_zone (rs : list zone_record) (zo : J) : Prop :=
  is_object zo = true ∧
  ∀ t, if bool_decide (t ∈ r_type <$> rs)
       then ∃ s, member zo t = Some s ∧ is_object s = true ∧ ∀ k, member s k = merged (values rs t k)
       else member zo t = None.

Definition zone_held (o : option (option (list zone_record))) (j : option J) : Prop :=
  match o with
  | None => j = None
  | Some None => j = Some (of_string (str "{{BLOCKED}}"))
  | Some (Some rs) => ∃ zo, j = Some zo ∧ is_zone rs zo
  end.

  Context `{HL : !JsonBuildLaws J}.

Lemma merged_append vs v :
  merged (vs ++ [v]) = Some (match merged vs with Some e => append_value e v | None => v end).
Proof.
  destruct vs as [|v1 [|v2 vs]]; [done| |]; simpl; f_equal; unfold append_value.
  - by destruct (is_array v1).
  - by rewrite of_array_is, of_array_elements, <- app_assoc.
Qed.

Lemma values_app rs r t k : values (rs ++ [r]) t k = add_values t k (values rs t k) r.
Proof. unfold values. by rewrite fold_left_app. Qed.

Lemma values_absent rs t k : t ∉ r_type <$> rs → values rs t k = [].
Proof.
  induction rs as [|r rs IH] using rev_ind; intros Ht; [done|]. rewrite fmap_app, not_elem_of_app in Ht.
  rewrite values_app, IH by tauto. unfold add_values. rewrite bool_decide_eq_false_2; [done|]. set_solver.
Qed.

(** Without such a FORWARD_ALL record, all the data under the type and the key. *)
Lemma values_filter rs t k :
  (k = str ".*" → Forall (λ r, r_type r = t → r_root_forward r = false) rs) →
  values rs t k = r_data <$> filter (λ r, r_type r = t ∧ r_key r = k) rs.
Proof.
  induction rs as [|r rs IH] using rev_ind; intros Hk; [done|].
  assert (Hr : r_type r = t → r_root_forward r && bool_decide (k = str ".*") = false).
  { intros Ht. case_bool_decide; [|by rewrite andb_false_r]. rewrite andb_true_r.
    specialize (Hk ltac:(done)). rewrite Forall_app, Forall_singleton in Hk. by apply Hk. }
  rewrite values_app, IH by (intros E; specialize (Hk E); rewrite Forall_app in Hk; by apply Hk).
  rewrite filter_app, fmap_app. unfold add_values. rewrite filter_cons, filter_nil.
  destruct (decide (r_type r = t)) as [Ht|Ht].
  - rewrite (bool_decide_eq_true_2 (r_type r = t)), Hr by done.
    destruct (decide (r_key r = k)); [by rewrite bool_decide_eq_true_2, decide_True by tauto|].
    by rewrite bool_decide_eq_false_2, decide_False, app_nil_r by tauto.
  - by rewrite bool_decide_eq_false_2, decide_False, app_nil_r by tauto.
Qed.

(** A value that differs from [R0] in the type [t] of the zone [z] only, which holds [s]. *)
Definition zone_with z t (R0 zo0 s R : J) : Prop :=
  is_object R = true ∧ is_object s = true ∧ (∀ z', z' ≠ z → member R z' = member R0 z') ∧
  ∃ zo, member R z = Some zo ∧ is_object zo = true ∧ member zo t = Some s ∧ ∀ t', t' ≠ t → member zo t' = member zo0 t'.

(** The objects on the way to a key are there before it is set. *)
Lemma ensure_type z t zo rs R :
  is_object R = true → member R z = Some zo → is_zone rs zo →
  ∃ s, zone_with z t R zo s (if negb (contains (field_of R z) t) then set2 R z t empty_object else R) ∧
    ∀ k, member s k = merged (values rs t k).
Proof.
  intros HR Hz [Hzo Ht]. rewrite (member_field _ _ _ Hz), member_contains. specialize (Ht t).
  case_bool_decide as E.
  - destruct Ht as (s & Hs & Hso & Hk). rewrite Hs, bool_decide_eq_true_2 by done. exists s. split; [|done].
    split_and!; [done..|]. by exists zo.
  - rewrite Ht, bool_decide_eq_false_2 by (by intros []). exists empty_object. cbn [negb].
    split; [split_and!|].
    + by apply set2_object.
    + apply empty_is_object.
    + intros z' ?. by rewrite (set2_member _ _ zo), decide_False by done.
    + exists (set_member zo t empty_object). split_and!; [by rewrite (set2_member _ _ zo), decide_True by done|by apply set_is_object
        |by rewrite member_set, decide_True by done|]. intros t' ?. by rewrite member_set, decide_False by done.
    + intros k. by rewrite member_empty, values_absent.
Qed.

Lemma set3_with z t R0 zo0 s R k v :
  zone_with z t R0 zo0 s R → zone_with z t R0 zo0 (set_member s k v) (set3 R z t k v).
Proof.
  intros (HR & Hs & Ho & zo & Hm & Hzo & Hms & Hot). split_and!.
  - by apply set2_object.
  - by apply set_is_object.
  - intros z' ?. rewrite (set3_member _ _ zo _ s), decide_False by done. auto.
  - exists (set_member zo t (set_member s k v)). rewrite (set3_member _ _ zo _ s), decide_True by done.
    split_and!; [done|by apply set_is_object|by rewrite member_set, decide_True by done|].
    intros t' ?. rewrite member_set, decide_False by done. auto.
Qed.

Lemma zone_extended z r R0 zo0 s R rs :
  zone_with z (r_type r) R0 zo0 s R → is_zone rs zo0 →
  (∀ k, member s k = merged (values (rs ++ [r]) (r_type r) k)) →
  ∃ zo, member R z = Some zo ∧ is_zone (rs ++ [r]) zo.
Proof.
  intros (_ & Hs & _ & zo & Hm & Hzo & Hms & Hot) [_ Hz] Hk. exists zo. split; [done|]. split; [done|].
  intros t. rewrite fmap_app. destruct (decide (t = r_type r)) as [->|Hne].
  - rewrite bool_decide_eq_true_2 by set_solver. by exists s.
  - specialize (Hz t). rewrite Hot by done. case_bool_decide as E.
    + rewrite bool_decide_eq_true_2 by set_solver. destruct Hz as (s0 & ? & ? & Hv0). exists s0. split_and!; [done..|].
      intros k. rewrite Hv0, values_app. unfold add_values. by rewrite bool_decide_eq_false_2 by done.
    + by rewrite bool_decide_eq_false_2 by set_solver.
Qed.

Lemma apply_record_zone z r zo rs R :
  is_object R = true → member R z = Some zo → is_zone rs zo →
  is_object (apply_record z r R) = true ∧
  (∃ zo', member (apply_record z r R) z = Some zo' ∧ is_zone (rs ++ [r]) zo') ∧
  (∀ z', z' ≠ z → member (apply_record z r R) z' = member R z').
Proof.
  intros HR Hz Hzone. destruct (ensure_type z (r_type r) zo rs R) as (s & H1 & Hk); [done..|].
  unfold apply_record. set (R1 := if negb _ then _ else _) in *. cbv zeta.
  assert (Es : field_of (field_of R1 z) (r_type r) = s).
  { destruct H1 as (_ & _ & _ & zo1 & Hm & _ & Hs & _). by rewrite (member_field _ _ _ Hm), (member_field _ _ _ Hs). }
  rewrite Es. set (v := if contains s (r_key r) then _ else _).
  assert (Hv : merged (values rs (r_type r) (r_key r) ++ [r_data r]) = Some v).
  { rewrite merged_append, <- Hk. unfold v. rewrite member_contains. by destruct (member s (r_key r)) eqn:Em;
      [rewrite bool_decide_eq_true_2 by done; rewrite (member_field _ _ _ Em)|rewrite bool_decide_eq_false_2 by (by intros [])]. }
  assert (Hm2 : ∀ k, member (set_member s (r_key r) v) k =
    merged (if bool_decide (r_key r = k) then values rs (r_type r) k ++ [r_data r] else values rs (r_type r) k)).
  { intros k. rewrite member_set by apply H1. case_decide; [subst; rewrite bool_decide_eq_true_2 by done; by rewrite Hv|].
    by rewrite bool_decide_eq_false_2 by done. }
  apply (set3_with _ _ _ _ _ _ (r_key r) v) in H1.
  destruct (r_root_forward r) eqn:Hrf.
  - apply (set3_with _ _ _ _ _ _ (str ".*") forward_value) in H1 as H2. split_and!; [apply H2| |apply H2].
    eapply zone_extended; [done..|]. intros k. rewrite member_set by apply H1. rewrite values_app.
    unfold add_values. rewrite bool_decide_eq_true_2, Hrf by done. cbn [andb].
    case_decide; [by rewrite bool_decide_eq_true_2|]. by rewrite (bool_decide_eq_false_2 (k = _)), Hm2 by done.
  - split_and!; [apply H1| |apply H1]. eapply zone_extended; [done..|]. intros k. rewrite Hm2, values_app.
    unfold add_values. by rewrite (bool_decide_eq_true_2 (r_type r = _)), Hrf by done.
Qed.

Lemma apply_records_zone z rs rs0 zo R :
  is_object R = true → member R z = Some zo → is_zone rs0 zo →
  let R' := fold_left (λ R r, apply_record z r R) rs R in
  is_object R' = true ∧ (∃ zo', member R' z = Some zo' ∧ is_zone (rs0 ++ rs) zo') ∧
  (∀ z', z' ≠ z → member R' z' = member R z').
Proof.
  revert rs0 zo R. induction rs as [|r rs IH]; intros rs0 zo R HR Hz Hzone; cbn [fold_left].
  - split_and!; [done| |done]. exists zo. by rewrite app_nil_r.
  - destruct (apply_record_zone z r zo rs0 R) as (H1 & (zo1 & Hz1 & Hzone1) & Ho1); [done..|].
    destruct (IH _ _ _ H1 Hz1 Hzone1) as (H2 & Hz2 & Ho2). rewrite <- app_assoc in Hz2. split_and!; [done..|].
    intros z' ?. rewrite Ho2 by done. auto.
Qed.

Lemma empty_zone : is_zone [] empty_object.
Proof. split; [apply empty_is_object|]. intros t. cbn. apply member_empty. Qed.

Lemma zone_of_app zs p z : zone_of (zs ++ [p]) z = if decide (p.1 = z) then Some p.2 else zone_of zs z.
Proof.
  unfold zone_of. rewrite filter_app, filter_cons, filter_nil. case_decide; [by rewrite last_snoc|by rewrite app_nil_r].
Qed.

Lemma apply_zones_held zs :
  let R := fold_left apply_zone zs empty_object in
  is_object R = true ∧ ∀ z, zone_held (zone_of zs z) (member R z).
Proof.
  induction zs as [|[z0 o] zs IH] using rev_ind; cbv zeta.
  - split; [apply empty_is_object|]. intros z. cbn. apply member_empty.
  - rewrite fold_left_app. set (R := fold_left apply_zone zs empty_object) in *. destruct IH as [HR IH].
    cbn [fold_left]. unfold apply_zone. cbn [fst snd]. destruct o as [rs|].
    + destruct (apply_records_zone z0 rs [] empty_object (set_member R z0 empty_object)) as (H1 & H2 & H3);
        [by apply set_is_object|by rewrite member_set, decide_True by done|apply empty_zone|].
      split; [done|]. intros z. rewrite zone_of_app. cbn [fst snd]. case_decide as E; [by subst|].
      rewrite H3, member_set, decide_False by done. apply IH.
    + split; [by apply set_is_object|]. intros z. rewrite zone_of_app, member_set by done. cbn [fst snd].
      by case_decide.
Qed.
End grouping.

(** ** Converting the addresses *)

Section converting.
  Context {J : Type} `{HJ : Json J} {HJL : JsonLaws J} `{HZ : !JsonZones J} {HZL : JsonZonesLaws J}.
  Context {HB : JsonBuild J} {HL : JsonBuildLaws J} {HI : Inet} {HIL : InetLaws} (r4 r6 : bytes).
  Implicit Types (j v G N : J) (z t k : bytes).

(** What a text stands for in an address record: the redirect address, the address of
    nothing, or the address it is. *)
Definition pton t (s : bytes) : option bytes := if bool_decide (t = str "A") then inet_pton4 s else inet_pton6 s.
Definition address_size t : nat := if bool_decide (t = str "A") then 4 else 16.
Definition redirect t : bytes := if bool_decide (t = str "A") then r4 else r6.

Definition single t v : option bytes :=
  if equals_text v (str "{{SELF}}") then pton t (redirect t)
  else if equals_text v (str "{{BLOCKED}}") then Some (repeat x00 (address_size t))
  else match get_string v with Done s => pton t s | _ => None end.

Definition converted t v : option J :=
  if is_array v then of_array ∘ fmap of_string <$> mapM (single t) (elements v) else of_string <$> single t v.

(** A grouped zone file: its zones are blocked, or objects of objects. *)
Definition blocked j : bool := equals_text j (str "{{BLOCKED}}").
Definition grouped G : Prop :=
  is_object G = true ∧
  ∀ z r, member G z = Some r → blocked r = false →
    is_object r = true ∧ ∀ t s, member r t = Some s → is_object s = true.

(** An address that has to be converted stands under three names. *)
Definition to_convert G z t k v : Prop :=
  is_address t = true ∧ has_forward v = false ∧ member3 G z t k = Some v ∧ ∃ r, member G z = Some r ∧ blocked r = false.

Lemma pton_length t s a : pton t s = Some a → length a = address_size t.
Proof. unfold pton, address_size. case_bool_decide; [apply inet4_length|apply inet6_length]. Qed.

Lemma to_hex_pton t s h :
  length h = address_size t →
  to_hex t s h = Done (match pton t s with Some a => (0%Z, a) | None => ((-1)%Z, h) end).
Proof.
  intros Hh. pose proof (pton_length t s) as Hp. unfold to_hex, Ipv4ToHex, Ipv6ToHex, pton, address_size in *.
  case_bool_decide; rewrite Hh; cbn [Nat.ltb Nat.leb IPV4_BINARY_SIZE IPV6_BINARY_SIZE];
    [destruct (inet_pton4 s) as [a|]|destruct (inet_pton6 s) as [a|]]; try done;
    specialize (Hp a eq_refl); rewrite store_n_Done by lia; cbn [mbind outcome_mbind outcome_bind];
    unfold splice; rewrite drop_ge, app_nil_r by lia; done.
Qed.

Lemma checked_hex_pton t s h :
  length h = address_size t →
  checked_hex t s h = match pton t s with Some a => Done a | None => Throw RuntimeError end.
Proof. intros Hh. unfold checked_hex. rewrite to_hex_pton by done. by destruct (pton t s). Qed.

Lemma convertSingleValue_single v t :
  convertSingleValue r4 r6 v t = match single t v with Some h => Done h | None => Throw RuntimeError end.
Proof.
  unfold convertSingleValue, single. cbv zeta.
  assert (Hl : length (repeat x00 (if bool_decide (t = str "A") then IPV4_BINARY_SIZE else IPV6_BINARY_SIZE)) = address_size t).
  { rewrite repeat_length. by unfold address_size; case_bool_decide. }
  destruct (equals_text v _); [by apply checked_hex_pton|]. destruct (equals_text v _).
  - rewrite to_hex_pton by done. unfold pton, address_size. case_bool_decide.
    + by rewrite (inet4_quad x00 x00 x00 x00 : inet_pton4 (str "0.0.0.0") = _).
    + by rewrite inet6_any.
  - pose proof (get_string_spec v) as Hs. destruct (is_string v); [|by rewrite Hs].
    destruct Hs as [s ->]. by apply checked_hex_pton.
Qed.

Lemma convert_value_converted t v :
  convert_value r4 r6 t v = match converted t v with Some j => Done j | None => Throw RuntimeError end.
Proof.
  unfold convert_value, converted. destruct (is_array v).
  - assert (Hg : ∀ (l acc : list J), foldM (λ el (a : list J), h ← convertSingleValue r4 r6 el t; Done (a ++ [of_string h])) l acc =
      match mapM (single t) l with Some hs => Done (acc ++ ((of_string : bytes → J) <$> hs)) | None => Throw RuntimeError end).
    { induction l as [|el l IH]; intros acc; [simpl; by rewrite app_nil_r|]. cbn [foldM mapM]. rewrite convertSingleValue_single.
      destruct (single t el) as [h|]; simpl; [|done]. rewrite IH. destruct (mapM (single t) l); [|done].
      by rewrite <- app_assoc. }
    rewrite Hg. by destruct (mapM (single t) (elements v)).
  - rewrite convertSingleValue_single. by destruct (single t v).
Qed.

(** The three loops as one, over the addresses to convert. *)
Definition targets G : list (bytes * bytes * (bytes * J)) :=
  '(z, r) ← items G;
  if blocked r then [] else
  '(t, s) ← items r;
  if is_address t then pair (z, t) <$> filter (λ p, has_forward p.2 = false) (items s) else [].

Definition convert_target (p : bytes * bytes * (bytes * J)) N : outcome J :=
  let '(z, t, (k, v)) := p in
  v ← convert_value r4 r6 t v; Done (set3 N z t k v).

Lemma foldM_filter {A S} (P : A → Prop) `{∀ x, Decision (P x)} (f : A → S → outcome S) l s :
  foldM f (filter P l) s = foldM (λ x s, if decide (P x) then f x s else Done s) l s.
Proof.
  revert s. induction l as [|x l IH]; intros s; [done|]. rewrite filter_cons. cbn [foldM].
  case_decide; cbn [foldM]; [destruct (f x s); simpl; auto|]. apply IH.
Qed.

Lemma ValidateAndOptimize_targets G : ValidateAndOptimize r4 r6 G = foldM convert_target (targets G) G.
Proof.
  unfold ValidateAndOptimize, targets. rewrite foldM_bind. apply foldM_ext. intros [z r] N _. unfold convert_zone, blocked.
  destruct (equals_text r _); [done|]. rewrite foldM_bind. apply foldM_ext. intros [t s] N' _. unfold convert_type.
  destruct (is_address t); [|done]. rewrite foldM_fmap, foldM_filter. apply foldM_ext. intros [k v] N'' _.
  unfold convert_subdomain. cbn [snd]. by destruct (has_forward v).
Qed.

Lemma elem_of_targets G z t k v :
  grouped G → (z, t, (k, v)) ∈ targets G ↔ to_convert G z t k v.
Proof.
  intros [HZo Hg]. unfold targets, to_convert, member3, member2. rewrite list_elem_of_bind. split.
  - intros ([z0 r] & Hin & Hz). rewrite items_member in Hz by done. destruct (blocked r) eqn:Hb; [by apply elem_of_nil in Hin|].
    destruct (Hg _ _ Hz Hb) as [Hr Hs]. apply list_elem_of_bind in Hin as ([t0 s] & Hin & Ht). rewrite items_member in Ht by done.
    destruct (is_address t0) eqn:Ha; [|by apply elem_of_nil in Hin].
    apply list_elem_of_fmap in Hin as ([k0 v0] & [= -> -> -> ->] & [Hf Hk]%list_elem_of_filter).
    rewrite items_member in Hk by eauto. split_and!; [done|done| |by exists r]. rewrite Hz. simpl. by rewrite Ht.
  - intros (Ha & Hf & Hk & r & Hz & Hb). destruct (Hg _ _ Hz Hb) as [Hr Hs]. rewrite Hz in Hk. simpl in Hk.
    destruct (member r t) as [s|] eqn:Ht; [|done]. exists (z, r). rewrite Hb, items_member by done. split; [|done].
    apply list_elem_of_bind. exists (t, s). rewrite Ha, items_member by done. split; [|done].
    apply list_elem_of_fmap. exists (k, v). split; [done|]. apply list_elem_of_filter. split; [done|].
    rewrite items_member by eauto. done.
Qed.

(** [N] is [G] with the data below address types rewritten by [f], which is told where
    the data stands. *)
Definition rewritten (f : bytes → bytes → bytes → J → J) G N : Prop :=
  is_object N = true ∧
  ∀ z, match member G z with
       | None => member N z = None
       | Some r =>
           if blocked r then member N z = Some r else
           ∃ r', member N z = Some r' ∧ is_object r' = true ∧
             ∀ t, match member r t with
                  | None => member r' t = None
                  | Some s =>
                      if is_address t then ∃ s', member r' t = Some s' ∧ is_object s' = true ∧
                                                ∀ k, member s' k = f z t k <$> member s k
                      else member r' t = Some s
                  end
       end.

Lemma rewritten_id G : grouped G → rewritten (λ _ _ _ v, v) G G.
Proof.
  intros [HG Hg]. split; [done|]. intros z. destruct (member G z) as [r|] eqn:Hz; [|done].
  destruct (blocked r) eqn:Hb; [done|]. destruct (Hg _ _ Hz Hb) as [Hr Hs]. exists r. split_and!; [done..|].
  intros t. destruct (member r t) as [s|] eqn:Ht; [|done]. destruct (is_address t); [|done].
  exists s. split_and!; [done|eauto|]. intros k. by destruct (member s k).
Qed.

Lemma rewritten_ext f g G N :
  (∀ z r t k v, member G z = Some r → blocked r = false → is_address t = true → member3 G z t k = Some v →
     f z t k v = g z t k v) →
  rewritten f G N → rewritten g G N.
Proof.
  intros Hfg [HN Hz]. split; [done|]. intros z. specialize (Hz z). destruct (member G z) as [r|] eqn:Er; [|done].
  destruct (blocked r) eqn:Eb; [done|]. destruct Hz as (r' & Hr' & Ho & Ht). exists r'. split_and!; [done..|].
  intros t. specialize (Ht t). destruct (member r t) as [s|] eqn:Es; [|done]. destruct (is_address t) eqn:Ea; [|done].
  destruct Ht as (s' & ? & ? & Hk). exists s'. split_and!; [done..|]. intros k. rewrite Hk.
  destruct (member s k) as [v|] eqn:Ev; [|done]. simpl. f_equal. apply (Hfg z r); [done..|]. unfold member3, member2.
  rewrite Er. simpl. by rewrite Es.
Qed.

Lemma rewritten_set f G N z t k v w :
  rewritten f G N → to_convert G z t k v →
  rewritten (λ z' t' k' v', if decide ((z', t', k') = (z, t, k)) then w else f z' t' k' v') G (set3 N z t k w).
Proof.
  intros [HN Hz] (Ha & _ & Hv & r & Hr & Hb). unfold member3, member2 in Hv. rewrite Hr in Hv. simpl in Hv.
  destruct (member r t) as [s|] eqn:Hs; [|done]. simpl in Hv.
  pose proof (Hz z) as Hzz. rewrite Hr, Hb in Hzz. destruct Hzz as (r' & Hr' & Hro & Ht).
  pose proof (Ht t) as Htt. rewrite Hs, Ha in Htt. destruct Htt as (s' & Hs' & Hso & Hk).
  split; [by apply set2_object|]. intros z'. rewrite (set3_member _ _ r' _ s') by done.
  destruct (decide (z = z')) as [<-|Hne].
  - rewrite Hr, Hb. exists (set_member r' t (set_member s' k w)). split_and!; [done|by apply set_is_object|].
    intros t'. rewrite member_set by done. destruct (decide (t = t')) as [<-|Hne].
    + rewrite Hs, Ha. exists (set_member s' k w). split_and!; [done|by apply set_is_object|]. intros k'.
      rewrite member_set by done. destruct (decide (k = k')) as [<-|Hne].
      * rewrite Hv. simpl. by rewrite decide_True by done.
      * rewrite Hk. destruct (member s k'); simpl; [|done]. by rewrite decide_False by congruence.
    + specialize (Ht t'). destruct (member r t') as [s0|]; [|done]. destruct (is_address t'); [|done].
      destruct Ht as (s1 & ? & ? & Hk1). exists s1. split_and!; [done..|]. intros k'. rewrite Hk1.
      destruct (member s0 k'); simpl; [|done]. by rewrite decide_False by congruence.
  - specialize (Hz z'). destruct (member G z') as [r0|]; [|done]. destruct (blocked r0); [done|].
    destruct Hz as (r1 & ? & ? & Ht1). exists r1. split_and!; [done..|]. intros t'. specialize (Ht1 t').
    destruct (member r0 t') as [s0|]; [|done]. destruct (is_address t'); [|done].
    destruct Ht1 as (s1 & ? & ? & Hk1). exists s1. split_and!; [done..|]. intros k'. rewrite Hk1.
    destruct (member s0 k'); simpl; [|done]. by rewrite decide_False by congruence.
Qed.

(** Every address is converted, the rest stays. *)
Definition optimized : J → J → Prop :=
  rewritten (λ _ t _ v, if has_forward v then v else default v (converted t v)).

Definition position (p : bytes * bytes * (bytes * J)) : bytes * bytes * bytes := (p.1, p.2.1).

Lemma convert_targets_ok G :
  grouped G → (∀ z t k v, to_convert G z t k v → is_Some (converted t v)) →
  ∃ N, foldM convert_target (targets G) G = Done N ∧ optimized G N.
Proof.
  intros Hg Hok.
  destruct (foldM_inv convert_target (λ done, rewritten (λ z t k v,
    if decide ((z, t, k) ∈ position <$> done) then default v (converted t v) else v) G) (targets G) G)
    as (N & HN & Hr).
  - eapply rewritten_ext, rewritten_id; [|done]. done.
  - intros done_ [[z t] [k v]] N Hr Hin. apply elem_of_targets in Hin; [|done].
    destruct (Hok _ _ _ _ Hin) as [w Hw]. exists (set3 N z t k w). unfold convert_target.
    rewrite convert_value_converted, Hw. split; [done|].
    eapply rewritten_ext, rewritten_set; [|done|done]. intros z' r' t' k' v' _ _ _ Hv'. cbn beta. rewrite fmap_app.
    destruct (decide ((z', t', k') = (z, t, k))) as [[= -> -> ->]|Hne].
    + rewrite decide_True by set_solver. destruct Hin as (_ & _ & Hv & _). rewrite Hv in Hv'.
      injection Hv' as <-. by rewrite Hw.
    + assert (E : (z', t', k') ∈ (position <$> done_) ++ (position <$> [(z, t, (k, v))]) ↔ (z', t', k') ∈ position <$> done_) by set_solver.
      by rewrite (decide_ext _ _ _ _ E).
  - exists N. split; [done|]. eapply rewritten_ext; [|done]. intros z r t k v Hz Hb Ha Hv. cbn beta.
    destruct (has_forward v) eqn:Hf.
    + rewrite decide_False; [done|]. intros ([[z' t'] [k' v']] & [= <- <- <-] & Hin)%list_elem_of_fmap.
      apply elem_of_targets in Hin as (_ & Hf' & Hv' & _); [|done]. congruence.
    + rewrite decide_True; [done|]. apply list_elem_of_fmap. exists (z, t, (k, v)). split; [done|].
      apply elem_of_targets; [done|]. split_and!; [done..|]. by exists r.
Qed.

Lemma convert_targets_fail l N :
  Exists (λ p : bytes * bytes * (bytes * J), converted p.1.2 p.2.2 = None) l → foldM convert_target l N = Throw RuntimeError.
Proof.
  intros Hl. revert N. induction Hl as [[[z t] [k v]] l Hv|[[z t] [k v]] l Hl IH]; intros N; cbn [foldM]; unfold convert_target;
    rewrite convert_value_converted.
  - cbn [fst snd] in Hv. by rewrite Hv.
  - by destruct (converted t v); simpl.
Qed.

(** The data of an address record: the bytes of an address, or an array of them. *)
Definition address_text t j : Prop := ∃ a, get_string j = Done a ∧ length a = address_size t.
Definition addresses t j : Prop := if is_array j then Forall (address_text t) (elements j) else address_text t j.

Lemma single_address t v a : single t v = Some a → length a = address_size t.
Proof.
  unfold single. destruct (equals_text v _); [apply pton_length|]. destruct (equals_text v _).
  - intros [= <-]. apply repeat_length.
  - destruct (get_string v); try done. apply pton_length.
Qed.

Lemma converted_addresses t v j : converted t v = Some j → addresses t j.
Proof.
  assert (Hs : ∀ a, length a = address_size t → address_text t (of_string a)).
  { intros a Ha. exists a. by rewrite of_string_get. }
  unfold converted. destruct (is_array v).
  - destruct (mapM (single t) (elements v)) as [hs|] eqn:Em; [|done]. intros [= <-]. unfold addresses. cbn [compose].
    rewrite of_array_is, of_array_elements. apply mapM_Some in Em. apply Forall_fmap.
    apply Forall_forall. intros h Hh. cbn. apply Hs. destruct (list_elem_of_lookup_1 _ _ Hh) as [i Hi].
    destruct (Forall2_lookup_r _ _ _ _ _ Em Hi) as (x & _ & Hx). by eapply single_address.
  - destruct (single t v) as [a|] eqn:Es; [|done]. intros [= <-]. unfold addresses.
    destruct (is_array (of_string a)) eqn:Ea; [|by eapply Hs, single_address].
    pose proof (string_no_array (of_string a) (of_string_is a)). congruence.
Qed.

(** It succeeds, or some address is none. *)
Lemma optimize_cases G :
  grouped G →
  (∃ N, ValidateAndOptimize r4 r6 G = Done N ∧ optimized G N ∧ ∀ z t k v, to_convert G z t k v → is_Some (converted t v)) ∨
  (ValidateAndOptimize r4 r6 G = Throw RuntimeError ∧ ∃ z t k v, to_convert G z t k v ∧ converted t v = None).
Proof.
  intros Hg. rewrite ValidateAndOptimize_targets.
  destruct (Forall_Exists_dec (λ p : bytes * bytes * (bytes * J), is_Some (converted p.1.2 p.2.2))
    (λ p, converted p.1.2 p.2.2 = None) (λ p, match converted p.1.2 p.2.2 as o return {is_Some o} + {o = None} with
      Some j => left (mk_is_Some _ j eq_refl) | None => right eq_refl end) (targets G)) as [Hok|Hbad].
  - left. rewrite Forall_forall in Hok.
    assert (Hc : ∀ z t k v, to_convert G z t k v → is_Some (converted t v)).
    { intros z t k v Hv. apply (Hok (z, t, (k, v))). by apply elem_of_targets. }
    destruct (convert_targets_ok G Hg Hc) as (N & HN & Ho). by exists N.
  - right. split; [by apply convert_targets_fail|]. apply Exists_exists in Hbad as ([[z t] [k v]] & Hin & Hv).
    exists z, t, k, v. split; [|done]. by apply elem_of_targets.
Qed.

(** C16: on a grouped zone file, ValidateAndOptimize converts every address record, and every
    element of one that lists several: to the redirect address for {{SELF}}, to zeros for
    {{BLOCKED}}, else to the bytes of the address; forward directives, lists with one, other
    types and blocked zones are kept; everything converted is 4 or 16 bytes long.  It
    throws exactly when some address is none. *)
Theorem ValidateAndOptimize_spec G :
  grouped G →
  (∃ N, ValidateAndOptimize r4 r6 G = Done N ∧ optimized G N ∧
     ∀ z t k v, to_convert G z t k v → ∃ j, converted t v = Some j ∧ addresses t j) ∨
  (ValidateAndOptimize r4 r6 G = Throw RuntimeError ∧ ∃ z t k v, to_convert G z t k v ∧ converted t v = None).
Proof.
  intros Hg. destruct (optimize_cases G Hg) as [(N & HN & Ho & Hc)|Hbad]; [left|by right]. exists N. split_and!; [done..|].
  intros z t k v Hv. destruct (Hc _ _ _ _ Hv) as [j Hj]. exists j. split; [done|]. by eapply converted_addresses.
Qed.
End converting.

(** ** The two steps together *)

Section zone_file.
  Context {J : Type} `{HJ : Json J} {HJL : JsonLaws J} `{HZ : !JsonZones J} {HZL : JsonZonesLaws J}.
  Context {HB : JsonBuild J} {HL : JsonBuildLaws J}.
  Implicit Types (j p : J).

Lemma get_string_json j : (∃ s, get_string j = Done s) ∨ get_string j = Throw JsonError.
Proof. pose proof (get_string_spec j) as H. destruct (is_string j); [by left|by right]. Qed.

Lemma value_bool_json j k d : (∃ b, value_bool j k d = Done b) ∨ value_bool j k d = Throw JsonError.
Proof. unfold value_bool. destruct (contains j k); [apply get_bool_spec|left; by eexists]. Qed.

Lemma parse_all_json {B} (f : J → outcome (option B)) l :
  (∀ j, (∃ o, f j = Done o) ∨ f j = Throw JsonError) → (∃ bs, parse_all f l = Done bs) ∨ parse_all f l = Throw JsonError.
Proof.
  intros Hf. induction l as [|j l IH]; cbn [parse_all]; [left; by eexists|].
  destruct (Hf j) as [[o ->]| ->]; [|by right]. destruct IH as [[bs ->]| ->]; [left; by eexists|by right].
Qed.

Lemma parse_record_json j : (∃ o, parse_record j = Done o) ∨ parse_record j = Throw JsonError.
Proof.
  unfold parse_record. destruct (_ || _); [left; by eexists|].
  destruct (get_string_json (field_of j (str "type"))) as [[t ->]| ->]; [|by right].
  destruct (get_string_json (field_of j (str "name"))) as [[n ->]| ->]; [|by right].
  destruct (value_bool_json j (str "regex") false) as [[b ->]| ->]; [left; by eexists|by right].
Qed.

Lemma parse_zone_json j : (∃ o, parse_zone j = Done o) ∨ parse_zone j = Throw JsonError.
Proof.
  unfold parse_zone. destruct (_ || _); [left; by eexists|].
  destruct (get_string_json (field_of j (str "zone"))) as [[z ->]| ->]; [|by right]. cbn [mbind outcome_mbind outcome_bind].
  case_bool_decide; [left; by eexists|].
  destruct (value_bool_json j (str "blocked") false) as [[[] ->]| ->]; [left; by eexists| |by right].
  cbn [mbind outcome_mbind outcome_bind]. destruct (_ || _); [left; by eexists|].
  destruct (parse_all_json parse_record (elements (field_of j (str "records"))) parse_record_json) as [[rs ->]| ->];
    [left; by eexists|by right].
Qed.

Lemma parse_zones_json j : (∃ zs, parse_zones j = Done zs) ∨ parse_zones j = Throw JsonError.
Proof. unfold parse_zones. destruct (_ || _); [left; by eexists|]. apply parse_all_json, parse_zone_json. Qed.

Lemma zone_held_grouped zs R : is_object R = true → (∀ z, zone_held (zone_of zs z) (member R z)) → grouped R.
Proof.
  intros HR Hz. split; [done|]. intros z r Hr Hb. specialize (Hz z). rewrite Hr in Hz.
  destruct (zone_of zs z) as [[rs|]|]; [|exfalso|done].
  - destruct Hz as (zo & [= <-] & Ho & Ht). split; [done|]. intros t s Hs. specialize (Ht t). case_bool_decide; [|congruence].
    destruct Ht as (s' & Hs' & ? & _). congruence.
  - injection Hz as ->. unfold blocked, equals_text in Hb. rewrite of_string_is, of_string_get in Hb.
    by rewrite bool_decide_eq_true_2 in Hb.
Qed.

Lemma NormalizeZones_cases p :
  (∃ zs R, parse_zones p = Done zs ∧ NormalizeZones p = Done R ∧ is_object R = true ∧
     ∀ z, zone_held (zone_of zs z) (member R z)) ∨
  parse_zones p = Throw JsonError ∧ NormalizeZones p = Throw JsonError.
Proof.
  rewrite NormalizeZones_parse. destruct (parse_zones_json p) as [[zs E]|E]; rewrite E; [left|by right].
  destruct (apply_zones_held zs) as [HR Hz]. by eexists _, _.
Qed.

(** C15: NormalizeZones groups the records of the zone file: a zone that is listed, in its last
    entry, as blocked is blocked; one that is listed with records holds, under each type and
    subdomain key, the data of all its records with this type and key, in order, several of
    them as an array (without a FORWARD_ALL record of the zone's root, that is the data
    filtered out by type and key); nothing else is there, and malformed files throw. *)
Theorem NormalizeZones_spec p :
  match parse_zones p with
  | Done zs =>
      ∃ R, NormalizeZones p = Done R ∧ is_object R = true ∧
        ∀ z, zone_held (zone_of zs z) (member R z) ∧
          ∀ rs t k, zone_of zs z = Some (Some rs) → Forall (λ r, r_root_forward r = false) rs →
            member3 R z t k = merged (r_data <$> filter (λ r, r_type r = t ∧ r_key r = k) rs)
  | _ => NormalizeZones p = Throw JsonError
  end.
Proof.
  destruct (NormalizeZones_cases p) as [(zs & R & E & HR & Ho & Hz)|[E HR]]; rewrite E; [|done].
  exists R. split_and!; [done..|]. intros z. split; [done|]. intros rs t k Hrs Hf. specialize (Hz z). rewrite Hrs in Hz.
  destruct Hz as (zo & Hm & _ & Ht). specialize (Ht t). rewrite <- values_filter.
  2: { intros _. eapply Forall_impl; [exact Hf|done]. }
  unfold member3, member2. rewrite Hm. cbn [mbind option_bind]. case_bool_decide as Hin.
  - destruct Ht as (s & -> & _ & Hk). apply Hk.
  - rewrite Ht, values_absent by done. done.
Qed.
End zone_file.

(** ** Examples *)

Definition example_file : json := match parse_json [] with Done j => j | _ => JNull end.
Definition example_parsed := Eval vm_compute in parse_zones example_file.

Lemma NormalizeZones_spec_witness :
  ∃ R, NormalizeZones example_file = Done R ∧
    member3 R (str "example.com") (str "A") (str "www") = Some (JArray [JString (str "{{SELF}}"); JString (str "10.0.0.1")]).
Proof.
  pose proof (NormalizeZones_spec example_file) as Hn. change (parse_zones example_file) with example_parsed in Hn.
  cbn [example_parsed] in Hn. destruct Hn as (R & HR & _ & Hz). exists R. split; [exact HR|].
  destruct (Hz (str "example.com")) as [(zo & Hm & _ & Ht) _].
  specialize (Ht (str "A")). rewrite bool_decide_eq_true_2 in Ht by by_decide. destruct Ht as (s & Hs & _ & Hk).
  unfold member3, member2. rewrite Hm. cbn [mbind option_bind]. rewrite Hs. cbn [mbind option_bind]. rewrite Hk. reflexivity.
Defined.

Definition example_grouped : json := match NormalizeZones example_file with Done j => j | _ => JNull end.

Lemma example_grouped_ok : grouped example_grouped.
Proof.
  destruct (NormalizeZones_cases example_file) as [(zs & R & _ & HR & Ho & Hz)|[_ HR]].
  - unfold example_grouped. rewrite HR. by eapply zone_held_grouped.
  - vm_compute in HR. discriminate HR.
Qed.

(** With the redirect address 127.0.0.1, both addresses of www.example.com are converted. *)
Lemma ValidateAndOptimize_spec_witness :
  grouped example_grouped ∧
  ∃ N, ValidateAndOptimize (str "127.0.0.1") (str "::1") example_grouped = Done N ∧
    option_map get_string (member3 N (str "example.com") (str "A") (str "@")) = Some (Done (str "{{FORWARD}}")) ∧
    option_map elements (member3 N (str "example.com") (str "A") (str "www")) =
      Some [JString [x7f; x00; x00; x01]; JString [x0a; x00; x00; x01]].
Proof.
  split; [exact example_grouped_ok|].
  destruct (ValidateAndOptimize_spec (str "127.0.0.1") (str "::1") _ example_grouped_ok) as [(N & HN & _)|[HN _]].
  - exists N. split; [exact HN|]. vm_compute in HN. injection HN as <-. split; by vm_compute.
  - vm_compute in HN. discriminate HN.
Defined.

(** A forward directive among several data: the array is kept as text, so the address in it is
    not converted. *)
Example mixed_forward_kept :
  let recs := JObject [(str "name", JString (str "www")); (str "type", JString (str "A")); (str "data", JString (str "10.0.0.1"))] in
  let fwd := JObject [(str "name", JString (str "www")); (str "type", JString (str "A")); (str "data", JString (str "{{FORWARD}}"))] in
  let file := JObject [(str "zones", JArray [JObject [(str "zone", JString (str "a.b")); (str "records", JArray [recs; fwd])]])] in
  match NormalizeZones file ≫= ValidateAndOptimize (str "127.0.0.1") (str "::1") with
  | Done N => member3 N (str "a.b") (str "A") (str "www") = Some (JArray [JString (str "10.0.0.1"); JString (str "{{FORWARD}}")])
  | _ => False
  end.
Proof. by vm_compute. Qed.
