(* ===== verification/Config.v ===== *)
(** * The configuration (src/include/config.h, src/src/config.cc)

    [Config] is set up once before the servers start: a record, one setter per member, each
    of which checks its argument and returns 0 or leaves the member alone, and
    [Initialize], which chooses the user agent and loads the zones.  The texts that are
    generated by the build or read from the platform are a parameter ([App]); the file
    system, the JSON library and [inet_pton] are those of [ConfigParser]. *)

From Stdlib Require Import ZArith Lia.
From Stdlib Require Import Strings.Byte Strings.String.
From stdpp Require Import base numbers list option sets.
From S2P Require Import Prelude.
From S2P Require Import Memory.
From S2P Require Import Utils.
From S2P Require Import Text.
From S2P Require Import DnsResponse.
From S2P Require Import LocalDns.
From S2P Require Import SampleJson.
From S2P Require Import SampleRegex.
From S2P Require Import ConfigParser.
From S2P Require Import SampleConfig.
From S2P Require Import ConfigFacts.

(** [g_AppVersion] and the like, and the names of the console and its firmware. *)
Class App := {
  AppName : bytes;
  AppAuthor : bytes;
  AppLicense : bytes;
  AppBuildType : bytes;
  AppVersion : bytes;
  AppDescription : bytes;
  AppHomepage : bytes;
  Console : bytes;
  FirmwareVersion : bytes
}.

Definition USERAGENT_TEMPLATE_SIMPLE : bytes := str "chukei/{{APP_VERSION}} ({{CONSOLE}})".
Definition USERAGENT_TEMPLATE_FULL : bytes := str "chukei/{{APP_VERSION}} ({{CONSOLE}} {{FIRMWARE_VERSION}})".
Definition MIN_DNS_PORT : Z := 1.
Definition MAX_DNS_PORT : Z := 65535.
Definition MIN_TTL : Z := 0.
Definition MAX_TTL : Z := 604800.
Definition DEFAULT_TTL : Z := 3600.
Definition DEFAULT_DNS_PORT : Z := 53.
Definition DEFAULT_DNS_IP : bytes := str "127.0.0.1".
Definition DEFAULT_IPV4_REDIRECT : bytes := str "127.0.0.1".
Definition DEFAULT_IPV6_REDIRECT : bytes := str "::1".
Definition DEFAULT_DOH_TIMEOUT_MS : Z := 15000.
Definition MIN_DOH_TIMEOUT_MS : Z := 100.
Definition MAX_DOH_TIMEOUT_MS : Z := 60000.
(** [INET_ADDRSTRLEN - 1] and [INET6_ADDRSTRLEN - 1]. *)
Definition MAX_IPV4_STRING_LENGTH : nat := 15.
Definition MAX_IPV6_STRING_LENGTH : nat := 45.
Definition CLOUDFLARE_DOH_PRIMARY : bytes := str "https://1.1.1.1/dns-query".
Definition CLOUDFLARE_DOH_SECONDARY : bytes := str "https://1.0.0.1/dns-query".

Record Config (J : Type) : Type := {
  m_DnsIpAddress_ : bytes;
  m_DnsPort_ : Z;
  m_DohResolvers_ : list bytes;
  m_Useragent_ : bytes;
  m_DohOnly_ : bool;
  m_RedirectIpv4_ : bytes;
  m_RedirectIpv6_ : bytes;
  m_DefaultTtl_ : Z;
  m_ZonesPath_ : bytes;
  m_Zones_ : J;
  m_Initialized_ : bool;
  m_CacertPath_ : bytes;
  m_DohTimeoutMs_ : Z
}.
Arguments m_DnsIpAddress_ {_} _.
Arguments m_DnsPort_ {_} _.
Arguments m_DohResolvers_ {_} _.
Arguments m_Useragent_ {_} _.
Arguments m_DohOnly_ {_} _.
Arguments m_RedirectIpv4_ {_} _.
Arguments m_RedirectIpv6_ {_} _.
Arguments m_DefaultTtl_ {_} _.
Arguments m_ZonesPath_ {_} _.
Arguments m_Zones_ {_} _.
Arguments m_Initialized_ {_} _.
Arguments m_CacertPath_ {_} _.
Arguments m_DohTimeoutMs_ {_} _.

(** ** Texts *)

Section texts.
  Implicit Types (s s_Token s_Value s_Result : bytes).

Definition starts_with s_Token s : bool := bool_decide (take (length s_Token) s = s_Token).

(** The place of the first occurrence, and [s.find(token, pos)]. *)
Fixpoint index_text s_Token s : option nat :=
  if starts_with s_Token s then Some O else
  match s with [] => None | _ :: s => S <$> index_text s_Token s end.

Definition find_text s_Token s (s_Pos : nat) : option nat :=
  if length s <? s_Pos then None else Nat.add s_Pos <$> index_text s_Token (drop s_Pos s).

(** The loop that replaces one token, from [s_Pos] on. *)
Fixpoint mask_loop (fuel : nat) s_Token s_Value s_Result (s_Pos : nat) : outcome bytes :=
  match fuel with
  | O => Unfinished
  | S fuel =>
      match find_text s_Token s_Result s_Pos with
      | None => Done s_Result
      | Some s_Pos =>
          mask_loop fuel s_Token s_Value (take s_Pos s_Result ++ s_Value ++ drop (s_Pos + length s_Token) s_Result)
            (s_Pos + length s_Value)
      end
  end.

Definition s_Masks `{App} : list (bytes * bytes) :=
  [(str "{{APP_VERSION}}", AppVersion);
   (str "{{APP_DESCRIPTION}}", AppDescription);
   (str "{{APP_HOMEPAGE}}", AppHomepage);
   (str "{{CONSOLE}}", Console);
   (str "{{FIRMWARE_VERSION}}", FirmwareVersion)].

Definition ProcessUseragentMask `{App} (p_Input : bytes) : outcome bytes :=
  foldM (λ '(l_Token, l_Value) s_Result, mask_loop (S (length s_Result)) l_Token l_Value s_Result 0) s_Masks p_Input.

(** Every occurrence replaced, from left to right; [skip] characters are part of one. *)
Fixpoint expand s_Token s_Value (skip : nat) s : bytes :=
  match s with
  | [] => []
  | b :: t =>
      match skip with
      | S skip => expand s_Token s_Value skip t
      | O => if starts_with s_Token s then s_Value ++ expand s_Token s_Value (length s_Token - 1) t
             else b :: expand s_Token s_Value 0 t
      end
  end.

Lemma expand_skip s_Token s_Value k s : expand s_Token s_Value k s = expand s_Token s_Value 0 (drop k s).
Proof. revert s. induction k as [|k IH]; intros [|b s]; try done. apply IH. Qed.

Lemma index_text_None s_Token s_Value s : index_text s_Token s = None → expand s_Token s_Value 0 s = s.
Proof.
  induction s as [|b s IH]; cbn [index_text expand]; [done|]. destruct (starts_with s_Token (b :: s)); [done|].
  destruct (index_text s_Token s); [done|]. intros _. by rewrite IH.
Qed.

Lemma index_text_Some s_Token s_Value s i :
  s_Token ≠ [] → index_text s_Token s = Some i →
  i + length s_Token ≤ length s ∧
  expand s_Token s_Value 0 s = take i s ++ s_Value ++ expand s_Token s_Value 0 (drop (i + length s_Token) s).
Proof.
  intros Ht. revert i. induction s as [|b s IH]; intros i; cbn [index_text].
  - unfold starts_with. case_bool_decide as E; [|done]. rewrite take_nil in E. by subst.
  - destruct (starts_with s_Token (b :: s)) eqn:Es.
    + intros [= <-]. cbn [expand]. rewrite Es, expand_skip. unfold starts_with in Es. apply bool_decide_eq_true in Es.
      split; [rewrite <- Es, length_take; lia|]. cbn [take app Nat.add]. f_equal.
      destruct s_Token as [|t s_Token]; [done|]. cbn [length]. rewrite Nat.sub_succ, Nat.sub_0_r. done.
    + destruct (index_text s_Token s) as [j|]; [|done]. intros [= <-]. destruct (IH j eq_refl) as [Hl He].
      split; [cbn [length]; lia|]. cbn [expand]. rewrite Es, He. done.
Qed.

(** The loop ends, having replaced every occurrence. *)
Lemma mask_loop_expand fuel s_Token s_Value s_Result s_Pos :
  s_Token ≠ [] → s_Pos ≤ length s_Result → length s_Result - s_Pos < fuel →
  mask_loop fuel s_Token s_Value s_Result s_Pos =
    Done (take s_Pos s_Result ++ expand s_Token s_Value 0 (drop s_Pos s_Result)).
Proof.
  intros Ht. revert s_Result s_Pos. induction fuel as [|fuel IH]; intros s p Hp Hf; [lia|]. cbn [mask_loop]. unfold find_text.
  destruct (Nat.ltb_spec (length s) p); [lia|]. destruct (index_text s_Token (drop p s)) as [i|] eqn:Ei; cbn [fmap option_fmap option_map].
  - destruct (index_text_Some _ s_Value _ _ Ht Ei) as [Hl He]. rewrite length_drop in Hl.
    assert (0 < length s_Token) by (destruct s_Token; simpl; [done|lia]).
    set (a := take (p + i) s ++ s_Value). set (d := drop (p + i + length s_Token) s).
    assert (Ha : length a = p + i + length s_Value) by (unfold a; rewrite length_app, length_take; lia).
    assert (Hd : length d = length s - (p + i + length s_Token)) by (unfold d; by rewrite length_drop).
    rewrite (app_assoc _ s_Value d). fold a.
    rewrite IH, take_app_length', drop_app_length' by (rewrite ?length_app; lia).
    rewrite He, drop_drop. unfold a, d. by rewrite <- take_take_drop, (Nat.add_assoc p i), <- !app_assoc.
  - rewrite index_text_None, take_drop by done. done.
Qed.

(** Characters before the first brace stay. *)
Lemma expand_keep s_Token s_Value b s :
  list.head s_Token ≠ Some b → s_Token ≠ [] → expand s_Token s_Value 0 (b :: s) = b :: expand s_Token s_Value 0 s.
Proof.
  intros Hb Ht. cbn [expand]. unfold starts_with. rewrite bool_decide_eq_false_2; [done|].
  destruct s_Token as [|c t]; [done|]. intros [= -> _]. done.
Qed.

(** The masks, one after the other. *)
Definition expanded `{App} (s : bytes) : bytes := fold_left (λ s '(t, v), expand t v 0 s) s_Masks s.

Lemma ProcessUseragentMask_expanded `{App} p_Input : ProcessUseragentMask p_Input = Done (expanded p_Input).
Proof.
  unfold ProcessUseragentMask, expanded.
  assert (Hm : Forall (λ p : bytes * bytes, p.1 ≠ []) s_Masks) by by repeat constructor.
  revert p_Input. induction Hm as [|[t v] l Ht Hl IH]; intros s; [done|]. cbn [foldM fold_left].
  rewrite mask_loop_expand by (done || lia). cbn [mbind outcome_mbind outcome_bind take app]. rewrite drop_0. apply IH.
Qed.

Lemma expanded_head `{App} b s : b ≠ "{"%byte → list.head (expanded (b :: s)) = Some b.
Proof.
  intros Hb. unfold expanded, s_Masks. cbn [fold_left]. rewrite !expand_keep by (done || by intros [= <-]). done.
Qed.
End texts.

(** ** Setters *)

Section setters.
  Context {J : Type} `{HJ : Json J} `{HZ : !JsonZones J} {HB : JsonBuild J} {HI : Inet} {HF : Files J} {HA : App}.
  Implicit Types (c : Config J).

(** The members' default initializers. *)
Definition g_Config : Config J := {|
  m_DnsIpAddress_ := DEFAULT_DNS_IP;
  m_DnsPort_ := DEFAULT_DNS_PORT;
  m_DohResolvers_ := [CLOUDFLARE_DOH_PRIMARY; CLOUDFLARE_DOH_SECONDARY];
  m_Useragent_ := [];
  m_DohOnly_ := false;
  m_RedirectIpv4_ := DEFAULT_IPV4_REDIRECT;
  m_RedirectIpv6_ := DEFAULT_IPV6_REDIRECT;
  m_DefaultTtl_ := DEFAULT_TTL;
  m_ZonesPath_ := [];
  m_Zones_ := empty_object;
  m_Initialized_ := false;
  m_CacertPath_ := [];
  m_DohTimeoutMs_ := DEFAULT_DOH_TIMEOUT_MS
|}.

Definition with_DnsIpAddress v c : Config J :=
  {| m_DnsIpAddress_ := v; m_DnsPort_ := m_DnsPort_ c; m_DohResolvers_ := m_DohResolvers_ c; m_Useragent_ := m_Useragent_ c;
     m_DohOnly_ := m_DohOnly_ c; m_RedirectIpv4_ := m_RedirectIpv4_ c; m_RedirectIpv6_ := m_RedirectIpv6_ c;
     m_DefaultTtl_ := m_DefaultTtl_ c; m_ZonesPath_ := m_ZonesPath_ c; m_Zones_ := m_Zones_ c;
     m_Initialized_ := m_Initialized_ c; m_CacertPath_ := m_CacertPath_ c; m_DohTimeoutMs_ := m_DohTimeoutMs_ c |}.
Definition with_DnsPort v c : Config J :=
  {| m_DnsIpAddress_ := m_DnsIpAddress_ c; m_DnsPort_ := v; m_DohResolvers_ := m_DohResolvers_ c; m_Useragent_ := m_Useragent_ c;
     m_DohOnly_ := m_DohOnly_ c; m_RedirectIpv4_ := m_RedirectIpv4_ c; m_RedirectIpv6_ := m_RedirectIpv6_ c;
     m_DefaultTtl_ := m_DefaultTtl_ c; m_ZonesPath_ := m_ZonesPath_ c; m_Zones_ := m_Zones_ c;
     m_Initialized_ := m_Initialized_ c; m_CacertPath_ := m_CacertPath_ c; m_DohTimeoutMs_ := m_DohTimeoutMs_ c |}.
Definition with_DohResolvers v c : Config J :=
  {| m_DnsIpAddress_ := m_DnsIpAddress_ c; m_DnsPort_ := m_DnsPort_ c; m_DohResolvers_ := v; m_Useragent_ := m_Useragent_ c;
     m_DohOnly_ := m_DohOnly_ c; m_RedirectIpv4_ := m_RedirectIpv4_ c; m_RedirectIpv6_ := m_RedirectIpv6_ c;
     m_DefaultTtl_ := m_DefaultTtl_ c; m_ZonesPath_ := m_ZonesPath_ c; m_Zones_ := m_Zones_ c;
     m_Initialized_ := m_Initialized_ c; m_CacertPath_ := m_CacertPath_ c; m_DohTimeoutMs_ := m_DohTimeoutMs_ c |}.
Definition with_Useragent v c : Config J :=
  {| m_DnsIpAddress_ := m_DnsIpAddress_ c; m_DnsPort_ := m_DnsPort_ c; m_DohResolvers_ := m_DohResolvers_ c; m_Useragent_ := v;
     m_DohOnly_ := m_DohOnly_ c; m_RedirectIpv4_ := m_RedirectIpv4_ c; m_RedirectIpv6_ := m_RedirectIpv6_ c;
     m_DefaultTtl_ := m_DefaultTtl_ c; m_ZonesPath_ := m_ZonesPath_ c; m_Zones_ := m_Zones_ c;
     m_Initialized_ := m_Initialized_ c; m_CacertPath_ := m_CacertPath_ c; m_DohTimeoutMs_ := m_DohTimeoutMs_ c |}.
Definition with_DohOnly v c : Config J :=
  {| m_DnsIpAddress_ := m_DnsIpAddress_ c; m_DnsPort_ := m_DnsPort_ c; m_DohResolvers_ := m_DohResolvers_ c; m_Useragent_ := m_Useragent_ c;
     m_DohOnly_ := v; m_RedirectIpv4_ := m_RedirectIpv4_ c; m_RedirectIpv6_ := m_RedirectIpv6_ c;
     m_DefaultTtl_ := m_DefaultTtl_ c; m_ZonesPath_ := m_ZonesPath_ c; m_Zones_ := m_Zones_ c;
     m_Initialized_ := m_Initialized_ c; m_CacertPath_ := m_CacertPath_ c; m_DohTimeoutMs_ := m_DohTimeoutMs_ c |}.
Definition with_RedirectIpv4 v c : Config J :=
  {| m_DnsIpAddress_ := m_DnsIpAddress_ c; m_DnsPort_ := m_DnsPort_ c; m_DohResolvers_ := m_DohResolvers_ c; m_Useragent_ := m_Useragent_ c;
     m_DohOnly_ := m_DohOnly_ c; m_RedirectIpv4_ := v; m_RedirectIpv6_ := m_RedirectIpv6_ c;
     m_DefaultTtl_ := m_DefaultTtl_ c; m_ZonesPath_ := m_ZonesPath_ c; m_Zones_ := m_Zones_ c;
     m_Initialized_ := m_Initialized_ c; m_CacertPath_ := m_CacertPath_ c; m_DohTimeoutMs_ := m_DohTimeoutMs_ c |}.
Definition with_RedirectIpv6 v c : Config J :=
  {| m_DnsIpAddress_ := m_DnsIpAddress_ c; m_DnsPort_ := m_DnsPort_ c; m_DohResolvers_ := m_DohResolvers_ c; m_Useragent_ := m_Useragent_ c;
     m_DohOnly_ := m_DohOnly_ c; m_RedirectIpv4_ := m_RedirectIpv4_ c; m_RedirectIpv6_ := v;
     m_DefaultTtl_ := m_DefaultTtl_ c; m_ZonesPath_ := m_ZonesPath_ c; m_Zones_ := m_Zones_ c;
     m_Initialized_ := m_Initialized_ c; m_CacertPath_ := m_CacertPath_ c; m_DohTimeoutMs_ := m_DohTimeoutMs_ c |}.
Definition with_DefaultTtl v c : Config J :=
  {| m_DnsIpAddress_ := m_DnsIpAddress_ c; m_DnsPort_ := m_DnsPort_ c; m_DohResolvers_ := m_DohResolvers_ c; m_Useragent_ := m_Useragent_ c;
     m_DohOnly_ := m_DohOnly_ c; m_RedirectIpv4_ := m_RedirectIpv4_ c; m_RedirectIpv6_ := m_RedirectIpv6_ c;
     m_DefaultTtl_ := v; m_ZonesPath_ := m_ZonesPath_ c; m_Zones_ := m_Zones_ c;
     m_Initialized_ := m_Initialized_ c; m_CacertPath_ := m_CacertPath_ c; m_DohTimeoutMs_ := m_DohTimeoutMs_ c |}.
Definition with_ZonesPath v c : Config J :=
  {| m_DnsIpAddress_ := m_DnsIpAddress_ c; m_DnsPort_ := m_DnsPort_ c; m_DohResolvers_ := m_DohResolvers_ c; m_Useragent_ := m_Useragent_ c;
     m_DohOnly_ := m_DohOnly_ c; m_RedirectIpv4_ := m_RedirectIpv4_ c; m_RedirectIpv6_ := m_RedirectIpv6_ c;
     m_DefaultTtl_ := m_DefaultTtl_ c; m_ZonesPath_ := v; m_Zones_ := m_Zones_ c;
     m_Initialized_ := m_Initialized_ c; m_CacertPath_ := m_CacertPath_ c; m_DohTimeoutMs_ := m_DohTimeoutMs_ c |}.
Definition with_Zones v c : Config J :=
  {| m_DnsIpAddress_ := m_DnsIpAddress_ c; m_DnsPort_ := m_DnsPort_ c; m_DohResolvers_ := m_DohResolvers_ c; m_Useragent_ := m_Useragent_ c;
     m_DohOnly_ := m_DohOnly_ c; m_RedirectIpv4_ := m_RedirectIpv4_ c; m_RedirectIpv6_ := m_RedirectIpv6_ c;
     m_DefaultTtl_ := m_DefaultTtl_ c; m_ZonesPath_ := m_ZonesPath_ c; m_Zones_ := v;
     m_Initialized_ := m_Initialized_ c; m_CacertPath_ := m_CacertPath_ c; m_DohTimeoutMs_ := m_DohTimeoutMs_ c |}.
Definition with_Initialized v c : Config J :=
  {| m_DnsIpAddress_ := m_DnsIpAddress_ c; m_DnsPort_ := m_DnsPort_ c; m_DohResolvers_ := m_DohResolvers_ c; m_Useragent_ := m_Useragent_ c;
     m_DohOnly_ := m_DohOnly_ c; m_RedirectIpv4_ := m_RedirectIpv4_ c; m_RedirectIpv6_ := m_RedirectIpv6_ c;
     m_DefaultTtl_ := m_DefaultTtl_ c; m_ZonesPath_ := m_ZonesPath_ c; m_Zones_ := m_Zones_ c;
     m_Initialized_ := v; m_CacertPath_ := m_CacertPath_ c; m_DohTimeoutMs_ := m_DohTimeoutMs_ c |}.
Definition with_CacertPath v c : Config J :=
  {| m_DnsIpAddress_ := m_DnsIpAddress_ c; m_DnsPort_ := m_DnsPort_ c; m_DohResolvers_ := m_DohResolvers_ c; m_Useragent_ := m_Useragent_ c;
     m_DohOnly_ := m_DohOnly_ c; m_RedirectIpv4_ := m_RedirectIpv4_ c; m_RedirectIpv6_ := m_RedirectIpv6_ c;
     m_DefaultTtl_ := m_DefaultTtl_ c; m_ZonesPath_ := m_ZonesPath_ c; m_Zones_ := m_Zones_ c;
     m_Initialized_ := m_Initialized_ c; m_CacertPath_ := v; m_DohTimeoutMs_ := m_DohTimeoutMs_ c |}.
Definition with_DohTimeoutMs v c : Config J :=
  {| m_DnsIpAddress_ := m_DnsIpAddress_ c; m_DnsPort_ := m_DnsPort_ c; m_DohResolvers_ := m_DohResolvers_ c; m_Useragent_ := m_Useragent_ c;
     m_DohOnly_ := m_DohOnly_ c; m_RedirectIpv4_ := m_RedirectIpv4_ c; m_RedirectIpv6_ := m_RedirectIpv6_ c;
     m_DefaultTtl_ := m_DefaultTtl_ c; m_ZonesPath_ := m_ZonesPath_ c; m_Zones_ := m_Zones_ c;
     m_Initialized_ := m_Initialized_ c; m_CacertPath_ := m_CacertPath_ c; m_DohTimeoutMs_ := v |}.

(** [inet_pton] in either family. *)
Definition is_ip (s : bytes) : bool :=
  bool_decide (is_Some (inet_pton4 s)) || bool_decide (is_Some (inet_pton6 s)).

Definition DnsIpAddress (p_Input : bytes) c : Z * Config J :=
  if bool_decide (p_Input = []) then (1%Z, c) else
  if negb (is_ip p_Input) then (1%Z, c) else (0%Z, with_DnsIpAddress p_Input c).

Definition DnsPort (p_Input : Z) c : Z * Config J :=
  if ((p_Input <? MIN_DNS_PORT) || (MAX_DNS_PORT <? p_Input))%Z then (1%Z, c) else (0%Z, with_DnsPort p_Input c).

Definition s_HttpsPrefix : bytes := str "https://".

Definition resolver_host (l_Resolver : bytes) : bytes :=
  let s_Start := length s_HttpsPrefix in
  let s_Host := match find "/" l_Resolver s_Start with
                | None => substr_from l_Resolver s_Start
                | Some s_End => substr l_Resolver s_Start (s_End - s_Start)
                end in
  match find ":" s_Host 0 with Some s_Colon => substr s_Host 0 s_Colon | None => s_Host end.

Definition valid_resolver (l_Resolver : bytes) : bool :=
  if (length l_Resolver <? length s_HttpsPrefix)
     || negb (bool_decide (take (length s_HttpsPrefix) l_Resolver = s_HttpsPrefix)) then false
  else is_ip (resolver_host l_Resolver).

Definition DohResolvers (p_Input : list bytes) c : Z * Config J :=
  if bool_decide (p_Input = []) then (1%Z, c) else
  let s_ValidResolvers := filter (λ l_Resolver, valid_resolver l_Resolver = true) p_Input in
  if bool_decide (s_ValidResolvers = []) then (1%Z, c) else (0%Z, with_DohResolvers s_ValidResolvers c).

Definition Useragent (p_Input : bytes) c : outcome (Z * Config J) :=
  if bool_decide (p_Input = []) then Done (1%Z, c) else
  s_ProcessedUseragent ← ProcessUseragentMask p_Input;
  if bool_decide (s_ProcessedUseragent = []) then Done (1%Z, c) else Done (0%Z, with_Useragent s_ProcessedUseragent c).

Definition DohOnly (p_Input : bool) c : Z * Config J := (0%Z, with_DohOnly p_Input c).

Definition RedirectIpv4 (p_Input : bytes) c : Z * Config J :=
  if bool_decide (p_Input = []) || (MAX_IPV4_STRING_LENGTH <? length p_Input) then (1%Z, c) else
  if negb (bool_decide (is_Some (inet_pton4 p_Input))) then (1%Z, c) else (0%Z, with_RedirectIpv4 p_Input c).

Definition RedirectIpv6 (p_Input : bytes) c : Z * Config J :=
  if bool_decide (p_Input = []) || (MAX_IPV6_STRING_LENGTH <? length p_Input) then (1%Z, c) else
  if negb (bool_decide (is_Some (inet_pton6 p_Input))) then (1%Z, c) else (0%Z, with_RedirectIpv6 p_Input c).

Definition DefaultTtl (p_Input : Z) c : Z * Config J :=
  if ((p_Input <? MIN_TTL) || (MAX_TTL <? p_Input))%Z then (1%Z, c) else (0%Z, with_DefaultTtl p_Input c).

Definition ZonesPath (p_Input : bytes) c : Z * Config J :=
  if bool_decide (p_Input = []) then (1%Z, c) else
  match stat_regular p_Input with
  | None => (1%Z, c)
  | Some s_Regular => if negb s_Regular then (1%Z, c) else (0%Z, with_ZonesPath p_Input c)
  end.

Definition ResetZonesPath c : Z * Config J := (0%Z, with_ZonesPath [] c).

Definition Zones (p_Input : J) c : outcome (Z * Config J) :=
  try_catch
    (s_Normalized ← NormalizeZones p_Input;
     s_Zones ← ValidateAndOptimize (m_RedirectIpv4_ c) (m_RedirectIpv6_ c) s_Normalized;
     Done (0%Z, with_Zones s_Zones c))
    (λ _, Done (1%Z, with_Zones empty_object c)).

Definition Initialized (p_Input : bool) c : Z * Config J := (0%Z, with_Initialized p_Input c).

Definition CacertPath (p_Input : bytes) c : Z * Config J :=
  if bool_decide (p_Input = []) then (0%Z, with_CacertPath [] c) else
  match stat_regular p_Input with
  | None => (1%Z, c)
  | Some s_Regular => if negb s_Regular then (1%Z, c) else (0%Z, with_CacertPath p_Input c)
  end.

Definition DohTimeoutMs (p_Input : Z) c : Z * Config J :=
  if ((p_Input <? MIN_DOH_TIMEOUT_MS) || (MAX_DOH_TIMEOUT_MS <? p_Input))%Z then ((-1)%Z, c)
  else (0%Z, with_DohTimeoutMs p_Input c).

(** The zones are set and, unless they are bad and needed, the configuration is ready. *)
Definition finish_Initialize (s_Zones : J) c : outcome (Config J) :=
  '(s_Ret, c) ← Zones s_Zones c;
  if negb (s_Ret =? 0)%Z && negb (m_DohOnly_ c) then Done c else Done (Initialized true c).2.

Definition Initialize (p_ZonesPath : bytes) c : outcome (Config J) :=
  '(_, c) ← Useragent (if bool_decide (FirmwareVersion = []) then USERAGENT_TEMPLATE_SIMPLE else USERAGENT_TEMPLATE_FULL) c;
  let '(s_Ret, c) := ZonesPath p_ZonesPath c in
  s_Zones ← (if (s_Ret =? 0)%Z then Parse (m_ZonesPath_ c) else Done empty_object);
  if is_empty s_Zones then
    let c := (ResetZonesPath c).2 in
    match LoadDefault with
    | Done s_Zones => finish_Initialize s_Zones c
    | Throw _ => if negb (m_DohOnly_ c) then Done c else finish_Initialize empty_object c
    | Undef => Undef
    | Unfinished => Unfinished
    | Aborted => Aborted
    end
  else finish_Initialize s_Zones c.
End setters.

(** ** The configuration's invariant *)

Section invariant.
  Context {J : Type} `{HJ : Json J} {HJL : JsonLaws J} `{HZ : !JsonZones J} {HZL : JsonZonesLaws J}.
  Context {HB : JsonBuild J} {HL : JsonBuildLaws J} {HI : Inet} {HIL : InetLaws} {HF : Files J} {HFL : FilesLaws J} {HA : App}.
  Implicit Types (c : Config J) (j : J).

(** Zones whose address records hold addresses in binary, or forward directives. *)
Definition address_data j : Prop :=
  is_object j = true ∧
  ∀ z t k v, is_address t = true → member3 j z t k = Some v → has_forward v = true ∨ addresses t v.

Definition regular_or_empty (p : bytes) : Prop := p = [] ∨ stat_regular p = Some true.

(** HTTPS URLs at an IPv4 address. *)
Definition good_resolver (u : bytes) : Prop :=
  take (length s_HttpsPrefix) u = s_HttpsPrefix ∧ is_Some (inet_pton4 (resolver_host u)).

Record config_ok c : Prop := {
  ok_ip : is_ip (m_DnsIpAddress_ c) = true;
  ok_port : (1 ≤ m_DnsPort_ c ≤ 65535)%Z;
  ok_resolvers : m_DohResolvers_ c ≠ [] ∧ Forall good_resolver (m_DohResolvers_ c);
  ok_ipv4 : is_Some (inet_pton4 (m_RedirectIpv4_ c));
  ok_ipv6 : is_Some (inet_pton6 (m_RedirectIpv6_ c));
  ok_ttl : (0 ≤ m_DefaultTtl_ c ≤ 604800)%Z;
  ok_zones_path : regular_or_empty (m_ZonesPath_ c);
  ok_zones : address_data (m_Zones_ c);
  ok_cacert : regular_or_empty (m_CacertPath_ c);
  ok_timeout : (100 ≤ m_DohTimeoutMs_ c ≤ 60000)%Z
}.

(** A host has no colon left, so it is no IPv6 address. *)
Lemma resolver_host_colon u : ":"%byte ∉ resolver_host u.
Proof.
  unfold resolver_host. cbv zeta. set (h := match find "/" u _ with Some _ => _ | None => _ end).
  unfold find. rewrite drop_0. destruct (index_of ":" h) as [i|] eqn:Ei; cbn [fmap option_fmap option_map].
  - apply index_of_Some in Ei as (_ & Hn & _). unfold substr. by rewrite drop_0.
  - by apply index_of_None.
Qed.

Lemma valid_resolver_good u : valid_resolver u = true ↔ good_resolver u.
Proof.
  unfold valid_resolver, good_resolver. destruct (Nat.ltb_spec (length u) (length s_HttpsPrefix)) as [Hl|Hl]; cbn [orb].
  - split; [done|]. intros [E _]. apply (f_equal length) in E. rewrite length_take in E. lia.
  - case_bool_decide as E; cbn [negb]; [|by split; [|intros []]]. unfold is_ip. rewrite orb_true_iff, !bool_decide_eq_true.
    split; [|intros [_ ?]; by left]. intros [?|[a Ha]]; [done|]. apply inet6_colon in Ha. by apply resolver_host_colon in Ha.
Qed.

Lemma empty_address_data : address_data empty_object.
Proof. split; [apply empty_is_object|]. intros z t k v _. unfold member3, member2. by rewrite member_empty. Qed.

Lemma optimized_address_data r4 r6 G N :
  optimized r4 r6 G N → (∀ z t k v, to_convert G z t k v → ∃ j, converted r4 r6 t v = Some j ∧ addresses t j) →
  address_data N.
Proof.
  intros [HN Hz] Hc. split; [done|]. intros z t k v Ha. unfold member3, member2. specialize (Hz z).
  destruct (member G z) as [r|] eqn:Er; [|by rewrite Hz]. destruct (blocked r) eqn:Eb.
  { rewrite Hz. cbn [mbind option_bind]. rewrite member_no_object; [done|]. apply string_no_object.
    unfold blocked, equals_text in Eb. by destruct (is_string r). }
  destruct Hz as (r' & -> & _ & Ht). cbn [mbind option_bind]. specialize (Ht t). rewrite Ha in Ht.
  destruct (member r t) as [s|] eqn:Es; [|by rewrite Ht]. destruct Ht as (s' & -> & _ & Hk). cbn [mbind option_bind].
  rewrite Hk. destruct (member s k) as [v0|] eqn:Ek; [|done]. cbn [fmap option_fmap option_map]. intros [= <-].
  destruct (has_forward v0) eqn:Ef; [by left|]. right. destruct (Hc z t k v0) as (j & -> & Hj); [|done].
  split_and!; [done..| |by exists r]. unfold member3, member2. rewrite Er. cbn [mbind option_bind]. by rewrite Es.
Qed.

(** What setting zones does: the optimized zones, or none when they are bad. *)
Definition loaded c j : option J :=
  match NormalizeZones j ≫= ValidateAndOptimize (m_RedirectIpv4_ c) (m_RedirectIpv6_ c) with Done N => Some N | _ => None end.

Lemma Zones_loaded c j :
  (∀ N, loaded c j = Some N → address_data N) ∧
  Zones j c = Done (match loaded c j with Some N => (0%Z, with_Zones N c) | None => (1%Z, with_Zones empty_object c) end).
Proof.
  unfold Zones, loaded. destruct (NormalizeZones_cases j) as [(zs & R & _ & -> & HR & Hz)|[_ ->]]; [|done].
  cbn [mbind outcome_mbind outcome_bind].
  destruct (ValidateAndOptimize_spec (m_RedirectIpv4_ c) (m_RedirectIpv6_ c) R) as [(N & -> & Ho & Hc)|[-> _]];
    [by eapply zone_held_grouped| |done].
  split; [|done]. intros ? [= <-]. by eapply optimized_address_data.
Qed.

(** ** Settings *)

Inductive setting : Type :=
  | SetDnsIpAddress (p : bytes) | SetDnsPort (p : Z) | SetDohResolvers (p : list bytes) | SetUseragent (p : bytes)
  | SetDohOnly (p : bool) | SetRedirectIpv4 (p : bytes) | SetRedirectIpv6 (p : bytes) | SetDefaultTtl (p : Z)
  | SetZonesPath (p : bytes) | SetResetZonesPath | SetZones (p : J) | SetInitialized (p : bool) | SetCacertPath (p : bytes)
  | SetDohTimeoutMs (p : Z).

Definition set (s : setting) c : outcome (Z * Config J) :=
  match s with
  | SetDnsIpAddress p => Done (DnsIpAddress p c)
  | SetDnsPort p => Done (DnsPort p c)
  | SetDohResolvers p => Done (DohResolvers p c)
  | SetUseragent p => Useragent p c
  | SetDohOnly p => Done (DohOnly p c)
  | SetRedirectIpv4 p => Done (RedirectIpv4 p c)
  | SetRedirectIpv6 p => Done (RedirectIpv6 p c)
  | SetDefaultTtl p => Done (DefaultTtl p c)
  | SetZonesPath p => Done (ZonesPath p c)
  | SetResetZonesPath => Done (ResetZonesPath c)
  | SetZones p => Zones p c
  | SetInitialized p => Done (Initialized p c)
  | SetCacertPath p => Done (CacertPath p c)
  | SetDohTimeoutMs p => Done (DohTimeoutMs p c)
  end.

Definition set_all (ss : list setting) c : outcome (Config J) := foldM (λ s c, '(_, c) ← set s c; Done c) ss c.

(** What a rejected setting leaves. *)
Definition rejected (s : setting) c : Config J := match s with SetZones _ => with_Zones empty_object c | _ => c end.

Lemma g_Config_ok : config_ok g_Config.
Proof.
  assert (Hr : ∀ u (w x y z : byte), take (length s_HttpsPrefix) u = s_HttpsPrefix →
    resolver_host u = join "." [print_dec (u8 w); print_dec (u8 x); print_dec (u8 y); print_dec (u8 z)] → good_resolver u).
  { intros u w x y z Hu Hh. split; [done|]. rewrite Hh, inet4_quad. by eexists. }
  assert (Hl : inet_pton4 (str "127.0.0.1") = Some [x7f; x00; x00; x01]) by apply (inet4_quad x7f x00 x00 x01).
  split.
  - change (is_ip (str "127.0.0.1") = true). unfold is_ip. by rewrite Hl.
  - done.
  - split; [done|]. constructor; [|constructor; [|constructor]].
    + by apply (Hr _ x01 x01 x01 x01).
    + by apply (Hr _ x01 x00 x00 x01).
  - change (is_Some (inet_pton4 (str "127.0.0.1"))). rewrite Hl. by eexists.
  - change (is_Some (inet_pton6 (str "::1"))). rewrite inet6_loopback. by eexists.
  - done.
  - by left.
  - apply empty_address_data.
  - by left.
  - done.
Qed.

(** A setting either is rejected or keeps the configuration good. *)
Lemma set_ok s c :
  config_ok c → ∃ r c', set s c = Done (r, c') ∧ config_ok c' ∧ (r ≠ 0%Z → c' = rejected s c).
Proof.
  intros [H1 H2 H3 H4 H5 H6 H7 H8 H9 H10].
  assert (Hno : ∀ r : Z, ∃ r' c', (Done (r, c) : outcome (Z * Config J)) = Done (r', c') ∧ config_ok c' ∧ (r' ≠ 0%Z → c' = c)).
  { intros r. exists r, c. by split_and!. }
  assert (Hyes : ∀ c', config_ok c' → ∃ r' c'', (Done (0%Z, c') : outcome (Z * Config J)) = Done (r', c'') ∧ config_ok c'' ∧
    (r' ≠ 0%Z → c'' = c)).
  { intros c' Hc'. by exists 0%Z, c'. }
  destruct s; cbn [set rejected].
  - unfold DnsIpAddress. case_bool_decide; [apply Hno|]. destruct (is_ip p) eqn:E; [|apply Hno]. apply Hyes; by split.
  - unfold DnsPort, MIN_DNS_PORT, MAX_DNS_PORT. destruct (_ || _) eqn:E; [apply Hno|]. apply Hyes. split; cbn; try done.
    apply orb_false_iff in E. lia.
  - unfold DohResolvers. case_bool_decide; [apply Hno|]. cbv zeta. case_bool_decide; [apply Hno|]. apply Hyes. split; cbn; try done.
    split; [done|]. apply Forall_forall. intros u [Hu _]%list_elem_of_filter. by apply valid_resolver_good.
  - unfold Useragent. case_bool_decide; [apply Hno|]. rewrite ProcessUseragentMask_expanded, bind_done.
    case_bool_decide; [apply Hno|]. apply Hyes; by split.
  - apply Hyes; by split.
  - unfold RedirectIpv4. destruct (_ || _); [apply Hno|]. case_bool_decide; [|apply Hno]. apply Hyes; by split.
  - unfold RedirectIpv6. destruct (_ || _); [apply Hno|]. case_bool_decide; [|apply Hno]. apply Hyes; by split.
  - unfold DefaultTtl, MIN_TTL, MAX_TTL. destruct (_ || _) eqn:E; [apply Hno|]. apply Hyes. split; cbn; try done.
    apply orb_false_iff in E. lia.
  - unfold ZonesPath. case_bool_decide; [apply Hno|]. destruct (stat_regular p) as [[]|] eqn:E; [|apply Hno..]. apply Hyes.
    split; cbn; try done. by right.
  - apply Hyes. split; cbn; try done. by left.
  - destruct (Zones_loaded c p) as [Ha ->]. destruct (loaded c p) as [N|].
    + exists 0%Z, (with_Zones N c). split_and!; [done| |done]. split; cbn; auto.
    + exists 1%Z, (with_Zones empty_object c). split_and!; [done| |done]. split; cbn; try done. apply empty_address_data.
  - apply Hyes; by split.
  - unfold CacertPath. case_bool_decide; [apply Hyes; split; cbn; try done; by left|].
    destruct (stat_regular p) as [[]|] eqn:E; [|apply Hno..]. apply Hyes. split; cbn; try done. by right.
  - unfold DohTimeoutMs, MIN_DOH_TIMEOUT_MS, MAX_DOH_TIMEOUT_MS. destruct (_ || _) eqn:E; [apply Hno|]. apply Hyes.
    split; cbn; try done. apply orb_false_iff in E. lia.
Qed.

Lemma set_all_ok ss c : config_ok c → ∃ c', set_all ss c = Done c' ∧ config_ok c'.
Proof.
  revert c. unfold set_all. induction ss as [|s ss IH]; intros c Hc; [by exists c|]. cbn [foldM].
  destruct (set_ok s c Hc) as (r & c' & -> & Hc' & _). cbn [mbind outcome_mbind outcome_bind]. by apply IH.
Qed.

(** C14: from its defaults, every sequence of settings returns and leaves a good configuration:
    an IP address and a port to listen on, at least one HTTPS resolver and each at an IPv4
    address, redirect addresses of their families, a TTL and a timeout in range, paths of
    regular files, and zones whose address records are binary; in every such configuration,
    a setting that does not return 0 changes nothing, with one exception: zones that are
    rejected replace the zones by an empty object ([rejected]). *)
Theorem config_reachable ss :
  ∃ c, set_all ss g_Config = Done c ∧ config_ok c ∧
    ∀ s, ∃ r c', set s c = Done (r, c') ∧ config_ok c' ∧ (r ≠ 0%Z → c' = rejected s c).
Proof.
  destruct (set_all_ok ss g_Config g_Config_ok) as (c & Hc & Hok). exists c. split_and!; [done..|].
  intros s. by apply set_ok.
Qed.

(** ** Loading the zones *)

(** The zones of the file, when it is there, can be read and holds any. *)
Definition file_zones (p : bytes) : option J :=
  if bool_decide (p = []) then None else
  match stat_regular p with
  | Some true =>
      match read_file p with
      | Some s => match parse_json s with Done j => if is_empty j then None else Some j | _ => None end
      | None => None
      end
  | _ => None
  end.

Lemma file_zones_regular p j : file_zones p = Some j → stat_regular p = Some true.
Proof. unfold file_zones. case_bool_decide; [done|]. by destruct (stat_regular p) as [[]|]. Qed.

Definition default_zones : option J := match parse_json g_DefaultJson with Done j => Some j | _ => None end.

Definition user_agent : bytes :=
  expanded (if bool_decide (FirmwareVersion = []) then USERAGENT_TEMPLATE_SIMPLE else USERAGENT_TEMPLATE_FULL).

Lemma user_agent_ne : user_agent ≠ [].
Proof.
  unfold user_agent. intros E. assert (Hh : list.head (expanded (if bool_decide (FirmwareVersion = []) then USERAGENT_TEMPLATE_SIMPLE
    else USERAGENT_TEMPLATE_FULL)) = Some "c"%byte) by (case_bool_decide; by apply expanded_head). by rewrite E in Hh.
Qed.

(** The configuration after the zones [j] were set. *)
Definition ready c j : Config J :=
  let c' := with_Zones (default empty_object (loaded c j)) c in
  if bool_decide (is_Some (loaded c j)) || m_DohOnly_ c then with_Initialized true c' else c'.

Lemma finish_Initialize_ready j c : finish_Initialize j c = Done (ready c j).
Proof.
  unfold finish_Initialize, ready. destruct (Zones_loaded c j) as [_ ->]. rewrite bind_done. destruct (loaded c j) as [N|]; [done|].
  rewrite (bool_decide_eq_false_2 (is_Some _)) by (by intros []). cbn. by destruct (m_DohOnly_ c).
Qed.

Lemma ready_ok c j : config_ok c → config_ok (ready c j).
Proof.
  intros [H1 H2 H3 H4 H5 H6 H7 H8 H9 H10]. unfold ready. destruct (Zones_loaded c j) as [Ha _].
  assert (Hz : address_data (default empty_object (loaded c j))).
  { destruct (loaded c j); [by apply Ha|apply empty_address_data]. }
  by destruct (_ || _).
Qed.

Definition initialized (p : bytes) c : Config J :=
  let c := with_Useragent user_agent c in
  match file_zones p with
  | Some j => ready (with_ZonesPath p c) j
  | None =>
      let c := with_ZonesPath [] c in
      match default_zones with
      | Some j => ready c j
      | None => if m_DohOnly_ c then ready c empty_object else c
      end
  end.

Lemma ZonesPath_file p c :
  ∃ c', ZonesPath p c = (if bool_decide (p ≠ [] ∧ stat_regular p = Some true) then 0%Z else 1%Z, c') ∧
    c' = if bool_decide (p ≠ [] ∧ stat_regular p = Some true) then with_ZonesPath p c else c.
Proof.
  unfold ZonesPath. destruct (decide (p = [])) as [->|Hp].
  - rewrite (bool_decide_eq_true_2 ([] = [])), bool_decide_eq_false_2 by (done || by intros [? _]). by eexists.
  - rewrite (bool_decide_eq_false_2 (p = [])) by done. destruct (stat_regular p) as [[]|].
    + rewrite bool_decide_eq_true_2 by done. by eexists.
    + rewrite bool_decide_eq_false_2 by (by intros [_ ?]). by eexists.
    + rewrite bool_decide_eq_false_2 by (by intros [_ ?]). by eexists.
Qed.

Lemma Parse_file p :
  p ≠ [] → stat_regular p = Some true →
  ∃ j, Parse p = Done j ∧ file_zones p = if is_empty j then None else Some j.
Proof.
  intros Hp Hs. unfold Parse, file_zones. rewrite !(bool_decide_eq_false_2 (p = [])), Hs by done. cbn [negb].
  destruct (read_file p) as [s|]; [|exists empty_object; by rewrite empty_is_empty].
  destruct (parse_json_spec s) as [[j ->]| ->]; cbn [try_catch]; [by exists j|].
  exists empty_object. by rewrite empty_is_empty.
Qed.

Lemma Initialize_initialized p c : Initialize p c = Done (initialized p c).
Proof.
  unfold Initialize, initialized. unfold Useragent at 1.
  rewrite bool_decide_eq_false_2 by (by case_bool_decide). rewrite ProcessUseragentMask_expanded, bind_done.
  fold user_agent. rewrite bool_decide_eq_false_2 by apply user_agent_ne. rewrite bind_done.
  set (c1 := with_Useragent user_agent c). destruct (ZonesPath_file p c1) as (c2 & -> & ->).
  assert (Hd : match LoadDefault with
    | Done z => finish_Initialize z (ResetZonesPath c1).2
    | Throw _ => if negb (m_DohOnly_ (ResetZonesPath c1).2) then Done (ResetZonesPath c1).2
                 else finish_Initialize empty_object (ResetZonesPath c1).2
    | Undef => Undef | Unfinished => Unfinished | Aborted => Aborted end =
    Done (match default_zones with
          | Some j => ready (with_ZonesPath [] c1) j
          | None => if m_DohOnly_ (with_ZonesPath [] c1) then ready (with_ZonesPath [] c1) empty_object else with_ZonesPath [] c1
          end)).
  { unfold LoadDefault, default_zones. destruct (parse_json_spec g_DefaultJson) as [[j ->]| ->]; cbn [try_catch].
    - apply finish_Initialize_ready.
    - cbn [ResetZonesPath snd]. destruct (m_DohOnly_ (with_ZonesPath [] c1)); [apply finish_Initialize_ready|done]. }
  case_bool_decide as Hf; cbn [Z.eqb].
  - destruct Hf as [Hp Hs]. destruct (Parse_file p Hp Hs) as (j & Hj & ->). cbn [m_ZonesPath_ with_ZonesPath].
    rewrite Hj, bind_done. destruct (is_empty j); [exact Hd|]. apply finish_Initialize_ready.
  - rewrite bind_done, empty_is_empty. assert (E : file_zones p = None); [|rewrite E; exact Hd].
    unfold file_zones. case_bool_decide as Ep; [done|]. destruct (stat_regular p) as [[]|] eqn:Es; [|done..]. by destruct Hf.
Qed.

Lemma initialized_ok p c : config_ok c → config_ok (initialized p c).
Proof.
  intros Hc. unfold initialized. set (c1 := with_Useragent user_agent c).
  assert (H1 : config_ok c1) by by destruct Hc.
  assert (Hp0 : config_ok (with_ZonesPath [] c1)) by (destruct H1; split; try done; by left).
  destruct (file_zones p) as [j|] eqn:Ef; [|destruct default_zones; [by apply ready_ok|]].
  - apply ready_ok. destruct H1. split; try done. right. by eapply file_zones_regular.
  - case_match; [by apply ready_ok|done].
Qed.

Lemma ready_fields c j :
  m_Useragent_ (ready c j) = m_Useragent_ c ∧ m_ZonesPath_ (ready c j) = m_ZonesPath_ c ∧
  m_Zones_ (ready c j) = default empty_object (loaded c j) ∧
  m_Initialized_ (ready c j) = m_Initialized_ c || m_DohOnly_ c || bool_decide (is_Some (loaded c j)).
Proof.
  unfold ready. destruct (bool_decide _), (m_DohOnly_ c); cbn; split_and!; try done; by destruct (m_Initialized_ c).
Qed.

Lemma initialized_agent p c : m_Useragent_ (initialized p c) = user_agent.
Proof.
  unfold initialized. repeat case_match; try done; match goal with |- m_Useragent_ (ready ?c ?j) = _ => by destruct (ready_fields c j) as [-> _] end.
Qed.

(** C13: Initialize ends and keeps the configuration good.  The user agent is the template with
    its masks filled in, never empty; the zones are those of the file, if it is a regular
    file that can be opened, parsed and holds any, else the built-in ones, and the path is
    kept or cleared accordingly; the configuration is ready exactly when these zones are
    good or none are needed.  A file that can be parsed is taken even when its zones are
    invalid: the built-in ones do not then step in, as the README has it.  When an address is
    bad no zones are loaded, and the configuration is ready only if it needs none; when there
    is no array of zones it is ready with no zones at all
    ([bad_file_no_defaults]). *)
Theorem Initialize_spec p c :
  config_ok c →
  ∃ c', Initialize p c = Done c' ∧ config_ok c' ∧
    m_Useragent_ c' = user_agent ∧ user_agent ≠ [] ∧
    m_ZonesPath_ c' = (if file_zones p then p else []) ∧
    let source := match file_zones p with Some j => Some j | None => default_zones end in
    (∀ j, source = Some j → m_Zones_ c' = default empty_object (loaded c j)) ∧
    m_Initialized_ c' = m_Initialized_ c || m_DohOnly_ c || bool_decide (is_Some (source ≫= loaded c)).
Proof.
  intros Hc. exists (initialized p c). split_and!; [apply Initialize_initialized|by apply initialized_ok|apply initialized_agent
    |apply user_agent_ne|..]; unfold initialized; set (c1 := with_Useragent user_agent c).
  - destruct (file_zones p); [apply ready_fields|]. repeat case_match; try done; apply ready_fields.
  - cbv zeta. destruct (file_zones p) as [j|]; [|destruct default_zones as [j|]]; (split; [intros j' E; try done; injection E as <-|]).
    + apply (ready_fields (with_ZonesPath p c1) j).
    + apply (ready_fields (with_ZonesPath p c1) j).
    + apply (ready_fields (with_ZonesPath [] c1) j).
    + apply (ready_fields (with_ZonesPath [] c1) j).
    + change (m_DohOnly_ (with_ZonesPath [] c1)) with (m_DohOnly_ c). cbn [mbind option_bind].
      rewrite (bool_decide_eq_false_2 (is_Some None)), orb_false_r by (by intros []). destruct (m_DohOnly_ c) eqn:Ed.
      * destruct (ready_fields (with_ZonesPath [] c1) empty_object) as (_ & _ & _ & ->). cbn. by rewrite Ed, !orb_true_r.
      * by rewrite orb_false_r.
Qed.
End invariant.

(** ** Examples *)

#[local] Instance example_app : App := {
  AppName := str "Relay"; AppAuthor := str "A. Author"; AppLicense := str "GPL"; AppBuildType := str "Debug";
  AppVersion := str "1.2"; AppDescription := str "relay"; AppHomepage := str "home";
  Console := str "Linux"; FirmwareVersion := str "6.1"
}.

Example user_agent_example : user_agent = str "chukei/1.2 (Linux 6.1)".
Proof. reflexivity. Qed.

(** An IPv6 resolver is not accepted, in brackets or without. *)
Example resolver_ipv6 : valid_resolver (str "https://[::1]/dns-query") = false ∧ valid_resolver (str "https://::1/dns-query") = false.
Proof. by vm_compute. Qed.

Lemma config_reachable_witness :
  ∃ c : Config json,
    set_all [SetDnsPort 5353; SetDnsPort 0; SetDohResolvers [str "http://9.9.9.9/"; str "https://9.9.9.9:443/dns-query"];
             SetRedirectIpv4 (str "10.0.0.300")] g_Config = Done c ∧
    config_ok c ∧ m_DnsPort_ c = 5353%Z ∧ m_DohResolvers_ c = [str "https://9.9.9.9:443/dns-query"] ∧
    m_RedirectIpv4_ c = str "127.0.0.1".
Proof.
  destruct (config_reachable (J := json) [SetDnsPort 5353; SetDnsPort 0;
    SetDohResolvers [str "http://9.9.9.9/"; str "https://9.9.9.9:443/dns-query"]; SetRedirectIpv4 (str "10.0.0.300")])
    as (c & Hc & Hok & _).
  exists c. split; [exact Hc|]. split; [exact Hok|]. vm_compute in Hc. injection Hc as <-. split_and!; by vm_compute.
Defined.

Lemma Initialize_spec_witness :
  config_ok (g_Config (J := json)) ∧
  ∃ c, Initialize (str "./zones.json") g_Config = Done c ∧ m_Initialized_ c = true ∧
    m_Useragent_ c = str "chukei/1.2 (Linux 6.1)" ∧ m_ZonesPath_ c = str "./zones.json" ∧
    option_map elements (member3 (m_Zones_ c) (str "example.com") (str "A") (str "www")) =
      Some [JString [x7f; x00; x00; x01]; JString [x0a; x00; x00; x01]].
Proof.
  split; [exact g_Config_ok|].
  destruct (Initialize_spec (str "./zones.json") (g_Config (J := json)) g_Config_ok) as (c & Hc & _ & Hu & _ & Hp & Hz & Hi).
  exists c. split; [exact Hc|]. split; [rewrite Hi; by vm_compute|]. split; [by rewrite Hu|]. split; [by rewrite Hp|].
  erewrite Hz by reflexivity. by vm_compute.
Defined.

(** A file whose text is well-formed JSON is taken although it is invalid, and the built-in
    zones, good as they are, are not used.  With a bad address no zones are loaded and the
    configuration is not ready; without an array of zones it is ready with no zones. *)
Definition invalid_file (contents : json) : Files json := {|
  stat_regular p := if bool_decide (p = str "./zones.json") then Some true else None;
  read_file p := Some (str "{}");
  parse_json s := if bool_decide (s = str "{}") then Done contents
    else Done (JObject [(str "zones", JArray [JObject [(str "zone", JString (str "evil.org")); (str "blocked", JBool true)]])]);
  g_DefaultJson := str "default"
|}.

Definition built_in_zones : json := JObject [(str "evil.org", JString (str "{{BLOCKED}}"))].

Example bad_file_no_defaults :
  let bad_address := JObject [(str "zones", JArray [JObject [(str "zone", JString (str "a.com")); (str "records", JArray
    [JObject [(str "name", JString (str "@")); (str "type", JString (str "A")); (str "data", JString (str "10.0.0.300"))]])]])] in
  let no_array := JObject [(str "zones", JString (str "none"))] in
  let start contents path := c ← Initialize (HF := invalid_file contents) path g_Config; Done (m_Initialized_ c, m_Zones_ c, m_ZonesPath_ c) in
  start bad_address (str "./zones.json") = Done (false, empty_object, str "./zones.json") ∧
  start no_array (str "./zones.json") = Done (true, empty_object, str "./zones.json") ∧
  start bad_address (str "./missing.json") = Done (true, built_in_zones, []).
Proof. by vm_compute. Qed.
