(* ===== verification/Getters.v ===== *)
(** * The getters of the configuration (src/src/config.cc) and of the DoH client

    Members and the application's texts as other parts read them: [Printing] prints them.
    The overloads of the same names that set a member are in [Config] and [Doh]. *)

From Stdlib Require Import ZArith.
From stdpp Require Import base list.
From S2P Require Import Prelude.
From S2P Require Doh.
From S2P Require Config.

Section application.
  Context {HA : Config.App}.

Definition AppName : bytes := Config.AppName.
Definition AppAuthor : bytes := Config.AppAuthor.
Definition AppLicense : bytes := Config.AppLicense.
Definition AppBuildType : bytes := Config.AppBuildType.
Definition AppVersion : bytes := Config.AppVersion.
Definition AppDescription : bytes := Config.AppDescription.
Definition AppHomepage : bytes := Config.AppHomepage.
End application.

Section configuration.
  Context {J : Type}.
  Implicit Types (c : Config.Config J).

Definition DnsIpAddress c : bytes := Config.m_DnsIpAddress_ c.
Definition DnsPort c : Z := Config.m_DnsPort_ c.
Definition DohResolvers c : list bytes := Config.m_DohResolvers_ c.
Definition Useragent c : bytes := Config.m_Useragent_ c.
Definition DohOnly c : bool := Config.m_DohOnly_ c.
Definition RedirectIpv4 c : bytes := Config.m_RedirectIpv4_ c.
Definition RedirectIpv6 c : bytes := Config.m_RedirectIpv6_ c.
Definition DefaultTtl c : Z := Config.m_DefaultTtl_ c.
Definition ZonesPath c : bytes := Config.m_ZonesPath_ c.
Definition Zones c : J := Config.m_Zones_ c.
Definition Initialized c : bool := Config.m_Initialized_ c.
Definition CacertPath c : bytes := Config.m_CacertPath_ c.
Definition DohTimeoutMs c : Z := Config.m_DohTimeoutMs_ c.
End configuration.

(** The same of the client. *)
Definition client_Useragent (c : Doh.DnsOverHttps) : bytes := Doh.m_Useragent_ c.
Definition client_Resolvers (c : Doh.DnsOverHttps) : list bytes := Doh.m_Resolvers_ c.
Definition client_Method (c : Doh.DnsOverHttps) : Doh.HttpMethod := Doh.m_HttpMethod_ c.
Definition client_DohTimeoutMs (c : Doh.DnsOverHttps) : Z := Doh.m_DohTimeoutMs_ c.
Definition client_CacertPath (c : Doh.DnsOverHttps) : bytes := Doh.m_CacertPath_ c.
