(* ===== verification/Main.v ===== *)
(** * The programs' start (src/src/main-pc.cc, src/src/main-ps.cc)

    Both programs read options, from the command line or from the JSON file of the console
    builds, apply them to the configuration around [Initialize], and start the servers when
    the configuration is ready.  What they print is [Printing], the log level's effect is
    left out; what the started servers do is [Relay], and how the console build ends an
    earlier process is [ProcessList]. *)

From Stdlib Require Import ZArith Lia.
From Stdlib Require Import Strings.Byte Strings.String.
From stdpp Require Import base numbers list option sets.
From S2P Require Import Prelude.
From S2P Require Import Stateful.
From S2P Require Import Text.
From S2P Require Import Utils.
From S2P Require Import DnsResponse.
From S2P Require Import Doh.
From S2P Require Import LocalDns.
From S2P Require Import SampleJson.
From S2P Require Import SampleRegex.
From S2P Require Import ConfigParser.
From S2P Require Import SampleConfig.
From S2P Require Import ConfigFacts.
From S2P Require Import Config.

(** ** Numbers on the command line *)

(** The digits a text starts with: whether there are any, their value, and what follows. *)
Fixpoint take_digits (s : bytes) (some : bool) (acc : Z) : bool * Z * bytes :=
  match s with
  | c :: t => if isdigit c then take_digits t true (acc * 10 + (u8 c - 48))%Z else (some, acc, s)
  | [] => (some, acc, [])
  end.

Definition LONG_MAX : Z := 9223372036854775807.
Definition LONG_MIN : Z := -9223372036854775808.

(** [std::strtol(s, &s_End, 10)]: the value and what [s_End] points to. *)
Definition strtol (s : bytes) : Z * bytes :=
  let t := skip_spaces s in
  let '(negative, t) :=
    match t with
    | "-"%byte :: t => (true, t)
    | "+"%byte :: t => (false, t)
    | _ => (false, t)
    end in
  let '(some, v, s_End) := take_digits t false 0 in
  if some : bool then (Z.max LONG_MIN (Z.min LONG_MAX (if negative : bool then - v else v)), s_End)%Z else (0%Z, s).

(** The value of a numeric option, checked against its range. *)
Definition numeric_option (s : bytes) (lo hi : Z) : option Z :=
  let '(s_Val, s_End) := strtol s in
  if bool_decide (s_End = s) || negb (bool_decide (s_End = [])) || (s_Val <? lo)%Z || (hi <? s_Val)%Z then None
  else Some s_Val.

(** ** Options *)

Record Options : Type := {
  s_LogLevel : bytes;
  s_DohOnly : bool;
  s_DohResolvers : list bytes;
  s_DohTimeout : Z;
  s_UserAgent : bytes;
  s_CacertPath : bytes;
  s_ZonesPath : bytes;
  s_DnsIp : bytes;
  s_DnsPort : Z;
  s_RedirectIpv4 : bytes;
  s_RedirectIpv6 : bytes;
  s_Ttl : Z
}.

Definition DEFAULT_ZONES_PATH_PC : bytes := str "./zones.json".
Definition DEFAULT_ZONES_PATH_PS : bytes := str "/data/chukei/zones.json".
Definition DEFAULT_CACERT_PATH_PS : bytes := str "/data/chukei/cacert.pem".

Definition default_options (zones cacert : bytes) : Options :=
  {| s_LogLevel := []; s_DohOnly := false; s_DohResolvers := []; s_DohTimeout := -1; s_UserAgent := [];
     s_CacertPath := cacert; s_ZonesPath := zones; s_DnsIp := []; s_DnsPort := -1; s_RedirectIpv4 := [];
     s_RedirectIpv6 := []; s_Ttl := -1 |}.

(** An assignment to one of the variables. *)
Inductive assignment : Type :=
  | LogLevel (v : bytes) | DohOnly (v : bool) | AddResolver (v : bytes) | DohTimeout (v : Z) | UserAgent (v : bytes)
  | CacertPath (v : bytes) | ZonesPath (v : bytes) | DnsIp (v : bytes) | DnsPort (v : Z) | RedirectIpv4 (v : bytes)
  | RedirectIpv6 (v : bytes) | Ttl (v : Z).

Definition assign (a : assignment) (o : Options) : Options :=
  {| s_LogLevel := match a with LogLevel v => v | _ => s_LogLevel o end;
     s_DohOnly := match a with DohOnly v => v | _ => s_DohOnly o end;
     s_DohResolvers := match a with AddResolver v => s_DohResolvers o ++ [v] | _ => s_DohResolvers o end;
     s_DohTimeout := match a with DohTimeout v => v | _ => s_DohTimeout o end;
     s_UserAgent := match a with UserAgent v => v | _ => s_UserAgent o end;
     s_CacertPath := match a with CacertPath v => v | _ => s_CacertPath o end;
     s_ZonesPath := match a with ZonesPath v => v | _ => s_ZonesPath o end;
     s_DnsIp := match a with DnsIp v => v | _ => s_DnsIp o end;
     s_DnsPort := match a with DnsPort v => v | _ => s_DnsPort o end;
     s_RedirectIpv4 := match a with RedirectIpv4 v => v | _ => s_RedirectIpv4 o end;
     s_RedirectIpv6 := match a with RedirectIpv6 v => v | _ => s_RedirectIpv6 o end;
     s_Ttl := match a with Ttl v => v | _ => s_Ttl o end |}.

(** The options that take an argument, and what they do with it. *)
Definition option_argument (l_Arg v : bytes) : option (option assignment) :=
  if bool_decide (l_Arg = str "--log-level") then Some (Some (LogLevel v))
  else if bool_decide (l_Arg = str "--doh-resolver") then Some (Some (AddResolver v))
  else if bool_decide (l_Arg = str "--doh-timeout") then Some (DohTimeout <$> numeric_option v MIN_DOH_TIMEOUT_MS MAX_DOH_TIMEOUT_MS)
  else if bool_decide (l_Arg = str "--user-agent") then Some (Some (UserAgent v))
  else if bool_decide (l_Arg = str "--cacert") then Some (Some (CacertPath v))
  else if bool_decide (l_Arg = str "--zones") then Some (Some (ZonesPath v))
  else if bool_decide (l_Arg = str "--dns-ip") then Some (Some (DnsIp v))
  else if bool_decide (l_Arg = str "--dns-port") then Some (DnsPort <$> numeric_option v MIN_DNS_PORT MAX_DNS_PORT)
  else if bool_decide (l_Arg = str "--redirect-ipv4") then Some (Some (RedirectIpv4 v))
  else if bool_decide (l_Arg = str "--redirect-ipv6") then Some (Some (RedirectIpv6 v))
  else if bool_decide (l_Arg = str "--ttl") then Some (Ttl <$> numeric_option v MIN_TTL MAX_TTL)
  else None.

(** The loop over the arguments: the options, or the exit code. *)
Fixpoint parse_args (argv : list bytes) (o : Options) : Z + Options :=
  match argv with
  | [] => inr o
  | l_Arg :: argv =>
      if bool_decide (l_Arg = str "--doh-only") then parse_args argv (assign (DohOnly true) o)
      else if bool_decide (l_Arg = str "--help") then inl 0%Z
      else match argv with
           | [] => inl 1%Z
           | v :: argv =>
               match option_argument l_Arg v with
               | Some (Some a) => parse_args argv (assign a o)
               | _ => inl 1%Z
               end
           end
  end.

Definition log_levels : list bytes :=
  [str "none"; str "fatal"; str "error"; str "warn"; str "info"; str "debug"; str "trace"; str "all"].

(** ** The JSON file of the console builds *)

Class JsonNumbers (J : Type) := {
  is_boolean : J → bool;
  is_number_integer : J → bool;
  get_int : J → Z
}.

(** [get<int>] gives an [int]. *)
Class JsonNumbersLaws (J : Type) `{JsonNumbers J} := { get_int_range (j : J) : (-2147483648 ≤ get_int j < 2147483648)%Z }.

Section programs.
  Context {J : Type} `{HJ : Json J} `{HZ : !JsonZones J} {HB : JsonBuild J} {HN : JsonNumbers J}.
  Context {HI : Inet} {HF : Files J} {HA : App}.
  Implicit Types (o : Options) (j : J).

Abbreviation options A := (stateful Options A).

(** A member that has the expected type is taken. *)
Definition string_member j (k : bytes) (f : bytes → assignment) : options unit :=
  if contains j k && is_string (field_of j k) then v ← lift (get_string (field_of j k)); modify (assign (f v)) else mret tt.
Definition bool_member j (k : bytes) (f : bool → assignment) : options unit :=
  if contains j k && is_boolean (field_of j k) then v ← lift (get_bool (field_of j k)); modify (assign (f v)) else mret tt.
Definition int_member j (k : bytes) (f : Z → assignment) : options unit :=
  if contains j k && is_number_integer (field_of j k) then modify (assign (f (get_int (field_of j k)))) else mret tt.

Fixpoint add_resolvers (l : list J) : options unit :=
  match l with
  | [] => mret tt
  | s_Entry :: l =>
      _ ← (if is_string s_Entry then v ← lift (get_string s_Entry); modify (assign (AddResolver v)) else mret tt);
      add_resolvers l
  end.

Definition json_options (s_Json : J) : options unit :=
  _ ← string_member s_Json (str "log_level") LogLevel;
  _ ← bool_member s_Json (str "doh_only") DohOnly;
  _ ← (if contains s_Json (str "doh_resolvers") && is_array (field_of s_Json (str "doh_resolvers"))
       then add_resolvers (elements (field_of s_Json (str "doh_resolvers"))) else mret tt);
  _ ← int_member s_Json (str "doh_timeout_ms") DohTimeout;
  _ ← string_member s_Json (str "user_agent") UserAgent;
  _ ← string_member s_Json (str "cacert_path") CacertPath;
  _ ← string_member s_Json (str "zones_path") ZonesPath;
  _ ← string_member s_Json (str "dns_ip") DnsIp;
  _ ← int_member s_Json (str "dns_port") DnsPort;
  _ ← string_member s_Json (str "redirect_ipv4") RedirectIpv4;
  _ ← string_member s_Json (str "redirect_ipv6") RedirectIpv6;
  int_member s_Json (str "ttl") Ttl.

(** The options of the console builds, from the contents of their file if it is there. *)
Definition ps_options (s_ConfigFile : option bytes) : outcome Options :=
  let o := default_options DEFAULT_ZONES_PATH_PS DEFAULT_CACERT_PATH_PS in
  match s_ConfigFile with
  | None => Done o
  | Some s =>
      let '(r, o) := catch (λ e, bool_decide (e = JsonError)) (s_Json ← lift (parse_json s); json_options s_Json) (mret tt) o in
      _ ← r; Done o
  end.

(** ** Applying them *)

Abbreviation Config := (Config.Config J).
Abbreviation started := (outcome (Z + Config)).
Implicit Types (c : Config).

(** The program goes on when a setting is accepted. *)
Definition checked (k : Config → started) (r : outcome (Z * Config)) : started :=
  '(s_Ret, c) ← r; if (s_Ret =? 0)%Z then k c else Done (inl 1%Z).

(** Options that were given are set. *)
Definition given_text (v : bytes) (f : bytes → Config → outcome (Z * Config)) (k : Config → started) c : started :=
  if bool_decide (v = []) then k c else checked k (f v c).
Definition given_number (v : Z) (f : Z → Config → outcome (Z * Config)) (k : Config → started) c : started :=
  if (0 <=? v)%Z then checked k (f v c) else k c.

Definition apply_after o : Config → started :=
  (λ k c, if bool_decide (s_DohResolvers o = []) then k c else checked k (Done (DohResolvers (s_DohResolvers o) c)))
  (given_number (s_DohTimeout o) (λ v c, Done (DohTimeoutMs v c))
  (given_text (s_UserAgent o) Useragent
  (given_text (s_DnsIp o) (λ v c, Done (DnsIpAddress v c))
  (given_number (s_DnsPort o) (λ v c, Done (Config.DnsPort (u16 v) c))
  (λ c, Done (if m_Initialized_ c then inr c else inl 1%Z)))))).

Definition apply_options o : Config → started :=
  given_text (s_RedirectIpv4 o) (λ v c, Done (Config.RedirectIpv4 v c))
  (given_text (s_RedirectIpv6 o) (λ v c, Done (Config.RedirectIpv6 v c))
  (given_number (s_Ttl o) (λ v c, Done (DefaultTtl v c))
  (λ c, c ← Initialize (s_ZonesPath o) c; apply_after o c))).

(** The exit code, or the configuration the servers are started with. *)
Definition main_pc (argv : list bytes) : started :=
  match parse_args argv (default_options DEFAULT_ZONES_PATH_PC []) with
  | inl s_Exit => Done (inl s_Exit)
  | inr o =>
      if negb (bool_decide (s_LogLevel o = [])) && negb (bool_decide (s_LogLevel o ∈ log_levels)) then Done (inl 1%Z) else
      let c := (Config.DohOnly (s_DohOnly o) g_Config).2 in
      let c := if bool_decide (s_CacertPath o = []) then c else (Config.CacertPath (s_CacertPath o) c).2 in
      apply_options o c
  end.

Definition main_ps (s_ConfigFile : option bytes) : started :=
  o ← ps_options s_ConfigFile;
  let c := (Config.DohOnly (s_DohOnly o) g_Config).2 in
  let c := (Config.CacertPath (s_CacertPath o) c).2 in
  apply_options o c.
End programs.

(** ** What is started *)

Section started.
  Context {J : Type} `{HJ : Json J} {HJL : JsonLaws J} `{HZ : !JsonZones J} {HZL : JsonZonesLaws J}.
  Context {HB : JsonBuild J} {HL : JsonBuildLaws J} {HN : JsonNumbers J}.
  Context {HI : Inet} {HIL : InetLaws} {HF : Files J} {HFL : FilesLaws J} {HA : App}.
  Implicit Types (c : Config.Config J) (o : Options).

(** The user agent is set once the configuration was initialized. *)
Definition good (agent : bool) c : Prop := config_ok c ∧ (agent = true → m_Useragent_ c ≠ []).

(** A program ends with code 0 or 1, or starts with a configuration that is good and ready. *)
Definition starts (r : outcome (Z + Config.Config J)) : Prop :=
  ∃ x, r = Done x ∧ match x with inl z => z = 0%Z ∨ z = 1%Z | inr c => good true c ∧ m_Initialized_ c = true end.

Lemma set_good agent s c : good agent c → ∃ r c', set s c = Done (r, c') ∧ good agent c'.
Proof.
  intros [Hc Hu]. destruct (set_ok s c Hc) as (r & c' & E & Hc' & _). exists r, c'. split; [done|]. split; [done|].
  intros Ha. specialize (Hu Ha). clear Hc Hc'. destruct s; cbn [set] in E.
  4: { unfold Useragent in E. rewrite ProcessUseragentMask_expanded in E. cbn [mbind outcome_mbind outcome_bind] in E.
       by repeat case_bool_decide; simplify_eq. }
  10: { destruct (Zones_loaded c p) as [_ Hz]. rewrite Hz in E. by destruct (loaded c p); simplify_eq. }
  all: injection E as E; unfold DnsIpAddress, Config.DnsPort, DohResolvers, Config.DohOnly, Config.RedirectIpv4,
         Config.RedirectIpv6, DefaultTtl, Config.ZonesPath, ResetZonesPath, Initialized, Config.CacertPath, DohTimeoutMs in E;
       repeat case_match; by simplify_eq.
Qed.

Lemma checked_starts agent s c k :
  good agent c → (∀ c, good agent c → starts (k c)) → starts (checked k (set s c)).
Proof.
  intros Hc Hk. destruct (set_good agent s c Hc) as (r & c' & E & Hc'). unfold checked. rewrite E, bind_done.
  destruct (r =? 0)%Z; [by apply Hk|]. exists (inl 1%Z). split; [done|by right].
Qed.

Lemma given_text_starts agent v (s : bytes → setting) k c :
  good agent c → (∀ c, good agent c → starts (k c)) → starts (given_text v (λ v, set (s v)) k c).
Proof. intros Hc Hk. unfold given_text. case_bool_decide; [by apply Hk|by eapply checked_starts]. Qed.

Lemma given_number_starts agent v (s : Z → setting) k c :
  good agent c → (∀ c, good agent c → starts (k c)) → starts (given_number v (λ v, set (s v)) k c).
Proof. intros Hc Hk. unfold given_number. destruct (0 <=? v)%Z; [by eapply checked_starts|by apply Hk]. Qed.

Lemma apply_after_starts o c : good true c → starts (apply_after o c).
Proof.
  intros Hc. unfold apply_after.
  assert (Hk : ∀ c, good true c → starts (given_number (s_DohTimeout o) (λ v, set (SetDohTimeoutMs v))
    (given_text (s_UserAgent o) (λ v, set (SetUseragent v)) (given_text (s_DnsIp o) (λ v, set (SetDnsIpAddress v))
    (given_number (s_DnsPort o) (λ v, set (SetDnsPort (u16 v)))
    (λ c, Done (if m_Initialized_ c then inr c else inl 1%Z))))) c)).
  { clear c Hc. intros c Hc. apply (given_number_starts true); [done|]. clear c Hc. intros c Hc.
    apply (given_text_starts true); [done|]. clear c Hc. intros c Hc. apply (given_text_starts true); [done|]. clear c Hc.
    intros c Hc. apply (given_number_starts true); [done|]. clear c Hc. intros c Hc. eexists. split; [done|].
    destruct (m_Initialized_ c) eqn:E; [done|by right]. }
  case_bool_decide; [by apply Hk|]. apply (checked_starts true (SetDohResolvers (s_DohResolvers o))); [done|]. exact Hk.
Qed.

(** A setting whose result is ignored. *)
Lemma plain_ok s c r : set s c = Done r → config_ok c → config_ok r.2.
Proof. intros E Hc. destruct (set_ok s c Hc) as (z & c' & E' & Hc' & _). rewrite E in E'. by injection E' as ->. Qed.

Lemma apply_options_starts o c : config_ok c → starts (apply_options o c).
Proof.
  intros Hc. assert (Hg : good false c) by done. clear Hc. unfold apply_options.
  apply (given_text_starts false _ SetRedirectIpv4); [done|]. clear c Hg. intros c Hg.
  apply (given_text_starts false _ SetRedirectIpv6); [done|]. clear c Hg. intros c Hg.
  apply (given_number_starts false _ SetDefaultTtl); [done|]. clear c Hg. intros c [Hc _].
  rewrite Initialize_initialized, bind_done. apply apply_after_starts. split; [by apply initialized_ok|].
  intros _. rewrite initialized_agent. apply user_agent_ne.
Qed.

Lemma parse_args_exit argv o z : parse_args argv o = inl z → z = 0%Z ∨ z = 1%Z.
Proof.
  assert (Hn : ∀ n argv o, length argv < n → parse_args argv o = inl z → z = 0%Z ∨ z = 1%Z).
  { induction n as [|n IH]; intros av o' Hl; [lia|]. destruct av as [|a [|v av]]; cbn [parse_args]; cbn [length] in Hl; [done|..].
    - repeat case_bool_decide; intros; simplify_eq; auto.
    - case_bool_decide; [apply (IH (v :: av)); cbn [length]; lia|]. case_bool_decide; [intros; simplify_eq; auto|].
      destruct (option_argument a v) as [[x|]|]; [apply IH; lia|intros; simplify_eq; auto..]. }
  apply (Hn (S (length argv))). lia.
Qed.

(** Reading the members goes through, or stops at the JSON library's exception. *)
Definition json_safe (m : stateful Options unit) : Prop :=
  ∀ o, ∃ o', m o = (Done tt, o') ∨ m o = (Throw JsonError, o').

Lemma json_safe_bind m k : json_safe m → json_safe k → json_safe (_ ← m; k).
Proof.
  intros Hm Hk o. destruct (Hm o) as [o1 [E|E]].
  - rewrite (stateful_bind_Done _ _ _ _ _ E). apply Hk.
  - rewrite (stateful_bind_Throw _ _ _ _ _ E). exists o1. by right.
Qed.

Lemma json_safe_ret : json_safe (mret tt).
Proof. intros o. exists o. by left. Qed.

Lemma json_safe_assign {A} (r : outcome A) f :
  (∃ v, r = Done v) ∨ r = Throw JsonError → json_safe (v ← lift r; modify (assign (f v))).
Proof. intros [[v ->]| ->] o; eexists; [by left|by right]. Qed.

Lemma json_options_safe j : json_safe (json_options j).
Proof.
  assert (Hs : ∀ k f, json_safe (string_member j k f)).
  { intros k f. unfold string_member. destruct (_ && _); [apply json_safe_assign, get_string_json|apply json_safe_ret]. }
  assert (Hi : ∀ k f, json_safe (int_member j k f)).
  { intros k f o. unfold int_member. destruct (_ && _); eexists; by left. }
  assert (Hr : ∀ l, json_safe (add_resolvers l)).
  { induction l as [|e l IH]; [apply json_safe_ret|]. cbn [add_resolvers]. apply json_safe_bind; [|done].
    destruct (is_string e); [apply json_safe_assign, get_string_json|apply json_safe_ret]. }
  unfold json_options. repeat (apply json_safe_bind); try done.
  - unfold bool_member. destruct (_ && _); [apply json_safe_assign, get_bool_spec|apply json_safe_ret].
  - destruct (_ && _); [apply Hr|apply json_safe_ret].
Qed.

Lemma ps_options_returns s : returns (ps_options s).
Proof.
  unfold ps_options. destruct s as [s|]; [|by eexists]. set (o := default_options _ _). clearbody o.
  assert (Hc : json_safe (s_Json ← lift (parse_json s); json_options s_Json)).
  { intros o0. destruct (parse_json_spec s) as [[j ->]| ->]; [apply json_options_safe|exists o0; by right]. }
  unfold catch. destruct (Hc o) as [o' [->| ->]]; by eexists.
Qed.

(** The client both servers make from the configuration, when libcurl works. *)
Definition client_of (opens : bool) c : outcome Doh.DnsOverHttps :=
  Doh.construct true opens true true true (m_Useragent_ c) (m_DohResolvers_ c) (m_CacertPath_ c) (m_DohTimeoutMs_ c).

Definition client_for c (cl : Doh.DnsOverHttps) : Prop :=
  Doh.m_Resolvers_ cl = m_DohResolvers_ c ∧ Doh.m_Useragent_ cl = m_Useragent_ c ∧
  Doh.m_DohTimeoutMs_ cl = m_DohTimeoutMs_ c ∧ Doh.m_MultiHandle_ cl = true.

Lemma client_of_good opens c : good true c → ∃ cl, client_of opens c = Done cl ∧ client_for c cl.
Proof.
  intros [[_ _ [Hr _] _ _ _ _ _ _ Ht] Hu]. specialize (Hu eq_refl). unfold client_of, Doh.construct. cbn [negb].
  unfold Doh.Useragent, Doh.Resolvers. rewrite (bool_decide_eq_false_2 (m_Useragent_ c = [])) by done. cbn [mbind outcome_mbind outcome_bind].
  rewrite (bool_decide_eq_false_2 (m_DohResolvers_ c = [])) by done. cbn [mbind outcome_mbind outcome_bind].
  set (c1 := Doh.DohTimeoutMs _ _).
  assert (Ec : ∀ cl, Doh.m_Resolvers_ cl = m_DohResolvers_ c → Doh.m_Useragent_ cl = m_Useragent_ c →
    Doh.m_DohTimeoutMs_ cl = m_DohTimeoutMs_ c → ∃ cl', Doh.InitMultiHandle true true true cl = Done cl' ∧ client_for c cl').
  { intros cl ???. by eexists. }
  assert (E1 : Doh.m_DohTimeoutMs_ c1 = m_DohTimeoutMs_ c).
  { cbn. destruct (Z.ltb_spec (m_DohTimeoutMs_ c) 100); [lia|]. by destruct (Z.ltb_spec 60000 (m_DohTimeoutMs_ c)); [lia|]. }
  case_bool_decide; [by apply Ec|]. unfold Doh.CacertPath. destruct opens; repeat case_bool_decide; by apply Ec.
Qed.

(** C12: whatever the command line or the console's file says, and whatever the zone file
    holds, both programs either exit with code 0 or 1 or start the servers, and then with a
    configuration that is ready and good: valid addresses, a port, resolvers, TTL and
    timeout in range, zones whose address records are binary; and the client that the
    servers construct from it accepts it, with these resolvers and this time budget. *)
Theorem programs_start argv s_ConfigFile :
  Forall (λ r, ∃ x, r = Done x ∧
            match x with
            | inl z => z = 0%Z ∨ z = 1%Z
            | inr c => config_ok c ∧ m_Initialized_ c = true ∧ ∀ opens, ∃ cl, client_of opens c = Done cl ∧ client_for c cl
            end)
    [main_pc argv; main_ps s_ConfigFile].
Proof.
  assert (Hs : ∀ r, starts r → ∃ x, r = Done x ∧ match x with
    | inl z => z = 0%Z ∨ z = 1%Z
    | inr c => config_ok c ∧ m_Initialized_ c = true ∧ ∀ opens, ∃ cl, client_of opens c = Done cl ∧ client_for c cl end).
  { intros r (x & -> & Hx). exists x. split; [done|]. destruct x as [z|c]; [done|]. destruct Hx as [Hg Hi].
    split_and!; [apply Hg|done|]. intros opens. by apply client_of_good. }
  repeat constructor; apply Hs.
  - unfold main_pc. destruct (parse_args _ _) as [z|o] eqn:Ep; [exists (inl z); split; [done|]; by eapply parse_args_exit|].
    destruct (_ && _); [exists (inl 1%Z); split; [done|by right]|]. apply apply_options_starts.
    assert (Hc : config_ok (Config.DohOnly (s_DohOnly o) g_Config).2) by (apply (plain_ok (SetDohOnly (s_DohOnly o)) g_Config); [done|apply g_Config_ok]).
    case_bool_decide; [done|]. by eapply (plain_ok (SetCacertPath (s_CacertPath o))).
  - unfold main_ps. destruct (ps_options_returns s_ConfigFile) as [o ->]. rewrite bind_done. apply apply_options_starts.
    eapply (plain_ok (SetCacertPath (s_CacertPath o))); [done|].
    by eapply (plain_ok (SetDohOnly (s_DohOnly o))); [|apply g_Config_ok].
Qed.
End started.

(** ** Examples *)

#[local] Existing Instance example_app.

(** Integers are converted to [int] by wrapping around. *)
#[local] Instance sample_numbers : JsonNumbers json := {
  is_boolean j := match j with JBool _ => true | _ => false end;
  is_number_integer j := match j with JNumber _ => true | _ => false end;
  get_int j := match j with JNumber z => ((z + 2147483648) mod 4294967296 - 2147483648)%Z | _ => 0%Z end
}.

Example numeric_option_examples :
  numeric_option (str " +53") 1 65535 = Some 53%Z ∧ numeric_option (str "53x") 1 65535 = None ∧
  numeric_option (str "") 0 10 = None ∧ numeric_option (str "99999999999999999999") 1 65535 = None.
Proof. by vm_compute. Qed.

(** The console builds take a port modulo 65536. *)
Example main_ps_port :
  match main_ps (Some (str "options")) with Done (inr c) => (m_DnsPort_ c, m_DefaultTtl_ c, m_DohOnly_ c) = (53, 60, false)%Z | _ => False end.
Proof. by vm_compute. Qed.

Example main_pc_exits :
  main_pc (J := json) [str "--help"] = Done (inl 0%Z) ∧ main_pc (J := json) [str "--dns-port"; str "65589"] = Done (inl 1%Z) ∧
  main_pc (J := json) [str "--log-level"; str "loud"] = Done (inl 1%Z).
Proof. by vm_compute. Qed.

Lemma programs_start_witness :
  (∃ c cl, main_pc (J := json) [str "--ttl"; str "60"; str "--doh-resolver"; str "https://9.9.9.9/dns-query"] = Done (inr c) ∧
     config_ok c ∧ m_DefaultTtl_ c = 60%Z ∧ client_of true c = Done cl ∧
     Doh.m_Resolvers_ cl = [str "https://9.9.9.9/dns-query"]) ∧
  ∃ c, main_ps (Some (str "options")) = Done (inr c) ∧ config_ok c.
Proof.
  pose proof (programs_start [str "--ttl"; str "60"; str "--doh-resolver"; str "https://9.9.9.9/dns-query"] (Some (str "options"))) as Hp.
  apply Forall_cons_1 in Hp as [(x & Hx & Hg) Hp]. apply Forall_cons_1 in Hp as [(y & Hy & Hg') _]. split.
  - destruct x as [z|c]; [vm_compute in Hx; discriminate Hx|]. destruct Hg as (Hok & _ & Hcl).
    destruct (Hcl true) as (cl & Hc & Hr & _). exists c, cl. split; [exact Hx|]. split; [exact Hok|].
    assert (Ec : m_DefaultTtl_ c = 60%Z ∧ m_DohResolvers_ c = [str "https://9.9.9.9/dns-query"]).
    { vm_compute in Hx. injection Hx as <-. split; by vm_compute. }
    split; [apply Ec|]. split; [exact Hc|]. rewrite Hr. apply Ec.
  - destruct y as [z|c]; [vm_compute in Hy; discriminate Hy|]. exists c. split; [exact Hy|]. apply Hg'.
Defined.
