(* ===== verification/Printing.v ===== *)
(** * What the programs print

    The stream operators of the packet classes, the packet dump of [DnsParser], the help text
    and the banner of the two programs.  What is printed is text (the stream operators) or a
    list of log lines with their levels; how the logger shows a line is not part of the
    sources.  The conversions of printf that the sources use are written out: [%s] of
    a C string, [%d], [%u], [%zu] and [%04x]. *)

From Stdlib Require Import ZArith Lia.
From Stdlib Require Import Strings.Byte Strings.String.
From stdpp Require Import base numbers list option sets.
From S2P Require Import Prelude.
From S2P Require Import Memory.
From S2P Require Import Text.
From S2P Require Import Utils.
From S2P Require Import DnsHeader.
From S2P Require Import DnsQuestion.
From S2P Require Import DnsAnswer.
From S2P Require Import DnsRequestPacket.
From S2P Require Import DnsResponsePacket.
From S2P Require Import DnsParser.
From S2P Require Import ConfigParser.
From S2P Require Import Config.
From S2P Require Import Main.
From S2P Require Getters.

Definition newline : bytes := [x0a].
Definition quote : bytes := [x22].

Definition show_bool (b : bool) : bytes := if b then str "1" else str "0".
Definition show_nat (n : nat) : bytes := print_dec (Z.of_nat n).

(** [%d]. *)
Definition show_int (z : Z) : bytes := if (z <? 0)%Z then str "-" ++ print_dec (- z) else print_dec z.

(** [%04x]. *)
Definition show_hex4 (z : Z) : bytes := let s := print_hex z in replicate (4 - length s) "0"%byte ++ s.

(** [%s] of [s.c_str()]: up to the first NUL. *)
Fixpoint c_str (s : bytes) : bytes :=
  match s with
  | [] => []
  | b :: s => if decide (b = x00) then [] else b :: c_str s
  end.

(** ** The stream operators *)

Class Show (A : Type) := show : A → bytes.

Section show.
  Context {H : Target}.

Definition show_header (p_Header : DnsHeader) : bytes :=
  str "DnsHeader{id=" ++ print_dec (DnsHeader.Id false p_Header) ++ str ", qr=" ++ show_bool (DnsHeader.Qr false p_Header)
  ++ str ", opcode=" ++ print_dec (DnsHeader.Opcode false p_Header) ++ str ", rcode=" ++ print_dec (DnsHeader.Rcode false p_Header)
  ++ str ", qdcount=" ++ print_dec (DnsHeader.Qdcount false p_Header) ++ str ", ancount=" ++ print_dec (DnsHeader.Ancount false p_Header)
  ++ str "}".

Definition show_question (p_Question : DnsQuestion) : bytes :=
  str "DnsQuestion{qname=" ++ quote ++ DnsQuestion.QnameAsString p_Question ++ quote
  ++ str ", qtype=" ++ print_dec (DnsQuestion.Qtype false p_Question)
  ++ str ", qclass=" ++ print_dec (DnsQuestion.Qclass false p_Question) ++ str "}".

Definition show_answer (p_Answer : DnsAnswer) : bytes :=
  str "DnsAnswer{name=" ++ quote ++ DnsAnswer.NameAsString p_Answer ++ quote
  ++ str ", type=" ++ print_dec (DnsAnswer.Type_ false p_Answer) ++ str ", class=" ++ print_dec (DnsAnswer.Rclass false p_Answer)
  ++ str ", ttl=" ++ print_dec (DnsAnswer.Ttl false p_Answer) ++ str ", rdlength=" ++ print_dec (DnsAnswer.Rdlength false p_Answer)
  ++ str "}".

#[export] Instance Show_header : Show DnsHeader := show_header.
#[export] Instance Show_question : Show DnsQuestion := show_question.
#[export] Instance Show_answer : Show DnsAnswer := show_answer.

(** The loop over a section, and its frame. *)
Definition show_items {A} `{Show A} (xs : list A) : bytes :=
  concat (imap (λ l_Index x, newline ++ str "    [" ++ show_nat l_Index ++ str "]: " ++ show x) xs).

Definition show_section {A} `{Show A} (name : bytes) (xs : list A) : bytes :=
  newline ++ str "  " ++ name ++ str "[" ++ show_nat (length xs) ++ str "]: {" ++ show_items xs ++ newline ++ str "  }".

Definition show_edns (e : option EdnsData) : bytes :=
  match e with
  | None => []
  | Some e =>
      newline ++ str "  EDNS0: { udp_payload=" ++ print_dec (m_UdpPayloadSize_ e) ++ str " version=" ++ print_dec (m_Version_ e)
      ++ str " do=" ++ show_bool (m_DoBit_ e) ++ str " ext_rcode=" ++ print_dec (m_ExtendedRcode_ e)
      ++ str " options=" ++ show_nat (length (m_Options_ e)) ++ str " }"
  end.

Definition show_request (p_Packet : DnsRequestPacket) : bytes :=
  str "DnsRequestPacket {" ++ newline ++ str "  Header: " ++ show (DnsRequestPacket.m_Header_ p_Packet)
  ++ show_section (str "Questions") (DnsRequestPacket.m_Questions_ p_Packet) ++ show_edns (DnsRequestPacket.m_Edns_ p_Packet)
  ++ newline ++ str "}".

Definition show_response (p_Packet : DnsResponsePacket) : bytes :=
  str "DnsResponsePacket {" ++ newline ++ str "  Header: " ++ show (DnsResponsePacket.m_Header_ p_Packet)
  ++ show_section (str "Questions") (DnsResponsePacket.m_Questions_ p_Packet)
  ++ show_section (str "Answers") (DnsResponsePacket.m_Answers_ p_Packet)
  ++ show_section (str "Authority") (DnsResponsePacket.m_Authority_ p_Packet)
  ++ show_section (str "Additional") (DnsResponsePacket.m_Additional_ p_Packet)
  ++ newline ++ str "}".

#[export] Instance Show_request : Show DnsRequestPacket := show_request.
#[export] Instance Show_response : Show DnsResponsePacket := show_response.
End show.

(** ** Log lines *)

Inductive LogLevel : Type := LL_Info | LL_Debug.
Record line : Type := Line { l_Level : LogLevel; l_Text : bytes }.

Section dump.
  Context {H : Target}.

Definition dump_header (hdr : DnsHeader) : list bytes :=
  [str "id:       0x" ++ show_hex4 (DnsHeader.Id false hdr);
   str "flags:    0x" ++ show_hex4 (DnsHeader.Flags false hdr);
   str "  qr:       " ++ show_bool (DnsHeader.Qr false hdr);
   str "  opcode:   " ++ show_int (DnsHeader.Opcode false hdr);
   str "  aa:       " ++ show_bool (DnsHeader.Aa false hdr);
   str "  tc:       " ++ show_bool (DnsHeader.Tc false hdr);
   str "  rd:       " ++ show_bool (DnsHeader.Rd false hdr);
   str "  ra:       " ++ show_bool (DnsHeader.Ra false hdr);
   str "  z:        " ++ show_bool (DnsHeader.Zb false hdr);
   str "  ad:       " ++ show_bool (DnsHeader.Ad false hdr);
   str "  cd:       " ++ show_bool (DnsHeader.Cd false hdr);
   str "  rcode:    " ++ show_int (DnsHeader.Rcode false hdr);
   str "qdcount:  0x" ++ show_hex4 (DnsHeader.Qdcount false hdr);
   str "ancount:  0x" ++ show_hex4 (DnsHeader.Ancount false hdr);
   str "nscount:  0x" ++ show_hex4 (DnsHeader.Nscount false hdr);
   str "arcount:  0x" ++ show_hex4 (DnsHeader.Arcount false hdr)].

Definition PrintPacketDebug (d : DnsParser) : list line :=
  Line LL_Debug <$>
    dump_header (DnsRequestPacket.Header (m_ParsedPacket_ d)) ++
    [str "Question:";
     str "  Domain:      " ++ c_str (Domain d);
     str "  Subdomain:   " ++ c_str (SubDomain d);
     str "  Root Domain: " ++ c_str (RootDomain d);
     str "  Record Type: " ++ c_str (RecordType d)] ++
    match DnsRequestPacket.Edns (m_ParsedPacket_ d) with
    | None => []
    | Some e =>
        [str "EDNS0:";
         str "  UDP Payload: " ++ print_dec (m_UdpPayloadSize_ e);
         str "  Version:     " ++ print_dec (m_Version_ e);
         str "  DO bit:      " ++ show_int (if m_DoBit_ e then 1 else 0);
         str "  Ext RCODE:   " ++ print_dec (m_ExtendedRcode_ e);
         str "  Options:     " ++ show_nat (length (m_Options_ e))]
    end.
End dump.

(** *** Help and banner *)

Definition info (ls : list bytes) : list line := Line LL_Info <$> ls.

(** Text that goes out as it is, with its newline. *)
Definition ln (s : bytes) : bytes := s ++ newline.

Definition PrintHelp (p_Argv0 : bytes) : list line :=
  info
    [ln (str "Usage: " ++ c_str p_Argv0 ++ str " [options]");
     newline;
     ln (str "Options:");
     ln (str "  --log-level <level>     Log level: none, fatal, error, warn, info, debug, trace, all (default: info)");
     ln (str "  --doh-only              Enable DoH-only mode (no local zone responses)");
     ln (str "  --doh-resolver <url>    DoH resolver URL (can be specified multiple times)");
     ln (str "  --doh-timeout <ms>      Total timeout budget for DoH resolution (default: " ++ show_int DEFAULT_DOH_TIMEOUT_MS ++ str ")");
     ln (str "  --user-agent <string>   User-Agent string for DoH requests");
     ln (str "  --cacert <path>         Path to a PEM CA certificate bundle for TLS verification");
     ln (str "  --zones <path>          Path to the zones.json file (default: " ++ DEFAULT_ZONES_PATH_PC ++ str ")");
     ln (str "  --dns-ip <ip>           IP address for the DNS server (default: " ++ DEFAULT_DNS_IP ++ str ")");
     ln (str "  --dns-port <port>       Port for the DNS server (default: " ++ print_dec DEFAULT_DNS_PORT ++ str ")");
     ln (str "  --redirect-ipv4 <ip>    IPv4 address for redirection (default: " ++ DEFAULT_IPV4_REDIRECT ++ str ")");
     ln (str "  --redirect-ipv6 <ip>    IPv6 address for redirection (default: " ++ DEFAULT_IPV6_REDIRECT ++ str ")");
     ln (str "  --ttl <seconds>         Default TTL for DNS responses (default: " ++ show_int DEFAULT_TTL ++ str ")");
     ln (str "  --help                  Display this help message")].

Section banner.
  Context {J : Type} {HA : App}.

(** The line with the program's name, padded. *)
Definition s_AppNameLine : bytes := Getters.AppName ++ str " by " ++ Getters.AppAuthor.
Definition s_PaddingNeeded : Z := 77 - Z.of_nat (length s_AppNameLine).
Definition s_Padding : bytes := replicate (Z.to_nat (if (0 <? s_PaddingNeeded)%Z then s_PaddingNeeded else 0)) " "%byte.

Definition border (corner : bytes) : bytes := corner ++ replicate 78 "-"%byte ++ corner.
Definition title_line : bytes := str "| " ++ c_str s_AppNameLine ++ c_str s_Padding ++ str " |".

Definition or_else (s other : bytes) : bytes := match s with [] => other | _ => c_str s end.

Definition Banner (o : Options) (c : Config.Config J) : list line :=
  info
    ([ln (border (str ".")); ln title_line; ln (border (str "'"));
      ln (str "License:      " ++ c_str Getters.AppLicense);
      ln (str "Build Type:   " ++ c_str Getters.AppBuildType);
      ln (str "Version:      " ++ c_str Getters.AppVersion);
      ln (str "Description:  " ++ c_str Getters.AppDescription);
      ln (str "Homepage:     " ++ c_str Getters.AppHomepage);
      ln (str "Log Level:    " ++ or_else (s_LogLevel o) (str "info"));
      ln (str "DoH Only:     " ++ if Getters.DohOnly c then str "True" else str "False")] ++
     match s_DohResolvers o with
     | [] => []
     | rs => ln (str "DoH Resolvers:") :: ((λ resolver, ln (str "  - " ++ c_str resolver)) <$> rs)
     end ++
     [ln (str "DoH Timeout:  " ++ show_int (Getters.DohTimeoutMs c) ++ str " ms");
      ln (str "User-Agent:   " ++ c_str (Getters.Useragent c));
      ln (str "CACert Path:  " ++ or_else (Getters.CacertPath c) (str "(system default)"));
      ln (str "Zones Path:   " ++ or_else (Getters.ZonesPath c) (str "(default)"));
      ln (str "DNS Listen:   " ++ c_str (Getters.DnsIpAddress c) ++ str ":" ++ print_dec (Getters.DnsPort c));
      ln (str "Redirect v4:  " ++ c_str (Getters.RedirectIpv4 c));
      ln (str "Redirect v6:  " ++ c_str (Getters.RedirectIpv6 c));
      ln (str "Default TTL:  " ++ show_int (Getters.DefaultTtl c))]).

(** The console build prints the same. *)
Definition Banner_ps (o : Options) (c : Config.Config J) : list line := Banner o c.
End banner.

(** ** Printed numbers *)

Lemma print_dec_inj z z' : (0 ≤ z < 10 ^ 20)%Z → (0 ≤ z' < 10 ^ 20)%Z → print_dec z = print_dec z' → z = z'.
Proof.
  intros Hz Hz' E. unfold print_dec in E.
  destruct (read_print 20 10 z [] false 0 ltac:(lia) Hz ltac:(lia)) as (k & E1 & _).
  destruct (read_print 20 10 z' [] false 0 ltac:(lia) Hz' ltac:(lia)) as (k' & E2 & _).
  rewrite E, E2 in E1. cbn [read_digits] in E1. injection E1. lia.
Qed.

Lemma show_hex4_inj z z' : uint16 z → uint16 z' → show_hex4 z = show_hex4 z' → z = z'.
Proof.
  assert (Hr : ∀ z, uint16 z → read_digits 16 (show_hex4 z) false 0 = (true, z)).
  { intros y Hy. assert (E : forall_bits 16 (λ z, bool_decide (read_digits 16 (show_hex4 z) false 0 = (true, z))) = true)
      by (vm_compute; reflexivity).
    apply (forall_bits_spec 16 _ y) in E; [|exact Hy]. by apply bool_decide_eq_true in E. }
  intros Hz Hz' E. pose proof (Hr z Hz) as E1. rewrite E, Hr in E1 by done. by injection E1.
Qed.

(** A printed number after a sign that is no digit can be told from what precedes it. *)
Lemma digits_prefix (d d' : bytes) b b' x x' :
  Forall is_hex d → Forall is_hex d' → ¬ is_hex b → ¬ is_hex b' → d ++ b :: x = d' ++ b' :: x' → d = d' ∧ b :: x = b' :: x'.
Proof.
  intros Hd. revert d'. induction Hd as [|c d Hc Hd IH]; intros d' Hd' Hb Hb' E.
  - destruct Hd' as [|c' d' Hc' _]; [done|]. injection E as -> _. done.
  - destruct Hd' as [|c' d' Hc' Hd']; cbn [app] in E.
    + injection E as -> _. done.
    + injection E as -> E. by destruct (IH d' Hd' Hb Hb' E) as [-> ?].
Qed.

Lemma print_dec_hex z : Forall is_hex (print_dec z).
Proof. apply print_digits_hex. lia. Qed.

Lemma number_last (pre pre' lit post : bytes) b z z' :
  ¬ is_hex b → (0 ≤ z < 10 ^ 20)%Z → (0 ≤ z' < 10 ^ 20)%Z →
  pre ++ (lit ++ [b]) ++ print_dec z ++ post = pre' ++ (lit ++ [b]) ++ print_dec z' ++ post → pre = pre' ∧ z = z'.
Proof.
  intros Hb Hz Hz' E. rewrite !app_assoc in E. apply app_inv_tail in E. rewrite <- !app_assoc in E.
  apply (f_equal reverse) in E. rewrite !reverse_app in E. cbn [reverse rev_append rev] in E. rewrite <- !app_assoc in E.
  apply digits_prefix in E as [E1 E2]; [|by apply Forall_reverse, print_dec_hex..|done|done].
  apply (inj reverse) in E1. apply print_dec_inj in E1; [|done..]. split; [|done].
  injection E2 as E2. by apply app_inv_head, (inj reverse) in E2.
Qed.

(** *** Records of printed fields *)

(** A text of named numbers between two texts. *)
Definition fields_text (pre : bytes) (fs : list (bytes * Z)) (post : bytes) : bytes :=
  pre ++ concat ((λ '(l, z), l ++ str "=" ++ print_dec z) <$> fs) ++ post.

Definition printable (fs : list (bytes * Z)) : Prop := Forall (λ x, (0 ≤ x.2 < 10 ^ 20)%Z) fs.

Lemma fields_text_inj fs : ∀ fs' pre pre' post,
  fs.*1 = fs'.*1 → printable fs → printable fs' → fields_text pre fs post = fields_text pre' fs' post → pre = pre' ∧ fs = fs'.
Proof.
  induction fs as [|[l z] fs IH]; intros [|[l' z'] fs'] pre pre' post El Hf Hf' E; try done.
  - split; [|done]. by apply app_inv_tail in E.
  - rewrite !fmap_cons in El. cbn [fst] in El. injection El as <- El.
    apply Forall_cons in Hf as [Hz Hf], Hf' as [Hz' Hf'].
    destruct (IH fs' (pre ++ (l ++ str "=") ++ print_dec z ++ []) (pre' ++ (l ++ str "=") ++ print_dec z' ++ []) post El Hf Hf') as [Ep ->].
    + unfold fields_text in *. rewrite !fmap_cons in E. cbn [concat] in E. rewrite !app_nil_r, <- !app_assoc in *. exact E.
    + apply number_last in Ep as [-> ->]; [done| |done|done]. by intros [d Hd].
Qed.

Section fields.
  Context {H : Target}.

Definition header_fields (h : DnsHeader) : list (bytes * Z) :=
  [(str "id", DnsHeader.Id false h); (str ", qr", Z.b2z (DnsHeader.Qr false h)); (str ", opcode", DnsHeader.Opcode false h);
   (str ", rcode", DnsHeader.Rcode false h); (str ", qdcount", DnsHeader.Qdcount false h);
   (str ", ancount", DnsHeader.Ancount false h)].
Definition question_fields (q : DnsQuestion) : list (bytes * Z) :=
  [(str ", qtype", DnsQuestion.Qtype false q); (str ", qclass", DnsQuestion.Qclass false q)].
Definition answer_fields (a : DnsAnswer) : list (bytes * Z) :=
  [(str ", type", DnsAnswer.Type_ false a); (str ", class", DnsAnswer.Rclass false a); (str ", ttl", DnsAnswer.Ttl false a);
   (str ", rdlength", DnsAnswer.Rdlength false a)].

Lemma show_header_text h : show h = fields_text (str "DnsHeader{") (header_fields h) (str "}").
Proof.
  unfold show, Show_header, show_header, fields_text, header_fields. rewrite !fmap_cons. cbn [concat fmap list_fmap].
  rewrite app_nil_r, <- !app_assoc. by destruct (DnsHeader.Qr false h).
Qed.

Lemma show_question_text q :
  show q = fields_text (str "DnsQuestion{qname=" ++ quote ++ DnsQuestion.QnameAsString q ++ quote) (question_fields q) (str "}").
Proof.
  unfold show, Show_question, show_question, fields_text, question_fields. rewrite !fmap_cons. cbn [concat fmap list_fmap].
  by rewrite app_nil_r, <- !app_assoc.
Qed.

Lemma show_answer_text a :
  show a = fields_text (str "DnsAnswer{name=" ++ quote ++ DnsAnswer.NameAsString a ++ quote) (answer_fields a) (str "}").
Proof.
  unfold show, Show_answer, show_answer, fields_text, answer_fields. rewrite !fmap_cons. cbn [concat fmap list_fmap].
  by rewrite app_nil_r, <- !app_assoc.
Qed.

(** Texts of this shape are equal when what varies in them is. *)
Lemma named_text_iff (before after n n' : bytes) fs fs' :
  fs.*1 = fs'.*1 → printable fs → printable fs' →
  fields_text (before ++ quote ++ n ++ after) fs (str "}") = fields_text (before ++ quote ++ n' ++ after) fs' (str "}") ↔
  n = n' ∧ fs = fs'.
Proof.
  intros El Hf Hf'. split; [|by intros [-> ->]]. intros E. apply fields_text_inj in E as [E ->]; [|done..]. split; [|done].
  apply app_inv_head in E. apply (app_inv_head quote) in E. by apply app_inv_tail in E.
Qed.

Lemma uint16_printable z : uint16 z → (0 ≤ z < 10 ^ 20)%Z.
Proof. unfold uint16. lia. Qed.

Lemma header_printable h : DnsHeader.wf h → printable (header_fields h).
Proof.
  intros Hw. pose proof (DnsHeader.view_range false h Hw) as Hv.
  assert (Hb : ∀ a, (0 ≤ DnsHeader.view false h a < 10 ^ 20)%Z).
  { intros a. pose proof (Hv a). assert (2 ^ field_bits a ≤ 65536)%Z by (by destruct a). lia. }
  unfold printable, header_fields. rewrite !Forall_cons.
  exact (conj (Hb FId) (conj (Hb FQr) (conj (Hb FOpcode) (conj (Hb FRcode) (conj (Hb FQdcount) (conj (Hb FAncount) (Forall_nil_2 _))))))).
Qed.

(** A line of the dump with a number of four digits. *)
Lemma dump_number (i : nat) (l : bytes) (f : DnsHeader → Z) h h' :
  (∀ h, dump_header h !! i = Some (l ++ show_hex4 (f h))) → uint16 (f h) → uint16 (f h') → dump_header h = dump_header h' → f h = f h'.
Proof.
  intros Hl Hz Hz' E. pose proof (Hl h) as E1. rewrite E, Hl in E1. injection E1 as E1. apply app_inv_head in E1.
  symmetry. by apply show_hex4_inj.
Qed.

(** The dump of a header shows all of it. *)
Lemma dump_header_inj h h' : DnsHeader.wf h → DnsHeader.wf h' → dump_header h = dump_header h' → h = h'.
Proof.
  intros Hw Hw' E. pose proof (DnsHeader.view_range false h Hw) as Hv. pose proof (DnsHeader.view_range false h' Hw') as Hv'.
  assert (Ef : DnsHeader.Flags false h = DnsHeader.Flags false h').
  { apply (dump_number 1 (str "flags:    0x") (DnsHeader.Flags false)); [done|by apply DnsHeader.Flags_range..|done]. }
  apply (DnsHeader.view_inj false); [done..|]. intros a. destruct (in_flags a) eqn:Ea.
  - by rewrite !DnsHeader.view_word_field, Ef.
  - destruct a; try discriminate Ea.
    + apply (dump_number 0 (str "id:       0x") (DnsHeader.Id false)); [done|apply (Hv FId)|apply (Hv' FId)|done].
    + apply (dump_number 12 (str "qdcount:  0x") (DnsHeader.Qdcount false)); [done|apply (Hv FQdcount)|apply (Hv' FQdcount)|done].
    + apply (dump_number 13 (str "ancount:  0x") (DnsHeader.Ancount false)); [done|apply (Hv FAncount)|apply (Hv' FAncount)|done].
    + apply (dump_number 14 (str "nscount:  0x") (DnsHeader.Nscount false)); [done|apply (Hv FNscount)|apply (Hv' FNscount)|done].
    + apply (dump_number 15 (str "arcount:  0x") (DnsHeader.Arcount false)); [done|apply (Hv FArcount)|apply (Hv' FArcount)|done].
Qed.

(** What is printed of a header, a question or a record determines the fields it shows,
    whatever bytes the name has; and the dump of a header determines the header. *)
Theorem printed_fields :
  (∀ h h', DnsHeader.wf h → DnsHeader.wf h' → (show h = show h' ↔ header_fields h = header_fields h')) ∧
  (∀ q q', DnsQuestion.wf q → DnsQuestion.wf q' →
     (show q = show q' ↔ DnsQuestion.QnameAsString q = DnsQuestion.QnameAsString q' ∧ question_fields q = question_fields q')) ∧
  (∀ a a', DnsAnswer.wf a → DnsAnswer.wf a' →
     (show a = show a' ↔ DnsAnswer.NameAsString a = DnsAnswer.NameAsString a' ∧ answer_fields a = answer_fields a')) ∧
  (∀ h h', DnsHeader.wf h → DnsHeader.wf h' → (dump_header h = dump_header h' ↔ h = h')).
Proof.
  split_and!.
  - intros h h' Hw Hw'. rewrite !show_header_text. split; [|by intros ->]. intros E.
    apply fields_text_inj in E as [_ E]; [done|done|by apply header_printable..].
  - intros q q' [Ht Hc] [Ht' Hc']. rewrite !show_question_text.
    apply (named_text_iff (str "DnsQuestion{qname=") quote); [done|..];
      (apply Forall_cons_2; [|apply Forall_cons_2; [|apply Forall_nil_2]]; by apply uint16_printable, NetworkToHost_uint16).
  - assert (Hp : ∀ a, DnsAnswer.wf a → printable (answer_fields a)).
    { intros a (Ht & Hc & Httl & Hl). apply NetworkToHost_uint32 in Httl. unfold uint32 in Httl.
      apply Forall_cons_2; [by apply uint16_printable, NetworkToHost_uint16|].
      apply Forall_cons_2; [by apply uint16_printable, NetworkToHost_uint16|].
      apply Forall_cons_2; [cbn [snd]; unfold DnsAnswer.Ttl; lia|].
      apply Forall_cons_2; [by apply uint16_printable, NetworkToHost_uint16|apply Forall_nil_2]. }
    intros a a' Hw Hw'. rewrite !show_answer_text. apply (named_text_iff (str "DnsAnswer{name=") quote); [done|by apply Hp..].
  - intros h h' Hw Hw'. split; [by apply dump_header_inj|by intros ->].
Qed.
End fields.

(** ** The banner *)

(** The border has 80 characters; the line with the name has 81 when the name is not longer
    than the space for it, and more when it is. *)
Lemma banner_width {HA : App} corner :
  length corner = 1 → x00 ∉ s_AppNameLine →
  length (border corner) = 80 ∧ length title_line = Nat.max 81 (length s_AppNameLine + 4).
Proof.
  intros Hc H0. assert (Hs : ∀ s, x00 ∉ s → c_str s = s).
  { induction s as [|b s IH]; [done|]. intros Hb. apply not_elem_of_cons in Hb as [Hb Hs]. cbn [c_str].
    rewrite decide_False by congruence. by rewrite IH. }
  split; [unfold border; rewrite !length_app, length_replicate; lia|].
  unfold title_line. rewrite Hs by done. rewrite Hs.
  - unfold s_Padding, s_PaddingNeeded. rewrite !length_app, length_replicate. cbn [length str].
    destruct (Z.ltb_spec 0 (77 - Z.of_nat (length s_AppNameLine))); simpl; lia.
  - unfold s_Padding. intros Hin. by apply elem_of_replicate in Hin as [? _].
Qed.

(** ** Examples *)

Section examples.
  #[local] Existing Instance x86_64.

(** Names are printed as they are: one that holds a quote and a line break makes two different
    packets print the same. *)
Definition forged (n : bytes) : DnsQuestion := DnsQuestion.construct_labels [n] 1 1.
Definition forged_middle : bytes :=
  quote ++ str ", qtype=1, qclass=1}" ++ newline ++ str "    [1]: DnsQuestion{qname=" ++ quote.

Example packet_print_ambiguous :
  let p := DnsRequestPacket.made_request DnsHeader.clear [forged (str "a"); forged (str "b" ++ forged_middle ++ str "c")] in
  let p' := DnsRequestPacket.made_request DnsHeader.clear [forged (str "a" ++ forged_middle ++ str "b"); forged (str "c")] in
  bool_decide (show p = show p') = true ∧ DnsRequestPacket.eqb p p' = false.
Proof. by vm_compute. Qed.
End examples.
