(* ===== verification/Server.v ===== *)
(** * The servers (src/src/udp_server.cc, src/src/tcp_server.cc)

    What the two servers do with one query: parse it, report EDNS0 errors and unknown
    opcodes, and answer from the local zones, the cache or the resolvers, in this
    order.  The handlers change the state the servers share: the cache of patterns, the
    cache of responses and the outside world; time readings, the shuffled resolvers and
    the fuel of the transfers are an argument ([Readings]).  A handler's result is
    the message it sends, and a TCP session maps the bytes it reads to the bytes it
    writes; sockets, timers and the event loop are [UdpServer] and [TcpServer].  The
    logging of responses is left out. *)

From Stdlib Require Import ZArith Lia.
From Stdlib Require Import Strings.Byte Strings.String.
From stdpp Require Import base numbers list option sets gmap.
From S2P Require Import Prelude.
From S2P Require Import Stateful.
From S2P Require Import Memory.
From S2P Require Import Text.
From S2P Require Import Utils.
From S2P Require Import DnsHeader.
From S2P Require Import DnsQuestion.
From S2P Require Import DnsRequestPacket.
From S2P Require Import DnsCache.
From S2P Require Import DnsResponse.
From S2P Require Import ResponseFacts.
From S2P Require Import WholeResponses.
From S2P Require Import ResponseSafety.
From S2P Require Import Doh.
From S2P Require Import DnsParser.
From S2P Require Import LocalDns.
From S2P Require Import LocalFacts.

Definition DNS_MIN_PACKET_SIZE : nat := HeaderSize.
Definition DEFAULT_DNS_PACKET_SIZE : nat := 512.

(** What a handler reads from its environment: the clock at its three uses, the shuffled
    resolvers, the fuel of a transfer's loops, and what an abandoned response function
    leaves of the output. *)
Record Readings : Type := {
  now_lookup : Z;
  now_evict : Z;
  now_insert : Z;
  shuffled : list bytes;
  fuel : nat;
  partial : bytes
}.

(** The state the handlers share. *)
Record Server {RE : RegexEngine} (W : Type) : Type := {
  m_RegexCache_ : RegexCache;
  m_DnsCache_ : DnsCache.DnsCache;
  m_World : W
}.
Arguments m_RegexCache_ {_ _} _.
Arguments m_DnsCache_ {_ _} _.
Arguments m_World {_ _} _.

Section handlers.
  Context {H : Target} {O : HashOrder} {RE : RegexEngine} {J : Type} `{HJ : Json J} `{HZ : !JsonZones J}.
  Context {W : Type} `{Curl W}.
  (* the configuration, and the client made from it *)
  Context (DefaultTtl : Z) (g_Zones : J) (DohOnly : bool) (m_DohQuery_ : Doh.DnsOverHttps).
  Implicit Types (r : Readings) (p_Data s_Output : bytes).

Abbreviation handler A := (stateful (Server W) A).

(** The calls, on the part of the state they change. *)
Definition on_regex {A} (m : stateful RegexCache A) : handler A := λ s,
  let '(o, c) := m (m_RegexCache_ s) in
  (o, {| m_RegexCache_ := c; m_DnsCache_ := m_DnsCache_ s; m_World := m_World s |}).

Definition Lookup r (s_Domain : bytes) (s_Qtype s_TxnId : Z) s_Output : handler (bool * bytes) := λ s,
  match DnsCache.Lookup (now_lookup r) s_Domain s_Qtype s_TxnId s_Output (m_DnsCache_ s) with
  | Done (b, out, c) => (Done (b, out), {| m_RegexCache_ := m_RegexCache_ s; m_DnsCache_ := c; m_World := m_World s |})
  | Throw e => (Throw e, s) | Undef => (Undef, s) | Unfinished => (Unfinished, s) | Aborted => (Aborted, s)
  end.

Definition Insert r (s_Domain : bytes) (s_Qtype : Z) s_Output : handler unit := λ s,
  match DnsCache.Insert (now_evict r) (now_insert r) s_Domain s_Qtype s_Output (m_DnsCache_ s) with
  | Done c => (Done tt, {| m_RegexCache_ := m_RegexCache_ s; m_DnsCache_ := c; m_World := m_World s |})
  | Throw e => (Throw e, s) | Undef => (Undef, s) | Unfinished => (Unfinished, s) | Aborted => (Aborted, s)
  end.

Definition Resolve r p_Data (p_BytesReceived : nat) s_Output : handler (ResolveResult * bytes) := λ s,
  match Doh.Resolve (fuel r) m_DohQuery_ (shuffled r) (Some p_Data) p_BytesReceived s_Output (m_World s) with
  | Done (res, out, w) => (Done (res, out), {| m_RegexCache_ := m_RegexCache_ s; m_DnsCache_ := m_DnsCache_ s; m_World := w |})
  | Throw e => (Throw e, s) | Undef => (Undef, s) | Unfinished => (Unfinished, s) | Aborted => (Aborted, s)
  end.

(** [s_Pkt.Questions()[0]]. *)
Definition FirstQuestion (p : DnsRequestPacket.DnsRequestPacket) : outcome DnsQuestion.DnsQuestion :=
  match DnsRequestPacket.Questions p with [] => Undef | q :: _ => Done q end.

(** The local zones, the cache, the resolvers; NXDOMAIN when none has an answer. *)
Definition answer r p_Data (p_BytesReceived : nat) (s_ParsedRequest : DnsParser.DnsParser) s_Output : handler bytes :=
  '(s_Found, s_Output) ← (if DohOnly then mret (false, s_Output) else
     '(s_Ret, s_Output) ← on_regex (CheckLocalMatch DefaultTtl g_Zones (partial r) s_ParsedRequest s_Output);
     mret ((s_Ret =? 0)%Z, s_Output));
  '(s_Found, s_Output) ← (if s_Found : bool then mret (true, s_Output) else
     let s_TxnId := DnsHeader.Id false (DnsRequestPacket.Header (Packet s_ParsedRequest)) in
     q ← lift (FirstQuestion (Packet s_ParsedRequest));
     let s_Qtype := DnsQuestion.Qtype false q in
     let s_Domain := Domain s_ParsedRequest in
     '(s_Hit, s_Output) ← Lookup r s_Domain s_Qtype s_TxnId s_Output;
     if s_Hit : bool then mret (true, s_Output) else
     '(s_DohResponse, s_Output) ← Resolve r p_Data p_BytesReceived s_Output;
     if bool_decide (s_DohResponse = Success) then
       _ ← Insert r s_Domain s_Qtype s_Output; mret (true, s_Output)
     else if negb (bool_decide (s_DohResponse = InvalidInput)) then
       '(_, s_Output) ← lift (SERVFAIL (Packet s_ParsedRequest) s_Output); mret (true, s_Output)
     else mret (false, s_Output));
  if s_Found : bool then mret s_Output else
  '(_, s_Output) ← lift (NXDOMAIN DefaultTtl (Packet s_ParsedRequest) s_Output []); mret s_Output.

(** [Send]: nothing is sent for an empty response. *)
Definition Send (s_Output : bytes) : option bytes := match s_Output with [] => None | _ => Some s_Output end.

(** *** UDP *)

(** The TC bit, in a response longer than the client accepts. *)
Definition SetTruncated s_Output : outcome bytes :=
  if 4 <=? length s_Output then
    bs ← load_n s_Output 2 2;
    let s_Flags := NetworkToHost 2 (object_value bs) in
    let s_Flags := u16 (Z.lor s_Flags 0x0200) in
    store_n s_Output 2 (object_bytes 2 (HostToNetwork 2 s_Flags))
  else Done s_Output.

Definition FinishUdp (s_EdnsStatus : EdnsParseStatus) (s_EdnsPtr : option EdnsData) s_Output : outcome bytes :=
  if bool_decide (s_EdnsStatus = EdnsOk) then
    s_Output ← AppendOpt s_Output 0 s_EdnsPtr;
    let s_ClientMax := match s_EdnsPtr with Some e => m_UdpPayloadSize_ e | None => Z.of_nat DEFAULT_DNS_PACKET_SIZE end in
    if (s_ClientMax <? Z.of_nat (length s_Output))%Z then SetTruncated s_Output else Done s_Output
  else Done s_Output.

(** The responses to EDNS0 errors and to opcodes other than QUERY. *)
Definition early_error (s_Pkt : DnsRequestPacket.DnsRequestPacket) s_Output : outcome (option bytes) :=
  let s_EdnsStatus := DnsRequestPacket.EdnsStatus s_Pkt in
  let s_EdnsPtr := DnsRequestPacket.Edns s_Pkt in
  if bool_decide (s_EdnsStatus = EdnsDuplicateOpt) || bool_decide (s_EdnsStatus = EdnsMalformed) then
    '(_, s_Output) ← FORMERR_OPT s_Pkt s_Output s_EdnsPtr; Done (Some s_Output)
  else if bool_decide (s_EdnsStatus = EdnsBadVersion) then
    '(_, s_Output) ← BADVERS s_Pkt s_Output s_EdnsPtr; Done (Some s_Output)
  else if negb (DnsHeader.Opcode false (DnsRequestPacket.Header s_Pkt) =? 0)%Z then
    '(_, s_Output) ← NOTIMP s_Pkt s_Output;
    s_Output ← (if bool_decide (s_EdnsStatus = EdnsOk) then AppendOpt s_Output 0 s_EdnsPtr else Done s_Output);
    Done (Some s_Output)
  else Done None.

(** A query of either server: the finishing step is the server's. *)
Definition handle (finish : EdnsParseStatus → option EdnsData → bytes → outcome bytes) r p_Data (p_BytesReceived : nat)
    : handler (option bytes) :=
  match DnsParser.construct (Some p_Data) p_BytesReceived with
  | Throw _ =>
      '(_, s_ErrorResponse) ← lift (CallResponseFunction_raw (str "FORMERR") (Some p_Data) p_BytesReceived []);
      mret (Send s_ErrorResponse)
  | Done s_ParsedRequest =>
      let s_Pkt := Packet s_ParsedRequest in
      s_Error ← lift (early_error s_Pkt []);
      match s_Error with
      | Some s_Output => mret (Send s_Output)
      | None =>
          s_Output ← answer r p_Data p_BytesReceived s_ParsedRequest [];
          s_Output ← lift (finish (DnsRequestPacket.EdnsStatus s_Pkt) (DnsRequestPacket.Edns s_Pkt) s_Output);
          mret (Send s_Output)
      end
  | Undef => lift Undef
  | Unfinished => lift Unfinished
  | Aborted => lift Aborted
  end.

(** The handler of a datagram of [p_BytesReceived] bytes in the receive buffer. *)
Definition UdpReceive r (m_Data_ : bytes) (p_BytesReceived : nat) : handler (option bytes) :=
  if p_BytesReceived =? 0 then mret None
  else if p_BytesReceived <? DNS_MIN_PACKET_SIZE then mret None
  else if DEFAULT_DNS_PACKET_SIZE <? p_BytesReceived then mret None
  else handle FinishUdp r m_Data_ p_BytesReceived.

(** *** TCP *)

Definition FinishTcp (s_EdnsStatus : EdnsParseStatus) (s_EdnsPtr : option EdnsData) s_Output : outcome bytes :=
  if bool_decide (s_EdnsStatus = EdnsOk) then AppendOpt s_Output 0 s_EdnsPtr else Done s_Output.

(** [TcpSession::Send]: the message after its length in two bytes. *)
Definition TcpFrame (p_Data : bytes) : bytes :=
  let p_Length := Z.of_nat (length p_Data) in
  ch (Z.land (Z.shiftr p_Length 8) 0xFF) :: ch (Z.land p_Length 0xFF) :: p_Data.

(** [ReadMessage]'s handler: what is written back. *)
Definition TcpMessage r (m_Data_ : bytes) : handler bytes :=
  s_Message ← handle FinishTcp r m_Data_ (length m_Data_);
  mret (match s_Message with Some w => TcpFrame w | None => [] end).

(** A session on the bytes its client sends: a length, a message of that length, and so on
    until the bytes run out or a length is too small. *)
Fixpoint TcpSession (rs : list Readings) (s_In : bytes) : handler bytes :=
  match rs, s_In with
  | r :: rs, b0 :: b1 :: s_In =>
      let s_MessageLength := Z.to_nat (Z.lor (Z.shiftl (u8 b0) 8) (u8 b1)) in
      if s_MessageLength <? DNS_MIN_PACKET_SIZE then mret [] else
      if length s_In <? s_MessageLength then mret [] else
      s_Out ← TcpMessage r (take s_MessageLength s_In);
      s_Rest ← TcpSession rs (drop s_MessageLength s_In);
      mret (s_Out ++ s_Rest)
  | _, _ => mret []
  end.
End handlers.
