(* ===== verification/ServerFacts.v ===== *)
(** * Every query is answered

    Facts about the handlers of [Server]: whatever a client sends, a handler ends without
    undefined behaviour, keeps the state of the server good, and sends one message with
    the query's identifier, unless it relays what a resolver answered or the zone data
    for the name is bad; a TCP session answers its queries in order. *)

From Stdlib Require Import ZArith Lia.
From Stdlib Require Import Strings.Byte Strings.String.
From stdpp Require Import base numbers list option sets gmap.
From S2P Require Import Prelude.
From S2P Require Import Stateful.
From S2P Require Import Memory.
From S2P Require Import Text.
From S2P Require Import Utils.
From S2P Require Import Name.
From S2P Require Import DnsHeader.
From S2P Require Import DnsQuestion.
From S2P Require Import DnsRequestPacket.
From S2P Require Import DnsCache.
From S2P Require Import DnsResponse.
From S2P Require Import ResponseFacts.
From S2P Require Import SampleJson.
From S2P Require Import WholeResponses.
From S2P Require Import ResponseSafety.
From S2P Require Import Doh.
From S2P Require Import DnsParser.
From S2P Require Import LocalDns.
From S2P Require Import SampleRegex.
From S2P Require Import LocalFacts.
From S2P Require Import Server.

(** ** Computations that end once there is enough fuel *)

Section runs.
  Context {S : Type}.

Definition runs {A} (m : nat → stateful S A) (s : S) (P : A → S → Prop) : Prop :=
  ∃ bound a s', P a s' ∧ ∀ k, bound ≤ k → m k s = (Done a, s').

Lemma runs_done {A} (m : nat → stateful S A) s P a s' :
  P a s' → (∀ k, m k s = (Done a, s')) → runs m s P.
Proof. intros Hp Hm. by exists 0, a, s'. Qed.

Lemma runs_ret {A} (a : A) s (P : A → S → Prop) : P a s → runs (λ _, mret a) s P.
Proof. intros Hp. by exists 0, a, s. Qed.

Lemma runs_bind {A B} (m : nat → stateful S A) (f : nat → A → stateful S B) s P Q :
  runs m s P → (∀ a s', P a s' → runs (λ k, f k a) s' Q) → runs (λ k, m k ≫= f k) s Q.
Proof.
  intros (b1 & a & s1 & Hp & Hm) Hf. destruct (Hf a s1 Hp) as (b2 & b & s2 & Hq & Hk).
  exists (b1 + b2), b, s2. split; [done|]. intros k Hle. rewrite (stateful_bind_Done _ _ _ _ _ (Hm k ltac:(lia))).
  apply Hk. lia.
Qed.

Lemma runs_lift {A} (m : outcome A) s (P : A → Prop) (Q : A → S → Prop) :
  (∃ a, m = Done a ∧ P a) → (∀ a, P a → Q a s) → runs (λ _, lift m) s Q.
Proof. intros (a & -> & Hp) Hq. exists 0, a, s. split; [by apply Hq|done]. Qed.

Lemma runs_mono {A} (m : nat → stateful S A) s (P Q : A → S → Prop) :
  runs m s P → (∀ a s', P a s' → Q a s') → runs m s Q.
Proof. intros (b & a & s' & Hp & Hm) Hpq. exists b, a, s'. split; [by apply Hpq|done]. Qed.
End runs.

(** ** Messages that carry the identifier of the query *)

Definition carries (data w : bytes) : Prop := 12 ≤ length w ∧ take 2 w = take 2 data.

Section messages.
  Context {H : Target}.

(** [AppendOpt] on any message. *)
Lemma AppendOpt_any w ext e :
  ∃ w', AppendOpt w ext e = Done w' ∧ (12 ≤ length w → 12 ≤ length w' ∧ take 2 w' = take 2 w).
Proof.
  unfold AppendOpt. cbv zeta. set (rd := match e with Some _ => _ | None => [] end).
  set (out := if too_long (length rd) then _ else _).
  assert (Ho : ∃ x, out = w ++ x).
  { unfold out, AppendUint16, AppendUint32. destruct (too_long _); eexists; by rewrite <- !app_assoc. }
  destruct Ho as [x ->]. destruct (Nat.leb_spec HeaderSize (length (w ++ x))) as [Hl|Hl].
  - unfold HeaderSize in Hl. rewrite load_n_Done, bind_done, WriteUint16_store by lia.
    set (bs := object_bytes 2 _). assert (Hbs : length bs = 2) by apply length_object_bytes.
    rewrite store_n_Done by lia. eexists. split; [done|]. intros Hw. split; [rewrite length_splice; lia|].
    unfold splice. rewrite take_app_le, take_take by (rewrite length_take; lia).
    by rewrite take_app_le by lia.
  - eexists. split; [done|]. intros Hw. rewrite length_app in Hl. unfold HeaderSize in Hl. lia.
Qed.

Lemma SetTruncated_any w :
  ∃ w', SetTruncated w = Done w' ∧ length w' = length w ∧ take 2 w' = take 2 w.
Proof.
  unfold SetTruncated. destruct (Nat.leb_spec 4 (length w)); [|by exists w].
  rewrite load_n_Done, bind_done by lia. cbv zeta.
  set (bs := object_bytes 2 _). assert (Hbs : length bs = 2) by apply length_object_bytes.
  rewrite store_n_Done by lia. eexists. split; [done|]. split; [by apply length_splice; lia|].
  unfold splice. rewrite take_app_le by (rewrite length_take; lia). by rewrite take_take.
Qed.

(** What the servers do to a message before they send it. *)
Definition finishes (finish : EdnsParseStatus → option EdnsData → bytes → outcome bytes) : Prop :=
  ∀ st e w, ∃ w', finish st e w = Done w' ∧ (12 ≤ length w → 12 ≤ length w' ∧ take 2 w' = take 2 w).

Lemma FinishUdp_finishes : finishes FinishUdp.
Proof.
  intros st e w. unfold FinishUdp. destruct (bool_decide _); [|by exists w].
  destruct (AppendOpt_any w 0 e) as (w1 & -> & Hw1). rewrite bind_done. cbv zeta. destruct (_ <? _)%Z; [|by exists w1].
  destruct (SetTruncated_any w1) as (w2 & -> & Hl & Ht). exists w2. split; [done|]. rewrite Hl, Ht. done.
Qed.

Lemma FinishTcp_finishes : finishes FinishTcp.
Proof. intros st e w. unfold FinishTcp. destruct (bool_decide _); [|by exists w]. apply AppendOpt_any. Qed.

(** The identifier of a parsed query is in its first two bytes. *)
Lemma parsed_id data n P :
  n ≤ length data → DnsParser.construct (Some data) n = Done P →
  12 ≤ n ∧ parser_ok P ∧
  be_split 2 (DnsHeader.Id false (DnsRequestPacket.Header (Packet P))) = take 2 data.
Proof.
  intros Hd. rewrite construct_Done by done. unfold HeaderSize. destruct (Nat.ltb_spec n 12) as [|Hn]; [done|]. cbn [orb].
  destruct (UINT16_MAX <? Z.of_nat n)%Z; [done|].
  destruct (request_FromWire_ok data n DnsRequestPacket.clear Hd) as (r & p & E & Hp). rewrite E. destruct r; [|done].
  case_bool_decide as Hl; [|done]. intros [= <-]. specialize (Hp eq_refl).
  destruct (DnsRequestPacket.Questions p) as [|q [|? ?]] eqn:Hq; [done| |done].
  destruct (CacheDomainParts_ok p q Hp Hq) as (HP & Ep & _). split; [done|]. split; [done|].
  unfold Packet. rewrite Ep.
  assert (Eh : DnsRequestPacket.Header p = DnsHeader.of_memory (take HeaderSize data)).
  { rewrite FromWire_header in E by (unfold HeaderSize; lia). cbv zeta in E.
    destruct (_ || _); [done|]. apply bind_Done_inv in E as ([[ok o] qs] & _ & E).
    destruct (negb ok); [done|]. destruct (negb _); [done|]. destruct (_ || _); [done|].
    apply bind_Done_inv in E as (w & _ & E). by injection E as <-. }
  rewrite Eh. unfold DnsHeader.Id, DnsHeader.of_memory. cbn [m_Id_].
  rewrite NetworkToHost_object by (rewrite !length_take; unfold HeaderSize; lia).
  rewrite be_split_join_len by (rewrite !length_take; unfold HeaderSize; lia). rewrite take_take. done.
Qed.

Lemma reply_to_carries data id w : be_split 2 id = take 2 data → reply_to id w → carries data w.
Proof.
  intros Hid [Hl (b & rest & -> & _)]. split; [done|]. rewrite <- Hid.
  by rewrite take_app_length' by (by rewrite length_be_split).
Qed.
End messages.

(** ** The handlers *)

Section handlers.
  Context {H : Target} {O : HashOrder} {RE : RegexEngine} `{!RegexLaws} {J : Type}
    `{HJ : Json J} `{!JsonLaws J} `{HZ : !JsonZones J} `{!JsonZonesLaws J}.
  Context {W : Type} `{HC : Curl W} `{!CurlLaws W} `{!CurlProgress W}.
  Context (DefaultTtl : Z) (g_Zones : J) (DohOnly : bool) (m_DohQuery_ : Doh.DnsOverHttps).
  Implicit Types (r : Readings) (data : bytes) (s : Server W).

(** The state of the servers at a time: good caches. *)
Definition server_ok (now : Z) s : Prop := cache_clean (m_RegexCache_ s) ∧ DnsCache.cache_ok now (m_DnsCache_ s).

(** The clock does not go backwards. *)
Definition readings_ok (now : Z) r : Prop :=
  (now ≤ now_lookup r ∧ now_lookup r ≤ now_evict r ∧ now_evict r ≤ now_insert r)%Z.

Definition with_fuel (k : nat) r : Readings :=
  {| now_lookup := now_lookup r; now_evict := now_evict r; now_insert := now_insert r;
     shuffled := shuffled r; fuel := k; partial := partial r |}.

(** What a resolver answered. *)
Definition upstream r data n (w : bytes) : Prop :=
  ∃ k out w1 w2, Doh.Resolve k m_DohQuery_ (shuffled r) (Some data) n out w1 = Done (Success, w, w2).

(** The zone data for the name asked for is bad. *)
Definition bad_zone_data r (P : DnsParser) : Prop :=
  DohOnly = false ∧ ∃ c, fst (CheckLocalMatch DefaultTtl g_Zones (partial r) P [] c) = Done (0%Z, []).

Lemma cache_ok_later now now' (c : DnsCache.DnsCache) : (now ≤ now')%Z → DnsCache.cache_ok now c → DnsCache.cache_ok now' c.
Proof.
  intros Hle Hc. replace c with (with_Cache (m_Cache_ c) c) by by destruct c. by apply cache_ok_subset with now.
Qed.

Context (Hpat : patterns_ok g_Zones) (t0 : Z) (r : Readings) (Hr : readings_ok t0 r).
Context (data : bytes) (n : nat) (Hn : n ≤ length data) (P : DnsParser) (HP : DnsParser.construct (Some data) n = Done P).

Abbreviation source := (λ w, carries data w ∨ upstream r data n w ∨ bad_zone_data r P ∧ w = []).

(** The response functions for whole requests, on the parsed request. *)
Lemma kept_carries (m : outcome (Z * bytes)) :
  wp (λ x, reply_to (DnsHeader.Id false (DnsRequestPacket.Header (Packet P))) x.2) m →
  (∀ e, m ≠ Throw e) → ∃ x w, m = Done (x, w) ∧ carries data w.
Proof.
  destruct (parsed_id data n P Hn HP) as (_ & _ & Hid).
  intros Hm Hne. destruct m as [[x w]|e| | |]; [|by destruct (Hne e)|done..]. exists x, w. split; [done|].
  by eapply reply_to_carries.
Qed.

Lemma ErrorResponse_carries rcode out :
  (0 ≤ rcode < 16)%Z → ∃ x w, ErrorResponse rcode (Packet P) out = Done (x, w) ∧ carries data w.
Proof.
  intros Hrc. destruct (parsed_id data n P Hn HP) as (_ & (Hok & q & Hq & _) & _). apply kept_carries.
  - by eapply ErrorResponse_wp.
  - intros e. unfold ErrorResponse. rewrite WriteStandardHeader_Done by (first [apply Hok | done | by split]).
    rewrite bind_done. by destruct (WriteQuestion _ _) as [[] ?].
Qed.

(** The first part: the local zones. *)
Lemma local_runs s :
  server_ok t0 s →
  runs (λ k, if DohOnly then mret (false, []) else
     '(s_Ret, s_Output) ← on_regex (CheckLocalMatch DefaultTtl g_Zones (partial r) P []);
     mret ((s_Ret =? 0)%Z, s_Output)) s
   (λ x s', server_ok t0 s' ∧ (x.1 = true → source x.2)).
Proof.
  intros [Hc Hd]. destruct (parsed_id data n P Hn HP) as (_ & Hok & Hid).
  destruct DohOnly eqn:Eo; [by apply runs_ret|].
  destruct (CheckLocalMatch_steady DefaultTtl g_Zones (partial r) Hpat P Hok []) as ([x w] & Hx & Hm).
  eapply runs_bind with (P := λ y s', y = (x, w) ∧ server_ok t0 s').
  - destruct (Hx _ Hc) as (c' & E & Hc'). eapply runs_done; [|intros k; unfold on_regex; rewrite E; done]. by split.
  - intros y s' [-> Hs']. apply runs_ret. split; [done|]. simpl. intros Hz%Z.eqb_eq. subst x.
    destruct Hm as [[[=]|[_ [Hw|Hw]]]|[=]].
    + left. by eapply reply_to_carries.
    + simpl in Hw. subst w. right. right. split; [|done]. split; [done|]. destruct (Hx _ Hc) as (c' & E & _).
      exists (m_RegexCache_ s). by rewrite E.
Qed.

(** The second part: the cache and the resolvers. *)
Lemma remote_runs q s out :
  DnsRequestPacket.Questions (Packet P) = [q] → server_ok t0 s →
  let s_Qtype := DnsQuestion.Qtype false q in
  runs (λ k,
     '(s_Hit, s_Output) ← Lookup (with_fuel k r) (Domain P) s_Qtype
        (DnsHeader.Id false (DnsRequestPacket.Header (Packet P))) out;
     if s_Hit : bool then mret (true, s_Output) else
     '(s_DohResponse, s_Output) ← Resolve m_DohQuery_ (with_fuel k r) data n s_Output;
     if bool_decide (s_DohResponse = Success) then
       _ ← Insert (with_fuel k r) (Domain P) s_Qtype s_Output; mret (true, s_Output)
     else if negb (bool_decide (s_DohResponse = InvalidInput)) then
       '(_, s_Output) ← lift (SERVFAIL (Packet P) s_Output); mret (true, s_Output)
     else mret (false, s_Output)) s
   (λ x s', server_ok (now_insert r) s' ∧ x.1 = true ∧ source x.2).
Proof.
  intros Hq [Hc Hd] s_Qtype. destruct (parsed_id data n P Hn HP) as (Hn12 & Hok & Hid). destruct Hr as (Hr1 & Hr2 & Hr3).
  apply (cache_ok_later _ (now_lookup r)) in Hd; [|lia].
  eapply runs_bind with (P := λ x s', cache_clean (m_RegexCache_ s') ∧ DnsCache.cache_ok (now_lookup r) (m_DnsCache_ s') ∧
    (x.1 = true → carries data x.2)).
  { set (id := DnsHeader.Id false _).
    destruct (Lookup_returns (now_lookup r) (Domain P) s_Qtype id out _ Hd) as (b & out' & c' & E & _ & m & Hsub & Ec).
    eapply runs_done; [|intros k; unfold Lookup; cbn [with_fuel now_lookup]; rewrite E; done]. cbn [m_RegexCache_ m_DnsCache_ fst snd].
    split; [done|]. split; [rewrite Ec; by apply cache_ok_subset with (now_lookup r)|]. intros ->.
    destruct (m_Cache_ (m_DnsCache_ s) !! (ToLower (Domain P), s_Qtype)) as [e|] eqn:Ek.
    2: { unfold DnsCache.Lookup in E. rewrite Ek in E. by injection E. }
    destruct (expired (now_lookup r) e) eqn:Ex.
    { unfold DnsCache.Lookup in E. rewrite Ek, Ex in E. by injection E. }
    pose proof Hd as (_ & _ & Hent). specialize (Hent _ _ Ek).
    destruct (Lookup_hit _ _ _ id out _ e Hent Ek Ex) as (out'' & E' & _ & Hl & Ht & _).
    rewrite E in E'. injection E' as <- _. destruct Hent as (_ & Hl12 & _). split; [lia|].
    apply (f_equal (take 2)) in Ht. rewrite take_take in Ht. simpl Nat.min in Ht. rewrite Ht.
    by rewrite take_app_length' by (by rewrite length_be_split). }
  intros [hit out1] s1 (Hc1 & Hd1 & Hhit). simpl in Hhit. destruct hit.
  { apply runs_ret. split; [split; [done|]|]; [|split; [done|left; by apply Hhit]].
    apply cache_ok_later with (now_lookup r); [lia|done]. }
  eapply runs_bind with (P := λ x s', cache_clean (m_RegexCache_ s') ∧ DnsCache.cache_ok (now_lookup r) (m_DnsCache_ s') ∧
    x.1 ≠ InvalidInput ∧ (x.1 = Success → upstream r data n x.2)).
  { destruct (Resolve_returns m_DohQuery_ (shuffled r) (Some data) n out1 (m_World s1)) as (bound & res & out' & w' & Hk & Hi & _).
    { by intros d [= <-]. }
    exists bound, (res, out'). eexists. split; [|intros k Hle; unfold Resolve; cbn [with_fuel fuel shuffled]; rewrite Hk by done; done].
    cbn [m_RegexCache_ m_DnsCache_ fst snd]. split_and!; [done|done| |].
    - intros E%Hi. destruct E as [?|?]; [done|lia].
    - intros ->. exists bound, out1, (m_World s1), w'. by apply Hk. }
  intros [res out2] s2 (Hc2 & Hd2 & Hi & Hup). simpl in Hi, Hup. destruct (bool_decide_reflect (res = Success)) as [->|Hns].
  - eapply runs_bind with (P := λ _ s', server_ok (now_insert r) s').
    + destruct (ExtractMinTtl_range out2 (length out2) (le_n _)) as (ttl & Et & _).
      destruct (decide (12 ≤ length out2 ∧ ttl ≠ 0%Z)) as [[Hl Ht]|Hnc].
      * destruct (Insert_cacheable (now_lookup r) (now_evict r) (now_insert r) (Domain P) s_Qtype out2 _ ttl Hd2 ltac:(lia))
          as (c1 & E1 & Hok1 & _); [done|].
        eapply runs_done; [|intros k; unfold Insert; cbn [with_fuel now_evict now_insert]; rewrite E1; done]. by split.
      * assert (E1 := Insert_uncacheable (now_evict r) (now_insert r) (Domain P) s_Qtype out2 (m_DnsCache_ s2)).
        assert (Hno : ∀ t, ¬ cacheable out2 t).
        { intros t' (? & E' & ?). apply Hnc. rewrite Et in E'. by simplify_eq. }
        eapply runs_done; [|intros k; unfold Insert; cbn [with_fuel now_evict now_insert]; rewrite E1 by done; done].
        split; [done|]. cbn [m_DnsCache_]. apply cache_ok_later with (now_lookup r); [lia|done].
    + intros _ s3 Hs3. apply runs_ret. split; [done|]. split; [done|]. right. left. by apply Hup.
  - rewrite bool_decide_eq_false_2 by done. cbn [negb].
    destruct (ErrorResponse_carries DNS_RCODE_SERVFAIL out2) as (x & w & E & Hw); [by split|].
    eapply runs_bind with (P := λ y s', y = (x, w) ∧ s' = s2).
    + eapply runs_done; [|intros k; unfold lift, SERVFAIL; rewrite E; done]. done.
    + intros y s3 [-> ->]. apply runs_ret. split; [split; [done|]|]; [|split; [done|by left]].
      apply cache_ok_later with (now_lookup r); [lia|done].
Qed.

Lemma answer_runs s :
  server_ok t0 s →
  runs (λ k, answer DefaultTtl g_Zones DohOnly m_DohQuery_ (with_fuel k r) data n P []) s
    (λ w s', server_ok (now_insert r) s' ∧ source w).
Proof.
  intros Hs. destruct (parsed_id data n P Hn HP) as (_ & (_ & q & Hq & _) & _).
  unfold answer. eapply runs_bind; [exact (local_runs s Hs)|]. intros [found out] s1 [Hs1 Hl]. simpl in Hl.
  destruct found.
  - eapply runs_bind with (P := λ x s', x = (true, out) ∧ s' = s1); [by apply runs_ret|].
    intros ? ? [-> ->]. apply runs_ret. split; [|by apply Hl]. destruct Hs1 as [Hc Hd], Hr as (?&?&?). split; [done|].
    apply cache_ok_later with t0; [lia|done].
  - eapply runs_bind.
    + eapply runs_bind with (P := λ q' s', q' = q ∧ s' = s1).
      * eapply runs_lift with (P := λ q', q' = q); [|by intros ? ->]. exists q. split; [|done]. unfold FirstQuestion, Packet.
        by rewrite Hq.
      * intros ? ? [-> ->]. exact (remote_runs q s1 out Hq Hs1).
    + intros [found w] s2 (Hs2 & Hf & Hw). simpl in Hf, Hw. subst found. apply runs_ret. by split.
Qed.

(** *** Errors *)

Definition nothrow {A} (m : outcome A) : Prop := ∀ e, m ≠ Throw e.

Lemma nothrow_bind {A B} (m : outcome A) (f : A → outcome B) : nothrow m → (∀ a, nothrow (f a)) → nothrow (m ≫= f).
Proof. intros Hm Hf. destruct m as [a|e| | |]; [apply Hf|by destruct (Hm e)|done..]. Qed.

Lemma nothrow_write w i v : nothrow (WriteUint16 w i v).
Proof. intros e. unfold WriteUint16, assert_, store_n. by destruct (_ || _), (_ <=? _). Qed.

Lemma nothrow_load w i k : nothrow (load_n w i k).
Proof. intros e. unfold load_n. by destruct (_ <=? _). Qed.

#[local] Ltac nothrow_tac :=
  repeat first
    [ done | apply nothrow_write | apply nothrow_load
    | match goal with
      | |- nothrow (_ ≫= _) => apply nothrow_bind; [|intros ?]
      | |- nothrow (if ?b then _ else _) => destruct b
      | |- nothrow (let '(_, _) := ?m in _) => destruct m
      | |- nothrow (let s := _ in _) => cbv zeta
      end ].

Lemma nothrow_opt w ext e : nothrow (AppendOpt w ext e).
Proof. intros x. destruct (AppendOpt_any w ext e) as (w' & -> & _). done. Qed.

Lemma nothrow_header p rcode an ns ar aa : nothrow (WriteStandardHeader p rcode an ns ar aa).
Proof. unfold WriteStandardHeader. cbv zeta. nothrow_tac. Qed.

Lemma nothrow_errors p out e :
  nothrow (FORMERR_OPT p out e) ∧ nothrow (BADVERS p out e) ∧ nothrow (NOTIMP p out).
Proof.
  split_and!.
  - unfold FORMERR_OPT, FORMERR. cbv zeta. apply nothrow_bind.
    + apply nothrow_bind; [apply nothrow_header|intros ?]. nothrow_tac.
    + intros [x w]. destruct (_ =? _)%Z; [|done]. apply nothrow_bind; [apply nothrow_opt|done].
  - unfold BADVERS. apply nothrow_bind; [apply nothrow_header|intros ?]. destruct (WriteQuestion _ _) as [[] ?]; [|done].
    apply nothrow_bind; [apply nothrow_opt|done].
  - unfold NOTIMP, ErrorResponse. apply nothrow_bind; [apply nothrow_header|intros ?]. by destruct (WriteQuestion _ _) as [[] ?].
Qed.

Lemma early_error_cases :
  early_error (Packet P) [] = Done None ∨ ∃ w, early_error (Packet P) [] = Done (Some w) ∧ carries data w.
Proof.
  destruct (parsed_id data n P Hn HP) as (_ & (Hok & q & Hq & _) & _).
  change (m_ParsedPacket_ P) with (Packet P) in Hok, Hq. unfold early_error. cbv zeta.
  set (e := DnsRequestPacket.Edns (Packet P)). set (st := DnsRequestPacket.EdnsStatus (Packet P)).
  destruct (nothrow_errors (Packet P) [] e) as (N1 & N2 & N3).
  destruct (_ || _).
  { right. destruct (kept_carries _ (FORMERR_OPT_wp _ q [] Hok Hq [] e) N1) as (x & w & -> & Hw). by exists w. }
  destruct (bool_decide (st = EdnsBadVersion)).
  { right. destruct (kept_carries _ (BADVERS_wp _ q [] Hok Hq [] e) N2) as (x & w & -> & Hw). by exists w. }
  destruct (negb _); [|by left]. right.
  destruct (ErrorResponse_carries DNS_RCODE_NOTIMP []) as (x & w & E & Hw); [by split|].
  unfold NOTIMP. rewrite E, bind_done. destruct (bool_decide (st = EdnsOk)); [|by exists w].
  destruct (AppendOpt_any w 0 e) as (w' & -> & Hw'). exists w'. split; [done|]. destruct Hw as [Hl Ht].
  destruct (Hw' Hl) as [Hl' Ht']. by split; [|rewrite Ht'].
Qed.
End handlers.

Section queries.
  Context {H : Target} {O : HashOrder} {RE : RegexEngine} `{!RegexLaws} {J : Type}
    `{HJ : Json J} `{!JsonLaws J} `{HZ : !JsonZones J} `{!JsonZonesLaws J}.
  Context {W : Type} `{HC : Curl W} `{!CurlLaws W} `{!CurlProgress W}.
  Context (DefaultTtl : Z) (g_Zones : J) (DohOnly : bool) (m_DohQuery_ : Doh.DnsOverHttps).
  Implicit Types (r : Readings) (data : bytes) (s : Server W).

(** What is sent for a query: a message with its identifier, or what a resolver answered,
    or, when the zone data is bad, what finishing the empty output gives. *)
Definition sent (finish : EdnsParseStatus → option EdnsData → bytes → outcome bytes) r data n (o : option bytes) : Prop :=
  (∃ w, o = Some w ∧ carries data w) ∨
  ∃ P body w, DnsParser.construct (Some data) n = Done P ∧
    finish (DnsRequestPacket.EdnsStatus (Packet P)) (DnsRequestPacket.Edns (Packet P)) body = Done w ∧ o = Send w ∧
    (upstream (HC:=HC) m_DohQuery_ r data n body ∨ bad_zone_data DefaultTtl g_Zones DohOnly r P ∧ body = []).

Lemma Send_carries data w : carries data w → Send w = Some w.
Proof. intros [Hl _]. by destruct w; [simpl in Hl; lia|]. Qed.

Lemma handle_runs finish t0 r data n s :
  finishes finish → patterns_ok g_Zones → readings_ok t0 r → 12 ≤ n → n ≤ length data → server_ok t0 s →
  runs (λ k, handle DefaultTtl g_Zones DohOnly m_DohQuery_ finish (with_fuel k r) data n) s
    (λ o s', server_ok (now_insert r) s' ∧ sent finish r data n o).
Proof.
  intros Hf Hpat Hr Hn12 Hn Hs. unfold handle.
  assert (Hs' : server_ok (now_insert r) s).
  { destruct Hs as [Hc Hd], Hr as (?&?&?). split; [done|]. apply cache_ok_later with t0; [lia|done]. }
  destruct (DnsParser.construct (Some data) n) as [P|e| | |] eqn:EP.
  - eapply runs_bind with (P := λ o s', s' = s ∧ (o = None ∨ ∃ w, o = Some w ∧ carries data w)).
    { destruct (early_error_cases data n Hn P EP) as [E|(w & E & Hw)]; rewrite E.
      - eapply runs_done; [|done]. split; [done|by left].
      - eapply runs_done; [|done]. split; [done|right; by exists w]. }
    intros o s1 [-> [->|(w & -> & Hw)]].
    + eapply runs_bind.
      { exact (answer_runs DefaultTtl g_Zones DohOnly m_DohQuery_ Hpat t0 r Hr data n Hn P EP s Hs). }
      intros body s2 [Hs2 Hb]. destruct (Hf (DnsRequestPacket.EdnsStatus (Packet P)) (DnsRequestPacket.Edns (Packet P)) body) as (w & Ew & Hw).
      eapply runs_bind with (P := λ w' s', w' = w ∧ s' = s2); [rewrite Ew; by eapply runs_done|].
      intros ? ? [-> ->]. apply runs_ret. split; [done|]. destruct Hb as [[Hl Ht]|Hb].
      * left. destruct (Hw Hl) as [Hl' Ht']. assert (Hc : carries data w) by (split; [done|by rewrite Ht']).
        exists w. split; [by eapply Send_carries|done].
      * right. by exists P, body, w.
    + apply runs_ret. split; [done|]. left. exists w. split; [by eapply Send_carries|done].
  - eapply runs_bind with (P := λ x s', s' = s ∧ carries data x.2).
    + change (CallResponseFunction_raw (str "FORMERR") (Some data) n []) with (FORMERR_raw (Some data) n []).
      rewrite FORMERR_raw_eq by (by intros d [= <-]). eapply runs_done; [|done]. split; [done|]. cbn [snd].
      rewrite memory_of_fields by (apply raw_fields_ok; left; done). split; [done|].
      unfold DnsHeader.wire. rewrite take_app_length' by (by rewrite length_be_split). cbn [raw_fields]. unfold raw_id.
      destruct (Nat.leb_spec 2 n); [|lia]. by rewrite be_split_join_len by (rewrite length_take; lia).
    + intros [x w] s1 [-> Hw]. simpl in Hw. apply runs_ret. split; [done|]. left. exists w.
      split; [by eapply Send_carries|done].
  - exfalso. rewrite construct_Done in EP by done. repeat case_match; done.
  - exfalso. rewrite construct_Done in EP by done. repeat case_match; done.
  - exfalso. rewrite construct_Done in EP by done. repeat case_match; done.
Qed.

(** C1: every datagram is answered: the handler of a datagram of 12 to 512 bytes, whatever
    they are, ends once the transfers have enough fuel, in a good state of the server,
    and sends exactly one message of at least 12 bytes with the datagram's identifier,
    unless it relays what a resolver answered or the zone data for the name is bad (then
    what is sent is whatever finishing the resolver's answer, or nothing, gives); shorter
    and longer datagrams are dropped. *)
Theorem datagram_answered t0 r data n s :
  patterns_ok g_Zones → readings_ok t0 r → n ≤ length data → server_ok t0 s →
  let receive k := UdpReceive DefaultTtl g_Zones DohOnly m_DohQuery_ (with_fuel k r) data n s in
  (12 ≤ n → n ≤ DEFAULT_DNS_PACKET_SIZE →
     ∃ bound o s', (∀ k, bound ≤ k → receive k = (Done o, s')) ∧ server_ok (now_insert r) s' ∧ sent FinishUdp r data n o) ∧
  (n < 12 ∨ DEFAULT_DNS_PACKET_SIZE < n → ∀ k, receive k = (Done None, s)).
Proof.
  intros Hpat Hr Hn Hs receive. unfold receive, UdpReceive, DNS_MIN_PACKET_SIZE, HeaderSize. split.
  - intros H12 H512. destruct (Nat.eqb_spec n 0); [lia|]. destruct (Nat.ltb_spec n 12); [lia|].
    destruct (Nat.ltb_spec DEFAULT_DNS_PACKET_SIZE n); [lia|].
    destruct (handle_runs FinishUdp t0 r data n s FinishUdp_finishes Hpat Hr H12 Hn Hs) as (b & o & s' & [Hs' Ho] & Hk).
    by exists b, o, s'.
  - intros Hb k. destruct (Nat.eqb_spec n 0); [done|]. destruct (Nat.ltb_spec n 12); [done|].
    destruct (Nat.ltb_spec DEFAULT_DNS_PACKET_SIZE n); [done|lia].
Qed.

(** ** TCP sessions *)

Lemma length_bytes z :
  (0 ≤ z < 65536)%Z →
  Z.lor (Z.shiftl (u8 (ch (Z.land (Z.shiftr z 8) 0xFF))) 8) (u8 (ch (Z.land z 0xFF))) = z.
Proof.
  intros Hz. pose proof (Z.mod_pos_bound z 256 ltac:(lia)). pose proof (Z.div_mod z 256 ltac:(lia)).
  rewrite !land_255, !u8_ch, !Z.mod_mod by done. rewrite Z.shiftr_div_pow2 by done. change (2 ^ 8)%Z with 256%Z.
  rewrite (Z.mod_small (z / 256)) by lia.
  rewrite (lor_shiftl (z / 256) (z mod 256) 8) by (change (2 ^ 8)%Z with 256%Z; lia). change (2 ^ 8)%Z with 256%Z. lia.
Qed.

(** The length a session reads is that of the message, below 64 KiB. *)
Lemma frame_length (m : bytes) :
  (Z.of_nat (length m) ≤ 65535)%Z →
  Z.to_nat (Z.lor (Z.shiftl (u8 (ch (Z.land (Z.shiftr (Z.of_nat (length m)) 8) 0xFF))) 8)
              (u8 (ch (Z.land (Z.of_nat (length m)) 0xFF)))) = length m.
Proof. intros Hl. rewrite length_bytes by lia. lia. Qed.

(** Bytes at which a session stops: no complete query is left. *)
Definition no_query (rest : bytes) : Prop :=
  match rest with
  | b0 :: b1 :: s =>
      let l := Z.to_nat (Z.lor (Z.shiftl (u8 b0) 8) (u8 b1)) in l < DNS_MIN_PACKET_SIZE ∨ length s < l
  | _ => True
  end.

(** The clock over several queries. *)
Fixpoint clock_ok (now : Z) (rs : list Readings) : Prop :=
  match rs with [] => True | r :: rs => readings_ok now r ∧ clock_ok (now_insert r) rs end.

Definition last_time (now : Z) (rs : list Readings) : Z := from_option now_insert now (list.last rs).

Lemma last_time_cons now r rs : last_time now (r :: rs) = last_time (now_insert r) rs.
Proof. unfold last_time. rewrite last_cons. by destruct (list.last rs). Qed.

Abbreviation session rs input := (TcpSession DefaultTtl g_Zones DohOnly m_DohQuery_ rs input).
Abbreviation written o := (match o with Some w => TcpFrame w | None => [] end).

Lemma session_stops rs rest s : no_query rest → session rs rest s = (Done [], s).
Proof.
  intros Hs. destruct rs as [|r rs], rest as [|b0 [|b1 rest]]; try done. cbn [TcpSession]. cbv zeta. cbn [no_query] in Hs.
  destruct (Nat.ltb_spec (Z.to_nat (Z.lor (Z.shiftl (u8 b0) 8) (u8 b1))) DNS_MIN_PACKET_SIZE); [done|].
  destruct (Nat.ltb_spec (length rest) (Z.to_nat (Z.lor (Z.shiftl (u8 b0) 8) (u8 b1)))); [done|]. cbv zeta in Hs. lia.
Qed.

(** One query of a session. *)
Lemma message_runs r m t0 s :
  patterns_ok g_Zones → readings_ok t0 r → 12 ≤ length m → server_ok t0 s →
  runs (λ k, TcpMessage DefaultTtl g_Zones DohOnly m_DohQuery_ (with_fuel k r) m) s
    (λ out s', server_ok (now_insert r) s' ∧ ∃ o, out = written o ∧ sent FinishTcp r m (length m) o).
Proof.
  intros Hpat Hr Hm Hs.
  eapply runs_bind; [exact (handle_runs FinishTcp t0 r m (length m) s FinishTcp_finishes Hpat Hr Hm (le_n _) Hs)|].
  intros o s1 [Hs1 Ho]. apply runs_ret. split; [done|]. by exists o.
Qed.

Lemma session_runs ms : ∀ rs rest t0 s,
  patterns_ok g_Zones → Forall (λ m, 12 ≤ length m ∧ (Z.of_nat (length m) ≤ 65535)%Z) ms → length rs = length ms → clock_ok t0 rs →
  no_query rest → server_ok t0 s →
  runs (λ k, session (with_fuel k <$> rs) (concat (TcpFrame <$> ms) ++ rest)) s (λ out s',
    server_ok (last_time t0 rs) s' ∧
    ∃ os, out = concat ((λ o, written o) <$> os) ∧ length os = length ms ∧
      ∀ i r m o, rs !! i = Some r → ms !! i = Some m → os !! i = Some o → sent FinishTcp r m (length m) o).
Proof.
  induction ms as [|m ms IH]; intros rs rest t0 s Hpat Hms Hl Ht Hrest Hs.
  - destruct rs as [|r rs]; [|done]. eapply runs_done; [|intros k; by apply session_stops]. split; [done|]. by exists [].
  - destruct rs as [|r rs]; [done|]. inversion_clear Hms as [|? ? Hm Hms']. destruct Ht as [Hr Ht]. injection Hl as Hl.
    assert (Estep : ∀ k, session (with_fuel k <$> (r :: rs)) (concat (TcpFrame <$> (m :: ms)) ++ rest) =
      (s_Out ← TcpMessage DefaultTtl g_Zones DohOnly m_DohQuery_ (with_fuel k r) m;
       s_Rest ← session (with_fuel k <$> rs) (concat (TcpFrame <$> ms) ++ rest); mret (s_Out ++ s_Rest))).
    { intros k. rewrite !fmap_cons. cbn [concat]. unfold TcpFrame at 1. rewrite <- app_assoc. cbn [TcpSession app]. cbv zeta.
      rewrite frame_length by lia. unfold DNS_MIN_PACKET_SIZE, HeaderSize.
      destruct (Nat.ltb_spec (length m) 12); [lia|].
      destruct (Nat.ltb_spec (length (m ++ concat (TcpFrame <$> ms) ++ rest)) (length m)) as [Hx|_]; [rewrite length_app in Hx; lia|].
      by rewrite take_app_length, drop_app_length. }
    apply runs_mono with (P := λ out s', server_ok (last_time t0 (r :: rs)) s' ∧
      ∃ o os, out = written o ++ concat ((λ o, written o) <$> os) ∧ length os = length ms ∧ sent FinishTcp r m (length m) o ∧
      ∀ i r m o, rs !! i = Some r → ms !! i = Some m → os !! i = Some o → sent FinishTcp r m (length m) o).
    + pose proof (message_runs r m t0 s Hpat Hr (proj1 Hm) Hs) as Hmsg.
      pose proof (runs_bind _ (λ k out, s_Rest ← session (with_fuel k <$> rs) (concat (TcpFrame <$> ms) ++ rest); mret (out ++ s_Rest))
        s _ (λ out s', server_ok (last_time t0 (r :: rs)) s' ∧
          ∃ o os, out = written o ++ concat ((λ o, written o) <$> os) ∧ length os = length ms ∧ sent FinishTcp r m (length m) o ∧
          ∀ i r m o, rs !! i = Some r → ms !! i = Some m → os !! i = Some o → sent FinishTcp r m (length m) o) Hmsg) as Hall.
      destruct Hall as (b & out & s' & Hp & Hk).
      { intros out s1 (Hs1 & o & -> & Ho).
        eapply runs_bind; [exact (IH rs rest (now_insert r) s1 Hpat Hms' Hl Ht Hrest Hs1)|].
        intros out s2 (Hs2 & os & -> & Hlo & Hos). apply runs_ret. rewrite last_time_cons. split; [done|]. by exists o, os. }
      exists b, out, s'. split; [exact Hp|]. intros k Hle. rewrite Estep. by apply Hk.
    + intros out s' (Hs' & o & os & -> & Hlo & Ho & Hos). split; [done|]. exists (o :: os). split_and!; [done|simpl; lia|].
      intros i r' m' o' E1 E2 E3. destruct i as [|i]; [|by eapply Hos].
      cbn in E1, E2, E3. injection E1 as <-. injection E2 as <-. injection E3 as <-. exact Ho.
Qed.

(** A TCP session answers the queries its client sends, each after its length in two
    bytes, in order: for messages of 12 to 65535 bytes it ends once the transfers have
    enough fuel, in a good state of the server, having written for each of them, in the
    same order, the framed message that answers it (with its identifier, unless a resolver's
    answer is relayed or the zone data is bad); it stops at bytes that are no complete
    query; and a framed answer of at most 65535 bytes is unframed by its length. *)
Theorem tcp_session_answered ms rs rest t0 s :
  patterns_ok g_Zones → Forall (λ m, 12 ≤ length m ∧ (Z.of_nat (length m) ≤ 65535)%Z) ms → length rs = length ms → clock_ok t0 rs →
  no_query rest → server_ok t0 s →
  (∃ bound os s',
    (∀ k, bound ≤ k →
       TcpSession DefaultTtl g_Zones DohOnly m_DohQuery_ (with_fuel k <$> rs) (concat (TcpFrame <$> ms) ++ rest) s =
         (Done (concat ((λ o, match o with Some w => TcpFrame w | None => [] end) <$> os)), s')) ∧
    server_ok (last_time t0 rs) s' ∧ length os = length ms ∧
    ∀ i r m o, rs !! i = Some r → ms !! i = Some m → os !! i = Some o → sent FinishTcp r m (length m) o) ∧
  (∀ w, (Z.of_nat (length w) ≤ 65535)%Z → ∃ b0 b1, TcpFrame w = b0 :: b1 :: w ∧
     Z.to_nat (Z.lor (Z.shiftl (u8 b0) 8) (u8 b1)) = length w).
Proof.
  intros Hpat Hms Hl Ht Hrest Hs. split.
  - destruct (session_runs ms rs rest t0 s Hpat Hms Hl Ht Hrest Hs) as (b & out & s' & (Hs' & os & -> & Hlo & Hos) & Hk).
    by exists b, os, s'.
  - intros w Hw. do 2 eexists. split; [reflexivity|]. by apply frame_length.
Qed.
End queries.

(** ** Examples *)

Section examples.
  #[local] Existing Instance x86_64.
  #[local] Existing Instance key_order.

Definition example_readings : Readings :=
  {| now_lookup := 1; now_evict := 2; now_insert := 3; shuffled := m_Resolvers_ example_client; fuel := 0; partial := [] |}.

Definition example_server : Server network :=
  {| m_RegexCache_ := ∅; m_DnsCache_ := DnsCache.make 2; m_World := example_network |}.

Lemma example_server_ok : server_ok 0 example_server.
Proof.
  split; [apply empty_cache_clean|]. split_and!; simpl; [lia|apply Nat.le_0_l|]. intros k e He. by rewrite lookup_empty in He.
Qed.

Lemma example_readings_ok : readings_ok 0 example_readings.
Proof. split_and!; simpl; lia. Qed.

Definition example_datagram : bytes := DnsRequestPacket.example_query.

Lemma datagram_answered_witness :
  ∃ bound o s', ∀ k, bound ≤ k →
    UdpReceive 3600 example_zones false example_client (with_fuel k example_readings) example_datagram 34 example_server
      = (Done o, s').
Proof.
  destruct (datagram_answered 3600 example_zones false example_client 0 example_readings example_datagram 34 example_server
    example_patterns_ok example_readings_ok ltac:(simpl; lia) example_server_ok) as [Hd _].
  destruct (Hd ltac:(lia) ltac:(unfold DEFAULT_DNS_PACKET_SIZE; lia)) as (b & o & s' & Hk & _).
  by exists b, o, s'.
Defined.

Lemma tcp_session_answered_witness :
  ∃ bound os s', ∀ k, bound ≤ k →
    TcpSession 3600 example_zones false example_client (with_fuel k <$> [example_readings])
      (concat (TcpFrame <$> [example_datagram]) ++ []) example_server =
      (Done (concat ((λ o, match o with Some w => TcpFrame w | None => [] end) <$> os)), s').
Proof.
  destruct (tcp_session_answered 3600 example_zones false example_client [example_datagram] [example_readings] [] 0 example_server
    example_patterns_ok) as [(b & os & s' & Hk & _) _].
  - constructor; [simpl; lia|constructor].
  - done.
  - by split; [apply example_readings_ok|].
  - done.
  - apply example_server_ok.
  - by exists b, os, s'.
Defined.
End examples.
