(* ===== verification/CachedAnswers.v ===== *)
(** * Relayed once, answered from the cache afterwards

    The cache, the resolvers and the handlers of [Server] put together: a query that no zone
    and no cached response answers is relayed, and what the resolver answered is kept; until
    its smallest TTL has passed, and as long as the cache has room for what is stored in
    between, a query for the same name and type, by whichever server
    and whatever was asked in between, is answered from it without a transfer. *)

From Stdlib Require Import ZArith Lia.
From Stdlib Require Import Strings.Byte Strings.String.
From stdpp Require Import base numbers list option sets gmap.
From S2P Require Import Prelude.
From S2P Require Import Stateful.
From S2P Require Import Memory.
From S2P Require Import Text.
From S2P Require Import Utils.
From S2P Require Import Name.
From S2P Require Import DnsHeader.
From S2P Require Import DnsQuestion.
From S2P Require Import DnsRequestPacket.
From S2P Require Import DnsResponsePacket.
From S2P Require Import DnsCache.
From S2P Require Import DnsResponse.
From S2P Require Import ResponseFacts.
From S2P Require Import SampleJson.
From S2P Require Import WholeResponses.
From S2P Require Import ResponseSafety.
From S2P Require Import Doh.
From S2P Require Import DnsParser.
From S2P Require Import LocalDns.
From S2P Require Import SampleRegex.
From S2P Require Import LocalFacts.
From S2P Require Import Server.
From S2P Require Import ServerFacts.

Section cached.
  Context {H : Target} {O : HashOrder} {RE : RegexEngine} `{!RegexLaws} {J : Type}
    `{HJ : Json J} `{!JsonLaws J} `{HZ : !JsonZones J} `{!JsonZonesLaws J}.
  Context {W : Type} `{HC : Curl W} `{!CurlLaws W} `{!CurlProgress W}.
  Context (DefaultTtl : Z) (g_Zones : J) (DohOnly : bool) (m_DohQuery_ : Doh.DnsOverHttps).
  Implicit Types (r : Readings) (data out w : bytes) (s : Server W) (p : DnsResponsePacket) (e : CacheEntry).

Abbreviation handle := (handle DefaultTtl g_Zones DohOnly m_DohQuery_).
Abbreviation answer := (answer DefaultTtl g_Zones DohOnly m_DohQuery_).
Abbreviation CheckLocalMatch := (CheckLocalMatch DefaultTtl g_Zones).

(** A query that reaches the search for an answer. *)
Definition asks data n (P : DnsParser) : Prop :=
  n ≤ length data ∧ DnsParser.construct (Some data) n = Done P ∧ early_error (Packet P) [] = Done None.

(** The zones have no answer to it; what is left of the output then. *)
Definition no_local r P out : Prop :=
  if DohOnly then out = []
  else ∃ c c', cache_clean c ∧ CheckLocalMatch (partial r) P [] c = (Done ((-1)%Z, out), c').

(** The key of its answer in the cache. *)
Definition key P : CacheKey :=
  (ToLower (Domain P), match DnsRequestPacket.Questions (Packet P) with q :: _ => DnsQuestion.Qtype false q | [] => 0%Z end).

Definition entries s : gmap CacheKey CacheEntry := m_Cache_ (m_DnsCache_ s).

Definition with_regex c s : Server W := {| m_RegexCache_ := c; m_DnsCache_ := m_DnsCache_ s; m_World := m_World s |}.

(** ** One query *)

(** What [answer] does when the zones have no answer. *)
Definition remote r data n P out : stateful (Server W) bytes :=
  '(s_Hit, s_Output) ← Lookup r (Domain P) (key P).2 (DnsHeader.Id false (DnsRequestPacket.Header (Packet P))) out;
  if s_Hit : bool then mret s_Output else
  '(s_DohResponse, s_Output) ← Resolve m_DohQuery_ r data n s_Output;
  if bool_decide (s_DohResponse = Success) then _ ← Insert r (Domain P) (key P).2 s_Output; mret s_Output
  else if negb (bool_decide (s_DohResponse = InvalidInput)) then
    '(_, s_Output) ← lift (SERVFAIL (Packet P) s_Output); mret s_Output
  else '(_, s_Output) ← lift (NXDOMAIN DefaultTtl (Packet P) s_Output []); mret s_Output.

Lemma asks_ok data n P :
  asks data n P → parser_ok P ∧ ∃ q, DnsRequestPacket.Questions (Packet P) = [q].
Proof.
  intros (Hn & HP & _). destruct (parsed_id data n P Hn HP) as (_ & Hok & _). split; [done|].
  destruct Hok as (_ & q & Hq & _). by exists q.
Qed.

Lemma id_uint16 P : parser_ok P → uint16 (DnsHeader.Id false (DnsRequestPacket.Header (Packet P))).
Proof. intros [[Hw _] _]. exact (DnsHeader.view_range false _ Hw DnsHeader.FId). Qed.

Lemma answer_remote r data n P out s :
  patterns_ok g_Zones → asks data n P → no_local r P out → cache_clean (m_RegexCache_ s) →
  ∃ c, cache_clean c ∧ ∀ k, answer (with_fuel k r) data n P [] s = remote (with_fuel k r) data n P out (with_regex c s).
Proof.
  intros Hpat Hask Hno Hc. destruct (asks_ok _ _ _ Hask) as [Hok [q Hq]].
  assert (∃ c, cache_clean c ∧ (if DohOnly then mret (false, []) else
     '(s_Ret, s_Output) ← on_regex (CheckLocalMatch (partial r) P []);
     mret ((s_Ret =? 0)%Z, s_Output)) s = (Done (false, out), with_regex c s)) as (c & Hc' & E).
  { unfold no_local in Hno. destruct DohOnly; [exists (m_RegexCache_ s); split; [done|]; subst out; by destruct s|].
    destruct Hno as (c0 & c0' & Hc0 & E0).
    destruct (CheckLocalMatch_steady DefaultTtl g_Zones (partial r) Hpat P Hok []) as (x & Hx & _).
    destruct (Hx c0 Hc0) as (c1 & E1 & _). rewrite E0 in E1. injection E1 as <- <-.
    destruct (Hx _ Hc) as (c & E & Hc'). exists c. split; [done|]. unfold mbind, stateful_mbind, on_regex. by rewrite E. }
  exists c. split; [done|]. intros k. unfold Server.answer. cbn [with_fuel partial]. rewrite (stateful_bind_Done _ _ _ _ _ E).
  unfold FirstQuestion. rewrite Hq. unfold remote, key. rewrite Hq. cbn [snd]. unfold mbind, stateful_mbind, mret, stateful_mret, lift.
  destruct (Lookup _ _ _ _ out _) as [[[[] w]|ex| | |] s1]; try done.
  destruct (Resolve _ _ _ _ _ s1) as [[[res w']|ex| | |] s2]; try done.
  destruct (bool_decide (res = Success)).
  - destruct (Insert _ _ _ _ _) as [[[]|ex| | |] s3]; done.
  - destruct (negb _).
    + destruct (SERVFAIL _ _) as [[x w'']|ex| | |]; done.
    + destruct (NXDOMAIN _ _ _ _) as [[x w'']|ex| | |]; done.
Qed.

(** *** The cached response *)

(** The bytes [w] that a resolver answered with, which hold the response [p], stored at [t]. *)
Definition cached w p (t : Z) : CacheEntry :=
  {| response := w; insert_time := t; min_ttl := smallest_ttl (records p) |}.

(** Bytes that hold a response, whatever compression its names use, that can be kept. *)
Definition relayable w p : Prop :=
  response_at w (length w) p ∧ (Z.of_nat (length (records p)) ≤ UINT16_MAX)%Z ∧ (0 < smallest_ttl (records p))%Z.

(** The kept bytes when they are sent again: the query's identifier, and the seconds since
    taken off every record's TTL where it stands. *)
Definition aged (e id : Z) w p (ns : list nat) : bytes := aged_bytes e (splice w 0 (be_split 2 id)) (records p) ns.

(** What stands in the cache does not answer the query. *)
Definition missing (now : Z) (k : CacheKey) s : Prop := match entries s !! k with Some e => expired now e = true | None => True end.

Lemma relayable_cacheable w p : relayable w p → cacheable w (smallest_ttl (records p)).
Proof.
  intros (Hat & Hrec & Hpos). split_and!; [by destruct Hat|by apply ExtractMinTtl_accepted|lia].
Qed.

Lemma Lookup_missing r d q id out s :
  DnsCache.cache_ok (now_lookup r) (m_DnsCache_ s) → missing (now_lookup r) (ToLower d, q) s →
  ∃ m, m ⊆ entries s ∧
    Lookup r d q id out s =
      (Done (false, out), {| m_RegexCache_ := m_RegexCache_ s; m_DnsCache_ := with_Cache m (m_DnsCache_ s); m_World := m_World s |}).
Proof.
  intros Hok Hm. pose proof (Lookup_spec (now_lookup r) d q id out _ Hok) as Hs. unfold missing, entries, Lookup in *.
  destruct (m_Cache_ (m_DnsCache_ s) !! _) as [e|].
  - rewrite Hm in Hs. eexists. split; [|by rewrite Hs]. apply delete_subseteq.
  - exists (m_Cache_ (m_DnsCache_ s)). split; [done|]. rewrite Hs. by destruct (m_DnsCache_ s).
Qed.

Lemma Lookup_cached r d q id out w p ns t s :
  relayable w p → places w p ns → DnsCache.cache_ok (now_lookup r) (m_DnsCache_ s) →
  entries s !! (ToLower d, q) = Some (cached w p t) →
  let e := Z.quot (now_lookup r - t) 1000000000 in
  (e < smallest_ttl (records p))%Z →
  Lookup r d q id out s = (Done (true, aged e id w p ns), s).
Proof.
  intros (Hp & Hrec & _) Hns Hok Hk e He. unfold Lookup.
  rewrite (Lookup_accepted (now_lookup r) d q id w p ns t out _ Hp Hns Hrec Hok Hk He). by destruct s.
Qed.

(** Relaying: what the resolver answered is sent, and is in the cache. *)
Lemma remote_relays r data n P out w p net s t0 :
  readings_ok t0 r → DnsCache.cache_ok t0 (m_DnsCache_ s) → relayable w p → missing (now_lookup r) (key P) s →
  ∃ c, (∀ k, Doh.Resolve k m_DohQuery_ (shuffled r) (Some data) n out (m_World s) = Done (Success, w, net) →
          remote (with_fuel k r) data n P out s =
            (Done w, {| m_RegexCache_ := m_RegexCache_ s; m_DnsCache_ := c; m_World := net |})) ∧
       DnsCache.cache_ok (now_insert r) c ∧ m_Cache_ c !! key P = Some (cached w p (now_insert r)).
Proof.
  intros (H1 & H2 & H3) Hok Hp Hm. apply (cache_ok_later _ (now_lookup r)) in Hok; [|done].
  destruct (Lookup_missing r (Domain P) (key P).2 (DnsHeader.Id false (DnsRequestPacket.Header (Packet P))) out s Hok Hm) as (m & Hsub & El).
  set (c1 := with_Cache m (m_DnsCache_ s)) in El.
  assert (Hok1 : DnsCache.cache_ok (now_lookup r) c1) by by apply cache_ok_subset with (now_lookup r).
  destruct (Insert_cacheable (now_lookup r) (now_evict r) (now_insert r) (Domain P) (key P).2 _ c1 _ Hok1 ltac:(lia)
    (relayable_cacheable w p Hp)) as (c & Ei & Hokc & Hk & _).
  exists c. split; [|by split]. intros f Er. unfold remote. change (Lookup (W:=W) (with_fuel f r)) with (Lookup (W:=W) r).
  rewrite (stateful_bind_Done _ _ _ _ _ El).
  set (s1 := {| m_RegexCache_ := _ |}). cbn beta iota.
  assert (Er' : Resolve m_DohQuery_ (with_fuel f r) data n out s1 =
    (Done (Success, w), {| m_RegexCache_ := m_RegexCache_ s; m_DnsCache_ := c1; m_World := net |})).
  { unfold Resolve, s1. cbn [m_World with_fuel fuel shuffled]. by rewrite Er. }
  rewrite (stateful_bind_Done _ _ _ _ _ Er'). cbn beta iota. rewrite bool_decide_eq_true_2 by done.
  unfold mbind, stateful_mbind, Insert. cbn [m_DnsCache_ with_fuel now_evict now_insert]. by rewrite Ei.
Qed.

(** Answering from the cache. *)
Lemma remote_cached r data n P out w p ns t s :
  relayable w p → places w p ns → DnsCache.cache_ok (now_lookup r) (m_DnsCache_ s) → entries s !! key P = Some (cached w p t) →
  let e := Z.quot (now_lookup r - t) 1000000000 in
  (e < smallest_ttl (records p))%Z →
  remote r data n P out s = (Done (aged e (DnsHeader.Id false (DnsRequestPacket.Header (Packet P))) w p ns), s).
Proof.
  intros Hp Hns Hok Hk e He. unfold remote.
  by rewrite (stateful_bind_Done _ _ _ _ _ (Lookup_cached r (Domain P) (key P).2 _ out w p ns t s Hp Hns Hok Hk He)).
Qed.

(** ** Whole queries *)

Lemma handle_asks finish r data n P body w s s' :
  asks data n P → answer r data n P [] s = (Done body, s') →
  finish (DnsRequestPacket.EdnsStatus (Packet P)) (DnsRequestPacket.Edns (Packet P)) body = Done w →
  handle finish r data n s = (Done (Send w), s').
Proof.
  intros (_ & HP & He) Ea Ef. unfold Server.handle. rewrite HP. cbv zeta. rewrite He, lift_Done.
  rewrite (stateful_bind_Done _ _ _ _ _ Ea). by rewrite Ef, lift_Done.
Qed.

(** A query of any kind, handled by either server: time passes and the state changes. *)
Definition handled (x y : Z * Server W) : Prop :=
  ∃ finish r data n, n ≤ length data ∧ readings_ok x.1 r ∧ y = (now_insert r, (handle finish r data n x.2).2).

(** *** What handling other queries keeps *)

Section kept.
  (* an entry, and a time until which it has not expired *)
  Context (k : CacheKey) (en : CacheEntry) (T : Z) (Hfresh : expired T en = false) (Hpat : patterns_ok g_Zones).

(** The entry is in a good cache that has room for [j] more. *)
Definition kept (j : nat) (t : Z) s : Prop :=
  server_ok t s ∧ entries s !! k = Some en ∧ Size (m_DnsCache_ s) + j ≤ m_MaxEntries_ (m_DnsCache_ s).

Lemma kept_later j j' t t' s : j' ≤ j → (t ≤ t')%Z → kept j t s → kept j' t' s.
Proof. intros Hj Ht ([Hc Hd] & Hk & Hs). split; [split; [done|by apply cache_ok_later with t]|split; [done|lia]]. Qed.

Lemma fresh_until now : (now ≤ T)%Z → expired now en = false.
Proof.
  unfold expired, elapsed in *. rewrite !Z.leb_gt in *. intros Hn. eapply Z.le_lt_trans; [|exact Hfresh].
  apply Z.quot_le_mono; lia.
Qed.

Lemma on_regex_keeps j t r P out :
  parser_ok P → keeps (kept j t) (on_regex (CheckLocalMatch (partial r) P out)) (kept j t).
Proof.
  intros HP s ([Hc Hd] & Hk & Hs).
  destruct (CheckLocalMatch_steady DefaultTtl g_Zones (partial r) Hpat P HP out) as (x & Hx & _).
  destruct (Hx _ Hc) as (c & E & Hc'). unfold on_regex. rewrite E. done.
Qed.

Lemma Lookup_keeps j r d q id out :
  (now_lookup r ≤ T)%Z → keeps (kept j (now_lookup r)) (Lookup r d q id out) (kept j (now_lookup r)).
Proof.
  intros Ht s ([Hc Hd] & Hk & Hs). pose proof (Lookup_spec (now_lookup r) d q id out _ Hd) as Hl. unfold Lookup.
  unfold entries in Hk. destruct (m_Cache_ (m_DnsCache_ s) !! (ToLower d, q)) as [e|] eqn:Ee; [|by rewrite Hl].
  destruct (expired (now_lookup r) e) eqn:Ex; [|by destruct Hl as (_ & out' & -> & _)].
  rewrite Hl. set (m := delete _ _). assert (Hm : m ⊆ m_Cache_ (m_DnsCache_ s)) by apply delete_subseteq.
  split; [split; [done|by apply cache_ok_subset with (now_lookup r)]|]. unfold entries, Size in *. cbn [snd m_DnsCache_ m_Cache_ with_Cache m_MaxEntries_].
  split; [|transitivity (base.size (m_Cache_ (m_DnsCache_ s)) + j); [apply Nat.add_le_mono_r; by apply map_subseteq_size|done]].
  unfold m.
  rewrite lookup_delete_ne; [done|]. intros Eq. rewrite Eq, Hk in Ee.
  injection Ee as <-. rewrite fresh_until in Ex; done.
Qed.

Lemma Insert_keeps j t r d q w :
  (ToLower d, q) ≠ k → (t ≤ now_insert r)%Z → keeps (kept (S j) t) (Insert r d q w) (kept j (now_insert r)).
Proof.
  intros Hne Ht s ([Hc Hd] & Hk & Hsz). unfold Insert.
  destruct (ExtractMinTtl_range w (length w) (le_n _)) as (ttl & Et & _).
  destruct (decide (12 ≤ length w ∧ ttl ≠ 0%Z)) as [[Hl Hn]|Hn].
  - destruct (Insert_cacheable t (now_evict r) (now_insert r) d q w _ ttl Hd Ht) as (c' & E & Hd' & _); [done|].
    pose proof (Insert_room (now_evict r) (now_insert r) d q w (m_DnsCache_ s) ttl ltac:(lia) ltac:(done)) as Er.
    rewrite Er. rewrite Er in E. injection E as <-.
    split; [by split|]. unfold entries, Size in *. cbn [snd m_DnsCache_ with_Cache m_Cache_ m_MaxEntries_].
    rewrite lookup_insert_ne by done. split; [done|]. rewrite map_size_insert. case_match; unfold id; lia.
  - rewrite Insert_uncacheable; [|intros t' (? & E' & ?); apply Hn; rewrite Et in E'; by simplify_eq].
    split; [split; [done|by apply cache_ok_later with t]|]. split; [done|]. cbn [snd m_DnsCache_]. lia.
Qed.

Lemma Resolve_keeps j t r data n out : keeps (kept j t) (Resolve m_DohQuery_ r data n out) (kept j t).
Proof. intros s Hs. unfold Resolve. by destruct (Doh.Resolve _ _ _ _ _ _ _) as [[[res w] net]|ex| | |]. Qed.

(** The rest of [answer], after the local zones, and all of it. *)
Lemma answer_keeps j t r data n P out :
  parser_ok P → readings_ok t r → (now_lookup r ≤ T)%Z →
  keeps (kept (S j) t) (answer r data n P out) (kept j (now_insert r)).
Proof.
  intros HP (H1 & H2 & H3) Ht. assert (Hend : ∀ s, kept (S j) (now_lookup r) s → kept j (now_insert r) s).
  { intros s. apply kept_later; lia. }
  unfold Server.answer. apply keeps_bind with (kept (S j) (now_lookup r)).
  - apply keeps_pre with (kept (S j) (now_lookup r)); [intros s; by apply kept_later|].
    destruct DohOnly; [by apply keeps_ret|]. apply keeps_bind with (kept (S j) (now_lookup r)); [by apply on_regex_keeps| |done].
    intros [x w]. by apply keeps_ret.
  - intros [found w]. apply keeps_bind with (kept j (now_insert r)).
    2: { intros [f w']. destruct f; [by apply keeps_ret|]. apply keeps_bind with (kept j (now_insert r)); [by apply keeps_lift| |done].
         intros [? ?]. by apply keeps_ret. }
    2: done.
    destruct found; [by apply keeps_ret|]. apply keeps_bind with (kept (S j) (now_lookup r)); [by apply keeps_lift| |done].
    intros q. cbv zeta. set (qt := DnsQuestion.Qtype false q). set (id := DnsHeader.Id _ _).
    destruct (decide ((ToLower (Domain P), qt) = k)) as [Ek|Ek].
    + (* the entry itself is found *)
      intros s Hs. pose proof Hs as ([_ Hd] & Hk & _). pose proof (Lookup_spec (now_lookup r) (Domain P) qt id w _ Hd) as Hl.
      unfold entries in Hk. rewrite Ek, Hk, fresh_until in Hl by done. destruct Hl as (_ & out' & El & _).
      rewrite (stateful_bind_Done _ _ _ (true, out') s); [by apply Hend|]. unfold Lookup. rewrite El. by destruct s.
    + apply keeps_bind with (kept (S j) (now_lookup r)); [by apply Lookup_keeps| |done].
      intros [hit w']. destruct hit; [by apply keeps_ret|].
      apply keeps_bind with (kept (S j) (now_lookup r)); [apply Resolve_keeps| |done].
      intros [res w'']. destruct (bool_decide _).
      * apply keeps_bind with (kept j (now_insert r)); [apply Insert_keeps; [done|lia]| |done]. intros ?. by apply keeps_ret.
      * destruct (negb _); [|by apply keeps_ret].
        apply keeps_bind with (kept (S j) (now_lookup r)); [by apply keeps_lift| |done]. intros [? ?]. by apply keeps_ret.
  - done.
Qed.

Lemma handle_keeps finish j t r data n :
  n ≤ length data → readings_ok t r → (now_lookup r ≤ T)%Z →
  keeps (kept (S j) t) (handle finish r data n) (kept j (now_insert r)).
Proof.
  intros Hn Hr Ht. assert (Hend : ∀ s, kept (S j) t s → kept j (now_insert r) s).
  { intros s. destruct Hr as (?&?&?). apply kept_later; lia. }
  unfold Server.handle. destruct (DnsParser.construct (Some data) n) as [P|ex| | |] eqn:EP; [| |by apply keeps_lift..].
  - destruct (parsed_id data n P Hn EP) as (_ & HP & _).
    apply keeps_bind with (kept (S j) t); [by apply keeps_lift| |done]. intros [w|]; [by apply keeps_ret|].
    apply keeps_bind with (kept j (now_insert r)); [by apply answer_keeps| |done].
    intros body. apply keeps_bind with (kept j (now_insert r)); [by apply keeps_lift| |done]. intros w. by apply keeps_ret.
  - apply keeps_bind with (kept (S j) t); [by apply keeps_lift| |done]. intros [? ?]. by apply keeps_ret.
Qed.

(** Any number of queries, while time has not run out and there is room for their answers. *)
Lemma handled_keeps m j t s t' s' :
  nsteps handled m (t, s) (t', s') → (t' ≤ T)%Z → kept (m + j) t s → kept j t' s' ∧ (t ≤ t')%Z.
Proof.
  revert t s. induction m as [|m IH]; intros t s Hst Ht Hk.
  - inversion Hst; subst. done.
  - inversion Hst as [|? ? [t1 s1] ? (finish & r & data & n & Hn & Hr & Ey) Hst']; subst. cbn [fst snd] in *. injection Ey as -> ->.
    assert (Hle : ∀ m t s, nsteps handled m (t, s) (t', s') → (t ≤ t')%Z).
    { clear. induction m as [|m IH]; intros t s Hst; [by inversion Hst|].
      inversion Hst as [|? ? [t1 s1] ? (finish & r & data & n & Hn & (?&?&?) & Ey) Hst']; subst. injection Ey as -> ->.
      apply IH in Hst'. cbn [fst] in *. lia. }
    pose proof (Hle _ _ _ Hst') as Ht1. destruct Hr as (H1 & H2 & H3).
    destruct (IH (now_insert r) _ Hst' Ht) as [Hk' _]; [|split; [done|lia]].
    apply (handle_keeps finish (m + j) t r data n); [done|by split_and!|lia|done].
Qed.
End kept.
(** *** The two queries *)

(** The resolvers answer with these bytes, once the transfer has enough fuel. *)
Definition resolves r data n out (net : W) (w : bytes) (net' : W) : Prop :=
  ∃ bound, ∀ k, bound ≤ k →
    Doh.Resolve k m_DohQuery_ (shuffled r) (Some data) n out net = Done (Success, w, net').

Lemma first_query finish t0 r data n P out w p net s :
  finishes finish → patterns_ok g_Zones → server_ok t0 s → readings_ok t0 r → asks data n P → no_local r P out →
  relayable w p → missing (now_lookup r) (key P) s → resolves r data n out (m_World s) w net →
  ∃ bound m s', finish (DnsRequestPacket.EdnsStatus (Packet P)) (DnsRequestPacket.Edns (Packet P)) w = Done m ∧
    (∀ k, bound ≤ k → handle finish (with_fuel k r) data n s = (Done (Send m), s')) ∧
    server_ok (now_insert r) s' ∧ m_World s' = net ∧ entries s' !! key P = Some (cached w p (now_insert r)).
Proof.
  intros Hf Hpat [Hc Hd] Hr Hask Hno Hp Hm [b Hb].
  destruct (answer_remote r data n P out s Hpat Hask Hno Hc) as (c & Hc' & Ea).
  destruct (remote_relays r data n P out w p net (with_regex c s) t0 Hr Hd Hp Hm) as (d & Er & Hd' & Hk).
  destruct (Hf (DnsRequestPacket.EdnsStatus (Packet P)) (DnsRequestPacket.Edns (Packet P)) w) as (m & Em & _).
  exists b, m, {| m_RegexCache_ := c; m_DnsCache_ := d; m_World := net |}. split; [exact Em|].
  split; [|split; [by split|by split]]. intros k Hle. eapply handle_asks; [done| |exact Em]. rewrite Ea. by apply Er, Hb.
Qed.

Lemma second_query finish r data n P out w p ns t s :
  finishes finish → patterns_ok g_Zones → server_ok (now_lookup r) s → asks data n P → no_local r P out →
  relayable w p → places w p ns → entries s !! key P = Some (cached w p t) →
  let e := Z.quot (now_lookup r - t) 1000000000 in
  let body := aged e (DnsHeader.Id false (DnsRequestPacket.Header (Packet P))) w p ns in
  (e < smallest_ttl (records p))%Z →
  ∃ m s', finish (DnsRequestPacket.EdnsStatus (Packet P)) (DnsRequestPacket.Edns (Packet P)) body = Done m ∧
    (∀ k, handle finish (with_fuel k r) data n s = (Done (Send m), s')) ∧
    m_World s' = m_World s ∧ m_DnsCache_ s' = m_DnsCache_ s.
Proof.
  intros Hf Hpat [Hc Hd] Hask Hno Hp Hns Hk e body He.
  destruct (answer_remote r data n P out s Hpat Hask Hno Hc) as (c & Hc' & Ea).
  destruct (Hf (DnsRequestPacket.EdnsStatus (Packet P)) (DnsRequestPacket.Edns (Packet P)) body) as (m & Em & _).
  exists m, (with_regex c s). split_and!; [exact Em| |done|done]. intros k. eapply handle_asks; [done| |exact Em]. rewrite Ea.
  by apply (remote_cached (with_fuel k r) data n P out w p ns t).
Qed.

End cached.

(** ** Examples *)

Section examples.
  #[local] Existing Instance x86_64.
  #[local] Existing Instance key_order.

(** Queries for the alias of a.com, which the zones do not know, in two spellings. *)
Definition first_datagram : bytes :=
  [x12; x34; x01; x00; x00; x01; x00; x00; x00; x00; x00; x00]
  ++ [x01; x61; x03; x63; x6f; x6d; x00; x00; x05; x00; x01].
Definition second_datagram : bytes :=
  [x56; x78; x01; x00; x00; x01; x00; x00; x00; x00; x00; x00]
  ++ [x01; x41; x03; x43; x4f; x4d; x00; x00; x05; x00; x01].

Definition first_parser : DnsParser :=
  Eval vm_compute in match DnsParser.construct (Some first_datagram) 23 with Done P => P | _ => example_parser end.
Definition second_parser : DnsParser :=
  Eval vm_compute in match DnsParser.construct (Some second_datagram) 23 with Done P => P | _ => example_parser end.

Definition later_readings : Readings :=
  {| now_lookup := 5000000003; now_evict := 5000000003; now_insert := 5000000003; shuffled := []; fuel := 0; partial := [] |}.

(** What the resolver answers: its record's owner is a pointer to the question's name. *)
Definition compressed_response : bytes :=
  [x00; x00; x81; x80; x00; x01; x00; x01; x00; x00; x00; x00]
  ++ [x01; x61; x03; x63; x6f; x6d; x00; x00; x05; x00; x01]
  ++ [xc0; x0c; x00; x05; x00; x01; x00; x00; x00; x3c; x00; x04; x01; x62; xc0; x0e].

Definition compressed_packet : DnsResponsePacket :=
  Eval vm_compute in
    match DnsResponsePacket.FromWire (Some compressed_response) 39 DnsResponsePacket.clear with
    | Done (true, p) => p | _ => DnsResponsePacket.clear end.

Lemma compressed_response_relayable : relayable compressed_response compressed_packet.
Proof.
  split; [|by vm_compute].
  by apply (response_at_parsed compressed_response 39 compressed_packet DnsResponsePacket.clear); [simpl; lia|vm_compute].
Qed.

(** The same bytes five seconds later, for the second query: 55 seconds are left. *)
Example compressed_response_aged :
  aged 5 0x5678 compressed_response compressed_packet [25] =
    [x56; x78; x81; x80; x00; x01; x00; x01; x00; x00; x00; x00]
    ++ [x01; x61; x03; x63; x6f; x6d; x00; x00; x05; x00; x01]
    ++ [xc0; x0c; x00; x05; x00; x01; x00; x00; x00; x37; x00; x04; x01; x62; xc0; x0e].
Proof. reflexivity. Qed.

Definition relaying_server : Server network :=
  {| m_RegexCache_ := ∅; m_DnsCache_ := DnsCache.make 2; m_World := idle [compressed_response] |}.

Definition relayed_network : network :=
  Eval vm_compute in match Doh.Resolve 50 example_client (m_Resolvers_ example_client) (Some first_datagram) 23 [] (m_World relaying_server) with
  | Done (_, _, w) => w | _ => m_World relaying_server end.

Lemma example_resolves :
  resolves example_client example_readings first_datagram 23 [] (m_World relaying_server) compressed_response relayed_network.
Proof.
  exists 50. intros k Hk. replace k with (50 + (k - 50)) by lia. generalize (k - 50). intros j. vm_compute. reflexivity.
Qed.

End examples.
