(* ===== verification/Asio.v ===== *)
(** * Asynchronous operations (asio)

    asio is not part of the sources.  What the servers use of it is an interface: the
    operations a program has started and whose handlers have not run yet, and what starting
    an operation, closing its socket and cancelling a timer do to them ([Asio], with
    the documented behaviour as [AsioLaws]).  The generic facts are about servers that listen
    by one chain of operations: an operation is live when its handler will listen again. *)

From stdpp Require Import base list option tactics.
From S2P Require Import Prelude.

(** The error codes the sources tell apart. *)
Inductive error_code : Type := bad_descriptor | not_socket | operation_aborted | eof | connection_reset | other_error.

#[export] Instance error_code_eq_dec : EqDecision error_code.
Proof. solve_decision. Defined.

(** An operation on a socket (a receive, or an accept) and a wait on a timer, each before and
    after it has completed; the handler of a completed operation is in the loop's queue. *)
Inductive operation : Type :=
  | Pending
  | Completed (p_ErrorCode : option error_code) (p_Bytes : nat)
  | Waiting
  | Waited (ec : option error_code).

#[export] Instance operation_eq_dec : EqDecision operation.
Proof. solve_decision. Defined.

Class Asio := {
  (* what starting an operation on a socket, open or closed, leaves *)
  async_start : bool → operation;
  (* what closing the socket, and cancelling the timer, do to an operation *)
  close : operation → operation;
  cancel : operation → operation
}.

Class AsioLaws `{Asio} := {
  async_start_open : async_start true = Pending;
  async_start_closed : async_start false = Completed (Some bad_descriptor) 0;
  close_pending : ∃ ec, close Pending = Completed (Some ec) 0;
  close_other o : o ≠ Pending → close o = o;
  cancel_waiting : ∃ ec, cancel Waiting = Waited (Some ec);
  cancel_other o : o ≠ Waiting → cancel o = o
}.

(** The errors after which the servers make a new socket. *)
Definition is_fatal (ec : error_code) : bool := bool_decide (ec = bad_descriptor) || bool_decide (ec = not_socket).

(** The operations whose handlers start a new one, as long as the server is running. *)
Definition live (o : operation) : Prop := match o with Waited (Some _) => False | _ => True end.

#[export] Instance live_dec o : Decision (live o).
Proof. destruct o as [| | |[]]; simpl; apply _. Defined.

(** The operations that no event completes any more: their handlers only have to run. *)
Definition queued (o : operation) : Prop := match o with Completed _ _ | Waited _ => True | _ => False end.

Section facts.
  Context `{AsioLaws}.
  Implicit Types (o : operation) (os : list operation).

Lemma async_start_live b : live (async_start b).
Proof. destruct b; [by rewrite async_start_open|]. by rewrite async_start_closed. Qed.

Lemma close_cases o : (o = Pending ∧ ∃ ec, close o = Completed (Some ec) 0) ∨ (o ≠ Pending ∧ close o = o).
Proof. destruct (decide (o = Pending)) as [->|Ho]; [left; split; [done|apply close_pending]|right; split; [done|by apply close_other]]. Qed.

Lemma cancel_cases o : (o = Waiting ∧ ∃ ec, cancel o = Waited (Some ec)) ∨ (o ≠ Waiting ∧ cancel o = o).
Proof. destruct (decide (o = Waiting)) as [->|Ho]; [left; split; [done|apply cancel_waiting]|right; split; [done|by apply cancel_other]]. Qed.

Lemma close_live o : live o → live (close o).
Proof. by destruct (close_cases o) as [[-> [ec ->]]|[_ ->]]. Qed.

Lemma pending_close os : Pending ∉ close <$> os.
Proof. intros (o & E & _)%list_elem_of_fmap. by destruct (close_cases o) as [[-> [ec Ec]]|[? ?]]; congruence. Qed.

Lemma pending_cancel os : Pending ∈ cancel <$> os → Pending ∈ os.
Proof. intros (o & E & Ho)%list_elem_of_fmap. by destruct (cancel_cases o) as [[-> [ec Ec]]|[? ?]]; congruence. Qed.

(** What stopping a server does to its operations: all are in the queue. *)
Lemma stopped_queued os : Forall queued (close <$> (cancel <$> os)).
Proof.
  rewrite !Forall_fmap. apply Forall_true. intros o2. cbn [compose].
  destruct (cancel_cases o2) as [[-> [ec E]]|[Hw ->]].
  - rewrite E. by rewrite close_other.
  - destruct (close_cases o2) as [[-> [ec ->]]|[Hp ->]]; [done|]. by destruct o2.
Qed.
End facts.

(** ** A concrete instance *)

#[export] Instance sample_asio : Asio := {
  async_start b := if b then Pending else Completed (Some bad_descriptor) 0;
  close o := match o with Pending => Completed (Some operation_aborted) 0 | _ => o end;
  cancel o := match o with Waiting => Waited (Some operation_aborted) | _ => o end
}.

#[export] Instance sample_asio_laws : AsioLaws.
Proof. by split; try eexists; try intros []. Qed.
