(* ===== verification/UdpServer.v ===== *)
(** * The UDP server's life (src/src/udp_server.cc)

    The server object around the handler of [Server]: it receives into one buffer and one
    endpoint, sends, makes a new socket after a fatal error, waits before it tries
    again, and stops.  The event loop runs one handler after the other; between them,
    datagrams arrive, operations fail and timers expire in any order ([step]).  A
    running server always listens or is about to, a stopped one comes to rest, and as long as
    no send fails fatally every datagram's answer goes to its sender. *)

From Stdlib Require Import ZArith Lia.
From Stdlib Require Import Strings.Byte Strings.String.
From stdpp Require Import base numbers list option sets gmap relations.
From S2P Require Import Prelude.
From S2P Require Import Stateful.
From S2P Require Import Memory.
From S2P Require Import DnsHeader.
From S2P Require Import DnsRequestPacket.
From S2P Require Import DnsCache.
From S2P Require Import DnsResponse.
From S2P Require Import ResponseFacts.
From S2P Require Import ResponseSafety.
From S2P Require Import SampleJson.
From S2P Require Import Doh.
From S2P Require Import DnsParser.
From S2P Require Import LocalDns.
From S2P Require Import SampleRegex.
From S2P Require Import LocalFacts.
From S2P Require Import Server.
From S2P Require Import ServerFacts.
From S2P Require Import Asio.

(** The server object.  [m_Shared] are its caches, its client and the network, [m_Clock] the
    last reading of the clock; [operations] are those whose handlers have not run, [s_Sent] the
    messages sent so far. *)
Record UdpServer {RE : RegexEngine} (E W : Type) : Type := {
  m_IsRunning_ : bool;
  m_Socket_ : bool;
  m_SenderEndpoint_ : E;
  m_Data_ : bytes;
  m_Shared : Server W;
  m_Clock : Z;
  operations : list operation;
  s_Sent : list (E * bytes)
}.
Arguments m_IsRunning_ {_ _ _} _.
Arguments m_Socket_ {_ _ _} _.
Arguments m_SenderEndpoint_ {_ _ _} _.
Arguments m_Data_ {_ _ _} _.
Arguments m_Shared {_ _ _} _.
Arguments m_Clock {_ _ _} _.
Arguments operations {_ _ _} _.
Arguments s_Sent {_ _ _} _.

(** What the system calls of one handler give: the error of [send_to], and whether a new socket
    can be opened and bound. *)
Record SystemCalls : Type := { send_error : option error_code; socket_opens : bool }.

Section server.
  Context {H : Target} {O : HashOrder} {RE : RegexEngine} {J : Type} `{HJ : Json J} `{HZ : !JsonZones J}.
  Context {W : Type} `{HC : Curl W} {E : Type} `{HA : Asio}.
  Context (DefaultTtl : Z) (g_Zones : J) (DohOnly : bool) (m_DohQuery_ : Doh.DnsOverHttps).
  Implicit Types (u : UdpServer E W) (r : Readings) (c : SystemCalls).

Definition with_operations (os : list operation) u : UdpServer E W :=
  {| m_IsRunning_ := m_IsRunning_ u; m_Socket_ := m_Socket_ u; m_SenderEndpoint_ := m_SenderEndpoint_ u; m_Data_ := m_Data_ u;
     m_Shared := m_Shared u; m_Clock := m_Clock u; operations := os; s_Sent := s_Sent u |}.

Definition with_Socket (b : bool) u : UdpServer E W :=
  {| m_IsRunning_ := m_IsRunning_ u; m_Socket_ := b; m_SenderEndpoint_ := m_SenderEndpoint_ u; m_Data_ := m_Data_ u;
     m_Shared := m_Shared u; m_Clock := m_Clock u; operations := operations u; s_Sent := s_Sent u |}.

Definition with_Shared (s : Server W) (t : Z) u : UdpServer E W :=
  {| m_IsRunning_ := m_IsRunning_ u; m_Socket_ := m_Socket_ u; m_SenderEndpoint_ := m_SenderEndpoint_ u; m_Data_ := m_Data_ u;
     m_Shared := s; m_Clock := t; operations := operations u; s_Sent := s_Sent u |}.

Definition with_Sent (s : list (E * bytes)) u : UdpServer E W :=
  {| m_IsRunning_ := m_IsRunning_ u; m_Socket_ := m_Socket_ u; m_SenderEndpoint_ := m_SenderEndpoint_ u; m_Data_ := m_Data_ u;
     m_Shared := m_Shared u; m_Clock := m_Clock u; operations := operations u; s_Sent := s |}.

Definition IsRunning (p_Input : bool) u : UdpServer E W :=
  {| m_IsRunning_ := p_Input; m_Socket_ := m_Socket_ u; m_SenderEndpoint_ := m_SenderEndpoint_ u; m_Data_ := m_Data_ u;
     m_Shared := m_Shared u; m_Clock := m_Clock u; operations := operations u; s_Sent := s_Sent u |}.

(** What the system writes for a datagram: its bytes as far as the buffer reaches, and its sender. *)
Definition with_datagram (e : E) (d : bytes) u : UdpServer E W :=
  let d := take (length (m_Data_ u)) d in
  {| m_IsRunning_ := m_IsRunning_ u; m_Socket_ := m_Socket_ u; m_SenderEndpoint_ := e;
     m_Data_ := d ++ drop (length d) (m_Data_ u);
     m_Shared := m_Shared u; m_Clock := m_Clock u; operations := operations u; s_Sent := s_Sent u |}.

(** [m_Socket_.close] and [m_ReopenTimer_.cancel]. *)
Definition close_socket u : UdpServer E W := with_Socket false (with_operations (close <$> operations u) u).
Definition cancel_timer u : UdpServer E W := with_operations (cancel <$> operations u) u.

Definition Receive u : UdpServer E W :=
  if m_IsRunning_ u then with_operations (operations u ++ [async_start (m_Socket_ u)]) u else u.

Definition ReopenSocket c u : UdpServer E W :=
  if m_IsRunning_ u then
    let u := close_socket u in
    if socket_opens c then Receive (with_Socket true u)
    else let u := cancel_timer u in with_operations (operations u ++ [Waiting]) u
  else u.

(** The synchronous send of a message that is not empty. *)
Definition SendTo c (p_Data : bytes) u : UdpServer E W :=
  match send_error c with
  | None => with_Sent (s_Sent u ++ [(m_SenderEndpoint_ u, p_Data)]) u
  | Some ec => if is_fatal ec then ReopenSocket c u else u
  end.

(** The handler that [Receive] passes to [async_receive_from]. *)
Definition on_receive c r (p_ErrorCode : option error_code) (p_BytesReceived : nat) u : outcome (UdpServer E W) :=
  match p_ErrorCode with
  | Some ec => Done (if is_fatal ec then ReopenSocket c u else Receive u)
  | None =>
      match UdpReceive DefaultTtl g_Zones DohOnly m_DohQuery_ r (m_Data_ u) p_BytesReceived (m_Shared u) with
      | (Done s_Message, s) =>
          let u := with_Shared s (now_insert r) u in
          let u := match s_Message with Some w => SendTo c w u | None => u end in
          Done (Receive u)
      | (Throw e, _) => Throw e
      | (Undef, _) => Undef
      | (Unfinished, _) => Unfinished
      | (Aborted, _) => Aborted
      end
  end.

(** The handler that [ReopenSocket] passes to [async_wait]. *)
Definition on_wait c (ec : option error_code) u : UdpServer E W :=
  match ec with None => if m_IsRunning_ u then ReopenSocket c u else u | Some _ => u end.

Definition Stop u : UdpServer E W := close_socket (cancel_timer (IsRunning false u)).

(** The constructor, once the socket is bound. *)
Definition make (e : E) (s : Server W) (t : Z) : UdpServer E W :=
  Receive {| m_IsRunning_ := true; m_Socket_ := true; m_SenderEndpoint_ := e;
             m_Data_ := repeat x00 DEFAULT_DNS_PACKET_SIZE; m_Shared := s; m_Clock := t; operations := []; s_Sent := [] |}.

(** ** Steps of the event loop *)

(** A handler's result does not depend on the fuel once there is enough. *)
Definition handles c r ec n u u' : Prop :=
  ∃ bound, ∀ k, bound ≤ k → on_receive c (with_fuel k r) ec n u = Done u'.

Section steps.
  Context (P : SystemCalls → Prop).

(** The event loop, and the outside: operations complete, handlers run, the program is told to
    stop.  [P] restricts what system calls may give; a send succeeds only on an open socket. *)
Inductive step : UdpServer E W → UdpServer E W → Prop :=
  | step_datagram u os1 os2 e d :
      operations u = os1 ++ Pending :: os2 →
      step u (with_datagram e d (with_operations (os1 ++ Completed None (min (length d) (length (m_Data_ u))) :: os2) u))
  | step_failed u os1 os2 ec :
      operations u = os1 ++ Pending :: os2 →
      step u (with_operations (os1 ++ Completed (Some ec) 0 :: os2) u)
  | step_expired u os1 os2 :
      operations u = os1 ++ Waiting :: os2 →
      step u (with_operations (os1 ++ Waited None :: os2) u)
  | step_receive u u' os1 os2 ec n c r :
      operations u = os1 ++ Completed ec n :: os2 →
      P c → (send_error c = None → m_Socket_ u = true) → readings_ok (m_Clock u) r →
      handles c r ec n (with_operations (os1 ++ os2) u) u' →
      step u u'
  | step_wait u os1 os2 ec c :
      operations u = os1 ++ Waited ec :: os2 → P c →
      step u (on_wait c ec (with_operations (os1 ++ os2) u))
  | step_stop u : step u (Stop u).
End steps.
End server.

(** ** The invariant *)

Section facts.
  Context {H : Target} {O : HashOrder} {RE : RegexEngine} `{!RegexLaws} {J : Type}
    `{HJ : Json J} `{!JsonLaws J} `{HZ : !JsonZones J} `{!JsonZonesLaws J}.
  Context {W : Type} `{HC : Curl W} `{!CurlLaws W} `{!CurlProgress W} {E : Type} `{HA : Asio} `{!AsioLaws}.
  Context (DefaultTtl : Z) (g_Zones : J) (DohOnly : bool) (m_DohQuery_ : Doh.DnsOverHttps).
  Context (Hpat : patterns_ok g_Zones).
  Implicit Types (u : UdpServer E W) (r : Readings) (c : SystemCalls) (P : SystemCalls → Prop).

Abbreviation step := (step DefaultTtl g_Zones DohOnly m_DohQuery_).
Abbreviation handles := (handles DefaultTtl g_Zones DohOnly m_DohQuery_).
Abbreviation on_receive := (on_receive DefaultTtl g_Zones DohOnly m_DohQuery_).

(** What holds also inside a handler. *)
Record sound u : Prop := {
  sound_shared : server_ok (m_Clock u) (m_Shared u);
  sound_data : length (m_Data_ u) = DEFAULT_DNS_PACKET_SIZE;
  sound_sizes : ∀ ec n, Completed ec n ∈ operations u → n ≤ DEFAULT_DNS_PACKET_SIZE;
  sound_open : Pending ∈ operations u → m_Socket_ u = true;
  sound_stopped : m_IsRunning_ u = false → m_Socket_ u = false ∧ Forall queued (operations u)
}.

(** Between two handlers a running server has an operation that will make it listen. *)
Definition listens u : Prop := m_IsRunning_ u = true → Exists live (operations u).
Definition good u : Prop := sound u ∧ listens u.

Lemma completed_map (f : operation → operation) (os : list operation) ec n :
  (∀ o, f o = o ∨ ∀ ec n, f o = Completed ec n → n = 0) → Completed ec n ∈ f <$> os → Completed ec n ∈ os ∨ n = 0.
Proof.
  intros Hf (o & Eo & Ho)%list_elem_of_fmap. destruct (Hf o) as [E1|E1]; [left; congruence|right; by eapply E1].
Qed.

Lemma close_completed o : close o = o ∨ ∀ ec n, close o = Completed ec n → n = 0.
Proof. destruct (close_cases o) as [[-> [ec ->]]|[_ ->]]; [right; by intros ? ? [= _ ->]|by left]. Qed.

Lemma cancel_completed o : cancel o = o ∨ ∀ ec n, cancel o = Completed ec n → n = 0.
Proof. destruct (cancel_cases o) as [[-> [ec ->]]|[_ ->]]; [by right|by left]. Qed.

Lemma close_socket_sound u : sound u → sound (close_socket u).
Proof.
  intros [S1 S2 S3 S4 S5]. split; cbn; [done|done| | |].
  - intros ec n [Hn| ->]%completed_map; [by eapply S3|lia|apply close_completed].
  - intros Hp. by destruct (pending_close _ Hp).
  - intros Hr. split; [done|]. destruct (S5 Hr) as [_ Hq]. rewrite Forall_fmap. eapply Forall_impl; [exact Hq|].
    intros o Ho. cbn. by destruct (close_cases o) as [[-> [ec ->]]|[_ ->]].
Qed.

Lemma cancel_timer_sound u : sound u → sound (cancel_timer u).
Proof.
  intros [S1 S2 S3 S4 S5]. split; cbn; [done|done| | |].
  - intros ec n [Hn| ->]%completed_map; [by eapply S3|lia|apply cancel_completed].
  - intros Hp. apply S4. by apply pending_cancel.
  - intros Hr. destruct (S5 Hr) as [Ho Hq]. split; [done|]. rewrite Forall_fmap. eapply Forall_impl; [exact Hq|].
    intros o Ho'. cbn. by destruct (cancel_cases o) as [[-> [ec ->]]|[_ ->]].
Qed.

Lemma add_sound o u :
  m_IsRunning_ u = true → (o = Pending → m_Socket_ u = true) → (∀ ec n, o = Completed ec n → n = 0) →
  sound u → sound (with_operations (operations u ++ [o]) u).
Proof.
  intros Hr Ho Hn [S1 S2 S3 S4 S5]. split; cbn; [done|done| | |].
  - intros ec n [He|<-%list_elem_of_singleton]%elem_of_app; [by eapply S3|]. rewrite (Hn _ _ eq_refl). lia.
  - intros [He|<-%list_elem_of_singleton]%elem_of_app; [by apply S4|by apply Ho].
  - intros Hf. congruence.
Qed.

Lemma Receive_good u : sound u → good (Receive u).
Proof.
  intros Hs. unfold Receive. destruct (m_IsRunning_ u) eqn:Er; [|split; [done|intros Hr; congruence]]. split.
  - apply add_sound; [done|..|done].
    + intros Ep. destruct (m_Socket_ u); [done|]. by rewrite async_start_closed in Ep.
    + intros ec n. destruct (m_Socket_ u); [by rewrite async_start_open|rewrite async_start_closed; by intros [= _ ->]].
  - intros _. cbn. apply Exists_app. right. apply Exists_cons_hd, async_start_live.
Qed.

Lemma ReopenSocket_good c u : sound u → good (ReopenSocket c u).
Proof.
  intros Hs. unfold ReopenSocket. destruct (m_IsRunning_ u) eqn:Er; [|split; [done|intros Hr; congruence]].
  apply close_socket_sound in Hs as Hs'. cbv zeta. destruct (socket_opens c).
  - apply Receive_good. destruct Hs' as [S1 S2 S3 S4 S5]. split; cbn in *; [done..|congruence].
  - split; [|intros _; cbn; apply Exists_app; right; by apply Exists_cons_hd].
    apply add_sound; [done..|]. by apply cancel_timer_sound.
Qed.

Lemma SendTo_sound c w u : sound u → sound (SendTo c w u).
Proof.
  intros Hs. unfold SendTo. destruct (send_error c) as [ec|]; [destruct (is_fatal ec); [apply ReopenSocket_good|]; done|].
  destruct Hs. by split.
Qed.
(** ** Handlers *)

(** The handler of [Server] on a datagram of any size. *)
Lemma receive_runs t r data n (s : Server W) :
  readings_ok t r → n ≤ length data → server_ok t s →
  runs (λ k, UdpReceive DefaultTtl g_Zones DohOnly m_DohQuery_ (with_fuel k r) data n) s (λ o s',
    server_ok (now_insert r) s' ∧
    (12 ≤ n ≤ DEFAULT_DNS_PACKET_SIZE → sent DefaultTtl g_Zones DohOnly m_DohQuery_ FinishUdp r data n o) ∧ (n < 12 → o = None)).
Proof.
  intros Hr Hn Hs.
  assert (Hs' : server_ok (now_insert r) s).
  { destruct Hs as [Hc Hd], Hr as (?&?&?). split; [done|]. apply cache_ok_later with t; [lia|done]. }
  destruct (decide (12 ≤ n ∧ n ≤ DEFAULT_DNS_PACKET_SIZE)) as [Hin|Hout].
  - destruct (handle_runs DefaultTtl g_Zones DohOnly m_DohQuery_ FinishUdp t r data n s FinishUdp_finishes Hpat Hr (proj1 Hin) Hn Hs)
      as (b & o & s' & [Hs1 Ho] & Hk).
    exists b, o, s'. split; [split_and!; [done|done|lia]|]. intros k Hle. unfold UdpReceive, DNS_MIN_PACKET_SIZE, HeaderSize.
    destruct (Nat.eqb_spec n 0); [lia|]. destruct (Nat.ltb_spec n 12); [lia|].
    destruct (Nat.ltb_spec DEFAULT_DNS_PACKET_SIZE n); [lia|]. by apply Hk.
  - exists 0, None, s. split; [split_and!; [done|lia|done]|]. intros k _. unfold UdpReceive, DNS_MIN_PACKET_SIZE, HeaderSize.
    destruct (Nat.eqb_spec n 0); [done|]. destruct (Nat.ltb_spec n 12); [done|].
    destruct (Nat.ltb_spec DEFAULT_DNS_PACKET_SIZE n); [done|lia].
Qed.

(** The handler of a datagram ends, and what it leaves. *)
Lemma handles_datagram c r n u :
  sound u → n ≤ DEFAULT_DNS_PACKET_SIZE → readings_ok (m_Clock u) r →
  ∃ o s, server_ok (now_insert r) s ∧
    (12 ≤ n → sent DefaultTtl g_Zones DohOnly m_DohQuery_ FinishUdp r (m_Data_ u) n o) ∧ (n < 12 → o = None) ∧
    let u' := with_Shared s (now_insert r) u in
    handles c r None n u (Receive (match o with Some w => SendTo c w u' | None => u' end)).
Proof.
  intros [S1 S2 _ _ _] Hn Hr. destruct (receive_runs _ r (m_Data_ u) n (m_Shared u) Hr) as (b & o & s & (Hs1 & Ho1 & Ho2) & Hk);
    [lia|done|].
  exists o, s. split; [done|]. split; [intros ?; by apply Ho1|]. split; [done|]. exists b. intros k Hle.
  unfold UdpServer.on_receive. by rewrite Hk.
Qed.

Lemma handles_unique c r ec n u u1 u2 : handles c r ec n u u1 → handles c r ec n u u2 → u1 = u2.
Proof. intros [b1 Hk1] [b2 Hk2]. specialize (Hk1 (b1 + b2) ltac:(lia)). specialize (Hk2 (b1 + b2) ltac:(lia)). congruence. Qed.

Lemma handles_error c r ec n u u' :
  handles c r (Some ec) n u u' → u' = if is_fatal ec then ReopenSocket c u else Receive u.
Proof. intros [b Hk]. specialize (Hk b (le_n _)). unfold UdpServer.on_receive in Hk. by injection Hk as <-. Qed.

Lemma handles_good c r ec n u u' :
  sound u → n ≤ DEFAULT_DNS_PACKET_SIZE → readings_ok (m_Clock u) r → handles c r ec n u u' → good u'.
Proof.
  intros Hs Hn Hr Hk. destruct ec as [ec|].
  - rewrite (handles_error _ _ _ _ _ _ Hk). destruct (is_fatal ec); [by apply ReopenSocket_good|by apply Receive_good].
  - destruct (handles_datagram c r n u Hs Hn Hr) as (o & s & Hs' & _ & _ & Hk'). rewrite (handles_unique _ _ _ _ _ _ _ Hk Hk').
    apply Receive_good. assert (Hu : sound (with_Shared s (now_insert r) u)) by (destruct Hs; by split).
    destruct o; [by apply SendTo_sound|done].
Qed.

(** Every handler in the queue can run to its end, without an exception or undefined behaviour. *)
Lemma handles_total c r ec n u :
  sound u → n ≤ DEFAULT_DNS_PACKET_SIZE → readings_ok (m_Clock u) r → ∃ u', handles c r ec n u u'.
Proof.
  intros Hs Hn Hr. destruct ec as [ec|]; [by eexists; exists 0|].
  destruct (handles_datagram c r n u Hs Hn Hr) as (o & s & _ & _ & _ & Hk). by eexists.
Qed.

(** ** Steps *)

Lemma sound_without u os1 o os2 : operations u = os1 ++ o :: os2 → sound u → sound (with_operations (os1 ++ os2) u).
Proof.
  intros Eo [S1 S2 S3 S4 S5]. rewrite Eo in S3, S4, S5. split; cbn; [done|done| | |].
  - intros ec n Hn. apply S3 with ec. set_solver.
  - intros Hp. apply S4. set_solver.
  - intros Hr. destruct (S5 Hr) as [? Hq]. split; [done|]. apply Forall_app in Hq as [? Hq]. apply Forall_cons in Hq as [_ ?].
    by apply Forall_app.
Qed.

(** An event completes an operation. *)
Lemma complete_good u os1 o os2 o' :
  operations u = os1 ++ o :: os2 → ¬ queued o → queued o' → live o' → (∀ ec n, o' = Completed ec n → n ≤ DEFAULT_DNS_PACKET_SIZE) →
  good u → good (with_operations (os1 ++ o' :: os2) u).
Proof.
  intros Eo Hq Hq' Hl Hn [[S1 S2 S3 S4 S5] _]. rewrite Eo in S3, S4, S5. split; [split; cbn; [done|done| | |]|].
  - intros ec n [He|[He|He]%elem_of_cons]%elem_of_app; [apply S3 with ec; set_solver|by eapply Hn|apply S3 with ec; set_solver].
  - intros [He|[He|He]%elem_of_cons]%elem_of_app; [apply S4; set_solver|by subst o'|apply S4; set_solver].
  - intros Hr. destruct (S5 Hr) as [? HF]. apply Forall_app in HF as [_ HF]. by apply Forall_cons in HF as [? _].
  - intros _. cbn. apply Exists_app. right. by apply Exists_cons_hd.
Qed.

Lemma with_datagram_good e d u : good u → good (with_datagram e d u).
Proof.
  intros [[S1 S2 S3 S4 S5] Hl]. split; [split; [done| |done..]|done].
  unfold with_datagram. cbn [m_Data_]. rewrite length_app, length_drop, length_take. lia.
Qed.

Lemma step_good P u u' : good u → step P u u' → good u'.
Proof.
  intros Hg Hst. destruct Hst as [u os1 os2 e d Eo|u os1 os2 ec Eo|u os1 os2 Eo|u u' os1 os2 ec n c r Eo _ _ Hr Hk|u os1 os2 ec c Eo _|u].
  - apply with_datagram_good. eapply complete_good; [exact Eo|by intros []|done|done| |done].
    intros ? ? [= <- <-]. destruct Hg as [[_ E2 _ _ _] _]. lia.
  - eapply complete_good; [exact Eo|by intros []|done|done| |done]. intros ? ? [= <- <-]. lia.
  - by eapply complete_good; [exact Eo|intros []|..].
  - destruct Hg as [Hs _]. eapply handles_good; [by eapply sound_without| |exact Hr|exact Hk].
    destruct Hs as [_ _ S3 _ _]. apply S3 with ec. rewrite Eo. set_solver.
  - destruct Hg as [Hs Hl]. apply (sound_without _ _ _ _ Eo) in Hs as Hs'. unfold on_wait. destruct ec as [ec|].
    + split; [done|]. intros Hr. specialize (Hl Hr). rewrite Eo in Hl. cbn.
      apply Exists_app in Hl as [Hl|[Hl|Hl]%Exists_cons]; [apply Exists_app; by left|done|apply Exists_app; by right].
    + destruct (m_IsRunning_ _) eqn:Er; [by apply ReopenSocket_good|]. split; [done|]. intros Hr. congruence.
  - destruct Hg as [[S1 S2 S3 S4 S5] _]. split; [|done]. split; cbn; [done|done| | |].
    + intros ec n [[Hn| ->]%completed_map| ->]%completed_map; [by eapply S3|lia|apply cancel_completed|lia|apply close_completed].
    + intros Hp. by destruct (pending_close _ Hp).
    + intros _. split; [done|]. apply stopped_queued.
Qed.

Lemma make_good e s t : server_ok t s → good (make e s t).
Proof.
  intros Hs. apply Receive_good. split; [done|apply repeat_length|by intros ? ? ?%elem_of_nil|by intros ?%elem_of_nil|done].
Qed.

Lemma reachable_good P e s t u : server_ok t s → rtc (step P) (make e s t) u → good u.
Proof.
  intros Hs. revert u. apply rtc_ind_r; [by apply make_good|]. intros u u' _ Hst Hg. by eapply step_good.
Qed.

(** A stopped server takes its operations out of the queue, sends nothing and starts nothing. *)
Lemma ReopenSocket_stopped c u : m_IsRunning_ u = false → ReopenSocket c u = u.
Proof. intros Er. unfold ReopenSocket. by rewrite Er. Qed.

Lemma Receive_stopped u : m_IsRunning_ u = false → Receive u = u.
Proof. intros Er. unfold Receive. by rewrite Er. Qed.

Lemma handles_stopped c r ec n u u' :
  sound u → n ≤ DEFAULT_DNS_PACKET_SIZE → readings_ok (m_Clock u) r → m_IsRunning_ u = false →
  (send_error c = None → m_Socket_ u = true) → handles c r ec n u u' →
  m_IsRunning_ u' = false ∧ s_Sent u' = s_Sent u ∧ operations u' = operations u.
Proof.
  intros Hs Hn Hr Hrun Hc Hk. destruct (sound_stopped _ Hs Hrun) as [Hopen _]. destruct ec as [ec|].
  - rewrite (handles_error _ _ _ _ _ _ Hk), ReopenSocket_stopped, Receive_stopped by done. by destruct (is_fatal ec).
  - destruct (handles_datagram c r n u Hs Hn Hr) as (o & s & _ & _ & _ & Hk'). rewrite (handles_unique _ _ _ _ _ _ _ Hk Hk').
    set (u1 := with_Shared s (now_insert r) u).
    assert (Eu : match o with Some w => SendTo c w u1 | None => u1 end = u1).
    { destruct o as [w|]; [|done]. unfold SendTo. destruct (send_error c) as [ec|]; [|rewrite Hc in Hopen by done; done].
      rewrite ReopenSocket_stopped by done. by destruct (is_fatal ec). }
    by rewrite Eu, Receive_stopped.
Qed.

Lemma stopped_rests P u u' :
  good u → m_IsRunning_ u = false → step P u u' →
  m_IsRunning_ u' = false ∧ s_Sent u' = s_Sent u ∧ (length (operations u') < length (operations u) ∨ u' = Stop u).
Proof.
  intros [Hs _] Hrun Hst. destruct (sound_stopped _ Hs Hrun) as [_ Hq].
  assert (Hno : ∀ os1 o os2, operations u = os1 ++ o :: os2 → ¬ queued o → False).
  { intros os1 o os2 Eo Ho. rewrite Eo in Hq. apply Forall_app in Hq as [_ Hq]. by apply Forall_cons in Hq as [? _]. }
  assert (Hlen : ∀ os1 o os2, operations u = os1 ++ o :: os2 → length (os1 ++ os2) < length (operations u)).
  { intros os1 o os2 ->. rewrite !length_app. simpl. lia. }
  destruct Hst as [u os1 os2 e d Eo|u os1 os2 ec Eo|u os1 os2 Eo|u u' os1 os2 ec n c r Eo _ Hc Hr Hk|u os1 os2 ec c Eo _|u].
  1-3: exfalso; eapply Hno; [exact Eo|by intros []].
  - destruct (handles_stopped _ _ _ _ _ _ (sound_without _ _ _ _ Eo Hs) (sound_sizes _ Hs ec n ltac:(rewrite Eo; set_solver)) Hr Hrun Hc Hk)
      as (E1 & E2 & E3). split_and!; [done|done|]. left. rewrite E3. by eapply Hlen.
  - unfold on_wait. assert (Er : m_IsRunning_ (with_operations (os1 ++ os2) u) = false) by done. rewrite Er.
    destruct ec; split_and!; try done; left; by eapply Hlen.
  - by split_and!; [..|right].
Qed.

(** ** A deaf server recovers *)

Definition opens c : Prop := socket_opens c = true.

Definition steady (t : Z) : Readings :=
  {| now_lookup := t; now_evict := t; now_insert := t; shuffled := []; fuel := 0; partial := [] |}.

Definition working : SystemCalls := {| send_error := Some other_error; socket_opens := true |}.

Lemma pending_last os : Pending ∈ os ++ [Pending].
Proof. set_solver. Qed.

Lemma Receive_running u : m_IsRunning_ (Receive u) = m_IsRunning_ u.
Proof. unfold Receive. by destruct (m_IsRunning_ u) eqn:Er. Qed.

Lemma Receive_open u : m_IsRunning_ u = true → m_Socket_ u = true → Pending ∈ operations (Receive u).
Proof. intros Er Es. unfold Receive. rewrite Er, Es, async_start_open. apply pending_last. Qed.

Lemma ReopenSocket_open c u : m_IsRunning_ u = true → opens c → m_IsRunning_ (ReopenSocket c u) = true ∧ Pending ∈ operations (ReopenSocket c u).
Proof.
  intros Er Eo. unfold ReopenSocket. rewrite Er, Eo. split; [|by apply Receive_open]. by rewrite Receive_running.
Qed.

Lemma split_operation o u : o ∈ operations u → ∃ os1 os2, operations u = os1 ++ o :: os2.
Proof. apply list_elem_of_split. Qed.

(** A fatal error, or a timer, is one handler away from a new socket. *)
Lemma recovers_fatal u ec n :
  good u → m_IsRunning_ u = true → is_fatal ec = true → Completed (Some ec) n ∈ operations u →
  ∃ u', step opens u u' ∧ m_IsRunning_ u' = true ∧ Pending ∈ operations u'.
Proof.
  intros Hg Hrun Hf (os1 & os2 & Eo)%split_operation. exists (ReopenSocket working (with_operations (os1 ++ os2) u)).
  split; [|by apply ReopenSocket_open].
  eapply (step_receive _ _ _ _ opens u _ os1 os2 (Some ec) n working (steady (m_Clock u))); [done..| |].
  - by split_and!.
  - exists 0. intros k _. cbn [UdpServer.on_receive]. by rewrite Hf.
Qed.

Lemma recovers_waited u :
  m_IsRunning_ u = true → Waited None ∈ operations u → ∃ u', step opens u u' ∧ m_IsRunning_ u' = true ∧ Pending ∈ operations u'.
Proof.
  intros Hrun (os1 & os2 & Eo)%split_operation. exists (on_wait working None (with_operations (os1 ++ os2) u)).
  split; [by eapply (step_wait _ _ _ _ opens u os1 os2 None working)|].
  unfold on_wait. assert (Er : m_IsRunning_ (with_operations (os1 ++ os2) u) = true) by done. rewrite Er.
  by apply ReopenSocket_open.
Qed.

(** The handler of an operation that completed otherwise receives again on the socket it finds. *)
Lemma handles_receive u ec n :
  sound u → n ≤ DEFAULT_DNS_PACKET_SIZE → match ec with Some e => is_fatal e = false | None => True end →
  ∃ u1, m_IsRunning_ u1 = m_IsRunning_ u ∧ m_Socket_ u1 = m_Socket_ u ∧ handles working (steady (m_Clock u)) ec n u (Receive u1).
Proof.
  intros Hs Hn Hec. destruct ec as [ec|].
  - exists u. split; [done|]. split; [done|]. exists 0. intros k _. cbn [UdpServer.on_receive]. by rewrite Hec.
  - destruct (handles_datagram working (steady (m_Clock u)) n u Hs Hn) as (o & s & _ & _ & _ & Hk); [by split_and!|].
    eexists. split; [|split; [|exact Hk]]; by destruct o.
Qed.

Lemma recovers_completed u ec n :
  good u → m_IsRunning_ u = true → Completed ec n ∈ operations u →
  ∃ u', rtc (step opens) u u' ∧ m_IsRunning_ u' = true ∧ Pending ∈ operations u'.
Proof.
  intros Hg Hrun Hin.
  destruct (match ec with Some e => is_fatal e | None => false end) eqn:Ef.
  { destruct ec as [e|]; [|done]. destruct (recovers_fatal u e n Hg Hrun Ef Hin) as (u' & Hst & Hu').
    exists u'. split; [by apply rtc_once|done]. }
  apply split_operation in Hin as Hsp. destruct Hsp as (os1 & os2 & Eo). destruct Hg as [Hs Hl].
  set (u0 := with_operations (os1 ++ os2) u).
  destruct (handles_receive u0 ec n) as (u1 & Er & Es & Hk).
  { by eapply sound_without. }
  { by eapply sound_sizes. }
  { by destruct ec. }
  assert (Hst : step opens u (Receive u1)).
  { eapply (step_receive _ _ _ _ opens u _ os1 os2 ec n working (steady (m_Clock u))); [done..| |exact Hk]. by split_and!. }
  destruct (m_Socket_ u) eqn:Esock.
  - exists (Receive u1). split; [by apply rtc_once|]. cbn in Er, Es. rewrite Receive_running. split; [congruence|].
    apply Receive_open; congruence.
  - assert (Hg' : good (Receive u1)) by (eapply step_good; [|exact Hst]; by split).
    destruct (recovers_fatal (Receive u1) bad_descriptor 0 Hg') as (u' & Hst' & Hu'); cbn in Er, Es.
    + rewrite Receive_running. congruence.
    + done.
    + unfold Receive. rewrite Er, Hrun, Es, Esock, async_start_closed. set_solver.
    + exists u'. split; [|done]. eapply rtc_l; [exact Hst|]. by apply rtc_once.
Qed.

Lemma recovers u :
  good u → m_IsRunning_ u = true → ∃ u', rtc (step opens) u u' ∧ m_IsRunning_ u' = true ∧ Pending ∈ operations u'.
Proof.
  intros Hg Hrun. pose proof Hg as [Hs Hl]. apply (proj1 (Exists_exists _ _)) in Hl as (o & Hin & Ho); [|done].
  destruct o as [|ec n| |[ec|]]; [by exists u|by eapply recovers_completed| |done|].
  - destruct (split_operation _ _ Hin) as (os1 & os2 & Eo). set (u1 := with_operations (os1 ++ Waited None :: os2) u).
    destruct (recovers_waited u1) as (u' & Hst & Hu'); [done|cbn; set_solver|]. exists u'. split; [|done].
    eapply rtc_l; [by eapply step_expired|]. by apply rtc_once.
  - destruct (recovers_waited u Hrun Hin) as (u' & Hst & Hu'). exists u'. split; [by apply rtc_once|done].
Qed.


(** ** Answers and their senders *)

(** No send fails in a way that makes the server open a new socket. *)
Definition calm c : Prop := ∀ ec, send_error c = Some ec → is_fatal ec = false.

(** Then a running server has exactly one operation, and its socket is open while it receives. *)
Definition single u : Prop :=
  m_IsRunning_ u = true → ∃ o, operations u = [o] ∧ live o ∧ (∀ ec n, o = Completed ec n → ec = None → m_Socket_ u = true).

Lemma single_only u os1 o os2 : single u → m_IsRunning_ u = true → operations u = os1 ++ o :: os2 → os1 = [] ∧ os2 = [].
Proof.
  intros Hu Hrun Eo. destruct (Hu Hrun) as (o' & Eo' & _). rewrite Eo in Eo'. destruct os1 as [|? [|? ?]]; simplify_eq/=; done.
Qed.

Lemma Receive_single u : operations u = [] → single (Receive u).
Proof.
  intros Eo. unfold Receive. destruct (m_IsRunning_ u) eqn:Er; [|intros Hr; congruence]. intros _. rewrite Eo. cbn.
  eexists. split; [done|]. split; [apply async_start_live|]. intros ec n. destruct (m_Socket_ u); [done|].
  rewrite async_start_closed. by intros [= <- _].
Qed.

Lemma ReopenSocket_single c u : operations u = [] → single (ReopenSocket c u).
Proof.
  intros Eo. unfold ReopenSocket. destruct (m_IsRunning_ u) eqn:Er; [|intros Hr; congruence]. cbv zeta.
  destruct (socket_opens c); [apply Receive_single; cbn; by rewrite Eo|]. intros _. cbn. rewrite Eo. by exists Waiting.
Qed.

Lemma SendTo_calm c w u : calm c → SendTo c w u =
  match send_error c with None => with_Sent (s_Sent u ++ [(m_SenderEndpoint_ u, w)]) u | Some _ => u end.
Proof. intros Hc. unfold SendTo. destruct (send_error c) as [ec|] eqn:Ec; [|done]. by rewrite (Hc ec Ec). Qed.

Lemma handles_single c r ec n u u' :
  calm c → sound u → n ≤ DEFAULT_DNS_PACKET_SIZE → readings_ok (m_Clock u) r → operations u = [] → handles c r ec n u u' → single u'.
Proof.
  intros Hc Hs Hn Hr Eo Hk. destruct ec as [ec|].
  - rewrite (handles_error _ _ _ _ _ _ Hk). destruct (is_fatal ec); [by apply ReopenSocket_single|by apply Receive_single].
  - destruct (handles_datagram c r n u Hs Hn Hr) as (o & s & _ & _ & _ & Hk'). rewrite (handles_unique _ _ _ _ _ _ _ Hk Hk').
    apply Receive_single. destruct o as [w|]; [|done]. rewrite SendTo_calm by done. by destruct (send_error c).
Qed.

Lemma step_single u u' : good u → single u → step calm u u' → single u'.
Proof.
  intros Hg Hu Hst. destruct Hst as [u os1 os2 e d Eo|u os1 os2 ec Eo|u os1 os2 Eo|u u' os1 os2 ec n c r Eo Hc Hsock Hr Hk|u os1 os2 ec c Eo Hc|u].
  - intros Hrun. destruct (single_only _ _ _ _ Hu Hrun Eo) as [-> ->]. cbn. eexists. split; [done|]. split; [done|].
    intros _ _ _ _. apply Hg. rewrite Eo. set_solver.
  - intros Hrun. destruct (single_only _ _ _ _ Hu Hrun Eo) as [-> ->]. cbn. eexists. split; [done|]. split; [done|].
    by intros ? ? [= <- _].
  - intros Hrun. destruct (single_only _ _ _ _ Hu Hrun Eo) as [-> ->]. cbn. by eexists.
  - pose proof (proj1 Hg) as Hs. pose proof (sound_without _ _ _ _ Eo Hs) as Hs'.
    pose proof (sound_sizes _ Hs ec n ltac:(rewrite Eo; set_solver)) as Hn. destruct (m_IsRunning_ u) eqn:Er.
    + destruct (single_only _ _ _ _ Hu Er Eo) as [-> ->]. exact (handles_single c r ec n _ u' Hc Hs' Hn Hr eq_refl Hk).
    + intros Hr'. exfalso. assert (Hst : step (λ _, True) u u').
      { eapply (step_receive _ _ _ _ (λ _, True)); [exact Eo|exact I|exact Hsock|exact Hr|exact Hk]. }
      destruct (stopped_rests _ _ _ Hg Er Hst) as (E' & _). congruence.
  - intros Hrun. unfold on_wait in *. destruct ec as [ec|].
    + cbn in Hrun. destruct (single_only _ _ _ _ Hu Hrun Eo) as [-> ->]. destruct (Hu Hrun) as (o & Eo' & Hl & _).
      rewrite Eo in Eo'. by injection Eo' as <-.
    + destruct (m_IsRunning_ (with_operations (os1 ++ os2) u)) eqn:Er; [|congruence].
      destruct (single_only _ _ _ _ Hu Er Eo) as [-> ->]. by apply ReopenSocket_single.
  - intros Hrun. done.
Qed.

Lemma calm_good e s t u : server_ok t s → rtc (step calm) (make e s t) u → good u ∧ single u.
Proof.
  intros Hs. revert u. apply rtc_ind_r.
  - split; [by apply make_good|]. by apply Receive_single.
  - intros u u' _ Hst [Hg Hu]. split; [by eapply step_good|by eapply step_single].
Qed.

(** C5: as long as no send fails fatally, what the UDP server sends goes to the sender of the
    datagram it answers.  In every state that is so reachable, a running server has exactly
    one operation outstanding; and when a datagram arrives, the loop's next step is either the
    stop, or the handler.  For a datagram of at least 12 bytes, the handler has what its first
    512 bytes are to be answered with (as for [datagram_answered], which may be nothing) and
    sends that to the datagram's sender, once, or nothing when this send fails (not fatally,
    as assumed); for a shorter datagram it sends nothing; then it receives again. *)
Theorem udp_answers_sender e0 s t u :
  server_ok t s → rtc (step calm) (make e0 s t) u → m_IsRunning_ u = true →
  (∃ o, operations u = [o] ∧ live o) ∧
  ∀ e d u1 u2,
    operations u = [Pending] →
    u1 = with_datagram e d (with_operations [Completed None (min (length d) DEFAULT_DNS_PACKET_SIZE)] u) →
    step calm u u1 ∧
    (step calm u1 u2 →
     u2 = Stop u1 ∨
     ∃ c r o, calm c ∧ readings_ok (m_Clock u) r ∧
       (12 ≤ length d → take 12 (m_Data_ u1) = take 12 d ∧
          sent DefaultTtl g_Zones DohOnly m_DohQuery_ FinishUdp r (m_Data_ u1) (min (length d) DEFAULT_DNS_PACKET_SIZE) o) ∧
       (length d < 12 → o = None) ∧
       s_Sent u2 = s_Sent u ++ match o, send_error c with Some w, None => [(e, w)] | _, _ => [] end ∧
       m_IsRunning_ u2 = true ∧ operations u2 = [Pending]).
Proof.
  intros Hs Hu Hrun. destruct (calm_good _ _ _ _ Hs Hu) as [Hg Hsingle].
  split; [destruct (Hsingle Hrun) as (o & ? & ? & _); by exists o|].
  intros e d u1 u2 Eo Eu1. pose proof Hg as [[S1 S2 S3 S4 S5] _].
  assert (Hst1 : step calm u u1).
  { rewrite Eu1, <- S2. exact (step_datagram _ _ _ _ calm u [] [] e d Eo). }
  split; [done|]. intros Hst. assert (Hg1 : good u1) by by eapply step_good.
  assert (Eo1 : operations u1 = [Completed None (min (length d) DEFAULT_DNS_PACKET_SIZE)]) by by rewrite Eu1.
  assert (Hopen : m_Socket_ u1 = true) by (rewrite Eu1; apply S4; rewrite Eo; set_solver).
  assert (Hsplit : ∀ os1 o os2, operations u1 = os1 ++ o :: os2 →
    os1 = [] ∧ os2 = [] ∧ o = Completed None (min (length d) DEFAULT_DNS_PACKET_SIZE)).
  { intros os1 o os2 E'. rewrite Eo1 in E'. destruct os1 as [|? [|? ?]]; by simplify_eq/=. }
  destruct Hst as [u1 os1 os2 e' d' E'|u1 os1 os2 ec E'|u1 os1 os2 E'|u1 u2 os1 os2 ec n c r E' Hc _ Hr Hk|u1 os1 os2 ec c E' _|u1];
    try (by destruct (Hsplit _ _ _ E') as (_ & _ & [=])); [|by left].
  right. destruct (Hsplit _ _ _ E') as (-> & -> & [= -> ->]).
  assert (Hn : min (length d) DEFAULT_DNS_PACKET_SIZE ≤ DEFAULT_DNS_PACKET_SIZE) by lia.
  destruct (handles_datagram c r _ _ (sound_without _ [] _ [] E' (proj1 Hg1)) Hn Hr) as (o & s' & _ & Ho1 & Ho2 & Hk').
  rewrite (handles_unique _ _ _ _ _ _ _ Hk Hk'). exists c, r, o.
  set (u3 := with_Shared s' (now_insert r) _) in *.
  assert (E3 : ∃ u4, match o with Some w => SendTo c w u3 | None => u3 end = u4 ∧ m_IsRunning_ u4 = true ∧ m_Socket_ u4 = true ∧
    operations u4 = [] ∧ s_Sent u4 = s_Sent u ++ match o, send_error c with Some w, None => [(e, w)] | _, _ => [] end).
  { assert (Eu : m_IsRunning_ u3 = true ∧ m_Socket_ u3 = true ∧ operations u3 = [] ∧ s_Sent u3 = s_Sent u ∧ m_SenderEndpoint_ u3 = e)
      by (unfold u3; rewrite Eu1 in *; by split_and!).
    destruct Eu as (? & ? & ? & E4 & E5). eexists. split; [reflexivity|].
    destruct o as [w|]; [|by rewrite app_nil_r]. rewrite SendTo_calm by done. rewrite E5, <- E4.
    destruct (send_error c); [by rewrite app_nil_r|done]. }
  destruct E3 as (u4 & -> & Er4 & Es4 & Eo4 & Et4).
  assert (Ew : DEFAULT_DNS_PACKET_SIZE = 512) by done.
  split_and!; [done|by rewrite Eu1 in Hr| |intros ?; apply Ho2; lia| |by rewrite Receive_running|].
  - intros Hl. split; [|apply Ho1; lia]. rewrite Eu1. cbn [m_Data_ with_datagram with_operations]. rewrite S2, Ew.
    rewrite take_app_le by (rewrite length_take; lia). by rewrite take_take.
  - unfold Receive. by rewrite Er4.
  - unfold Receive. rewrite Er4, Es4, async_start_open. cbn. by rewrite Eo4.
Qed.
End facts.

(** ** Examples *)

Section examples.
  #[local] Existing Instance x86_64.
  #[local] Existing Instance key_order.

Abbreviation example_step := (step (E:=nat) 3600 example_zones false example_client).

Definition example_udp : UdpServer nat network := make 0 example_server 0.


Lemma udp_answers_sender_witness :
  (∃ o, operations example_udp = [o] ∧ live o) ∧
  ∀ u2,
    let u1 := with_datagram 7 example_datagram (with_operations [Completed None 34] example_udp) in
    example_step calm u1 u2 → u2 = Stop u1 ∨ m_IsRunning_ u2 = true ∧ operations u2 = [Pending].
Proof.
  destruct (udp_answers_sender 3600 example_zones false example_client example_patterns_ok 0 example_server 0 example_udp
    example_server_ok ltac:(apply rtc_refl) eq_refl) as [Ho Ha]. split; [exact Ho|]. intros u2 u1 Hst.
  destruct (Ha 7 example_datagram u1 u2 eq_refl eq_refl) as [_ Hs].
  destruct (Hs Hst) as [?|(c & r & o & _ & _ & _ & _ & _ & Er & Eo)]; [by left|by right].
Defined.

(** After one send that fails fatally the handler receives twice: once for the new socket and
    once at its end.  From then on two receives share the buffer and the endpoint: here the
    datagrams of the clients 1 and 2 both arrive before a handler runs, client 2 gets its own
    answer twice and client 1 none. *)
Definition header_only (b : byte) : bytes := b :: b :: repeat x00 10.

Definition broken_send : SystemCalls := {| send_error := Some bad_descriptor; socket_opens := true |}.
Definition good_send : SystemCalls := {| send_error := None; socket_opens := true |}.

Example udp_shared_buffer :
  let handle c := on_receive (E:=nat) 3600 example_zones false example_client c (steady 0) None 12 in
  let arrive e b os u := with_datagram e (header_only b) (with_operations os u) in
  (u1 ← handle broken_send (arrive 0 x00 [] example_udp);
   let u2 := arrive 2 x02 [Completed None 12; Completed None 12] (arrive 1 x01 [Completed None 12; Pending] u1) in
   u3 ← handle good_send (with_operations [Completed None 12] u2);
   u4 ← handle good_send (with_operations [Pending] u3);
   Done (operations u1, operations u4, (λ '(e, w), (e, take 2 w)) <$> s_Sent u4)) =
  Done ([Pending; Pending], [Pending; Pending], [(2, [x02; x02]); (2, [x02; x02])]).
Proof. by vm_compute. Qed.

(** A datagram longer than the buffer is cut, not dropped: the size check never fires. *)
Example udp_oversize : ∃ u, example_step calm example_udp u ∧ operations u = [Completed None DEFAULT_DNS_PACKET_SIZE].
Proof.
  eexists. split; [by eapply (step_datagram _ _ _ _ _ example_udp [] [] 1 (repeat x00 600))|]. by vm_compute.
Qed.
End examples.
