(* ===== verification/TcpServer.v ===== *)
(** * The TCP server's life (src/src/tcp_server.cc)

    The acceptor, its timer, and the sessions of all accepted connections over the shared
    state.  The event loop runs one handler after the other; between them connections,
    bytes and errors arrive in any order ([step]).  A running server always has
    exactly one accept or wait outstanding, and however the sessions interleave, each of
    them answers its own queries in order, as long as the system takes each answer
    whole: [Send] passes a buffer to [async_write] that does not outlive the call. *)

From Stdlib Require Import ZArith Lia.
From Stdlib Require Import Strings.Byte Strings.String.
From stdpp Require Import base numbers list option sets gmap relations.
From S2P Require Import Prelude.
From S2P Require Import Stateful.
From S2P Require Import Memory.
From S2P Require Import DnsHeader.
From S2P Require Import DnsRequestPacket.
From S2P Require Import DnsCache.
From S2P Require Import DnsResponse.
From S2P Require Import ResponseFacts.
From S2P Require Import ResponseSafety.
From S2P Require Import SampleJson.
From S2P Require Import Doh.
From S2P Require Import DnsParser.
From S2P Require Import LocalDns.
From S2P Require Import SampleRegex.
From S2P Require Import LocalFacts.
From S2P Require Import Server.
From S2P Require Import ServerFacts.
From S2P Require Import Asio.

(** The outstanding read of a session; none once it has ended. *)
Inductive reading : Type := ReadingLength | ReadingMessage (p_MessageLength : nat) | Ended.

(** A session: the bytes its client has sent, read and not yet read; the outstanding read; the
    bytes written; the writes that are not finished, whose buffers are gone; and whether the
    system has taken every message whole so far. *)
Record Session : Type := {
  s_Done : bytes;
  s_In : bytes;
  s_Read : reading;
  s_Out : bytes;
  s_Unfinished : list nat;
  s_Whole : bool
}.

(** How a write starts: the system takes some bytes at once and the rest is left for later, or
    the write fails after some bytes. *)
Inductive write_result : Type := Takes (n : nat) | Breaks (n : nat).

Definition whole (x : write_result) (s_Message : bytes) : bool :=
  match x with Takes n => length s_Message <=? n | Breaks _ => false end.

Definition Start (s_Input : bytes) : Session :=
  {| s_Done := []; s_In := s_Input; s_Read := ReadingLength; s_Out := []; s_Unfinished := []; s_Whole := true |}.

Section session.
  Implicit Types (x : Session).

Definition with_Read (s_Reading : reading) x : Session :=
  {| s_Done := s_Done x; s_In := s_In x; s_Read := s_Reading; s_Out := s_Out x; s_Unfinished := s_Unfinished x; s_Whole := s_Whole x |}.

(** [async_read] of [n] bytes that are there. *)
Definition consume (n : nat) x : Session :=
  {| s_Done := s_Done x ++ take n (s_In x); s_In := drop n (s_In x); s_Read := s_Read x; s_Out := s_Out x;
     s_Unfinished := s_Unfinished x; s_Whole := s_Whole x |}.

Definition arrive (d : bytes) x : Session :=
  {| s_Done := s_Done x; s_In := s_In x ++ d; s_Read := s_Read x; s_Out := s_Out x;
     s_Unfinished := s_Unfinished x; s_Whole := s_Whole x |}.

(** [ReadLength]'s handler. *)
Definition on_length (m_LengthBuf_ : byte * byte) x : Session :=
  let s_MessageLength := Z.to_nat (Z.lor (Z.shiftl (u8 (fst m_LengthBuf_)) 8) (u8 (snd m_LengthBuf_))) in
  if s_MessageLength <? DNS_MIN_PACKET_SIZE then with_Read Ended x else with_Read (ReadingMessage s_MessageLength) x.

(** The [async_write] of [Send]: what is not taken at once is to be read from [s_Message] after
    [Send] has returned. *)
Definition async_write (w : write_result) (s_Message : bytes) x : Session :=
  let n := match w with Takes n | Breaks n => n end in
  {| s_Done := s_Done x; s_In := s_In x; s_Read := s_Read x; s_Out := s_Out x ++ take n s_Message;
     s_Unfinished := match w with Takes n => if whole w s_Message then s_Unfinished x else s_Unfinished x ++ [length s_Message - n]
                                | Breaks _ => s_Unfinished x end;
     s_Whole := s_Whole x && whole w s_Message |}.

(** Going on with an unfinished write reads a buffer that was freed. *)
Definition continue_write x : outcome Session := match s_Unfinished x with [] => Done x | _ => Undef end.
End session.

(** The server object. *)
Record TcpServer {RE : RegexEngine} (W : Type) : Type := {
  m_IsRunning_ : bool;
  m_Acceptor_ : bool;
  m_Shared : Server W;
  m_Clock : Z;
  operations : list operation;
  sessions : list Session
}.
Arguments m_IsRunning_ {_ _} _.
Arguments m_Acceptor_ {_ _} _.
Arguments m_Shared {_ _} _.
Arguments m_Clock {_ _} _.
Arguments operations {_ _} _.
Arguments sessions {_ _} _.

Section server.
  Context {H : Target} {O : HashOrder} {RE : RegexEngine} {J : Type} `{HJ : Json J} `{HZ : !JsonZones J}.
  Context {W : Type} `{HC : Curl W} `{HA : Asio}.
  Context (DefaultTtl : Z) (g_Zones : J) (DohOnly : bool) (m_DohQuery_ : Doh.DnsOverHttps).
  Implicit Types (u : TcpServer W) (r : Readings) (x : Session).

Definition with_operations (os : list operation) u : TcpServer W :=
  {| m_IsRunning_ := m_IsRunning_ u; m_Acceptor_ := m_Acceptor_ u; m_Shared := m_Shared u; m_Clock := m_Clock u;
     operations := os; sessions := sessions u |}.

Definition with_Acceptor (b : bool) u : TcpServer W :=
  {| m_IsRunning_ := m_IsRunning_ u; m_Acceptor_ := b; m_Shared := m_Shared u; m_Clock := m_Clock u;
     operations := operations u; sessions := sessions u |}.

Definition with_sessions (xs : list Session) u : TcpServer W :=
  {| m_IsRunning_ := m_IsRunning_ u; m_Acceptor_ := m_Acceptor_ u; m_Shared := m_Shared u; m_Clock := m_Clock u;
     operations := operations u; sessions := xs |}.

Definition with_Shared (s : Server W) (t : Z) u : TcpServer W :=
  {| m_IsRunning_ := m_IsRunning_ u; m_Acceptor_ := m_Acceptor_ u; m_Shared := s; m_Clock := t;
     operations := operations u; sessions := sessions u |}.

Definition IsRunning (p_Input : bool) u : TcpServer W :=
  {| m_IsRunning_ := p_Input; m_Acceptor_ := m_Acceptor_ u; m_Shared := m_Shared u; m_Clock := m_Clock u;
     operations := operations u; sessions := sessions u |}.

Definition close_acceptor u : TcpServer W := with_Acceptor false (with_operations (close <$> operations u) u).
Definition cancel_timer u : TcpServer W := with_operations (cancel <$> operations u) u.

Definition Accept u : TcpServer W :=
  if m_IsRunning_ u then with_operations (operations u ++ [async_start (m_Acceptor_ u)]) u else u.

Definition ReopenAcceptor (opens : bool) u : TcpServer W :=
  if m_IsRunning_ u then
    let u := close_acceptor u in
    if opens then Accept (with_Acceptor true u)
    else let u := cancel_timer u in with_operations (operations u ++ [Waiting]) u
  else u.

(** The handler that [Accept] passes to [async_accept]; a new session may have bytes already. *)
Definition on_accept (opens : bool) (s_Input : bytes) (p_ErrorCode : option error_code) u : TcpServer W :=
  match p_ErrorCode with
  | None => Accept (with_sessions (sessions u ++ [Start s_Input]) u)
  | Some ec => if is_fatal ec then ReopenAcceptor opens u else Accept u
  end.

(** The handler that [ReopenAcceptor] passes to [async_wait]. *)
Definition on_wait (opens : bool) (ec : option error_code) u : TcpServer W :=
  match ec with None => if m_IsRunning_ u then ReopenAcceptor opens u else u | Some _ => u end.

Definition Stop u : TcpServer W := close_acceptor (cancel_timer (IsRunning false u)).

(** The constructor, once the acceptor is bound. *)
Definition make (s : Server W) (t : Z) : TcpServer W :=
  Accept {| m_IsRunning_ := true; m_Acceptor_ := true; m_Shared := s; m_Clock := t; operations := []; sessions := [] |}.

(** [ReadMessage]'s handler: the answer is written, and the next length is read. *)
Definition on_message r (w : write_result) (m_Data_ : bytes) x (s : Server W) : outcome (Session * Server W) :=
  match TcpMessage DefaultTtl g_Zones DohOnly m_DohQuery_ r m_Data_ s with
  | (Done s_Message, s) =>
      let x := match s_Message with [] => x | _ => async_write w s_Message x end in
      Done (with_Read ReadingLength x, s)
  | (Throw e, _) => Throw e
  | (Undef, _) => Undef
  | (Unfinished, _) => Unfinished
  | (Aborted, _) => Aborted
  end.

(** ** Steps of the event loop *)

Definition answers r w (m : bytes) x s x' s' : Prop :=
  ∃ bound, ∀ k, bound ≤ k → on_message (with_fuel k r) w m x s = Done (x', s').

Inductive step : TcpServer W → TcpServer W → Prop :=
  (* the acceptor and its timer *)
  | step_completed u os1 os2 ec :
      operations u = os1 ++ Pending :: os2 → step u (with_operations (os1 ++ Completed ec 0 :: os2) u)
  | step_expired u os1 os2 :
      operations u = os1 ++ Waiting :: os2 → step u (with_operations (os1 ++ Waited None :: os2) u)
  | step_accept u os1 os2 ec n opens d :
      operations u = os1 ++ Completed ec n :: os2 → step u (on_accept opens d ec (with_operations (os1 ++ os2) u))
  | step_wait u os1 os2 ec opens :
      operations u = os1 ++ Waited ec :: os2 → step u (on_wait opens ec (with_operations (os1 ++ os2) u))
  | step_stop u : step u (Stop u)
  (* a session *)
  | step_arrive u xs1 x xs2 d :
      sessions u = xs1 ++ x :: xs2 → step u (with_sessions (xs1 ++ arrive d x :: xs2) u)
  | step_length u xs1 x xs2 b0 b1 rest :
      sessions u = xs1 ++ x :: xs2 → s_Read x = ReadingLength → s_In x = b0 :: b1 :: rest →
      step u (with_sessions (xs1 ++ on_length (b0, b1) (consume 2 x) :: xs2) u)
  | step_message u xs1 x xs2 n r w x' s' :
      sessions u = xs1 ++ x :: xs2 → s_Read x = ReadingMessage n → n ≤ length (s_In x) →
      readings_ok (m_Clock u) r → answers r w (take n (s_In x)) (consume n x) (m_Shared u) x' s' →
      step u (with_sessions (xs1 ++ x' :: xs2) (with_Shared s' (now_insert r) u))
  | step_read_error u xs1 x xs2 :
      sessions u = xs1 ++ x :: xs2 → s_Read x ≠ Ended → step u (with_sessions (xs1 ++ with_Read Ended x :: xs2) u).
End server.

(** ** The invariant *)

Section facts.
  Context {H : Target} {O : HashOrder} {RE : RegexEngine} `{!RegexLaws} {J : Type}
    `{HJ : Json J} `{!JsonLaws J} `{HZ : !JsonZones J} `{!JsonZonesLaws J}.
  Context {W : Type} `{HC : Curl W} `{!CurlLaws W} `{!CurlProgress W} `{HA : Asio} `{!AsioLaws}.
  Context (DefaultTtl : Z) (g_Zones : J) (DohOnly : bool) (m_DohQuery_ : Doh.DnsOverHttps).
  Context (Hpat : patterns_ok g_Zones).
  Implicit Types (u : TcpServer W) (r : Readings) (x : Session).

Abbreviation step := (step DefaultTtl g_Zones DohOnly m_DohQuery_).
Abbreviation answers := (answers DefaultTtl g_Zones DohOnly m_DohQuery_).

(** *** The acceptor *)

(** A running server has exactly one operation, which leads to the next; a stopped one has only
    handlers in the queue. *)
Record listening u : Prop := {
  listening_shared : server_ok (m_Clock u) (m_Shared u);
  listening_open : m_IsRunning_ u = true → ∀ o, o ∈ operations u → o ≠ Waiting → o ≠ Waited None → m_Acceptor_ u = true;
  listening_single : m_IsRunning_ u = true → ∃ o, operations u = [o] ∧ live o;
  listening_stopped : m_IsRunning_ u = false → m_Acceptor_ u = false ∧ Forall queued (operations u)
}.

(** Inside the handler of that operation. *)
Record handling u : Prop := {
  handling_shared : server_ok (m_Clock u) (m_Shared u);
  handling_none : m_IsRunning_ u = true → operations u = [];
  handling_stopped : m_IsRunning_ u = false → m_Acceptor_ u = false ∧ Forall queued (operations u)
}.

Lemma Accept_listening u : handling u → (m_IsRunning_ u = true → m_Acceptor_ u = true) → listening (Accept u).
Proof.
  intros [S1 S2 S3] Ho. unfold Accept. destruct (m_IsRunning_ u) eqn:Er.
  - specialize (S2 eq_refl). specialize (Ho eq_refl). split; cbn; [done|..]; rewrite S2.
    + done.
    + intros _. eexists. split; [done|]. apply async_start_live.
    + congruence.
  - split; [done|congruence|congruence|by intros _; apply S3].
Qed.

Lemma ReopenAcceptor_listening b u : handling u → listening (ReopenAcceptor b u).
Proof.
  intros Hh. unfold ReopenAcceptor. destruct (m_IsRunning_ u) eqn:Er.
  - destruct Hh as [S1 S2 _]. specialize (S2 Er). cbv zeta. destruct b.
    + apply Accept_listening; [|done]. split; cbn; [done|by rewrite S2|congruence].
    + split; cbn; [done|..]; rewrite S2; cbn.
      * by intros _ o ->%list_elem_of_singleton.
      * intros _. by exists Waiting.
      * congruence.
  - destruct Hh as [S1 S2 S3]. by split; [|congruence..|].
Qed.

Lemma listening_without u os1 o os2 : operations u = os1 ++ o :: os2 → listening u → handling (with_operations (os1 ++ os2) u).
Proof.
  intros Eo [S1 S2 S3 S4]. split; cbn; [done|..].
  - intros Hr. destruct (S3 Hr) as (o' & E & _). rewrite Eo in E. destruct os1 as [|? [|? ?]]; by simplify_eq/=.
  - intros Hr. destruct (S4 Hr) as [? Hq]. split; [done|]. rewrite Eo in Hq. apply Forall_app in Hq as [? Hq].
    apply Forall_cons in Hq as [_ ?]. by apply Forall_app.
Qed.

Lemma complete_listening u os1 o os2 o' :
  operations u = os1 ++ o :: os2 → ¬ queued o → live o' → (o = Pending ∨ o' = Waited None) → listening u →
  listening (with_operations (os1 ++ o' :: os2) u).
Proof.
  intros Eo Hq Hl Hp [S1 S2 S3 S4].
  assert (Hone : m_IsRunning_ u = true → os1 = [] ∧ os2 = []).
  { intros Hr. destruct (S3 Hr) as (o1 & E & _). rewrite Eo in E. by destruct os1 as [|? [|? ?]]; simplify_eq/=. }
  split; cbn; [done|..].
  - intros Hr o1 Ho Hw Hw'. destruct (Hone Hr) as [-> ->]. cbn in Ho. apply list_elem_of_singleton in Ho as ->.
    destruct Hp as [->|?]; [|done]. apply (S2 Hr Pending); [rewrite Eo; set_solver|done..].
  - intros Hr. destruct (Hone Hr) as [-> ->]. by eexists.
  - intros Hr. destruct (S4 Hr) as [_ HF]. rewrite Eo in HF. apply Forall_app in HF as [_ HF]. by apply Forall_cons in HF as [? _].
Qed.

Lemma with_sessions_listening xs u : listening u → listening (with_sessions xs u).
Proof. intros [S1 S2 S3 S4]. by split. Qed.

(** *** The sessions *)

(** A query that was answered: the readings of its handler, its bytes, and what was sent. *)
Abbreviation entry := (Readings * bytes * option bytes)%type.

Definition answered (a : entry) : Prop :=
  let '(r, m, o) := a in
  12 ≤ length m ∧ (Z.of_nat (length m) ≤ 65535)%Z ∧ sent DefaultTtl g_Zones DohOnly m_DohQuery_ FinishTcp r m (length m) o.

Definition query_frame (a : entry) : bytes := TcpFrame a.1.2.
Definition answer_frame (a : entry) : bytes := match a.2 with Some w => TcpFrame w | None => [] end.

Definition length_of (b0 b1 : byte) : nat := Z.to_nat (Z.lor (Z.shiftl (u8 b0) 8) (u8 b1)).

(** What has been read of the query in progress. *)
Definition in_progress (s_Reading : reading) (part : bytes) : Prop :=
  match s_Reading with
  | ReadingLength => part = []
  | ReadingMessage n => 12 ≤ n ∧ ∃ b0 b1, part = [b0; b1] ∧ n = length_of b0 b1
  | Ended => length part ≤ 2
  end.

Definition session_ok x : Prop :=
  ∃ log part, Forall answered log ∧ s_Done x = concat (query_frame <$> log) ++ part ∧ in_progress (s_Read x) part ∧
    (s_Whole x = true → s_Unfinished x = [] ∧ s_Out x = concat (answer_frame <$> log)).

Lemma length_of_eq b0 b1 : Z.of_nat (length_of b0 b1) = (u8 b0 * 256 + u8 b1)%Z.
Proof.
  pose proof (u8_range b0). pose proof (u8_range b1). unfold length_of.
  rewrite (lor_shiftl (u8 b0) (u8 b1) 8) by (change (2 ^ 8)%Z with 256%Z; lia). change (2 ^ 8)%Z with 256%Z. lia.
Qed.

(** The bytes of a length and a message of that length are the message's frame. *)
Lemma frame_of b0 b1 (m : bytes) : length m = length_of b0 b1 → TcpFrame m = b0 :: b1 :: m.
Proof.
  intros Em. pose proof (u8_range b0). pose proof (u8_range b1). unfold TcpFrame. rewrite Em, length_of_eq. cbv zeta.
  rewrite !land_255, Z.shiftr_div_pow2 by done. change (2 ^ 8)%Z with 256%Z.
  rewrite Z.div_add_l, (Z.div_small (u8 b1)), Z.add_0_r by lia.
  rewrite (Z.mod_small (u8 b0)) by lia. rewrite Z.add_comm, Z.mod_add, Z.mod_small by lia. by rewrite !ch_u8.
Qed.

Lemma Start_ok d : session_ok (Start d).
Proof. by exists [], []. Qed.

Lemma arrive_ok d x : session_ok x → session_ok (arrive d x).
Proof. done. Qed.

Lemma read_error_ok x : session_ok x → session_ok (with_Read Ended x).
Proof.
  intros (log & part & HL1 & HL2 & HL3 & HL4). exists log, part. split_and!; [done|done| |done]. cbn.
  destruct (s_Read x); cbn in HL3; [subst part; simpl; lia| |done]. destruct HL3 as (_ & b0 & b1 & -> & _). simpl. lia.
Qed.

Lemma on_length_ok x b0 b1 rest :
  s_Read x = ReadingLength → s_In x = b0 :: b1 :: rest → session_ok x → session_ok (on_length (b0, b1) (consume 2 x)).
Proof.
  intros Er Ei (log & part & HL1 & HL2 & HL3 & HL4). rewrite Er in HL3. cbn in HL3. subst part. rewrite app_nil_r in HL2.
  exists log, [b0; b1]. split_and!; [done| | |].
  - transitivity (s_Done x ++ take 2 (s_In x)); [by unfold on_length; destruct (_ <? _)|]. by rewrite HL2, Ei.
  - unfold on_length. cbn [fst snd]. fold (length_of b0 b1). unfold DNS_MIN_PACKET_SIZE, HeaderSize.
    destruct (Nat.ltb_spec (length_of b0 b1) 12); [cbn; lia|]. split; [done|]. by exists b0, b1.
  - unfold on_length. by destruct (_ <? _).
Qed.

(** The handler of a message ends, and what it leaves. *)
Lemma message_ok x n r w t (s : Server W) :
  s_Read x = ReadingMessage n → n ≤ length (s_In x) → readings_ok t r → server_ok t s → session_ok x →
  ∃ x' s', answers r w (take n (s_In x)) (consume n x) s x' s' ∧ server_ok (now_insert r) s' ∧ session_ok x'.
Proof.
  intros Er Hn Hr Hs (log & part & HL1 & HL2 & HL3 & HL4). rewrite Er in HL3. destruct HL3 as (Hn12 & b0 & b1 & -> & En).
  set (m := take n (s_In x)). assert (Hm : length m = n) by (unfold m; rewrite length_take; lia).
  destruct (message_runs DefaultTtl g_Zones DohOnly m_DohQuery_ r m t s Hpat Hr ltac:(lia) Hs)
    as (b & out & s' & (Hs' & o & Eout & Ho) & Hk).
  exists (with_Read ReadingLength (match out with [] => consume n x | _ => async_write w out (consume n x) end)), s'.
  split; [exists b; intros k Hle; unfold on_message; by rewrite Hk|]. split; [done|].
  pose proof (length_of_eq b0 b1) as El. pose proof (u8_range b0). pose proof (u8_range b1).
  exists (log ++ [(r, m, o)]), []. split_and!.
  - apply Forall_app. split; [done|]. apply Forall_singleton. split; [lia|]. split; [lia|done].
  - transitivity (s_Done x ++ m); [by destruct out|]. rewrite HL2, fmap_app, concat_app. cbn [fmap list_fmap concat]. unfold query_frame. cbn [fst snd].
    rewrite (frame_of b0 b1) by lia. by rewrite !app_nil_r, <- app_assoc.
  - by destruct out.
  - rewrite fmap_app, concat_app. cbn [fmap list_fmap concat]. unfold answer_frame at 2. cbn [snd]. rewrite app_nil_r, <- Eout.
    destruct out as [|c out]; [by rewrite app_nil_r|]. cbn [with_Read async_write s_Whole s_Unfinished s_Out consume].
    intros [Hwh Hw]%andb_true_iff. destruct (HL4 Hwh) as [-> ->]. destruct w as [k|k]; [|done]. rewrite Hw. split; [done|].
    cbn [whole] in Hw. apply Nat.leb_le in Hw. by rewrite take_ge.
Qed.

Lemma answers_unique r w m x s x1 s1 x2 s2 : answers r w m x s x1 s1 → answers r w m x s x2 s2 → x1 = x2 ∧ s1 = s2.
Proof.
  intros [b1 Hk1] [b2 Hk2]. specialize (Hk1 (b1 + b2) ltac:(lia)). specialize (Hk2 (b1 + b2) ltac:(lia)).
  rewrite Hk1 in Hk2. by injection Hk2.
Qed.

(** *** Steps *)

Definition good u : Prop := listening u ∧ Forall session_ok (sessions u).

Lemma Accept_sessions u : sessions (Accept u) = sessions u.
Proof. unfold Accept. by destruct (m_IsRunning_ u). Qed.

Lemma ReopenAcceptor_sessions b u : sessions (ReopenAcceptor b u) = sessions u.
Proof. unfold ReopenAcceptor. destruct (m_IsRunning_ u); [|done]. cbv zeta. by destruct b; [rewrite Accept_sessions|]. Qed.

Lemma on_accept_good opens d ec u :
  handling u → (m_IsRunning_ u = true → m_Acceptor_ u = true) → Forall session_ok (sessions u) → good (on_accept opens d ec u).
Proof.
  intros Hh Ho Hx. unfold on_accept. destruct ec as [ec|].
  - destruct (is_fatal ec).
    + split; [by apply ReopenAcceptor_listening|by rewrite ReopenAcceptor_sessions].
    + split; [by apply Accept_listening|by rewrite Accept_sessions].
  - split; [|rewrite Accept_sessions; apply Forall_app; split; [done|]; apply Forall_singleton, Start_ok].
    apply Accept_listening; [|done]. by destruct Hh.
Qed.

Lemma on_wait_good opens ec u os1 os2 :
  operations u = os1 ++ Waited ec :: os2 → good u → good (on_wait opens ec (with_operations (os1 ++ os2) u)).
Proof.
  intros Eo [Hl Hx]. pose proof (listening_without _ _ _ _ Eo Hl) as Hh.
  assert (Hstop : m_IsRunning_ u = false → listening (with_operations (os1 ++ os2) u)).
  { intros Er. destruct Hh as [S1 _ S3]. split; cbn; [done|congruence|congruence|done]. }
  unfold on_wait. destruct ec as [ec|].
  - split; [|done]. destruct (m_IsRunning_ u) eqn:Er; [|by apply Hstop].
    destruct Hl as [_ _ S3 _]. destruct (S3 Er) as (o & Eo' & Hlive). rewrite Eo in Eo'.
    by destruct os1 as [|? [|? ?]]; simplify_eq/=.
  - destruct (m_IsRunning_ (with_operations _ u)) eqn:Er.
    + split; [by apply ReopenAcceptor_listening|by rewrite ReopenAcceptor_sessions].
    + split; [by apply Hstop|done].
Qed.

Lemma replace_session_good u xs1 x xs2 x' :
  sessions u = xs1 ++ x :: xs2 → good u → (session_ok x → session_ok x') → good (with_sessions (xs1 ++ x' :: xs2) u).
Proof.
  intros Ex [Hl Hx] Hok. split; [by apply with_sessions_listening|]. rewrite Ex in Hx. cbn.
  apply Forall_app in Hx as [? Hx]. apply Forall_cons in Hx as [? ?]. apply Forall_app. split; [done|]. constructor; [by apply Hok|done].
Qed.

Lemma Stop_listening u : listening u → listening (Stop u).
Proof.
  intros [S1 S2 S3 S4]. split; cbn; [done..|]. intros _. split; [done|]. apply stopped_queued.
Qed.

Lemma session_at u xs1 x xs2 : sessions u = xs1 ++ x :: xs2 → good u → session_ok x.
Proof. intros Ex [_ Hx]. rewrite Ex in Hx. apply Forall_app in Hx as [_ Hx]. by apply Forall_cons in Hx as [? _]. Qed.

Lemma tcp_step_good u u' : good u → step u u' → good u'.
Proof.
  intros Hg Hst. destruct Hst as [u os1 os2 ec Eo|u os1 os2 Eo|u os1 os2 ec n b d Eo|u os1 os2 ec b Eo|u|u xs1 x xs2 d Ex
    |u xs1 x xs2 b0 b1 rest Ex Er Ei|u xs1 x xs2 n r w x' s' Ex Er Hn Hr Hk|u xs1 x xs2 Ex Er].
  - split; [|apply Hg]. eapply complete_listening; [exact Eo|by intros []|done|by left|apply Hg].
  - split; [|apply Hg]. eapply complete_listening; [exact Eo|by intros []|done|by right|apply Hg].
  - apply on_accept_good; [eapply listening_without; [exact Eo|apply Hg]| |apply Hg].
    intros Hr. apply (listening_open _ (proj1 Hg) Hr (Completed ec n)); [rewrite Eo; set_solver|done..].
  - by apply on_wait_good.
  - split; [apply Stop_listening|]; apply Hg.
  - eapply replace_session_good; [done..|]. apply arrive_ok.
  - eapply replace_session_good; [done..|]. by eapply on_length_ok.
  - pose proof (session_at _ _ _ _ Ex Hg) as Hx. pose proof Hg as [Hl _].
    destruct (message_ok x n r w _ _ Er Hn Hr (listening_shared _ Hl) Hx) as (x1 & s1 & Hk1 & Hs1 & Hx1).
    destruct (answers_unique _ _ _ _ _ _ _ _ _ Hk Hk1) as [-> ->].
    eapply (replace_session_good (with_Shared _ _ u)); [exact Ex| |done]. split; [|apply Hg]. by destruct Hl.
  - eapply replace_session_good; [done..|]. apply read_error_ok.
Qed.

Lemma tcp_reachable_good s t u : server_ok t s → rtc step (make s t) u → good u.
Proof.
  intros Hs. revert u. apply rtc_ind_r.
  - split; [by apply Accept_listening|]. constructor.
  - intros u u' _ Hst Hg. by eapply tcp_step_good.
Qed.

Lemma queued_unchanged os : Forall queued os → close <$> (cancel <$> os) = os.
Proof.
  intros Hq. rewrite <- list_fmap_compose. rewrite <- (list_fmap_id os) at 2. apply list_fmap_ext. intros i o Ho. cbn.
  rewrite Forall_lookup in Hq. specialize (Hq _ _ Ho).
  rewrite cancel_other by (by intros ->). by rewrite close_other by (by intros ->).
Qed.

Lemma ReopenAcceptor_true u :
  m_IsRunning_ u = true → operations u = [] → operations (ReopenAcceptor true u) = [Pending].
Proof. intros Er Eo. unfold ReopenAcceptor. rewrite Er. unfold Accept. cbn. rewrite Er, Eo. cbn. by rewrite async_start_open. Qed.

Lemma Accept_open u : m_IsRunning_ u = true → m_Acceptor_ u = true → operations u = [] → operations (Accept u) = [Pending].
Proof. intros Er Ea Eo. unfold Accept. rewrite Er, Ea, async_start_open. cbn. by rewrite Eo. Qed.

(** The handler of the one operation of a running server, when a new acceptor can be opened. *)
Definition next_handler (o : operation) (d : bytes) u : TcpServer W :=
  match o with
  | Completed ec _ => on_accept true d ec (with_operations [] u)
  | Waited ec => on_wait true ec (with_operations [] u)
  | _ => u
  end.

Lemma next_handler_accepts u o d :
  listening u → m_IsRunning_ u = true → operations u = [o] → live o → queued o → operations (next_handler o d u) = [Pending].
Proof.
  intros Hl Er Eo Hlive Hq. pose proof (listening_open _ Hl Er o) as Ho. rewrite Eo in Ho.
  destruct o as [|ec n| |[ec|]]; try done; cbn [next_handler].
  - specialize (Ho ltac:(set_solver)). unfold on_accept. destruct ec as [ec|].
    + destruct (is_fatal ec); [by apply ReopenAcceptor_true|]. apply Accept_open; [done|by apply Ho|done].
    + apply Accept_open; [done|by apply Ho|done].
  - unfold on_wait. assert (Er' : m_IsRunning_ (with_operations [] u) = true) by done. rewrite Er'. by apply ReopenAcceptor_true.
Qed.

Lemma tcp_stopped_rests u u' :
  listening u → m_IsRunning_ u = false → step u u' →
  m_IsRunning_ u' = false ∧ (operations u' = operations u ∨ length (operations u') < length (operations u)).
Proof.
  intros Hl Hrun Hst. destruct (listening_stopped _ Hl Hrun) as [_ Hq].
  assert (Hno : ∀ os1 o os2, operations u = os1 ++ o :: os2 → ¬ queued o → False).
  { intros os1 o os2 Eo Ho. rewrite Eo in Hq. apply Forall_app in Hq as [_ Hq]. by apply Forall_cons in Hq as [? _]. }
  assert (Hlen : ∀ os1 o os2, operations u = os1 ++ o :: os2 → length (os1 ++ os2) < length (operations u)).
  { intros os1 o os2 ->. rewrite !length_app. simpl. lia. }
  assert (Ha : ∀ v : TcpServer W, m_IsRunning_ v = false → Accept v = v) by (intros v Ev; unfold Accept; by rewrite Ev).
  assert (Hr : ∀ b (v : TcpServer W), m_IsRunning_ v = false → ReopenAcceptor b v = v) by (intros b v Ev; unfold ReopenAcceptor; by rewrite Ev).
  destruct Hst as [u os1 os2 ec Eo|u os1 os2 Eo|u os1 os2 ec n b d Eo|u os1 os2 ec b Eo|u|u xs1 x xs2 d Ex
    |u xs1 x xs2 b0 b1 rest Ex Er Ei|u xs1 x xs2 n r w x' s' Ex Er Hn Hro Hk|u xs1 x xs2 Ex Er]; try by (split; [|left]).
  - exfalso. eapply Hno; [exact Eo|by intros []].
  - exfalso. eapply Hno; [exact Eo|by intros []].
  - assert (E : m_IsRunning_ (on_accept b d ec (with_operations (os1 ++ os2) u)) = false ∧
      operations (on_accept b d ec (with_operations (os1 ++ os2) u)) = os1 ++ os2).
    { unfold on_accept. destruct ec as [ec|]; [destruct (is_fatal ec)|]; rewrite ?Ha, ?Hr by done; done. }
    destruct E as [-> ->]. split; [done|]. right. by eapply Hlen.
  - unfold on_wait. assert (Er : m_IsRunning_ (with_operations (os1 ++ os2) u) = false) by done. rewrite Er.
    destruct ec; (split; [done|]; right; by eapply Hlen).
  - split; [done|]. left. cbn. by apply queued_unchanged.
Qed.

(** C7: the TCP server never stops listening by itself, and comes to rest when it is stopped.
    In every state that is reachable, whatever happens to connections and handlers in
    whatever order, the shared state is good; a running server has exactly one accept or
    timer operation outstanding, and when that has completed, its handler accepts again
    as soon as a new acceptor can be opened; a stopped server starts no operation. *)
Theorem tcp_alive s t u :
  server_ok t s → rtc step (make s t) u →
  server_ok (m_Clock u) (m_Shared u) ∧
  (m_IsRunning_ u = true → ∃ o, operations u = [o] ∧ live o ∧
     (queued o → ∀ d, operations (next_handler o d u) = [Pending])) ∧
  (m_IsRunning_ u = false → ∀ u', step u u' →
     m_IsRunning_ u' = false ∧ (operations u' = operations u ∨ length (operations u') < length (operations u))).
Proof.
  intros Hs Hu. destruct (tcp_reachable_good _ _ _ Hs Hu) as [Hl _]. split; [apply Hl|]. split.
  - intros Hrun. destruct (listening_single _ Hl Hrun) as (o & Eo & Ho). exists o. split; [done|]. split; [done|].
    intros Hq d. by apply next_handler_accepts.
  - intros Hrun u' Hst. by eapply tcp_stopped_rests.
Qed.

(** C6: however the sessions of the TCP server interleave over the caches they share, each of
    them has answered its own queries, in order: what a session has read is the frames of
    the queries in its log, followed by at most the length of the next one; each of them has
    12 to 65535 bytes and was answered as a query of its own is; and as long as the system
    took every message whole, what the session wrote is exactly the frames of the answers, in
    the same order, and no write is left that would read a freed buffer.  A query that
    has arrived whole can always be handled to the end. *)
Theorem tcp_sessions s t u x :
  server_ok t s → rtc step (make s t) u → x ∈ sessions u →
  (∃ log part, Forall answered log ∧ s_Done x = concat (query_frame <$> log) ++ part ∧ in_progress (s_Read x) part ∧
     (s_Whole x = true → s_Out x = concat (answer_frame <$> log) ∧ continue_write x = Done x)) ∧
  (∀ n r w, s_Read x = ReadingMessage n → n ≤ length (s_In x) → readings_ok (m_Clock u) r →
     ∃ x' s', answers r w (take n (s_In x)) (consume n x) (m_Shared u) x' s' ∧ s_Read x' = ReadingLength).
Proof.
  intros Hs Hu Hx. destruct (tcp_reachable_good _ _ _ Hs Hu) as [Hl HF]. rewrite Forall_forall in HF. specialize (HF x Hx). split.
  - destruct HF as (log & part & HL1 & HL2 & HL3 & HL4). exists log, part. split_and!; [done..|]. intros Hw.
    destruct (HL4 Hw) as [Ew ->]. split; [done|]. unfold continue_write. by rewrite Ew.
  - intros n r w Er Hn Hr. destruct (message_ok x n r w _ _ Er Hn Hr (listening_shared _ Hl) HF) as (x' & s' & Hk & _ & _).
    exists x', s'. split; [done|]. destruct Hk as [b Hk]. specialize (Hk b (le_n _)). unfold on_message in Hk.
    destruct (TcpMessage _ _ _ _ _ _ _) as [[m| | | |] s1]; try done. by injection Hk as <- _.
Qed.
End facts.

(** ** Examples *)

Section examples.
  #[local] Existing Instance x86_64.
  #[local] Existing Instance key_order.

Definition example_tcp : TcpServer network := make example_server 0.

Lemma tcp_alive_witness : ∃ o, operations example_tcp = [o] ∧ live o.
Proof.
  destruct (tcp_alive 3600 example_zones false example_client example_patterns_ok example_server 0 example_tcp
    example_server_ok ltac:(apply rtc_refl)) as (_ & Hl & _).
  destruct (Hl eq_refl) as (o & Eo & Ho & _). by exists o.
Defined.

(** A connection with one query. *)
Definition example_session : TcpServer network :=
  with_sessions [Start (TcpFrame example_datagram)] example_tcp.

Lemma example_session_reached : rtc (step 3600 example_zones false example_client) example_tcp example_session.
Proof.
  eapply rtc_l; [by eapply (step_completed _ _ _ _ example_tcp [] [] None)|].
  apply rtc_once. exact (step_accept _ _ _ _ (with_operations [Completed None 0] example_tcp) [] [] None 0 true (TcpFrame example_datagram) eq_refl).
Qed.

Lemma tcp_sessions_witness :
  ∃ log part, s_Done (Start (TcpFrame example_datagram)) = concat (query_frame <$> log) ++ part ∧
    s_Out (Start (TcpFrame example_datagram)) = concat (answer_frame <$> log).
Proof.
  destruct (tcp_sessions 3600 example_zones false example_client example_patterns_ok example_server 0 example_session
    (Start (TcpFrame example_datagram)) example_server_ok example_session_reached ltac:(left)) as [(log & part & _ & E1 & _ & Hw) _].
  exists log, part. split; [exact E1|]. by destruct (Hw eq_refl) as [E2 _].
Defined.

(** When the system takes only a part of a message at once, the rest is read from a buffer that
    is gone; and a second answer is written into the middle of the first. *)
Example tcp_partial_write :
  let query := [x07; x07] ++ repeat x00 10 in
  let handle w x := (on_message 3600 example_zones false example_client example_readings w query x example_server : outcome _) in
  ('(x, _) ← handle (Takes 5) (Start []); '(y, _) ← handle (Takes 14) x;
   Done (s_Unfinished x, continue_write x, take 7 (s_Out y))) =
  Done ([9], Undef, [x00; x0c; x07; x07; x80; x00; x0c]).
Proof. by vm_compute. Qed.
End examples.
