(* ===== verification/DohHandles.v ===== *)
(** * What the DNS-over-HTTPS client owns (src/src/dns_over_https.cc)

    A client owns a multi handle and two header lists of libcurl, by raw pointers.  Here
    they are resources that libcurl hands out and takes back: its
    constructor, which may fail half way, its destructor, moves from and to it, and the
    global initialization, over the set of resources that are held.  Whatever is done with any
    number of clients, every resource has one owner and is given back exactly once. *)

From Stdlib Require Import ZArith Lia.
From Stdlib Require Import Strings.Byte Strings.String.
From stdpp Require Import base numbers list option gmap sets relations.
From S2P Require Import Prelude.
From S2P Require Import Stateful.
From S2P Require Import Doh.

(** The state of libcurl as the program sees it: the flag of the global manager, how many
    initializations have not been undone, and the resources that are held. *)
Record Library : Type := { g_CurlInitialized : bool; s_Initialized : nat; s_Held : gset nat }.

(** A client with its pointers.  [m_Settings] are the members that [Doh] has. *)
Record Client : Type := {
  m_Settings : DnsOverHttps;
  m_MultiHandle_ : option nat;
  m_PostHeaders_ : option nat;
  m_GetHeaders_ : option nat
}.

Definition with_handles (m p g : option nat) (c : Client) : Client :=
  {| m_Settings := m_Settings c; m_MultiHandle_ := m; m_PostHeaders_ := p; m_GetHeaders_ := g |}.

(** The client as [Doh] sees it. *)
Definition as_DnsOverHttps (c : Client) : DnsOverHttps :=
  let s := m_Settings c in
  {| m_Resolvers_ := m_Resolvers_ s; m_Useragent_ := m_Useragent_ s; m_HttpMethod_ := m_HttpMethod_ s;
     m_CacertPath_ := m_CacertPath_ s; m_DohTimeoutMs_ := m_DohTimeoutMs_ s;
     Doh.m_MultiHandle_ := bool_decide (is_Some (m_MultiHandle_ c)) |}.

(** What libcurl's allocating functions return during one construction. *)
Record Allocations : Type := {
  curl_global_init : bool;
  curl_multi_init : option nat;
  first_post_header : option nat;
  second_post_header : bool;
  get_header : option nat
}.

Section operations.
  Implicit Types (c : Client) (l : Library) (a : Allocations).

Abbreviation library A := (stateful Library A).

(** A resource that libcurl hands out; giving one back, which must be held. *)
Definition acquire (id : nat) : library unit :=
  modify (λ l, {| g_CurlInitialized := g_CurlInitialized l; s_Initialized := s_Initialized l; s_Held := {[id]} ∪ s_Held l |}).

Definition release (id : nat) : library unit := λ l,
  if bool_decide (id ∈ s_Held l) then
    (Done tt, {| g_CurlInitialized := g_CurlInitialized l; s_Initialized := s_Initialized l; s_Held := s_Held l ∖ {[id]} |})
  else (Undef, l).

(** [if (m_X_) { free(m_X_); m_X_ = nullptr; }]. *)
Definition release_if (p : option nat) : library unit := match p with Some id => release id | None => mret tt end.

(** [CurlGlobalManager::Initialize] and its destructor. *)
Definition Initialize (ok : bool) : library bool := λ l,
  if g_CurlInitialized l then (Done true, l)
  else if ok then (Done true, {| g_CurlInitialized := true; s_Initialized := S (s_Initialized l); s_Held := s_Held l |})
  else (Done false, l).

Definition global_cleanup : library unit := λ l,
  if g_CurlInitialized l then
    match s_Initialized l with
    | O => (Undef, l)
    | S n => (Done tt, {| g_CurlInitialized := false; s_Initialized := n; s_Held := s_Held l |})
    end
  else (Done tt, l).

Definition InitMultiHandle a c : library Client :=
  match curl_multi_init a with
  | None => lift (Throw RuntimeError)
  | Some m =>
      _ ← acquire m;
      match first_post_header a with
      | None => _ ← release m; lift (Throw RuntimeError)
      | Some s_Tmp =>
          _ ← acquire s_Tmp;
          if negb (second_post_header a) then _ ← release s_Tmp; _ ← release m; lift (Throw RuntimeError)
          else
            match get_header a with
            | None => _ ← release s_Tmp; _ ← release m; lift (Throw RuntimeError)
            | Some g => _ ← acquire g; mret (with_handles (Some m) (Some s_Tmp) (Some g) c)
            end
      end
  end.

Definition CleanupMultiHandle c : library Client :=
  _ ← release_if (m_PostHeaders_ c);
  _ ← release_if (m_GetHeaders_ c);
  _ ← release_if (m_MultiHandle_ c);
  mret (with_handles None None None c).

(** The constructor; its arguments besides the allocations are those of [Doh.construct]. *)
Definition construct a (opens : bool) (p_Useragent : bytes) (p_Resolvers : list bytes) (p_CacertPath : bytes)
    (p_DohTimeoutMs : Z) : library Client :=
  s_Ok ← Initialize (curl_global_init a);
  if negb s_Ok then lift (Throw RuntimeError) else
  c ← lift (Useragent p_Useragent initial);
  c ← lift (Resolvers p_Resolvers c);
  let c := DohTimeoutMs p_DohTimeoutMs c in
  let c := if bool_decide (p_CacertPath = []) then c else CacertPath opens p_CacertPath c in
  InitMultiHandle a {| m_Settings := c; m_MultiHandle_ := None; m_PostHeaders_ := None; m_GetHeaders_ := None |}.

Definition destroy c : library unit := _ ← CleanupMultiHandle c; mret tt.

(** What a move leaves in the members that are moved from is unspecified: an argument. *)
Definition moved_from (s : DnsOverHttps) c : Client :=
  with_handles None None None
    {| m_Settings := {| m_Resolvers_ := m_Resolvers_ s; m_Useragent_ := m_Useragent_ s; m_HttpMethod_ := m_HttpMethod_ (m_Settings c);
                        m_CacertPath_ := m_CacertPath_ s; m_DohTimeoutMs_ := m_DohTimeoutMs_ (m_Settings c);
                        Doh.m_MultiHandle_ := false |};
       m_MultiHandle_ := m_MultiHandle_ c; m_PostHeaders_ := m_PostHeaders_ c; m_GetHeaders_ := m_GetHeaders_ c |}.

(** The new client, and the other one after the move. *)
Definition move_construct (s : DnsOverHttps) (other : Client) : Client * Client := (other, moved_from s other).

Definition move_assign (s : DnsOverHttps) c (other : Client) : library (Client * Client) :=
  _ ← CleanupMultiHandle c; mret (other, moved_from s other).

(** The order in which the resolvers are tried; [shuffle] is [std::shuffle]. *)
Definition ShuffledResolvers (shuffle : list bytes → list bytes) c : list bytes :=
  let s_Copy := m_Resolvers_ (m_Settings c) in
  if 1 <? length s_Copy then shuffle s_Copy else s_Copy.
End operations.

(** ** Programs with clients *)

(** The clients that exist, by their addresses, and libcurl. *)
Record Pool : Type := { s_Clients : gmap nat Client; s_Library : Library }.

Definition empty_pool : Pool := {| s_Clients := ∅; s_Library := {| g_CurlInitialized := false; s_Initialized := 0; s_Held := ∅ |} |}.

(** libcurl hands out resources that are not held. *)
Definition fresh_for (a : Allocations) (l : Library) : Prop :=
  NoDup (option_list (curl_multi_init a) ++ option_list (first_post_header a) ++ option_list (get_header a)) ∧
  ∀ id, id ∈ option_list (curl_multi_init a) ++ option_list (first_post_header a) ++ option_list (get_header a) → id ∉ s_Held l.

Inductive step : Pool → Pool → Prop :=
  | step_construct cs l l' i a opens ua rs ca ms c :
      cs !! i = None → fresh_for a l → construct a opens ua rs ca ms l = (Done c, l') →
      step {| s_Clients := cs; s_Library := l |} {| s_Clients := <[i := c]> cs; s_Library := l' |}
  | step_construct_throws cs l l' a opens ua rs ca ms e :
      fresh_for a l → construct a opens ua rs ca ms l = (Throw e, l') →
      step {| s_Clients := cs; s_Library := l |} {| s_Clients := cs; s_Library := l' |}
  | step_destroy cs l l' i c :
      cs !! i = Some c → destroy c l = (Done tt, l') →
      step {| s_Clients := cs; s_Library := l |} {| s_Clients := delete i cs; s_Library := l' |}
  | step_move_construct cs l i j s c other other' :
      cs !! i = None → cs !! j = Some other → move_construct s other = (c, other') →
      step {| s_Clients := cs; s_Library := l |} {| s_Clients := <[i := c]> (<[j := other']> cs); s_Library := l |}
  | step_move_assign cs l l' i j s c other c' other' :
      i ≠ j → cs !! i = Some c → cs !! j = Some other → move_assign s c other l = (Done (c', other'), l') →
      step {| s_Clients := cs; s_Library := l |} {| s_Clients := <[i := c']> (<[j := other']> cs); s_Library := l' |}
  | step_move_assign_self cs l i c :
      cs !! i = Some c → step {| s_Clients := cs; s_Library := l |} {| s_Clients := cs; s_Library := l |}.

(** ** Ownership *)

Definition handles (c : Client) : list nat :=
  option_list (m_MultiHandle_ c) ++ option_list (m_PostHeaders_ c) ++ option_list (m_GetHeaders_ c).

(** A client has all of its pointers or none. *)
Definition complete (c : Client) : Prop :=
  (is_Some (m_MultiHandle_ c) ∧ is_Some (m_PostHeaders_ c) ∧ is_Some (m_GetHeaders_ c)) ∨ handles c = [].

Section ownership.
  Implicit Types (c : Client) (l : Library) (a : Allocations) (rest : list nat).

(** Exactly these resources are held. *)
Definition holds l (ids : list nat) : Prop := elements (s_Held l) ≡ₚ ids.

(** The global initialization is in step with its flag. *)
Definition global_ok l : Prop := s_Initialized l = if g_CurlInitialized l then 1 else 0.

Lemma holds_not_in l ids id : holds l ids → id ∉ s_Held l → id ∉ ids.
Proof. intros Hl Hn Hin. apply Hn. apply elem_of_elements. by rewrite Hl. Qed.

Lemma acquire_holds l ids id :
  holds l ids → id ∉ s_Held l → ∃ l', acquire id l = (Done tt, l') ∧ holds l' (id :: ids) ∧
    g_CurlInitialized l' = g_CurlInitialized l ∧ s_Initialized l' = s_Initialized l.
Proof.
  intros Hl Hn. eexists. split; [done|]. split; [|done]. unfold holds in *. cbn. by rewrite elements_union_singleton, Hl.
Qed.

Lemma release_holds l ids id :
  holds l (id :: ids) → ∃ l', release id l = (Done tt, l') ∧ holds l' ids ∧
    g_CurlInitialized l' = g_CurlInitialized l ∧ s_Initialized l' = s_Initialized l.
Proof.
  intros Hl. assert (Hin : id ∈ s_Held l) by (apply elem_of_elements; rewrite Hl; set_solver).
  unfold release. rewrite bool_decide_eq_true_2 by done. eexists. split; [done|]. split; [|done]. unfold holds in *. cbn.
  apply (Permutation_cons_inv (a := id)). rewrite <- Hl.
  rewrite (union_difference_singleton_L id (s_Held l)) at 2 by done. by rewrite elements_union_singleton by set_solver.
Qed.

Lemma release_if_holds l ids p :
  holds l (option_list p ++ ids) → ∃ l', release_if p l = (Done tt, l') ∧ holds l' ids ∧
    g_CurlInitialized l' = g_CurlInitialized l ∧ s_Initialized l' = s_Initialized l.
Proof. destruct p as [id|]; [apply release_holds|]. intros Hl. by exists l. Qed.

Definition same_global l l' : Prop :=
  g_CurlInitialized l' = g_CurlInitialized l ∧ s_Initialized l' = s_Initialized l.

Lemma same_global_ok l l' : same_global l l' → global_ok l → global_ok l'.
Proof. unfold global_ok. by intros [-> ->]. Qed.

Lemma CleanupMultiHandle_holds l c rest :
  holds l (handles c ++ rest) →
  ∃ l', CleanupMultiHandle c l = (Done (with_handles None None None c), l') ∧ holds l' rest ∧ same_global l l'.
Proof.
  unfold handles, CleanupMultiHandle. intros Hl.
  set (m := m_MultiHandle_ c) in *. set (p := m_PostHeaders_ c) in *. set (g := m_GetHeaders_ c) in *.
  destruct (release_if_holds l (option_list g ++ option_list m ++ rest) p) as (l1 & E1 & Hl1 & G1 & N1).
  { unfold holds in *. rewrite Hl. rewrite <- !app_assoc. rewrite (app_assoc (option_list m)), (app_assoc (option_list p)).
    rewrite (Permutation_app_comm (option_list m)). rewrite <- !app_assoc. apply Permutation_app_head.
    rewrite !app_assoc. apply Permutation_app_tail, Permutation_app_comm. }
  destruct (release_if_holds l1 (option_list m ++ rest) g Hl1) as (l2 & E2 & Hl2 & G2 & N2).
  destruct (release_if_holds l2 rest m Hl2) as (l3 & E3 & Hl3 & G3 & N3).
  exists l3. split; [|split; [done|split; congruence]].
  rewrite (stateful_bind_Done _ _ _ _ _ E1), (stateful_bind_Done _ _ _ _ _ E2), (stateful_bind_Done _ _ _ _ _ E3). done.
Qed.

(** *** Construction *)

(** What [Doh.InitMultiHandle] is told about the allocations. *)
Definition init_ok a : bool := bool_decide (is_Some (curl_multi_init a)).
Definition post_ok a : bool := bool_decide (is_Some (first_post_header a)) && second_post_header a.
Definition get_ok a : bool := bool_decide (is_Some (get_header a)).

(** Either all three are made, or what was made is given back. *)
Lemma InitMultiHandle_holds l a c rest :
  holds l rest → fresh_for a l →
  ∃ l', holds l' (if init_ok a && post_ok a && get_ok a then
           option_list (curl_multi_init a) ++ option_list (first_post_header a) ++ option_list (get_header a) ++ rest else rest) ∧
    same_global l l' ∧
    InitMultiHandle a c l =
      (if init_ok a && post_ok a && get_ok a
       then Done (with_handles (curl_multi_init a) (first_post_header a) (get_header a) c) else Throw RuntimeError, l').
Proof.
  intros Hl [Hnd Hfr]. unfold InitMultiHandle, init_ok, post_ok, get_ok.
  destruct (curl_multi_init a) as [m|] eqn:Em; cbn [is_Some_dec option_list app] in *; [|by exists l].
  destruct (acquire_holds l rest m Hl) as (l1 & E1 & Hl1 & G1 & N1); [apply Hfr; set_solver|].
  rewrite (stateful_bind_Done _ _ _ _ _ E1). rewrite bool_decide_eq_true_2 by done. cbn [andb].
  destruct (first_post_header a) as [t|] eqn:Et; cbn [option_list app] in *.
  2: { destruct (release_holds l1 rest m Hl1) as (l2 & E2 & Hl2 & G2 & N2). exists l2.
       rewrite (stateful_bind_Done _ _ _ _ _ E2), bool_decide_eq_false_2 by (by intros [? ?]). split; [done|]. split; [split; congruence|done]. }
  rewrite (bool_decide_eq_true_2 (is_Some (Some t))) by done. cbn [andb].
  assert (Et1 : t ∉ s_Held l1).
  { injection E1 as <-. cbn. apply NoDup_cons in Hnd as [Hm _]. specialize (Hfr t ltac:(set_solver)). set_solver. }
  destruct (acquire_holds l1 (m :: rest) t Hl1 Et1) as (l2 & E2 & Hl2 & G2 & N2). rewrite (stateful_bind_Done _ _ _ _ _ E2).
  assert (Hback : ∃ l', holds l' rest ∧ same_global l l' ∧
    (_ ← release t; _ ← release m; lift (Throw RuntimeError : outcome Client)) l2 = (Throw RuntimeError, l')).
  { destruct (release_holds l2 (m :: rest) t Hl2) as (l3 & E3 & Hl3 & G3 & N3).
    destruct (release_holds l3 rest m Hl3) as (l4 & E4 & Hl4 & G4 & N4). exists l4. split; [done|]. split; [split; congruence|].
    by rewrite (stateful_bind_Done _ _ _ _ _ E3), (stateful_bind_Done _ _ _ _ _ E4). }
  destruct (second_post_header a); cbn [negb andb]; [|exact Hback].
  destruct (get_header a) as [g|] eqn:Eg; cbn [option_list app] in *.
  2: { rewrite bool_decide_eq_false_2 by (by intros [? ?]). exact Hback. }
  rewrite (bool_decide_eq_true_2 (is_Some (Some g))) by done.
  assert (Eg2 : g ∉ s_Held l2).
  { injection E1 as <-. injection E2 as <-. cbn. apply NoDup_cons in Hnd as [Hm Hnd]. apply NoDup_cons in Hnd as [Ht _].
    specialize (Hfr g ltac:(set_solver)). set_solver. }
  destruct (acquire_holds l2 (t :: m :: rest) g Hl2 Eg2) as (l3 & E3 & Hl3 & G3 & N3). exists l3.
  rewrite (stateful_bind_Done _ _ _ _ _ E3). split; [|split; [split; congruence|done]].
  unfold holds in *. rewrite Hl3, (perm_swap m t), (perm_swap m g). apply perm_skip, perm_swap.
Qed.

(** The constructor succeeds when [Doh.construct] does, with the same client. *)
Lemma construct_holds l a opens ua rs ca ms rest :
  holds l rest → fresh_for a l → global_ok l →
  let s := Doh.construct (g_CurlInitialized l || curl_global_init a) opens (init_ok a) (post_ok a) (get_ok a) ua rs ca ms in
  ∃ l', global_ok l' ∧
    match construct a opens ua rs ca ms l with
    | (Done c, l1) => l1 = l' ∧ s = Done (as_DnsOverHttps c) ∧ holds l' (handles c ++ rest) ∧ length (handles c) = 3
    | (Throw e, l1) => l1 = l' ∧ s = Throw e ∧ holds l' rest
    | _ => False
    end.
Proof.
  intros Hl Hf Hg. cbv zeta. unfold construct, Doh.construct.
  assert (Hi : ∃ l1, Initialize (curl_global_init a) l = (Done (g_CurlInitialized l || curl_global_init a), l1) ∧
    s_Held l1 = s_Held l ∧ global_ok l1).
  { unfold Initialize, global_ok in *. destruct (g_CurlInitialized l) eqn:E; [exists l; by rewrite E|].
    destruct (curl_global_init a); [eexists; split; [done|]; split; [done|]; cbn; by rewrite Hg|exists l; by rewrite E]. }
  destruct Hi as (l1 & E1 & Eh & Hg1). rewrite (stateful_bind_Done _ _ _ _ _ E1).
  assert (Hl1 : holds l1 rest) by (unfold holds; by rewrite Eh).
  assert (Hf1 : fresh_for a l1) by (unfold fresh_for; by rewrite Eh).
  destruct (g_CurlInitialized l || curl_global_init a); cbn [negb]; [|by exists l1].
  unfold Useragent. destruct (bool_decide (ua = [])); [by exists l1|]. rewrite lift_Done, bind_done.
  unfold Resolvers. destruct (bool_decide (rs = [])); [by exists l1|]. rewrite lift_Done, bind_done. cbv zeta.
  set (c0 := if bool_decide (ca = []) then _ else _).
  destruct (InitMultiHandle_holds l1 a {| m_Settings := c0; m_MultiHandle_ := None; m_PostHeaders_ := None; m_GetHeaders_ := None |}
    rest Hl1 Hf1) as (l2 & Hl2 & G2 & ->).
  exists l2. split; [by eapply same_global_ok|]. unfold Doh.InitMultiHandle.
  destruct (init_ok a && post_ok a && get_ok a) eqn:Eok; [|done]. split; [done|].
  apply andb_true_iff in Eok as [[Em Ep]%andb_true_iff Eg]. unfold init_ok, post_ok, get_ok in *.
  apply andb_true_iff in Ep as [Ep _].
  apply bool_decide_eq_true_1 in Em as [m Em], Ep as [p Ep], Eg as [g Eg]. unfold handles, as_DnsOverHttps. cbn. rewrite Em, Ep, Eg in *.
  split; [done|]. done.
Qed.

(** *** Any number of clients *)

Definition owned (cs : gmap nat Client) : list nat := map_to_list cs ≫= λ ic, handles ic.2.

Lemma owned_insert cs i c : cs !! i = None → owned (<[i := c]> cs) ≡ₚ handles c ++ owned cs.
Proof. intros Hi. unfold owned. by rewrite map_to_list_insert. Qed.

Lemma owned_delete cs i c : cs !! i = Some c → owned cs ≡ₚ handles c ++ owned (delete i cs).
Proof. intros Hi. rewrite <- owned_insert by apply lookup_delete_eq. by rewrite insert_delete_id. Qed.

Lemma owned_update cs i c c' rest :
  cs !! i = Some c → owned cs ≡ₚ handles c ++ rest → owned (<[i := c']> cs) ≡ₚ handles c' ++ rest.
Proof.
  intros Hi Hr. rewrite <- insert_delete_eq, owned_insert by apply lookup_delete_eq. apply Permutation_app_head.
  rewrite (owned_delete _ _ _ Hi) in Hr. by apply Permutation_app_inv_l in Hr.
Qed.

(** Every resource that is held has exactly one owner, and a client owns all three or none. *)
Definition pool_ok (p : Pool) : Prop :=
  holds (s_Library p) (owned (s_Clients p)) ∧ global_ok (s_Library p) ∧
  ∀ i c, s_Clients p !! i = Some c → length (handles c) = 3 ∨ handles c = [].

Lemma empty_pool_ok : pool_ok empty_pool.
Proof.
  split_and!; [|done|intros i c; cbn; by rewrite lookup_empty].
  unfold holds, owned. cbn [empty_pool s_Library s_Clients s_Held]. by rewrite map_to_list_empty, elements_empty.
Qed.

Lemma pool_step_ok p p' : pool_ok p → step p p' → pool_ok p'.
Proof.
  intros (Hh & Hg & Hc) Hst.
  destruct Hst as [cs l l' i a opens ua rs ca ms c Hi Hf Ek|cs l l' a opens ua rs ca ms e Hf Ek|cs l l' i c Hi Ek
    |cs l i j s c other other' Hi Hj Ek|cs l l' i j s c other c' other' Hij Hi Hj Ek|cs l i c Hi]; cbn in *.
  - destruct (construct_holds l a opens ua rs ca ms _ Hh Hf Hg) as (l1 & Hg1 & Hm). rewrite Ek in Hm.
    destruct Hm as (-> & _ & Hl1 & Hn). split_and!; cbn; [|done|].
    + unfold holds in *. by rewrite owned_insert.
    + intros k c1 [[<- <-]|[_ ?]]%lookup_insert_Some; [by left|by eapply Hc].
  - destruct (construct_holds l a opens ua rs ca ms _ Hh Hf Hg) as (l1 & Hg1 & Hm). rewrite Ek in Hm.
    destruct Hm as (-> & _ & Hl1). by split_and!.
  - assert (Hr : holds l (handles c ++ owned (delete i cs))) by (unfold holds in *; by rewrite Hh, <- owned_delete).
    destruct (CleanupMultiHandle_holds l c _ Hr) as (l1 & E1 & Hl1 & G1). unfold destroy in Ek.
    rewrite (stateful_bind_Done _ _ _ _ _ E1) in Ek. injection Ek as <-. split_and!; cbn; [done|by eapply same_global_ok|].
    intros k c1 [_ ?]%lookup_delete_Some. by eapply Hc.
  - injection Ek as <- <-. split_and!; cbn; [|done|].
    + unfold holds in *. rewrite owned_insert by (rewrite lookup_insert_ne by congruence; done).
      rewrite (owned_update cs j other _ (owned (delete j cs)) Hj) by by apply owned_delete. cbn. by rewrite <- owned_delete.
    + intros k c1 [[<- <-]|[_ [[<- <-]|[_ ?]]%lookup_insert_Some]]%lookup_insert_Some; [by eapply Hc|by right|by eapply Hc].
  - assert (Hr : holds l (handles c ++ owned (delete i cs))) by (unfold holds in *; by rewrite Hh, <- owned_delete).
    destruct (CleanupMultiHandle_holds l c _ Hr) as (l1 & E1 & Hl1 & G1). unfold move_assign in Ek.
    rewrite (stateful_bind_Done _ _ _ _ _ E1) in Ek. injection Ek as <- <- <-. split_and!; cbn; [|by eapply same_global_ok|].
    + unfold holds in *. rewrite Hl1. rewrite <- insert_delete_eq, owned_insert by apply lookup_delete_eq.
      rewrite delete_insert_ne by done. assert (Hj' : delete i cs !! j = Some other) by by rewrite lookup_delete_ne.
      rewrite (owned_update (delete i cs) j other _ (owned (delete j (delete i cs))) Hj') by by apply owned_delete. cbn.
      by rewrite <- owned_delete.
    + intros k c1 [[<- <-]|[_ [[<- <-]|[_ ?]]%lookup_insert_Some]]%lookup_insert_Some; [by eapply Hc|by right|by eapply Hc].
  - by split_and!.
Qed.

Lemma reachable_ok p : rtc step empty_pool p → pool_ok p.
Proof. revert p. apply rtc_ind_r; [apply empty_pool_ok|]. intros p p' _ Hst Hp. by eapply pool_step_ok. Qed.

(** Every resolver is tried once, in some order. *)
Lemma ShuffledResolvers_all shuffle c :
  (∀ rs, shuffle rs ≡ₚ rs) → ShuffledResolvers shuffle c ≡ₚ m_Resolvers_ (as_DnsOverHttps c).
Proof. intros Hs. unfold ShuffledResolvers. cbv zeta. by destruct (1 <? _); [apply Hs|]. Qed.

(** A client that was moved from resolves nothing and touches nothing. *)
Lemma moved_from_resolves {W : Type} `{Curl W} fuel s c rs data n out (w : W) :
  ∃ res, Doh.Resolve fuel (as_DnsOverHttps (moved_from s c)) rs data n out w = Done (res, out, w) ∧
    (res = InvalidInput ∨ res = CurlError).
Proof.
  destruct data as [d|]; cbn [Resolve]; [|eexists; split; [done|by left]].
  unfold Resolve. destruct (n =? 0); (eexists; split; [done|]); [by left|by right].
Qed.

(** C35: the clients' resources of libcurl.  In every program that constructs, destroys and moves
    clients, in any order, and whatever allocation fails: the resources that are held are
    exactly those of the existing clients, each of which has all three or, when it was
    moved from, none; constructing a client gives what [Doh.construct] says, or
    throws what it throws and keeps nothing; destroying and assigning clients gives back what
    is held and nothing else, so no resource is freed twice, and none is left when
    all clients are gone; and the global initialization is undone exactly once. *)
Theorem handles_owned p :
  rtc step empty_pool p →
  holds (s_Library p) (owned (s_Clients p)) ∧
  (∀ i c, s_Clients p !! i = Some c → (length (handles c) = 3 ∨ handles c = []) ∧
     (∃ l', destroy c (s_Library p) = (Done tt, l')) ∧
     ∀ j other s, s_Clients p !! j = Some other → ∃ l', move_assign s c other (s_Library p) = (Done (other, moved_from s other), l')) ∧
  (∀ a opens ua rs ca ms, fresh_for a (s_Library p) →
     let s := Doh.construct (g_CurlInitialized (s_Library p) || curl_global_init a) opens (init_ok a) (post_ok a) (get_ok a) ua rs ca ms in
     match fst (construct a opens ua rs ca ms (s_Library p)) with
     | Done c => s = Done (as_DnsOverHttps c) ∧ length (handles c) = 3
     | Throw e => s = Throw e ∧ s_Held (snd (construct a opens ua rs ca ms (s_Library p))) = s_Held (s_Library p)
     | _ => False
     end) ∧
  (s_Clients p = ∅ → s_Held (s_Library p) = ∅) ∧
  ∃ l', global_cleanup (s_Library p) = (Done tt, l') ∧ s_Initialized l' = 0.
Proof.
  intros Hp. destruct (reachable_ok p Hp) as (Hh & Hg & Hc). split_and!; [done|..].
  - intros i c Hi. split; [by eapply Hc|].
    assert (Hr : holds (s_Library p) (handles c ++ owned (delete i (s_Clients p)))) by (unfold holds in *; by rewrite Hh, <- owned_delete).
    destruct (CleanupMultiHandle_holds _ c _ Hr) as (l1 & E1 & _). split.
    + exists l1. unfold destroy. by rewrite (stateful_bind_Done _ _ _ _ _ E1).
    + intros j other s _. exists l1. unfold move_assign. by rewrite (stateful_bind_Done _ _ _ _ _ E1).
  - intros a opens ua rs ca ms Hf s. destruct (construct_holds _ a opens ua rs ca ms _ Hh Hf Hg) as (l1 & _ & Hm).
    destruct (construct a opens ua rs ca ms (s_Library p)) as [[c|e| | |] l2]; cbn; [by destruct Hm as (_ & ? & _ & ?)| |done..].
    destruct Hm as (-> & Es & Hl1). split; [done|]. unfold holds in Hl1, Hh. rewrite <- Hh in Hl1.
    apply set_eq. intros id. rewrite <- !elem_of_elements. by rewrite Hl1.
  - intros E. rewrite E in Hh. unfold holds, owned in Hh. rewrite map_to_list_empty in Hh. by apply Permutation_nil_r, elements_empty_inv, leibniz_equiv in Hh.
  - unfold global_cleanup. unfold global_ok in Hg. destruct (g_CurlInitialized (s_Library p)); [rewrite Hg|]; by eexists.
Qed.
End ownership.

(** ** Examples *)

Definition example_allocations : Allocations :=
  {| curl_global_init := true; curl_multi_init := Some 1; first_post_header := Some 2; second_post_header := true; get_header := Some 3 |}.

Definition example_pool : Pool :=
  let made := construct example_allocations true (str "ua") [str "https://1.1.1.1/dns-query"] [] 1000 (s_Library empty_pool) in
  match made with
  | (Done c, l) => {| s_Clients := {[0 := c]}; s_Library := l |}
  | (_, l) => {| s_Clients := ∅; s_Library := l |}
  end.

Lemma example_pool_reached : rtc step empty_pool example_pool.
Proof.
  apply rtc_once. unfold example_pool. cbv zeta. destruct (construct _ _ _ _ _ _ _) as [[c|e| | |] l] eqn:E; [|by vm_compute in E..].
  assert (Hf : fresh_for example_allocations (s_Library empty_pool)).
  { split; [by repeat constructor; set_solver|]. intros id _. apply not_elem_of_empty. }
  change {[0 := c]} with (<[0 := c]> (∅ : gmap nat Client)). eapply step_construct; [apply lookup_empty|exact Hf|exact E].
Qed.

Lemma handles_owned_witness : ∃ c, s_Clients example_pool !! 0 = Some c ∧ ∃ l', destroy c (s_Library example_pool) = (Done tt, l').
Proof.
  destruct (handles_owned example_pool example_pool_reached) as (_ & Hc & _).
  destruct (s_Clients example_pool !! 0) as [c|] eqn:E; [|by vm_compute in E].
  exists c. split; [done|]. by destruct (Hc 0 c E) as (_ & Hd & _).
Defined.

(** When the second POST header cannot be appended, the first one and the handle are given back. *)
Example construct_half_way :
  let a := {| curl_global_init := true; curl_multi_init := Some 1; first_post_header := Some 2; second_post_header := false; get_header := Some 3 |} in
  (λ '(o, l), (match o with Throw e => Some e | _ => None end, elements (s_Held l)))
    (construct a true (str "ua") [str "https://1.1.1.1/dns-query"] [] 1000 (s_Library empty_pool)) = (Some RuntimeError, []).
Proof. by vm_compute. Qed.
