(* ===== verification/Platform.v ===== *)
(** * The platform's name and version (src/src/utils.cc, src/src/config.cc)

    What the user agent says about the system it runs on: the firmware of a console, which is
    read as packed decimal digits and printed as a [double], the number of a Windows
    version, the output of a program on macOS, and the lines of a file on Linux.  What the
    system's calls, programs and files give is an argument ([System]).  [double] arithmetic is
    that of the standard library's binary64 specification, rounding to nearest. *)

From Stdlib Require Import ZArith Lia ZifyBool SpecFloat.
From Stdlib Require Import Strings.Byte Strings.String.
From stdpp Require Import base numbers list option sets.
From S2P Require Import Prelude.
From S2P Require Import Memory.
From S2P Require Import Text.
From S2P Require Import Config.

(** The platforms that the sources tell apart when they are compiled. *)
Inductive target : Type := Orbis | Prospero | Windows | MacOS | Linux | Unix | OtherTarget.

(** What the system gives: the firmware's number or an error, the version of Windows unless it
    cannot be asked, what [sw_vers] prints unless it cannot be run, and the bytes of
    /etc/os-release if it can be opened. *)
Record System : Type := {
  upd_version : option Z;
  rtl_version : option (Z * Z * Z);
  sw_vers : option bytes;
  os_release : option bytes
}.

(** ** Doubles *)

Section doubles.
Local Open Scope Z_scope.

Abbreviation double := spec_float.

Definition double_of_int (z : Z) : double := binary_normalize 53 1024 z 0 false.
Definition double_add : double → double → double := SFadd 53 1024.
Definition double_div : double → double → double := SFdiv 53 1024.

(** The value in hundredths, rounded to the nearest, ties to even; only finite values occur. *)
Definition hundredths (d : double) : Z :=
  match d with
  | S754_finite s m e =>
      let z := (if s then Z.neg m else Z.pos m) * 100 in
      if 0 <=? e then Z.shiftl z e else
      let q := Z.shiftr z (- e) in
      let r := z - Z.shiftl q (- e) in
      match Z.shiftl r 1 ?= Z.shiftl 1 (- e) with
      | Lt => q
      | Gt => q + 1
      | Eq => if Z.even q then q else q + 1
      end
  | _ => 0
  end.

(** ["%.2f"] of a value that is not negative. *)
Definition print_fixed2 (d : double) : bytes :=
  let n := hundredths d in
  print_dec (n / 100) ++ str "." ++ [digit_char (n / 10 mod 10); digit_char (n mod 10)].

(** ** Consoles *)

Definition GetIntSysctlByName (y : System) : Z := default (-1) (upd_version y).

(** A value in a [uint8_t]. *)
Definition octet (z : Z) : Z := z mod 256.

Definition BcdToDecimal (p_Bcd : Z) : Z := octet (Z.shiftr p_Bcd 4 * 10 + Z.land p_Bcd 0x0F).

Definition ConvertVersionToDouble (p_Version : Z) : double :=
  double_add (double_of_int (BcdToDecimal (octet (Z.shiftr p_Version 24))))
    (double_div (double_of_int (BcdToDecimal (octet (Z.shiftr p_Version 16)))) (double_of_int 100)).

Definition GetFirmware (y : System) : Z :=
  let s_UpdVer := GetIntSysctlByName y in
  if s_UpdVer <? 0 then 0 else u32 s_UpdVer.

Definition GetFirmwareDouble (y : System) : double :=
  let s_Ver := GetFirmware y in
  if s_Ver =? 0 then S754_zero false else ConvertVersionToDouble s_Ver.

(** The return value and the buffer. *)
Definition GetFirmwareString (y : System) (p_Output : option bytes) : outcome (Z * option bytes) :=
  match p_Output with
  | None => Done (-1, None)
  | Some p_Output =>
      if (length p_Output <? 5)%nat then Done (-1, Some p_Output) else
      let p_Output := repeat x00 (length p_Output) in
      let s_Ver := GetFirmware y in
      if s_Ver =? 0 then Done (-1, Some p_Output) else
      let s_RequiredLen := (length (print_fixed2 (ConvertVersionToDouble s_Ver)) + 1)%nat in
      if (length p_Output <? s_RequiredLen)%nat then Done (-1, Some p_Output) else
      p_Output ← store_n p_Output 0 (print_fixed2 (ConvertVersionToDouble s_Ver) ++ [x00]);
      Done (0, Some p_Output)
  end.

(** A [std::string] from a buffer: its bytes before the first zero byte. *)
Definition c_string (p_Buffer : bytes) : bytes := take (default (length p_Buffer) (index_of x00 p_Buffer)) p_Buffer.

Definition GetOrbisVersion (y : System) : outcome bytes :=
  '(s_Ret, s_Version) ← GetFirmwareString y (Some (repeat x00 6));
  Done (if s_Ret =? 0 then c_string (default [] s_Version) else str "UNK").

Definition GetProsperoVersion (y : System) : outcome bytes :=
  '(s_Ret, s_Version) ← GetFirmwareString y (Some (repeat x00 6));
  Done (if s_Ret =? 0 then c_string (default [] s_Version) else str "UNK").
End doubles.

(** ** Other systems *)

Definition GetWindowsVersion (y : System) : bytes :=
  match rtl_version y with
  | Some (dwMajorVersion, dwMinorVersion, dwBuildNumber) =>
      if ((dwMajorVersion =? 10) && (dwMinorVersion =? 0))%Z then
        if (22000 <=? dwBuildNumber)%Z then str "11" else str "10"
      else if ((dwMajorVersion =? 6) && (dwMinorVersion =? 1))%Z then str "7"
      else if ((dwMajorVersion =? 6) && (dwMinorVersion =? 2))%Z then str "8"
      else if ((dwMajorVersion =? 6) && (dwMinorVersion =? 3))%Z then str "8.1"
      else []
  | None => []
  end.

Definition newline : byte := x0a.

(** [std::fgets] into a buffer: a line with its end, or what fits beside the final zero; nothing
    at the end of the stream. *)
Definition fgets (p_Size : nat) (p_Stream : bytes) : option bytes :=
  match p_Stream with
  | [] => None
  | _ => Some (take (p_Size - 1) (match index_of newline p_Stream with Some i => take (S i) p_Stream | None => p_Stream end))
  end.

Definition GetMacOSVersion (y : System) : bytes :=
  match sw_vers y with
  | None => []
  | Some s_Pipe =>
      match fgets 128 s_Pipe with
      | Some s_Buffer =>
          let s_Version := c_string (s_Buffer ++ [x00]) in
          if bool_decide (s_Version = []) then s_Version else drop_last_if newline s_Version
      | None => []
      end
  end.

(** The lines that [std::getline] reads one after the other: an end of the stream right after
    a line's end is not another line. *)
Definition getlines (p_Stream : bytes) : list bytes :=
  let ls := split_on newline p_Stream in
  if bool_decide (list.last ls = Some []) then removelast ls else ls.

(** One quote at each end is dropped. *)
Definition unquote (s : bytes) : bytes :=
  let s := match s with c :: t => if bool_decide (c = x22) then t else s | [] => [] end in
  if bool_decide (s = []) then s else drop_last_if x22 s.

(** The loops over the lines of the file. *)
Fixpoint distro_loop (ls : list bytes) : bytes :=
  match ls with
  | [] => []
  | s_Line :: ls =>
      if bool_decide (find_text (str "NAME=") s_Line 0 = Some 0) && negb (bool_decide (find_text (str "PRETTY_NAME=") s_Line 0 = Some 0))
      then unquote (substr_from s_Line 5)
      else distro_loop ls
  end.

Fixpoint version_loop (ls : list bytes) : bytes :=
  match ls with
  | [] => []
  | s_Line :: ls =>
      if bool_decide (find_text (str "VERSION=") s_Line 0 = Some 0) then unquote (substr_from s_Line 8) else version_loop ls
  end.

(** A file that cannot be opened has no lines. *)
Definition GetLinuxDistro (y : System) : bytes := distro_loop (getlines (default [] (os_release y))).
Definition GetLinuxVersion (y : System) : bytes := version_loop (getlines (default [] (os_release y))).

(** [Config::Console] and [Config::FirmwareVersion]. *)
Definition Console (t : target) (y : System) : bytes :=
  match t with
  | Orbis => str "PlayStation 4"
  | Prospero => str "PlayStation 5"
  | Windows => str "Windows"
  | MacOS => str "macOS"
  | Linux => GetLinuxDistro y
  | Unix => str "Unix"
  | OtherTarget => str "Unknown"
  end.

Definition FirmwareVersion (t : target) (y : System) : outcome bytes :=
  match t with
  | Orbis => GetOrbisVersion y
  | Prospero => GetProsperoVersion y
  | Windows => Done (GetWindowsVersion y)
  | MacOS => Done (GetMacOSVersion y)
  | Linux => Done (GetLinuxVersion y)
  | Unix | OtherTarget => Done []
  end.

(** ** Firmware *)

Section firmware.
Local Open Scope Z_scope.

(** Every version with two decimal digits on each side of the point prints as it reads: for all
    of them by computation. *)
Definition prints_as (a b : Z) : bool := hundredths (double_add (double_of_int a) (double_div (double_of_int b) (double_of_int 100))) =? 100 * a + b.

Definition below (n : nat) (p : Z → bool) : bool := forallb (λ i, p (Z.of_nat i)) (seq 0 n).

Lemma below_spec n p z : below n p = true → 0 <= z < Z.of_nat n → p z = true.
Proof.
  unfold below. rewrite forallb_forall. intros Hp Hz. specialize (Hp (Z.to_nat z)). rewrite Z2Nat.id in Hp by lia. apply Hp.
  apply in_seq. lia.
Qed.

Lemma all_print : below 100 (λ b, below 100 (λ a, prints_as a b)) = true.
Proof. vm_compute. reflexivity. Qed.

Lemma hundredths_sum a b :
  0 <= a < 100 → 0 <= b < 100 → hundredths (double_add (double_of_int a) (double_div (double_of_int b) (double_of_int 100))) = 100 * a + b.
Proof.
  intros Ha Hb. pose proof (below_spec _ _ b all_print ltac:(lia)) as Hp. cbv beta in Hp.
  apply (below_spec _ _ a) in Hp; [|lia]. by apply Z.eqb_eq in Hp.
Qed.

(** A firmware's number: four packed digits, and more that is not shown. *)
Definition packed (d3 d2 d1 d0 low : Z) : Z := ((d3 * 16 + d2) * 256 + (d1 * 16 + d0)) * 65536 + low.

Definition is_digit (d : Z) : Prop := 0 <= d < 10.

Lemma octet_packed d3 d2 d1 d0 low :
  is_digit d3 → is_digit d2 → is_digit d1 → is_digit d0 → 0 <= low < 65536 →
  octet (Z.shiftr (packed d3 d2 d1 d0 low) 24) = d3 * 16 + d2 ∧ octet (Z.shiftr (packed d3 d2 d1 d0 low) 16) = d1 * 16 + d0.
Proof.
  unfold is_digit, packed, octet. intros. rewrite !Z.shiftr_div_pow2 by done. change (2 ^ 24) with 16777216. change (2 ^ 16) with 65536.
  split; Z.to_euclidean_division_equations; lia.
Qed.

Lemma BcdToDecimal_digits h l : is_digit h → is_digit l → BcdToDecimal (h * 16 + l) = 10 * h + l.
Proof.
  unfold is_digit, BcdToDecimal, octet. intros Hh Hl. rewrite Z.shiftr_div_pow2 by done. change 0x0F with (Z.ones 4).
  rewrite Z.land_ones by done. change (2 ^ 4) with 16. Z.to_euclidean_division_equations. lia.
Qed.

(** What is shown of a version. *)
Definition version_text (d3 d2 d1 d0 : Z) : bytes :=
  (if d3 =? 0 then [] else [digit_char d3]) ++ [digit_char d2] ++ str "." ++ [digit_char d1; digit_char d0].

Definition dec_text (z : Z) : bytes := (if z / 10 =? 0 then [] else [digit_char (z / 10)]) ++ [digit_char (z mod 10)].

Lemma print_dec_two z : 0 <= z < 100 → print_dec z = dec_text z.
Proof.
  intros Hz. assert (E : below 100 (λ z, bool_decide (print_dec z = dec_text z)) = true) by (vm_compute; reflexivity).
  apply (below_spec _ _ z) in E; [|lia]. by apply bool_decide_eq_true_1 in E.
Qed.

Lemma print_version d3 d2 d1 d0 low :
  is_digit d3 → is_digit d2 → is_digit d1 → is_digit d0 → 0 <= low < 65536 →
  print_fixed2 (ConvertVersionToDouble (packed d3 d2 d1 d0 low)) = version_text d3 d2 d1 d0.
Proof.
  intros H3 H2 H1 H0 Hl. unfold print_fixed2, ConvertVersionToDouble.
  destruct (octet_packed d3 d2 d1 d0 low) as [-> ->]; [done..|]. rewrite !BcdToDecimal_digits by done.
  unfold is_digit in *. rewrite hundredths_sum by lia. cbv zeta.
  set (n := 100 * (10 * d3 + d2) + (10 * d1 + d0)).
  assert (E1 : n / 100 = 10 * d3 + d2) by (unfold n; Z.to_euclidean_division_equations; lia).
  assert (E2 : n / 10 mod 10 = d1) by (unfold n; Z.to_euclidean_division_equations; lia).
  assert (E3 : n mod 10 = d0) by (unfold n; Z.to_euclidean_division_equations; lia).
  rewrite E1, E2, E3, print_dec_two by lia. unfold dec_text, version_text.
  assert (E4 : (10 * d3 + d2) / 10 = d3) by (Z.to_euclidean_division_equations; lia).
  assert (E5 : (10 * d3 + d2) mod 10 = d2) by (Z.to_euclidean_division_equations; lia).
  by rewrite E4, E5, <- app_assoc.
Qed.

Lemma digit_char_nonzero d : is_digit d → digit_char d ≠ x00.
Proof.
  unfold is_digit, digit_char. intros Hd. destruct (Z.ltb_spec d 10); [|lia]. intros E. apply (f_equal u8) in E. rewrite u8_ch in E.
  change (u8 x00) with 0 in E. rewrite Z.mod_small in E by lia. lia.
Qed.

Lemma c_string_app s t : x00 ∉ s → c_string (s ++ x00 :: t) = s.
Proof. intros Hs. unfold c_string. rewrite index_of_app by done. cbn [from_option id]. by rewrite take_app_length. Qed.

Lemma version_text_ok d3 d2 d1 d0 :
  is_digit d3 → is_digit d2 → is_digit d1 → is_digit d0 → x00 ∉ version_text d3 d2 d1 d0 ∧ (4 <= length (version_text d3 d2 d1 d0) <= 5)%nat.
Proof.
  intros H3 H2 H1 H0. split.
  - unfold version_text. apply digit_char_nonzero in H3, H2, H1, H0. destruct (d3 =? 0); set_solver.
  - unfold version_text. destruct (d3 =? 0); simpl; lia.
Qed.

Lemma GetOrbisVersion_text y d3 d2 d1 d0 low :
  is_digit d3 → is_digit d2 → is_digit d1 → is_digit d0 → 0 <= low < 65536 → packed d3 d2 d1 d0 low ≠ 0 →
  upd_version y = Some (packed d3 d2 d1 d0 low) → GetOrbisVersion y = Done (version_text d3 d2 d1 d0).
Proof.
  intros H3 H2 H1 H0 Hl Hz Hy. unfold GetOrbisVersion, GetFirmwareString. cbv zeta.
  assert (Ev : GetFirmware y = packed d3 d2 d1 d0 low).
  { unfold GetFirmware, GetIntSysctlByName. rewrite Hy. cbn [from_option id]. cbv zeta. unfold packed, is_digit in *.
    destruct (Z.ltb_spec (((d3 * 16 + d2) * 256 + (d1 * 16 + d0)) * 65536 + low) 0); [lia|]. apply Z.mod_small. lia. }
  rewrite Ev, print_version by done. destruct (Z.eqb_spec (packed d3 d2 d1 d0 low) 0); [done|].
  destruct (version_text_ok d3 d2 d1 d0) as [Hn0 Hlen]; [done..|]. rewrite !repeat_length. change (6 <? 5)%nat with false. cbv iota.
  destruct (Nat.ltb_spec 6 (length (version_text d3 d2 d1 d0) + 1)); [lia|].
  rewrite store_n_Done by (rewrite length_app, repeat_length; simpl; lia). rewrite bind_done. cbn [from_option id Z.eqb].
  rewrite bind_done. cbn [from_option id Z.eqb]. unfold splice. rewrite take_0, <- app_assoc. cbn [app].
  by rewrite c_string_app.
Qed.

Lemma GetOrbisVersion_unknown y :
  (upd_version y = None ∨ ∃ v, upd_version y = Some v ∧ v <= 0) → GetOrbisVersion y = Done (str "UNK").
Proof.
  intros Hy. unfold GetOrbisVersion, GetFirmwareString. cbv zeta.
  assert (Ev : GetFirmware y = 0).
  { unfold GetFirmware, GetIntSysctlByName. destruct Hy as [->|(v & -> & Hv)]; [done|]. cbn [from_option id]. cbv zeta.
    destruct (Z.ltb_spec v 0); [done|]. by replace v with 0 by lia. }
  by rewrite Ev.
Qed.

(** The buffer is never written beyond its end. *)
Lemma GetFirmwareString_safe y out : ∃ r out', GetFirmwareString y out = Done (r, out') ∧ (length <$> out') = (length <$> out).
Proof.
  destruct out as [o|]; [|by do 2 eexists]. cbn [GetFirmwareString]. destruct (Nat.ltb_spec (length o) 5); [by do 2 eexists|]. cbv zeta.
  rewrite repeat_length. destruct (_ =? 0); [do 2 eexists; split; [done|]; cbn; by rewrite repeat_length|].
  generalize (print_fixed2 (ConvertVersionToDouble (GetFirmware y))). intros t. destruct (Nat.ltb_spec (length o) (length t + 1)); [do 2 eexists; split; [done|]; cbn; by rewrite repeat_length|].
  rewrite store_n_Done, bind_done by (rewrite length_app, repeat_length; simpl length; lia). do 2 eexists. split; [done|]. cbn [fmap option_fmap option_map].
  rewrite length_splice by (rewrite length_app, repeat_length; simpl length; lia). by rewrite repeat_length.
Qed.
End firmware.

(** ** Lines *)

Section lines.
  Implicit Types (s t l key : bytes) (ls : list bytes).

(** A file of complete lines. *)
Definition file_of ls : bytes := concat ((λ l, l ++ [newline]) <$> ls).

Lemma split_on_file ls : Forall (λ l, newline ∉ l) ls → split_on newline (file_of ls) = ls ++ [[]].
Proof.
  induction ls as [|l ls IH]; intros Hl; [done|]. apply Forall_cons in Hl as [Hl Hls].
  unfold file_of. cbn [fmap list_fmap concat]. rewrite <- app_assoc. cbn [app]. rewrite split_on_cons_sep by done.
  cbn [app]. f_equal. by apply IH.
Qed.

Lemma getlines_file ls : Forall (λ l, newline ∉ l) ls → getlines (file_of ls) = ls.
Proof.
  intros Hl. unfold getlines. rewrite split_on_file by done. cbv zeta.
  rewrite bool_decide_eq_true_2 by by rewrite last_snoc. apply removelast_last.
Qed.

Lemma find_start key s : find_text key s 0 = Some 0 ↔ starts_with key s = true.
Proof.
  unfold find_text. change (length s <? 0) with false. cbv iota. rewrite drop_0. split.
  - intros E. destruct s as [|b s]; cbn [index_text] in E; destruct (starts_with key _); [done..|]. by destruct (index_text key s).
  - intros E. destruct s as [|b s]; cbn [index_text]; by rewrite E.
Qed.

Lemma starts_with_app key s : starts_with key (key ++ s) = true.
Proof. unfold starts_with. apply bool_decide_eq_true_2. by rewrite take_app_length. Qed.

(** The first line of a key, whatever follows it. *)
Lemma distro_loop_first before v after :
  Forall (λ l, starts_with (str "NAME=") l = false) before → distro_loop (before ++ (str "NAME=" ++ v) :: after) = unquote v.
Proof.
  induction before as [|l ls IH]; intros Hb; cbn [app distro_loop].
  - rewrite bool_decide_eq_true_2 by apply find_start, starts_with_app.
    rewrite bool_decide_eq_false_2; [done|]. by rewrite find_start.
  - apply Forall_cons in Hb as [Hl Hb]. rewrite bool_decide_eq_false_2; [by apply IH|]. rewrite find_start. congruence.
Qed.

Lemma version_loop_first before v after :
  Forall (λ l, starts_with (str "VERSION=") l = false) before → version_loop (before ++ (str "VERSION=" ++ v) :: after) = unquote v.
Proof.
  induction before as [|l ls IH]; intros Hb; cbn [app version_loop].
  - by rewrite bool_decide_eq_true_2 by apply find_start, starts_with_app.
  - apply Forall_cons in Hb as [Hl Hb]. rewrite bool_decide_eq_false_2; [by apply IH|]. rewrite find_start. congruence.
Qed.

Lemma unquote_quoted v : unquote (x22 :: v ++ [x22]) = v.
Proof.
  unfold unquote. rewrite (bool_decide_eq_true_2 (x22 = x22)) by done. cbv zeta.
  rewrite (bool_decide_eq_false_2 (v ++ [x22] = [])) by by destruct v.
  unfold drop_last_if. rewrite decide_True by by rewrite last_snoc. apply removelast_last.
Qed.

Lemma unquote_plain v : head v ≠ Some x22 → list.last v ≠ Some x22 → unquote v = v.
Proof.
  intros Hh Hl. destruct v as [|c v]; [done|]. unfold unquote. cbn in Hh.
  rewrite (bool_decide_eq_false_2 (c = x22)) by congruence. cbv zeta. rewrite (bool_decide_eq_false_2 (c :: v = [])) by done. unfold drop_last_if. by rewrite decide_False.
Qed.
End lines.

(** C36: what the platform is called in the user agent.  Asking never fails.  On a console, a
    firmware number of four packed decimal digits is shown as those digits around a point,
    without a leading zero, and a number that is zero, negative or cannot be read as
    UNK.  On Linux, the name and the version are what stands on the first line of the
    file that starts with NAME= and VERSION=, without the quotes around it. *)
Theorem platform_names y :
  (∀ t, ∃ v, FirmwareVersion t y = Done v) ∧
  (∀ t, t = Orbis ∨ t = Prospero →
     (∀ d3 d2 d1 d0 low, is_digit d3 → is_digit d2 → is_digit d1 → is_digit d0 → (0 <= low < 65536)%Z → packed d3 d2 d1 d0 low ≠ 0%Z →
        upd_version y = Some (packed d3 d2 d1 d0 low) → FirmwareVersion t y = Done (version_text d3 d2 d1 d0)) ∧
     (upd_version y = None ∨ (∃ v, upd_version y = Some v ∧ (v <= 0)%Z) → FirmwareVersion t y = Done (str "UNK"))) ∧
  (∀ before v after, Forall (λ l, newline ∉ l) (before ++ v :: after) → head v ≠ Some x22 → list.last v ≠ Some x22 →
     let quoted q := if q : bool then x22 :: v ++ [x22] else v in
     ∀ q,
     (os_release y = Some (file_of (before ++ (str "NAME=" ++ quoted q) :: after)) →
      Forall (λ l, starts_with (str "NAME=") l = false) before → Console Linux y = v) ∧
     (os_release y = Some (file_of (before ++ (str "VERSION=" ++ quoted q) :: after)) →
      Forall (λ l, starts_with (str "VERSION=") l = false) before → FirmwareVersion Linux y = Done v)).
Proof.
  split_and!.
  - intros t. destruct (GetFirmwareString_safe y (Some (repeat x00 6))) as (r & o & E & _).
    destruct t; cbn [FirmwareVersion]; try by eexists.
    + unfold GetOrbisVersion. rewrite E. by eexists.
    + unfold GetProsperoVersion. rewrite E. by eexists.
  - intros t Ht. assert (Et : FirmwareVersion t y = GetOrbisVersion y) by by destruct Ht as [-> | ->]. rewrite Et. split.
    + intros. by eapply GetOrbisVersion_text.
    + apply GetOrbisVersion_unknown.
  - intros before v after Hn Hh Hl quoted q.
    assert (Hq : newline ∉ quoted q ∧ unquote (quoted q) = v).
    { apply Forall_app in Hn as [_ Hn]. apply Forall_cons in Hn as [Hv _]. unfold quoted. destruct q.
      - split; [set_solver|apply unquote_quoted].
      - split; [done|by apply unquote_plain]. }
    destruct Hq as [Hnq Hu].
    assert (Hlines : ∀ key, newline ∉ key → Forall (λ l, newline ∉ l) (before ++ (key ++ quoted q) :: after)).
    { intros key Hk. apply Forall_app in Hn as [Hb Hn]. apply Forall_cons in Hn as [_ Ha]. apply Forall_app. split; [done|].
      constructor; [set_solver|done]. }
    split; intros Ef Hb; cbn [Console FirmwareVersion]; unfold GetLinuxDistro, GetLinuxVersion; rewrite Ef; cbn [from_option id].
    + rewrite getlines_file by (apply Hlines; cbn; set_solver). rewrite distro_loop_first by done. done.
    + rewrite getlines_file by (apply Hlines; cbn; set_solver). by rewrite version_loop_first, Hu.
Qed.

(** ** Examples *)

Definition example_system : System :=
  {| upd_version := Some 0x11008001%Z; rtl_version := Some (10, 0, 22631)%Z; sw_vers := Some (str "14.5" ++ [newline]);
     os_release := Some (file_of [str "PRETTY_NAME=Debian 12"; str "NAME=" ++ [x22] ++ str "Debian GNU/Linux" ++ [x22]; str "VERSION=12"]) |}.

Example platform_examples :
  ((λ t, FirmwareVersion t example_system) <$> [Orbis; Windows; MacOS; Linux; Unix]) =
    [Done (str "11.00"); Done (str "11"); Done (str "14.5"); Done (str "12"); Done []] ∧
  Console Linux example_system = str "Debian GNU/Linux".
Proof. by vm_compute. Qed.

Lemma platform_names_witness : FirmwareVersion Orbis example_system = Done (str "11.00").
Proof.
  destruct (platform_names example_system) as (_ & Hc & _). destruct (Hc Orbis ltac:(by left)) as [Hv _].
  by rewrite (Hv 1%Z 1%Z 0%Z 0%Z 32769%Z) by (done || by vm_compute).
Defined.
