(* ===== verification/ProcessList.v ===== *)
(** * The console program's process list (src/src/main-ps.cc)

    The console build first ends other processes of its own name: it asks the kernel for
    the list of processes, walks over its records, whose sizes stand in the records
    themselves, and kills what it finds until nothing is left.  The kernel's calls are a
    parameter ([Kernel]) over the state of the world; [KernelLaws] says what the program
    relies on: only a process that was killed goes away, and it is gone after finitely many
    waits for events, whatever these return. *)

From Stdlib Require Import ZArith Lia ZifyBool.
From Stdlib Require Import Strings.Byte Strings.String.
From stdpp Require Import base numbers list option sets gmap.
From S2P Require Import Prelude.
From S2P Require Import Memory.

(** What [sysctl] gives when it is asked for the list: the length it sets and the buffer, whose
    end it need not have written; or an error, of which ENOMEM is told apart. *)
Inductive list_result : Type := Listed (s_Len : nat) (s_Buffer : bytes) | NoMemory | ListError.

Class Kernel (W : Type) := {
  getpid : Z;
  sysctl_length : W → option nat * W;
  malloc : nat → W → bool * W;
  sysctl_list : nat → W → list_result * W;
  kqueue : W → bool * W;
  kill : Z → W → bool * W;
  kevent : Z → W → Z * W
}.

Section program.
  Context {H : Target} {W : Type} `{Kernel W}.
  Implicit Types (w : W) (p_ProcName s_Buffer : bytes).

(** An [int] in memory. *)
Definition int_value (bs : bytes) : Z :=
  let v := object_value bs in if (2147483648 <=? v)%Z then (v - 4294967296)%Z else v.

(** [strcmp(p, m + i) == 0]. *)
Fixpoint strcmp_eq (p m : bytes) (i : nat) : outcome bool :=
  b ← load m i;
  match p with
  | [] => Done (bool_decide (b = x00))
  | c :: p => if bool_decide (b = c) then strcmp_eq p m (S i) else Done false
  end.

(** The loop over the records. *)
Fixpoint walk (fuel : nat) p_ProcName s_Buffer (s_Len : nat) (l_Ptr : nat) : outcome Z :=
  match fuel with
  | O => Unfinished
  | S fuel =>
      if l_Ptr <? s_Len then
        s_Size ← load_n s_Buffer l_Ptr 4;
        s_Pid ← load_n s_Buffer (l_Ptr + 72) 4;
        let s_KiPid := int_value s_Pid in
        s_Same ← strcmp_eq p_ProcName s_Buffer (l_Ptr + 447);
        if s_Same && negb (s_KiPid =? getpid)%Z then Done s_KiPid
        else
          let s_Next := (Z.of_nat l_Ptr + int_value s_Size)%Z in
          if (s_Next <? 0)%Z then Undef else walk fuel p_ProcName s_Buffer s_Len (Z.to_nat s_Next)
      else Done (-1)%Z
  end.

(** The attempts to get the list: [None] when the function returns -1. *)
Fixpoint query (l_Left : nat) w : outcome (option (nat * bytes)) * W :=
  match l_Left with
  | O => (Undef, w)
  | S l_Left =>
      match sysctl_length w with
      | (None, w) => (Done None, w)
      | (Some s_Len, w) =>
          if s_Len =? 0 then (Done None, w) else
          let '(ok, w) := malloc s_Len w in
          if negb ok then (Done None, w) else
          match sysctl_list s_Len w with
          | (Listed s_Len s_Buffer, w) => (Done (Some (s_Len, s_Buffer)), w)
          | (NoMemory, w) => if l_Left =? 0 then (Done None, w) else query l_Left w
          | (ListError, w) => (Done None, w)
          end
      end
  end.

Definition s_MaxRetries : nat := 3.

Definition GetPidFromProcName (fuel : nat) (p_ProcName : option bytes) w : outcome (Z * W) :=
  match p_ProcName with
  | None => Done ((-1)%Z, w)
  | Some p_ProcName =>
      let '(o, w) := query s_MaxRetries w in
      r ← o;
      match r with
      | None => Done ((-1)%Z, w)
      | Some (s_Len, s_Buffer) => s_FoundPid ← walk fuel p_ProcName s_Buffer s_Len 0; Done (s_FoundPid, w)
      end
  end.

(** The loop of [KillProcByName]. *)
Fixpoint kill_loop (fuel : nat) p_ProcName w : outcome W :=
  match fuel with
  | O => Unfinished
  | S fuel' =>
      '(s_ProcPid, w) ← GetPidFromProcName fuel (Some p_ProcName) w;
      if (s_ProcPid <=? 0)%Z then Done w else
      let '(s_Kq, w) := kqueue w in
      if negb s_Kq then Done w else
      let '(s_Ret, w) := kill s_ProcPid w in
      if negb s_Ret then Done w else
      let '(_, w) := kevent s_ProcPid w in
      kill_loop fuel' p_ProcName w
  end.

Definition KillProcByName (fuel : nat) (p_ProcName : option bytes) w : outcome W :=
  match p_ProcName with None => Done w | Some p_ProcName => kill_loop fuel p_ProcName w end.
End program.

(** ** The kernel's list *)

(** A record: its size, its pid and its name, at their places. *)
Record entry : Type := { e_record : bytes; e_pid : Z; e_name : bytes }.

Definition entry_ok {H : Target} (e : entry) : Prop :=
  ∃ sz a pid b rest, e_record e = sz ++ a ++ pid ++ b ++ e_name e ++ [x00] ++ rest ∧
    length sz = 4 ∧ length a = 68 ∧ length pid = 4 ∧ length b = 371 ∧
    int_value sz = Z.of_nat (length (e_record e)) ∧ int_value pid = e_pid e ∧ x00 ∉ e_name e.

(** What the program relies on.  The list has such records; asking for it changes no process,
    and no new processes appear meanwhile.  A successful [kill] leaves its process with so many
    waits to live, [to_live], and another one does not prolong that; each [kevent] that waits for
    a killed process finds it gone afterwards or has used up one of its waits, whatever it
    returns (the event, a time-out, an error), and it does nothing to a process that was not
    killed. *)
Class KernelLaws (W : Type) `{Kernel W} {H : Target} := {
  processes : W → list entry;
  to_live : W → Z → option nat;
  processes_ok w : Forall entry_ok (processes w);
  length_processes w r w' : sysctl_length w = (r, w') → processes w' = processes w ∧ to_live w' = to_live w;
  malloc_processes n w r w' : malloc n w = (r, w') → processes w' = processes w ∧ to_live w' = to_live w;
  list_processes n w r w' : sysctl_list n w = (r, w') → (processes w' = processes w ∧ to_live w' = to_live w) ∧
    ∀ s_Len s_Buffer, r = Listed s_Len s_Buffer →
      s_Len = length (concat (e_record <$> processes w)) ∧ ∃ junk, s_Buffer = concat (e_record <$> processes w) ++ junk;
  kqueue_processes w r w' : kqueue w = (r, w') → processes w' = processes w ∧ to_live w' = to_live w;
  kill_processes pid w r w' : kill pid w = (r, w') → processes w' = processes w ∧
    if r then ∃ n, to_live w' pid = Some n ∧ ∀ m, to_live w pid = Some m → n ≤ m else to_live w' = to_live w;
  kevent_processes pid w r w' : kevent pid w = (r, w') →
    match to_live w pid with
    | None => processes w' = processes w ∧ to_live w' = to_live w
    | Some n => processes w' = filter (λ e, e_pid e ≠ pid) (processes w) ∨
                processes w' = processes w ∧ ∃ m, to_live w' pid = Some m ∧ m < n
    end
}.

Section facts.
  Context {H : Target} {W : Type} `{HK : Kernel W}.
  Implicit Types (w : W) (e : entry) (name : bytes).

Lemma strcmp_eq_spec p m i s rest :
  x00 ∉ p → x00 ∉ s → drop i m = s ++ [x00] ++ rest → strcmp_eq p m i = Done (bool_decide (p = s)).
Proof.
  revert i s. induction p as [|c p IH]; intros i s Hp Hs Hd; cbn [strcmp_eq].
  - destruct s as [|d s]; cbn [app] in Hd.
    + assert (E : load m i = Done x00) by (apply load_Done; by rewrite <- (Nat.add_0_r i), <- lookup_drop, Hd).
      by rewrite E.
    + assert (E : load m i = Done d) by (apply load_Done; by rewrite <- (Nat.add_0_r i), <- lookup_drop, Hd).
      rewrite E, bind_done, !bool_decide_eq_false_2; [done|done|set_solver].
  - destruct s as [|d s]; cbn [app] in Hd.
    + assert (E : load m i = Done x00) by (apply load_Done; by rewrite <- (Nat.add_0_r i), <- lookup_drop, Hd).
      rewrite E, bind_done, (bool_decide_eq_false_2 (x00 = c)), bool_decide_eq_false_2; [done|done|set_solver].
    + assert (E : load m i = Done d) by (apply load_Done; by rewrite <- (Nat.add_0_r i), <- lookup_drop, Hd).
      rewrite E, bind_done. destruct (bool_decide_reflect (d = c)) as [->|Hne].
      * rewrite (IH (S i) s); [|set_solver|set_solver|replace (S i) with (i + 1) by lia; by rewrite <- drop_drop, Hd].
        f_equal. apply bool_decide_ext. naive_solver.
      * by rewrite bool_decide_eq_false_2 by congruence.
Qed.

(** The first process of a name that is not the program itself. *)
Fixpoint find_pid name (es : list entry) : Z :=
  match es with
  | [] => (-1)%Z
  | e :: es => if bool_decide (name = e_name e) && negb (e_pid e =? getpid)%Z then e_pid e else find_pid name es
  end.

Lemma load_n_drop m i n bs rest : drop i m = bs ++ rest → length bs = n → (0 < n) → load_n m i n = Done bs.
Proof.
  intros Hd Hn Hp. assert (Hl : length (drop i m) = n + length rest) by (rewrite Hd, length_app; lia). rewrite length_drop in Hl.
  rewrite load_n_Done by lia. rewrite Hd. f_equal. rewrite <- Hn. apply take_app_length.
Qed.

Lemma drop_more (m : bytes) i j bs rest : drop i m = bs ++ rest → length bs = j → drop (i + j) m = rest.
Proof. intros Hd Hj. rewrite <- drop_drop, Hd, <- Hj. apply drop_app_length. Qed.

(** A record in the buffer: its fields, and its length, which is not zero. *)
Lemma entry_fields e s_Buffer i more name :
  entry_ok e → drop i s_Buffer = e_record e ++ more → x00 ∉ name →
  (∃ sz pid, load_n s_Buffer i 4 = Done sz ∧ int_value sz = Z.of_nat (length (e_record e)) ∧
     load_n s_Buffer (i + 72) 4 = Done pid ∧ int_value pid = e_pid e) ∧
  strcmp_eq name s_Buffer (i + 447) = Done (bool_decide (name = e_name e)) ∧ 448 ≤ length (e_record e).
Proof.
  intros (sz & a & pid & b & rest & Er & L1 & L2 & L3 & L4 & Hsz & Hpid & Hn) Hd Hname.
  assert (Hlen : 448 ≤ length (e_record e)) by (rewrite Er, !length_app; simpl; lia).
  rewrite Er in Hd. rewrite <- !app_assoc in Hd. pose proof (drop_more _ _ _ _ _ Hd L1) as D1.
  pose proof (drop_more _ _ _ _ _ D1 L2) as D2. pose proof (drop_more _ _ _ _ _ D2 L3) as D3. pose proof (drop_more _ _ _ _ _ D3 L4) as D4.
  split_and!; [|..|done].
  - exists sz, pid. split; [by eapply load_n_drop; [exact Hd| |lia]|]. split; [done|]. split; [|done].
    eapply load_n_drop; [|done|lia]. replace (i + 72) with (i + 4 + 68) by lia. exact D2.
  - eapply (strcmp_eq_spec _ _ _ _ (rest ++ more)); [done|done|]. replace (i + 447) with (i + 4 + 68 + 4 + 371) by lia.
    by rewrite D4.
Qed.

Lemma walk_list es name pre junk fuel :
  Forall entry_ok es → x00 ∉ name → length es < fuel →
  walk fuel name (pre ++ concat (e_record <$> es) ++ junk) (length pre + length (concat (e_record <$> es))) (length pre)
    = Done (find_pid name es).
Proof.
  revert pre fuel. induction es as [|e es IH]; intros pre fuel Hes Hname Hf; (destruct fuel as [|fuel]; [simpl in Hf; lia|]); cbn [walk].
  - cbn [fmap list_fmap concat length]. destruct (Nat.ltb_spec (length pre) (length pre + 0)); [lia|done].
  - apply Forall_cons in Hes as [He Hes]. cbn [fmap list_fmap concat].
    assert (Hd : drop (length pre) (pre ++ (e_record e ++ concat (e_record <$> es)) ++ junk) = e_record e ++ concat (e_record <$> es) ++ junk)
      by by rewrite drop_app_length, <- app_assoc.
    destruct (entry_fields _ _ _ _ name He Hd Hname) as ((sz & pid & -> & Hsz & -> & Hpid) & -> & Hlen).
    rewrite length_app. destruct (Nat.ltb_spec (length pre) (length pre + (length (e_record e) + length (concat (e_record <$> es))))); [|lia].
    rewrite !bind_done, Hpid. cbv zeta. cbn [find_pid]. destruct (bool_decide _ && _); [done|]. rewrite Hsz.
    destruct (Z.ltb_spec (Z.of_nat (length pre) + Z.of_nat (length (e_record e))) 0); [lia|].
    specialize (IH (pre ++ e_record e) fuel Hes Hname ltac:(simpl in Hf; lia)). rewrite length_app in IH.
    rewrite <- IH. f_equal; [by rewrite <- !app_assoc|lia|lia].
Qed.

Lemma find_pid_spec name es :
  find_pid name es = (-1)%Z ∨ ∃ e, e ∈ es ∧ find_pid name es = e_pid e ∧ name = e_name e ∧ e_pid e ≠ getpid.
Proof.
  induction es as [|e es IH]; cbn [find_pid]; [by left|].
  destruct (bool_decide_reflect (name = e_name e)) as [->|]; cbn [andb].
  - destruct (Z.eqb_spec (e_pid e) getpid) as [E|]; cbn [negb].
    + destruct IH as [IH|(e' & ? & ?)]; [by left|right]. exists e'. split; [by right|done].
    + right. exists e. split; [by left|done].
  - destruct IH as [IH|(e' & ? & ?)]; [by left|right]. exists e'. split; [by right|done].
Qed.

(** *** With a kernel *)

Context {HL : KernelLaws W}.

(** When no call of the kernel fails. *)
Definition works : Prop :=
  (∀ w, ∃ n w', sysctl_length w = (Some (S n), w')) ∧ (∀ n w, fst (malloc n w) = true) ∧
  (∀ n w, ∃ len buf w', sysctl_list n w = (Listed len buf, w')) ∧ (∀ w, fst (kqueue w) = true) ∧ (∀ pid w, fst (kill pid w) = true).

(** Asking for the list changes no process; what is got is the list. *)
Definition same w w' : Prop := processes w' = processes w ∧ to_live w' = to_live w.

Lemma same_trans w w' w'' : same w w' → same w' w'' → same w w''.
Proof. intros [E1 E2] [E3 E4]. split; congruence. Qed.

Lemma query_spec n w :
  0 < n → ∃ r w', query n w = (Done r, w') ∧ same w w' ∧ (works → r ≠ None) ∧
    ∀ s_Len s_Buffer, r = Some (s_Len, s_Buffer) →
      s_Len = length (concat (e_record <$> processes w)) ∧ ∃ junk, s_Buffer = concat (e_record <$> processes w) ++ junk.
Proof.
  revert w. induction n as [|n IH]; intros w Hn; [lia|]. cbn [query].
  destruct (sysctl_length w) as [[len|] w1] eqn:E1; pose proof (length_processes _ _ _ E1 : same w w1) as P1.
  2: { exists None, w1. split_and!; [done|done| |done]. intros (Hw & _). destruct (Hw w) as (? & ? & ?). congruence. }
  destruct (Nat.eqb_spec len 0) as [->|].
  { exists None, w1. split_and!; [done|done| |done]. intros (Hw & _). destruct (Hw w) as (? & ? & ?). congruence. }
  destruct (malloc len w1) as [[] w2] eqn:E2; pose proof (same_trans _ _ _ P1 (malloc_processes _ _ _ _ E2)) as P2; cbn [negb].
  2: { exists None, w2. split_and!; [done|done| |done]. intros (_ & Hw & _). specialize (Hw len w1). by rewrite E2 in Hw. }
  destruct (sysctl_list len w2) as [[l buf| |] w3] eqn:E3; destruct (list_processes _ _ _ _ E3) as [P3' Hl];
    pose proof (same_trans _ _ _ P2 P3') as P3; clear P3'.
  - exists (Some (l, buf)), w3. split_and!; [done|done|done|]. intros ? ? [= <- <-].
    destruct (Hl l buf eq_refl) as [-> (junk & ->)]. rewrite (proj1 P2). split; [done|]. by exists junk.
  - destruct (Nat.eqb_spec n 0).
    + exists None, w3. split_and!; [done|done| |done]. intros (_ & _ & Hw & _). destruct (Hw len w2) as (? & ? & ? & ?). congruence.
    + destruct (IH w3 ltac:(lia)) as (r & w' & -> & P4 & Hr1 & Hr2). exists r, w'.
      split_and!; [done|by eapply same_trans|done|].
      intros ? ? Er. rewrite <- (proj1 P3). by apply Hr2.
  - exists None, w3. split_and!; [done|done| |done]. intros (_ & _ & Hw & _). destruct (Hw len w2) as (? & ? & ? & ?). congruence.
Qed.

Lemma GetPid_spec name w :
  x00 ∉ name →
  ∃ pid w', (∀ fuel, length (processes w) < fuel → GetPidFromProcName fuel (Some name) w = Done (pid, w')) ∧ same w w' ∧
    (pid = (-1)%Z ∨ pid = find_pid name (processes w)) ∧ (works → pid = find_pid name (processes w)).
Proof.
  intros Hname. unfold GetPidFromProcName. destruct (query_spec s_MaxRetries w) as (r & w' & -> & Ep & Hok & Hr); [unfold s_MaxRetries; lia|].
  destruct r as [[len buf]|].
  - destruct (Hr len buf eq_refl) as [-> (junk & ->)]. exists (find_pid name (processes w)), w'.
    split_and!; [|done|by right|done]. intros fuel Hf. rewrite bind_done.
    pose proof (walk_list (processes w) name [] junk fuel (processes_ok w) Hname Hf) as Hw. cbn [app length Nat.add] in Hw. by rewrite Hw.
  - exists (-1)%Z, w'. split_and!; [done|done|by left|]. intros Hw. by destruct (Hok Hw eq_refl).
Qed.

(** Which processes are left. *)
Definition spares name w w' : Prop :=
  sublist (processes w') (processes w) ∧
  ∀ e, e ∈ processes w → e ∉ processes w' → ∃ e', e' ∈ processes w ∧ e_name e' = name ∧ e_pid e' = e_pid e ∧ e_pid e ≠ getpid.

Lemma spares_refl name w w' : processes w' = processes w → spares name w w'.
Proof. intros E. split; [by rewrite E|]. intros e He. by rewrite E. Qed.

Lemma find_pid_none name es :
  Forall (λ e, (0 < e_pid e)%Z) es → (find_pid name es <= 0)%Z → ∀ e, e ∈ es → e_name e = name → e_pid e = getpid.
Proof.
  induction es as [|e0 es IH]; intros Hpos Hf e He Hne; [by apply elem_of_nil in He|].
  apply Forall_cons in Hpos as [Hp0 Hpos]. cbn [find_pid] in Hf.
  destruct (bool_decide_reflect (name = e_name e0)) as [Hn0|Hn0]; cbn [andb] in Hf.
  - destruct (Z.eqb_spec (e_pid e0) getpid) as [E0|E0]; cbn [negb] in Hf; [|lia]. apply elem_of_cons in He as [->|He]; [done|by apply IH].
  - apply elem_of_cons in He as [->|He]; [congruence|by apply IH].
Qed.

(** One process is killed: the others are spared, and there are fewer. *)
Lemma kill_one name w w' w'' e :
  e ∈ processes w → e_name e = name → e_pid e ≠ getpid → processes w' = filter (λ e', e_pid e' ≠ e_pid e) (processes w) →
  length (processes w') < length (processes w) ∧ (spares name w' w'' → spares name w w'').
Proof.
  intros He Hn Hp Ep. split.
  - rewrite Ep. apply (length_filter_lt _ _ e He). intros Hx. by apply Hx.
  - intros [Hs Hg]. assert (Hsub : sublist (processes w') (processes w)) by (rewrite Ep; apply sublist_filter).
    split; [by etrans|]. intros e1 He1 Hne1. destruct (decide (e_pid e1 = e_pid e)) as [E|E]; [by exists e; split_and!; congruence|].
    destruct (Hg e1) as (e2 & He2 & H2); [rewrite Ep; by apply list_elem_of_filter|done|]. exists e2. split; [|done].
    by eapply elem_of_sublist.
Qed.

(** None of the name is left but the program itself. *)
Definition cleared name w : Prop := ∀ e, e ∈ processes w → e_name e = name → e_pid e = getpid.

(** One round of the loop is the last one, or kills the first process of the name: that is
    gone afterwards, or has less to live than before. *)
Lemma kill_round name w :
  x00 ∉ name → Forall (λ e, (0 < e_pid e)%Z) (processes w) →
  (∃ w', (∀ fuel, length (processes w) < fuel → kill_loop fuel name w = Done w') ∧
     processes w' = processes w ∧ (works → cleared name w')) ∨
  (∃ e w', (e ∈ processes w ∧ e_name e = name ∧ e_pid e ≠ getpid) ∧ find_pid name (processes w) = e_pid e ∧
     (∀ fuel, length (processes w) < S fuel → kill_loop (S fuel) name w = kill_loop fuel name w') ∧
     (processes w' = filter (λ e', e_pid e' ≠ e_pid e) (processes w) ∨
      processes w' = processes w ∧
      ∃ n, to_live w' (e_pid e) = Some n ∧ ∀ m, to_live w (e_pid e) = Some m → n < m)).
Proof.
  intros Hname Hpos. destruct (GetPid_spec name w Hname) as (pid & w1 & E1 & [P1 L1] & Hpid & Hok).
  assert (Hend : works → (pid <= 0)%Z → cleared name w).
  { intros Hw Hle. unfold cleared. apply find_pid_none; [done|]. by rewrite <- Hok. }
  destruct (Z.leb_spec pid 0) as [Hle|Hgt].
  { left. exists w1. split_and!; [|done|].
    - intros [|fuel] Hf; [lia|]. cbn [kill_loop]. rewrite E1, bind_done by done. by destruct (Z.leb_spec pid 0); [|lia].
    - intros Hw. unfold cleared. rewrite P1. by apply Hend. }
  assert (Hgo : ∀ fuel, length (processes w) < S fuel → kill_loop (S fuel) name w =
    (let '(s_Kq, w2) := kqueue w1 in if negb s_Kq then Done w2 else
     let '(s_Ret, w3) := kill pid w2 in if negb s_Ret then Done w3 else
     let '(_, w4) := kevent pid w3 in kill_loop fuel name w4)).
  { intros fuel Hf. cbn [kill_loop]. rewrite E1, bind_done by done. by destruct (Z.leb_spec pid 0); [lia|]. }
  destruct (kqueue w1) as [[] w2] eqn:E2; destruct (kqueue_processes _ _ _ E2) as [P2 L2]; cbn [negb] in Hgo.
  2: { left. exists w2. split_and!; [intros [|fuel] Hf; [lia|by apply Hgo]|congruence|].
       intros (_ & _ & _ & Hw & _). specialize (Hw w1). by rewrite E2 in Hw. }
  destruct (kill pid w2) as [[] w3] eqn:E3; destruct (kill_processes _ _ _ _ E3) as [P3 L3]; cbn [negb] in Hgo.
  2: { left. exists w3. split_and!; [intros [|fuel] Hf; [lia|by apply Hgo]|congruence|].
       intros (_ & _ & _ & _ & Hw). specialize (Hw pid w2). by rewrite E3 in Hw. }
  destruct L3 as (k & Ek & Hk). destruct (kevent pid w3) as [z w4] eqn:E4.
  pose proof (kevent_processes _ _ _ _ E4) as P4. rewrite Ek in P4. destruct Hpid as [->|Epid]; [lia|].
  destruct (find_pid_spec name (processes w)) as [|(e & He & Ef & Hn & Hp)]; [lia|]. rewrite Ef in Epid. subst pid.
  right. exists e, w4. split_and!; [done|done|done|done|done|]. destruct P4 as [P4|[P4 (m & Em & Hm)]]; [left; congruence|right].
  split; [congruence|]. exists m. split; [done|]. intros m' Em'. rewrite L2, L1 in Hk. specialize (Hk m' Em'). lia.
Qed.

Definition ends name w : Prop :=
  ∃ bound w', (∀ fuel, bound ≤ fuel → kill_loop fuel name w = Done w') ∧ spares name w w' ∧ (works → cleared name w').

Lemma ends_round name w w' :
  (∀ fuel, length (processes w) < S fuel → kill_loop (S fuel) name w = kill_loop fuel name w') →
  (∀ w'', spares name w' w'' → spares name w w'') → ends name w' → ends name w.
Proof.
  intros Hgo Hsp (b & w'' & Hk & Hs & Hw). exists (S (b + length (processes w))), w''. split_and!; [|by apply Hsp|done].
  intros [|fuel] Hf; [lia|]. rewrite Hgo by lia. apply Hk. lia.
Qed.

(** By the number of processes, and what the one that is being killed has to live. *)
Lemma kill_loop_spec name n : ∀ w,
  x00 ∉ name → length (processes w) < n → Forall (λ e, (0 < e_pid e)%Z) (processes w) → ends name w.
Proof.
  induction n as [|n IH]; intros w Hname Hlen Hpos; [lia|].
  assert (Hlast : ∀ w, (∃ w', (∀ fuel, length (processes w) < fuel → kill_loop fuel name w = Done w') ∧
     processes w' = processes w ∧ (works → cleared name w')) → ends name w).
  { intros w0 (w' & Hk & P & Hw). exists (S (length (processes w0))), w'. split_and!; [|by apply spares_refl|done].
    intros fuel Hf. apply Hk. lia. }
  assert (Hgone : ∀ w e w', length (processes w) < S n → Forall (λ e, (0 < e_pid e)%Z) (processes w) →
     e ∈ processes w ∧ e_name e = name ∧ e_pid e ≠ getpid →
     (∀ fuel, length (processes w) < S fuel → kill_loop (S fuel) name w = kill_loop fuel name w') →
     processes w' = filter (λ e', e_pid e' ≠ e_pid e) (processes w) → ends name w).
  { intros w0 e w' Hl Hp (He & Hn & Hne) Hgo P. apply (ends_round name w0 w' Hgo).
    - intros w''. by apply kill_one with e.
    - destruct (kill_one name w0 w' w' e He Hn Hne P) as [Hlt _]. apply IH; [done|lia|].
      rewrite P. apply Forall_forall. intros e1 [_ He1]%list_elem_of_filter. rewrite Forall_forall in Hp. by apply Hp. }
  assert (Hdying : ∀ m w, length (processes w) < S n → Forall (λ e, (0 < e_pid e)%Z) (processes w) →
     (∃ k, to_live w (find_pid name (processes w)) = Some k ∧ k < m) → ends name w).
  { induction m as [|m IHm]; intros w0 Hl Hp (k & Ek & Hk); [lia|].
    destruct (kill_round name w0 Hname Hp) as [Hx|(e & w' & He & Ef & Hgo & [P|[P (k' & Ek' & Hk')]])];
      [by apply Hlast|by eapply Hgone|].
    rewrite Ef in Ek. specialize (Hk' k Ek). apply (ends_round name w0 w' Hgo); [unfold spares; by rewrite P|].
    apply IHm; rewrite P; [done..|]. rewrite Ef. exists k'. split; [done|lia]. }
  destruct (kill_round name w Hname Hpos) as [Hx|(e & w' & He & Ef & Hgo & [P|[P (k' & Ek' & _)]])];
    [by apply Hlast|by eapply Hgone|].
  apply (ends_round name w w' Hgo); [unfold spares; by rewrite P|].
  apply (Hdying (S k')); rewrite P; [done..|]. rewrite Ef. exists k'. split; [done|lia].
Qed.

(** A record whose size is zero is walked over forever. *)
Lemma walk_stuck name s_Buffer s_Len l_Ptr sz pid fuel :
  l_Ptr < s_Len → load_n s_Buffer l_Ptr 4 = Done sz → int_value sz = 0%Z → load_n s_Buffer (l_Ptr + 72) 4 = Done pid →
  strcmp_eq name s_Buffer (l_Ptr + 447) = Done false → walk fuel name s_Buffer s_Len l_Ptr = Unfinished.
Proof.
  intros Hp E1 Esz E2 E3. induction fuel as [|fuel IH]; [done|]. cbn [walk].
  destruct (Nat.ltb_spec l_Ptr s_Len); [|lia]. rewrite E1, E2, E3, !bind_done. cbn [andb]. rewrite Esz, Z.add_0_r. cbv zeta.
  destruct (Z.ltb_spec (Z.of_nat l_Ptr) 0); [lia|]. by rewrite Nat2Z.id.
Qed.

(** C37: the console program finds and ends the other processes of its name.  When the kernel
    gives a list of records of the layout the program expects, looking for a name reads only
    inside the list and ends, with the pid of the first process of that name that is not the
    program itself, or -1 when there is none or the list cannot be got; ending the
    processes of a name terminates when a killed process is gone after some number of waits,
    whatever these report, kills no process of another name and not the program itself, and
    when no call of the kernel fails (a wait may) none of that name is left.  All this hangs
    on the sizes that stand in the records: on one whose size is zero, the walk
    never ends. *)
Theorem process_list name w :
  x00 ∉ name →
  (∃ pid w', (∀ fuel, length (processes w) < fuel → GetPidFromProcName fuel (Some name) w = Done (pid, w')) ∧
     (pid = (-1)%Z ∨ ∃ e, e ∈ processes w ∧ pid = e_pid e ∧ e_name e = name ∧ e_pid e ≠ getpid) ∧
     (works → pid = find_pid name (processes w))) ∧
  (Forall (λ e, (0 < e_pid e)%Z) (processes w) →
   ∃ bound w', (∀ fuel, bound ≤ fuel → KillProcByName fuel (Some name) w = Done w') ∧
     (∀ e, e ∈ processes w' → e ∈ processes w) ∧
     (∀ e, e ∈ processes w → e ∉ processes w' →
        ∃ e', e' ∈ processes w ∧ e_name e' = name ∧ e_pid e' = e_pid e ∧ e_pid e ≠ getpid) ∧
     (works → ∀ e, e ∈ processes w' → e_name e = name → e_pid e = getpid)) ∧
  (∀ s_Buffer s_Len l_Ptr sz pid fuel,
     l_Ptr < s_Len → load_n s_Buffer l_Ptr 4 = Done sz → int_value sz = 0%Z → load_n s_Buffer (l_Ptr + 72) 4 = Done pid →
     strcmp_eq name s_Buffer (l_Ptr + 447) = Done false → walk fuel name s_Buffer s_Len l_Ptr = Unfinished).
Proof.
  intros Hname. split_and!.
  - destruct (GetPid_spec name w Hname) as (pid & w' & Hk & _ & Hp & Hw). exists pid, w'. split_and!; [done| |done].
    destruct Hp as [Hp|Hp]; [by left|]. destruct (find_pid_spec name (processes w)) as [E|(e & ? & ? & ? & ?)]; [left; congruence|].
    right. exists e. split_and!; congruence.
  - intros Hpos. destruct (kill_loop_spec name (S (length (processes w))) w Hname ltac:(lia) Hpos) as (b & w' & Hk & [Hs Hg] & Hw).
    exists b, w'. split_and!; [done| |done|done]. intros e He. by eapply elem_of_sublist.
  - intros. by eapply walk_stuck.
Qed.
End facts.

(** ** A small kernel *)

Section examples.
  #[local] Existing Instance x86_64.

Definition example_entry (pid : Z) (name : bytes) : entry :=
  {| e_record := object_bytes 4 (448 + Z.of_nat (length name)) ++ repeat x00 68 ++ object_bytes 4 pid ++ repeat x00 371 ++ name ++ [x00];
     e_pid := pid; e_name := name |}.

(** Its state is the processes with their names, which have no zero bytes, and the killed
    ones, which outlive one wait. *)
Record example_world : Type := { procs : list (positive * bool); killed : gmap Z nat }.

Definition example_name (b : bool) : bytes := if b then str "chukei" else str "sh".
Definition pid_of (p : positive) : Z := Z.pos p mod 1000000.

Definition example_processes (w : example_world) : list entry := (λ '(p, b), example_entry (pid_of p) (example_name b)) <$> procs w.

#[local] Instance example_kernel : Kernel example_world := {
  getpid := 7;
  sysctl_length w := (Some (S (length (concat (e_record <$> example_processes w)))), w);
  malloc n w := (true, w);
  sysctl_list n w := (Listed (length (concat (e_record <$> example_processes w))) (concat (e_record <$> example_processes w)), w);
  kqueue w := (true, w);
  kill pid w :=
    (true, match killed w !! pid with Some _ => w | None => {| procs := procs w; killed := <[pid := 1]> (killed w) |} end);
  kevent pid w :=
    match killed w !! pid with
    | None => (0%Z, w)
    | Some 0 => (1%Z, {| procs := filter (λ e, pid_of e.1 ≠ pid) (procs w); killed := killed w |})
    | Some (S n) => (0%Z, {| procs := procs w; killed := <[pid := n]> (killed w) |})
    end
}.

Lemma int_value_small z : (0 <= z < 2147483648)%Z → int_value (object_bytes 4 z) = z.
Proof.
  intros Hz. unfold int_value. rewrite object_value_bytes by (change (width 4) with 4294967296%Z; lia). cbv zeta.
  destruct (Z.leb_spec 2147483648 z); [lia|done].
Qed.

Lemma example_entry_ok p b : entry_ok (example_entry (pid_of p) (example_name b)).
Proof.
  assert (Hp : (0 <= pid_of p < 1000000)%Z) by by apply Z.mod_pos_bound.
  set (name := example_name b). assert (Hn : length name ≤ 6) by by destruct b; simpl; lia.
  exists (object_bytes 4 (448 + Z.of_nat (length name))), (repeat x00 68), (object_bytes 4 (pid_of p)), (repeat x00 371), [].
  split_and!; [by rewrite app_nil_r|apply length_object_bytes|apply repeat_length|apply length_object_bytes|apply repeat_length| | |].
  - rewrite int_value_small by lia. cbn [example_entry e_record]. rewrite !length_app, !length_object_bytes, !repeat_length. simpl length. lia.
  - by rewrite int_value_small by lia.
  - cbn [example_entry e_name]. unfold name. destruct b; vm_compute; set_solver.
Qed.

Lemma example_filter pid (ps : list (positive * bool)) (m : gmap Z nat) :
  example_processes {| procs := filter (λ e, pid_of e.1 ≠ pid) ps; killed := m |}
    = filter (λ e, e_pid e ≠ pid) (example_processes {| procs := ps; killed := m |}).
Proof.
  unfold example_processes. cbn [procs]. induction ps as [|[p b] ps IH]; [done|].
  rewrite fmap_cons, !filter_cons. cbn [fst example_entry e_pid].
  destruct (decide (pid_of p ≠ pid)); [|done]. cbn [fmap list_fmap]. by f_equal.
Qed.

#[local] Instance example_kernel_laws : KernelLaws example_world.
Proof.
  refine (Build_KernelLaws example_world _ _ example_processes (λ w pid, killed w !! pid) _ _ _ _ _ _ _).
  - intros w. unfold example_processes. apply Forall_fmap, Forall_true. intros [p b]. apply example_entry_ok.
  - by intros w r w' [= _ <-].
  - by intros n w r w' [= _ <-].
  - intros n w r w' [= <- <-]. split; [done|]. intros ? ? [= <- <-]. split; [done|]. exists []. by rewrite app_nil_r.
  - by intros w r w' [= _ <-].
  - intros pid w r w' [= <- <-]. destruct (killed w !! pid) as [n|] eqn:Ek.
    + split; [done|]. exists n. split; [done|]. intros m [= <-]. done.
    + split; [done|]. exists 1. cbn [killed]. rewrite lookup_insert_eq. by split.
  - intros pid w r w'. cbn [kevent example_kernel]. destruct (killed w !! pid) as [[|n]|]; intros [= _ <-]; [left| |done].
    + destruct w as [ps m]. apply example_filter.
    + right. split; [done|]. exists n. cbn [killed]. rewrite lookup_insert_eq. split; [done|lia].
Defined.

Definition example_world_1 : example_world :=
  {| procs := [(3%positive, false); (7%positive, true); (9%positive, true)]; killed := ∅ |}.

Lemma process_list_witness :
  ∃ bound w', ∀ fuel, bound ≤ fuel → KillProcByName fuel (Some (str "chukei")) example_world_1 = Done w'.
Proof.
  destruct (process_list (str "chukei") example_world_1) as (_ & Hk & _).
  - vm_compute. set_solver.
  - destruct Hk as (b & w' & Hk & _).
    + unfold processes, example_kernel_laws, example_processes, example_world_1. cbn [procs]. rewrite !fmap_cons, fmap_nil. repeat constructor.
    + by exists b, w'.
Defined.

(** The first wait times out, and the process is killed again. *)
Example kill_example :
  match KillProcByName 9 (Some (str "chukei")) example_world_1 with Done w => Some (procs w) | _ => None end
    = Some [(3%positive, false); (7%positive, true)].
Proof. by vm_compute. Qed.
End examples.
