(* ===== verification/ZoneAnswers.v ===== *)
(** * From the zone file to the answer

    The parts that serve a zone file, put together: [ConfigParser] groups and
    converts its records, [LocalDns] searches them with the subdomain asked for, and
    [DnsResponse] writes the message.  For a zone whose records have plain names, what a
    client gets is what the file lists under the name and the type it asks for, or else
    under the wildcard.  The engine for patterns is a parameter, as before; the law used of
    it here is what patterns without special characters match ([RegexLiteral]). *)

From Stdlib Require Import ZArith Lia.
From Stdlib Require Import Strings.Byte Strings.String.
From stdpp Require Import base numbers list option sets gmap.
From S2P Require Import Prelude.
From S2P Require Import Stateful.
From S2P Require Import Memory.
From S2P Require Import Text.
From S2P Require Import Utils.
From S2P Require Import Name.
From S2P Require Import DnsQuestion.
From S2P Require Import DnsRequestPacket.
From S2P Require Import DnsResponsePacket.
From S2P Require Import DnsResponse.
From S2P Require Import ResponseFacts.
From S2P Require Import SampleJson.
From S2P Require Import WholeResponses.
From S2P Require Import Regex.
From S2P Require Import DnsParser.
From S2P Require Import LocalDns.
From S2P Require Import SampleRegex.
From S2P Require Import LocalFacts.
From S2P Require Import ConfigParser.
From S2P Require Import SampleConfig.
From S2P Require Import ConfigFacts.

(** ** Patterns without special characters *)

(** The characters of host names, the dot, which is escaped, and the at sign. *)
Definition ordinary (c : byte) : Prop := isalnum c = true ∨ c ∈ str "-_.@".

(** A pattern of such characters, dots escaped, matches exactly the text it spells; an escaped
    star matches a star. *)
Class RegexLiteral `{RegexEngine} := {
  literal_matches s n : Forall ordinary n → matches s (escape_dots n) = bool_decide (s = n);
  star_matches s : matches s (str "\*") = bool_decide (s = str "*")
}.

Lemma escape_head s t : escape_dots s ≠ "."%byte :: t.
Proof. destruct s as [|c s]; [done|]. cbn [escape_dots]. destruct (decide (c = "."%byte)); [done|]. by intros [= ->]. Qed.

Lemma escape_inj s t : escape_dots s = escape_dots t → s = t.
Proof.
  revert t. induction s as [|c s IH]; intros [|d t] E; cbn [escape_dots] in E; [done|by destruct (decide _)..|].
  destruct (decide (c = "."%byte)) as [->|Hc], (decide (d = "."%byte)) as [->|Hd]; cbn [app] in E; injection E.
  - intros E'. f_equal. by apply IH.
  - intros E' _. by destruct (escape_head t (escape_dots s)).
  - intros E' _. by destruct (escape_head s (escape_dots t)).
  - intros E' ->. f_equal. by apply IH.
Qed.

(** ** Plain zones *)

(** The name of a record, as the file lists it: the zone itself, the wildcard, or a subdomain. *)
Definition plain_name (n : bytes) : Prop := n = str "*" ∨ Forall ordinary n.

Definition name_key (n : bytes) : bytes := sub_key false false n.

(** The name under which the records of a subdomain are listed. *)
Definition name_of (s : bytes) : bytes := if bool_decide (s = []) then str "@" else s.

Lemma name_key_star : name_key (str "*") = str "\*".
Proof. done. Qed.

Lemma name_key_at : name_key (str "@") = str "@".
Proof. done. Qed.

Lemma name_key_other s : s ≠ str "@" → s ≠ str "*" → name_key s = escape_dots s.
Proof. intros Ha Hs. unfold name_key, sub_key. by rewrite !bool_decide_eq_false_2. Qed.

(** The key of an ordinary name is what escaping gives, also for the zone itself. *)
Lemma name_key_ordinary n : Forall ordinary n → name_key n = escape_dots n.
Proof.
  intros Hn. destruct (decide (n = str "@")) as [->|Ha]; [done|]. apply name_key_other; [done|]. intros ->.
  apply Forall_cons in Hn as [[Hx|Hx] _]; [done|]. revert Hx. by vm_compute; set_solver.
Qed.

Section literal.
  Context {RE : RegexEngine} `{!RegexLiteral}.

(** Which keys a subdomain matches: its own. *)
Lemma plain_key_matches s n :
  Forall ordinary s → s ≠ str "@" → plain_name n → matches s (name_key n) = bool_decide (s = n).
Proof.
  intros Hs Ha [->|Hn].
  - rewrite name_key_star. apply star_matches.
  - rewrite name_key_ordinary by done. by apply literal_matches.
Qed.
End literal.

Section zones.
  Context {RE : RegexEngine} {J : Type} `{HJ : Json J} {HJL : JsonLaws J} `{HZ : !JsonZones J} {HZL : JsonZonesLaws J}.
  Context {HB : JsonBuild J} {HL : JsonBuildLaws J} {HI : Inet} {HIL : InetLaws} (r4 r6 : bytes).
  Implicit Types (v d : J) (rs : list (zone_record (J:=J))) (t k n s : bytes).

Definition plain_record (r : zone_record (J:=J)) : Prop := r_root_forward r = false ∧ ∃ n, plain_name n ∧ r_key r = name_key n.

(** The data the file lists for a name and a type, in order. *)
Definition file_data rs t n : list J := r_data <$> filter (λ r, r_type r = t ∧ r_key r = name_key n) rs.

(** The data for a query: the subdomain's own, else the wildcard's. *)
Definition query_data rs t s : list J :=
  match file_data rs t (name_of s) with
  | [] => if bool_decide (s = []) then [] else file_data rs t (str "*")
  | vs => vs
  end.

(** Data that is neither a directive to forward nor an array. *)
Definition plain_data v : Prop := equals_text v (str "{{FORWARD}}") = false ∧ is_array v = false.

(** What the second step makes of a value. *)
Definition kept t v : J := if is_address t && negb (has_forward v) then from_option id v (converted r4 r6 t v) else v.

(** A zone as [LocalDns] finds it: under each type and key, what the file lists, as stored;
    its addresses are addresses. *)
Definition zone_data rs (zo : J) : Prop :=
  is_object zo = true ∧
  ∀ t, (if bool_decide (t ∈ r_type <$> rs)
        then ∃ so, member zo t = Some so ∧ is_object so = true ∧ ∀ k, member so k = kept t <$> merged (values rs t k)
        else member zo t = None) ∧
       ∀ k v, is_address t = true → has_forward v = false → merged (values rs t k) = Some v → is_Some (converted r4 r6 t v).

Lemma object_not_string j : is_object j = true → is_string j = false.
Proof. intros Hj. destruct (is_string j) eqn:E; [|done]. apply string_no_object in E. congruence. Qed.

(** The two steps of the configuration make such a zone. *)
Lemma loaded_zone p zs G N z rs :
  parse_zones p = Done zs → zone_of zs z = Some (Some rs) → NormalizeZones p = Done G → ValidateAndOptimize r4 r6 G = Done N →
  ∃ zo, member N z = Some zo ∧ zone_data rs zo.
Proof.
  intros Hp Hz HG HN. destruct (NormalizeZones_cases p) as [(zs' & G' & E1 & E2 & HoG & Hheld)|[E _]]; [|congruence].
  assert (zs' = zs) as -> by congruence. assert (G' = G) as -> by congruence.
  pose proof (zone_held_grouped zs G HoG Hheld) as Hgr.
  destruct (optimize_cases r4 r6 G Hgr) as [(N' & E3 & [_ Ho] & Hc)|[E3 _]]; [|congruence].
  assert (N' = N) as -> by congruence. specialize (Ho z). specialize (Hheld z). rewrite Hz in Hheld.
  destruct Hheld as (zo & Hm & Hobj & Ht). rewrite Hm in Ho.
  assert (Hb : blocked zo = false) by (unfold blocked, equals_text; by rewrite (object_not_string _ Hobj)).
  rewrite Hb in Ho. destruct Ho as (zo' & Hm' & Hobj' & Ht'). exists zo'. split; [done|]. split; [done|].
  intros t. specialize (Ht t). specialize (Ht' t). specialize (Hc z t). split.
  - case_bool_decide as Hin; [|by rewrite Ht in Ht'].
    destruct Ht as (so & Hso & Hsoo & Hk). rewrite Hso in Ht'. unfold kept. destruct (is_address t).
    + destruct Ht' as (so' & ? & ? & Hk'). exists so'. split_and!; [done..|]. intros k. rewrite Hk', Hk.
      destruct (merged _) as [v|]; [|done]. cbn [fmap option_fmap option_map andb]. by destruct (has_forward v).
    + exists so. split_and!; [done..|]. intros k. rewrite Hk. by destruct (merged _).
  - intros k v Ha Hf Hv. apply (Hc k). split_and!; [done..| |by exists zo]. unfold member3, member2. rewrite Hm.
    case_bool_decide as Hin; [|by rewrite values_absent in Hv]. destruct Ht as (so & Hso & _ & Hk).
    cbn [mbind option_bind]. rewrite Hso. cbn [mbind option_bind]. by rewrite Hk.
Qed.

(** *** What stands under a name *)

Lemma plain_values rs t n : Forall plain_record rs → values rs t (name_key n) = file_data rs t n.
Proof. intros Hrs. apply values_filter. intros _. eapply Forall_impl; [exact Hrs|]. by intros r [? _] _. Qed.

Lemma values_named rs t k : Forall plain_record rs → values rs t k ≠ [] → ∃ n, plain_name n ∧ k = name_key n.
Proof.
  intros Hrs. rewrite values_filter.
  2: { intros _. eapply Forall_impl; [exact Hrs|]. by intros r [? _] _. }
  intros Hne. destruct (filter _ rs) as [|r l] eqn:E; [done|].
  assert (Hr : r ∈ filter (λ r, r_type r = t ∧ r_key r = k) rs) by (rewrite E; left).
  apply list_elem_of_filter in Hr as [[_ <-] Hr]. rewrite Forall_forall in Hrs. destruct (Hrs r Hr) as (_ & n & ? & ?). by exists n.
Qed.

Lemma merged_none (vs : list J) : merged vs = None ↔ vs = [].
Proof. by destruct vs as [|? []]. Qed.

(** *** What is stored *)

Definition the_address t (a : bytes) : Prop := length a = address_size t.

(** The records made of addresses. *)
Definition address_rr (cls ttl : Z) t (a : bytes) : rr :=
  {| rr_owner := None; rr_type := if bool_decide (t = str "A") then 1 else 28; rr_class := cls; rr_ttl := u32 ttl; rr_data := a |}.

Lemma forward_equals v : forward v ↔ equals_text v (str "{{FORWARD}}") = true.
Proof.
  unfold forward, equals_text. pose proof (get_string_spec v) as Hs. destruct (is_string v); [|naive_solver].
  destruct Hs as [s Hs]. rewrite Hs. cbn [andb]. rewrite bool_decide_eq_true. naive_solver.
Qed.

Lemma plain_forward (vs : list J) v : Forall plain_data vs → merged vs = Some v → has_forward v = false ∧ ¬ forward v.
Proof.
  intros Hvs Hm. rewrite forward_equals. destruct vs as [|v1 [|v2 vs]]; [done| |].
  - injection Hm as <-. apply Forall_singleton in Hvs as [Hf Ha]. unfold has_forward. by rewrite Hf, Ha.
  - cbn [merged] in Hm. injection Hm as <-. apply Forall_cons in Hvs as [[Hf1 Ha1] Hvs]. rewrite Ha1. unfold has_forward.
    assert (Ens : equals_text (of_array ([v1] ++ v2 :: vs)) (str "{{FORWARD}}") = false).
    { unfold equals_text. destruct (is_string _) eqn:E; [|done]. apply string_no_array in E. by rewrite of_array_is in E. }
    rewrite Ens, of_array_is, of_array_elements. split; [|done]. apply not_true_is_false. intros (x & Hin & Hx)%existsb_exists.
    apply list_elem_of_In in Hin. rewrite Forall_forall in Hvs. assert (Hf : x = v1 ∨ x ∈ v2 :: vs) by set_solver.
    destruct Hf as [->|Hf]; [congruence|]. destruct (Hvs x Hf). congruence.
Qed.
Lemma array_no_forward (l : list J) : ¬ forward (of_array l).
Proof. intros [Hs _]. apply string_no_array in Hs. by rewrite of_array_is in Hs. Qed.

Lemma string_array (a : bytes) : is_array (of_string a : J) = false.
Proof. apply string_no_array, of_string_is. Qed.

(** The answers made of addresses that are stored. *)
Lemma address_answers ttl cls t (l : list bytes) :
  is_address t = true → Forall (the_address t) l →
  answers_data ttl cls ((λ a, record t (of_string a : J) []) <$> l) (address_rr cls ttl t <$> l).
Proof.
  intros Ht Hl. unfold answers_data. rewrite Forall2_fmap. apply Forall_Forall2_diag. eapply Forall_impl; [exact Hl|].
  intros a Ha. unfold the_address, address_size in Ha. unfold address_rr.
  exists None, (if bool_decide (t = str "A") then 1 else 28)%Z, a. split_and!; [done| |done].
  unfold record. cbn [m_Type_ m_Data_]. unfold is_address in Ht. case_bool_decide as E.
  - subst t. apply data_A; [apply of_string_get|done].
  - apply bool_decide_eq_true in Ht as ->. apply data_AAAA; [apply of_string_get|done].
Qed.

Lemma stored_addresses ttl cls t (vs : list J) v :
  is_address t = true → Forall plain_data vs → merged vs = Some v → is_Some (converted r4 r6 t v) →
  ∃ l, mapM (single r4 r6 t) vs = Some l ∧ ¬ forward (kept t v) ∧
       answers_data ttl cls (ExpandAnswerRecords t (kept t v) [] []) (address_rr cls ttl t <$> l).
Proof.
  intros Ht Hvs Hm [j Hj]. destruct (plain_forward vs v Hvs Hm) as [Hf _].
  assert (∃ l, mapM (single r4 r6 t) vs = Some l ∧ ¬ forward j ∧
    ExpandAnswerRecords t j [] [] = (λ a, record t (of_string a : J) []) <$> l) as (l & El & Hnf & Ee).
  { unfold converted in Hj. destruct vs as [|v1 [|v2 vs]]; [done| |]; cbn [merged] in Hm; injection Hm as <-.
    - apply Forall_singleton in Hvs as [_ Ha]. rewrite Ha in Hj. destruct (single r4 r6 t v1) as [a|] eqn:Ea; [|done].
      injection Hj as <-. exists [a]. cbn [mapM]. rewrite Ea. split_and!; [done| |].
      + intros [_ Hg]. rewrite of_string_get in Hg. injection Hg as ->. apply single_address in Ea.
        unfold address_size in Ea. by case_bool_decide.
      + unfold ExpandAnswerRecords. by rewrite string_array.
    - apply Forall_cons in Hvs as [[_ Ha] _]. rewrite Ha, of_array_is, of_array_elements in Hj.
      change ([v1] ++ v2 :: vs) with (v1 :: v2 :: vs) in Hj. destruct (mapM _ (v1 :: v2 :: vs)) as [l|]; [|done].
      injection Hj as <-. exists l. split_and!; [done|apply array_no_forward|]. unfold ExpandAnswerRecords. cbn [compose].
      rewrite of_array_is, of_array_elements. by rewrite <- list_fmap_compose. }
  exists l. unfold kept. rewrite Ht, Hf, Hj. cbn [andb negb from_option id]. split_and!; [done..|]. rewrite Ee.
  apply address_answers; [done|]. apply mapM_Some in El. eapply Forall2_Forall_r; [exact El|].
  apply Forall_true. intros x y. apply single_address.
Qed.

Lemma stored_others t (vs : list J) v :
  is_address t = false → Forall plain_data vs → merged vs = Some v →
  ¬ forward (kept t v) ∧ ExpandAnswerRecords t (kept t v) [] [] = (λ d, record t d []) <$> vs.
Proof.
  intros Ht Hvs Hm. unfold kept. rewrite Ht. cbn [andb]. split; [by eapply plain_forward|]. unfold ExpandAnswerRecords.
  destruct vs as [|v1 [|v2 vs]]; [done| |]; cbn [merged] in Hm; injection Hm as <-; apply Forall_cons in Hvs as [[_ Ha] _]; rewrite Ha.
  - done.
  - by rewrite of_array_is, of_array_elements.
Qed.
(** *** The search *)

Section search.
  Context `{!RegexLaws} `{!RegexLiteral} (so : J) (s : bytes).
  Context (Hso : is_object so = true) (Hnames : ∀ k v, member so k = Some v → ∃ n, plain_name n ∧ k = name_key n).
  Context (Hs : Forall ordinary s) (Hat : s ≠ str "@").

Lemma other_key k v : (k, v) ∈ items so → k ≠ name_key s → matches s k = false.
Proof.
  intros Hin Hne. apply items_member in Hin; [|done]. destruct (Hnames k v Hin) as (n & Hn & ->).
  rewrite plain_key_matches by done. apply bool_decide_eq_false_2. by intros <-.
Qed.

Lemma found_own v : member so (name_key (name_of s)) = Some v → selected so s v.
Proof.
  unfold selected, name_of. case_bool_decide as E; intros Hv.
  - rewrite name_key_at in Hv. by rewrite member_contains, Hv, (member_field _ _ _ Hv).
  - left. assert (Hin : (name_key s, v) ∈ items so) by by apply items_member.
    destruct (list_elem_of_split _ _ Hin) as (l1 & l2 & El). exists l1, (name_key s), l2. split_and!; [done| |].
    + rewrite plain_key_matches by (done || by right). by apply bool_decide_eq_true_2.
    + apply Forall_forall. intros [k' v'] Hin'. apply (other_key k' v'); [rewrite El; set_solver|].
      intros ->. pose proof (items_NoDup so Hso) as Hnd. rewrite El, fmap_app, fmap_cons in Hnd.
      apply NoDup_app in Hnd as (_ & Hd & _). apply (Hd (name_key s)); [by apply list_elem_of_fmap; eexists (_, _)|by left].
Qed.

Lemma no_own : member so (name_key s) = None → Forall (λ x, matches s x.1 = false) (items so).
Proof.
  intros Hn. apply Forall_forall. intros [k v] Hin. apply (other_key k v Hin). intros ->.
  apply items_member in Hin; [|done]. congruence.
Qed.

Lemma found_star v : s ≠ [] → member so (name_key s) = None → member so (str "\*") = Some v → selected so s v.
Proof.
  intros Hne Hn Hv. unfold selected. rewrite bool_decide_eq_false_2 by done. right. split; [by apply no_own|].
  by rewrite member_contains, Hv, (member_field _ _ _ Hv).
Qed.

Lemma not_found c :
  (∀ k v, (k, v) ∈ items so → valid_pattern k) → cache_clean c → member so (name_key (name_of s)) = None →
  s = [] ∨ member so (str "\*") = None → ∃ c', search_records so s c = (Done None, c').
Proof.
  intros Hpat Hc Hn Hstar. unfold search_records, name_of in *. case_bool_decide as E.
  - exists c. unfold lift, named. rewrite name_key_at in Hn. by rewrite member_contains, Hn, bool_decide_eq_false_2 by (by intros []).
  - destruct Hstar as [->|Hstar]; [done|]. destruct (first_match_none s (items so) c Hc Hpat) as (c' & Em & _); [by apply no_own|].
    exists c'. rewrite (stateful_bind_Done _ _ _ _ _ Em). unfold lift, named.
    by rewrite member_contains, Hstar, bool_decide_eq_false_2 by (by intros []).
Qed.
End search.
(** The data for a query stands under some key. *)
Lemma query_key rs t s v :
  Forall plain_record rs → merged (query_data rs t s) = Some v → ∃ k, merged (values rs t k) = Some v.
Proof.
  intros Hrs. unfold query_data. pose proof (plain_values rs t (name_of s) Hrs) as Ev. pose proof (plain_values rs t (str "*") Hrs) as Es.
  destruct (file_data rs t (name_of s)) as [|v1 vs] eqn:Ef; [case_bool_decide; [done|]; rewrite <- Es; by eexists|].
  rewrite <- Ev. by eexists.
Qed.

(** The data for a query under a type that is listed: what stands in its object. *)
Lemma query_search `{!RegexLaws} `{!RegexLiteral} rs t (so : J) s c :
  Forall plain_record rs → is_object so = true → (∀ k, member so k = kept t <$> merged (values rs t k)) →
  (∀ k v, (k, v) ∈ items so → valid_pattern k) → Forall ordinary s → s ≠ str "@" → cache_clean c →
  match merged (query_data rs t s) with
  | None => ∃ c', search_records so s c = (Done None, c')
  | Some v => selected so s (kept t v)
  end.
Proof.
  intros Hrs Hso Hk Hpat Hs Hat Hc.
  assert (Hnames : ∀ k v, member so k = Some v → ∃ n, plain_name n ∧ k = name_key n).
  { intros k v Hv. rewrite Hk in Hv. apply (values_named rs t k Hrs). intros E. by rewrite E in Hv. }
  assert (Hfile : ∀ n, member so (name_key n) = kept t <$> merged (file_data rs t n)) by (intros n; by rewrite Hk, plain_values).
  unfold query_data. pose proof (Hfile (name_of s)) as Hown. destruct (file_data rs t (name_of s)) as [|v1 vs] eqn:Ev.
  - unfold name_of in *. case_bool_decide as E.
    + apply not_found; [done..| |by left]. unfold name_of. by rewrite bool_decide_eq_true_2.
    + pose proof (Hfile (str "*")) as Hst. rewrite name_key_star in Hst. destruct (merged (file_data rs t (str "*"))) as [v|] eqn:Em.
      * by apply found_star.
      * apply not_found; [done..| |by right]. unfold name_of. by rewrite bool_decide_eq_false_2.
  - destruct (merged (v1 :: vs)) as [v|] eqn:Em; [by apply found_own|by apply merged_none in Em].
Qed.
End zones.

(** ** The answers *)

Section answers.
  Context {H : Target} {RE : RegexEngine} `{!RegexLaws} `{!RegexLiteral}.
  Context {J : Type} `{HJ : Json J} {HJL : JsonLaws J} `{HZ : !JsonZones J} {HZL : JsonZonesLaws J}.
  Context {HB : JsonBuild J} {HL : JsonBuildLaws J} {HI : Inet} {HIL : InetLaws}.

(** The search of a loaded zone. *)
Lemma loaded_match (r4 r6 : bytes) ttl (N zo : J) rs P out c :
  Forall plain_record rs → RootDomain P ≠ [] → member N (RootDomain P) = Some zo → zone_data r4 r6 rs zo →
  patterns_ok N → cache_clean c →
  let T := RecordType P in
  In T record_types → T ≠ str "PTR" → T = str "CNAME" ∨ str "CNAME" ∉ r_type <$> rs →
  Forall ordinary (SubDomain P) → SubDomain P ≠ str "@" →
  ∃ c', local_match ttl N P out c =
    (match merged (query_data rs T (SubDomain P)) ≫= λ v, chosen (kept r4 r6 T v) with
     | Some d => answered (DispatchSingleOrMulti ttl T (DnsParser.Packet P) d out)
     | None => Done ((-1)%Z, out)
     end, c').
Proof.
  intros Hrs Hroot Hm [Hobj Hzo] Hpat Hc T HT Hptr Hcn Hs Hat. pose proof (member_field _ _ _ Hm) as Ef.
  assert (Hl : zone_listed N P) by (split; [done|]; by rewrite member_contains, Hm).
  assert (Hcn' : T = str "CNAME" ∨ contains (field_of N (RootDomain P)) (str "CNAME") = false).
  { destruct Hcn as [?|Hcn]; [by left|right]. destruct (Hzo (str "CNAME")) as [Hn _].
    rewrite bool_decide_eq_false_2 in Hn by done. by rewrite Ef, member_contains, Hn, bool_decide_eq_false_2 by (by intros []). }
  rewrite local_match_type; rewrite ?Ef; [|done|by apply object_not_string|done..|by rewrite Ef in Hcn']. fold T. destruct (Hzo T) as [HzT _].
  case_bool_decide as Hin.
  - destruct HzT as (so & Hso & Hsoo & Hk). rewrite (member_contains zo T), Hso, (member_field _ _ _ Hso), Hsoo, bool_decide_eq_true_2 by done.
    cbn [andb]. unfold type_search. fold T. rewrite Ef, (member_field _ _ _ Hso).
    assert (Hpat' : ∀ k v, (k, v) ∈ items so → valid_pattern k).
    { intros k v. rewrite <- (member_field _ _ _ Hso), <- Ef. apply Hpat. }
    pose proof (query_search r4 r6 rs T so (SubDomain P) c Hrs Hsoo Hk Hpat' Hs Hat Hc) as Hq.
    destruct (merged (query_data rs T (SubDomain P))) as [v|]; cbn [mbind option_bind].
    + destruct (search_selected N Hpat (RootDomain P) T (SubDomain P) (kept r4 r6 T v) c) as (c' & Es & _);
        [by rewrite Ef, (member_field _ _ _ Hso)|done|]. rewrite Ef, (member_field _ _ _ Hso) in Es.
      exists c'. rewrite (stateful_bind_Done _ _ _ _ _ Es). by destruct (chosen _).
    + destruct Hq as [c' Es]. exists c'. by rewrite (stateful_bind_Done _ _ _ _ _ Es).
  - exists c. rewrite (member_contains zo T), HzT, bool_decide_eq_false_2 by (by intros []). cbn [andb].
    assert (En : ∀ n, file_data rs T n = []).
    { intros n. rewrite <- (plain_values rs T n Hrs). by apply values_absent. }
    unfold query_data. rewrite !En. by case_bool_decide.
Qed.

(** From the zone file to the wire.  Let the file's entry for the zone of a query have
    records with plain names, and the configuration be loaded.  A query of one of the
    record types, for a name of ordinary characters, gets what the file lists under its
    name and type, or else under the wildcard: nothing listed, or one directive to forward, is
    no match; listed addresses, each of which is one, are sent in the order of the file, the
    redirect address for {{SELF}} and zeros for {{BLOCKED}}; other data is sent as the
    records it describes.  The message is read back by the packet parser as that response. *)
Theorem zone_file_answers (r4 r6 : bytes) ttl (p G N : J) zs rs partial P q out c p0 :
  parse_zones p = Done zs → zone_of zs (RootDomain P) = Some (Some rs) → Forall plain_record rs →
  NormalizeZones p = Done G → ValidateAndOptimize r4 r6 G = Done N →
  patterns_ok N → cache_clean c → parser_ok P → DnsRequestPacket.Questions (DnsParser.Packet P) = [q] →
  encodable (m_Qname_ q) → RootDomain P ≠ [] →
  let T := RecordType P in
  let cls := DnsQuestion.Qclass false q in
  let check := CheckLocalMatch ttl N partial P out c in
  In T record_types → T ≠ str "PTR" → T = str "CNAME" ∨ str "CNAME" ∉ r_type <$> rs →
  Forall ordinary (SubDomain P) → SubDomain P ≠ str "@" →
  let vs := query_data rs T (SubDomain P) in
  (vs = [] ∨ (∃ v, vs = [v] ∧ equals_text v (str "{{FORWARD}}") = true) → ∃ c', check = (Done ((-1)%Z, out), c')) ∧
  (vs ≠ [] → Forall plain_data vs → (Z.of_nat (length vs) ≤ UINT16_MAX)%Z →
     if is_address T
     then ∃ l, mapM (single r4 r6 T) vs = Some l ∧
               ∃ w c', check = (Done (0%Z, w), c') ∧ answer_message P q (address_rr cls ttl T <$> l) p0 w
     else ∀ l, answers_data ttl cls ((λ d, record T d []) <$> vs) l →
               ∃ w c', check = (Done (0%Z, w), c') ∧ answer_message P q l p0 w).
Proof.
  intros Hp Hz Hrs HG HN Hpat Hc HP Hq He Hroot T cls check HT Hptr Hcn Hs Hat vs.
  destruct (loaded_zone r4 r6 p zs G N _ rs Hp Hz HG HN) as (zo & Hm & Hzo).
  destruct (loaded_match r4 r6 ttl N zo rs P out c) as (c' & El); [done..|]. fold T vs in El.
  assert (Hnone : merged vs ≫= (λ v, chosen (kept r4 r6 T v)) = None → ∃ c', check = (Done ((-1)%Z, out), c')).
  { intros En. rewrite En in El. exists c'. by apply Check_of_match. }
  assert (Hsent : ∀ v rs', merged vs = Some v → ¬ forward (kept r4 r6 T v) →
    answers_data ttl cls (ExpandAnswerRecords T (kept r4 r6 T v) [] []) rs' → length rs' = length vs → vs ≠ [] →
    (Z.of_nat (length vs) ≤ UINT16_MAX)%Z → ∃ w c', check = (Done (0%Z, w), c') ∧ answer_message P q rs' p0 w).
  { intros v rs' Hv Hf Hrs' Hlen Hne Hmax. rewrite Hv in El. cbn [mbind option_bind] in El. rewrite chosen_some in El by done.
    assert (1 ≤ length rs') by (rewrite Hlen; destruct vs; [done|cbn [length]; lia]).
    destruct (Dispatch_message ttl P q HP Hq He T (kept r4 r6 T v) rs' out p0) as (w & Ew & Hw); [done..|by rewrite Hlen|].
    exists w, c'. split; [|done]. apply Check_of_match. rewrite El. unfold answered. by rewrite Ew. }
  split.
  - intros [->|(v & -> & Hv)]; apply Hnone; [done|]. cbn [merged mbind option_bind]. apply chosen_none.
    unfold kept, has_forward. rewrite Hv. cbn [orb negb]. rewrite andb_false_r. by apply forward_equals.
  - intros Hne Hvs Hmax. destruct (merged vs) as [v|] eqn:Ev; [|by apply merged_none in Ev].
    destruct (is_address T) eqn:Ht.
    + destruct (plain_forward vs v Hvs Ev) as [Hf _]. destruct (query_key rs T _ v Hrs Ev) as [k Hk].
      destruct Hzo as [_ Hzo]. destruct (Hzo T) as [_ Hconv].
      destruct (stored_addresses r4 r6 ttl cls T vs v Ht Hvs Ev) as (l & El' & Hnf & Ha); [by apply (Hconv k)|].
      exists l. split; [done|]. apply (Hsent v); [done..| |done|done]. rewrite length_fmap. symmetry. by apply length_mapM in El'.
    + intros l Hl. destruct (stored_others r4 r6 T vs v Ht Hvs Ev) as [Hnf Ee]. apply (Hsent v); [done..| | |done|done].
      * by rewrite Ee.
      * apply Forall2_length in Hl. by rewrite length_fmap in Hl.
Qed.
End answers.

(** ** An example *)

Section sample.
  #[local] Existing Instance x86_64.

Lemma ordinary_tokens n : Forall ordinary n → tokens (escape_dots n) = Some (Some ∘ lit <$> n).
Proof.
  induction 1 as [|c n Hc _ IH]; [done|]. cbn [escape_dots fmap list_fmap]. destruct (decide (c = "."%byte)) as [->|Hd].
  - cbn [app tokens]. by rewrite (bool_decide_eq_true_2 ("\"%byte = "\"%byte)), IH by done.
  - cbn [app tokens]. rewrite IH.
    assert (E : bool_decide (c = "\"%byte) = false ∧ bool_decide (c = "."%byte) = false ∧ bool_decide (c = "*"%byte) = false ∧
                bool_decide (c ∈ str "^$+?()[]{}|") = false).
    { destruct Hc as [Hc|Hc]; [by destruct c; vm_compute in Hc |- *|].
      revert Hc. cbn. rewrite !elem_of_cons. intros [->|[->|[->|[->|Hc]]]]; [try by_decide; done..|by apply elem_of_nil in Hc]. }
    destruct E as (-> & -> & -> & ->). done.
Qed.

Lemma literal_assemble n : assemble (Some ∘ lit <$> n) = Some (foldr (λ c, Cat (lit c)) Eol n).
Proof.
  induction n as [|c n IH]; [done|]. cbn [fmap list_fmap compose]. cbn [assemble]. rewrite IH. by destruct n.
Qed.

Lemma literal_match n s i c : is_Some (matcher (foldr (λ c, Cat (lit c)) Eol n) i s c final) ↔ s = n.
Proof.
  revert s i. induction n as [|b n IH]; intros s i; cbn [foldr matcher].
  - by destruct s; split.
  - unfold lit at 1. cbn [matcher]. destruct s as [|b' s]; [split; [by intros []|done]|].
    case_bool_decide as E; [rewrite IH; subst; naive_solver|]. split; [by intros []|]. by intros [= ->].
Qed.

#[export] Instance sample_regex_literal : RegexLiteral.
Proof.
  assert (Hlit : ∀ s p n, tokens p ≫= assemble = Some (foldr (λ c, Cat (lit c)) Eol n) → matches s p = bool_decide (s = n)).
  { intros s p n E. unfold matches. cbn [compile sample_regex]. rewrite E. cbn [regex_match].
    apply bool_decide_ext. rewrite search_anchored. apply literal_match. }
  split.
  - intros s n Hn. apply Hlit. rewrite ordinary_tokens by done. apply literal_assemble.
  - intros s. by apply (Hlit s (str "\*") (str "*")).
Qed.

(** The zone a.com, with its own two addresses and those of all other names below it. *)
Definition answers_file : json :=
  let a n d := JObject [(str "name", JString n); (str "type", JString (str "A")); (str "data", JString d)] in
  JObject [(str "zones", JArray [JObject [(str "zone", JString (str "a.com")); (str "records", JArray
    [a (str "@") (str "{{SELF}}"); a (str "*") (str "{{FORWARD}}"); a (str "@") (str "10.0.0.1")])]])].

Definition answers_parsed := Eval vm_compute in match parse_zones answers_file with Done zs => zs | _ => [] end.
Definition answers_records := Eval vm_compute in
  match answers_parsed with [(_, Some rs)] => rs | _ => [] end.
Definition answers_grouped := Eval vm_compute in match NormalizeZones answers_file with Done G => G | _ => JNull end.
Definition answers_zones := Eval vm_compute in
  match ValidateAndOptimize (str "127.0.0.1") (str "::1") answers_grouped with Done N => N | _ => JNull end.

Lemma answers_records_plain : Forall plain_record answers_records.
Proof.
  assert (Hat : plain_name (str "@")) by (right; repeat constructor; right; by_decide).
  repeat constructor; [exists (str "@")|exists (str "*")|exists (str "@")]; (split; [done || by left|done]).
Qed.

Lemma answers_patterns_ok : patterns_ok answers_zones.
Proof.
  intros root T k v. unfold answers_zones, field_of, sample_json. cbn [SampleJson.member].
  repeat (case_bool_decide; cbn [default from_option id items sample_zones SampleJson.member]);
    intros Hin; cbn in Hin; repeat (apply elem_of_cons in Hin as [[= -> ->]|Hin]; [by eexists|]); by apply not_elem_of_nil in Hin.
Qed.

Lemma zone_file_answers_witness :
  let q := DnsQuestion.MakeAQuery (str "a.com") in
  let rs := address_rr 1 60 (str "A") <$> [[x7f; x00; x00; x01]; [x0a; x00; x00; x01]] in
  ∃ w c', CheckLocalMatch 60 answers_zones [] example_parser [] ∅ = (Done (0%Z, w), c') ∧
          answer_message example_parser q rs DnsResponsePacket.clear w.
Proof.
  intros q rs. assert (E1 : RootDomain example_parser = str "a.com") by (by vm_compute).
  assert (E2 : RecordType example_parser = str "A") by (by vm_compute).
  assert (E3 : SubDomain example_parser = []) by (by vm_compute).
  pose proof (zone_file_answers (str "127.0.0.1") (str "::1") 60 answers_file answers_grouped answers_zones answers_parsed
    answers_records [] example_parser q [] ∅ DnsResponsePacket.clear) as Hz. cbv zeta in Hz. rewrite E1, E2, E3 in Hz.
  destruct Hz as [_ Hz]; [by vm_compute|by vm_compute|exact answers_records_plain|by vm_compute|by vm_compute
    |exact answers_patterns_ok|exact empty_cache_clean|exact example_parser_ok|done| |done|by left|done|right; by_decide|done|done|].
  - by split; [apply example_question_ok|simpl; lia].
  - destruct Hz as (l & El & Hw); [by vm_compute| |by_decide|].
    + vm_compute. repeat constructor.
    + vm_compute in El. injection El as <-. exact Hw.
Defined.
End sample.
