(* ===== verification/ZoneLimits.v ===== *)
(** * What a zone file does not get answered

    Three parts of the documented format of the zone file (src/README.md,
    src/zones-schema.jsonc) do not reach the client, each because [ConfigParser] and
    [LocalDns] or [DnsResponse] do not agree: the names of zones with more than two labels,
    reverse lookups, and texts.  The theorem says so of the composed functions. *)

From Stdlib Require Import ZArith Lia.
From Stdlib Require Import Strings.Byte Strings.String.
From stdpp Require Import base numbers list option sets gmap.
From S2P Require Import Prelude.
From S2P Require Import Stateful.
From S2P Require Import Memory.
From S2P Require Import Text.
From S2P Require Import Utils.
From S2P Require Import Name.
From S2P Require Import DnsHeader.
From S2P Require Import DnsQuestion.
From S2P Require Import DnsAnswer.
From S2P Require Import WireFormat.
From S2P Require Import DnsRequestPacket.
From S2P Require Import DnsResponsePacket.
From S2P Require Import DnsResponse.
From S2P Require Import ResponseFacts.
From S2P Require Import SampleJson.
From S2P Require Import WholeResponses.
From S2P Require Import Regex.
From S2P Require Import DnsParser.
From S2P Require Import ReverseIp.
From S2P Require Import LocalDns.
From S2P Require Import SampleRegex.
From S2P Require Import LocalFacts.
From S2P Require Import ConfigParser.
From S2P Require Import SampleConfig.
From S2P Require Import ConfigFacts.
From S2P Require Import ZoneAnswers.

(** ** Dots *)

Definition dots (s : bytes) : nat := length (filter (λ b, b = "."%byte) s).

Lemma dots_app s t : dots (s ++ t) = dots s + dots t.
Proof. unfold dots. by rewrite filter_app, length_app. Qed.

Lemma dots_none s : "."%byte ∉ s → dots s = 0.
Proof.
  intros Hs. unfold dots. induction s as [|b s IH]; [done|]. rewrite not_elem_of_cons in Hs. destruct Hs as [Hb Hs].
  rewrite filter_cons_False by congruence. by apply IH.
Qed.

Lemma split_on_parts c s : Forall (λ p, c ∉ p) (split_on c s).
Proof.
  induction s as [|b s IH]; cbn [split_on]; [by repeat constructor; apply not_elem_of_nil|].
  destruct (decide (b = c)) as [->|Hb]; [constructor; [apply not_elem_of_nil|done]|].
  destruct (split_on c s) as [|p ps]; [by repeat constructor; set_solver|]. apply Forall_cons in IH as [Hp Hps].
  constructor; [set_solver|done].
Qed.

Lemma split_part_dots s i : dots (nth i (split_on "."%byte s) []) = 0.
Proof.
  apply dots_none. destruct (nth_in_or_default i (split_on "."%byte s) []) as [Hin|E]; [|rewrite E; apply not_elem_of_nil].
  pose proof (split_on_parts "."%byte s) as Hs. rewrite Forall_forall in Hs. by apply Hs, list_elem_of_In.
Qed.

Lemma root_labels_dots ls : Forall plain_label ls → dots (LabelsAsString (root_labels ls)) ≤ 1.
Proof.
  intros Hls. assert (Hr : Forall plain_label (root_labels ls)) by (by apply Forall_drop).
  assert (Hl : length (root_labels ls) ≤ 2) by (unfold root_labels; rewrite length_drop; lia).
  unfold LabelsAsString. destruct (root_labels ls) as [|a [|b [|]]]; [cbn; lia|..|cbn in Hl; lia].
  - apply Forall_cons in Hr as [Ha _]. cbn [join]. rewrite dots_none by (by apply undotted). lia.
  - apply Forall_cons in Hr as [Ha Hb]. apply Forall_cons in Hb as [Hb _]. cbn [join].
    replace (a ++ "."%byte :: b) with (a ++ ["."%byte] ++ b) by done. rewrite !dots_app.
    rewrite (dots_none a), (dots_none b) by (by apply undotted). done.
Qed.

(** ** Zones that are not consulted *)

Section zones.
  Context {H : Target} {RE : RegexEngine} {J : Type} `{HJ : Json J} `{HZ : !JsonZones J}.
  Context (ttl : Z) (N N' : J) (partial : bytes).

(** The two values hold the same under all names with at most one dot. *)
Definition agree : Prop := ∀ k, dots k ≤ 1 → contains N k = contains N' k ∧ field_of N k = field_of N' k.

Context (HN : agree).

Lemma LookupLocalRecord_agree dom t : LookupLocalRecord N dom t = LookupLocalRecord N' dom t.
Proof.
  unfold LookupLocalRecord. destruct (_ || _); [done|]. cbv zeta. destruct (bool_decide _); [done|]. rewrite split_parts_eq.
  destruct (_ <? 2); [done|]. set (root := nth _ _ [] ++ _).
  assert (Hr : dots root ≤ 1) by (unfold root; by rewrite !dots_app, !split_part_dots).
  by destruct (HN root Hr) as [-> ->].
Qed.

Lemma chain_loop_agree fuel t : ∀ target (answers : list (AnswerRecord J)) c,
  chain_loop N fuel t target answers c = chain_loop N' fuel t target answers c.
Proof.
  induction fuel as [|fuel IH]; intros target answers c; [done|]. cbn [chain_loop]. rewrite !LookupLocalRecord_agree.
  apply stateful_bind_ext. intros [d|] c1; [by apply stateful_bind_ext|done].
Qed.

(** A zone with two dots or more in its name is never consulted. *)
Lemma local_match_agree P out c :
  dots (RootDomain P) ≤ 1 → local_match ttl N P out c = local_match ttl N' P out c.
Proof.
  intros Hr. unfold local_match. cbv zeta. destruct (HN _ Hr) as [-> ->]. do 3 (case_match; [done|]).
  apply stateful_bind_ext. intros [] c1; [done|]. do 2 (case_match; [done|]).
  apply stateful_bind_ext. intros [v|] c2; [|done]. apply stateful_bind_ext. intros target c3.
  unfold mbind, stateful_mbind. by rewrite chain_loop_agree.
Qed.

Lemma Check_agree P out c :
  dots (RootDomain P) ≤ 1 → CheckLocalMatch ttl N partial P out c = CheckLocalMatch ttl N' partial P out c.
Proof. intros Hr. unfold CheckLocalMatch, catch. by rewrite local_match_agree. Qed.
End zones.

(** ** What is not answered *)

Section limits.
  Context {H : Target} {RE : RegexEngine} `{!RegexLaws} `{!RegexLiteral}.
  Context {J : Type} `{HJ : Json J} {HJL : JsonLaws J} `{HZ : !JsonZones J} {HZL : JsonZonesLaws J}.
  Context {HB : JsonBuild J} {HL : JsonBuildLaws J} {HI : Inet} {HIL : InetLaws}.
  Implicit Types (N v : J) (out : bytes) (P : DnsParser).

Lemma set_agree N z v : is_object N = true → 2 ≤ dots z → agree (set_member N z v) N.
Proof.
  intros HN Hz k Hk. rewrite set_contains, set_field_of by done. by rewrite !bool_decide_eq_false_2 by (intros ->; lia).
Qed.

(** The root domain of a query has at most one dot. *)
Lemma parsed_root data n P q :
  n ≤ length data → DnsParser.construct (Some data) n = Done P → DnsRequestPacket.Questions (DnsParser.Packet P) = [q] →
  Forall plain_label (m_Qname_ q) → parser_ok P ∧ dots (RootDomain P) ≤ 1.
Proof.
  intros Hn HP Hq Hls. rewrite construct_Done in HP by done. destruct (_ || _); [done|].
  destruct (DnsRequestPacket.request_FromWire_ok data n DnsRequestPacket.clear Hn) as (r & p & E & Hp). rewrite E in HP.
  destruct r; [|done]. specialize (Hp eq_refl). case_bool_decide as Hl; [|done]. injection HP as <-.
  destruct (DnsRequestPacket.Questions p) as [|q1 [|? ?]] eqn:Eq; [done| |done].
  destruct (CacheDomainParts_ok p q1 Hp Eq) as (Hok & Ep & Hparts). split; [done|]. unfold DnsParser.Packet in Hq. rewrite Ep, Eq in Hq.
  injection Hq as ->. destruct (Hparts Hls) as [E1 _]. unfold RootDomain. rewrite E1. by apply root_labels_dots.
Qed.

(** A reverse lookup in a zone that has no member of the address's name. *)
Lemma local_match_no_ptr ttl N P out c :
  is_string (field_of N (RootDomain P)) = false → RecordType P = str "PTR" →
  (∀ a, reverse_address (RootDomain P) (SubDomain P) = Some a → contains (field_of N (RootDomain P)) a = false) →
  local_match ttl N P out c = (Done ((-1)%Z, out), c).
Proof.
  intros Hs HT Ha. unfold local_match. cbv zeta. rewrite HT, Hs. case_bool_decide; [done|].
  rewrite (bool_decide_eq_false_2 (str "PTR" = [])) by done. destruct (contains N (RootDomain P)); [|done]. cbn [negb]. rewrite lift_Done.
  destruct (is_object _); [|done]. cbn [negb]. rewrite (bool_decide_eq_true_2 (str "PTR" = str "PTR")) by done.
  unfold reverse_address in Ha. do 2 (case_bool_decide; [by rewrite (Ha _ eq_refl)|]). done.
Qed.

(** A text that stands alone is no data for a TXT record. *)
Lemma texts_not_sent ttl p q (l : list J) out :
  request_ok p → DnsRequestPacket.Questions p = [q] → encodable (m_Qname_ q) →
  l ≠ [] → (Z.of_nat (length l) ≤ UINT16_MAX)%Z → Forall (λ e, is_string e = true) l →
  MultiAnswer ttl p ((λ e, record (str "TXT") e []) <$> l) out = Done ((-1)%Z, reply_start p q 0 true (Z.of_nat (length l)) 0 0).
Proof.
  intros Hp Hq He Hne Hl Hs. unfold MultiAnswer. rewrite length_fmap. destruct (Nat.eqb_spec (length l) 0); [by destruct l|].
  cbn [orb]. unfold too_long. destruct (Z.ltb_spec UINT16_MAX (Z.of_nat (length l))); [lia|].
  assert (Hu : uint16 (Z.of_nat (length l))) by (unfold uint16, UINT16_MAX in *; lia). rewrite u16_small by done.
  rewrite WriteStandardHeader_Done by (apply Hp || done || by split). rewrite bind_done.
  rewrite (question_written p q [] Hp Hq), decide_True by done. cbn [negb]. rewrite (first_qclass p q [] Hq), bind_done.
  destruct l as [|e l]; [done|]. apply Forall_cons in Hs as [Hs _]. apply string_no_array in Hs. cbn [fmap list_fmap AppendRecords].
  unfold record. cbn [m_Type_ DnsResponse.m_Data_ m_Name_]. unfold DispatchAppendAnswer.
  rewrite !bool_decide_eq_false_2, bool_decide_eq_true_2 by done. unfold AppendAnswerTXT. by rewrite Hs.
Qed.
(** A message that announces answers and ends with its question is no response. *)
Lemma no_answers_rejected p q (k : nat) p0 :
  request_ok p → DnsRequestPacket.Questions p = [q] → encodable (m_Qname_ q) → k ≠ 0 → (Z.of_nat k ≤ UINT16_MAX)%Z →
  let w := reply_start p q 0 true (Z.of_nat k) 0 0 in
  ∃ p', DnsResponsePacket.FromWire (Some w) (length w) p0 = Done (false, p').
Proof.
  intros Hp Hq He Hk Hl w. assert (Hu : uint16 (Z.of_nat k)) by (unfold uint16, UINT16_MAX in *; lia).
  destruct (response_header_facts (DnsRequestPacket.m_Header_ p) 0 true 1 (Z.of_nat k) 0 0) as (Hwf & _ & _ & Hf & _);
    [apply Hp|done|done|done|done|done|]. set (h := response_header _ _ _ _ _ _ _) in *.
  assert (El : length w = HeaderSize + DnsQuestion.WireSize q).
  { unfold w, reply_start. by rewrite length_app, length_memory, question_length_wire. }
  assert (Eh : of_memory (take HeaderSize w) = h).
  { unfold w, reply_start. rewrite take_app_length' by (by rewrite length_memory). by apply of_memory_memory. }
  assert (Cq : DnsHeader.Qdcount false h = 1%Z) by exact (Hf FQdcount).
  assert (Ca : DnsHeader.Ancount false h = Z.of_nat k) by exact (Hf FAncount).
  pose proof (first_question_ok p q [] Hp Hq) as [Hqw Hql].
  assert (Q : section_at w (length w) HeaderSize [q] (length w)).
  { apply section_cons with (length w); [|constructor]. cbn [item_at question_laws].
    rewrite El at 2. rewrite <- (length_memory h). apply question_at_wire with []; [done..| |rewrite length_memory; lia].
    by rewrite app_nil_r. }
  assert (Hone : ∀ (qs : list DnsQuestion) o, length qs = 1 → section_at w (length w) HeaderSize qs o → o = length w).
  { intros qs o Hlq Hs. symmetry. by apply (section_at_fun _ _ _ _ _ _ _ (le_n _) Q Hs). }
  assert (Hend : ∀ (xs : list DnsAnswer) n, section_at w (length w) (length w) xs n → xs = [] ∧ n = length w).
  { intros xs n Hx. apply section_at_next in Hx; [|lia]. destruct xs; simpl in Hx; [split; [done|lia]|lia]. }
  destruct (FromWire_parses w (length w) p0 (le_n _)) as [[Hb _]|[_ ([] & p' & E & Hr)]]; [| |by exists p'].
  - exfalso. destruct Hb as (_ & _ & _ & qs & o1 & Hlq & Hqs & Hb). rewrite Eh, Cq in Hlq. rewrite Eh, Ca in Hb.
    apply Hone in Hqs as ->; [|done]. destruct Hb as [(xs & m & _ & [-> ->]%Hend & Hb)|(ans & o2 & Hla & [-> _]%Hend & _)].
    + destruct Hb as (_ & a & next & (m & ? & ? & (hops & Hn & _) & _) & _). apply name_at_next in Hn. lia.
    + simpl in Hla. lia.
  - destruct (proj1 (Hr p') (conj eq_refl eq_refl)) as (_ & Eh' & _ & _ & (Cq' & Ca' & _ & _) & o1 & o2 & o3 & o4 & S1 & S2 & _).
    rewrite Eh' in Cq', Ca'. rewrite Eh in Cq', Ca'. rewrite Cq in Cq'. rewrite Ca in Ca'.
    apply Hone in S1 as ->; [|lia]. apply Hend in S2 as [E2 _]. rewrite E2 in Ca'. simpl in Ca'. lia.
Qed.

(** The TXT records of a name that lists one array. *)
Lemma loaded_texts r4 r6 ttl N zo rs partial P q out c v :
  Forall plain_record rs → RootDomain P ≠ [] → member N (RootDomain P) = Some zo → zone_data r4 r6 rs zo →
  patterns_ok N → cache_clean c → parser_ok P → DnsRequestPacket.Questions (DnsParser.Packet P) = [q] → encodable (m_Qname_ q) →
  RecordType P = str "TXT" → str "CNAME" ∉ r_type <$> rs → Forall ordinary (SubDomain P) → SubDomain P ≠ str "@" →
  query_data rs (str "TXT") (SubDomain P) = [v] → is_array v = true →
  elements v ≠ [] → (Z.of_nat (length (elements v)) ≤ UINT16_MAX)%Z → Forall (λ e, is_string e = true) (elements v) →
  ∃ c', CheckLocalMatch ttl N partial P out c =
    (Done (0%Z, reply_start (DnsParser.Packet P) q 0 true (Z.of_nat (length (elements v))) 0 0), c').
Proof.
  intros Hrs Hroot Hm Hzo Hpat Hc [Hp _] Hq He HT Hcn Hs Hat Hv Ha Hne Hl Htx.
  destruct (loaded_match r4 r6 ttl N zo rs P out c) as (c' & El); rewrite ?HT; try done; [do 7 right; by left|by right|].
  rewrite HT, Hv in El. cbn [merged mbind option_bind] in El. change (kept r4 r6 (str "TXT") v) with v in El.
  rewrite chosen_some in El by (intros [Hst _]; apply string_no_array in Hst; congruence).
  exists c'. apply Check_of_match. rewrite El. unfold answered, DispatchSingleOrMulti. rewrite Ha.
  by rewrite (texts_not_sent ttl (DnsParser.Packet P) q).
Qed.

(** C11: what the documented zone file does not get answered.  For every query whose labels hold
    no dot or line break: a zone whose name has three labels or more is never consulted,
    whatever it holds, not even when it is blocked; with the configuration loaded from a
    file, reverse lookups find nothing (the PTR records stand under the type PTR, while the
    address is looked for among the types), so they are passed on; and a name that lists its
    texts as one array, as documented, is answered by a message that announces an answer
    for each text but holds none, which the packet parser rejects. *)
Theorem zone_file_limits ttl partial data n P q out c p0 :
  n ≤ length data → DnsParser.construct (Some data) n = Done P → DnsRequestPacket.Questions (DnsParser.Packet P) = [q] →
  Forall plain_label (m_Qname_ q) →
  (∀ (N : J) z v, is_object N = true → 2 ≤ dots z →
     CheckLocalMatch ttl (set_member N z v) partial P out c = CheckLocalMatch ttl N partial P out c) ∧
  (∀ r4 r6 (p G N : J) zs rs,
     parse_zones p = Done zs → zone_of zs (RootDomain P) = Some (Some rs) →
     NormalizeZones p = Done G → ValidateAndOptimize r4 r6 G = Done N →
     let check := CheckLocalMatch ttl N partial P out c in
     (RecordType P = str "PTR" →
        (∀ a, reverse_address (RootDomain P) (SubDomain P) = Some a → a ∉ r_type <$> rs) →
        check = (Done ((-1)%Z, out), c)) ∧
     (∀ v, RecordType P = str "TXT" → encodable (m_Qname_ q) → RootDomain P ≠ [] →
        Forall plain_record rs → patterns_ok N → cache_clean c → str "CNAME" ∉ r_type <$> rs →
        Forall ordinary (SubDomain P) → SubDomain P ≠ str "@" →
        query_data rs (str "TXT") (SubDomain P) = [v] → is_array v = true → elements v ≠ [] →
        (Z.of_nat (length (elements v)) ≤ UINT16_MAX)%Z → Forall (λ e, is_string e = true) (elements v) →
        let w := reply_start (DnsParser.Packet P) q 0 true (Z.of_nat (length (elements v))) 0 0 in
        (∃ c', check = (Done (0%Z, w), c')) ∧
        ∃ p', DnsResponsePacket.FromWire (Some w) (length w) p0 = Done (false, p'))).
Proof.
  intros Hn HP Hq Hls. destruct (parsed_root data n P q Hn HP Hq Hls) as [Hok Hr]. split.
  - intros N z v HN Hz. apply Check_agree; [by apply set_agree|done].
  - intros r4 r6 p G N zs rs Hp Hz HG HN check.
    destruct (loaded_zone r4 r6 p zs G N _ rs Hp Hz HG HN) as (zo & Hm & Hzo). split.
    + intros HT Ha. apply Check_of_match, local_match_no_ptr; [|done|].
      * rewrite (member_field _ _ _ Hm). apply object_not_string, Hzo.
      * intros a Ea. destruct Hzo as [_ Hzo]. destruct (Hzo a) as [Hn' _]. rewrite bool_decide_eq_false_2 in Hn' by by apply Ha.
        by rewrite (member_field _ _ _ Hm), member_contains, Hn', bool_decide_eq_false_2 by (by intros []).
    + intros v HT He Hroot Hrs Hpat Hc Hcn Hs Hat Hv Hav Hne Hl Htx w. split; [by eapply loaded_texts|].
      apply no_answers_rejected; [apply Hok|done|done| |done]. by destruct (elements v).
Qed.
End limits.

(** ** An example *)

Section example.
  #[local] Existing Instance x86_64.

(** A query for the texts of a.com, and a file that lists one text for it. *)
Definition text_query : bytes :=
  [x12; x34; x01; x00; x00; x01; x00; x00; x00; x00; x00; x00] ++ [x01; x61; x03; x63; x6f; x6d; x00; x00; x10; x00; x01].

Definition text_question : DnsQuestion := DnsQuestion.MakeTxtQuery (str "a.com").

Definition text_file : json :=
  JObject [(str "zones", JArray [JObject [(str "zone", JString (str "a.com.")); (str "records", JArray
    [JObject [(str "name", JString (str "@")); (str "type", JString (str "TXT")); (str "data", JArray [JString (str "hello")])]])]])].

Definition text_parsed := Eval vm_compute in match parse_zones text_file with Done zs => zs | _ => [] end.
Definition text_records := Eval vm_compute in match text_parsed with [(_, Some rs)] => rs | _ => [] end.
Definition text_zones := Eval vm_compute in match NormalizeZones text_file with Done G => G | _ => JNull end.

Lemma text_patterns_ok : patterns_ok text_zones.
Proof.
  intros root T k v. unfold text_zones, field_of, sample_json. cbn [SampleJson.member].
  repeat (case_bool_decide; cbn [default from_option id items sample_zones SampleJson.member]);
    intros Hin; cbn in Hin; repeat (apply elem_of_cons in Hin as [[= -> ->]|Hin]; [by eexists|]); by apply not_elem_of_nil in Hin.
Qed.

Lemma text_question_ok : encodable (m_Qname_ text_question) ∧ Forall plain_label (m_Qname_ text_question).
Proof. split; [split; [|by_decide]|]; repeat constructor; by_decide. Qed.
Lemma zone_file_limits_witness :
  ∃ P w, DnsParser.construct (Some text_query) 23 = Done P ∧
    (∃ c', CheckLocalMatch 60 text_zones [] P [] ∅ = (Done (0%Z, w), c')) ∧
    ∃ p', DnsResponsePacket.FromWire (Some w) (length w) DnsResponsePacket.clear = Done (false, p').
Proof.
  destruct (DnsParser.construct (Some text_query) 23) as [P| | | |] eqn:EP; [|vm_compute in EP; discriminate EP..].
  assert (Hq : DnsRequestPacket.Questions (DnsParser.Packet P) = [text_question]) by (vm_compute in EP; injection EP as <-; reflexivity).
  assert (E1 : RootDomain P = str "a.com") by (vm_compute in EP; injection EP as <-; reflexivity).
  assert (E2 : RecordType P = str "TXT") by (vm_compute in EP; injection EP as <-; reflexivity).
  assert (E3 : SubDomain P = []) by (vm_compute in EP; injection EP as <-; reflexivity).
  destruct (zone_file_limits 60 [] text_query 23 P text_question [] ∅ DnsResponsePacket.clear ltac:(simpl; lia) EP Hq (proj2 text_question_ok))
    as [_ Hz].
  destruct (Hz (str "127.0.0.1") (str "::1") text_file text_zones text_zones text_parsed text_records) as [_ Ht];
    [by vm_compute|rewrite E1; by vm_compute|by vm_compute|by vm_compute|].
  destruct (Ht (JArray [JString (str "hello")])) as [Hw Hr]; [done|apply text_question_ok|by rewrite E1| |exact text_patterns_ok
    |exact empty_cache_clean|by_decide|by rewrite E3|by rewrite E3|by rewrite E3; vm_compute|done|done|done|by repeat constructor|].
  - repeat constructor. exists (str "@"). split; [right; repeat constructor; right; by_decide|done].
  - eexists P, _. split; [done|]. split; [exact Hw|exact Hr].
Defined.

(** The file of src/README.md blocks ads.example.net: queries below it are passed on. *)
Example subzone_not_blocked :
  let file := JObject [(str "zones", JArray [JObject [(str "zone", JString (str "ads.example.net.")); (str "blocked", JBool true)]])] in
  let P := CacheDomainParts {| m_ParsedPacket_ := DnsRequestPacket.a_query 1 (str "ads.example.net") true;
                               m_Domain_ := []; m_RootDomain_ := []; m_SubDomain_ := [] |} in
  match NormalizeZones file with
  | Done N => contains N (str "ads.example.net") = true ∧ fst (CheckLocalMatch 60 N [] P [] ∅) = Done ((-1)%Z, [])
  | _ => False
  end.
Proof. by vm_compute. Qed.

(** The README's zone example.com lists cdn as A {{FORWARD_ALL}} and as an alias.  A query for
    its address is answered by the alias; with the directive alone it is no match, and
    forwarded. *)
Example forward_all_alias :
  let record type data := JObject [(str "name", JString (str "cdn")); (str "type", JString (str type)); (str "data", JString (str data))] in
  let file records := JObject [(str "zones", JArray [JObject [(str "zone", JString (str "example.com.")); (str "records", JArray records)]])] in
  let P := CacheDomainParts {| m_ParsedPacket_ := DnsRequestPacket.a_query 1 (str "cdn.example.com") true;
                               m_Domain_ := []; m_RootDomain_ := []; m_SubDomain_ := [] |} in
  let check (records : list json) : outcome (Z * bytes) :=
    N ← NormalizeZones (file records);
    Z' ← ValidateAndOptimize (str "127.0.0.1") (str "::1") N;
    fst (CheckLocalMatch 60 Z' [] P [] ∅) in
  let directive := record "A"%string "{{FORWARD_ALL}}"%string in
  let alias := record "CNAME"%string "cdn.example.net."%string in
  (∃ w, check [directive; alias] = Done (0%Z, w) ∧ w ≠ []) ∧
  check [directive] = Done ((-1)%Z, []).
Proof. split; [eexists; split; [by vm_compute|done]|by vm_compute]. Qed.
End example.
