(* ===== verification/ServedAnswers.v ===== *)
(** * From the zone file to the client

    The answers of a zone file ([ZoneAnswers]) as the two servers send them: with an OPT
    record when the query had one, with the TC bit when a UDP client that said how much it
    takes takes less, and after its length over TCP. *)

From Stdlib Require Import ZArith Lia.
From Stdlib Require Import Strings.Byte Strings.String.
From stdpp Require Import base numbers list option sets gmap.
From S2P Require Import Prelude.
From S2P Require Import Stateful.
From S2P Require Import Memory.
From S2P Require Import Text.
From S2P Require Import Utils.
From S2P Require Import Name.
From S2P Require Import DnsHeader.
From S2P Require Import DnsQuestion.
From S2P Require Import DnsRequestPacket.
From S2P Require Import DnsResponsePacket.
From S2P Require Import DnsCache.
From S2P Require Import DnsResponse.
From S2P Require Import ResponseFacts.
From S2P Require Import SampleJson.
From S2P Require Import WholeResponses.
From S2P Require Import ResponseSafety.
From S2P Require Import Doh.
From S2P Require Import DnsParser.
From S2P Require Import LocalDns.
From S2P Require Import SampleRegex.
From S2P Require Import LocalFacts.
From S2P Require Import ConfigParser.
From S2P Require Import SampleConfig.
From S2P Require Import ConfigFacts.
From S2P Require Import WireFormat.
From S2P Require Import Server.
From S2P Require Import ServerFacts.
From S2P Require Import CachedAnswers.
From S2P Require Import ZoneAnswers.

(** ** Packets and their TC bit *)

Section packets.
  Context {H : Target}.
  Implicit Types (h : DnsHeader) (q : DnsQuestion) (ans auth add : list rr).

Definition with_tc (tc : bool) h : DnsHeader := if tc then DnsHeader.SetTc true false h else h.

Lemma with_tc_view tc h a : a ≠ FTc → DnsHeader.view false (with_tc tc h) a = DnsHeader.view false h a.
Proof.
  intros Ha. destruct tc; [|done]. cbn [with_tc]. change (DnsHeader.SetTc true false h) with (DnsHeader.update FTc 1 false h).
  rewrite DnsHeader.view_update by (simpl; lia). by rewrite decide_False by congruence.
Qed.

Lemma with_tc_wf tc h : DnsHeader.wf h → DnsHeader.wf (with_tc tc h).
Proof. intros Hw. destruct tc; [|done]. apply (DnsHeader.update_wf FTc 1); [by split|done]. Qed.

Lemma SetTruncated_memory h rest :
  DnsHeader.wf h → SetTruncated (DnsHeader.memory h ++ rest) = Done (DnsHeader.memory (with_tc true h) ++ rest).
Proof.
  intros Hw. unfold SetTruncated. rewrite length_app, DnsHeader.length_memory. cbn [Nat.leb HeaderSize Nat.add].
  assert (E : ∀ h, DnsHeader.memory h ++ rest = object_bytes 2 (m_Id_ h) ++ object_bytes 2 (m_Flags_ h) ++
    object_bytes 2 (m_Qdcount_ h) ++ object_bytes 2 (m_Ancount_ h) ++ object_bytes 2 (m_Nscount_ h) ++
    object_bytes 2 (m_Arcount_ h) ++ rest).
  { intros h'. unfold DnsHeader.memory. by rewrite <- !app_assoc. }
  rewrite !E. set (post := object_bytes 2 (m_Qdcount_ h) ++ _).
  rewrite (load_n_at _ 2 2 (object_bytes 2 (m_Id_ h)) (object_bytes 2 (m_Flags_ h)) post)
    by (done || by rewrite length_object_bytes).
  rewrite bind_done, object_value_bytes by apply Hw. cbv zeta.
  rewrite store_n_Done by (rewrite !length_app, !length_object_bytes; lia). f_equal.
  pose proof (splice_middle (object_bytes 2 (m_Id_ h)) (object_bytes 2 (m_Flags_ h)) post) as Es.
  rewrite !length_object_bytes in Es. apply Es. by rewrite length_object_bytes.
Qed.

(** A packet with any setting of the TC bit is read back. *)
Lemma packet_FromWire tc h q ans auth add p0 :
  DnsHeader.wf h → DnsHeader.Valid h = true → DnsHeader.view false h FQr = 1%Z →
  counts_exact (packet_response h q ans auth add) → question_ok q → Forall rr_ok (ans ++ auth ++ add) →
  let w := packet (with_tc tc h) q ans auth add in
  DnsResponsePacket.FromWire (Some w) (length w) p0 = Done (true, packet_response (with_tc tc h) q ans auth add).
Proof.
  intros Hw Hv Hr (H1 & H2 & H3 & H4) Hq Hrr w.
  assert (Hat : response_at w (length w) (packet_response (with_tc tc h) q ans auth add)).
  { apply packet_at; [by apply with_tc_wf| | | |done|done].
    - by rewrite DnsHeader.Valid_view, with_tc_view, <- DnsHeader.Valid_view.
    - apply DnsHeader.IsResponse_view. by rewrite with_tc_view.
    - split_and!; [etransitivity; [exact (with_tc_view tc h FQdcount ltac:(done))|exact H1]
                  |etransitivity; [exact (with_tc_view tc h FAncount ltac:(done))|exact H2]
                  |etransitivity; [exact (with_tc_view tc h FNscount ltac:(done))|exact H3]
                  |etransitivity; [exact (with_tc_view tc h FArcount ltac:(done))|exact H4]]. }
  by apply FromWire_complete.
Qed.
End packets.

(** ** What is sent *)

Section served.
  Context {H : Target} {O : HashOrder} {RE : RegexEngine} `{!RegexLaws} `{!RegexLiteral}.
  Context {J : Type} `{HJ : Json J} {HJL : JsonLaws J} `{HZ : !JsonZones J} {HZL : JsonZonesLaws J}.
  Context {HB : JsonBuild J} {HL : JsonBuildLaws J} {HI : Inet} {HIL : InetLaws}.
  Context {W : Type} `{HC : Curl W}.
  Context (ttl : Z) (N : J) (m_DohQuery_ : Doh.DnsOverHttps).
  Implicit Types (r : Readings) (data : bytes) (s : Server W) (rs : list rr).

Section query.
  Context (P : DnsParser) (q : DnsQuestion) (HP : parser_ok P).
  Context (Hq : DnsRequestPacket.Questions (Packet P) = [q]).

Abbreviation st := (DnsRequestPacket.EdnsStatus (Packet P)).
Abbreviation edns := (DnsRequestPacket.Edns (Packet P)).

(** The OPT record, for a query that had one. *)
Definition opt_records : list rr := if bool_decide (st = EdnsOk) then [opt_rr 0 edns] else [].

(** What a client of UDP with EDNS0 takes. *)
Definition client_max : Z :=
  match edns with Some e => m_UdpPayloadSize_ e | None => Z.of_nat DEFAULT_DNS_PACKET_SIZE end.

(** The message with the answers [rs], and what it is read back as. *)
Definition message (tc : bool) rs : bytes :=
  packet (with_tc tc (reply_header (Packet P) 0 true rs [] opt_records)) q rs [] opt_records.
Definition response (tc : bool) rs : DnsResponsePacket :=
  packet_response (with_tc tc (reply_header (Packet P) 0 true rs [] opt_records)) q rs [] opt_records.

(** Whether it is longer than the client takes; only asked of clients with EDNS0. *)
Definition truncates rs : bool :=
  bool_decide (st = EdnsOk) && (client_max <? Z.of_nat (length (message false rs)))%Z.

Lemma edns_options d : edns = Some d → Forall option_ok (m_Options_ d).
Proof. destruct HP as ((_ & _ & _ & _ & _ & _ & _ & [He _] & _) & _). intros Ed. by destruct (He d Ed) as (_ & _ & _ & Ho). Qed.

Context (rs : list rr) (Hrs : Forall rr_ok rs) (Hlen : uint16 (Z.of_nat (length rs))).

Lemma reply_header_ok :
  let h := reply_header (Packet P) 0 true rs [] opt_records in
  DnsHeader.wf h ∧ DnsHeader.Valid h = true ∧ DnsHeader.view false h FQr = 1%Z ∧
  counts_exact (packet_response h q rs [] opt_records) ∧ Forall rr_ok (rs ++ [] ++ opt_records).
Proof.
  intros h. assert (Ho : Z.of_nat (length opt_records) = 0%Z ∨ Z.of_nat (length opt_records) = 1%Z).
  { unfold opt_records. destruct (bool_decide _); auto. }
  destruct (response_header_facts (DnsRequestPacket.m_Header_ (Packet P)) 0 true 1 (Z.of_nat (length rs)) 0
    (Z.of_nat (length opt_records))) as (Hw & Hv & _ & Hf & _); [apply HP|done|done|done|done|unfold uint16; lia|].
  split; [done|]. split; [done|]. split; [apply (Hf FQr)|]. split.
  - unfold counts_exact. cbn [packet_response DnsResponsePacket.m_Header_ DnsResponsePacket.m_Questions_
      DnsResponsePacket.m_Answers_ DnsResponsePacket.m_Authority_ DnsResponsePacket.m_Additional_]. rewrite !length_fmap.
    split_and!; [apply (Hf FQdcount)|apply (Hf FAncount)|apply (Hf FNscount)|apply (Hf FArcount)].
  - rewrite app_nil_l. apply Forall_app. split; [done|]. unfold opt_records. destruct (bool_decide _); [|constructor].
    constructor; [by apply opt_rr_ok|constructor].
Qed.

Lemma message_FromWire tc p0 :
  DnsResponsePacket.FromWire (Some (message tc rs)) (length (message tc rs)) p0 = Done (true, response tc rs).
Proof.
  destruct reply_header_ok as (Hw & Hv & Hr & Hc & Hrr). apply packet_FromWire; try done.
  destruct HP as (_ & q' & Hq' & _ & Hok). change (m_ParsedPacket_ P) with (Packet P) in Hq'. rewrite Hq in Hq'. by injection Hq' as ->.
Qed.

(** The finishing steps. *)
Lemma AppendOpt_message :
  (if bool_decide (st = EdnsOk) then AppendOpt (reply (Packet P) 0 true q rs [] []) 0 edns
   else Done (reply (Packet P) 0 true q rs [] [])) = Done (message false rs).
Proof.
  unfold message, opt_records. case_bool_decide; [|done].
  rewrite (AppendOpt_reply (Packet P) q (request_accepted P HP)); [done|done|done|done|done|done|]. exact edns_options.
Qed.

Lemma FinishTcp_message : FinishTcp st edns (reply (Packet P) 0 true q rs [] []) = Done (message false rs).
Proof. exact AppendOpt_message. Qed.

Lemma FinishUdp_message : FinishUdp st edns (reply (Packet P) 0 true q rs [] []) = Done (message (truncates rs) rs).
Proof.
  unfold FinishUdp, truncates. pose proof AppendOpt_message as E. case_bool_decide; cbn [andb].
  - rewrite E, bind_done. cbv zeta. fold client_max. destruct (_ <? _)%Z; [|done].
    apply SetTruncated_memory. apply reply_header_ok.
  - done.
Qed.
End query.

(** Both servers answer a query with the records [rs], from the zones alone, and the packet
    parser reads back what they send. *)
Definition serves r data n s P q rs : Prop :=
  ∃ c, cache_clean c ∧
    (n ≤ DEFAULT_DNS_PACKET_SIZE →
       UdpReceive ttl N false m_DohQuery_ r data n s = (Done (Some (message P q (truncates P q rs) rs)), with_regex c s)) ∧
    (n = length data →
       TcpMessage ttl N false m_DohQuery_ r data s = (Done (TcpFrame (message P q false rs)), with_regex c s)) ∧
    ∀ tc p0, DnsResponsePacket.FromWire (Some (message P q tc rs)) (length (message P q tc rs)) p0 =
               Done (true, response P q tc rs).

Lemma answer_local r data n P w s :
  patterns_ok N → parser_ok P → cache_clean (m_RegexCache_ s) →
  (∃ c c', cache_clean c ∧ CheckLocalMatch ttl N (partial r) P [] c = (Done (0%Z, w), c')) →
  ∃ c, cache_clean c ∧ answer ttl N false m_DohQuery_ r data n P [] s = (Done w, with_regex c s).
Proof.
  intros Hpat HP Hc (c0 & c0' & Hc0 & E0).
  destruct (CheckLocalMatch_steady ttl N (partial r) Hpat P HP []) as (x & Hx & _).
  destruct (Hx c0 Hc0) as (c1 & E1 & _). rewrite E0 in E1. injection E1 as <- <-.
  destruct (Hx _ Hc) as (c & E & Hc'). exists c. split; [done|].
  unfold answer, on_regex, mbind, stateful_mbind. by rewrite E.
Qed.

Lemma message_size P q tc rs : 12 ≤ length (message P q tc rs).
Proof. unfold message, packet. rewrite length_app, DnsHeader.length_memory. unfold HeaderSize. lia. Qed.

Lemma serves_local r data n s P q rs :
  patterns_ok N → asks data n P → DnsRequestPacket.Questions (Packet P) = [q] → cache_clean (m_RegexCache_ s) →
  Forall rr_ok rs → uint16 (Z.of_nat (length rs)) →
  (∃ c c', cache_clean c ∧ CheckLocalMatch ttl N (partial r) P [] c = (Done (0%Z, reply (Packet P) 0 true q rs [] []), c')) →
  serves r data n s P q rs.
Proof.
  intros Hpat Hask Hq Hc Hrs Hlen Hm. destruct (asks_ok _ _ _ Hask) as [HP _].
  pose proof Hask as (Hn & Hcons & _). destruct (parsed_id data n P Hn Hcons) as (Hn12 & _).
  destruct (answer_local r data n P _ s Hpat HP Hc Hm) as (c & Hc' & Ea).
  assert (Hsend : ∀ tc, Send (message P q tc rs) = Some (message P q tc rs)).
  { intros tc. pose proof (message_size P q tc rs). by destruct (message P q tc rs); [simpl in *; lia|]. }
  exists c. split; [done|]. split_and!.
  - intros H512. unfold UdpReceive, DNS_MIN_PACKET_SIZE, HeaderSize. destruct (Nat.eqb_spec n 0); [lia|].
    destruct (Nat.ltb_spec n 12); [lia|]. destruct (Nat.ltb_spec DEFAULT_DNS_PACKET_SIZE n); [lia|].
    erewrite handle_asks; [by rewrite Hsend|exact Hask|exact Ea|by apply FinishUdp_message].
  - intros ->. assert (Eh : handle ttl N false m_DohQuery_ FinishTcp r data (length data) s =
      (Done (Some (message P q false rs)), with_regex c s)).
    { erewrite handle_asks; [by rewrite Hsend|exact Hask|exact Ea|by apply FinishTcp_message]. }
    unfold TcpMessage. by rewrite (stateful_bind_Done _ _ _ _ _ Eh).
  - intros tc p0. by apply message_FromWire.
Qed.

(** C8: from the zone file to the client, for the queries in this scope.  The file's entry for
    the query's zone has records with plain names; the query, without EDNS0 errors and for a
    name of ordinary characters, is for one of the record types other than PTR (and not for
    ANY); unless it is for CNAME, the zone lists no CNAME record at all (with aliases, the
    CNAME branch answers first: [LocalChains.aliases_answered]); and the data listed for it is
    not given as arrays (for PTR records and arrays of texts the file's data is not what is
    answered: [ZoneLimits.zone_file_limits]).  Then what the file lists under the query's
    name and type, or else under the wildcard, is what the client gets: nothing listed, or
    one directive to forward, is left to the cache and the resolvers; listed addresses, each
    of which is one, are sent in the order of the file, the redirect address for {{SELF}} and
    zeros for {{BLOCKED}}; other data is sent as the records it describes.  Both
    servers send the message, with an OPT record if the query had one, without touching the
    cache or the network; over UDP, TC is set when the message is longer than the client's
    EDNS0 size; and the packet parser reads it back. *)
Theorem zone_file_served (r4 r6 : bytes) (p G : J) zs zrs r data n s P q :
  parse_zones p = Done zs → zone_of zs (RootDomain P) = Some (Some zrs) → Forall plain_record zrs →
  NormalizeZones p = Done G → ValidateAndOptimize r4 r6 G = Done N → patterns_ok N →
  asks data n P → DnsRequestPacket.Questions (Packet P) = [q] → encodable (m_Qname_ q) → RootDomain P ≠ [] →
  cache_clean (m_RegexCache_ s) →
  let T := RecordType P in
  let cls := DnsQuestion.Qclass false q in
  In T record_types → T ≠ str "PTR" → T = str "CNAME" ∨ str "CNAME" ∉ r_type <$> zrs →
  Forall ordinary (SubDomain P) → SubDomain P ≠ str "@" →
  let vs := query_data zrs T (SubDomain P) in
  (vs = [] ∨ (∃ v, vs = [v] ∧ equals_text v (str "{{FORWARD}}") = true) → no_local ttl N false r P []) ∧
  (vs ≠ [] → Forall plain_data vs → (Z.of_nat (length vs) ≤ UINT16_MAX)%Z →
     if is_address T
     then ∃ l, mapM (single r4 r6 T) vs = Some l ∧ serves r data n s P q (address_rr cls ttl T <$> l)
     else ∀ l, answers_data ttl cls ((λ d, record T d []) <$> vs) l → serves r data n s P q l).
Proof.
  intros Hp Hz Hrs HG HN Hpat Hask Hq He Hroot Hc T cls HT Hptr Hcn Hs Hat vs. destruct (asks_ok _ _ _ Hask) as [HP _].
  destruct (zone_file_answers r4 r6 ttl p G N zs zrs (partial r) P q [] (m_RegexCache_ s) DnsResponsePacket.clear)
    as [Hno Hyes]; [done..|]. fold T cls vs in Hno, Hyes.
  assert (Hcls : uint16 cls) by (destruct (first_question_ok (Packet P) q [] (request_accepted P HP) Hq) as [(? & ? & ?) _]; by apply NetworkToHost_uint16).
  split.
  - intros Hvs. destruct (Hno Hvs) as [c' E]. by exists (m_RegexCache_ s), c'.
  - intros Hne Hvs Hmax. specialize (Hyes Hne Hvs Hmax). unfold uint16, UINT16_MAX in *. destruct (is_address T) eqn:Ht.
    + destruct Hyes as (l & El & w & c' & E & [-> _]). exists l. split; [done|].
      apply serves_local; [done..| | |by exists (m_RegexCache_ s), c'].
      * eapply (answers_data_ok ttl cls); [done|]. apply (address_answers ttl cls T l Ht).
        apply mapM_Some in El. eapply Forall2_Forall_r; [exact El|]. apply Forall_true. intros x y. apply single_address.
      * unfold uint16. rewrite length_fmap. apply length_mapM in El. lia.
    + intros l Hl. destruct (Hyes l Hl) as (w & c' & E & [-> _]).
      apply serves_local; [done..| | |by exists (m_RegexCache_ s), c']; [by eapply answers_data_ok|].
      unfold uint16. apply Forall2_length in Hl. rewrite length_fmap in Hl. lia.
Qed.
End served.

(** ** An example *)

Section sample.
  #[local] Existing Instance x86_64.
  #[local] Existing Instance key_order.

(** A query for the addresses of a.com, with EDNS0. *)
Definition served_datagram : bytes :=
  [x12; x34; x01; x00; x00; x01; x00; x00; x00; x00; x00; x01]
  ++ [x01; x61; x03; x63; x6f; x6d; x00; x00; x01; x00; x01]
  ++ [x00; x00; x29; x10; x00; x00; x00; x80; x00; x00; x00].

Definition served_parser : DnsParser :=
  Eval vm_compute in match DnsParser.construct (Some served_datagram) 34 with Done P => P | _ => example_parser end.

Definition served_question : DnsQuestion.DnsQuestion :=
  Eval vm_compute in match DnsRequestPacket.Questions (Packet served_parser) with q :: _ => q | [] => DnsQuestion.MakeAQuery [] end.

Lemma zone_file_served_witness :
  let rs := address_rr 1 60 (str "A") <$> [[x7f; x00; x00; x01]; [x0a; x00; x00; x01]] in
  ∃ c, UdpReceive 60 answers_zones false example_client example_readings served_datagram 34 example_server =
    (Done (Some (message served_parser served_question false rs)), with_regex c example_server).
Proof.
  intros rs. assert (E1 : RootDomain served_parser = str "a.com") by (by vm_compute).
  assert (E2 : RecordType served_parser = str "A") by (by vm_compute).
  assert (E3 : SubDomain served_parser = []) by (by vm_compute).
  pose proof (zone_file_served (W:=network) 60 answers_zones example_client (str "127.0.0.1") (str "::1") answers_file answers_grouped answers_parsed
    answers_records example_readings served_datagram 34 example_server served_parser served_question) as Hz.
  cbv zeta in Hz. rewrite E1, E2, E3 in Hz.
  destruct Hz as [_ Hz]; [by vm_compute|by vm_compute|exact answers_records_plain|by vm_compute|by vm_compute
    |exact answers_patterns_ok|split; [simpl; lia|by vm_compute]|by vm_compute| |done|exact empty_cache_clean|by left|done|right; by_decide|done|done|].
  - by_decide.
  - destruct Hz as (l & El & c & _ & Hudp & _); [by vm_compute| |by_decide|].
    + vm_compute. repeat constructor.
    + vm_compute in El. injection El as <-. exists c. rewrite Hudp by (unfold DEFAULT_DNS_PACKET_SIZE; lia).
      do 3 f_equal.
Defined.
End sample.
