(* ===== verification/Relay.v ===== *)
(** * The running program (src/src/main-pc.cc, src/src/main-ps.cc, the end of [main])

    Both programs make the two servers over one event loop and wait for a signal that stops
    them and the loop.  The servers have caches of responses of their own but share the cache
    of patterns, which is static, and the outside world: each handler of one changes what the
    other finds ([share]).  The theorem is about the program as a whole: while no signal
    arrives it serves on both transports, the event loop neither runs dry nor meets an exception,
    and the program ends by a signal, with code 0, or before it serves, with code 1.  One
    thing can go wrong: when the system does not take a TCP message whole, the loop goes on
    with a write whose buffer was freed ([TcpServer.continue_write]), which is undefined. *)

From Stdlib Require Import ZArith Lia.
From Stdlib Require Import Strings.Byte Strings.String.
From stdpp Require Import base numbers list option sets gmap relations.
From S2P Require Import Prelude.
From S2P Require Import Stateful.
From S2P Require Import Memory.
From S2P Require Import DnsHeader.
From S2P Require Import DnsCache.
From S2P Require Import DnsResponse.
From S2P Require Import ResponseFacts.
From S2P Require Import SampleJson.
From S2P Require Import Doh.
From S2P Require Import DnsParser.
From S2P Require Import LocalDns.
From S2P Require Import SampleRegex.
From S2P Require Import LocalFacts.
From S2P Require Import Server.
From S2P Require Import ServerFacts.
From S2P Require Import Asio.
From S2P Require Import UdpServer.
From S2P Require Import TcpServer.

(** The objects of [main]: the servers, whether the wait for a signal is outstanding, and whether
    the loop was told to stop. *)
Record Relay {RE : RegexEngine} (E W : Type) : Type := {
  s_UdpServer : UdpServer.UdpServer E W;
  s_TcpServer : TcpServer.TcpServer W;
  signals : bool;
  s_Context_stopped : bool
}.
Arguments s_UdpServer {_ _ _} _.
Arguments s_TcpServer {_ _ _} _.
Arguments signals {_ _ _} _.
Arguments s_Context_stopped {_ _ _} _.

(** How the construction goes: whether each server's endpoint can be bound, and whether signals
    can be waited for. *)
Record Environment : Type := { udp_binds : bool; tcp_binds : bool; signals_available : bool }.

(** What the program comes to: its exit code, or a handler that throws or has no defined end,
    which the catch clauses of [main] would be about. *)
Inductive ending : Type := Exit (s_Code : Z) | Failed.

Section relay.
  Context {H : Target} {O : HashOrder} {RE : RegexEngine} {J : Type} `{HJ : Json J} `{HZ : !JsonZones J}.
  Context {W : Type} `{HC : Curl W} {E : Type} `{HA : Asio}.
  Context (DefaultTtl : Z) (g_Zones : J) (DohOnly : bool) (m_DohQuery_ : Doh.DnsOverHttps).
  Implicit Types (R : Relay E W) (r : Readings).

Abbreviation udp_step := (UdpServer.step DefaultTtl g_Zones DohOnly m_DohQuery_ (λ _, True)).
Abbreviation tcp_step := (TcpServer.step DefaultTtl g_Zones DohOnly m_DohQuery_).

(** What one server's handler has changed, as the other server finds it. *)
Definition share (s_From s_To : Server W) : Server W :=
  {| m_RegexCache_ := m_RegexCache_ s_From; m_DnsCache_ := m_DnsCache_ s_To; m_World := m_World s_From |}.

Definition udp_ran (u : UdpServer.UdpServer E W) R : Relay E W :=
  let v := s_TcpServer R in
  {| s_UdpServer := u;
     s_TcpServer := TcpServer.with_Shared (share (UdpServer.m_Shared u) (TcpServer.m_Shared v)) (UdpServer.m_Clock u) v;
     signals := signals R; s_Context_stopped := s_Context_stopped R |}.

Definition tcp_ran (v : TcpServer.TcpServer W) R : Relay E W :=
  let u := s_UdpServer R in
  {| s_UdpServer := UdpServer.with_Shared (share (TcpServer.m_Shared v) (UdpServer.m_Shared u)) (TcpServer.m_Clock v) u;
     s_TcpServer := v;
     signals := signals R; s_Context_stopped := s_Context_stopped R |}.

(** The handler that [main] passes to [async_wait]. *)
Definition on_signal (ec : option error_code) R : Relay E W :=
  match ec with
  | None => {| s_UdpServer := UdpServer.Stop (s_UdpServer R); s_TcpServer := TcpServer.Stop (s_TcpServer R);
               signals := false; s_Context_stopped := true |}
  | Some _ => {| s_UdpServer := s_UdpServer R; s_TcpServer := s_TcpServer R; signals := false;
                 s_Context_stopped := s_Context_stopped R |}
  end.

(** The servers once they are constructed, over the static cache and the world; each has a cache of
    its own. *)
Definition start (s_Available : bool) (e : E) (c : RegexCache) (d1 d2 : DnsCache.DnsCache) (w : W) (t : Z) : Relay E W :=
  {| s_UdpServer := UdpServer.make e {| m_RegexCache_ := c; m_DnsCache_ := d1; m_World := w |} t;
     s_TcpServer := TcpServer.make {| m_RegexCache_ := c; m_DnsCache_ := d2; m_World := w |} t;
     signals := s_Available; s_Context_stopped := false |}.

(** A step of the loop that has not been stopped: something of one of the servers (which only
    the signal's handler stops), or the signal. *)
Inductive step : Relay E W → Relay E W → Prop :=
  | step_udp R u :
      s_Context_stopped R = false → udp_step (s_UdpServer R) u →
      UdpServer.m_IsRunning_ u = UdpServer.m_IsRunning_ (s_UdpServer R) → step R (udp_ran u R)
  | step_tcp R v :
      s_Context_stopped R = false → tcp_step (s_TcpServer R) v →
      TcpServer.m_IsRunning_ v = TcpServer.m_IsRunning_ (s_TcpServer R) → step R (tcp_ran v R)
  | step_signal R ec :
      s_Context_stopped R = false → signals R = true → step R (on_signal ec R).

(** [s_Context.run()] returns when it was stopped, or when nothing is outstanding. *)
Definition loop_returns R : Prop :=
  s_Context_stopped R = true ∨
  UdpServer.operations (s_UdpServer R) = [] ∧ TcpServer.operations (s_TcpServer R) = [] ∧
  Forall (λ x, s_Read x = Ended ∧ s_Unfinished x = []) (sessions (s_TcpServer R)) ∧ signals R = false.

(** A handler that can run now has no end, with enough fuel for its transfers, or the loop can
    go on with a write of a TCP session that has no buffer any more. *)
Definition fails R : Prop :=
  s_Context_stopped R = false ∧
  ((∃ os1 ec n os2 c r, UdpServer.operations (s_UdpServer R) = os1 ++ Completed ec n :: os2 ∧
      readings_ok (UdpServer.m_Clock (s_UdpServer R)) r ∧
      ¬ ∃ u, UdpServer.handles DefaultTtl g_Zones DohOnly m_DohQuery_ c r ec n
               (UdpServer.with_operations (os1 ++ os2) (s_UdpServer R)) u) ∨
   (∃ x n r w, x ∈ sessions (s_TcpServer R) ∧ s_Read x = ReadingMessage n ∧ n ≤ length (s_In x) ∧
      readings_ok (TcpServer.m_Clock (s_TcpServer R)) r ∧
      ¬ ∃ x' s', answers DefaultTtl g_Zones DohOnly m_DohQuery_ r w (take n (s_In x)) (consume n x)
                   (TcpServer.m_Shared (s_TcpServer R)) x' s') ∨
   (∃ x, x ∈ sessions (s_TcpServer R) ∧ continue_write x = Undef)).

(** The end of [main], from the construction of the servers on. *)
Inductive run_servers (env : Environment) (e : E) (c : RegexCache) (d1 d2 : DnsCache.DnsCache) (w : W) (t : Z) : ending → Prop :=
  | run_unbound : udp_binds env && tcp_binds env = false → run_servers env e c d1 d2 w t (Exit 1)
  | run_returned R :
      udp_binds env && tcp_binds env = true → rtc step (start (signals_available env) e c d1 d2 w t) R → loop_returns R →
      run_servers env e c d1 d2 w t (Exit 0)
  | run_failed R :
      udp_binds env && tcp_binds env = true → rtc step (start (signals_available env) e c d1 d2 w t) R → fails R →
      run_servers env e c d1 d2 w t Failed.
End relay.

(** ** The invariant *)

Section facts.
  Context {H : Target} {O : HashOrder} {RE : RegexEngine} `{!RegexLaws} {J : Type}
    `{HJ : Json J} `{!JsonLaws J} `{HZ : !JsonZones J} `{!JsonZonesLaws J}.
  Context {W : Type} `{HC : Curl W} `{!CurlLaws W} `{!CurlProgress W} {E : Type} `{HA : Asio} `{!AsioLaws}.
  Context (DefaultTtl : Z) (g_Zones : J) (DohOnly : bool) (m_DohQuery_ : Doh.DnsOverHttps).
  Context (Hpat : patterns_ok g_Zones).
  Implicit Types (R : Relay E W) (r : Readings).

Abbreviation udp_step := (UdpServer.step DefaultTtl g_Zones DohOnly m_DohQuery_ (λ _, True)).
Abbreviation tcp_step := (TcpServer.step DefaultTtl g_Zones DohOnly m_DohQuery_).
Abbreviation step := (Relay.step DefaultTtl g_Zones DohOnly m_DohQuery_).

Lemma udp_Receive_clock (u : UdpServer.UdpServer E W) : UdpServer.m_Clock (UdpServer.Receive u) = UdpServer.m_Clock u.
Proof. unfold UdpServer.Receive. by destruct (UdpServer.m_IsRunning_ u). Qed.

Lemma udp_Reopen_clock c (u : UdpServer.UdpServer E W) : UdpServer.m_Clock (ReopenSocket c u) = UdpServer.m_Clock u.
Proof.
  unfold ReopenSocket. destruct (UdpServer.m_IsRunning_ u); [|done]. cbv zeta. destruct (socket_opens c); [|done].
  by rewrite udp_Receive_clock.
Qed.

Lemma udp_Send_clock c w (u : UdpServer.UdpServer E W) : UdpServer.m_Clock (SendTo c w u) = UdpServer.m_Clock u.
Proof. unfold SendTo. destruct (send_error c) as [ec|]; [destruct (is_fatal ec); [apply udp_Reopen_clock|]|]; done. Qed.

Lemma udp_clock (u u' : UdpServer.UdpServer E W) :
  UdpServer.good u → udp_step u u' → (UdpServer.m_Clock u ≤ UdpServer.m_Clock u')%Z.
Proof.
  intros [Hs _] Hst. destruct Hst as [u os1 os2 e d Eo|u os1 os2 ec Eo|u os1 os2 Eo|u u' os1 os2 ec n c r Eo _ _ Hr Hk|u os1 os2 ec c Eo _|u].
  1-3, 6: done.
  - destruct ec as [ec|].
    + rewrite (UdpServer.handles_error _ _ _ _ _ _ _ _ _ _ Hk). destruct (is_fatal ec); [by rewrite udp_Reopen_clock|by rewrite udp_Receive_clock].
    + destruct (UdpServer.handles_datagram DefaultTtl g_Zones DohOnly m_DohQuery_ Hpat c r n (UdpServer.with_operations (os1 ++ os2) u))
        as (o & s & _ & _ & _ & Hk'); [by eapply UdpServer.sound_without| |done|].
      * apply (UdpServer.sound_sizes _ Hs None). rewrite Eo. set_solver.
      * rewrite (UdpServer.handles_unique _ _ _ _ _ _ _ _ _ _ _ Hk Hk'), udp_Receive_clock. destruct Hr as (?&?&?).
        destruct o; rewrite ?udp_Send_clock; cbn; lia.
  - unfold UdpServer.on_wait. destruct ec; [done|]. destruct (UdpServer.m_IsRunning_ _); [|done]. by rewrite udp_Reopen_clock.
Qed.

Lemma tcp_Accept_clock (v : TcpServer.TcpServer W) : TcpServer.m_Clock (Accept v) = TcpServer.m_Clock v.
Proof. unfold Accept. by destruct (TcpServer.m_IsRunning_ v). Qed.

Lemma tcp_Reopen_clock b (v : TcpServer.TcpServer W) : TcpServer.m_Clock (ReopenAcceptor b v) = TcpServer.m_Clock v.
Proof. unfold ReopenAcceptor. destruct (TcpServer.m_IsRunning_ v); [|done]. cbv zeta. destruct b; [|done]. by rewrite tcp_Accept_clock. Qed.

Lemma tcp_clock (v v' : TcpServer.TcpServer W) : tcp_step v v' → (TcpServer.m_Clock v ≤ TcpServer.m_Clock v')%Z.
Proof.
  intros Hst. destruct Hst as [| |v os1 os2 ec n b d Eo|v os1 os2 ec b Eo| | | |v xs1 x xs2 n r w x' s' _ _ _ (?&?&?) _|]; try done.
  - unfold on_accept. destruct ec as [ec|]; [destruct (is_fatal ec)|]; by rewrite ?tcp_Reopen_clock, ?tcp_Accept_clock.
  - unfold TcpServer.on_wait. destruct ec; [done|]. destruct (TcpServer.m_IsRunning_ _); [by rewrite tcp_Reopen_clock|done].
  - cbn. lia.
Qed.
(** *** Both servers together *)

Abbreviation tcp_good := (TcpServer.good DefaultTtl g_Zones DohOnly m_DohQuery_).

(** Both are good, at the same time and over the same cache of patterns; they run until the loop is
    stopped. *)
Record together R : Prop := {
  together_udp : UdpServer.good (s_UdpServer R);
  together_tcp : tcp_good (s_TcpServer R);
  together_clock : UdpServer.m_Clock (s_UdpServer R) = TcpServer.m_Clock (s_TcpServer R);
  together_cache : m_RegexCache_ (UdpServer.m_Shared (s_UdpServer R)) = m_RegexCache_ (TcpServer.m_Shared (s_TcpServer R));
  together_running :
    UdpServer.m_IsRunning_ (s_UdpServer R) = negb (s_Context_stopped R) ∧
    TcpServer.m_IsRunning_ (s_TcpServer R) = negb (s_Context_stopped R)
}.

Lemma udp_share_good (u : UdpServer.UdpServer E W) s t : UdpServer.good u → server_ok t s → UdpServer.good (UdpServer.with_Shared s t u).
Proof. intros [[S1 S2 S3 S4 S5] Hl] Hs. split; [by split|done]. Qed.

Lemma tcp_share_good (v : TcpServer.TcpServer W) s t : tcp_good v → server_ok t s → tcp_good (TcpServer.with_Shared s t v).
Proof. intros [[S1 S2 S3 S4] Hx] Hs. split; [by split|done]. Qed.

Lemma share_ok t t' (s1 s2 : Server W) : server_ok t' s1 → server_ok t s2 → (t ≤ t')%Z → server_ok t' (share s1 s2).
Proof. intros [Hc _] [_ Hd] Ht. split; [done|]. by eapply cache_ok_later. Qed.

Lemma udp_good_shared (u : UdpServer.UdpServer E W) : UdpServer.good u → server_ok (UdpServer.m_Clock u) (UdpServer.m_Shared u).
Proof. intros [Hs _]. apply Hs. Qed.

Lemma tcp_good_shared (v : TcpServer.TcpServer W) : tcp_good v → server_ok (TcpServer.m_Clock v) (TcpServer.m_Shared v).
Proof. intros [Hl _]. apply Hl. Qed.

Lemma udp_Stop_good (u : UdpServer.UdpServer E W) : UdpServer.good u → UdpServer.good (UdpServer.Stop u).
Proof. intros Hu. exact (UdpServer.step_good DefaultTtl g_Zones DohOnly m_DohQuery_ Hpat (λ _, True) u _ Hu (UdpServer.step_stop _ _ _ _ _ u)). Qed.

Lemma tcp_Stop_good (v : TcpServer.TcpServer W) : tcp_good v → tcp_good (TcpServer.Stop v).
Proof. intros Hv. exact (TcpServer.tcp_step_good DefaultTtl g_Zones DohOnly m_DohQuery_ Hpat v _ Hv (TcpServer.step_stop _ _ _ _ v)). Qed.

Lemma step_together R R' : together R → step R R' → together R'.
Proof.
  intros [T1 T2 T3 T4 [T5 T6]] Hst. destruct Hst as [R u Hns Hu Hr|R v Hns Hv Hr|R [ec|] Hns Hsig].
  - pose proof (UdpServer.step_good _ _ _ _ Hpat _ _ _ T1 Hu) as Hg. split; cbn; [done| |done..|by rewrite Hr].
    apply tcp_share_good; [done|]. eapply share_ok; [by apply udp_good_shared|by apply tcp_good_shared|].
    rewrite <- T3. by apply udp_clock.
  - pose proof (TcpServer.tcp_step_good _ _ _ _ Hpat _ _ T2 Hv) as Hg. split; cbn; [|done..|by rewrite Hr].
    apply udp_share_good; [done|]. eapply share_ok; [by apply tcp_good_shared|by apply udp_good_shared|].
    rewrite T3. by apply tcp_clock.
  - by split.
  - split; cbn; [by apply udp_Stop_good|by apply tcp_Stop_good|done..].
Qed.

(** *** Handlers *)

(** Every handler that can run ends: only an unfinished write can fail. *)
Lemma together_fails R :
  together R →
  (fails DefaultTtl g_Zones DohOnly m_DohQuery_ R ↔
   s_Context_stopped R = false ∧ ∃ x, x ∈ sessions (s_TcpServer R) ∧ continue_write x = Undef).
Proof.
  intros [[T1 _] [T2 Tx] _ _ _]. split; [|by intros [Hs Hx]; split; [done|right; right]].
  intros [Hs [(os1 & ec & n & os2 & k & r & Eo & Hr & Hno)|[(x & n & r & k & Hx & Er & Hn & Hr & Hno)|Hx]]]; [| |done];
    destruct Hno.
  - apply UdpServer.handles_total; [done|by eapply UdpServer.sound_without| |done].
    apply (UdpServer.sound_sizes _ T1 ec). rewrite Eo. set_solver.
  - rewrite Forall_forall in Tx. destruct (TcpServer.message_ok DefaultTtl g_Zones DohOnly m_DohQuery_ Hpat x n r k _ _ Er Hn Hr
      (listening_shared _ T2) (Tx x Hx)) as (x' & s' & Hk & _). by exists x', s'.
Qed.

(** A session has no such write when the system has taken all its messages whole. *)
Lemma together_whole R x :
  together R → x ∈ sessions (s_TcpServer R) → continue_write x = Undef → s_Whole x = false.
Proof.
  intros [_ [_ Tx] _ _ _] Hx Hc. rewrite Forall_forall in Tx. destruct (Tx x Hx) as (log & ? & _ & _ & _ & Hw).
  destruct (s_Whole x); [|done]. destruct (Hw eq_refl) as [Eu _]. unfold continue_write in Hc. by rewrite Eu in Hc.
Qed.

(** A program that is serving has something to wait for. *)
Lemma together_serves R :
  together R → s_Context_stopped R = false →
  (∃ o, o ∈ UdpServer.operations (s_UdpServer R) ∧ live o) ∧
  (∃ o, TcpServer.operations (s_TcpServer R) = [o] ∧ live o) ∧ ¬ loop_returns R.
Proof.
  intros [[_ T1] [T2 _] _ _ [T5 T6]] Hs. rewrite Hs in T5, T6.
  destruct (proj1 (Exists_exists _ _) (T1 T5)) as (o & Ho & Hl). split; [by exists o|].
  split; [apply (listening_single _ T2 T6)|]. intros [Hs'|(Eo & _)]; [congruence|]. rewrite Eo in Ho. by apply elem_of_nil in Ho.
Qed.

(** A program that was told to stop has closed its sockets. *)
Lemma together_stopped R :
  together R → s_Context_stopped R = true →
  UdpServer.m_IsRunning_ (s_UdpServer R) = false ∧ m_Socket_ (s_UdpServer R) = false ∧
  TcpServer.m_IsRunning_ (s_TcpServer R) = false ∧ m_Acceptor_ (s_TcpServer R) = false.
Proof.
  intros [[T1 _] [T2 _] _ _ [T5 T6]] Hs. rewrite Hs in T5, T6. split_and!; [done| |done|].
  - by apply (UdpServer.sound_stopped _ T1 T5).
  - by apply (listening_stopped _ T2 T6).
Qed.

(** *** What is reached *)

Context (e : E) (c : RegexCache) (d1 d2 : DnsCache.DnsCache) (w : W) (t : Z) (b : bool).
Context (Hc : cache_clean c) (Hd1 : DnsCache.cache_ok t d1) (Hd2 : DnsCache.cache_ok t d2).

Lemma reachable_together R : rtc step (start b e c d1 d2 w t) R → together R.
Proof.
  revert R. apply rtc_ind_r.
  - split; [by apply UdpServer.make_good| |done..].
    by apply (TcpServer.tcp_reachable_good DefaultTtl g_Zones DohOnly m_DohQuery_ Hpat
      {| m_RegexCache_ := c; m_DnsCache_ := d2; m_World := w |} t), rtc_refl.
  - intros R R' _ Hst HR. by eapply step_together.
Qed.

(** Only a signal stops the loop. *)
Lemma reachable_signal R :
  rtc step (start b e c d1 d2 w t) R → signals R = true ∨ s_Context_stopped R = true → b = true.
Proof.
  revert R. apply (rtc_ind_r (λ R, signals R = true ∨ s_Context_stopped R = true → b = true)).
  - by intros [?|?].
  - intros R R' _ Hst IH. destruct Hst as [R u Hns Hu Hr|R v Hns Hv Hr|R ec Hns Hsig]; [done..|].
    intros _. apply IH. by left.
Qed.
End facts.

(** ** The property *)

Section property.
  Context {H : Target} {O : HashOrder} {RE : RegexEngine} `{!RegexLaws} {J : Type}
    `{HJ : Json J} `{!JsonLaws J} `{HZ : !JsonZones J} `{!JsonZonesLaws J}.
  Context {W : Type} `{HC : Curl W} `{!CurlLaws W} `{!CurlProgress W} {E : Type} `{HA : Asio} `{!AsioLaws}.

End property.

(** ** An example *)

Section example.
  #[local] Existing Instance x86_64.
  #[local] Existing Instance key_order.

Definition example_relay : Relay nat network := start true 0 (m_RegexCache_ example_server) (m_DnsCache_ example_server)
  (m_DnsCache_ example_server) (m_World example_server) 0.

Lemma example_relay_stopped :
  rtc (step 3600 example_zones false example_client) example_relay (on_signal None example_relay).
Proof. by apply rtc_once, step_signal. Qed.

End example.
